(* ===== verification/_CoqProject ===== *)
-Q . S2P
Prelude.v
Bytes.v
Parcel.v
EventHeap.v
EventLoop.v
EventSpec.v
EventLoopSpec.v
EventTheorems.v
RilConst.v
RilTypes.v
RilDispatch.v
RilResponse.v
RilCore.v
RilWire.v
RilDispatchSpec.v
RilResponseSpec.v
RilRequests.v
RilTimers.v
RilUnsol.v
RilCommand.v
RilSocket.v
RilArgs.v
RilDaemon.v
RilLoop.v
CStr.v
RilMain.v
RilDebug.v
RilTurn.v
RilStart.v
RilExample.v
RilTheorems.v
RilMainTheorems.v
Prog.v
StProg.v
MmcSys.v
MmcCmds.v
MmcPartition.v
MmcExtcsd.v
MmcRpmb.v
MmcMain.v
MmcSpec.v
MmcPrint.v
MmcLimit.v
MmcCard.v
MmcIo.v
MmcFrames.v
MmcSafety.v
MmcEnhArea.v
MmcRpmbSpec.v
MmcMainSpec.v
MmcExample.v
MmcTheorems.v
LightHal.v
LightSpec.v
LightTheorems.v
CDecimal.v
InitD10f.v
InitText.v
InitSpec.v
InitTheorems.v
FsConfig.v
FsTheorems.v
ViewMem.v
ViewMemTheorems.v
