(* ===== verification/Prelude.v ===== *)
(** * The JSR D10F device tree, verified

    This development models the programs of the device tree of the JSR D10F
    phone (Android, Qualcomm msm8226) and proves what they guarantee.  The
    files under src/ that carry logic are the radio interface daemon's
    library libril (src/libril), the eMMC tool (src/mmc_utils), the lights
    HAL (src/liblight), the init extension (src/init), the table of file
    permissions (src/include/private) and a memory viewer (src/viewmem).

    ** What is modelled, and where

    libril/ril_event.cpp and ril_event.h, the event loop:
    - EventHeap.v: [struct ril_event] objects in a heap, the intrusive
      doubly linked lists ([init_list], [addToList], [removeFromList]);
    - EventLoop.v: the static variables as the record [estate], every
      function of the file, [timeradd]/[timersub]/[timercmp], and one
      iteration and the loop of [ril_event_loop]; the clock and the results
      of [select] are arguments;
    - EventSpec.v, EventLoopSpec.v: the invariant [ev_inv] (timer list
      sorted by due time, pending list, watch table, [fd_set] and [nfds]
      agree), preserved by every operation, with the functional effect of
      each; EventTheorems.v: the properties.

    libril/ril.cpp, the daemon's side of the RIL interface:
    - RilConst.v: the constants of ril.h by name (their values are a
      parameter, [RilH]), the command tables of ril_commands.h and
      ril_unsol_commands.h, and the [*ToString] functions;
    - RilTypes.v: the structures exchanged with the vendor RIL;
    - Parcel.v: the interface to [android::Parcel] and the UTF conversions;
    - RilDispatch.v: [dispatchX], from a Parcel to the vendor's arguments;
    - RilResponse.v: [responseX], from the vendor's data to a Parcel;
    - RilCore.v: the static variables as the record [ril_state]; the list
      of pending requests, [RIL_onRequestComplete], [sendResponse],
      [RIL_onUnsolicitedResponse], [processRadioState], timed callbacks and
      the wake lock, [processCommandBuffer], the command socket.  Calls go
      between the parts as in the code: the event loop's operations act on
      the member [r_ev] through the class [EventStore];
    - RilMain.v: the remaining static variables, as [main_state] around
      [ril_state]; the name of the socket, [RIL_startEventLoop] and the
      event thread ([eventLoop], [processWakeupCallback]), the debug port
      ([debugCallback]), [RIL_register]; and [callback_call], the functions
      that events carry, with which [ril_event_loop_body] is a turn of the
      daemon.

    mmc_utils, the command line tool for the eMMC:
    - Prog.v: programs as trees of calls to the outside, their executions
      against an outside that answers anything [resp_ok] allows ([exec]),
      against a given one ([run]), and the predicate transformer [wp] that
      the proofs use; CStr.v: C strings and [strtol];
    - MmcSys.v: mmc.h, the system calls and the C operations that can be
      undefined; MmcCmds.v, MmcPartition.v, MmcExtcsd.v, MmcRpmb.v: the
      commands of mmc_cmds.c, by subject; MmcMain.v: mmc.c, the table of
      commands, the selection by abbreviated words, [main];
    - MmcSpec.v, MmcPrint.v, MmcIo.v, MmcFrames.v: rules for the blocks the
      commands are made of; MmcLimit.v: the size limits over the integers;
      MmcSafety.v: [command_spec], one statement for every command;
      MmcRpmbSpec.v: the protocol of the replay protected memory block;
      MmcCard.v, MmcEnhArea.v: a card as a step relation, and [enh_area set]
      as a refinement of an update of its registers; MmcMainSpec.v: the
      command line; MmcExample.v: the outside the instances run on;
      MmcTheorems.v: the properties.

    liblight/lights.c, the lights HAL:
    - StProg.v: programs with static variables, a state monad over Prog.v,
      and the rules of its predicate transformer [wps];
    - LightHal.v: every function of the file; LightSpec.v: the HAL as a
      machine of two states, and what it writes; LightTheorems.v: the
      properties.

    init/init_d10f.c, the init extension:
    - CDecimal.v: [%d] and [strtol]; InitD10f.v: every function of the file;
      InitText.v: editing strings in an array, against a reference;
      InitSpec.v: the monitor of what is open, read, set and written, and
      the plan of the storages; InitTheorems.v: the properties.

    include/private/android_filesystem_config.h:
    - FsConfig.v: users, rules, [fs_config]; FsTheorems.v: the rule that
      applies, privileges, dead rules.

    viewmem/viewmem.c, a tool that prints physical memory:
    - ViewMem.v: [main]; ViewMemTheorems.v: what it prints, and when it
      leaves its mapping.

    ** What the theorems show

    - EventTheorems.v: timers fire in due order, exactly the expired ones;
      ready descriptors are served once, in slot order; the watch table,
      the [fd_set] and [nfds] stay consistent; what a full table and a timer
      due exactly now do.
    - RilTheorems.v: a request is answered once, with its token, and only to
      the client that issued it, with the exceptions the code has (a race
      with a close, a rejected argument block, a broken socket); packets are
      framed; requests and responses agree on the wire format (round trips);
      dispatch functions never act on uninitialised data, give the vendor
      what ril.h says, and are undefined only for arrays that do not fit;
      response functions
      read nothing out of bounds and only append; unsolicited responses, the
      radio state and the wake lock.
    - The lemmas behind them: RilWire.v (wire format), RilDispatchSpec.v
      (uninitialised locals), RilArgs.v (types of the arguments, totality),
      RilResponseSpec.v (memory safety),
      RilRequests.v (the list of requests as a list, sending, completing),
      RilTimers.v (timers and the wake lock on the event invariant),
      RilUnsol.v, RilCommand.v, RilSocket.v.  RilExample.v is the concrete
      daemon the instances run on.
    - RilMainTheorems.v, the daemon as a whole: started in whichever order
      its two threads run, it serves every sequence of turns and of calls
      from the vendor's threads, each with an outside of its own, without
      undefined behaviour or a failed assertion, with at most one client;
      the next client always gets through; what the debug port reads and serves, and how its option 1
      breaks the connection; what [RIL_register] refuses.  Behind it:
      RilDaemon.v, a program logic ([keeps]) whose invariant [live] every
      command of the daemon keeps; RilLoop.v, the connection as a state
      machine over the watch table ([conn]); RilDebug.v, the messages of the
      debug port; RilTurn.v, a turn of the loop ([turn_ok]); RilStart.v, the
      start ([start_good]).

    - MmcTheorems.v: whatever the card and the system answer, the tool
      programs the one-time register only on request, stops at the first
      failed ioctl (with exit status 0 only after that programming), and is
      undefined only for the arguments and registers
      listed; the limit check is exact; [enh_area set] refines an abstract
      update of a card; reads end; RPMB data that is output is authentic and
      blocks that are written are the ones given, with their MAC; a command
      is selected only when it is the only one meant, and every command can
      be selected.
    - LightTheorems.v: any sequence of calls of the lights HAL refines the
      machine that says which light is shown; brightness stays in range.
    - InitTheorems.v: forced properties come only from files that root alone
      controls; the function ends, with all closed; the storages chosen, the
      list and the fstab are those planned; the in-place replacement is the
      reference, undefined exactly when the text does not fit (and without
      a new end for a text that became shorter).
    - FsTheorems.v: the first rule for a path decides; eight files get
      privileges, one of them unannounced; which rules never apply.
    - ViewMemTheorems.v: the words asked for are printed exactly when they
      lie in the pages that are mapped; otherwise the loop reads beyond
      them.

    ** Conventions

    A C function is a command [cmd S A], from a state to an [outcome]: its
    result and the new state, [UB] for undefined behaviour (null or dangling
    pointers, accesses out of bounds, an [alloca] larger than the stack), or
    [Block] when it waits for something the environment does not supply.
    Integers are [Z]; where C wraps around the wrap is written ([u32],
    [i32] in Bytes.v; a [timeval] has 32 bits of seconds, so that the sum of
    two is [EventHeap.us32] of the sum of what they denote).  What comes from outside is either an argument (the
    clock, [select]) or an oracle of [ril_env] or [main_env] that sees the
    trace of effects so far; the vendor's calls into libril are lists of
    [vendor_call]s, chosen by an oracle that sees the whole state.
    Assumptions on the outside are the hypotheses of the theorems, collected
    for single functions of ril.cpp in the record [RilTheorems.setting], and
    for the running daemon in [RilTurn.outside], which each step of it
    satisfies (what the vendor passes is what its interface says, the arrays
    of the records fit on the stack, a client's stream ends, messages to the
    debug port are not "radio off").

    The eMMC tool only makes calls and computes, so its functions are
    programs of Prog.v: [printf] and the system calls are nodes of a tree,
    [exit] ends it, and undefined behaviour is the leaf [Undef].  [long] has
    32 bits (BoardConfig.mk: TARGET_ARCH arm), so that sizes in KiB wrap
    around at 4 TiB; a shift of an [int] keeps the low 32 bits and is
    undefined for a count outside 0 to 31.  What an ioctl, [read], [write]
    or [open] may return is [mmc_syscalls]; the HMAC functions of the
    3rdparty directory are the parameter [Hmac] with the laws [HmacLaws];
    the content of an uninitialised frame is the parameter [junk].

    The lights HAL and init keep static variables, which [stprog] threads
    through programs of Prog.v; what their calls can answer is
    [light_calls] and [init_calls].

    Fuel: the loop of init over a directory has one unit per entry, and
    [init_returns] says that more fuel than entries is enough;
    [do_io_read] and [do_io_write] run on fuel, and
    [do_io_read_terminates] says how much is enough; the other loops of the
    tool are structural.  In libril, list traversals run with fuel one more than the number of objects
    in the heap, which the lemmas show to be enough for every well-formed
    list; [RIL_onUnsolicitedResponse] nests at most twice, because the
    notifications issued by [processRadioState] do not reach it again; a
    write needs at most [k + 1] turns per byte of a packet of at most 8 KiB
    when at most [k] attempts in a row are interrupted; the record loop runs
    as long as the stream has records, and a turn of the daemon ends when a
    client sends fewer records than the fuel ([RilLoop.client_ok]); the
    pending list of a turn is never longer than the timers and the watch
    table together ([RilTurn.enough]).

    ** What is not modelled

    The mutexes, and the interleaving of threads inside one function: a
    function is one step, except where a theorem shows an interleaving
    explicitly (a completion overlapping a close, the two threads of the
    start, the vendor's threads between the turns of the event loop).  In
    ril.cpp no allocation fails: [malloc], [calloc] and the strings made by
    [strndup16to8] give an unused address ([o_alloc]) or a copy.  Logging; Java,
    build and configuration files, vendored code.  In the eMMC tool: the
    HMAC itself, what [printf] makes of its format, and failures of the
    allocations the code does not check.  In the lights HAL and init: what
    the log macros make of their formats (their quotes are single ones
    here), and [strerror]. *)

From Stdlib Require Export ZArith Lia.
From stdpp Require Export base tactics list gmap numbers sorting.

#[export] Set Default Goal Selector "!".
#[export] Set Warnings "-clear-no-such-hyp".

Open Scope Z_scope.

(** ** Outcomes of C code

    [Ok a]: the code returned [a].  [UB]: it reached undefined behaviour
    (NULL or dangling pointer, out-of-bounds access, oversized [alloca]).
    [Block]: it has not returned, because the environment has supplied no
    further result for the call it waits for, or because the fuel given to
    the model of a loop is exhausted. *)
Inductive outcome (A : Type) : Type :=
| Ok (a : A)
| UB
| Block.
Arguments Ok {A} a.
Arguments UB {A}.
Arguments Block {A}.

#[export] Instance outcome_ret : MRet outcome := fun A a => Ok a.
#[export] Instance outcome_bind : MBind outcome := fun A B f m =>
  match m with Ok a => f a | UB => UB | Block => Block end.

(** Commands over a state [S]: state passing with an outcome. *)
Definition cmd (S A : Type) : Type := S -> outcome (A * S).

#[export] Instance cmd_ret S : MRet (cmd S) := fun A a s => Ok (a, s).
#[export] Instance cmd_bind S : MBind (cmd S) := fun A B f m s =>
  match m s with Ok (a, s') => f a s' | UB => UB | Block => Block end.

Definition get_st {S} : cmd S S := fun s => Ok (s, s).
Definition modify {S} (f : S -> S) : cmd S unit := fun s => Ok (tt, f s).
Definition ub {S A} : cmd S A := fun _ => UB.
Definition block {S A} : cmd S A := fun _ => Block.

Lemma cmd_bind_Ok {S A B} (m : cmd S A) (f : A -> cmd S B) s a s' :
  m s = Ok (a, s') -> (m ≫= f) s = f a s'.
Proof. intros H. unfold mbind, cmd_bind. by rewrite H. Qed.

Lemma cmd_bind_inv {S A B} (m : cmd S A) (f : A -> cmd S B) s r :
  (m ≫= f) s = Ok r -> exists a s', m s = Ok (a, s') /\ f a s' = Ok r.
Proof.
  unfold mbind, cmd_bind. destruct (m s) as [[a s']| |]; [eauto|done|done].
Qed.

Lemma bind_get {S B} (k : S -> cmd S B) s : (get_st ≫= k) s = k s s.
Proof. done. Qed.
Lemma bind_modify {S B} (f : S -> S) (k : unit -> cmd S B) s : (modify f ≫= k) s = k tt (f s).
Proof. done. Qed.
Lemma bind_ret {S A B} (a : A) (k : A -> cmd S B) s : (mret a ≫= k) s = k a s.
Proof. done. Qed.

(** The binds that need no case analysis. *)
Create Rewrite HintDb cmd.
#[export] Hint Rewrite @bind_get @bind_modify @bind_ret : cmd.

Ltac step_cmd := autorewrite with cmd.

(** Run the first command of a bind whose result is known. *)
Ltac run_cmd H := rewrite (cmd_bind_Ok _ _ _ _ _ H).

(** ** Duplicate-free lists split around a position *)

Lemma NoDup_insert {A} (x a : A) xs ys :
  NoDup (a :: xs ++ ys) -> x ∉ a :: xs ++ ys -> NoDup (a :: xs ++ x :: ys).
Proof.
  intros HND Hx. assert (Hp : a :: xs ++ x :: ys ≡ₚ x :: a :: xs ++ ys).
  { rewrite <- (Permutation_middle xs ys x). by rewrite Permutation_swap. }
  rewrite Hp. by apply NoDup_cons.
Qed.

Lemma NoDup_insert_inv {A} (x a : A) xs ys :
  NoDup (a :: xs ++ x :: ys) -> NoDup (a :: xs ++ ys) /\ x ∉ a :: xs ++ ys.
Proof.
  assert (Hp : a :: xs ++ x :: ys ≡ₚ x :: a :: xs ++ ys).
  { rewrite <- (Permutation_middle xs ys x). by rewrite Permutation_swap. }
  rewrite Hp. intros [? ?]%NoDup_cons. done.
Qed.

Lemma NoDup_app_prefix {A} (a : A) xs ys : NoDup (a :: xs ++ ys) -> NoDup (a :: xs).
Proof. intros H. by apply (NoDup_app (a :: xs) ys) in H as (? & _). Qed.

Lemma NoDup_app_disj {A} (a x : A) xs ys : NoDup (a :: xs ++ ys) -> x ∈ a :: xs -> x ∉ ys.
Proof. intros H. apply (NoDup_app (a :: xs) ys) in H as (_ & H & _). apply H. Qed.

(** ** Splitting a list at the first element that fails a test *)

Fixpoint span {A} (f : A -> bool) (l : list A) : list A * list A :=
  match l with
  | [] => ([], [])
  | x :: l' => if f x then let '(a, b) := span f l' in (x :: a, b) else ([], l)
  end.

Lemma span_app {A} (f : A -> bool) l : fst (span f l) ++ snd (span f l) = l.
Proof. induction l as [|x l IH]; simpl; [done|]. destruct (f x); [|done]. destruct (span f l). simpl in *. congruence. Qed.

Lemma filter_all {A} (f : A -> bool) l : (forall x, x ∈ l -> f x = true) -> List.filter f l = l.
Proof.
  induction l as [|x l IH]; intros H; simpl; [done|].
  rewrite (H x) by set_solver. f_equal. apply IH. set_solver.
Qed.

Lemma filter_none {A} (f : A -> bool) l : (forall x, x ∈ l -> f x = false) -> List.filter f l = [].
Proof. induction l as [|x l IH]; intros H; simpl; [done|]. rewrite (H x) by set_solver. apply IH. set_solver. Qed.

(** On a list sorted for [R], a test that is downward closed for [R]
    selects a prefix. *)
Lemma span_sorted {A} (R : A -> A -> Prop) (f : A -> bool) l :
  StronglySorted R l -> (forall a b, R a b -> f b = true -> f a = true) ->
  span f l = (List.filter f l, List.filter (fun x => negb (f x)) l).
Proof.
  intros HS Hf. induction HS as [|x l HS IH HF]; simpl; [done|].
  destruct (f x) eqn:E; simpl.
  - by rewrite IH.
  - assert (Hl : forall y, y ∈ l -> f y = false).
    { intros y Hy. rewrite Forall_forall in HF. destruct (f y) eqn:Ey; [|done].
      rewrite (Hf x y) in E; [done|by apply HF|done]. }
    rewrite (filter_none f l Hl), (filter_all (fun x => negb (f x))); [done|].
    intros y Hy. by rewrite Hl.
Qed.

Lemma StronglySorted_Forall {A} (R : A -> A -> Prop) (P : A -> Prop) l :
  StronglySorted R l -> Forall P l -> StronglySorted (fun a b => R a b /\ P a /\ P b) l.
Proof.
  induction 1 as [|x l HS IH HF]; intros HP; constructor; apply Forall_cons in HP as [? HP].
  - by apply IH.
  - rewrite Forall_forall in *. intros y Hy. auto.
Qed.

Lemma NoDup_length_size {A} (m : gmap positive A) (l : list positive) :
  NoDup l -> (forall x, x ∈ l -> is_Some (m !! x)) -> (length l <= size m)%nat.
Proof.
  intros HND Hl. rewrite <- size_dom, <- (size_list_to_set l (C := gset positive)) by done.
  apply subseteq_size. intros x Hx%elem_of_list_to_set. by apply elem_of_dom, Hl.
Qed.

Lemma omap_ext_in {A B} (f g : A -> option B) (l : list A) :
  (forall x, x ∈ l -> f x = g x) -> omap f l = omap g l.
Proof.
  intros H. induction l as [|x l IH]; csimpl; [done|]. rewrite (H x) by set_solver.
  rewrite IH by set_solver. done.
Qed.
