(* ===== verification/Bytes.v ===== *)
(** * Machine integers and byte sequences

    Fixed-width integers as [Z] with their wrap-around, little-endian
    encodings (the Parcel's) and the big-endian one of the socket header
    ([htonl]), the 4-byte padding of the Parcel, and overwriting a range of
    a buffer. *)

From S2P Require Import Prelude.

(** ** Widths *)

Definition u8 (x : Z) : Z := x mod 2 ^ 8.
Definition u16 (x : Z) : Z := x mod 2 ^ 16.
Definition u32 (x : Z) : Z := x mod 2 ^ 32.

(** Two's complement: the [int32_t] with the low 32 bits of [x]. *)
Definition i32 (x : Z) : Z := (x + 2 ^ 31) mod 2 ^ 32 - 2 ^ 31.
Definition i64 (x : Z) : Z := (x + 2 ^ 63) mod 2 ^ 64 - 2 ^ 63.

Definition i32_ok (x : Z) : Prop := - 2 ^ 31 <= x < 2 ^ 31.
Definition byte_ok (x : Z) : Prop := 0 <= x < 2 ^ 8.
Definition u16_ok (x : Z) : Prop := 0 <= x < 2 ^ 16.

Lemma i32_id x : i32_ok x -> i32 x = x.
Proof. unfold i32_ok, i32. intros. rewrite Z.mod_small; lia. Qed.

Lemma i32_range x : i32_ok (i32 x).
Proof. unfold i32_ok, i32. pose proof (Z.mod_pos_bound (x + 2 ^ 31) (2 ^ 32)). lia. Qed.

Lemma i32_u32 x : i32 (u32 x) = i32 x.
Proof. unfold i32, u32. by rewrite Zplus_mod_idemp_l. Qed.

Lemma i32_add_l x y : i32 (i32 x + y) = i32 (x + y).
Proof.
  unfold i32. f_equal. rewrite Z.add_shuffle0, Z.sub_add, Zplus_mod_idemp_l. f_equal. lia.
Qed.

Lemma u32_id x : 0 <= x < 2 ^ 32 -> u32 x = x.
Proof. apply Z.mod_small. Qed.

(** ** Encodings *)

Fixpoint le_bytes (k : nat) (x : Z) : list Z :=
  match k with
  | O => []
  | S k => x mod 2 ^ 8 :: le_bytes k (x / 2 ^ 8)
  end.

Fixpoint le_val (bs : list Z) : Z :=
  match bs with
  | [] => 0
  | b :: bs => b + 2 ^ 8 * le_val bs
  end.

Definition le32 (x : Z) : list Z := le_bytes 4 x.
Definition le64 (x : Z) : list Z := le_bytes 8 x.
Definition le16 (x : Z) : list Z := le_bytes 2 x.
Definition get32 (bs : list Z) : Z := i32 (le_val bs).

(** [htonl]: most significant byte first. *)
Definition be32 (x : Z) : list Z := rev (le_bytes 4 x).

Lemma length_le_bytes k x : length (le_bytes k x) = k.
Proof. revert x; induction k as [|k IH]; intros x; simpl; [done|]. by rewrite IH. Qed.

Lemma le_val_bytes k x : le_val (le_bytes k x) = x mod 2 ^ (8 * Z.of_nat k).
Proof.
  revert x; induction k as [|k IH]; intros x; cbn [le_bytes le_val].
  { by rewrite Z.mod_1_r. }
  rewrite IH. replace (8 * Z.of_nat (S k)) with (8 + 8 * Z.of_nat k) by lia.
  rewrite Z.pow_add_r by lia. by rewrite Z.rem_mul_r by lia.
Qed.

Lemma le_val_le_bytes bs : Forall byte_ok bs -> le_bytes (length bs) (le_val bs) = bs.
Proof.
  unfold byte_ok. induction 1 as [|b bs Hb _ IH]; [done|]. cbn [length le_bytes le_val].
  rewrite (Z.mul_comm (2 ^ 8)), Z.mod_add, Z.mod_small by lia.
  rewrite Z.div_add, Z.div_small by lia. by rewrite Z.add_0_l, IH.
Qed.

Lemma length_le32 x : length (le32 x) = 4%nat.
Proof. apply length_le_bytes. Qed.

Lemma length_be32 x : length (be32 x) = 4%nat.
Proof. unfold be32. by rewrite length_rev, length_le_bytes. Qed.

Lemma get32_le32 x : get32 (le32 x) = i32 x.
Proof. unfold get32, le32. rewrite le_val_bytes. apply i32_u32. Qed.

Lemma le_bytes_ok k x : Forall byte_ok (le_bytes k x).
Proof.
  revert x; induction k as [|k IH]; intros x; constructor; [|apply IH].
  unfold byte_ok. apply Z.mod_pos_bound. lia.
Qed.

Lemma u16_le16 x : u16_ok x -> le_val (le16 x) = x.
Proof. unfold u16_ok, le16. intros. rewrite le_val_bytes. simpl. apply Z.mod_small. lia. Qed.

(** A UTF-16 string as bytes, and back. *)
Definition bytes16 (s : list Z) : list Z := concat (le16 <$> s).

Fixpoint units16 (n : nat) (bs : list Z) : list Z :=
  match n, bs with
  | S n, a :: b :: bs => le_val [a; b] :: units16 n bs
  | _, _ => []
  end.

Lemma length_bytes16 s : length (bytes16 s) = (2 * length s)%nat.
Proof. unfold bytes16. induction s as [|x s IH]; [done|]. cbn [fmap list_fmap concat]. rewrite length_app. unfold le16 at 1. rewrite length_le_bytes, IH. simpl. lia. Qed.

Lemma units16_bytes16 s rest : Forall u16_ok s -> units16 (length s) (bytes16 s ++ rest) = s.
Proof.
  unfold bytes16. induction 1 as [|x s Hx _ IH]; [done|].
  cbn [fmap list_fmap concat length]. rewrite <- app_assoc. unfold le16 at 1. cbn [le_bytes app units16].
  by rewrite IH, (u16_le16 x Hx : le_val [_; _] = x).
Qed.

(** ** Padding and overwriting *)

(** [PAD_SIZE]: the next multiple of 4. *)
Definition pad4 (n : nat) : nat := (4 * ((n + 3) / 4))%nat.

Definition padded (bs : list Z) : list Z := bs ++ replicate (pad4 (length bs) - length bs) 0.

Lemma pad4_ge n : (n <= pad4 n < n + 4)%nat.
Proof. unfold pad4. pose proof (Nat.div_mod_eq (n + 3) 4). pose proof (Nat.mod_upper_bound (n + 3) 4). lia. Qed.

Lemma pad4_mult n : pad4 (4 * n) = (4 * n)%nat.
Proof.
  unfold pad4. replace (4 * n + 3)%nat with (3 + n * 4)%nat by lia.
  rewrite Nat.div_add by lia. simpl (3 / 4)%nat. lia.
Qed.

Lemma length_padded bs : length (padded bs) = pad4 (length bs).
Proof. unfold padded. rewrite length_app, length_replicate. pose proof (pad4_ge (length bs)). lia. Qed.

(** Write [bs] over [data] at offset [pos], extending it if needed. *)
Definition patch (pos : nat) (bs data : list Z) : list Z :=
  take pos data ++ bs ++ drop (pos + length bs) data.

Lemma patch_end bs data : patch (length data) bs data = data ++ bs.
Proof. unfold patch. rewrite firstn_all, drop_ge by lia. by rewrite app_nil_r. Qed.

Lemma patch_same a b c b' : length b = length b' -> patch (length a) b' (a ++ b ++ c) = a ++ b' ++ c.
Proof.
  intros Hl. unfold patch. rewrite take_app_length, <- Hl, drop_app_add, drop_app_length. done.
Qed.

(** Disjoint bits add up. *)
Lemma testbit_small b n k : 0 <= b < 2 ^ n -> n <= k -> Z.testbit b k = false.
Proof.
  intros Hb Hk. destruct (decide (n < 0)) as [Hn|Hn]; [rewrite Z.pow_neg_r in Hb; lia|].
  rewrite <- (Z.mod_small b (2 ^ n) Hb). apply Z.mod_pow2_bits_high. lia.
Qed.

Lemma lor_mul_pow2 a b n : 0 <= n -> 0 <= b < 2 ^ n -> Z.lor (a * 2 ^ n) b = a * 2 ^ n + b.
Proof.
  intros Hn Hb. rewrite <- Z.add_lor_land.
  replace (Z.land (a * 2 ^ n) b) with 0; [lia|]. symmetry. apply Z.bits_inj'. intros k Hk.
  rewrite Z.land_spec, Z.bits_0. destruct (Z.lt_ge_cases k n).
  - by rewrite Z.mul_pow2_bits_low by lia.
  - by rewrite (testbit_small b n k), andb_false_r by lia.
Qed.
