(* ===== verification/Parcel.v ===== *)
(** * The binder Parcel and the UTF conversions, as interfaces

    [android::Parcel] (libbinder) and [strndup16to8]/[strdup8to16]
    (libcutils) are not part of this repository: they are type classes
    here, with the documented behaviour libril relies on as the laws
    [ParcelLaws] and [JStringLaws].  The second half derives the facts the
    dispatch and response code is verified with; the last part is a
    concrete parcel (bytes and a position) used by the witnesses. *)

From S2P Require Import Prelude Bytes.

(** [data()] and [dataPosition()] are the observers.  A read returns
    [None] when it fails, and then stores nothing; [readInplace] returns
    the bytes behind the pointer, or [None] for NULL. *)
Class Parcel (P : Type) := {
  parcel_new : P;
  parcel_data : P -> list Z;
  dataPosition : P -> nat;
  setData : list Z -> P -> P;
  setDataPosition : nat -> P -> P;
  readInt32 : P -> option Z * P;
  parcel_read : Z -> P -> option (list Z) * P;
  readInplace : Z -> P -> option (list Z) * P;
  readString16Inplace : P -> option (list Z) * P;
  writeInt32 : Z -> P -> P;
  writeInt64 : Z -> P -> P;
  parcel_write : list Z -> P -> P;
  writeString16 : option (list Z) -> P -> P;
  appendFrom : P -> nat -> nat -> P -> P }.

Definition dataSize {P} `{Parcel P} (p : P) : Z := Z.of_nat (length (parcel_data p)).

Definition remaining {P} `{Parcel P} (p : P) : list Z := drop (dataPosition p) (parcel_data p).

(** What one write call puts in the parcel. *)
Inductive witem :=
| WI32 (x : Z)
| WI64 (x : Z)
| WBytes (bs : list Z)
| WStr16 (s : option (list Z)).

Definition enc (w : witem) : list Z :=
  match w with
  | WI32 x => le32 x
  | WI64 x => le64 x
  | WBytes bs => padded bs
  | WStr16 None => le32 (-1)
  | WStr16 (Some s) => le32 (Z.of_nat (length s)) ++ padded (bytes16 s ++ [0; 0])
  end.

Definition enc_all (ws : list witem) : list Z := concat (enc <$> ws).

(** [p'] is [p] with [bs] written at the position. *)
Definition wrote {P} `{Parcel P} (p : P) (bs : list Z) (p' : P) : Prop :=
  parcel_data p' = patch (dataPosition p) bs (parcel_data p) /\
  dataPosition p' = (dataPosition p + length bs)%nat.

(** [p'] is [p] after [n] bytes were consumed. *)
Definition consumed {P} `{Parcel P} (p : P) (n : nat) (p' : P) : Prop :=
  parcel_data p' = parcel_data p /\ dataPosition p' = (dataPosition p + n)%nat.

(** Lengths for which the reads are documented; larger ones (negative
    [int]s converted to [size_t]) are left unspecified. *)
Definition len_ok (n : Z) : Prop := 0 <= n < 2 ^ 31.

Class ParcelLaws (P : Type) `{Parcel P} : Prop := {
  pl_new : parcel_data parcel_new = [] /\ dataPosition parcel_new = 0%nat;
  pl_setData bs p : parcel_data (setData bs p) = bs /\ dataPosition (setData bs p) = 0%nat;
  pl_setPos n p : (n <= length (parcel_data p))%nat ->
    parcel_data (setDataPosition n p) = parcel_data p /\ dataPosition (setDataPosition n p) = n;
  pl_readInt32 p :
    if decide (4 <= length (remaining p))%nat
    then fst (readInt32 p) = Some (get32 (take 4 (remaining p))) /\ consumed p 4 (snd (readInt32 p))
    else fst (readInt32 p) = None /\ consumed p 0 (snd (readInt32 p));
  pl_read n p : len_ok n ->
    if decide (pad4 (Z.to_nat n) <= length (remaining p))%nat
    then fst (parcel_read n p) = Some (take (Z.to_nat n) (remaining p)) /\
         consumed p (pad4 (Z.to_nat n)) (snd (parcel_read n p))
    else fst (parcel_read n p) = None /\ consumed p 0 (snd (parcel_read n p));
  pl_readInplace n p : len_ok n ->
    if decide (pad4 (Z.to_nat n) <= length (remaining p))%nat
    then fst (readInplace n p) = Some (take (Z.to_nat n) (remaining p)) /\
         consumed p (pad4 (Z.to_nat n)) (snd (readInplace n p))
    else fst (readInplace n p) = None /\ consumed p 0 (snd (readInplace n p));
  (* a length-prefixed, NUL-terminated, padded string; a negative length is null *)
  pl_readStr_starved p : (length (remaining p) < 4)%nat ->
    fst (readString16Inplace p) = None /\ consumed p 0 (snd (readString16Inplace p));
  pl_readStr_null p : (4 <= length (remaining p))%nat -> get32 (take 4 (remaining p)) < 0 ->
    fst (readString16Inplace p) = None /\ consumed p 4 (snd (readString16Inplace p));
  pl_readStr p (n : nat) : (4 <= length (remaining p))%nat -> Z.of_nat n < 2 ^ 29 ->
    get32 (take 4 (remaining p)) = Z.of_nat n -> (4 + pad4 (2 * n + 2) <= length (remaining p))%nat ->
    fst (readString16Inplace p) = Some (units16 n (drop 4 (remaining p))) /\
    consumed p (4 + pad4 (2 * n + 2)) (snd (readString16Inplace p));
  pl_readStr_mono p : exists n, consumed p n (snd (readString16Inplace p)) /\ (n <= length (remaining p))%nat;
  pl_writeInt32 x p : wrote p (le32 x) (writeInt32 x p);
  pl_writeInt64 x p : wrote p (le64 x) (writeInt64 x p);
  pl_write bs p : wrote p (padded bs) (parcel_write bs p);
  pl_writeString16 s p : wrote p (enc (WStr16 s)) (writeString16 s p);
  pl_appendFrom q off len p : (off + len <= length (parcel_data q))%nat ->
    wrote p (take len (drop off (parcel_data q))) (appendFrom q off len p) }.

(** UTF-16 to UTF-8 and back; both functions return NULL for NULL. *)
Class JString := {
  utf16to8 : list Z -> list Z;
  utf8to16 : list Z -> list Z }.

Definition strndup16to8 `{JString} (s : option (list Z)) : option (list Z) := utf16to8 <$> s.
Definition strdup8to16 `{JString} (s : option (list Z)) : option (list Z) := utf8to16 <$> s.

(** The strings [wf] can hold survive the conversion to UTF-16 and back. *)
Class JStringLaws `{JString} (wf : list Z -> Prop) : Prop := {
  js_roundtrip s : wf s -> utf16to8 (utf8to16 s) = s;
  js_empty : utf16to8 [] = [];
  js_units s : wf s -> Forall u16_ok (utf8to16 s) }.

(** ** Parcel calls as commands *)

Section Calls.
Context {P : Type} {HPar : Parcel P} {HJS : JString}.

Abbreviation pcmd := (cmd P).

(** [status = p.readInt32(&t)]: the status (true for NO_ERROR) and the
    value of [t] afterwards. *)
Definition rdI32 (t : Z) : pcmd (bool * Z) := fun p =>
  let '(r, p') := readInt32 p in Ok (match r with Some x => (true, x) | None => (false, t) end, p').

(** [p.readInt32()]: 0 when the read fails. *)
Definition rdI32v : pcmd Z := fun p =>
  let '(r, p') := readInt32 p in Ok (default 0 r, p').

(** [status = p.read(&ut, sizeof(ut))] for a [uint8_t]. *)
Definition rdU8 (t : Z) : pcmd (bool * Z) := fun p =>
  let '(r, p') := parcel_read 1 p in
  Ok (match r with Some bs => (true, le_val bs) | None => (false, t) end, p').

(** [status = p.read(&x, sizeof(x))] for an [int32_t]. *)
Definition rdRaw32 (t : Z) : pcmd (bool * Z) := fun p =>
  let '(r, p') := parcel_read 4 p in
  Ok (match r with Some bs => (true, get32 bs) | None => (false, t) end, p').

Definition rdInplace (len : Z) : pcmd (option (list Z)) := fun p => Ok (readInplace len p).

(** [readString16]: a [String16] object, empty where the parcel holds null. *)
Definition rdString16 : pcmd (list Z) := fun p =>
  let '(r, p') := readString16Inplace p in Ok (default [] r, p').

Definition wrI32 (x : Z) : pcmd unit := modify (writeInt32 x).
Definition wrI64 (x : Z) : pcmd unit := modify (writeInt64 x).
Definition wrBytes (bs : list Z) : pcmd unit := modify (parcel_write bs).
Definition wrString16 (s : option (list Z)) : pcmd unit := modify (writeString16 s).

(** [strdupReadString] and [writeStringToParcel] of ril.cpp; a [char *] is
    [None] for NULL, or the bytes before its terminating NUL. *)
Definition strdupReadString : pcmd (option (list Z)) := fun p =>
  let '(s16, p') := readString16Inplace p in Ok (strndup16to8 s16, p').

Definition writeStringToParcel (s : option (list Z)) : pcmd unit :=
  wrString16 (strdup8to16 s).

End Calls.

(** ** Facts about reading *)

Section Facts.
Context {P : Type} {HPar : Parcel P} {HLaws : ParcelLaws P} {HJS : JString}.

(** The parcel holds [data], of which [bs] is still unread. *)
Definition holds (p : P) (data bs : list Z) : Prop :=
  parcel_data p = data /\ remaining p = bs.

(** Fewer than four bytes are left: every read of the dispatch code fails
    from here on, whatever is tried. *)
Definition starved (p : P) : Prop := (length (remaining p) < 4)%nat.

Lemma consumed_remaining p n p' : consumed p n p' -> remaining p' = drop n (remaining p).
Proof. intros [Hd Hp]. unfold remaining. by rewrite Hd, Hp, drop_drop. Qed.

Lemma consumed_holds p n p' data bs :
  consumed p n p' -> holds p data bs -> holds p' data (drop n bs).
Proof.
  intros Hc [Hd Hr]. split; [by destruct Hc as [-> _]|]. by rewrite (consumed_remaining _ _ _ Hc), Hr.
Qed.

Lemma consumed_starved p n p' : consumed p n p' -> starved p -> starved p'.
Proof. intros Hc. unfold starved. rewrite (consumed_remaining _ _ _ Hc), length_drop. lia. Qed.

Lemma readInt32_ok p data x rest :
  holds p data (le32 x ++ rest) -> exists p', readInt32 p = (Some (i32 x), p') /\ holds p' data rest.
Proof.
  intros Hh. pose proof Hh as [_ Hr]. pose proof (pl_readInt32 p) as Hl. rewrite Hr in Hl.
  rewrite decide_True in Hl by (rewrite length_app, length_le32; lia). destruct Hl as [H1 H2].
  rewrite (eq_refl : take 4 (le32 x ++ rest) = le32 x), get32_le32 in H1.
  exists (snd (readInt32 p)). split; [by rewrite <- H1, <- surjective_pairing|].
  apply (consumed_holds _ _ _ _ _ H2) in Hh. done.
Qed.

Lemma rdI32_ok t p data x rest :
  holds p data (le32 x ++ rest) -> exists p', rdI32 t p = Ok ((true, i32 x), p') /\ holds p' data rest.
Proof. intros (p' & E & Hh)%readInt32_ok. exists p'. unfold rdI32. by rewrite E. Qed.

Lemma rdI32_cases p :
  (exists x p', forall t, rdI32 t p = Ok ((true, x), p')) \/
  (exists p', (forall t, rdI32 t p = Ok ((false, t), p')) /\ starved p').
Proof.
  pose proof (pl_readInt32 p) as Hl. unfold rdI32. destruct (readInt32 p) as [r p']. simpl in Hl.
  case_decide; destruct Hl as [-> Hc]; [left; eauto|right].
  exists p'. split; [done|]. eapply consumed_starved; [done|]. unfold starved. lia.
Qed.

Lemma rdI32_starved t p : starved p -> exists p', rdI32 t p = Ok ((false, t), p') /\ starved p'.
Proof.
  intros Hs. pose proof (pl_readInt32 p) as Hl. unfold rdI32. destruct (readInt32 p) as [r p']. simpl in Hl.
  unfold starved in Hs. rewrite decide_False in Hl by lia. destruct Hl as [-> Hc]. exists p'. split; [done|].
  by eapply consumed_starved.
Qed.

Lemma read_one_ok p data b rest :
  holds p data (padded [b] ++ rest) -> exists p', parcel_read 1 p = (Some [b], p') /\ holds p' data rest.
Proof.
  intros Hh. pose proof Hh as [_ Hr]. pose proof (pl_read 1 p ltac:(unfold len_ok; lia)) as Hl. rewrite Hr in Hl.
  change (pad4 (Z.to_nat 1)) with 4%nat in Hl.
  rewrite decide_True in Hl by (rewrite length_app, length_padded; cbn; lia). destruct Hl as [H1 H2].
  exists (snd (parcel_read 1 p)). split; [by rewrite (surjective_pairing (parcel_read 1 p)), H1|].
  by apply (consumed_holds _ _ _ _ _ H2) in Hh.
Qed.

Lemma rdU8_ok t p data b rest :
  holds p data (padded [b] ++ rest) -> exists p', rdU8 t p = Ok ((true, b), p') /\ holds p' data rest.
Proof.
  intros (p' & E & Hh)%read_one_ok. exists p'. unfold rdU8. rewrite E. split; [|done].
  cbn [le_val]. by rewrite Z.mul_0_r, Z.add_0_r.
Qed.

Lemma rdU8_cases p :
  (exists x p', forall t, rdU8 t p = Ok ((true, x), p')) \/
  (exists p', (forall t, rdU8 t p = Ok ((false, t), p')) /\ starved p').
Proof.
  pose proof (pl_read 1 p ltac:(unfold len_ok; lia)) as Hl. unfold rdU8.
  destruct (parcel_read 1 p) as [r p']. change (pad4 (Z.to_nat 1)) with 4%nat in Hl. simpl in Hl.
  case_decide; destruct Hl as [-> Hc]; [left; eauto|right].
  exists p'. split; [done|]. eapply consumed_starved; [done|]. unfold starved. simpl in *. lia.
Qed.

Lemma rdU8_starved t p : starved p -> exists p', rdU8 t p = Ok ((false, t), p') /\ starved p'.
Proof.
  intros Hs. pose proof (pl_read 1 p ltac:(unfold len_ok; lia)) as Hl. unfold rdU8.
  destruct (parcel_read 1 p) as [r p']. change (pad4 (Z.to_nat 1)) with 4%nat in Hl. simpl in Hl.
  unfold starved in Hs. rewrite decide_False in Hl by (simpl; lia). destruct Hl as [-> Hc]. exists p'.
  split; [done|]. by eapply consumed_starved.
Qed.

Lemma strdupReadString_starved p : starved p -> exists p', strdupReadString p = Ok (None, p') /\ starved p'.
Proof.
  intros Hs. destruct (pl_readStr_starved p Hs) as [H1 H2]. unfold strdupReadString.
  destruct (readString16Inplace p) as [r p']. cbn [fst snd] in *. subst r. exists p'. split; [done|].
  by eapply consumed_starved.
Qed.

Lemma strdupReadString_total p : exists s p', strdupReadString p = Ok (s, p').
Proof. unfold strdupReadString. destruct (readString16Inplace p). eauto. Qed.

Lemma rdInplace_ok p data bs rest :
  len_ok (Z.of_nat (length bs)) -> holds p data (padded bs ++ rest) ->
  exists p', rdInplace (Z.of_nat (length bs)) p = Ok (Some bs, p') /\ holds p' data rest.
Proof.
  intros Hl Hh. pose proof Hh as [_ Hr]. pose proof (pl_readInplace _ p Hl) as Hp. rewrite Hr in Hp.
  rewrite Nat2Z.id in Hp.
  rewrite decide_True in Hp by (rewrite length_app, length_padded; lia). destruct Hp as [H1 H2].
  exists (snd (readInplace (Z.of_nat (length bs)) p)). split.
  - unfold rdInplace. rewrite (surjective_pairing (readInplace _ p)), H1. unfold padded.
    by rewrite <- app_assoc, take_app_length.
  - apply (consumed_holds _ _ _ _ _ H2) in Hh. by rewrite drop_app_length' in Hh by (by rewrite length_padded).
Qed.

(** A written UTF-16 string is read back. *)
Definition units_ok (u : option (list Z)) : Prop :=
  forall x, u = Some x -> Forall u16_ok x /\ Z.of_nat (length x) < 2 ^ 29.

Lemma readString16_ok p data (u : option (list Z)) rest :
  units_ok u -> holds p data (enc (WStr16 u) ++ rest) ->
  exists p', readString16Inplace p = (u, p') /\ holds p' data rest.
Proof.
  intros Hu Hh. pose proof Hh as [_ Hr]. destruct u as [u|].
  - destruct (Hu u eq_refl) as [Hok Hlen]. cbn [enc] in *. rewrite <- app_assoc in Hr.
    assert (H4 : take 4 (remaining p) = le32 (Z.of_nat (length u))) by (by rewrite Hr).
    assert (HL : length (bytes16 u ++ [0; 0]) = (2 * length u + 2)%nat).
    { rewrite length_app, length_bytes16. simpl. lia. }
    destruct (pl_readStr p (length u)) as [H1 H2].
    + rewrite Hr, length_app, length_le32. lia.
    + done.
    + rewrite H4, get32_le32, i32_id; [done|]. unfold i32_ok. lia.
    + rewrite Hr, !length_app, length_le32, length_padded, HL. lia.
    + destruct (readString16Inplace p) as [r p']. cbn [fst snd] in *. subst r. exists p'. split.
      * rewrite Hr. change (drop 4 (le32 ?x ++ ?l)) with (drop 0 l). rewrite drop_0. unfold padded. rewrite <- !app_assoc.
        by rewrite units16_bytes16.
      * eapply consumed_holds in H2; [|done]. rewrite drop_app_length' in H2; [done|].
        by rewrite length_app, length_le32, length_padded, HL.
  - simpl in Hr. destruct (pl_readStr_null p) as [H1 H2].
    + rewrite Hr. simpl. lia.
    + rewrite Hr. vm_compute. done.
    + destruct (readString16Inplace p) as [r p']. cbn [fst snd] in *. subst r. exists p'. split; [done|].
      exact (consumed_holds _ _ _ _ _ H2 Hh).
Qed.

(** Strings that survive the conversion and fit a parcel. *)
Definition str_ok (wf : list Z -> Prop) (s : option (list Z)) : Prop :=
  forall x, s = Some x -> wf x /\ Z.of_nat (length (utf8to16 x)) < 2 ^ 29.

Lemma str_units_ok {wf} {HJL : JStringLaws wf} s : str_ok wf s -> units_ok (strdup8to16 s).
Proof.
  intros Hs u Hu. destruct s as [x|]; [|done]. injection Hu as <-. destruct (Hs x eq_refl) as [Hw Hl].
  split; [by apply js_units|done].
Qed.

Lemma strdup_roundtrip {wf} {HJL : JStringLaws wf} s : str_ok wf s -> strndup16to8 (strdup8to16 s) = s.
Proof.
  intros Hs. destruct s as [x|]; [|done]. unfold strndup16to8. simpl. f_equal.
  by apply js_roundtrip, (Hs x).
Qed.

Lemma strdupReadString_ok {wf} {HJL : JStringLaws wf} p data (s : option (list Z)) rest :
  str_ok wf s -> holds p data (enc (WStr16 (strdup8to16 s)) ++ rest) ->
  exists p', strdupReadString p = Ok (s, p') /\ holds p' data rest.
Proof.
  intros Hs Hh. destruct (readString16_ok p data _ rest (str_units_ok s Hs) Hh) as (p' & E & H').
  exists p'. unfold strdupReadString. rewrite E. by rewrite (strdup_roundtrip s Hs).
Qed.

End Facts.

(** ** Facts about writing *)

Section Writing.
Context {P : Type} {HPar : Parcel P} {HLaws : ParcelLaws P} {HJS : JString}.

(** The position is at the end, where every response is written. *)
Definition at_end (p : P) : Prop := dataPosition p = length (parcel_data p).

(** [m] returns [r] and appends exactly [bs]. *)
Definition appends {A} (m : cmd P A) (r : A) (bs : list Z) : Prop :=
  forall p, at_end p -> exists p', m p = Ok (r, p') /\ at_end p' /\ parcel_data p' = parcel_data p ++ bs.

(** [m] runs without undefined behaviour and only appends. *)
Definition grows {A} (m : cmd P A) (Q : A -> Prop) : Prop :=
  forall p, at_end p -> exists r p', m p = Ok (r, p') /\ Q r /\ at_end p' /\ parcel_data p `prefix_of` parcel_data p'.

Lemma wrote_end p bs p' : wrote p bs p' -> at_end p -> at_end p' /\ parcel_data p' = parcel_data p ++ bs.
Proof.
  unfold at_end. intros [Hd Hp] He. rewrite He, patch_end in Hd. rewrite Hp, Hd, length_app. by rewrite He.
Qed.

Lemma appends_modify f bs : (forall p, wrote p bs (f p)) -> appends (modify f) tt bs.
Proof.
  intros Hf p Hp. exists (f p). split; [done|]. by apply wrote_end.
Qed.

Lemma appends_wrI32 x : appends (wrI32 x) tt (enc (WI32 x)).
Proof. apply appends_modify. intros p. apply pl_writeInt32. Qed.

Lemma appends_wrI64 x : appends (wrI64 x) tt (enc (WI64 x)).
Proof. apply appends_modify. intros p. apply pl_writeInt64. Qed.

Lemma appends_wrBytes bs : appends (wrBytes bs) tt (enc (WBytes bs)).
Proof. apply appends_modify. intros p. apply pl_write. Qed.

Lemma appends_writeString s : appends (writeStringToParcel s) tt (enc (WStr16 (strdup8to16 s))).
Proof. apply appends_modify. intros p. apply pl_writeString16. Qed.

Lemma appends_ret {A} (a : A) : appends (mret a) a [].
Proof. intros p Hp. exists p. by rewrite app_nil_r. Qed.

Lemma appends_bind {A B} (m : cmd P A) (f : A -> cmd P B) a b bs1 bs2 :
  appends m a bs1 -> appends (f a) b bs2 -> appends (m ≫= f) b (bs1 ++ bs2).
Proof.
  intros Hm Hf p Hp. destruct (Hm p Hp) as (p1 & E1 & P1 & D1). destruct (Hf p1 P1) as (p2 & E2 & P2 & D2).
  exists p2. rewrite (cmd_bind_Ok _ _ _ _ _ E1). by rewrite D2, D1, <- app_assoc.
Qed.

(** The usual shape: a write followed by the rest. *)
Lemma appends_seq {B} (m : cmd P unit) (k : cmd P B) b w ws :
  appends m tt (enc w) -> appends k b (enc_all ws) -> appends (m;; k) b (enc_all (w :: ws)).
Proof. intros Hm Hk. by apply (appends_bind m (fun _ => k) tt b). Qed.

Lemma appends_done {A} (a : A) : appends (mret a) a (enc_all []).
Proof. apply appends_ret. Qed.

Lemma appends_grows {A} (m : cmd P A) r bs (Q : A -> Prop) : appends m r bs -> Q r -> grows m Q.
Proof.
  intros Hm HQ p Hp. destruct (Hm p Hp) as (p' & E & Pe & D). exists r, p'. rewrite D.
  split_and!; [done..|]. by apply prefix_app_r.
Qed.

Lemma grows_ret {A} (a : A) (Q : A -> Prop) : Q a -> grows (mret a) Q.
Proof. intros HQ p Hp. exists a, p. done. Qed.

Lemma grows_bind {A B} (m : cmd P A) (f : A -> cmd P B) (Q : A -> Prop) (R : B -> Prop) :
  grows m Q -> (forall a, Q a -> grows (f a) R) -> grows (m ≫= f) R.
Proof.
  intros Hm Hf p Hp. destruct (Hm p Hp) as (a & p1 & E1 & Q1 & P1 & D1).
  destruct (Hf a Q1 p1 P1) as (b & p2 & E2 & Q2 & P2 & D2).
  exists b, p2. rewrite (cmd_bind_Ok _ _ _ _ _ E1). split_and!; [done..|]. by etrans.
Qed.

Lemma grows_seq {B} (m : cmd P unit) (k : cmd P B) (R : B -> Prop) :
  grows m (fun _ => True) -> grows k R -> grows (m;; k) R.
Proof. intros Hm Hk. by eapply grows_bind. Qed.

Lemma grows_wrI32 x : grows (wrI32 x) (fun _ => True).
Proof. by eapply appends_grows; [apply appends_wrI32|]. Qed.
Lemma grows_wrI64 x : grows (wrI64 x) (fun _ => True).
Proof. by eapply appends_grows; [apply appends_wrI64|]. Qed.
Lemma grows_wrBytes bs : grows (wrBytes bs) (fun _ => True).
Proof. by eapply appends_grows; [apply appends_wrBytes|]. Qed.
Lemma grows_writeString s : grows (writeStringToParcel s) (fun _ => True).
Proof. by eapply appends_grows; [apply appends_writeString|]. Qed.

End Writing.

(** ** Reading back what was written *)

Section Reading.
Context {P : Type} {HPar : Parcel P} {HLaws : ParcelLaws P} {HJS : JString}.

(** [m] consumes exactly [bs] and returns [r]. *)
Definition reads {A} (m : cmd P A) (r : A) (bs : list Z) : Prop :=
  forall p data rest, holds p data (bs ++ rest) -> exists p', m p = Ok (r, p') /\ holds p' data rest.

Lemma reads_bind {A B} (m : cmd P A) (f : A -> cmd P B) a b bs1 bs2 :
  reads m a bs1 -> reads (f a) b bs2 -> reads (m ≫= f) b (bs1 ++ bs2).
Proof.
  intros Hm Hf p data rest Hh. rewrite <- app_assoc in Hh.
  destruct (Hm p data _ Hh) as (p1 & E1 & H1). destruct (Hf p1 data _ H1) as (p2 & E2 & H2).
  exists p2. by rewrite (cmd_bind_Ok _ _ _ _ _ E1).
Qed.

Lemma reads_cons {A B} (m : cmd P A) (f : A -> cmd P B) a b w ws :
  reads m a (enc w) -> reads (f a) b (enc_all ws) -> reads (m ≫= f) b (enc_all (w :: ws)).
Proof. apply reads_bind. Qed.

Lemma reads_app {A B} (m : cmd P A) (f : A -> cmd P B) a b ws1 ws2 :
  reads m a (enc_all ws1) -> reads (f a) b (enc_all ws2) -> reads (m ≫= f) b (enc_all (ws1 ++ ws2)).
Proof. unfold enc_all. rewrite fmap_app, concat_app. apply reads_bind. Qed.

Lemma reads_ret {A} (a : A) : reads (mret a) a (enc_all []).
Proof. intros p data rest Hh. exists p. done. Qed.

Lemma reads_rdI32 t x : i32_ok x -> reads (rdI32 t) (true, x) (enc (WI32 x)).
Proof. intros Hx p data rest Hh. destruct (rdI32_ok t _ _ _ _ Hh) as (p' & E & H). rewrite i32_id in E by done. eauto. Qed.

Lemma reads_rdU8 t b : reads (rdU8 t) (true, b) (enc (WBytes [b])).
Proof. intros p data rest Hh. by apply rdU8_ok. Qed.

Lemma reads_rdInplace bs : len_ok (Z.of_nat (length bs)) -> reads (rdInplace (Z.of_nat (length bs))) (Some bs) (enc (WBytes bs)).
Proof. intros Hl p data rest Hh. by apply rdInplace_ok. Qed.

Lemma reads_string {wf} {HJL : JStringLaws wf} s :
  str_ok wf s -> reads strdupReadString s (enc (WStr16 (strdup8to16 s))).
Proof. intros Hs p data rest Hh. by eapply strdupReadString_ok. Qed.

(** What one command appended, another reads back from there. *)
Lemma write_read {A B} (m : cmd P A) (m' : cmd P B) a b bs :
  appends m a bs -> reads m' b bs -> forall p, at_end p ->
  exists p1 p2, m p = Ok (a, p1) /\ m' (setDataPosition (dataPosition p) p1) = Ok (b, p2) /\
    parcel_data p1 = parcel_data p ++ bs /\ remaining p2 = [].
Proof.
  intros Hw Hr p Hp. destruct (Hw p Hp) as (p1 & E1 & P1 & D1).
  destruct (pl_setPos (dataPosition p) p1) as [HD HPos].
  { rewrite D1, length_app. unfold at_end in Hp. lia. }
  destruct (Hr (setDataPosition (dataPosition p) p1) (parcel_data p1) []) as (p2 & E2 & _ & H2).
  - split; [done|]. unfold remaining. rewrite HD, HPos, D1, Hp, drop_app_length, app_nil_r. done.
  - exists p1, p2. done.
Qed.

End Reading.

Create HintDb parcel.
#[export] Hint Resolve appends_wrI32 appends_wrI64 appends_wrBytes appends_writeString : parcel.
#[export] Hint Resolve reads_rdI32 reads_rdU8 reads_string : parcel.
#[export] Hint Resolve grows_wrI32 grows_wrI64 grows_wrBytes grows_writeString : parcel.

(** Match a writer or a reader against a list of items. *)
Ltac write_items :=
  repeat first [apply appends_done | eapply appends_seq; [solve [eauto with parcel]|]].
Ltac read_items :=
  repeat first [apply reads_ret | eapply reads_cons; [solve [eauto with parcel]|cbn beta iota zeta delta [negb andb orb]]].

(** ** A concrete parcel *)

Definition buf : Type := list Z * nat.

Definition buf_take (n k : nat) (p : buf) : option (list Z) * buf :=
  let r := drop (snd p) (fst p) in
  if decide (k <= length r)%nat then (Some (take n r), (fst p, (snd p + k)%nat)) else (None, p).

Definition buf_put (bs : list Z) (p : buf) : buf := (patch (snd p) bs (fst p), (snd p + length bs)%nat).

Definition buf_readStr (p : buf) : option (list Z) * buf :=
  match buf_take 4 4 p with
  | (Some l, p1) =>
      let n := get32 l in
      if n <? 0 then (None, p1)
      else
        let k := pad4 (Z.to_nat (2 * n + 2)) in
        match buf_take k k p1 with
        | (Some bs, p2) => (Some (units16 (Z.to_nat n) bs), p2)
        | (None, p2) => (None, p2)
        end
  | (None, p1) => (None, p1)
  end.

#[export] Instance buf_parcel : Parcel buf := {|
  parcel_new := ([], 0%nat);
  parcel_data := fst;
  dataPosition := snd;
  setData := fun bs _ => (bs, 0%nat);
  setDataPosition := fun n p => (fst p, n);
  readInt32 := fun p => let '(r, p') := buf_take 4 4 p in (get32 <$> r, p');
  parcel_read := fun n p => buf_take (Z.to_nat n) (pad4 (Z.to_nat n)) p;
  readInplace := fun n p => buf_take (Z.to_nat n) (pad4 (Z.to_nat n)) p;
  readString16Inplace := buf_readStr;
  writeInt32 := fun x => buf_put (le32 x);
  writeInt64 := fun x => buf_put (le64 x);
  parcel_write := fun bs => buf_put (padded bs);
  writeString16 := fun s => buf_put (enc (WStr16 s));
  appendFrom := fun q off len => buf_put (take len (drop off (fst q))) |}.

Lemma buf_take_spec n k (p : buf) :
  if decide (k <= length (remaining p))%nat
  then fst (buf_take n k p) = Some (take n (remaining p)) /\ consumed p k (snd (buf_take n k p))
  else fst (buf_take n k p) = None /\ consumed p 0 (snd (buf_take n k p)).
Proof.
  unfold buf_take, remaining. simpl. case_decide; [done|].
  split; [done|]. unfold consumed. by rewrite Nat.add_0_r.
Qed.

Lemma consumed_trans (p p1 p2 : buf) n1 n2 : consumed p n1 p1 -> consumed p1 n2 p2 -> consumed p (n1 + n2) p2.
Proof. intros [D1 P1] [D2 P2]. split; [by rewrite D2|]. rewrite P2, P1. lia. Qed.

Lemma take_units16 n k bs : (2 * n <= k)%nat -> units16 n (take k bs) = units16 n bs.
Proof.
  revert k bs; induction n as [|n IH]; intros k bs Hk; [done|].
  destruct k as [|[|k]]; [lia..|]. destruct bs as [|a [|b bs]]; [done..|].
  cbn [take units16]. f_equal. apply IH. lia.
Qed.

Lemma buf_readStr_mono p :
  exists n, consumed p n (snd (buf_readStr p)) /\ (n <= length (remaining p))%nat.
Proof.
  unfold buf_readStr. pose proof (buf_take_spec 4 4 p) as H4. destruct (buf_take 4 4 p) as [[l|] p1].
  - case_decide as Hd; [|by destruct H4]. destruct H4 as [_ H4]. cbn [fst snd] in *.
    case_match; [by exists 4%nat|].
    set (k := pad4 (Z.to_nat (2 * get32 l + 2))). pose proof (buf_take_spec k k p1) as Hk.
    destruct (buf_take k k p1) as [[bs|] p2]; case_decide as Hd2; destruct Hk as [? Hk]; try done; cbn [fst snd] in *.
    + exists (4 + k)%nat. split; [by eapply consumed_trans|].
      rewrite (consumed_remaining _ _ _ H4), length_drop in Hd2. lia.
    + exists 4%nat. split; [|done]. exact (consumed_trans _ _ _ 4 0 H4 Hk).
  - case_decide as Hd; destruct H4 as [? H4]; [done|]. exists 0%nat. cbn [fst snd]. split; [done|lia].
Qed.

#[export] Instance buf_laws : ParcelLaws buf.
Proof.
  split.
  - done.
  - done.
  - done.
  - intros p. pose proof (buf_take_spec 4 4 p) as Ht. cbn [readInt32 buf_parcel].
    destruct (buf_take 4 4 p) as [r p']. case_decide; cbn [fst snd] in *; destruct Ht as [-> Ht]; done.
  - intros n p _. apply buf_take_spec.
  - intros n p _. apply buf_take_spec.
  - intros p Hs. cbn [readString16Inplace buf_parcel]. unfold buf_readStr.
    pose proof (buf_take_spec 4 4 p) as Ht. rewrite decide_False in Ht by lia.
    destruct (buf_take 4 4 p) as [r p']. cbn [fst snd] in *. by destruct Ht as [-> Ht].
  - intros p H4 Hn. cbn [readString16Inplace buf_parcel]. unfold buf_readStr.
    pose proof (buf_take_spec 4 4 p) as Ht. rewrite decide_True in Ht by lia.
    destruct (buf_take 4 4 p) as [r p']. cbn [fst snd] in *. destruct Ht as [-> Ht].
    by replace (get32 (take 4 (remaining p)) <? 0) with true by lia.
  - intros p n H4 Hlen Hn Hr. cbn [readString16Inplace buf_parcel]. unfold buf_readStr.
    pose proof (buf_take_spec 4 4 p) as Ht. rewrite decide_True in Ht by lia.
    destruct (buf_take 4 4 p) as [r p']. cbn [fst snd] in *. destruct Ht as [-> Ht]. rewrite Hn.
    replace (Z.of_nat n <? 0) with false by lia.
    replace (Z.to_nat (2 * Z.of_nat n + 2)) with (2 * n + 2)%nat by lia. set (k := pad4 (2 * n + 2)) in *.
    pose proof (buf_take_spec k k p') as Hk. pose proof (consumed_remaining _ _ _ Ht) as Hrem.
    rewrite decide_True in Hk by (rewrite Hrem, length_drop; lia).
    destruct (buf_take k k p') as [r2 p2]. cbn [fst snd] in *. destruct Hk as [-> Hk].
    rewrite Nat2Z.id, take_units16, Hrem by (pose proof (pad4_ge (2 * n + 2)); lia).
    split; [done|]. by eapply consumed_trans.
  - apply buf_readStr_mono.
  - done.
  - done.
  - done.
  - done.
  - intros q off len p Hl. split; [done|]. simpl. rewrite length_take, length_drop. simpl in *. done.
Qed.

(** 7-bit text, for which both conversions are the identity on code units. *)
Definition ascii_js : JString := {| utf16to8 := fun s => s; utf8to16 := fun s => s |}.

Lemma ascii_js_laws : @JStringLaws ascii_js (Forall (fun c => 0 < c < 128)).
Proof.
  split; [done|done|]. intros s Hs. simpl. eapply Forall_impl; [done|]. unfold u16_ok. simpl. lia.
Qed.
