(* ===== verification/EventHeap.v ===== *)
(** * The intrusive doubly-linked lists of libril/ril_event.cpp

    [struct ril_event] objects live in a heap addressed by locations; the
    two sentinels [timer_list] and [pending_list] are two reserved
    locations.  [init_list], [addToList] and [removeFromList] are the
    pointer operations of the source.  The second half gives the
    representation predicate [dll] (a circular list through the sentinel)
    and the effect of each operation on it, with the frame facts the
    event loop needs. *)

From S2P Require Import Prelude Bytes.

Abbreviation loc := positive.

(** [struct timeval] and the [timercmp], [timeradd], [timersub] macros;
    [tv_sec] is a [long] of 32 bits and wraps around. *)
Record timeval := mkTv { tv_sec : Z; tv_usec : Z }.

#[export] Instance timeval_eq_dec : EqDecision timeval.
Proof. solve_decision. Defined.

Definition timercmp (op : Z -> Z -> bool) (a b : timeval) : bool :=
  if tv_sec a =? tv_sec b then op (tv_usec a) (tv_usec b) else op (tv_sec a) (tv_sec b).

Definition timeradd (a b : timeval) : timeval :=
  let s := i32 (tv_sec a + tv_sec b) in
  let u := tv_usec a + tv_usec b in
  if u >=? 1000000 then mkTv (i32 (s + 1)) (u - 1000000) else mkTv s u.

Definition timersub (a b : timeval) : timeval :=
  let s := i32 (tv_sec a - tv_sec b) in
  let u := tv_usec a - tv_usec b in
  if u <? 0 then mkTv (i32 (s - 1)) (u + 1000000) else mkTv s u.

(** A normalised [timeval] and the instant it denotes, in microseconds. *)
Definition tv_ok (t : timeval) : Prop := 0 <= tv_usec t < 1000000.
Definition tv_us (t : timeval) : Z := tv_sec t * 1000000 + tv_usec t.

(** The instant a [timeval] holds when [x] is computed into it: [x] itself
    as long as its seconds fit in 32 bits. *)
Definition us32 (x : Z) : Z := i32 (x / 1000000) * 1000000 + x mod 1000000.
Definition us_ok (x : Z) : Prop := - 2 ^ 31 * 1000000 <= x < 2 ^ 31 * 1000000.

Lemma us32_id x : us_ok x -> us32 x = x.
Proof.
  unfold us_ok, us32. intros. rewrite i32_id; [pose proof (Z.div_mod x 1000000); lia|].
  unfold i32_ok. split; [apply Z.div_le_lower_bound|apply Z.div_lt_upper_bound]; lia.
Qed.

Lemma us32_eq s u : 0 <= u < 1000000 -> us32 (s * 1000000 + u) = i32 s * 1000000 + u.
Proof. intros. unfold us32. rewrite Z.div_add_l, Z.div_small, Z.add_0_r by lia. f_equal. rewrite (Z.add_comm (_ * _)), Z_mod_plus_full, Z.mod_small; lia. Qed.

Lemma timercmp_lt a b : tv_ok a -> tv_ok b -> timercmp Z.ltb a b = (tv_us a <? tv_us b).
Proof. unfold timercmp, tv_ok, tv_us. intros. destruct (Z.eqb_spec (tv_sec a) (tv_sec b)); lia. Qed.

Lemma timercmp_gt a b : tv_ok a -> tv_ok b -> timercmp Z.gtb a b = (tv_us b <? tv_us a).
Proof. unfold timercmp, tv_ok, tv_us. intros. destruct (Z.eqb_spec (tv_sec a) (tv_sec b)); lia. Qed.

Lemma timeradd_ok a b :
  tv_ok a -> tv_ok b -> tv_ok (timeradd a b) /\ tv_us (timeradd a b) = us32 (tv_us a + tv_us b).
Proof.
  unfold timeradd, tv_ok, tv_us. intros. destruct (Z.geb_spec (tv_usec a + tv_usec b) 1000000); simpl; (split; [lia|]).
  - rewrite i32_add_l, <- us32_eq by lia. f_equal. lia.
  - rewrite <- us32_eq by lia. f_equal. lia.
Qed.

Lemma timersub_ok a b :
  tv_ok a -> tv_ok b -> tv_ok (timersub a b) /\ tv_us (timersub a b) = us32 (tv_us a - tv_us b).
Proof.
  unfold timersub, tv_ok, tv_us. intros. destruct (Z.ltb_spec (tv_usec a - tv_usec b) 0); simpl; (split; [lia|]).
  - rewrite <- (Z.add_opp_r (i32 _)), i32_add_l, <- us32_eq by lia. f_equal. lia.
  - rewrite <- us32_eq by lia. f_equal. lia.
Qed.

Section EventHeap.
Context {CB : Type}.

(** [struct ril_event]; [func] and [param] are [None] for NULL. *)
Record ril_event := mkEv {
  next : option loc;
  prev : option loc;
  fd : Z;
  index : Z;
  persist : bool;
  timeout : timeval;
  func : option CB;
  param : option loc }.

Definition zero_event : ril_event := mkEv None None 0 0 false (mkTv 0 0) None None.

Definition set_next (v : option loc) (e : ril_event) : ril_event :=
  mkEv v (prev e) (fd e) (index e) (persist e) (timeout e) (func e) (param e).
Definition set_prev (v : option loc) (e : ril_event) : ril_event :=
  mkEv (next e) v (fd e) (index e) (persist e) (timeout e) (func e) (param e).
Definition set_fd (v : Z) (e : ril_event) : ril_event :=
  mkEv (next e) (prev e) v (index e) (persist e) (timeout e) (func e) (param e).
Definition set_index (v : Z) (e : ril_event) : ril_event :=
  mkEv (next e) (prev e) (fd e) v (persist e) (timeout e) (func e) (param e).
Definition set_timeout (v : timeval) (e : ril_event) : ril_event :=
  mkEv (next e) (prev e) (fd e) (index e) (persist e) v (func e) (param e).

Abbreviation heap := (gmap loc ril_event).

(** Dereferencing: NULL and dangling pointers are undefined behaviour. *)
Definition load (l : option loc) : cmd heap ril_event := fun h =>
  match l with
  | Some a => match h !! a with Some e => Ok (e, h) | None => UB end
  | None => UB
  end.

Definition upd (l : option loc) (f : ril_event -> ril_event) : cmd heap unit := fun h =>
  match l with
  | Some a => match h !! a with Some e => Ok (tt, <[a := f e]> h) | None => UB end
  | None => UB
  end.

Definition timer_list : loc := 1%positive.
Definition pending_list : loc := 2%positive.

Definition init_list (list : loc) : cmd heap unit :=
  upd (Some list) (fun _ => zero_event);;
  upd (Some list) (set_next (Some list));;
  upd (Some list) (set_prev (Some list));;
  upd (Some list) (set_fd (-1)).

Definition addToList (ev list : option loc) : cmd heap unit :=
  upd ev (set_next list);;
  l ← load list;
  upd ev (set_prev (prev l));;
  e ← load ev;
  upd (prev e) (set_next ev);;
  upd list (set_prev ev).

Definition removeFromList (ev : option loc) : cmd heap unit :=
  e ← load ev;
  upd (next e) (set_prev (prev e));;
  e' ← load ev;
  upd (prev e') (set_next (next e'));;
  upd ev (set_next None);;
  upd ev (set_prev None).

(** ** Representation *)

Definition nxt (h : heap) (a : loc) : option loc := h !! a ≫= next.
Definition prv (h : heap) (a : loc) : option loc := h !! a ≫= prev.

(** What list operations never change: everything but the links. *)
Definition data_of (e : ril_event) : ril_event := set_prev None (set_next None e).
Definition same_data (h h' : heap) : Prop := data_of <$> h' = data_of <$> h.

(** [links h a xs b]: following [next] from [a] visits [xs] and reaches
    [b]; [prev] is the converse. *)
Fixpoint links (h : heap) (a : loc) (xs : list loc) (b : loc) : Prop :=
  match xs with
  | [] => nxt h a = Some b /\ prv h b = Some a
  | x :: xs' => nxt h a = Some x /\ prv h x = Some a /\ links h x xs' b
  end.

Definition dll (h : heap) (hd : loc) (xs : list loc) : Prop :=
  NoDup (hd :: xs) /\ links h hd xs hd.

(** The last node of [a :: xs], and the first of [xs ++ [b]]. *)
Fixpoint lastn (a : loc) (xs : list loc) : loc :=
  match xs with [] => a | x :: xs' => lastn x xs' end.
Definition firstn_or (xs : list loc) (b : loc) : loc := List.hd b xs.

(** ** Memory steps *)

Lemma same_data_refl h : same_data h h.
Proof. done. Qed.

Lemma same_data_trans h1 h2 h3 : same_data h1 h2 -> same_data h2 h3 -> same_data h1 h3.
Proof. unfold same_data. congruence. Qed.

Lemma same_data_lookup h h' a e :
  same_data h h' -> h !! a = Some e -> exists e', h' !! a = Some e' /\ data_of e' = data_of e.
Proof.
  intros Hd He. assert (H : (data_of <$> h') !! a = (data_of <$> h) !! a) by (by rewrite Hd).
  rewrite !lookup_fmap, He in H. destruct (h' !! a) as [e'|]; [|done].
  exists e'. split; [done|]. by apply (inj Some).
Qed.

Lemma same_data_some h h' a : same_data h h' -> is_Some (h !! a) -> is_Some (h' !! a).
Proof. intros Hd [e He]. destruct (same_data_lookup _ _ _ _ Hd He) as (e' & ? & _). eauto. Qed.

Lemma same_data_dom h h' : same_data h h' -> dom h' = dom h.
Proof. intros Hd. apply (f_equal dom) in Hd. by rewrite !dom_fmap_L in Hd. Qed.

Lemma same_data_insert h a e e' :
  h !! a = Some e -> data_of e' = data_of e -> same_data h (<[a := e']> h).
Proof.
  intros He Hd. apply map_eq. intros b. rewrite !lookup_fmap, lookup_insert.
  case_decide; subst; [|done]. by rewrite He; simpl; rewrite Hd.
Qed.

Lemma load_some h a :
  is_Some (h !! a) -> exists e, load (Some a) h = Ok (e, h) /\ next e = nxt h a /\ prev e = prv h a /\ h !! a = Some e.
Proof. intros [e He]. exists e. unfold load, nxt, prv. by rewrite He. Qed.

Lemma upd_next_spec h a v :
  is_Some (h !! a) -> exists h', upd (Some a) (set_next v) h = Ok (tt, h') /\ same_data h h' /\
    (forall b, nxt h' b = if decide (b = a) then v else nxt h b) /\ (forall b, prv h' b = prv h b).
Proof.
  intros [e He]. exists (<[a := set_next v e]> h). unfold upd, nxt, prv. rewrite He.
  split_and!; [done|by eapply same_data_insert| |]; intros b; rewrite lookup_insert;
    repeat case_decide; subst; simpl; try done. by rewrite He.
Qed.

Lemma upd_prev_spec h a v :
  is_Some (h !! a) -> exists h', upd (Some a) (set_prev v) h = Ok (tt, h') /\ same_data h h' /\
    (forall b, prv h' b = if decide (b = a) then v else prv h b) /\ (forall b, nxt h' b = nxt h b).
Proof.
  intros [e He]. exists (<[a := set_prev v e]> h). unfold upd, nxt, prv. rewrite He.
  split_and!; [done|by eapply same_data_insert| |]; intros b; rewrite lookup_insert;
    repeat case_decide; subst; simpl; try done. by rewrite He.
Qed.

(** The pointwise effect of the two list operations. *)
Lemma addToList_effect h ev list p :
  is_Some (h !! ev) -> is_Some (h !! list) -> is_Some (h !! p) ->
  prv h list = Some p -> ev <> p -> ev <> list ->
  exists h', addToList (Some ev) (Some list) h = Ok (tt, h') /\ same_data h h' /\
    (forall b, nxt h' b = if decide (b = p) then Some ev else if decide (b = ev) then Some list else nxt h b) /\
    (forall b, prv h' b = if decide (b = list) then Some ev else if decide (b = ev) then Some p else prv h b).
Proof.
  intros He Hl Hp Hprv Hne1 Hne2. unfold addToList.
  destruct (upd_next_spec h ev (Some list) He) as (h1 & E1 & D1 & N1 & P1). run_cmd E1.
  destruct (load_some h1 list) as (l & E2 & _ & Pl & _); [by eapply same_data_some|]. run_cmd E2.
  rewrite Pl, P1, Hprv.
  destruct (upd_prev_spec h1 ev (Some p)) as (h2 & E3 & D2 & P2 & N2); [by eapply same_data_some|].
  run_cmd E3. pose proof (same_data_trans _ _ _ D1 D2) as D12.
  destruct (load_some h2 ev) as (e & E4 & _ & Pe & _); [by eapply same_data_some|]. run_cmd E4.
  rewrite Pe, P2, decide_True by done.
  destruct (upd_next_spec h2 p (Some ev)) as (h3 & E5 & D3 & N3 & P3); [by eapply same_data_some|].
  run_cmd E5. pose proof (same_data_trans _ _ _ D12 D3) as D13.
  destruct (upd_prev_spec h3 list (Some ev)) as (h4 & E6 & D4 & P4 & N4); [by eapply same_data_some|].
  exists h4. split; [done|]. split; [by eapply same_data_trans|]. split; intros b.
  - rewrite N4, N3, N2, N1. done.
  - rewrite P4, P3, P2, P1. done.
Qed.

Lemma removeFromList_effect h ev p n :
  is_Some (h !! ev) -> is_Some (h !! n) -> is_Some (h !! p) ->
  nxt h ev = Some n -> prv h ev = Some p -> ev <> p -> ev <> n ->
  exists h', removeFromList (Some ev) h = Ok (tt, h') /\ same_data h h' /\
    (forall b, nxt h' b = if decide (b = ev) then None else if decide (b = p) then Some n else nxt h b) /\
    (forall b, prv h' b = if decide (b = ev) then None else if decide (b = n) then Some p else prv h b).
Proof.
  intros He Hn Hp Hnx Hpv Hne1 Hne2. unfold removeFromList.
  destruct (load_some h ev He) as (e & E1 & Ne & Pe & _). run_cmd E1. rewrite Ne, Pe, Hnx, Hpv.
  destruct (upd_prev_spec h n (Some p) Hn) as (h1 & E2 & D1 & P1 & N1). run_cmd E2.
  destruct (load_some h1 ev) as (e1 & E3 & Ne1 & Pe1 & _); [by eapply same_data_some|]. run_cmd E3.
  rewrite Ne1, Pe1, N1, P1, decide_False, Hnx, Hpv by done.
  destruct (upd_next_spec h1 p (Some n)) as (h2 & E4 & D2 & N2 & P2); [by eapply same_data_some|].
  run_cmd E4. pose proof (same_data_trans _ _ _ D1 D2) as D12.
  destruct (upd_next_spec h2 ev None) as (h3 & E5 & D3 & N3 & P3); [by eapply same_data_some|].
  run_cmd E5. pose proof (same_data_trans _ _ _ D12 D3) as D13.
  destruct (upd_prev_spec h3 ev None) as (h4 & E6 & D4 & P4 & N4); [by eapply same_data_some|].
  exists h4. split; [done|]. split; [by eapply same_data_trans|]. split; intros b.
  - by rewrite N4, N3, N2, N1.
  - by rewrite P4, P3, P2, P1.
Qed.

(** ** Linked segments *)

Lemma links_app h a xs b ys c :
  links h a (xs ++ b :: ys) c <-> links h a xs b /\ links h b ys c.
Proof. revert a; induction xs as [|x xs IH]; intros a; simpl; [tauto|]. rewrite IH. tauto. Qed.

Lemma links_first h a xs b : links h a xs b -> nxt h a = Some (firstn_or xs b).
Proof. destruct xs; simpl; tauto. Qed.

Lemma links_last h a xs b : links h a xs b -> prv h b = Some (lastn a xs).
Proof. revert a; induction xs as [|x xs IH]; intros a; simpl; [tauto|]. intros (_ & _ & H). by apply IH. Qed.

Lemma lastn_in a xs : lastn a xs ∈ a :: xs.
Proof. revert a; induction xs as [|x xs IH]; intros a; simpl; [set_solver|]. specialize (IH x). set_solver. Qed.

(** A segment only depends on [next] of [a :: xs] and [prev] of [xs ++ [b]]. *)
Lemma links_frame h h' a xs b :
  (forall c, c ∈ a :: xs -> nxt h' c = nxt h c) ->
  (forall c, c ∈ xs ++ [b] -> prv h' c = prv h c) ->
  links h a xs b -> links h' a xs b.
Proof.
  revert a; induction xs as [|x xs IH]; intros a HN HP; simpl.
  - intros [? ?]. rewrite HN, HP by set_solver. done.
  - intros (? & ? & ?). rewrite HN, HP by set_solver. split_and!; [done..|].
    apply IH; [| |done]; intros; [apply HN|apply HP]; set_solver.
Qed.

Lemma links_some h a xs b c : links h a xs b -> c ∈ a :: xs ++ [b] -> is_Some (h !! c).
Proof.
  assert (HN : forall d x, nxt h d = Some x -> is_Some (h !! d)).
  { unfold nxt. intros d x. destruct (h !! d); [eauto|done]. }
  assert (HP : forall d x, prv h d = Some x -> is_Some (h !! d)).
  { unfold prv. intros d x. destruct (h !! d); [eauto|done]. }
  revert a; induction xs as [|x xs IH]; intros a; simpl.
  - intros [? ?] [->| ->%list_elem_of_singleton]%elem_of_cons; eauto.
  - intros (? & ? & ?) [->|Hc]%elem_of_cons; eauto.
Qed.

(** Redirecting the last link of a segment. *)
Lemma links_retarget h h' a xs b c :
  links h a xs b -> NoDup (a :: xs) ->
  nxt h' (lastn a xs) = Some c -> prv h' c = Some (lastn a xs) ->
  (forall d, d ∈ a :: xs -> d <> lastn a xs -> nxt h' d = nxt h d) ->
  (forall d, d ∈ xs -> prv h' d = prv h d) ->
  links h' a xs c.
Proof.
  revert a; induction xs as [|x xs IH]; intros a HL HND Hn Hp HN HP; simpl in *; [done|].
  destruct HL as (H1 & H2 & H3). apply NoDup_cons in HND as [Hni HND].
  assert (a <> lastn x xs) by (intros ->; apply Hni, lastn_in).
  split_and!.
  - rewrite HN; [done|set_solver|done].
  - rewrite HP; [done|set_solver].
  - apply IH; try done; intros; [apply HN|apply HP]; set_solver.
Qed.

(** ** Circular lists: insertion and removal *)

Lemma dll_some h hd xs c : dll h hd xs -> c ∈ hd :: xs -> is_Some (h !! c).
Proof. intros [_ HL] Hc. eapply links_some; [done|]. set_solver. Qed.

(** Where [addToList] inserts: before the node [list], the first of
    [ys], or the sentinel when [ys] is empty. *)
Lemma addToList_dll h hd xs ys ev :
  dll h hd (xs ++ ys) -> is_Some (h !! ev) -> ev ∉ hd :: xs ++ ys ->
  exists h', addToList (Some ev) (Some (firstn_or ys hd)) h = Ok (tt, h') /\ same_data h h' /\
    dll h' hd (xs ++ ev :: ys) /\
    (forall b, b ∉ ev :: hd :: xs ++ ys -> nxt h' b = nxt h b /\ prv h' b = prv h b).
Proof.
  intros Hdll Hev Hni. pose proof Hdll as [HND HL].
  set (list := firstn_or ys hd). set (p := lastn hd xs).
  assert (Hprv : prv h list = Some p /\ links h hd xs list).
  { destruct ys as [|y ys]; subst list p; simpl in *.
    - rewrite app_nil_r in HL. eauto using links_last.
    - apply links_app in HL as [HL1 HL2]. eauto using links_last. }
  destruct Hprv as [Hprv HLx].
  assert (Hlist : list ∈ hd :: xs ++ ys) by (subst list; destruct ys; simpl; set_solver).
  assert (Hp : p ∈ hd :: xs) by apply lastn_in.
  destruct (addToList_effect h ev list p) as (h' & E & D & N & P);
    [done|by eapply dll_some|eapply dll_some; [done|set_solver]|done|set_solver|set_solver|].
  exists h'. split_and!; [done|done| |].
  - split; [by apply NoDup_insert|]. apply links_app. split.
    + apply (links_retarget h _ _ _ list); [done|by apply NoDup_app_prefix with ys| | | |].
      * by rewrite N, decide_True.
      * rewrite P, decide_False, decide_True; [done|done|set_solver].
      * intros d Hd Hd'. rewrite N, !decide_False; [done|set_solver|done].
      * intros d Hd. rewrite P, !decide_False; [done|set_solver|].
        intros ->. subst list. destruct ys as [|y ys]; simpl in *; [apply NoDup_cons in HND as [HND _]; set_solver|].
        apply NoDup_cons in HND as [_ HND]. apply NoDup_app in HND. set_solver.
    + assert (Hpys : p ∉ ys) by (eapply NoDup_app_disj; done).
      destruct ys as [|y ys]; subst list; simpl in *.
      * rewrite N, P, decide_False, !decide_True by set_solver. done.
      * rewrite N, P, decide_False, !decide_True by set_solver. split_and!; [done..|].
        apply links_app in HL as [_ HL2]. revert HL2. apply links_frame; intros c Hc.
        -- rewrite N, !decide_False; [done|set_solver|set_solver].
        -- rewrite P, !decide_False; [done|set_solver|].
           apply NoDup_cons in HND as [? HND]. apply NoDup_app in HND as (_ & _ & HND).
           apply NoDup_cons in HND. set_solver.
  - intros b Hb. rewrite N, P. repeat (rewrite decide_False by set_solver). done.
Qed.

(** Removal of any member. *)
Lemma removeFromList_dll h hd xs ev ys :
  dll h hd (xs ++ ev :: ys) ->
  exists h', removeFromList (Some ev) h = Ok (tt, h') /\ same_data h h' /\
    dll h' hd (xs ++ ys) /\ nxt h' ev = None /\ prv h' ev = None /\
    (forall b, b ∉ hd :: xs ++ ev :: ys -> nxt h' b = nxt h b /\ prv h' b = prv h b).
Proof.
  intros Hdll. pose proof Hdll as [HND HL]. apply links_app in HL as [HL1 HL2].
  set (p := lastn hd xs). set (n := firstn_or ys hd).
  pose proof (NoDup_insert_inv _ _ _ _ HND) as [HND' Hni].
  assert (Hp : p ∈ hd :: xs) by apply lastn_in.
  assert (Hn : n ∈ hd :: ys) by (subst n; destruct ys; simpl; set_solver).
  destruct (removeFromList_effect h ev p n) as (h' & E & D & N & P);
    [eapply dll_some; [done|set_solver]..|by eapply links_first|by eapply links_last
    |set_solver|set_solver|].
  exists h'. split_and!; [done|done| | | |].
  - split; [done|]. destruct ys as [|y ys]; simpl in *; subst n.
    + rewrite app_nil_r in *. apply (links_retarget h _ _ _ ev); [done|done| | | |].
      * rewrite N, decide_False, decide_True; [done|done|set_solver].
      * rewrite P, decide_False, decide_True; [done|done|set_solver].
      * intros d Hd Hd'. rewrite N, !decide_False; [done|done|set_solver].
      * intros d Hd. rewrite P, !decide_False; [done| |set_solver].
        intros ->. apply NoDup_cons in HND'. set_solver.
    + apply links_app. destruct HL2 as (? & ? & HL2). split.
      * apply (links_retarget h _ _ _ ev); [done|by apply NoDup_app_prefix with (y :: ys)| | | |].
        -- rewrite N, decide_False, decide_True; [done|done|set_solver].
        -- rewrite P, decide_False, decide_True; [done|done|set_solver].
        -- intros d Hd Hd'. rewrite N, !decide_False; [done|done|set_solver].
        -- intros d Hd. rewrite P, !decide_False; [done| |set_solver].
           intros ->. apply NoDup_cons in HND' as [_ HND']. apply NoDup_app in HND'. set_solver.
      * assert (Hpys : p ∉ y :: ys) by (eapply NoDup_app_disj; done).
        revert HL2. apply links_frame; intros c Hc.
        -- rewrite N, !decide_False; [done|set_solver|set_solver].
        -- rewrite P, !decide_False; [done| |set_solver].
           apply NoDup_cons in HND' as [? HND']. apply NoDup_app in HND' as (_ & _ & HND').
           apply NoDup_cons in HND'. set_solver.
  - by rewrite N, decide_True.
  - by rewrite P, decide_True.
  - intros b Hb. rewrite N, P. repeat (rewrite decide_False by set_solver). done.
Qed.

(** A list is untouched by changes of the links outside it. *)
Lemma dll_frame h h' hd xs :
  (forall b, b ∈ hd :: xs -> nxt h' b = nxt h b /\ prv h' b = prv h b) ->
  dll h hd xs -> dll h' hd xs.
Proof.
  intros HF [HND HL]. split; [done|]. revert HL. apply links_frame; intros c Hc; apply HF; set_solver.
Qed.

End EventHeap.
