(* ===== verification/EventLoop.v ===== *)
(** * libril/ril_event.cpp: the watch table, the timers and the event loop

    [estate] holds the file's static variables and the heap of
    [struct ril_event] objects.  Every function of the file is a command on
    it; the two that run callbacks ([firePending] and the loop body) are
    commands on any state that contains an [estate] (class [EventStore]),
    so that a client can use them with its own, larger state.

    The clock is read where [getNow] is called: the readings are arguments.
    [fd_set] is a finite set of descriptors; [FD_SET], [FD_CLR] and
    [FD_ISSET] outside [0, FD_SETSIZE) are undefined behaviour. *)

From S2P Require Import Prelude EventHeap.

Definition MAX_FD_EVENTS : nat := 8.
Definition FD_SETSIZE : Z := 1024.

Section EventLoop.
Context {CB : Type}.

Abbreviation heap := (gmap loc (@ril_event CB)).

Record estate := mkEstate {
  ev_heap : heap;
  watch_table : list (option loc);
  readFds : gset Z;
  nfds : Z }.

Definition set_heap (h : heap) (s : estate) : estate :=
  mkEstate h (watch_table s) (readFds s) (nfds s).
Definition set_watch_table (t : list (option loc)) (s : estate) : estate :=
  mkEstate (ev_heap s) t (readFds s) (nfds s).
Definition set_readFds (r : gset Z) (s : estate) : estate :=
  mkEstate (ev_heap s) (watch_table s) r (nfds s).
Definition set_nfds (n : Z) (s : estate) : estate :=
  mkEstate (ev_heap s) (watch_table s) (readFds s) n.

(** Run a heap command inside the event state. *)
Definition onheap {A} (m : cmd heap A) : cmd estate A := fun s =>
  match m (ev_heap s) with
  | Ok (a, h) => Ok (a, set_heap h s)
  | UB => UB
  | Block => Block
  end.

Lemma onheap_Ok {A} (m : cmd heap A) s a h :
  m (ev_heap s) = Ok (a, h) -> onheap m s = Ok (a, set_heap h s).
Proof. intros H. unfold onheap. by rewrite H. Qed.

Lemma set_heap_id s : set_heap (ev_heap s) s = s.
Proof. by destruct s. Qed.

Definition fd_valid (x : Z) : bool := (0 <=? x) && (x <? FD_SETSIZE).

Definition FD_SET (x : Z) : cmd estate unit :=
  if fd_valid x then modify (fun s => set_readFds ({[x]} ∪ readFds s) s) else ub.
Definition FD_CLR (x : Z) : cmd estate unit :=
  if fd_valid x then modify (fun s => set_readFds (readFds s ∖ {[x]}) s) else ub.

(** [watch_table[i]] and [watch_table[i] = v]. *)
Definition watch_get (i : Z) : cmd estate (option loc) := fun s =>
  if i <? 0 then UB
  else match watch_table s !! Z.to_nat i with Some v => Ok (v, s) | None => UB end.
Definition watch_put (i : Z) (v : option loc) : cmd estate unit := fun s =>
  if (0 <=? i) && (i <? Z.of_nat (length (watch_table s)))
  then Ok (tt, set_watch_table (<[Z.to_nat i := v]> (watch_table s)) s) else UB.

(** The scan of [removeWatch] for the largest watched descriptor. *)
Fixpoint max_fd (tbl : list (option loc)) (n : Z) : cmd estate Z :=
  match tbl with
  | [] => mret n
  | None :: t => max_fd t n
  | Some rev :: t =>
      e ← onheap (load (Some rev));
      max_fd t (if fd e >? n then fd e else n)
  end.

Definition removeWatch (ev : option loc) (idx : Z) : cmd estate unit :=
  watch_put idx None;;
  onheap (upd ev (set_index (-1)));;
  e ← onheap (load ev);
  FD_CLR (fd e);;
  s ← get_st;
  if fd e + 1 =? nfds s then
    n ← max_fd (watch_table s) 0;
    modify (set_nfds (n + 1))
  else mret tt.

Fixpoint processTimeouts_loop (fuel : nat) (now : timeval) (tev : option loc) : cmd heap unit :=
  match fuel with
  | O => block
  | S fuel =>
      if decide (tev = Some timer_list) then mret tt
      else
        e ← load tev;
        if timercmp Z.gtb now (timeout e) then
          removeFromList tev;;
          addToList tev (Some pending_list);;
          processTimeouts_loop fuel now (next e)
        else mret tt
  end.

Definition processTimeouts (now : timeval) : cmd estate unit :=
  onheap (
    t ← load (Some timer_list);
    h ← get_st;
    processTimeouts_loop (S (size h)) now (next t)).

(** [for (i = 0; i < MAX_FD_EVENTS && n > 0; i++)]; [k] iterations remain. *)
Fixpoint processReadReadies_loop (k : nat) (i : Z) (rfds : gset Z) (n : Z) : cmd estate unit :=
  match k with
  | O => mret tt
  | S k =>
      if n >? 0 then
        rev ← watch_get i;
        match rev with
        | None => processReadReadies_loop k (i + 1) rfds n
        | Some _ =>
            e ← onheap (load rev);
            if negb (fd_valid (fd e)) then ub
            else if bool_decide (fd e ∈ rfds) then
              onheap (addToList rev (Some pending_list));;
              (if persist e then mret tt else removeWatch rev i);;
              processReadReadies_loop k (i + 1) rfds (n - 1)
            else processReadReadies_loop k (i + 1) rfds n
        end
      else mret tt
  end.

Definition processReadReadies (rfds : gset Z) (n : Z) : cmd estate unit :=
  processReadReadies_loop MAX_FD_EVENTS 0 rfds n.

(** [tv] is the caller's variable, written through the pointer. *)
Definition calcNextTimeout (now : timeval) (tv : timeval) : cmd estate (Z * timeval) :=
  t ← onheap (load (Some timer_list));
  if decide (next t = Some timer_list) then mret (-1, tv)
  else
    tev ← onheap (load (next t));
    if timercmp Z.gtb (timeout tev) now then mret (0, timersub (timeout tev) now)
    else mret (0, mkTv 0 0).

Definition ril_event_init : cmd estate unit :=
  modify (set_readFds ∅);;
  onheap (init_list timer_list);;
  onheap (init_list pending_list);;
  modify (set_watch_table (replicate MAX_FD_EVENTS None)).

(** The [fcntl(fd, F_SETFL, O_NONBLOCK)] that ends the function changes no
    state of this file. *)
Definition ril_event_set (ev : option loc) (f : Z) (pers : bool) (cb : option CB)
    (prm : option loc) : cmd estate unit :=
  onheap (
    upd ev (fun _ => zero_event);;
    upd ev (set_fd f);;
    upd ev (set_index (-1));;
    upd ev (fun e => mkEv (next e) (prev e) (fd e) (index e) pers (timeout e) cb prm)).

Fixpoint ril_event_add_loop (k : nat) (i : Z) (ev : option loc) : cmd estate unit :=
  match k with
  | O => mret tt
  | S k =>
      w ← watch_get i;
      match w with
      | None =>
          watch_put i ev;;
          onheap (upd ev (set_index i));;
          e ← onheap (load ev);
          FD_SET (fd e);;
          s ← get_st;
          (if fd e >=? nfds s then modify (set_nfds (fd e + 1)) else mret tt)
      | Some _ => ril_event_add_loop k (i + 1) ev
      end
  end.

Definition ril_event_add (ev : option loc) : cmd estate unit :=
  ril_event_add_loop MAX_FD_EVENTS 0 ev.

(** The [while] of [ril_timer_add]: the comparison is made before the
    sentinel test, as in the source. *)
Fixpoint timer_pos (fuel : nat) (ev list : option loc) : cmd heap (option loc) :=
  match fuel with
  | O => block
  | S fuel =>
      l ← load list;
      e ← load ev;
      if timercmp Z.ltb (timeout l) (timeout e) && negb (bool_decide (list = Some timer_list))
      then timer_pos fuel ev (next l)
      else mret list
  end.

Definition ril_timer_add (ev : option loc) (tv : option timeval) (now : timeval) : cmd estate unit :=
  match tv with
  | None => mret tt
  | Some tv =>
      onheap (
        t ← load (Some timer_list);
        upd ev (set_fd (-1));;
        upd ev (set_timeout (timeradd now tv));;
        h ← get_st;
        list ← timer_pos (S (size h)) ev (next t);
        addToList ev list)
  end.

Definition ril_event_del (ev : option loc) : cmd estate unit :=
  e ← onheap (load ev);
  if (index e <? 0) || (index e >=? Z.of_nat MAX_FD_EVENTS) then mret tt
  else removeWatch ev (index e).

End EventLoop.

Arguments estate CB : clear implicits.

(** ** Clients of the event loop

    A state that contains the event state. *)
Class EventStore (CB S : Type) := {
  es_get : S -> estate CB;
  es_put : estate CB -> S -> S;
  es_get_put : forall e s, es_get (es_put e s) = e;
  es_put_put : forall e1 e2 s, es_put e2 (es_put e1 s) = es_put e2 s;
  es_put_get : forall s, es_put (es_get s) s = s }.

#[export] Program Instance estate_store CB : EventStore CB (estate CB) :=
  {| es_get := fun s => s; es_put := fun e _ => e |}.
Solve All Obligations with done.

(** What [select] reports: [n] descriptors ready, with the set it left in
    [rfds], or an error, which is [EINTR] or not. *)
Inductive select_result :=
| SelOk (n : Z) (rfds : gset Z)
| SelErr (eintr : bool).

Record loop_env := mkLoopEnv {
  now_calc : timeval;      (* getNow in calcNextTimeout *)
  now_proc : timeval;      (* getNow in processTimeouts *)
  select : Z -> gset Z -> option timeval -> select_result }.

Section Fire.
Context {CB S : Type} `{EventStore CB S}.

Definition onev {A} (m : cmd (estate CB) A) : cmd S A := fun s =>
  match m (es_get s) with
  | Ok (a, e) => Ok (a, es_put e s)
  | UB => UB
  | Block => Block
  end.

(** The call [ev->func(ev->fd, 0, ev->param)] of a callback. *)
Variable call : CB -> Z -> option loc -> cmd S unit.

Fixpoint firePending_loop (fuel : nat) (ev : option loc) : cmd S unit :=
  match fuel with
  | O => block
  | Datatypes.S fuel =>
      if decide (ev = Some pending_list) then mret tt
      else
        e ← onev (onheap (load ev));
        onev (onheap (removeFromList ev));;
        e' ← onev (onheap (load ev));
        (match func e' with
         | Some f => call f (fd e') (param e')
         | None => ub
         end);;
        firePending_loop fuel (next e)
  end.

Definition firePending (fuel : nat) : cmd S unit :=
  p ← onev (onheap (load (Some pending_list)));
  firePending_loop fuel (next p).

(** One turn of the [for (;;)] of [ril_event_loop]; [false] is its [return]. *)
Definition ril_event_loop_body (fuel : nat) (env : loop_env) : cmd S bool :=
  s ← get_st;
  let rfds := readFds (es_get s) in
  r ← onev (calcNextTimeout (now_calc env) (mkTv 0 0));
  let ptv := if fst r =? -1 then None else Some (snd r) in
  match select env (nfds (es_get s)) rfds ptv with
  | SelErr true => mret true
  | SelErr false => mret false
  | SelOk n out =>
      if n <? 0 then mret false
      else
        onev (processTimeouts (now_proc env));;
        onev (processReadReadies out n);;
        firePending fuel;;
        mret true
  end.

Fixpoint ril_event_loop (fuel : nat) (envs : list loop_env) : cmd S unit :=
  match envs with
  | [] => block
  | env :: envs =>
      c ← ril_event_loop_body fuel env;
      if c : bool then ril_event_loop fuel envs else mret tt
  end.

End Fire.
