(* ===== verification/EventSpec.v ===== *)
(** * What libril/ril_event.cpp guarantees

    The invariant [ev_inv s ts ps]: the timer list represents [ts], sorted
    by due time, the pending list represents [ps], and the watch table, the
    [fd_set] and [nfds] agree.  Every operation is shown to run without
    undefined behaviour and with enough fuel, to preserve the invariant,
    and to have the functional effect one expects on [ts], [ps] and the
    table. *)

From S2P Require Import Prelude EventHeap EventLoop.

Section EventSpec.
Context {CB : Type}.

Abbreviation heap := (gmap loc (@ril_event CB)).

(** ** Views of the heap that list operations preserve *)

Definition tmo (h : heap) (a : loc) : timeval := default (mkTv 0 0) (timeout <$> h !! a).
Definition due (h : heap) (a : loc) : Z := tv_us (tmo h a).

Lemma same_data_view {B} (f : ril_event -> B) (h h' : heap) a :
  (forall e, f (data_of e) = f e) -> same_data h h' -> f <$> h' !! a = f <$> h !! a.
Proof.
  intros Hf Hd. assert (H : (data_of <$> h') !! a = (data_of <$> h) !! a) by (by rewrite Hd).
  rewrite !lookup_fmap in H. destruct (h' !! a) as [e'|], (h !! a) as [e|]; simpl in *; try done.
  apply (inj Some) in H. by rewrite <- (Hf e'), <- (Hf e), H.
Qed.

Lemma same_data_tmo (h h' : heap) a : same_data h h' -> tmo h' a = tmo h a.
Proof. intros Hd. unfold tmo. by rewrite (same_data_view timeout h h'). Qed.

Lemma same_data_due (h h' : heap) a : same_data h h' -> due h' a = due h a.
Proof. intros Hd. unfold due. by rewrite (same_data_tmo h h'). Qed.

Definition timers_sorted (h : heap) (ts : list loc) : Prop :=
  StronglySorted (fun a b => due h a <= due h b) ts /\ Forall (fun a => tv_ok (tmo h a)) ts.

Lemma timers_sorted_ext (h h' : heap) ts :
  (forall a, a ∈ ts -> tmo h' a = tmo h a) -> timers_sorted h ts -> timers_sorted h' ts.
Proof.
  intros HE [HS HF]. split.
  - induction HS as [|x l HS IH HF']; constructor.
    + apply Forall_cons in HF as [_ HF]. apply IH; [set_solver|done].
    + rewrite Forall_forall in *. intros y Hy. unfold due. rewrite !HE by set_solver. by apply HF'.
  - rewrite Forall_forall in *. intros y Hy. rewrite HE by done. auto.
Qed.

Lemma StronglySorted_filter {A} (R : A -> A -> Prop) (f : A -> bool) l :
  StronglySorted R l -> StronglySorted R (List.filter f l).
Proof.
  induction 1 as [|x l HS IH HF]; simpl; [constructor|]. destruct (f x); [|done].
  constructor; [done|]. rewrite Forall_forall in *. intros y Hy. apply HF.
  apply list_elem_of_In, filter_In in Hy as [? _]. by apply list_elem_of_In.
Qed.

Lemma timers_sorted_filter (h : heap) f ts : timers_sorted h ts -> timers_sorted h (List.filter f ts).
Proof.
  intros [HS HF]. split; [by apply StronglySorted_filter|].
  rewrite Forall_forall in *. intros y Hy. apply HF.
  apply list_elem_of_In, filter_In in Hy as [? _]. by apply list_elem_of_In.
Qed.

(** ** The pending list as a queue *)

Lemma pend_add (h : heap) ps ev :
  dll h pending_list ps -> is_Some (h !! ev) -> ev ∉ pending_list :: ps ->
  exists h', addToList (Some ev) (Some pending_list) h = Ok (tt, h') /\ same_data h h' /\
    dll h' pending_list (ps ++ [ev]) /\
    (forall b, b ∉ ev :: pending_list :: ps -> nxt h' b = nxt h b /\ prv h' b = prv h b).
Proof.
  intros Hd Hev Hni. destruct (addToList_dll h pending_list ps [] ev) as (h' & E & D & L & F);
    [by rewrite app_nil_r|done|by rewrite app_nil_r|].
  exists h'. split_and!; [done..|]. intros b Hb. apply F. by rewrite app_nil_r.
Qed.

(** ** Expiry *)

Definition expired (h : heap) (now : timeval) (a : loc) : bool := timercmp Z.gtb now (tmo h a).

Definition lists_ok (h : heap) (ts ps : list loc) : Prop :=
  dll h timer_list ts /\ dll h pending_list ps /\
  (forall a, a ∈ timer_list :: ts -> a ∉ pending_list :: ps).

(** One turn of the loop of [processTimeouts]. *)
Lemma expire_one (h : heap) t ts ps :
  lists_ok h (t :: ts) ps ->
  exists h', (removeFromList (Some t);; addToList (Some t) (Some pending_list)) h = Ok (tt, h') /\
    same_data h h' /\ lists_ok h' ts (ps ++ [t]).
Proof.
  intros (HT & HP & HD). pose proof HT as [HND _].
  destruct (removeFromList_dll h timer_list [] t ts HT) as (h1 & E1 & D1 & L1 & _ & _ & F1).
  simpl in F1. assert (HP1 : dll h1 pending_list ps).
  { apply dll_frame with h; [|done]. intros b Hb. apply F1. intros Hb'. by apply (HD b). }
  destruct (pend_add h1 ps t) as (h2 & E2 & D2 & L2 & F2);
    [done|eapply same_data_some; [exact D1|eapply dll_some; [exact HT|set_solver]]|apply HD; set_solver|].
  exists h2. unfold mbind, cmd_bind. rewrite E1. split; [done|]. split; [by eapply same_data_trans|].
  apply NoDup_cons in HND as [Hn1 HND]. apply NoDup_cons in HND as [Hn2 HND].
  split_and!.
  - apply dll_frame with h1; [|done]. intros b Hb. apply F2.
    assert (Hb' : b ∈ timer_list :: t :: ts) by set_solver. specialize (HD b Hb'). set_solver.
  - done.
  - intros a Ha. assert (Ha' : a ∈ timer_list :: t :: ts) by set_solver. specialize (HD a Ha'). set_solver.
Qed.

(** The loop moves the longest expired prefix, whatever the order. *)
Lemma processTimeouts_loop_span fuel now (h : heap) ts ps :
  lists_ok h ts ps -> (length ts < fuel)%nat ->
  exists h', processTimeouts_loop fuel now (Some (firstn_or ts timer_list)) h = Ok (tt, h') /\
    same_data h h' /\
    lists_ok h' (snd (span (expired h now) ts)) (ps ++ fst (span (expired h now) ts)).
Proof.
  revert h ts ps; induction fuel as [|fuel IH]; intros h ts ps HL Hlen; [lia|].
  destruct ts as [|t ts]; simpl.
  { exists h. rewrite app_nil_r. done. }
  pose proof HL as (HT & _). pose proof HT as [HND HLk].
  rewrite decide_False; [|intros [= ->]; apply NoDup_cons in HND; set_solver].
  destruct (load_some h t) as (e & E & Ne & _ & He); [eapply dll_some; [done|set_solver]|]. run_cmd E.
  assert (Hx : expired h now t = timercmp Z.gtb now (timeout e)).
  { unfold expired, tmo. by rewrite He. }
  rewrite <- Hx. destruct (expired h now t) eqn:Ht; simpl.
  - destruct (expire_one h t ts ps HL) as (h1 & E1 & D1 & L1).
    apply cmd_bind_inv in E1 as ([] & h0 & E0 & E1). run_cmd E0. run_cmd E1.
    destruct (IH h1 ts (ps ++ [t]) L1) as (h2 & E2 & D2 & L2); [simpl in *; lia|].
    assert (Hn : next e = Some (firstn_or ts timer_list)).
    { rewrite Ne. simpl in HLk. destruct HLk as (_ & _ & HLk). by apply links_first in HLk. }
    rewrite Hn, E2. exists h2. split; [done|]. split; [by eapply same_data_trans|].
    assert (HEq : span (expired h1 now) ts = span (expired h now) ts).
    { clear -D1. induction ts as [|x ts IHts]; simpl; [done|].
      unfold expired at 1 3. rewrite (same_data_tmo h h1) by done. by rewrite IHts. }
    rewrite HEq in L2. destruct (span (expired h now) ts) as [x y]. simpl in *.
    by rewrite <- app_assoc in L2.
  - exists h. rewrite app_nil_r. done.
Qed.

(** ** The watch table *)

Definition slot (tbl : list (option loc)) (i : nat) (a : loc) : Prop := tbl !! i = Some (Some a).

(** The descriptor watched by slot [i]. *)
Definition slot_fd (h : heap) (tbl : list (option loc)) (i : nat) (x : Z) : Prop :=
  exists a e, slot tbl i a /\ h !! a = Some e /\ fd e = x.

Record watch_ok (h : heap) (tbl : list (option loc)) (r : gset Z) : Prop := {
  wo_len : length tbl = MAX_FD_EVENTS;
  wo_ev : forall i a, slot tbl i a ->
    exists e, h !! a = Some e /\ index e = Z.of_nat i /\ fd_valid (fd e) = true;
  wo_fds : forall x, x ∈ r <-> exists i, slot_fd h tbl i x;
  wo_inj : forall i j x, slot_fd h tbl i x -> slot_fd h tbl j x -> i = j }.

(** [nfds] is one more than the largest watched descriptor; it is 0 before
    the first watch and stays 1 when the table becomes empty again. *)
Definition nfds_ok (r : gset Z) (n : Z) : Prop :=
  (forall x, x ∈ r -> 0 <= x < n) /\ ((n = 0 \/ n = 1) /\ r = ∅ \/ n - 1 ∈ r).

Record ev_inv (s : estate CB) (ts ps : list loc) : Prop := {
  ei_lists : lists_ok (ev_heap s) ts ps;
  ei_sorted : timers_sorted (ev_heap s) ts;
  ei_watch : watch_ok (ev_heap s) (watch_table s) (readFds s);
  ei_nfds : nfds_ok (readFds s) (nfds s);
  ei_wdisj : forall i a, slot (watch_table s) i a -> a ∉ timer_list :: pending_list :: ts }.

(** No watched event is waiting in the pending list. *)
Definition watch_idle (s : estate CB) (ps : list loc) : Prop :=
  forall i a, slot (watch_table s) i a -> a ∉ ps.

Lemma slot_fd_same (h h' : heap) tbl i x :
  same_data h h' -> slot_fd h tbl i x -> slot_fd h' tbl i x.
Proof.
  intros HD (a & e & H1 & H2 & H3). destruct (same_data_lookup _ _ _ _ HD H2) as (e' & H2' & He).
  exists a, e'. split_and!; [done..|]. rewrite <- H3. by apply (f_equal fd) in He.
Qed.

Lemma same_data_sym (h h' : heap) : same_data h h' -> same_data h' h.
Proof. by unfold same_data. Qed.

Lemma watch_ok_same (h h' : heap) tbl r : same_data h h' -> watch_ok h tbl r -> watch_ok h' tbl r.
Proof.
  intros HD [H1 H2 H3 H4]. pose proof (same_data_sym _ _ HD) as HD'. split; [done| | |].
  - intros i a Hs. destruct (H2 i a Hs) as (e & He & Hi & Hf).
    destruct (same_data_lookup _ _ _ _ HD He) as (e' & He' & Hd). exists e'.
    apply (f_equal fd) in Hd as Hd1. apply (f_equal index) in Hd as Hd2. simpl in *. split_and!; congruence.
  - intros x. rewrite H3. split; intros [i Hi]; exists i; by eapply slot_fd_same.
  - intros i j x Hi Hj. apply (H4 i j x); by eapply slot_fd_same.
Qed.

Lemma slot_insert tbl i j v a :
  (i < length tbl)%nat -> slot (<[i := v]> tbl) j a <-> (i = j /\ v = Some a) \/ (i <> j /\ slot tbl j a).
Proof.
  intros Hi. unfold slot. destruct (decide (i = j)) as [->|Hne].
  - rewrite list_lookup_insert_eq by done. split; [intros [= ->]; eauto|]. intros [[_ ->]|[? _]]; done.
  - rewrite list_lookup_insert_ne by done. split; [eauto|]. intros [[? _]|[_ ?]]; done.
Qed.

(** ** processTimeouts *)

Lemma lists_ok_length (h : heap) ts ps : lists_ok h ts ps -> (length ts < size h)%nat.
Proof.
  intros ([HND HL] & _). apply (NoDup_length_size h (timer_list :: ts)); [done|].
  intros x Hx. eapply links_some; [done|set_solver].
Qed.

Lemma timers_head (h : heap) ts ps :
  lists_ok h ts ps -> exists e, load (Some timer_list) h = Ok (e, h) /\ next e = Some (firstn_or ts timer_list).
Proof.
  intros (HT & _). destruct (load_some h timer_list) as (e & E & Ne & _); [eapply dll_some; [done|set_solver]|].
  exists e. split; [done|]. rewrite Ne. destruct HT as [_ HL]. by apply links_first in HL.
Qed.

Lemma expired_due (h : heap) now a :
  tv_ok now -> tv_ok (tmo h a) -> expired h now a = (due h a <? tv_us now).
Proof. intros. unfold expired, due. by apply timercmp_gt. Qed.

Lemma expired_span (h : heap) now ts :
  tv_ok now -> timers_sorted h ts ->
  span (expired h now) ts =
    (List.filter (expired h now) ts, List.filter (fun a => negb (expired h now a)) ts).
Proof.
  intros Hn [HS HF]. eapply span_sorted; [by apply (StronglySorted_Forall _ _ _ HS HF)|].
  simpl. intros a b (Hd & Ha & Hb). rewrite !expired_due by done. lia.
Qed.

Lemma elem_of_filter_bool {A} (f : A -> bool) l x : x ∈ List.filter f l -> x ∈ l /\ f x = true.
Proof. rewrite !list_elem_of_In. apply filter_In. Qed.

Lemma processTimeouts_ok (s : estate CB) ts ps now :
  ev_inv s ts ps -> tv_ok now ->
  exists s', processTimeouts now s = Ok (tt, s') /\ same_data (ev_heap s) (ev_heap s') /\
    watch_table s' = watch_table s /\ readFds s' = readFds s /\ nfds s' = nfds s /\
    ev_inv s' (List.filter (fun a => negb (expired (ev_heap s) now a)) ts)
              (ps ++ List.filter (expired (ev_heap s) now) ts).
Proof.
  intros [HL HS HW HN HD] Hn. destruct (timers_head _ _ _ HL) as (e & E & Ne).
  destruct (processTimeouts_loop_span (S (size (ev_heap s))) now _ _ _ HL) as (h' & E' & D & L);
    [apply lists_ok_length in HL; lia|].
  rewrite expired_span in L by done. simpl in L.
  exists (set_heap h' s). unfold processTimeouts, onheap. rewrite (cmd_bind_Ok _ _ _ _ _ E), Ne.
  rewrite (cmd_bind_Ok _ _ _ _ _ (eq_refl : get_st (ev_heap s) = Ok (_, _))), E'.
  split; [done|]. split; [done|]. split_and!; [done..|]. split; simpl; try done.
  - apply timers_sorted_ext with (ev_heap s); [by intros; apply same_data_tmo|by apply timers_sorted_filter].
  - by eapply watch_ok_same.
  - intros i a Hi Hc. apply (HD i a Hi). apply elem_of_cons in Hc as [->|Hc]; [set_solver|].
    apply elem_of_cons in Hc as [->|Hc]; [set_solver|]. apply elem_of_filter_bool in Hc as [? _]. set_solver.
Qed.

(** ** ril_timer_add *)

(** Updates that leave every link alone. *)
Definition same_links (h h' : heap) : Prop := forall b, nxt h' b = nxt h b /\ prv h' b = prv h b.

Lemma lists_ok_same_links (h h' : heap) ts ps : same_links h h' -> lists_ok h ts ps -> lists_ok h' ts ps.
Proof. intros HL (H1 & H2 & H3). split_and!; [by eapply dll_frame..|done]. Qed.

Lemma same_links_insert (h : heap) a e e' :
  h !! a = Some e -> next e' = next e -> prev e' = prev e -> same_links h (<[a := e']> h).
Proof. intros He Hn Hp b. unfold nxt, prv. rewrite lookup_insert. case_decide; subst; [|done]. rewrite He. simpl. by rewrite Hn, Hp. Qed.

Lemma watch_ok_other (h h' : heap) tbl r ev :
  (forall a, a <> ev -> h' !! a = h !! a) -> (forall i, ~ slot tbl i ev) ->
  watch_ok h tbl r -> watch_ok h' tbl r.
Proof.
  intros HO Hev [H1 H2 H3 H4].
  assert (Hs : forall i a, slot tbl i a -> h' !! a = h !! a).
  { intros i a Hi. apply HO. intros ->. by apply (Hev i). }
  assert (Hf : forall i x, slot_fd h' tbl i x <-> slot_fd h tbl i x).
  { intros i x. split; intros (a & e & S1 & S2 & S3); exists a, e;
      [rewrite (Hs _ _ S1) in S2|rewrite <- (Hs _ _ S1) in S2]; done. }
  split; [done| | |].
  - intros i a Hi. rewrite (Hs _ _ Hi). by apply H2.
  - intros x. rewrite H3. by setoid_rewrite Hf.
  - intros i j x. rewrite !Hf. apply H4.
Qed.

Definition before (h : heap) (ev a : loc) : bool := timercmp Z.ltb (tmo h a) (tmo h ev).

Lemma timer_pos_span fuel (h : heap) a xs ev :
  links h a xs timer_list -> timer_list ∉ xs -> is_Some (h !! ev) -> (length xs < fuel)%nat ->
  timer_pos fuel (Some ev) (Some (firstn_or xs timer_list)) h =
    Ok (Some (firstn_or (snd (span (before h ev) xs)) timer_list), h).
Proof.
  revert a xs; induction fuel as [|fuel IH]; intros a xs HL Hni Hev Hlen; [lia|].
  destruct (load_some h ev Hev) as (e & Ee & _ & _ & He).
  destruct xs as [|x xs]; simpl.
  - destruct (load_some h timer_list) as (l & El & _); [eapply links_some; [done|set_solver]|].
    run_cmd El. run_cmd Ee. by rewrite andb_false_r.
  - destruct HL as (Hn1 & Hp1 & HL).
    destruct (load_some h x) as (l & El & Nl & _ & Hl); [eapply links_some; [done|set_solver]|].
    run_cmd El. run_cmd Ee. rewrite bool_decide_eq_false_2, andb_true_r by (intros [= ->]; set_solver).
    assert (Hb : before h ev x = timercmp Z.ltb (timeout l) (timeout e)).
    { unfold before, tmo. by rewrite He, Hl. }
    rewrite <- Hb. destruct (before h ev x); [|done].
    rewrite Nl, (links_first _ _ _ _ HL), (IH x xs) by (done || set_solver || simpl in *; lia).
    by destruct (span (before h ev) xs).
Qed.

Lemma StronglySorted_insert {A} (R : A -> A -> Prop) x l1 l2 :
  StronglySorted R l1 -> StronglySorted R l2 -> (forall a, a ∈ l1 -> R a x) -> (forall b, b ∈ l2 -> R x b) ->
  (forall a b, a ∈ l1 -> b ∈ l2 -> R a b) -> StronglySorted R (l1 ++ x :: l2).
Proof.
  intros H1 H2 Ha Hb Hab. induction H1 as [|y l1 HS IH HF]; simpl.
  - constructor; [done|]. by apply Forall_forall.
  - constructor; [apply IH; intros; [apply Ha|apply Hab]; set_solver|].
    rewrite Forall_forall in *. intros z [Hz|[->|Hz]%elem_of_cons]%elem_of_app;
      [by apply HF|apply Ha; set_solver|apply Hab; set_solver].
Qed.

Lemma sorted_insert (h : heap) ev ts :
  timers_sorted h ts -> tv_ok (tmo h ev) ->
  timers_sorted h (List.filter (fun a => due h a <? due h ev) ts ++
                   ev :: List.filter (fun a => negb (due h a <? due h ev)) ts).
Proof.
  intros [HS HF] Hev. split.
  - apply StronglySorted_insert; try by apply StronglySorted_filter.
    + intros a [_ ?]%elem_of_filter_bool. lia.
    + intros a [_ ?]%elem_of_filter_bool. lia.
    + intros a b [_ ?]%elem_of_filter_bool [_ ?]%elem_of_filter_bool. lia.
  - rewrite Forall_forall in *. intros a [Ha|[->|Ha]%elem_of_cons]%elem_of_app; [|done|];
      apply elem_of_filter_bool in Ha as [? _]; auto.
Qed.

Lemma ril_timer_add_ok (s : estate CB) ts ps ev tv now e :
  ev_inv s ts ps -> ev_heap s !! ev = Some e -> ev ∉ timer_list :: pending_list :: ts ++ ps ->
  (forall i, ~ slot (watch_table s) i ev) -> tv_ok tv -> tv_ok now ->
  let d := us32 (tv_us now + tv_us tv) in
  exists s', ril_timer_add (Some ev) (Some tv) now s = Ok (tt, s') /\
    watch_table s' = watch_table s /\ readFds s' = readFds s /\ nfds s' = nfds s /\
    same_data (<[ev := set_timeout (timeradd now tv) (set_fd (-1) e)]> (ev_heap s)) (ev_heap s') /\
    due (ev_heap s') ev = d /\
    ev_inv s' (List.filter (fun a => due (ev_heap s) a <? d) ts ++
               ev :: List.filter (fun a => negb (due (ev_heap s) a <? d)) ts) ps.
Proof.
  intros [HL HS HW HN HD] He Hni Hnw Htv Hnow d.
  destruct (timers_head _ _ _ HL) as (t & Et & Nt).
  set (e1 := set_timeout (timeradd now tv) (set_fd (-1) e)).
  set (h1 := <[ev := e1]> (ev_heap s)).
  destruct (timeradd_ok now tv Hnow Htv) as [Hok Hus].
  assert (HL1 : lists_ok h1 ts ps) by (eapply lists_ok_same_links; [by eapply same_links_insert|done]).
  assert (Htmo : forall a, a ∈ ts -> tmo h1 a = tmo (ev_heap s) a).
  { intros a Ha. unfold tmo, h1. rewrite lookup_insert_ne by set_solver. done. }
  assert (Hev : tmo h1 ev = timeradd now tv) by (unfold tmo, h1; by rewrite lookup_insert_eq).
  assert (Hd : due h1 ev = d) by (unfold due; by rewrite Hev).
  assert (HS1 : timers_sorted h1 ts) by (by eapply timers_sorted_ext).
  assert (Hsp : span (before h1 ev) ts =
    (List.filter (fun a => due (ev_heap s) a <? d) ts, List.filter (fun a => negb (due (ev_heap s) a <? d)) ts)).
  { destruct HS1 as [HS1 HF1].
    rewrite (span_sorted _ _ _ (StronglySorted_Forall _ _ _ HS1 HF1)).
    - rewrite Forall_forall in HF1. f_equal; apply List.filter_ext_in; intros a Ha%list_elem_of_In;
        unfold before; rewrite timercmp_lt by (rewrite ?Hev; auto); unfold due in *; by rewrite Hd, Htmo.
    - simpl. unfold before. intros a b (Hdd & Ha & Hb). rewrite !timercmp_lt by (rewrite ?Hev; auto).
      unfold due in *. lia. }
  pose proof HL1 as (HT1 & HP1 & HDj). pose proof HT1 as [HND HLk].
  assert (Hpos : timer_pos (S (size h1)) (Some ev) (Some (firstn_or ts timer_list)) h1 =
    Ok (Some (firstn_or (List.filter (fun a => negb (due (ev_heap s) a <? d)) ts) timer_list), h1)).
  { rewrite (timer_pos_span _ _ timer_list ts), Hsp; [done|done| | |].
    - by apply NoDup_cons in HND as [? _].
    - unfold h1. rewrite lookup_insert_eq. eauto.
    - apply lists_ok_length in HL1. lia. }
  pose proof (span_app (before h1 ev) ts) as Happ. rewrite Hsp in Happ. simpl in Happ.
  destruct (addToList_dll h1 timer_list (List.filter (fun a => due (ev_heap s) a <? d) ts)
    (List.filter (fun a => negb (due (ev_heap s) a <? d)) ts) ev) as (h2 & E2 & D2 & L2 & F2);
    [by rewrite Happ|unfold h1; rewrite lookup_insert_eq; eauto|rewrite Happ; set_solver|].
  exists (set_heap h2 s). split.
  { unfold ril_timer_add, onheap. rewrite (cmd_bind_Ok _ _ _ _ _ Et), Nt.
    assert (U1 : upd (Some ev) (set_fd (-1)) (ev_heap s) = Ok (tt, <[ev := set_fd (-1) e]> (ev_heap s)))
      by (unfold upd; by rewrite He).
    rewrite (cmd_bind_Ok _ _ _ _ _ U1).
    assert (U2 : upd (Some ev) (set_timeout (timeradd now tv)) (<[ev := set_fd (-1) e]> (ev_heap s)) = Ok (tt, h1))
      by (unfold upd; rewrite lookup_insert_eq; by rewrite insert_insert_eq).
    rewrite (cmd_bind_Ok _ _ _ _ _ U2), (cmd_bind_Ok _ _ _ _ _ (eq_refl : get_st h1 = Ok (_, _))).
    by rewrite (cmd_bind_Ok _ _ _ _ _ Hpos), E2. }
  split_and!; [done..| |]; simpl.
  { rewrite (same_data_due h1 h2) by done. done. }
  split; simpl; [|..|].
  - split_and!; [done| |].
    + eapply dll_frame; [|done]. intros b Hb. apply F2. rewrite Happ. specialize (HDj b). set_solver.
    + intros a [->|[Ha|[->|Ha]%elem_of_cons]%elem_of_app]%elem_of_cons; [apply HDj; set_solver| |set_solver|];
        apply elem_of_filter_bool in Ha as [? _]; apply HDj; set_solver.
  - eapply timers_sorted_ext; [intros; by apply same_data_tmo|].
    assert (HX : List.filter (fun a => due (ev_heap s) a <? d) ts = List.filter (fun a => due h1 a <? due h1 ev) ts).
    { apply List.filter_ext_in; intros a Ha%list_elem_of_In. unfold due at 2. by rewrite Htmo, Hd. }
    assert (HY : List.filter (fun a => negb (due (ev_heap s) a <? d)) ts = List.filter (fun a => negb (due h1 a <? due h1 ev)) ts).
    { apply List.filter_ext_in; intros a Ha%list_elem_of_In. unfold due at 2. by rewrite Htmo, Hd. }
    rewrite HX, HY. apply sorted_insert; [done|]. by rewrite Hev.
  - eapply watch_ok_same; [done|]. eapply watch_ok_other; [|done|done].
    intros a Ha. unfold h1. by rewrite lookup_insert_ne.
  - done.
  - intros i a Hi Hc. pose proof (HD i a Hi) as HD'. apply elem_of_cons in Hc as [->|Hc]; [set_solver|].
    apply elem_of_cons in Hc as [->|Hc]; [set_solver|].
    apply elem_of_app in Hc as [Hc|[->|Hc]%elem_of_cons]; [apply elem_of_filter_bool in Hc as [? _]; set_solver
      |by apply (Hnw i)|apply elem_of_filter_bool in Hc as [? _]; set_solver].
Qed.

(** ** removeWatch *)

Lemma max_fd_ok (s : estate CB) tbl n :
  (forall a, Some a ∈ tbl -> is_Some (ev_heap s !! a)) ->
  exists m, max_fd tbl n s = Ok (m, s) /\ n <= m /\
    (forall a e, Some a ∈ tbl -> ev_heap s !! a = Some e -> fd e <= m) /\
    (m = n \/ exists a e, Some a ∈ tbl /\ ev_heap s !! a = Some e /\ fd e = m).
Proof.
  revert n; induction tbl as [|[a|] tbl IH]; intros n Ht; simpl.
  - exists n. split_and!; [done|lia|set_solver|eauto].
  - destruct (Ht a) as [e He]; [set_solver|].
    assert (El : onheap (load (Some a)) s = Ok (e, s)).
    { unfold onheap, load. rewrite He. by destruct s. }
    run_cmd El. destruct (IH (if fd e >? n then fd e else n)) as (m & Em & Hm & Ha & Hx); [set_solver|].
    exists m. rewrite Em. split; [done|]. destruct (Z.gtb_spec (fd e) n); (split; [lia|]).
    + split.
      * intros b eb [[= ->]|Hb]%elem_of_cons Hbe; [simplify_eq; lia|eauto].
      * right. destruct Hx as [->|(b & eb & ? & ? & ?)]; [exists a, e|exists b, eb]; set_solver.
    + split.
      * intros b eb [[= ->]|Hb]%elem_of_cons Hbe; [simplify_eq; lia|eauto].
      * destruct Hx as [->|(b & eb & ? & ? & ?)]; [by left|right; exists b, eb; set_solver].
  - destruct (IH n) as (m & Em & Hm & Ha & Hx); [set_solver|]. exists m. split_and!; [done|done| |].
    + intros a e [?|?]%elem_of_cons; [done|eauto].
    + destruct Hx as [->|(b & eb & ? & ? & ?)]; [by left|right; exists b, eb; set_solver].
Qed.

Lemma slot_elem tbl a : Some a ∈ tbl <-> exists i, slot tbl i a.
Proof. unfold slot. by rewrite list_elem_of_lookup. Qed.

(** Clearing a slot, on the table invariant. *)
Lemma watch_ok_remove (h : heap) tbl r i a e :
  watch_ok h tbl r -> slot tbl i a -> h !! a = Some e ->
  watch_ok (<[a := set_index (-1) e]> h) (<[i := None]> tbl) (r ∖ {[fd e]}).
Proof.
  intros [H1 H2 H3 H4] Hi He.
  assert (Hlt : (i < length tbl)%nat) by (by eapply lookup_lt_Some).
  assert (Hsl : forall j b, slot (<[i := None]> tbl) j b <-> i <> j /\ slot tbl j b).
  { intros j b. rewrite slot_insert by done. split; [intros [[? ?]|?]; done|eauto]. }
  assert (Hne : forall j b, i <> j -> slot tbl j b -> b <> a).
  { intros j b Hij Hb ->. destruct (H2 i a Hi) as (e1 & E1 & I1 & _), (H2 j a Hb) as (e2 & E2 & I2 & _).
    simplify_eq. lia. }
  assert (Hfd : forall j x, slot_fd (<[a := set_index (-1) e]> h) (<[i := None]> tbl) j x <->
                            i <> j /\ slot_fd h tbl j x).
  { intros j x. unfold slot_fd. setoid_rewrite Hsl. split.
    - intros (b & eb & [? Hb] & Eb & ?). rewrite lookup_insert_ne in Eb by (symmetry; eauto).
      split; [done|]. by exists b, eb.
    - intros (? & b & eb & Hb & Eb & ?). exists b, eb. rewrite lookup_insert_ne by (symmetry; eauto). done. }
  split.
  - by rewrite length_insert.
  - intros j b [Hij Hb]%Hsl. rewrite lookup_insert_ne by (symmetry; eauto). by apply H2.
  - intros x. setoid_rewrite Hfd. rewrite elem_of_difference, elem_of_singleton, H3. split.
    + intros [[j Hj] Hx]. exists j. split; [|done]. intros ->. apply Hx.
      destruct Hj as (b & eb & Sb & Eb & <-). unfold slot in *. by simplify_eq.
    + intros (j & Hij & Hj). split; [eauto|]. intros ->. apply Hij, (H4 i j (fd e)); [|done].
      by exists a, e.
  - intros j k x [? ?]%Hfd [? ?]%Hfd. by eapply H4.
Qed.

Lemma removeWatch_ok (s : estate CB) i a e :
  watch_ok (ev_heap s) (watch_table s) (readFds s) -> nfds_ok (readFds s) (nfds s) ->
  slot (watch_table s) i a -> ev_heap s !! a = Some e ->
  exists s', removeWatch (Some a) (Z.of_nat i) s = Ok (tt, s') /\
    ev_heap s' = <[a := set_index (-1) e]> (ev_heap s) /\
    watch_table s' = <[i := None]> (watch_table s) /\
    readFds s' = readFds s ∖ {[fd e]} /\ nfds_ok (readFds s') (nfds s').
Proof.
  intros HW [HN1 HN2] Hi He. pose proof (watch_ok_remove _ _ _ _ _ _ HW Hi He) as HW'.
  pose proof HW as [H1 H2 H3 H4].
  assert (Hlt : (i < length (watch_table s))%nat) by (by eapply lookup_lt_Some).
  destruct (H2 i a Hi) as (e' & He' & _ & Hv). simplify_eq.
  set (tbl' := <[i := None]> (watch_table s)). set (h' := <[a := set_index (-1) e]> (ev_heap s)).
  set (s1 := set_watch_table tbl' s). set (s2 := set_heap h' s1).
  set (s3 := set_readFds (readFds s ∖ {[fd e]}) s2).
  assert (E : forall k, (removeWatch (Some a) (Z.of_nat i)) s = k ->
    (if fd e + 1 =? nfds s3 then n ← max_fd tbl' 0; modify (set_nfds (n + 1)) else mret tt) s3 = k).
  { intros k <-. unfold removeWatch.
    assert (E1 : watch_put (Z.of_nat i) None s = Ok (tt, s1)).
    { unfold watch_put. rewrite Nat2Z.id. by replace (_ && _) with true by lia. }
    assert (E2 : onheap (upd (Some a) (set_index (-1))) s1 = Ok (tt, s2)).
    { apply onheap_Ok. simpl. by rewrite He. }
    assert (E3 : onheap (load (Some a)) s2 = Ok (set_index (-1) e, s2)).
    { rewrite (onheap_Ok _ _ (set_index (-1) e) h'); [done|]. unfold load. simpl.
      unfold h'. by rewrite lookup_insert_eq. }
    assert (E4 : FD_CLR (fd e) s2 = Ok (tt, s3)) by (unfold FD_CLR; by rewrite Hv).
    run_cmd E1. run_cmd E2. run_cmd E3. simpl fd. run_cmd E4. done. }
  assert (Hmem : forall x, x ∈ readFds s ∖ {[fd e]} <-> exists b eb, Some b ∈ tbl' /\ h' !! b = Some eb /\ fd eb = x).
  { intros x. rewrite (wo_fds _ _ _ HW'). unfold slot_fd. split.
    - intros (j & b & eb & ? & ? & ?). exists b, eb. rewrite slot_elem. eauto.
    - intros (b & eb & [j ?]%slot_elem & ? & ?). exists j, b, eb. done. }
  destruct (Z.eqb_spec (fd e + 1) (nfds s3)) as [Heq|Hneq].
  - destruct (max_fd_ok s3 tbl' 0) as (m & Em & Hm & Hmax & Hx).
    { intros b [j Hj]%slot_elem. simpl. destruct (wo_ev _ _ _ HW' j b Hj) as (? & ? & _). eauto. }
    exists (set_nfds (m + 1) s3). rewrite <- (E _ eq_refl).
    rewrite (cmd_bind_Ok _ _ _ _ _ Em). split_and!; [done..|]. split; simpl.
    + intros x Hx'. pose proof (HN1 x). apply Hmem in Hx' as Hx2. destruct Hx2 as (b & eb & Hb & Eb & <-).
      specialize (Hmax b eb Hb Eb). set_solver by lia.
    + destruct Hx as [->|(b & eb & Hb & Eb & <-)].
      * destruct (decide (readFds s ∖ {[fd e]} = ∅)) as [|Hne]; [left; eauto|right].
        apply set_choose_L in Hne as [x Hx']. apply Hmem in Hx' as Hx2. destruct Hx2 as (b & eb & Hb & Eb & <-).
        specialize (Hmax b eb Hb Eb). pose proof (HN1 (fd eb)).
        assert (fd eb = 0) by (set_solver by lia). replace (0 + 1 - 1) with (fd eb) by lia. done.
      * right. replace (fd eb + 1 - 1) with (fd eb) by lia. apply Hmem. eauto.
  - exists s3. rewrite <- (E _ eq_refl). split_and!; [done..|].
    simpl in *. split; [set_solver|]. destruct HN2 as [[? ->]|HN2]; [left; split; [done|set_solver]|right].
    apply elem_of_difference. split; [done|]. rewrite elem_of_singleton. lia.
Qed.

Lemma set_index_tmo (h : heap) a e v b :
  h !! a = Some e -> tmo (<[a := set_index v e]> h) b = tmo h b.
Proof. intros He. unfold tmo. rewrite lookup_insert. case_decide; subst; [by rewrite He|done]. Qed.

Lemma removeWatch_inv (s : estate CB) ts ps i a e :
  ev_inv s ts ps -> slot (watch_table s) i a -> ev_heap s !! a = Some e ->
  exists s', removeWatch (Some a) (Z.of_nat i) s = Ok (tt, s') /\
    ev_heap s' = <[a := set_index (-1) e]> (ev_heap s) /\
    watch_table s' = <[i := None]> (watch_table s) /\
    readFds s' = readFds s ∖ {[fd e]} /\ ev_inv s' ts ps.
Proof.
  intros [HL HS HW HN HD] Hi He.
  destruct (removeWatch_ok s i a e HW HN Hi He) as (s' & E & Eh & Et & Er & HN').
  exists s'. split_and!; [done..|]. split; [| | |done|].
  - rewrite Eh. eapply lists_ok_same_links; [by eapply same_links_insert|done].
  - rewrite Eh. eapply timers_sorted_ext; [|done]. intros b _. by apply set_index_tmo.
  - rewrite Eh, Et, Er. by apply watch_ok_remove.
  - intros j b. rewrite Et. assert (Hlt : (i < length (watch_table s))%nat) by (by eapply lookup_lt_Some).
    rewrite slot_insert by done. intros [[_ ?]|[_ ?]]; [done|eauto].
Qed.

(** ** processReadReadies *)

(** The fields no loop of this file writes. *)
Definition cfg (e : ril_event) : @ril_event CB := set_index 0 (data_of e).
Definition same_cfg (h h' : heap) : Prop := cfg <$> h' = cfg <$> h.

Lemma same_cfg_trans (h1 h2 h3 : heap) : same_cfg h1 h2 -> same_cfg h2 h3 -> same_cfg h1 h3.
Proof. unfold same_cfg. congruence. Qed.

Lemma same_data_cfg (h h' : heap) : same_data h h' -> same_cfg h h'.
Proof.
  intros H. apply map_eq. intros a. rewrite !lookup_fmap.
  pose proof (same_data_view cfg h h' a) as Hv. apply Hv; [done|done].
Qed.

Lemma set_index_cfg (h : heap) a e v : h !! a = Some e -> same_cfg h (<[a := set_index v e]> h).
Proof.
  intros He. apply map_eq. intros b. rewrite !lookup_fmap, lookup_insert.
  case_decide; subst; [by rewrite He|done].
Qed.

Lemma same_cfg_view {B} (f : ril_event -> B) (h h' : heap) a :
  (forall e, f (cfg e) = f e) -> same_cfg h h' -> f <$> h' !! a = f <$> h !! a.
Proof.
  intros Hf Hd. assert (H : (cfg <$> h') !! a = (cfg <$> h) !! a) by (by rewrite Hd).
  rewrite !lookup_fmap in H. destruct (h' !! a) as [e'|], (h !! a) as [e|]; simpl in *; try done.
  apply (inj Some) in H. by rewrite <- (Hf e'), <- (Hf e), H.
Qed.

(** The watched events whose descriptor is in [out], in slot order. *)
Definition is_ready (h : heap) (out : gset Z) (a : loc) : bool :=
  match h !! a with Some e => bool_decide (fd e ∈ out) | None => false end.
Definition is_persistent (h : heap) (a : loc) : bool :=
  match h !! a with Some e => persist e | None => false end.
Definition ready (h : heap) (out : gset Z) (tbl : list (option loc)) : list loc :=
  List.filter (is_ready h out) (omap id tbl).

(** The table after the first [n] ready events were taken. *)
Fixpoint taken (h : heap) (out : gset Z) (n : Z) (tbl : list (option loc)) : list (option loc) :=
  match tbl with
  | [] => []
  | None :: t => None :: taken h out n t
  | Some a :: t =>
      if (n >? 0) && is_ready h out a then
        (if is_persistent h a then Some a else None) :: taken h out (n - 1) t
      else Some a :: taken h out n t
  end.

Lemma same_cfg_ready (h h' : heap) out a : same_cfg h h' -> is_ready h' out a = is_ready h out a.
Proof.
  intros HC. unfold is_ready. pose proof (same_cfg_view fd h h' a) as Hv. specialize (Hv (fun _ => eq_refl) HC).
  destruct (h' !! a), (h !! a); simpl in Hv; try done. apply (inj Some) in Hv. by rewrite Hv.
Qed.

Lemma same_cfg_persistent (h h' : heap) a : same_cfg h h' -> is_persistent h' a = is_persistent h a.
Proof.
  intros HC. unfold is_persistent. pose proof (same_cfg_view persist h h' a) as Hv. specialize (Hv (fun _ => eq_refl) HC).
  destruct (h' !! a), (h !! a); simpl in Hv; try done. apply (inj Some) in Hv. by rewrite Hv.
Qed.

Lemma same_cfg_taken (h h' : heap) out n tbl : same_cfg h h' -> taken h' out n tbl = taken h out n tbl.
Proof.
  intros HC. revert n; induction tbl as [|[a|] tbl IH]; intros n; simpl; [done| |by rewrite IH].
  by rewrite (same_cfg_ready h h'), (same_cfg_persistent h h'), !IH by done.
Qed.

Lemma same_cfg_ready_list (h h' : heap) out tbl : same_cfg h h' -> ready h' out tbl = ready h out tbl.
Proof. intros HC. apply List.filter_ext. intros a. by apply same_cfg_ready. Qed.

Lemma ready_cons (h : heap) out a tbl :
  ready h out (Some a :: tbl) = if is_ready h out a then a :: ready h out tbl else ready h out tbl.
Proof. done. Qed.

Lemma taken_stop (h : heap) out n tbl : n <= 0 -> taken h out n tbl = tbl.
Proof.
  intros Hn. induction tbl as [|[a|] tbl IH]; simpl; [done| |by rewrite IH].
  replace (n >? 0) with false by lia. simpl. by rewrite IH.
Qed.

Lemma add_pending_inv (s : estate CB) ts ps a :
  ev_inv s ts ps -> is_Some (ev_heap s !! a) -> a ∉ timer_list :: pending_list :: ts ++ ps ->
  exists h', addToList (Some a) (Some pending_list) (ev_heap s) = Ok (tt, h') /\
    same_data (ev_heap s) h' /\ ev_inv (set_heap h' s) ts (ps ++ [a]).
Proof.
  intros [(HT & HP & HDj) HS HW HN HD] Ha Hni.
  destruct (pend_add (ev_heap s) ps a) as (h' & E & D & L & F); [done|done|set_solver|].
  exists h'. split_and!; [done..|]. split; simpl; [| | |done|done].
  - split_and!; [|done|].
    + eapply dll_frame; [|done]. intros b Hb. apply F. specialize (HDj b Hb). set_solver.
    + intros b Hb. specialize (HDj b Hb). set_solver.
  - eapply timers_sorted_ext; [intros; by apply same_data_tmo|done].
  - by eapply watch_ok_same.
Qed.

Lemma slot_distinct (h : heap) tbl r i j a b :
  watch_ok h tbl r -> i <> j -> slot tbl i a -> slot tbl j b -> a <> b.
Proof.
  intros HW Hij Ha Hb ->. destruct (wo_ev _ _ _ HW i b Ha) as (e1 & E1 & I1 & _).
  destruct (wo_ev _ _ _ HW j b Hb) as (e2 & E2 & I2 & _). simplify_eq. lia.
Qed.

(** One ready slot: queue its event and, unless persistent, unwatch it. *)
Lemma take_ready_slot (s : estate CB) ts ps i a e :
  ev_inv s ts ps -> slot (watch_table s) i a -> ev_heap s !! a = Some e -> a ∉ ps ->
  exists s', (onheap (addToList (Some a) (Some pending_list));;
              (if persist e then mret tt else removeWatch (Some a) (Z.of_nat i))) s = Ok (tt, s') /\
    watch_table s' = <[i := (if persist e then Some a else None)]> (watch_table s) /\
    same_cfg (ev_heap s) (ev_heap s') /\ ev_inv s' ts (ps ++ [a]).
Proof.
  intros HI Hi He Hps. pose proof (ei_wdisj _ _ _ HI i a Hi) as Hni.
  destruct (add_pending_inv s ts ps a HI) as (h1 & E1 & D1 & I1); [eauto|set_solver|].
  pose proof (onheap_Ok _ _ _ _ E1) as E1'. run_cmd E1'.
  destruct (persist e).
  - eexists. split; [done|]. simpl. split_and!; [by rewrite list_insert_id|by apply same_data_cfg|done].
  - destruct (same_data_lookup _ _ _ _ D1 He) as (e1 & He1 & _).
    destruct (removeWatch_inv _ _ _ i a e1 I1 Hi He1) as (s2 & E2 & Eh & Et & _ & I2).
    exists s2. split; [done|]. split; [done|]. split; [|done]. rewrite Eh.
    eapply same_cfg_trans; [by apply same_data_cfg|by apply set_index_cfg].
Qed.

Lemma processReadReadies_loop_ok k i (s : estate CB) ts ps out n :
  ev_inv s ts ps -> (i + k = MAX_FD_EVENTS)%nat ->
  (forall j a, (i <= j)%nat -> slot (watch_table s) j a -> a ∉ ps) ->
  exists s', processReadReadies_loop k (Z.of_nat i) out n s = Ok (tt, s') /\
    watch_table s' = take i (watch_table s) ++ taken (ev_heap s) out n (drop i (watch_table s)) /\
    same_cfg (ev_heap s) (ev_heap s') /\
    ev_inv s' ts (ps ++ take (Z.to_nat n) (ready (ev_heap s) out (drop i (watch_table s)))).
Proof.
  revert i s ps n; induction k as [|k IH]; intros i s ps n HI Hk Hps; simpl.
  { pose proof (wo_len _ _ _ (ei_watch _ _ _ HI)) as Hlen. rewrite drop_ge, take_ge by lia.
    exists s. unfold ready. simpl. rewrite take_nil, !app_nil_r. done. }
  destruct (Z.gtb_spec n 0) as [Hn|Hn]; [|exists s; rewrite taken_stop, take_drop by done;
    replace (Z.to_nat n) with 0%nat by lia; rewrite app_nil_r; done].
  pose proof (wo_len _ _ _ (ei_watch _ _ _ HI)) as Hlen.
  destruct (lookup_lt_is_Some_2 (watch_table s) i) as [o Ho]; [lia|].
  assert (Eg : watch_get (Z.of_nat i) s = Ok (o, s)).
  { unfold watch_get. rewrite Nat2Z.id, Ho. by replace (Z.of_nat i <? 0) with false by lia. }
  run_cmd Eg. rewrite (drop_S _ _ _ Ho). replace (Z.of_nat i + 1) with (Z.of_nat (S i)) by lia.
  assert (Hcons : forall x t, take i (watch_table s) ++ x :: t = (take i (watch_table s) ++ [x]) ++ t).
  { intros x t. by rewrite <- app_assoc. }
  destruct o as [a|]; simpl.
  - destruct (wo_ev _ _ _ (ei_watch _ _ _ HI) i a Ho) as (e & He & _ & Hv).
    assert (El : onheap (load (Some a)) s = Ok (e, s)).
    { rewrite (onheap_Ok _ _ e (ev_heap s)), set_heap_id; [done|]. unfold load. by rewrite He. }
    run_cmd El. rewrite Hv, ready_cons. replace (n >? 0) with true by lia. simpl.
    assert (Hr : is_ready (ev_heap s) out a = bool_decide (fd e ∈ out)) by (unfold is_ready; by rewrite He).
    rewrite Hr. destruct (bool_decide (fd e ∈ out)).
    + destruct (take_ready_slot s ts ps i a e HI Ho He) as (s1 & E1 & T1 & C1 & I1); [by apply (Hps i)|].
      destruct (IH (S i) s1 (ps ++ [a]) (n - 1) I1) as (s2 & E2 & T2 & C2 & I2); [lia| |].
      { intros j b Hj. rewrite T1, slot_insert by lia. intros [[? _]|[Hij Hb]]; [lia|].
        pose proof (slot_distinct _ _ _ _ _ _ _ (ei_watch _ _ _ HI) Hij Ho Hb).
        assert (b ∉ ps) by (apply (Hps j); [lia|done]). set_solver. }
      exists s2. apply cmd_bind_inv in E1 as ([] & s0 & E0 & E1). run_cmd E0. run_cmd E1.
      rewrite E2. split; [done|]. rewrite T1 in T2, I2.
      rewrite (same_cfg_taken _ _ _ _ _ C1) in T2. rewrite (same_cfg_ready_list _ _ _ _ C1) in I2.
      assert (Hd : drop (S i) (<[i := (if persist e then Some a else None)]> (watch_table s)) = drop (S i) (watch_table s))
        by (apply drop_insert_lt; lia).
      rewrite Hd in T2, I2. split_and!; [|by eapply same_cfg_trans|].
      * rewrite T2, (take_S_r _ _ (if persist e then Some a else None)), take_insert_ge
          by (lia || by rewrite list_lookup_insert_eq by lia).
        unfold is_persistent. rewrite He. by rewrite <- app_assoc.
      * rewrite <- app_assoc in I2. simpl in I2.
        replace (Z.to_nat n) with (S (Z.to_nat (n - 1))) by lia. exact I2.
    + destruct (IH (S i) s ps n HI) as (s2 & E2 & T2 & C2 & I2); [lia|intros; apply (Hps j); [lia|done]|].
      exists s2. rewrite E2, T2, Hcons, <- take_S_r by done. done.
  - destruct (IH (S i) s ps n HI) as (s2 & E2 & T2 & C2 & I2); [lia|intros; apply (Hps j); [lia|done]|].
    exists s2. rewrite E2, T2, Hcons, <- take_S_r by done. done.
Qed.

Lemma processReadReadies_ok (s : estate CB) ts ps out n :
  ev_inv s ts ps -> watch_idle s ps ->
  exists s', processReadReadies out n s = Ok (tt, s') /\
    watch_table s' = taken (ev_heap s) out n (watch_table s) /\
    same_cfg (ev_heap s) (ev_heap s') /\
    ev_inv s' ts (ps ++ take (Z.to_nat n) (ready (ev_heap s) out (watch_table s))).
Proof.
  intros HI Hid. destruct (processReadReadies_loop_ok MAX_FD_EVENTS 0 s ts ps out n HI) as (s' & E & T & C & I);
    [done|intros; eauto|]. rewrite drop_0 in T, I. exists s'. done.
Qed.

End EventSpec.
