(* ===== verification/EventLoopSpec.v ===== *)
(** * Adding and removing watches, timeouts for [select], the loop body

    Continues EventSpec.v: [ril_event_add], [ril_event_del],
    [ril_event_init], [calcNextTimeout], [firePending] and one turn of
    [ril_event_loop]; then the properties of libril/ril_event.cpp. *)

From S2P Require Import Prelude EventHeap EventLoop EventSpec.

Section EventLoopSpec.
Context {CB : Type}.

Abbreviation heap := (gmap loc (@ril_event CB)).

(** ** ril_event_add *)

Fixpoint first_free (tbl : list (option loc)) : option nat :=
  match tbl with
  | [] => None
  | None :: _ => Some 0%nat
  | Some _ :: t => S <$> first_free t
  end.

Lemma first_free_Some tbl i : first_free tbl = Some i -> tbl !! i = Some None.
Proof.
  revert i; induction tbl as [|[a|] tbl IH]; intros i; simpl; [done| |by intros [= <-]].
  destruct (first_free tbl) as [j|]; simpl; [|done]. intros [= <-]. simpl. by apply IH.
Qed.

(** The step of [ril_event_add] once a free slot is found. *)
Definition add_at (i : Z) (ev : option loc) : cmd (estate CB) unit :=
  watch_put i ev;;
  onheap (upd ev (set_index i));;
  e ← onheap (load ev);
  FD_SET (fd e);;
  s ← get_st;
  (if fd e >=? nfds s then modify (set_nfds (fd e + 1)) else mret tt).

Lemma add_loop_find k i ev (s : estate CB) :
  (i + k = length (watch_table s))%nat ->
  ril_event_add_loop k (Z.of_nat i) ev s =
    match first_free (drop i (watch_table s)) with
    | Some j => add_at (Z.of_nat (i + j)) ev s
    | None => Ok (tt, s)
    end.
Proof.
  revert i; induction k as [|k IH]; intros i Hk; simpl.
  { by rewrite drop_ge by lia. }
  destruct (lookup_lt_is_Some_2 (watch_table s) i) as [o Ho]; [lia|].
  assert (Eg : watch_get (Z.of_nat i) s = Ok (o, s)).
  { unfold watch_get. rewrite Nat2Z.id, Ho. by replace (Z.of_nat i <? 0) with false by lia. }
  run_cmd Eg. rewrite (drop_S _ _ _ Ho). destruct o as [a|]; simpl.
  - replace (Z.of_nat i + 1) with (Z.of_nat (S i)) by lia. rewrite IH by lia.
    destruct (first_free (drop (S i) (watch_table s))) as [j|]; simpl; [|done].
    replace (i + S j)%nat with (S (i + j)) by lia. done.
  - by rewrite Nat.add_0_r.
Qed.

(** Filling a free slot, on the table invariant. *)
Lemma watch_ok_add (h : heap) tbl r i ev e :
  watch_ok h tbl r -> tbl !! i = Some None -> h !! ev = Some e -> (forall j, ~ slot tbl j ev) ->
  fd_valid (fd e) = true -> fd e ∉ r ->
  watch_ok (<[ev := set_index (Z.of_nat i) e]> h) (<[i := Some ev]> tbl) ({[fd e]} ∪ r).
Proof.
  intros [H1 H2 H3 H4] Hi He Hns Hv Hr.
  assert (Hlt : (i < length tbl)%nat) by (by eapply lookup_lt_Some).
  assert (Hne : forall j b, slot tbl j b -> ev <> b) by (intros j b Hb ->; by apply (Hns j)).
  assert (Hfd : forall j x, slot_fd (<[ev := set_index (Z.of_nat i) e]> h) (<[i := Some ev]> tbl) j x <->
                            (j = i /\ x = fd e) \/ (j <> i /\ slot_fd h tbl j x)).
  { intros j x. unfold slot_fd. setoid_rewrite slot_insert; [|done]. split.
    - intros (b & eb & [[-> [= ->]]|[? Hb]] & Eb & <-).
      + rewrite lookup_insert_eq in Eb. simplify_eq. by left.
      + rewrite lookup_insert_ne in Eb by eauto. right. split; [done|]. by exists b, eb.
    - intros [[-> ->]|(? & b & eb & Hb & Eb & <-)].
      + exists ev, (set_index (Z.of_nat i) e). rewrite lookup_insert_eq. eauto.
      + exists b, eb. rewrite lookup_insert_ne by eauto. eauto. }
  assert (Hri : forall j x, slot_fd h tbl j x -> x ∈ r) by (intros j x Hj; apply H3; eauto).
  split.
  - by rewrite length_insert.
  - intros j b Hb. apply slot_insert in Hb as [[-> [= ->]]|[? Hb]]; [| |done].
    + exists (set_index (Z.of_nat j) e). rewrite lookup_insert_eq. done.
    + rewrite lookup_insert_ne by eauto. by apply H2.
  - intros x. rewrite elem_of_union, elem_of_singleton, H3. setoid_rewrite Hfd. split.
    + intros [->|[j Hj]]; [eauto|]. exists j. right. split; [|done]. intros ->.
      destruct Hj as (b & eb & Hb & _). unfold slot in *. by simplify_eq.
    + intros [j [[_ ->]|[_ Hj]]]; eauto.
  - intros j k x [[-> ->]|[? Hj]]%Hfd [[-> Hx]|[? Hk]]%Hfd; try done.
    + by apply Hri in Hk.
    + subst. by apply Hri in Hj.
    + by eapply H4.
Qed.

Lemma add_at_ok (s : estate CB) ts ps i ev e :
  ev_inv s ts ps -> watch_table s !! i = Some None -> ev_heap s !! ev = Some e ->
  (forall j, ~ slot (watch_table s) j ev) -> fd_valid (fd e) = true -> fd e ∉ readFds s ->
  ev ∉ timer_list :: pending_list :: ts ->
  exists s', add_at (Z.of_nat i) (Some ev) s = Ok (tt, s') /\
    ev_heap s' = <[ev := set_index (Z.of_nat i) e]> (ev_heap s) /\
    watch_table s' = <[i := Some ev]> (watch_table s) /\
    readFds s' = {[fd e]} ∪ readFds s /\ nfds s' = Z.max (nfds s) (fd e + 1) /\ ev_inv s' ts ps.
Proof.
  intros [HL HS HW [HN1 HN2] HD] Hi He Hns Hv Hr Hni.
  assert (Hlt : (i < length (watch_table s))%nat) by (by eapply lookup_lt_Some).
  set (h' := <[ev := set_index (Z.of_nat i) e]> (ev_heap s)).
  set (s1 := set_watch_table (<[i := Some ev]> (watch_table s)) s).
  set (s2 := set_heap h' s1). set (s3 := set_readFds ({[fd e]} ∪ readFds s) s2).
  assert (E1 : watch_put (Z.of_nat i) (Some ev) s = Ok (tt, s1)).
  { unfold watch_put. rewrite Nat2Z.id. by replace (_ && _) with true by lia. }
  assert (E2 : onheap (upd (Some ev) (set_index (Z.of_nat i))) s1 = Ok (tt, s2)).
  { apply onheap_Ok. simpl. by rewrite He. }
  assert (E3 : onheap (load (Some ev)) s2 = Ok (set_index (Z.of_nat i) e, s2)).
  { rewrite (onheap_Ok _ _ (set_index (Z.of_nat i) e) h'); [done|]. unfold load. simpl.
    unfold h'. by rewrite lookup_insert_eq. }
  assert (E4 : FD_SET (fd e) s2 = Ok (tt, s3)) by (unfold FD_SET; by rewrite Hv).
  exists (set_nfds (Z.max (nfds s) (fd e + 1)) s3). split.
  { unfold add_at. run_cmd E1. run_cmd E2. run_cmd E3. simpl fd. run_cmd E4.
    rewrite (cmd_bind_Ok _ _ _ _ _ (eq_refl : get_st s3 = Ok (_, _))). simpl.
    destruct (Z.geb_spec (fd e) (nfds s)).
    - by rewrite Z.max_r by lia.
    - rewrite Z.max_l by lia. done. }
  split_and!; [done..|]. unfold fd_valid in Hv. split; simpl.
  - eapply lists_ok_same_links; [by eapply same_links_insert|done].
  - eapply timers_sorted_ext; [|done]. intros b _. by apply set_index_tmo.
  - by apply watch_ok_add.
  - split.
    + intros x [->%elem_of_singleton|Hx]%elem_of_union; [lia|]. specialize (HN1 x Hx). lia.
    + right. destruct (Z.max_spec (nfds s) (fd e + 1)) as [[? ->]|[? ->]];
        [replace (fd e + 1 - 1) with (fd e) by lia; set_solver|].
      destruct HN2 as [[Hn ->]|HN2]; [|set_solver]. replace (nfds s - 1) with (fd e) by lia. set_solver.
  - intros j b Hb. apply slot_insert in Hb as [[_ [= ->]]|[_ Hb]]; [done|by eapply HD|done].
Qed.

Lemma ril_event_add_ok (s : estate CB) ts ps ev e :
  ev_inv s ts ps -> ev_heap s !! ev = Some e ->
  (forall j, ~ slot (watch_table s) j ev) -> fd_valid (fd e) = true -> fd e ∉ readFds s ->
  ev ∉ timer_list :: pending_list :: ts ->
  match first_free (watch_table s) with
  | Some i => exists s', ril_event_add (Some ev) s = Ok (tt, s') /\
      ev_heap s' = <[ev := set_index (Z.of_nat i) e]> (ev_heap s) /\
      watch_table s' = <[i := Some ev]> (watch_table s) /\
      readFds s' = {[fd e]} ∪ readFds s /\ nfds s' = Z.max (nfds s) (fd e + 1) /\ ev_inv s' ts ps
  | None => ril_event_add (Some ev) s = Ok (tt, s)
  end.
Proof.
  intros HI He Hns Hv Hr Hni. unfold ril_event_add. change 0 with (Z.of_nat 0).
  rewrite add_loop_find by (by rewrite (wo_len _ _ _ (ei_watch _ _ _ HI))). rewrite drop_0.
  destruct (first_free (watch_table s)) as [i|] eqn:Hf; [|done]. simpl.
  apply add_at_ok; try done. by apply first_free_Some.
Qed.

(** ** ril_event_del *)

Lemma ril_event_del_ok (s : estate CB) ts ps i a e :
  ev_inv s ts ps -> slot (watch_table s) i a -> ev_heap s !! a = Some e ->
  exists s', ril_event_del (Some a) s = Ok (tt, s') /\
    ev_heap s' = <[a := set_index (-1) e]> (ev_heap s) /\
    watch_table s' = <[i := None]> (watch_table s) /\
    readFds s' = readFds s ∖ {[fd e]} /\ ev_inv s' ts ps.
Proof.
  intros HI Hi He. destruct (removeWatch_inv s ts ps i a e HI Hi He) as (s' & E & H).
  exists s'. split; [|done]. unfold ril_event_del.
  assert (El : onheap (load (Some a)) s = Ok (e, s)).
  { rewrite (onheap_Ok _ _ e (ev_heap s)), set_heap_id; [done|]. unfold load. by rewrite He. }
  run_cmd El. destruct (wo_ev _ _ _ (ei_watch _ _ _ HI) i a Hi) as (e' & He' & Hx & _). simplify_eq.
  assert (Hlt : (i < length (watch_table s))%nat) by (by eapply lookup_lt_Some).
  rewrite (wo_len _ _ _ (ei_watch _ _ _ HI)) in Hlt. rewrite Hx.
  replace ((Z.of_nat i <? 0) || (Z.of_nat i >=? Z.of_nat MAX_FD_EVENTS)) with false by lia. done.
Qed.

(** ** calcNextTimeout *)

Lemma timers_sorted_head (h : heap) t ts a : timers_sorted h (t :: ts) -> a ∈ t :: ts -> due h t <= due h a.
Proof.
  intros [HS _] [->|Ha]%elem_of_cons; [lia|]. apply StronglySorted_cons in HS as [HF _].
  rewrite Forall_forall in HF. by apply HF.
Qed.

Lemma calcNextTimeout_ok (s : estate CB) ts ps now tv0 :
  ev_inv s ts ps -> tv_ok now ->
  match ts with
  | [] => calcNextTimeout now tv0 s = Ok ((-1, tv0), s)
  | t :: _ => exists tv, calcNextTimeout now tv0 s = Ok ((0, tv), s) /\ tv_ok tv /\
      tv_us tv = us32 (Z.max 0 (due (ev_heap s) t - tv_us now))
  end.
Proof.
  intros [HL HS _ _ _] Hn. destruct (timers_head _ _ _ HL) as (e & E & Ne).
  unfold calcNextTimeout. rewrite (cmd_bind_Ok _ _ _ _ _ (onheap_Ok _ _ _ _ E)), set_heap_id, Ne.
  destruct ts as [|t ts]; simpl; [done|]. destruct HL as (HT & _). pose proof HT as [HND _].
  rewrite decide_False; [|intros [= ->]; apply NoDup_cons in HND; set_solver].
  destruct (load_some (ev_heap s) t) as (l & El & _ & _ & Hl); [eapply dll_some; [done|set_solver]|].
  rewrite (cmd_bind_Ok _ _ _ _ _ (onheap_Ok _ _ _ _ El)), set_heap_id.
  assert (Ht : tmo (ev_heap s) t = timeout l) by (unfold tmo; by rewrite Hl).
  assert (Hok : tv_ok (timeout l)).
  { rewrite <- Ht. destruct HS as [_ HF]. by apply Forall_cons in HF as [? _]. }
  unfold due. rewrite Ht, timercmp_gt by done. destruct (timersub_ok _ _ Hok Hn) as [Hs1 Hs2].
  destruct (Z.ltb_spec (tv_us now) (tv_us (timeout l))).
  - eexists. split; [done|]. split; [done|]. rewrite Hs2, Z.max_r by lia. done.
  - eexists. split; [done|]. split; [done|]. rewrite Z.max_l by lia. done.
Qed.

(** ** ril_event_init *)

Lemma init_list_ok (h : heap) l :
  is_Some (h !! l) -> exists h', init_list l h = Ok (tt, h') /\
    (forall b, b <> l -> h' !! b = h !! b) /\ (exists e, h' !! l = Some e /\ next e = Some l /\ prev e = Some l).
Proof.
  intros [e He]. eexists. split.
  - unfold init_list, mbind, cmd_bind, upd. rewrite He, !lookup_insert_eq. done.
  - split; [intros b Hb; by rewrite !lookup_insert_ne by done|].
    eexists. rewrite lookup_insert_eq. done.
Qed.

(** Any state with two self-linked sentinels and nothing watched is good. *)
Lemma ev_inv_empty (s : estate CB) :
  nxt (ev_heap s) timer_list = Some timer_list -> prv (ev_heap s) timer_list = Some timer_list ->
  nxt (ev_heap s) pending_list = Some pending_list -> prv (ev_heap s) pending_list = Some pending_list ->
  watch_table s = replicate MAX_FD_EVENTS None -> readFds s = ∅ -> nfds s = 0 \/ nfds s = 1 ->
  ev_inv s [] [].
Proof.
  intros H1 H2 H3 H4 Ht Hr Hn.
  assert (Hns : forall i a, ~ slot (watch_table s) i a).
  { intros i a Hs. unfold slot in Hs. rewrite Ht in Hs. by apply lookup_replicate in Hs as [? _]. }
  split.
  - split_and!; [split; [apply NoDup_singleton|done]..|set_solver].
  - split; constructor.
  - split.
    + by rewrite Ht.
    + intros i a Hs. by apply Hns in Hs.
    + intros x. rewrite Hr. split; [set_solver|]. intros (i & a & e & Hs & _). by apply Hns in Hs.
    + intros i j x (a & e & Hs & _). by apply Hns in Hs.
  - split; [rewrite Hr; set_solver|]. by left.
  - intros i a Hs. by apply Hns in Hs.
Qed.

Lemma ril_event_init_ok (s : estate CB) :
  is_Some (ev_heap s !! timer_list) -> is_Some (ev_heap s !! pending_list) ->
  nfds s = 0 \/ nfds s = 1 ->
  exists s', ril_event_init s = Ok (tt, s') /\ ev_inv s' [] [] /\
    (forall b, b <> timer_list -> b <> pending_list -> ev_heap s' !! b = ev_heap s !! b) /\
    watch_table s' = replicate MAX_FD_EVENTS None /\ readFds s' = ∅.
Proof.
  intros HT HP Hn. set (s1 := set_readFds ∅ s).
  destruct (init_list_ok (ev_heap s1) timer_list HT) as (h1 & E1 & F1 & e1 & L1 & N1 & P1).
  destruct (init_list_ok h1 pending_list) as (h2 & E2 & F2 & e2 & L2 & N2 & P2); [by rewrite F1|].
  exists (set_watch_table (replicate MAX_FD_EVENTS None) (set_heap h2 (set_heap h1 s1))). split.
  { unfold ril_event_init. rewrite (cmd_bind_Ok _ _ _ _ _ (eq_refl : modify (set_readFds ∅) s = Ok (tt, s1))).
    rewrite (cmd_bind_Ok _ _ _ _ _ (onheap_Ok _ s1 _ _ E1)).
    by rewrite (cmd_bind_Ok _ _ _ _ _ (onheap_Ok _ (set_heap h1 s1) _ _ E2)). }
  split; [|split; [|done]].
  - apply ev_inv_empty; simpl; try done; unfold nxt, prv.
    + by rewrite F2, L1.
    + by rewrite F2, L1.
    + by rewrite L2.
    + by rewrite L2.
  - intros b Hb1 Hb2. simpl. by rewrite F2, F1.
Qed.

(** The first event of the pending list, taken out. *)
Lemma pend_remove (s : estate CB) ts ps a :
  ev_inv s ts (a :: ps) ->
  exists h', removeFromList (Some a) (ev_heap s) = Ok (tt, h') /\ same_data (ev_heap s) h' /\
    ev_inv (set_heap h' s) ts ps.
Proof.
  intros [(HT & HP & HDj) HS HW HN HD].
  destruct (removeFromList_dll _ _ [] _ _ HP) as (h' & E & D & L & _ & _ & F). simpl in F.
  exists h'. split_and!; [done..|]. split; simpl; [| | |done|done].
  - split_and!; [|done|].
    + eapply dll_frame; [|done]. intros b Hb. apply F. by apply HDj.
    + intros b Hb. specialize (HDj b Hb). set_solver.
  - eapply timers_sorted_ext; [intros; by apply same_data_tmo|done].
  - by eapply watch_ok_same.
Qed.

End EventLoopSpec.

(** ** firePending and the loop, for any client state *)

Section FireSpec.
Context {CB S : Type} `{EventStore CB S}.
Variable call : CB -> Z -> option loc -> cmd S unit.

(** What is called for an event: function, descriptor, parameter. *)
Definition desc (h : gmap loc (@ril_event CB)) (a : loc) : option (CB * Z * option loc) :=
  e ← h !! a; f ← func e; Some (f, fd e, param e).

(** A history of calls kept with the client's state. *)
Variable calls : S -> list (CB * Z * option loc).

(** The contract of callbacks: they run, keep the invariant, leave the
    pending list and the settings of its events alone; each call is
    recorded in the history. *)
Definition call_contract : Prop := forall f x p s ts ps,
  ev_inv (es_get s) ts ps ->
  exists s' ts', call f x p s = Ok (tt, s') /\ ev_inv (es_get s') ts' ps /\
    (forall a, a ∈ ps -> cfg <$> ev_heap (es_get s') !! a = cfg <$> ev_heap (es_get s) !! a) /\
    calls s' = calls s ++ [(f, x, p)].

Hypothesis Hcall : call_contract.
Hypothesis calls_put : forall e s, calls (es_put e s) = calls s.

Lemma onev_Ok {A} (m : cmd (estate CB) A) (s : S) a e :
  m (es_get s) = Ok (a, e) -> onev m s = Ok (a, es_put e s).
Proof. intros E. unfold onev. by rewrite E. Qed.

Lemma cfg_desc (h h' : gmap loc ril_event) a : cfg <$> h' !! a = cfg <$> h !! a -> desc h' a = desc h a.
Proof.
  intros Hc. unfold desc. destruct (h' !! a) as [e'|], (h !! a) as [e|]; simpl in *; try done.
  apply (inj Some) in Hc. pose proof (f_equal func Hc) as H1. pose proof (f_equal fd Hc) as H2.
  pose proof (f_equal param Hc) as H3. simpl in *. by rewrite H1, H2, H3.
Qed.

Lemma firePending_loop_ok fuel (s : S) ts ps :
  ev_inv (es_get s) ts ps -> (length ps < fuel)%nat ->
  (forall a, a ∈ ps -> is_Some (desc (ev_heap (es_get s)) a)) ->
  exists s' ts', firePending_loop call fuel (Some (firstn_or ps pending_list)) s = Ok (tt, s') /\
    ev_inv (es_get s') ts' [] /\
    calls s' = calls s ++ omap (desc (ev_heap (es_get s))) ps.
Proof.
  revert s ts ps; induction fuel as [|fuel IH]; intros s ts ps HI Hlen Hf; [lia|].
  destruct ps as [|a ps]; simpl.
  { exists s, ts. rewrite app_nil_r. done. }
  pose proof (ei_lists _ _ _ HI) as (_ & HP & _). pose proof HP as [HND HL].
  rewrite decide_False; [|intros [= ->]; apply NoDup_cons in HND; set_solver].
  destruct (load_some _ a (dll_some _ _ _ a HP ltac:(set_solver))) as (e & E1 & Ne & _ & He).
  rewrite (cmd_bind_Ok _ _ _ _ _ (onev_Ok _ _ _ _ (onheap_Ok _ _ _ _ E1))), set_heap_id, es_put_get.
  destruct (pend_remove _ _ _ _ HI) as (h' & E2 & D2 & I2).
  rewrite (cmd_bind_Ok _ _ _ _ _ (onev_Ok _ _ _ _ (onheap_Ok _ _ _ _ E2))).
  set (s1 := es_put (set_heap h' (es_get s)) s).
  assert (Hs1 : es_get s1 = set_heap h' (es_get s)) by apply es_get_put.
  destruct (same_data_lookup _ _ _ _ D2 He) as (e' & He' & Hd).
  assert (E3 : onev (onheap (load (Some a))) s1 = Ok (e', s1)).
  { rewrite (onev_Ok _ _ e' (es_get s1)), es_put_get; [done|].
    rewrite (onheap_Ok _ _ e' (ev_heap (es_get s1))), set_heap_id; [done|].
    unfold load. rewrite Hs1. simpl. by rewrite He'. }
  run_cmd E3.
  assert (Hda : desc (ev_heap (es_get s1)) a = desc (ev_heap (es_get s)) a).
  { apply cfg_desc. rewrite Hs1. simpl. by apply (same_data_view cfg). }
  destruct (Hf a) as [[[f x] p] Hdesc]; [set_solver|]. rewrite Hdesc in Hda |- *.
  unfold desc in Hda. rewrite Hs1 in Hda. simpl in Hda. rewrite He' in Hda. simpl in Hda.
  destruct (func e') as [f'|]; [|done]. simpl in Hda. injection Hda as -> <- <-.
  rewrite <- Hs1 in I2. destruct (Hcall f (fd e') (param e') s1 ts ps I2) as (s2 & ts2 & E4 & I4 & C4 & L4).
  run_cmd E4.
  assert (Hds : forall b, b ∈ ps -> desc (ev_heap (es_get s2)) b = desc (ev_heap (es_get s)) b).
  { intros b Hb. rewrite (cfg_desc _ _ _ (C4 b Hb)). apply cfg_desc. rewrite Hs1. by apply (same_data_view cfg). }
  destruct (IH s2 ts2 ps I4) as (s3 & ts3 & E5 & I5 & L5); [simpl in *; lia| |].
  { intros b Hb. rewrite Hds by done. apply Hf. set_solver. }
  assert (Hn : next e = Some (firstn_or ps pending_list)).
  { rewrite Ne. simpl in HL. destruct HL as (_ & _ & HL). by apply links_first in HL. }
  exists s3, ts3. rewrite Hn, E5. split_and!; [done..|]. rewrite L5, L4, <- app_assoc. simpl.
  unfold s1. rewrite calls_put. f_equal. f_equal. by apply omap_ext_in.
Qed.

Lemma firePending_ok fuel (s : S) ts ps :
  ev_inv (es_get s) ts ps -> (length ps < fuel)%nat ->
  (forall a, a ∈ ps -> is_Some (desc (ev_heap (es_get s)) a)) ->
  exists s' ts', firePending call fuel s = Ok (tt, s') /\ ev_inv (es_get s') ts' [] /\
    calls s' = calls s ++ omap (desc (ev_heap (es_get s))) ps.
Proof.
  intros HI Hlen Hf. pose proof (ei_lists _ _ _ HI) as (_ & HP & _).
  destruct (load_some _ pending_list (dll_some _ _ _ pending_list HP ltac:(set_solver))) as (e & E & Ne & _).
  unfold firePending.
  rewrite (cmd_bind_Ok _ _ _ _ _ (onev_Ok _ _ _ _ (onheap_Ok _ _ _ _ E))), set_heap_id, es_put_get, Ne.
  destruct HP as [_ HL]. rewrite (links_first _ _ _ _ HL). by apply firePending_loop_ok with ts.
Qed.

Lemma desc_cfg_eq (h h' : gmap loc ril_event) a : same_cfg h h' -> desc h' a = desc h a.
Proof. intros HC. apply cfg_desc. by apply (same_cfg_view cfg). Qed.

(** The events one turn of the loop delivers, in order. *)
Definition turn_events (s : estate CB) (ts : list loc) (now : timeval) (n : Z) (out : gset Z) : list loc :=
  List.filter (expired (ev_heap s) now) ts ++
  take (Z.to_nat n) (ready (ev_heap s) out (watch_table s)).

Lemma loop_turn_ok fuel env (s : S) ts n out :
  ev_inv (es_get s) ts [] -> tv_ok (now_calc env) -> tv_ok (now_proc env) ->
  (forall ptv, select env (nfds (es_get s)) (readFds (es_get s)) ptv = SelOk n out) -> 0 <= n ->
  let evs := turn_events (es_get s) ts (now_proc env) n out in
  (forall a, a ∈ evs -> is_Some (desc (ev_heap (es_get s)) a)) -> (length evs < fuel)%nat ->
  exists s' ts', ril_event_loop_body call fuel env s = Ok (true, s') /\ ev_inv (es_get s') ts' [] /\
    calls s' = calls s ++ omap (desc (ev_heap (es_get s))) evs.
Proof.
  intros HI Hn1 Hn2 Hsel Hn evs Hd Hlen. unfold ril_event_loop_body.
  rewrite (cmd_bind_Ok _ _ _ _ _ (eq_refl : get_st s = Ok (_, _))).
  assert (Hcalc : exists r, onev (calcNextTimeout (now_calc env) (mkTv 0 0)) s = Ok (r, s)).
  { pose proof (calcNextTimeout_ok _ _ _ _ (mkTv 0 0) HI Hn1) as Hc.
    destruct ts as [|t ts]; [eexists; by rewrite (onev_Ok _ _ _ _ Hc), es_put_get|].
    destruct Hc as (tv & Hc & _). eexists. by rewrite (onev_Ok _ _ _ _ Hc), es_put_get. }
  destruct Hcalc as [r Hcalc]. run_cmd Hcalc. rewrite Hsel. replace (n <? 0) with false by lia.
  destruct (processTimeouts_ok _ _ _ _ HI Hn2) as (e1 & E1 & D1 & T1 & R1 & N1 & I1).
  rewrite (cmd_bind_Ok _ _ _ _ _ (onev_Ok _ _ _ _ E1)). simpl in I1.
  assert (Hidle : watch_idle e1 (List.filter (expired (ev_heap (es_get s)) (now_proc env)) ts)).
  { intros i a Hi Ha. rewrite T1 in Hi. apply (ei_wdisj _ _ _ HI i a Hi).
    apply elem_of_filter_bool in Ha as [? _]. set_solver. }
  destruct (processReadReadies_ok _ _ _ out n I1 Hidle) as (e2 & E2 & T2 & C2 & I2).
  assert (E2' : onev (processReadReadies out n) (es_put e1 s) = Ok (tt, es_put e2 s)).
  { rewrite (onev_Ok _ _ tt e2), es_put_put; [done|]. by rewrite es_get_put. }
  run_cmd E2'. pose proof (same_data_cfg _ _ D1) as C1.
  rewrite T1, (same_cfg_ready_list _ _ _ _ C1) in I2. fold (turn_events (es_get s) ts (now_proc env) n out) in I2.
  assert (Hcfg : forall a, desc (ev_heap e2) a = desc (ev_heap (es_get s)) a).
  { intros a. apply desc_cfg_eq. by eapply same_cfg_trans. }
  destruct (firePending_ok fuel (es_put e2 s)
    (List.filter (fun a => negb (expired (ev_heap (es_get s)) (now_proc env) a)) ts) evs)
    as (s' & ts' & E3 & I3 & L3); rewrite ?es_get_put; [done|done|intros; rewrite Hcfg; auto|].
  run_cmd E3. exists s', ts'. split; [done|]. split; [done|].
  rewrite L3, es_get_put, calls_put. f_equal. apply omap_ext_in. auto.
Qed.

End FireSpec.
