(* ===== verification/EventTheorems.v ===== *)
(** * Properties of libril/ril_event.cpp

    The properties proper, each with a concrete instance.  The work is done
    by the [_ok] lemmas of EventSpec.v and EventLoopSpec.v. *)

From S2P Require Import Prelude EventHeap EventLoop EventSpec EventLoopSpec.

(** ** A concrete event state for the instances *)

Section Example.

(** A fresh [struct ril_event] watching descriptor [x], callback [f]. *)
Definition ex_event (x : Z) (f : nat) : @ril_event nat :=
  mkEv None None x (-1) false (mkTv 0 0) (Some f) None.
Definition ex_sentinel (l : loc) : @ril_event nat :=
  mkEv (Some l) (Some l) (-1) 0 false (mkTv 0 0) None None.

Definition ex_heap : gmap loc (@ril_event nat) :=
  <[3%positive := ex_event 5 30]> (<[4%positive := ex_event 7 40]> (<[5%positive := ex_event 9 50]>
  (<[pending_list := ex_sentinel pending_list]> (<[timer_list := ex_sentinel timer_list]> ∅)))).

Definition ex0 : estate nat := mkEstate ex_heap (replicate MAX_FD_EVENTS None) ∅ 0.

Definition run_or {A} (m : cmd (estate nat) A) (s : estate nat) : estate nat :=
  match m s with Ok (_, s') => s' | _ => s end.

(** Event 4 becomes a timer due at 11 s; event 3 is then watched. *)
Definition ex1 : estate nat := run_or (ril_timer_add (Some 4%positive) (Some (mkTv 1 0)) (mkTv 10 0)) ex0.
Definition ex2 : estate nat := run_or (ril_event_add (Some 3%positive)) ex1.

Lemma ex0_inv : ev_inv ex0 [] [].
Proof. apply ev_inv_empty; try reflexivity. by left. Qed.

Lemma no_slot_empty i a : ~ slot (replicate MAX_FD_EVENTS None) i a.
Proof. intros Hs. by apply lookup_replicate in Hs as [? _]. Qed.

Lemma ex1_inv : ev_inv ex1 [4%positive] [].
Proof.
  destruct (ril_timer_add_ok ex0 [] [] 4%positive (mkTv 1 0) (mkTv 10 0) (ex_event 7 40))
    as (s' & E & _ & _ & _ & _ & _ & I).
  - apply ex0_inv.
  - reflexivity.
  - simpl. set_solver.
  - intros i. apply no_slot_empty.
  - unfold tv_ok; simpl; lia.
  - unfold tv_ok; simpl; lia.
  - unfold ex1, run_or. by rewrite E.
Qed.

Lemma ex1_table : watch_table ex1 = replicate MAX_FD_EVENTS None.
Proof. reflexivity. Qed.

Lemma ex2_inv : ev_inv ex2 [4%positive] [].
Proof.
  pose proof (ril_event_add_ok ex1 [4%positive] [] 3%positive (ex_event 5 30) ex1_inv) as H.
  destruct H as (s' & E & _ & _ & _ & _ & I).
  - reflexivity.
  - intros i. rewrite ex1_table. apply no_slot_empty.
  - reflexivity.
  - vm_compute. set_solver.
  - set_solver.
  - unfold ex2, run_or. by rewrite E.
Qed.

End Example.

Lemma expired_filter {CB} (h : gmap loc (@ril_event CB)) now ts (g : bool -> bool) :
  tv_ok now -> timers_sorted h ts ->
  List.filter (fun a => g (expired h now a)) ts = List.filter (fun a => g (due h a <? tv_us now)) ts.
Proof.
  intros Hn [_ HF]. rewrite Forall_forall in HF. apply List.filter_ext_in. intros a Ha%list_elem_of_In.
  by rewrite expired_due by auto.
Qed.

(** C14. [ril_timer_add]: on a well-formed event state, adding a timer runs
    to completion without undefined behaviour, keeps every invariant (in
    particular the order of the list) and inserts the event after exactly
    the timers that are due strictly earlier; its due time [d] is the clock
    reading plus the relative time, as the 32-bit [tv_sec] holds it: the sum
    itself unless its seconds overflow. *)
Theorem ril_timer_add_inserts_sorted {CB} (s : estate CB) ts ps ev tv now e :
  ev_inv s ts ps -> ev_heap s !! ev = Some e -> ev ∉ timer_list :: pending_list :: ts ++ ps ->
  (forall i, ~ slot (watch_table s) i ev) -> tv_ok tv -> tv_ok now ->
  let d := us32 (tv_us now + tv_us tv) in
  (us_ok (tv_us now + tv_us tv) -> d = tv_us now + tv_us tv) /\
  exists s', ril_timer_add (Some ev) (Some tv) now s = Ok (tt, s') /\
    due (ev_heap s') ev = d /\
    watch_table s' = watch_table s /\ readFds s' = readFds s /\ nfds s' = nfds s /\
    ev_inv s' (List.filter (fun a => due (ev_heap s) a <? d) ts ++
               ev :: List.filter (fun a => negb (due (ev_heap s) a <? d)) ts) ps.
Proof.
  intros HI He Hni Hns Htv Hnow d. split; [apply us32_id|]. destruct (ril_timer_add_ok s ts ps ev tv now e) as (s' & E & T & R & N & _ & D & I);
    [done..|]. exists s'. done.
Qed.

Lemma ril_timer_add_inserts_sorted_witness :
  exists s', ril_timer_add (Some 5%positive) (Some (mkTv 0 500000)) (mkTv 10 0) ex1 = Ok (tt, s') /\
    ev_inv s' [5%positive; 4%positive] [].
Proof.
  destruct (ril_timer_add_inserts_sorted ex1 [4%positive] [] 5%positive (mkTv 0 500000) (mkTv 10 0) (ex_event 9 50)
    ex1_inv eq_refl) as (_ & s' & E & _ & _ & _ & _ & I).
  - set_solver.
  - intros i. rewrite ex1_table. apply no_slot_empty.
  - unfold tv_ok; simpl; lia.
  - unfold tv_ok; simpl; lia.
  - exists s'. split; [exact E|exact I].
Defined.

(** [processTimeouts]: moves to the pending list exactly the timers
    whose due time is strictly before the clock reading, in due order, and
    leaves the others in the timer list; the watch table is untouched. *)
Theorem processTimeouts_moves_expired {CB} (s : estate CB) ts ps now :
  ev_inv s ts ps -> tv_ok now ->
  exists s', processTimeouts now s = Ok (tt, s') /\
    watch_table s' = watch_table s /\ readFds s' = readFds s /\ nfds s' = nfds s /\
    ev_inv s' (List.filter (fun a => negb (due (ev_heap s) a <? tv_us now)) ts)
              (ps ++ List.filter (fun a => due (ev_heap s) a <? tv_us now) ts).
Proof.
  intros HI Hn. destruct (processTimeouts_ok s ts ps now HI Hn) as (s' & E & _ & T & R & N & I).
  exists s'. split_and!; [done..|]. pose proof (ei_sorted _ _ _ HI) as HS.
  by rewrite <- (expired_filter _ now ts negb Hn HS), <- (expired_filter _ now ts (fun b => b) Hn HS).
Qed.

Lemma processTimeouts_moves_expired_witness :
  exists s', processTimeouts (mkTv 11 1) ex2 = Ok (tt, s') /\ ev_inv s' [] [4%positive].
Proof.
  destruct (processTimeouts_moves_expired ex2 [4%positive] [] (mkTv 11 1) ex2_inv) as (s' & E & _ & _ & _ & I).
  - unfold tv_ok; simpl; lia.
  - exists s'. split; [exact E|exact I].
Defined.

(** [calcNextTimeout]: it returns -1 exactly when there is no timer;
    otherwise the timeout handed to [select] is a normalised [timeval]
    equal to the time left until the earliest due timer (0 when that moment
    has passed), as the 32-bit [tv_sec] holds it, and never negative when
    that time fits.  It changes no state. *)
Theorem calcNextTimeout_earliest {CB} (s : estate CB) ts ps now tv0 :
  ev_inv s ts ps -> tv_ok now ->
  match ts with
  | [] => calcNextTimeout now tv0 s = Ok ((-1, tv0), s)
  | t :: _ =>
      (forall a, a ∈ ts -> due (ev_heap s) t <= due (ev_heap s) a) /\
      exists tv, calcNextTimeout now tv0 s = Ok ((0, tv), s) /\ tv_ok tv /\
        tv_us tv = us32 (Z.max 0 (due (ev_heap s) t - tv_us now)) /\
        (us_ok (due (ev_heap s) t - tv_us now) -> tv_us tv = Z.max 0 (due (ev_heap s) t - tv_us now))
  end.
Proof.
  intros HI Hn. pose proof (calcNextTimeout_ok s ts ps now tv0 HI Hn) as H.
  destruct ts as [|t ts]; [done|]. split.
  - intros a Ha. eapply timers_sorted_head; [apply (ei_sorted _ _ _ HI)|done].
  - destruct H as (tv & E & Hok & Hus). exists tv. split_and!; [done..|]. intros Hr. rewrite Hus. apply us32_id.
    unfold us_ok in *. lia.
Qed.

Lemma calcNextTimeout_earliest_witness :
  calcNextTimeout (mkTv 10 250000) (mkTv 0 0) ex2 = Ok ((0, mkTv 0 750000), ex2).
Proof.
  destruct (calcNextTimeout_earliest ex2 [4%positive] [] (mkTv 10 250000) (mkTv 0 0) ex2_inv)
    as (_ & tv & E & _ & _).
  - unfold tv_ok; simpl; lia.
  - rewrite E. vm_compute in E. congruence.
Defined.

(** A timer due at exactly the time of the clock reading is not fired by
    [processTimeouts] although [calcNextTimeout] asks [select] not to
    wait for it: the comment "see if now >= ev->timeout" describes a
    comparison the code does not make (it tests now > timeout). *)
Theorem timer_due_now_waits {CB} (s : estate CB) t ts ps now tv0 :
  ev_inv s (t :: ts) ps -> tv_ok now -> due (ev_heap s) t = tv_us now ->
  calcNextTimeout now tv0 s = Ok ((0, mkTv 0 0), s) /\
  exists s', processTimeouts now s = Ok (tt, s') /\ ev_inv s' (t :: ts) ps.
Proof.
  intros HI Hn Hd. pose proof (ei_sorted _ _ _ HI) as HS. split.
  - destruct (calcNextTimeout_ok s (t :: ts) ps now tv0 HI Hn) as (tv & E & Hok & Hus).
    rewrite E. do 3 f_equal. rewrite Hd, Z.sub_diag, us32_id in Hus by (unfold us_ok; lia).
    unfold tv_ok, tv_us in *. destruct tv as [a b]; simpl in *. f_equal; lia.
  - destruct (processTimeouts_ok s (t :: ts) ps now HI Hn) as (s' & E & _ & _ & _ & _ & I).
    exists s'. split; [done|].
    assert (Hx : forall a, a ∈ t :: ts -> expired (ev_heap s) now a = false).
    { intros a Ha. pose proof (timers_sorted_head _ _ _ a HS Ha). destruct HS as [_ HF].
      rewrite Forall_forall in HF. rewrite expired_due by auto. lia. }
    rewrite (filter_none (expired _ _) _ Hx), app_nil_r, filter_all in I; [done|].
    intros a Ha. by rewrite Hx.
Qed.

Lemma timer_due_now_waits_witness :
  calcNextTimeout (mkTv 11 0) (mkTv 9 9) ex2 = Ok ((0, mkTv 0 0), ex2) /\
  exists s', processTimeouts (mkTv 11 0) ex2 = Ok (tt, s') /\ ev_inv s' [4%positive] [].
Proof.
  apply (timer_due_now_waits ex2 4%positive [] [] (mkTv 11 0) (mkTv 9 9) ex2_inv).
  - unfold tv_ok; simpl; lia.
  - reflexivity.
Defined.

(** [ril_event_add]: the event goes to the first free slot, its index
    records it, its descriptor joins the watched set and [nfds] covers it;
    with no free slot the call changes nothing at all (the event is
    dropped without any report to the caller). *)
Theorem ril_event_add_first_free {CB} (s : estate CB) ts ps ev e :
  ev_inv s ts ps -> ev_heap s !! ev = Some e ->
  (forall j, ~ slot (watch_table s) j ev) -> fd_valid (fd e) = true -> fd e ∉ readFds s ->
  ev ∉ timer_list :: pending_list :: ts ->
  match first_free (watch_table s) with
  | Some i => exists s', ril_event_add (Some ev) s = Ok (tt, s') /\
      ev_heap s' = <[ev := set_index (Z.of_nat i) e]> (ev_heap s) /\
      watch_table s' = <[i := Some ev]> (watch_table s) /\
      readFds s' = {[fd e]} ∪ readFds s /\ nfds s' = Z.max (nfds s) (fd e + 1) /\ ev_inv s' ts ps
  | None => ril_event_add (Some ev) s = Ok (tt, s)
  end.
Proof. apply ril_event_add_ok. Qed.

Lemma ril_event_add_first_free_witness :
  exists s', ril_event_add (Some 5%positive) ex2 = Ok (tt, s') /\ nfds s' = 10 /\ ev_inv s' [4%positive] [].
Proof.
  destruct (ril_event_add_first_free ex2 [4%positive] [] 5%positive (ex_event 9 50) ex2_inv eq_refl)
    as (s' & E & _ & _ & _ & N & I).
  - intros j Hs. vm_compute in Hs. by do 9 (destruct j as [|j]; [discriminate Hs|]).
  - reflexivity.
  - vm_compute. set_solver.
  - set_solver.
  - exists s'. split; [exact E|]. split; [rewrite N; reflexivity|exact I].
Defined.

(** [ril_event_del] of a watched event frees its slot, removes its
    descriptor from the watched set and re-establishes [nfds] as one more
    than the largest descriptor still watched. *)
Theorem ril_event_del_unwatches {CB} (s : estate CB) ts ps i a e :
  ev_inv s ts ps -> slot (watch_table s) i a -> ev_heap s !! a = Some e ->
  exists s', ril_event_del (Some a) s = Ok (tt, s') /\
    watch_table s' = <[i := None]> (watch_table s) /\
    readFds s' = readFds s ∖ {[fd e]} /\
    (forall x, x ∈ readFds s' -> x < nfds s') /\
    (readFds s' <> ∅ -> nfds s' - 1 ∈ readFds s') /\ ev_inv s' ts ps.
Proof.
  intros HI Hi He. destruct (ril_event_del_ok s ts ps i a e HI Hi He) as (s' & E & _ & T & R & I).
  exists s'. pose proof (ei_nfds _ _ _ I) as [HN1 HN2]. split_and!; [done..| | |done].
  - intros x Hx. by apply HN1.
  - intros Hne. destruct HN2 as [[_ ?]|?]; [by destruct Hne|done].
Qed.

Lemma ril_event_del_unwatches_witness :
  exists s', ril_event_del (Some 3%positive) ex2 = Ok (tt, s') /\ readFds s' = {[5]} ∖ {[5]} /\
    ev_inv s' [4%positive] [].
Proof.
  destruct (ril_event_del_unwatches ex2 [4%positive] [] 0 3%positive (set_index 0 (ex_event 5 30)) ex2_inv eq_refl eq_refl)
    as (s' & E & _ & R & _ & _ & I).
  exists s'. split; [exact E|]. split; [rewrite R; reflexivity|exact I].
Defined.

(** [processReadReadies]: the watched events whose descriptor [select]
    left in [rfds] are queued in slot order, at most [n] of them; those
    that are not persistent lose their slot, persistent ones keep it, and
    every other slot is unchanged. *)
Theorem processReadReadies_queues_ready {CB} (s : estate CB) ts ps out n :
  ev_inv s ts ps -> watch_idle s ps ->
  exists s', processReadReadies out n s = Ok (tt, s') /\
    watch_table s' = taken (ev_heap s) out n (watch_table s) /\
    ev_inv s' ts (ps ++ take (Z.to_nat n) (ready (ev_heap s) out (watch_table s))).
Proof.
  intros HI Hid. destruct (processReadReadies_ok s ts ps out n HI Hid) as (s' & E & T & _ & I). by exists s'.
Qed.

Lemma processReadReadies_queues_ready_witness :
  exists s', processReadReadies {[5]} 1 ex2 = Ok (tt, s') /\
    watch_table s' = replicate MAX_FD_EVENTS None /\ ev_inv s' [4%positive] [3%positive].
Proof.
  destruct (processReadReadies_queues_ready ex2 [4%positive] [] {[5]} 1 ex2_inv) as (s' & E & T & I).
  - intros i a _. set_solver.
  - exists s'. split; [exact E|]. split; [rewrite T; reflexivity|exact I].
Defined.

(** ** A client whose callbacks only record that they ran *)

Definition logged : Type := estate nat * list (nat * Z * option loc).

#[export] Program Instance logged_store : EventStore nat logged :=
  {| es_get := fst; es_put := fun e s => (e, snd s) |}.
Solve All Obligations with (intros; by repeat match goal with s : logged |- _ => destruct s end).

Definition log_call (f : nat) (x : Z) (p : option loc) : cmd logged unit :=
  modify (fun s => (fst s, snd s ++ [(f, x, p)])).

Lemma log_call_contract : call_contract log_call snd.
Proof. intros f x p s ts ps HI. exists (fst s, snd s ++ [(f, x, p)]), ts. done. Qed.

(** C13. One turn of [ril_event_loop], for any callbacks that keep the event
    invariant: it returns to the top of the loop, with an empty pending
    list and the invariant re-established, after calling exactly the
    callbacks of the expired timers in due order and then those of the
    (at most [n]) ready descriptors in slot order, each once. *)
Theorem ril_event_loop_turn {CB S} `{EventStore CB S} (call : CB -> Z -> option loc -> cmd S unit)
    (calls : S -> list (CB * Z * option loc)) fuel env (s : S) ts n out :
  call_contract call calls -> (forall e s, calls (es_put e s) = calls s) ->
  ev_inv (es_get s) ts [] -> tv_ok (now_calc env) -> tv_ok (now_proc env) ->
  (forall ptv, select env (nfds (es_get s)) (readFds (es_get s)) ptv = SelOk n out) -> 0 <= n ->
  let evs := List.filter (fun a => due (ev_heap (es_get s)) a <? tv_us (now_proc env)) ts ++
             take (Z.to_nat n) (ready (ev_heap (es_get s)) out (watch_table (es_get s))) in
  (forall a, a ∈ evs -> is_Some (desc (ev_heap (es_get s)) a)) -> (length evs < fuel)%nat ->
  exists s' ts', ril_event_loop_body call fuel env s = Ok (true, s') /\ ev_inv (es_get s') ts' [] /\
    calls s' = calls s ++ omap (desc (ev_heap (es_get s))) evs.
Proof.
  intros Hc Hp HI Hn1 Hn2 Hsel Hn evs. subst evs.
  rewrite <- (expired_filter _ (now_proc env) ts (fun b => b) Hn2 (ei_sorted _ _ _ HI)).
  by apply loop_turn_ok.
Qed.

Lemma ril_event_loop_turn_witness :
  exists s' ts', ril_event_loop_body log_call 9
      (mkLoopEnv (mkTv 11 0) (mkTv 12 0) (fun _ _ _ => SelOk 1 {[5]})) (ex2, []) = Ok (true, s') /\
    ev_inv (fst s') ts' [] /\ snd s' = [(40%nat, -1, None); (30%nat, 5, None)].
Proof.
  destruct (ril_event_loop_turn log_call snd 9
      (mkLoopEnv (mkTv 11 0) (mkTv 12 0) (fun _ _ _ => SelOk 1 {[5]})) (ex2, []) [4%positive] 1 {[5]})
    as (s' & ts' & E & I & L).
  - apply log_call_contract.
  - reflexivity.
  - apply ex2_inv.
  - unfold tv_ok; simpl; lia.
  - unfold tv_ok; simpl; lia.
  - reflexivity.
  - lia.
  - intros a Ha. vm_compute in Ha. vm_compute.
    repeat (apply elem_of_cons in Ha as [->|Ha]; [by eexists|]). by apply not_elem_of_nil in Ha.
  - vm_compute. lia.
  - exists s', ts'. split; [exact E|]. split; [exact I|exact L].
Defined.
