(* ===== verification/RilConst.v ===== *)
(** * libril: the constants, the request tables and the name functions

    The enumerations, sizes and limits of telephony/ril.h and
    telephony/ril_cdma_sms.h are not part of the repository: they are the
    parameters [rilh] and [sizeof] of class [RilH], one per C name.  The
    tables [s_commands] and [s_unsolResponses] are ril_commands.h and
    ril_unsol_commands.h row by row; a function pointer in a row is the
    constructor with the function's name (prefix [F_]).  The last part gives the values
    used by the witnesses. *)

From Stdlib Require Import String.
From S2P Require Import Prelude.

Open Scope Z_scope.

Inductive ril_const :=
| RIL_REQUEST_GET_SIM_STATUS
| RIL_REQUEST_ENTER_SIM_PIN
| RIL_REQUEST_ENTER_SIM_PUK
| RIL_REQUEST_ENTER_SIM_PIN2
| RIL_REQUEST_ENTER_SIM_PUK2
| RIL_REQUEST_CHANGE_SIM_PIN
| RIL_REQUEST_CHANGE_SIM_PIN2
| RIL_REQUEST_ENTER_DEPERSONALIZATION_CODE
| RIL_REQUEST_GET_CURRENT_CALLS
| RIL_REQUEST_DIAL
| RIL_REQUEST_GET_IMSI
| RIL_REQUEST_HANGUP
| RIL_REQUEST_HANGUP_WAITING_OR_BACKGROUND
| RIL_REQUEST_HANGUP_FOREGROUND_RESUME_BACKGROUND
| RIL_REQUEST_SWITCH_WAITING_OR_HOLDING_AND_ACTIVE
| RIL_REQUEST_CONFERENCE
| RIL_REQUEST_UDUB
| RIL_REQUEST_LAST_CALL_FAIL_CAUSE
| RIL_REQUEST_SIGNAL_STRENGTH
| RIL_REQUEST_VOICE_REGISTRATION_STATE
| RIL_REQUEST_DATA_REGISTRATION_STATE
| RIL_REQUEST_OPERATOR
| RIL_REQUEST_RADIO_POWER
| RIL_REQUEST_DTMF
| RIL_REQUEST_SEND_SMS
| RIL_REQUEST_SEND_SMS_EXPECT_MORE
| RIL_REQUEST_SETUP_DATA_CALL
| RIL_REQUEST_SIM_IO
| RIL_REQUEST_SEND_USSD
| RIL_REQUEST_CANCEL_USSD
| RIL_REQUEST_GET_CLIR
| RIL_REQUEST_SET_CLIR
| RIL_REQUEST_QUERY_CALL_FORWARD_STATUS
| RIL_REQUEST_SET_CALL_FORWARD
| RIL_REQUEST_QUERY_CALL_WAITING
| RIL_REQUEST_SET_CALL_WAITING
| RIL_REQUEST_SMS_ACKNOWLEDGE
| RIL_REQUEST_GET_IMEI
| RIL_REQUEST_GET_IMEISV
| RIL_REQUEST_ANSWER
| RIL_REQUEST_DEACTIVATE_DATA_CALL
| RIL_REQUEST_QUERY_FACILITY_LOCK
| RIL_REQUEST_SET_FACILITY_LOCK
| RIL_REQUEST_CHANGE_BARRING_PASSWORD
| RIL_REQUEST_QUERY_NETWORK_SELECTION_MODE
| RIL_REQUEST_SET_NETWORK_SELECTION_AUTOMATIC
| RIL_REQUEST_SET_NETWORK_SELECTION_MANUAL
| RIL_REQUEST_QUERY_AVAILABLE_NETWORKS
| RIL_REQUEST_DTMF_START
| RIL_REQUEST_DTMF_STOP
| RIL_REQUEST_BASEBAND_VERSION
| RIL_REQUEST_SEPARATE_CONNECTION
| RIL_REQUEST_SET_MUTE
| RIL_REQUEST_GET_MUTE
| RIL_REQUEST_QUERY_CLIP
| RIL_REQUEST_LAST_DATA_CALL_FAIL_CAUSE
| RIL_REQUEST_DATA_CALL_LIST
| RIL_REQUEST_RESET_RADIO
| RIL_REQUEST_OEM_HOOK_RAW
| RIL_REQUEST_OEM_HOOK_STRINGS
| RIL_REQUEST_SCREEN_STATE
| RIL_REQUEST_SET_SUPP_SVC_NOTIFICATION
| RIL_REQUEST_WRITE_SMS_TO_SIM
| RIL_REQUEST_DELETE_SMS_ON_SIM
| RIL_REQUEST_SET_BAND_MODE
| RIL_REQUEST_QUERY_AVAILABLE_BAND_MODE
| RIL_REQUEST_STK_GET_PROFILE
| RIL_REQUEST_STK_SET_PROFILE
| RIL_REQUEST_STK_SEND_ENVELOPE_COMMAND
| RIL_REQUEST_STK_SEND_TERMINAL_RESPONSE
| RIL_REQUEST_STK_HANDLE_CALL_SETUP_REQUESTED_FROM_SIM
| RIL_REQUEST_EXPLICIT_CALL_TRANSFER
| RIL_REQUEST_SET_PREFERRED_NETWORK_TYPE
| RIL_REQUEST_GET_PREFERRED_NETWORK_TYPE
| RIL_REQUEST_GET_NEIGHBORING_CELL_IDS
| RIL_REQUEST_SET_LOCATION_UPDATES
| RIL_REQUEST_CDMA_SET_SUBSCRIPTION_SOURCE
| RIL_REQUEST_CDMA_SET_ROAMING_PREFERENCE
| RIL_REQUEST_CDMA_QUERY_ROAMING_PREFERENCE
| RIL_REQUEST_SET_TTY_MODE
| RIL_REQUEST_QUERY_TTY_MODE
| RIL_REQUEST_CDMA_SET_PREFERRED_VOICE_PRIVACY_MODE
| RIL_REQUEST_CDMA_QUERY_PREFERRED_VOICE_PRIVACY_MODE
| RIL_REQUEST_CDMA_FLASH
| RIL_REQUEST_CDMA_BURST_DTMF
| RIL_REQUEST_CDMA_VALIDATE_AND_WRITE_AKEY
| RIL_REQUEST_CDMA_SEND_SMS
| RIL_REQUEST_CDMA_SMS_ACKNOWLEDGE
| RIL_REQUEST_GSM_GET_BROADCAST_SMS_CONFIG
| RIL_REQUEST_GSM_SET_BROADCAST_SMS_CONFIG
| RIL_REQUEST_GSM_SMS_BROADCAST_ACTIVATION
| RIL_REQUEST_CDMA_GET_BROADCAST_SMS_CONFIG
| RIL_REQUEST_CDMA_SET_BROADCAST_SMS_CONFIG
| RIL_REQUEST_CDMA_SMS_BROADCAST_ACTIVATION
| RIL_REQUEST_CDMA_SUBSCRIPTION
| RIL_REQUEST_CDMA_WRITE_SMS_TO_RUIM
| RIL_REQUEST_CDMA_DELETE_SMS_ON_RUIM
| RIL_REQUEST_DEVICE_IDENTITY
| RIL_REQUEST_EXIT_EMERGENCY_CALLBACK_MODE
| RIL_REQUEST_GET_SMSC_ADDRESS
| RIL_REQUEST_SET_SMSC_ADDRESS
| RIL_REQUEST_REPORT_SMS_MEMORY_STATUS
| RIL_REQUEST_REPORT_STK_SERVICE_IS_RUNNING
| RIL_REQUEST_CDMA_GET_SUBSCRIPTION_SOURCE
| RIL_REQUEST_ISIM_AUTHENTICATION
| RIL_REQUEST_ACKNOWLEDGE_INCOMING_GSM_SMS_WITH_PDU
| RIL_REQUEST_STK_SEND_ENVELOPE_WITH_STATUS
| RIL_REQUEST_VOICE_RADIO_TECH
| RIL_REQUEST_GET_CELL_INFO_LIST
| RIL_REQUEST_SET_UNSOL_CELL_INFO_LIST_RATE
| RIL_REQUEST_SET_INITIAL_ATTACH_APN
| RIL_REQUEST_IMS_REGISTRATION_STATE
| RIL_REQUEST_IMS_SEND_SMS
| RIL_REQUEST_GET_DATA_CALL_PROFILE
| RIL_REQUEST_SET_UICC_SUBSCRIPTION
| RIL_REQUEST_SET_DATA_SUBSCRIPTION
| RIL_REQUEST_SIM_TRANSMIT_BASIC
| RIL_REQUEST_SIM_OPEN_CHANNEL
| RIL_REQUEST_SIM_CLOSE_CHANNEL
| RIL_REQUEST_SIM_TRANSMIT_CHANNEL
| RIL_REQUEST_SIM_GET_ATR
| RIL_UNSOL_RESPONSE_RADIO_STATE_CHANGED
| RIL_UNSOL_RESPONSE_CALL_STATE_CHANGED
| RIL_UNSOL_RESPONSE_VOICE_NETWORK_STATE_CHANGED
| RIL_UNSOL_RESPONSE_NEW_SMS
| RIL_UNSOL_RESPONSE_NEW_SMS_STATUS_REPORT
| RIL_UNSOL_RESPONSE_NEW_SMS_ON_SIM
| RIL_UNSOL_ON_USSD
| RIL_UNSOL_ON_USSD_REQUEST
| RIL_UNSOL_NITZ_TIME_RECEIVED
| RIL_UNSOL_SIGNAL_STRENGTH
| RIL_UNSOL_DATA_CALL_LIST_CHANGED
| RIL_UNSOL_SUPP_SVC_NOTIFICATION
| RIL_UNSOL_STK_SESSION_END
| RIL_UNSOL_STK_PROACTIVE_COMMAND
| RIL_UNSOL_STK_EVENT_NOTIFY
| RIL_UNSOL_STK_CALL_SETUP
| RIL_UNSOL_SIM_SMS_STORAGE_FULL
| RIL_UNSOL_SIM_REFRESH
| RIL_UNSOL_CALL_RING
| RIL_UNSOL_RESPONSE_SIM_STATUS_CHANGED
| RIL_UNSOL_RESPONSE_CDMA_NEW_SMS
| RIL_UNSOL_RESPONSE_NEW_BROADCAST_SMS
| RIL_UNSOL_CDMA_RUIM_SMS_STORAGE_FULL
| RIL_UNSOL_RESTRICTED_STATE_CHANGED
| RIL_UNSOL_ENTER_EMERGENCY_CALLBACK_MODE
| RIL_UNSOL_CDMA_CALL_WAITING
| RIL_UNSOL_CDMA_OTA_PROVISION_STATUS
| RIL_UNSOL_CDMA_INFO_REC
| RIL_UNSOL_OEM_HOOK_RAW
| RIL_UNSOL_RINGBACK_TONE
| RIL_UNSOL_RESEND_INCALL_MUTE
| RIL_UNSOL_CDMA_SUBSCRIPTION_SOURCE_CHANGED
| RIL_UNSOL_CDMA_PRL_CHANGED
| RIL_UNSOL_EXIT_EMERGENCY_CALLBACK_MODE
| RIL_UNSOL_RIL_CONNECTED
| RIL_UNSOL_VOICE_RADIO_TECH_CHANGED
| RIL_UNSOL_CELL_INFO_LIST
| RIL_UNSOL_RESPONSE_IMS_NETWORK_STATE_CHANGED
| RIL_UNSOL_ON_SS
| RIL_UNSOL_STK_CC_ALPHA_NOTIFY
| RIL_UNSOL_UICC_SUBSCRIPTION_STATUS_CHANGED
| RIL_UNSOL_RESPONSE_BASE
| RIL_VERSION
| RIL_VERSION_MIN
| MAX_SOCKET_NAME_LENGTH
| MAX_DEBUG_SOCKET_NAME_LENGTH
| RIL_E_SUCCESS
| RIL_E_RADIO_NOT_AVAILABLE
| RIL_E_GENERIC_FAILURE
| RIL_E_PASSWORD_INCORRECT
| RIL_E_SIM_PIN2
| RIL_E_SIM_PUK2
| RIL_E_REQUEST_NOT_SUPPORTED
| RIL_E_CANCELLED
| RIL_E_OP_NOT_ALLOWED_DURING_VOICE_CALL
| RIL_E_OP_NOT_ALLOWED_BEFORE_REG_TO_NW
| RIL_E_SMS_SEND_FAIL_RETRY
| RIL_E_SIM_ABSENT
| RIL_E_ILLEGAL_SIM_OR_ME
| RADIO_STATE_OFF
| RADIO_STATE_UNAVAILABLE
| RADIO_STATE_SIM_NOT_READY
| RADIO_STATE_SIM_LOCKED_OR_ABSENT
| RADIO_STATE_SIM_READY
| RADIO_STATE_RUIM_NOT_READY
| RADIO_STATE_RUIM_READY
| RADIO_STATE_RUIM_LOCKED_OR_ABSENT
| RADIO_STATE_NV_NOT_READY
| RADIO_STATE_NV_READY
| RADIO_STATE_ON
| RIL_CALL_ACTIVE
| RIL_CALL_HOLDING
| RIL_CALL_DIALING
| RIL_CALL_ALERTING
| RIL_CALL_INCOMING
| RIL_CALL_WAITING
| RADIO_TECH_UMTS
| RADIO_TECH_IS95A
| RADIO_TECH_IS95B
| RADIO_TECH_1xRTT
| RADIO_TECH_EVDO_0
| RADIO_TECH_EVDO_A
| RADIO_TECH_EVDO_B
| RADIO_TECH_EHRPD
| RADIO_TECH_3GPP
| RADIO_TECH_3GPP2
| CDMA_SUBSCRIPTION_SOURCE_RUIM_SIM
| CDMA_SUBSCRIPTION_SOURCE_NV
| RIL_CDMA_SMS_ADDRESS_MAX
| RIL_CDMA_SMS_SUBADDRESS_MAX
| RIL_CDMA_SMS_BEARER_DATA_MAX
| RIL_CDMA_MAX_NUMBER_OF_INFO_RECS
| CDMA_ALPHA_INFO_BUFFER_LENGTH
| CDMA_NUMBER_INFO_BUFFER_LENGTH
| RIL_CDMA_DISPLAY_INFO_REC
| RIL_CDMA_CALLED_PARTY_NUMBER_INFO_REC
| RIL_CDMA_CALLING_PARTY_NUMBER_INFO_REC
| RIL_CDMA_CONNECTED_NUMBER_INFO_REC
| RIL_CDMA_SIGNAL_INFO_REC
| RIL_CDMA_REDIRECTING_NUMBER_INFO_REC
| RIL_CDMA_LINE_CONTROL_INFO_REC
| RIL_CDMA_EXTENDED_DISPLAY_INFO_REC
| RIL_CDMA_T53_CLIR_INFO_REC
| RIL_CDMA_T53_RELEASE_INFO_REC
| RIL_CDMA_T53_AUDIO_CONTROL_INFO_REC
| RIL_CELL_INFO_TYPE_GSM
| RIL_CELL_INFO_TYPE_CDMA
| RIL_CELL_INFO_TYPE_LTE
| RIL_CELL_INFO_TYPE_WCDMA
| NUM_SERVICE_CLASSES
| SS_INFO_MAX
| SS_INTERROGATION
| SS_CFU
| SS_CF_BUSY
| SS_CF_NO_REPLY
| SS_CF_NOT_REACHABLE
| SS_CF_ALL
| SS_CF_ALL_CONDITIONAL.

Inductive ctype :=
| S_RIL_SMS_WriteArgs
| S_RIL_Dial
| S_RIL_UUS_Info
| S_RIL_SIM_IO_v5
| S_RIL_SIM_IO_v6
| S_RIL_CallForwardInfo
| S_RIL_CDMA_SMS_Message
| S_RIL_CDMA_SMS_WriteArgs
| S_RIL_CDMA_SMS_Ack
| S_RIL_RadioTechnologyFamily
| S_RIL_GSM_BroadcastSmsConfigInfo
| S_RIL_CDMA_BroadcastSmsConfigInfo
| S_RIL_InitialAttachApn
| S_RIL_SelectUiccSub
| S_RIL_SMS_Response
| S_RIL_Data_Call_Response_v4
| S_RIL_Data_Call_Response_v6
| S_RIL_SIM_IO_Response
| S_RIL_SuppSvcNotification
| S_RIL_CDMA_InformationRecords
| S_RIL_SignalStrength_v5
| S_RIL_SignalStrength_v6
| S_RIL_SignalStrength_v8
| S_RIL_SignalStrength_v9_CAF
| S_RIL_CDMA_SignalInfoRecord
| S_RIL_CDMA_CallWaiting_v6
| S_RIL_CellInfo
| S_RIL_StkCcUnsolSsResponse
| S_RIL_CardStatus_v5
| S_RIL_CardStatus_v6
| S_RIL_DataCallProfileInfo.

Class RilH := { rilh : ril_const -> Z; sizeof : ctype -> Z }.

(** Pointers, [int] and [size_t] of the 32-bit ARM target. *)
Definition sizeof_ptr : Z := 4.
Definition sizeof_int : Z := 4.

(** [switch (x) { case c: return v; ... default: return d; }] *)
Fixpoint switch `{RilH} {A} (x : Z) (cases : list (ril_const * A)) (d : A) : A :=
  match cases with
  | [] => d
  | (c, v) :: cases => if x =? rilh c then v else switch x cases d
  end.

(** ** Names for the log *)

Definition failCauseToString_cases : list (ril_const * string) := [
  (RIL_E_SUCCESS, "E_SUCCESS"%string);
  (RIL_E_RADIO_NOT_AVAILABLE, "E_RADIO_NOT_AVAILABLE"%string);
  (RIL_E_GENERIC_FAILURE, "E_GENERIC_FAILURE"%string);
  (RIL_E_PASSWORD_INCORRECT, "E_PASSWORD_INCORRECT"%string);
  (RIL_E_SIM_PIN2, "E_SIM_PIN2"%string);
  (RIL_E_SIM_PUK2, "E_SIM_PUK2"%string);
  (RIL_E_REQUEST_NOT_SUPPORTED, "E_REQUEST_NOT_SUPPORTED"%string);
  (RIL_E_CANCELLED, "E_CANCELLED"%string);
  (RIL_E_OP_NOT_ALLOWED_DURING_VOICE_CALL, "E_OP_NOT_ALLOWED_DURING_VOICE_CALL"%string);
  (RIL_E_OP_NOT_ALLOWED_BEFORE_REG_TO_NW, "E_OP_NOT_ALLOWED_BEFORE_REG_TO_NW"%string);
  (RIL_E_SMS_SEND_FAIL_RETRY, "E_SMS_SEND_FAIL_RETRY"%string);
  (RIL_E_SIM_ABSENT, "E_SIM_ABSENT"%string);
  (RIL_E_ILLEGAL_SIM_OR_ME, "E_ILLEGAL_SIM_OR_ME"%string)].

Definition failCauseToString `{RilH} (e : Z) : string := switch e failCauseToString_cases "<unknown error>"%string.

Definition radioStateToString_cases : list (ril_const * string) := [
  (RADIO_STATE_OFF, "RADIO_OFF"%string);
  (RADIO_STATE_UNAVAILABLE, "RADIO_UNAVAILABLE"%string);
  (RADIO_STATE_SIM_NOT_READY, "RADIO_SIM_NOT_READY"%string);
  (RADIO_STATE_SIM_LOCKED_OR_ABSENT, "RADIO_SIM_LOCKED_OR_ABSENT"%string);
  (RADIO_STATE_SIM_READY, "RADIO_SIM_READY"%string);
  (RADIO_STATE_RUIM_NOT_READY, "RADIO_RUIM_NOT_READY"%string);
  (RADIO_STATE_RUIM_READY, "RADIO_RUIM_READY"%string);
  (RADIO_STATE_RUIM_LOCKED_OR_ABSENT, "RADIO_RUIM_LOCKED_OR_ABSENT"%string);
  (RADIO_STATE_NV_NOT_READY, "RADIO_NV_NOT_READY"%string);
  (RADIO_STATE_NV_READY, "RADIO_NV_READY"%string);
  (RADIO_STATE_ON, "RADIO_ON"%string)].

Definition radioStateToString `{RilH} (s : Z) : string := switch s radioStateToString_cases "<unknown state>"%string.

Definition callStateToString_cases : list (ril_const * string) := [
  (RIL_CALL_ACTIVE, "ACTIVE"%string);
  (RIL_CALL_HOLDING, "HOLDING"%string);
  (RIL_CALL_DIALING, "DIALING"%string);
  (RIL_CALL_ALERTING, "ALERTING"%string);
  (RIL_CALL_INCOMING, "INCOMING"%string);
  (RIL_CALL_WAITING, "WAITING"%string)].

Definition callStateToString `{RilH} (s : Z) : string := switch s callStateToString_cases "<unknown state>"%string.

Definition requestToString_cases : list (ril_const * string) := [
  (RIL_REQUEST_GET_SIM_STATUS, "GET_SIM_STATUS"%string);
  (RIL_REQUEST_ENTER_SIM_PIN, "ENTER_SIM_PIN"%string);
  (RIL_REQUEST_ENTER_SIM_PUK, "ENTER_SIM_PUK"%string);
  (RIL_REQUEST_ENTER_SIM_PIN2, "ENTER_SIM_PIN2"%string);
  (RIL_REQUEST_ENTER_SIM_PUK2, "ENTER_SIM_PUK2"%string);
  (RIL_REQUEST_CHANGE_SIM_PIN, "CHANGE_SIM_PIN"%string);
  (RIL_REQUEST_CHANGE_SIM_PIN2, "CHANGE_SIM_PIN2"%string);
  (RIL_REQUEST_ENTER_DEPERSONALIZATION_CODE, "ENTER_DEPERSONALIZATION_CODE"%string);
  (RIL_REQUEST_GET_CURRENT_CALLS, "GET_CURRENT_CALLS"%string);
  (RIL_REQUEST_DIAL, "DIAL"%string);
  (RIL_REQUEST_GET_IMSI, "GET_IMSI"%string);
  (RIL_REQUEST_HANGUP, "HANGUP"%string);
  (RIL_REQUEST_HANGUP_WAITING_OR_BACKGROUND, "HANGUP_WAITING_OR_BACKGROUND"%string);
  (RIL_REQUEST_HANGUP_FOREGROUND_RESUME_BACKGROUND, "HANGUP_FOREGROUND_RESUME_BACKGROUND"%string);
  (RIL_REQUEST_SWITCH_WAITING_OR_HOLDING_AND_ACTIVE, "SWITCH_WAITING_OR_HOLDING_AND_ACTIVE"%string);
  (RIL_REQUEST_CONFERENCE, "CONFERENCE"%string);
  (RIL_REQUEST_UDUB, "UDUB"%string);
  (RIL_REQUEST_LAST_CALL_FAIL_CAUSE, "LAST_CALL_FAIL_CAUSE"%string);
  (RIL_REQUEST_SIGNAL_STRENGTH, "SIGNAL_STRENGTH"%string);
  (RIL_REQUEST_VOICE_REGISTRATION_STATE, "VOICE_REGISTRATION_STATE"%string);
  (RIL_REQUEST_DATA_REGISTRATION_STATE, "DATA_REGISTRATION_STATE"%string);
  (RIL_REQUEST_OPERATOR, "OPERATOR"%string);
  (RIL_REQUEST_RADIO_POWER, "RADIO_POWER"%string);
  (RIL_REQUEST_DTMF, "DTMF"%string);
  (RIL_REQUEST_SEND_SMS, "SEND_SMS"%string);
  (RIL_REQUEST_SEND_SMS_EXPECT_MORE, "SEND_SMS_EXPECT_MORE"%string);
  (RIL_REQUEST_SETUP_DATA_CALL, "SETUP_DATA_CALL"%string);
  (RIL_REQUEST_SIM_IO, "SIM_IO"%string);
  (RIL_REQUEST_SIM_TRANSMIT_BASIC, "SIM_TRANSMIT_BASIC"%string);
  (RIL_REQUEST_SIM_OPEN_CHANNEL, "SIM_OPEN_CHANNEL"%string);
  (RIL_REQUEST_SIM_CLOSE_CHANNEL, "SIM_CLOSE_CHANNEL"%string);
  (RIL_REQUEST_SIM_TRANSMIT_CHANNEL, "SIM_TRANSMIT_CHANNEL"%string);
  (RIL_REQUEST_SIM_GET_ATR, "SIM_GET_ATR"%string);
  (RIL_REQUEST_SEND_USSD, "SEND_USSD"%string);
  (RIL_REQUEST_CANCEL_USSD, "CANCEL_USSD"%string);
  (RIL_REQUEST_GET_CLIR, "GET_CLIR"%string);
  (RIL_REQUEST_SET_CLIR, "SET_CLIR"%string);
  (RIL_REQUEST_QUERY_CALL_FORWARD_STATUS, "QUERY_CALL_FORWARD_STATUS"%string);
  (RIL_REQUEST_SET_CALL_FORWARD, "SET_CALL_FORWARD"%string);
  (RIL_REQUEST_QUERY_CALL_WAITING, "QUERY_CALL_WAITING"%string);
  (RIL_REQUEST_SET_CALL_WAITING, "SET_CALL_WAITING"%string);
  (RIL_REQUEST_SMS_ACKNOWLEDGE, "SMS_ACKNOWLEDGE"%string);
  (RIL_REQUEST_GET_IMEI, "GET_IMEI"%string);
  (RIL_REQUEST_GET_IMEISV, "GET_IMEISV"%string);
  (RIL_REQUEST_ANSWER, "ANSWER"%string);
  (RIL_REQUEST_DEACTIVATE_DATA_CALL, "DEACTIVATE_DATA_CALL"%string);
  (RIL_REQUEST_QUERY_FACILITY_LOCK, "QUERY_FACILITY_LOCK"%string);
  (RIL_REQUEST_SET_FACILITY_LOCK, "SET_FACILITY_LOCK"%string);
  (RIL_REQUEST_CHANGE_BARRING_PASSWORD, "CHANGE_BARRING_PASSWORD"%string);
  (RIL_REQUEST_QUERY_NETWORK_SELECTION_MODE, "QUERY_NETWORK_SELECTION_MODE"%string);
  (RIL_REQUEST_SET_NETWORK_SELECTION_AUTOMATIC, "SET_NETWORK_SELECTION_AUTOMATIC"%string);
  (RIL_REQUEST_SET_NETWORK_SELECTION_MANUAL, "SET_NETWORK_SELECTION_MANUAL"%string);
  (RIL_REQUEST_QUERY_AVAILABLE_NETWORKS, "QUERY_AVAILABLE_NETWORKS "%string);
  (RIL_REQUEST_DTMF_START, "DTMF_START"%string);
  (RIL_REQUEST_DTMF_STOP, "DTMF_STOP"%string);
  (RIL_REQUEST_BASEBAND_VERSION, "BASEBAND_VERSION"%string);
  (RIL_REQUEST_SEPARATE_CONNECTION, "SEPARATE_CONNECTION"%string);
  (RIL_REQUEST_SET_PREFERRED_NETWORK_TYPE, "SET_PREFERRED_NETWORK_TYPE"%string);
  (RIL_REQUEST_GET_PREFERRED_NETWORK_TYPE, "GET_PREFERRED_NETWORK_TYPE"%string);
  (RIL_REQUEST_GET_NEIGHBORING_CELL_IDS, "GET_NEIGHBORING_CELL_IDS"%string);
  (RIL_REQUEST_SET_MUTE, "SET_MUTE"%string);
  (RIL_REQUEST_GET_MUTE, "GET_MUTE"%string);
  (RIL_REQUEST_QUERY_CLIP, "QUERY_CLIP"%string);
  (RIL_REQUEST_LAST_DATA_CALL_FAIL_CAUSE, "LAST_DATA_CALL_FAIL_CAUSE"%string);
  (RIL_REQUEST_DATA_CALL_LIST, "DATA_CALL_LIST"%string);
  (RIL_REQUEST_RESET_RADIO, "RESET_RADIO"%string);
  (RIL_REQUEST_OEM_HOOK_RAW, "OEM_HOOK_RAW"%string);
  (RIL_REQUEST_OEM_HOOK_STRINGS, "OEM_HOOK_STRINGS"%string);
  (RIL_REQUEST_SET_BAND_MODE, "SET_BAND_MODE"%string);
  (RIL_REQUEST_QUERY_AVAILABLE_BAND_MODE, "QUERY_AVAILABLE_BAND_MODE"%string);
  (RIL_REQUEST_STK_GET_PROFILE, "STK_GET_PROFILE"%string);
  (RIL_REQUEST_STK_SET_PROFILE, "STK_SET_PROFILE"%string);
  (RIL_REQUEST_STK_SEND_ENVELOPE_COMMAND, "STK_SEND_ENVELOPE_COMMAND"%string);
  (RIL_REQUEST_STK_SEND_TERMINAL_RESPONSE, "STK_SEND_TERMINAL_RESPONSE"%string);
  (RIL_REQUEST_STK_HANDLE_CALL_SETUP_REQUESTED_FROM_SIM, "STK_HANDLE_CALL_SETUP_REQUESTED_FROM_SIM"%string);
  (RIL_REQUEST_SCREEN_STATE, "SCREEN_STATE"%string);
  (RIL_REQUEST_EXPLICIT_CALL_TRANSFER, "EXPLICIT_CALL_TRANSFER"%string);
  (RIL_REQUEST_SET_LOCATION_UPDATES, "SET_LOCATION_UPDATES"%string);
  (RIL_REQUEST_CDMA_SET_SUBSCRIPTION_SOURCE, "CDMA_SET_SUBSCRIPTION_SOURCE"%string);
  (RIL_REQUEST_CDMA_SET_ROAMING_PREFERENCE, "CDMA_SET_ROAMING_PREFERENCE"%string);
  (RIL_REQUEST_CDMA_QUERY_ROAMING_PREFERENCE, "CDMA_QUERY_ROAMING_PREFERENCE"%string);
  (RIL_REQUEST_SET_TTY_MODE, "SET_TTY_MODE"%string);
  (RIL_REQUEST_QUERY_TTY_MODE, "QUERY_TTY_MODE"%string);
  (RIL_REQUEST_CDMA_SET_PREFERRED_VOICE_PRIVACY_MODE, "CDMA_SET_PREFERRED_VOICE_PRIVACY_MODE"%string);
  (RIL_REQUEST_CDMA_QUERY_PREFERRED_VOICE_PRIVACY_MODE, "CDMA_QUERY_PREFERRED_VOICE_PRIVACY_MODE"%string);
  (RIL_REQUEST_CDMA_FLASH, "CDMA_FLASH"%string);
  (RIL_REQUEST_CDMA_BURST_DTMF, "CDMA_BURST_DTMF"%string);
  (RIL_REQUEST_CDMA_SEND_SMS, "CDMA_SEND_SMS"%string);
  (RIL_REQUEST_CDMA_SMS_ACKNOWLEDGE, "CDMA_SMS_ACKNOWLEDGE"%string);
  (RIL_REQUEST_GSM_GET_BROADCAST_SMS_CONFIG, "GSM_GET_BROADCAST_SMS_CONFIG"%string);
  (RIL_REQUEST_GSM_SET_BROADCAST_SMS_CONFIG, "GSM_SET_BROADCAST_SMS_CONFIG"%string);
  (RIL_REQUEST_CDMA_GET_BROADCAST_SMS_CONFIG, "CDMA_GET_BROADCAST_SMS_CONFIG"%string);
  (RIL_REQUEST_CDMA_SET_BROADCAST_SMS_CONFIG, "CDMA_SET_BROADCAST_SMS_CONFIG"%string);
  (RIL_REQUEST_CDMA_SMS_BROADCAST_ACTIVATION, "CDMA_SMS_BROADCAST_ACTIVATION"%string);
  (RIL_REQUEST_CDMA_VALIDATE_AND_WRITE_AKEY, "CDMA_VALIDATE_AND_WRITE_AKEY"%string);
  (RIL_REQUEST_CDMA_SUBSCRIPTION, "CDMA_SUBSCRIPTION"%string);
  (RIL_REQUEST_CDMA_WRITE_SMS_TO_RUIM, "CDMA_WRITE_SMS_TO_RUIM"%string);
  (RIL_REQUEST_CDMA_DELETE_SMS_ON_RUIM, "CDMA_DELETE_SMS_ON_RUIM"%string);
  (RIL_REQUEST_DEVICE_IDENTITY, "DEVICE_IDENTITY"%string);
  (RIL_REQUEST_EXIT_EMERGENCY_CALLBACK_MODE, "EXIT_EMERGENCY_CALLBACK_MODE"%string);
  (RIL_REQUEST_GET_SMSC_ADDRESS, "GET_SMSC_ADDRESS"%string);
  (RIL_REQUEST_SET_SMSC_ADDRESS, "SET_SMSC_ADDRESS"%string);
  (RIL_REQUEST_REPORT_SMS_MEMORY_STATUS, "REPORT_SMS_MEMORY_STATUS"%string);
  (RIL_REQUEST_REPORT_STK_SERVICE_IS_RUNNING, "REPORT_STK_SERVICE_IS_RUNNING"%string);
  (RIL_REQUEST_CDMA_GET_SUBSCRIPTION_SOURCE, "CDMA_GET_SUBSCRIPTION_SOURCE"%string);
  (RIL_REQUEST_ISIM_AUTHENTICATION, "ISIM_AUTHENTICATION"%string);
  (RIL_REQUEST_ACKNOWLEDGE_INCOMING_GSM_SMS_WITH_PDU, "RIL_REQUEST_ACKNOWLEDGE_INCOMING_GSM_SMS_WITH_PDU"%string);
  (RIL_REQUEST_STK_SEND_ENVELOPE_WITH_STATUS, "RIL_REQUEST_STK_SEND_ENVELOPE_WITH_STATUS"%string);
  (RIL_REQUEST_VOICE_RADIO_TECH, "VOICE_RADIO_TECH"%string);
  (RIL_REQUEST_WRITE_SMS_TO_SIM, "WRITE_SMS_TO_SIM"%string);
  (RIL_REQUEST_GET_CELL_INFO_LIST, "GET_CELL_INFO_LIST"%string);
  (RIL_REQUEST_SET_UNSOL_CELL_INFO_LIST_RATE, "SET_UNSOL_CELL_INFO_LIST_RATE"%string);
  (RIL_REQUEST_SET_INITIAL_ATTACH_APN, "RIL_REQUEST_SET_INITIAL_ATTACH_APN"%string);
  (RIL_REQUEST_IMS_REGISTRATION_STATE, "IMS_REGISTRATION_STATE"%string);
  (RIL_REQUEST_IMS_SEND_SMS, "IMS_SEND_SMS"%string);
  (RIL_REQUEST_GET_DATA_CALL_PROFILE, "GET_DATA_CALL_PROFILE"%string);
  (RIL_REQUEST_SET_UICC_SUBSCRIPTION, "SET_UICC_SUBSCRIPTION"%string);
  (RIL_REQUEST_SET_DATA_SUBSCRIPTION, "SET_DATA_SUBSCRIPTION"%string);
  (RIL_UNSOL_RESPONSE_RADIO_STATE_CHANGED, "UNSOL_RESPONSE_RADIO_STATE_CHANGED"%string);
  (RIL_UNSOL_RESPONSE_CALL_STATE_CHANGED, "UNSOL_RESPONSE_CALL_STATE_CHANGED"%string);
  (RIL_UNSOL_RESPONSE_VOICE_NETWORK_STATE_CHANGED, "UNSOL_RESPONSE_VOICE_NETWORK_STATE_CHANGED"%string);
  (RIL_UNSOL_RESPONSE_NEW_SMS, "UNSOL_RESPONSE_NEW_SMS"%string);
  (RIL_UNSOL_RESPONSE_NEW_SMS_STATUS_REPORT, "UNSOL_RESPONSE_NEW_SMS_STATUS_REPORT"%string);
  (RIL_UNSOL_RESPONSE_NEW_SMS_ON_SIM, "UNSOL_RESPONSE_NEW_SMS_ON_SIM"%string);
  (RIL_UNSOL_ON_USSD, "UNSOL_ON_USSD"%string);
  (RIL_UNSOL_ON_USSD_REQUEST, "UNSOL_ON_USSD_REQUEST(obsolete)"%string);
  (RIL_UNSOL_NITZ_TIME_RECEIVED, "UNSOL_NITZ_TIME_RECEIVED"%string);
  (RIL_UNSOL_SIGNAL_STRENGTH, "UNSOL_SIGNAL_STRENGTH"%string);
  (RIL_UNSOL_SUPP_SVC_NOTIFICATION, "UNSOL_SUPP_SVC_NOTIFICATION"%string);
  (RIL_UNSOL_STK_SESSION_END, "UNSOL_STK_SESSION_END"%string);
  (RIL_UNSOL_STK_PROACTIVE_COMMAND, "UNSOL_STK_PROACTIVE_COMMAND"%string);
  (RIL_UNSOL_STK_EVENT_NOTIFY, "UNSOL_STK_EVENT_NOTIFY"%string);
  (RIL_UNSOL_STK_CALL_SETUP, "UNSOL_STK_CALL_SETUP"%string);
  (RIL_UNSOL_SIM_SMS_STORAGE_FULL, "UNSOL_SIM_SMS_STORAGE_FUL"%string);
  (RIL_UNSOL_SIM_REFRESH, "UNSOL_SIM_REFRESH"%string);
  (RIL_UNSOL_DATA_CALL_LIST_CHANGED, "UNSOL_DATA_CALL_LIST_CHANGED"%string);
  (RIL_UNSOL_CALL_RING, "UNSOL_CALL_RING"%string);
  (RIL_UNSOL_RESPONSE_SIM_STATUS_CHANGED, "UNSOL_RESPONSE_SIM_STATUS_CHANGED"%string);
  (RIL_UNSOL_RESPONSE_CDMA_NEW_SMS, "UNSOL_NEW_CDMA_SMS"%string);
  (RIL_UNSOL_RESPONSE_NEW_BROADCAST_SMS, "UNSOL_NEW_BROADCAST_SMS"%string);
  (RIL_UNSOL_CDMA_RUIM_SMS_STORAGE_FULL, "UNSOL_CDMA_RUIM_SMS_STORAGE_FULL"%string);
  (RIL_UNSOL_RESTRICTED_STATE_CHANGED, "UNSOL_RESTRICTED_STATE_CHANGED"%string);
  (RIL_UNSOL_ENTER_EMERGENCY_CALLBACK_MODE, "UNSOL_ENTER_EMERGENCY_CALLBACK_MODE"%string);
  (RIL_UNSOL_CDMA_CALL_WAITING, "UNSOL_CDMA_CALL_WAITING"%string);
  (RIL_UNSOL_CDMA_OTA_PROVISION_STATUS, "UNSOL_CDMA_OTA_PROVISION_STATUS"%string);
  (RIL_UNSOL_CDMA_INFO_REC, "UNSOL_CDMA_INFO_REC"%string);
  (RIL_UNSOL_OEM_HOOK_RAW, "UNSOL_OEM_HOOK_RAW"%string);
  (RIL_UNSOL_RINGBACK_TONE, "UNSOL_RINGBACK_TONE"%string);
  (RIL_UNSOL_RESEND_INCALL_MUTE, "UNSOL_RESEND_INCALL_MUTE"%string);
  (RIL_UNSOL_CDMA_SUBSCRIPTION_SOURCE_CHANGED, "UNSOL_CDMA_SUBSCRIPTION_SOURCE_CHANGED"%string);
  (RIL_UNSOL_CDMA_PRL_CHANGED, "UNSOL_CDMA_PRL_CHANGED"%string);
  (RIL_UNSOL_EXIT_EMERGENCY_CALLBACK_MODE, "UNSOL_EXIT_EMERGENCY_CALLBACK_MODE"%string);
  (RIL_UNSOL_RIL_CONNECTED, "UNSOL_RIL_CONNECTED"%string);
  (RIL_UNSOL_VOICE_RADIO_TECH_CHANGED, "UNSOL_VOICE_RADIO_TECH_CHANGED"%string);
  (RIL_UNSOL_CELL_INFO_LIST, "UNSOL_CELL_INFO_LIST"%string);
  (RIL_UNSOL_RESPONSE_IMS_NETWORK_STATE_CHANGED, "RESPONSE_IMS_NETWORK_STATE_CHANGED"%string);
  (RIL_UNSOL_UICC_SUBSCRIPTION_STATUS_CHANGED, "UNSOL_UICC_SUBSCRIPTION_STATUS_CHANGED"%string)].

Definition requestToString `{RilH} (request : Z) : string := switch request requestToString_cases "<unknown request>"%string.

(** ** The tables *)

Inductive dispatch_fn :=
| F_dispatchVoid
| F_dispatchStrings
| F_dispatchDial
| F_dispatchInts
| F_dispatchString
| F_dispatchDataCall
| F_dispatchSIM_IO
| F_dispatchCallForward
| F_dispatchRaw
| F_dispatchSmsWrite
| F_dispatchCdmaSms
| F_dispatchCdmaSmsAck
| F_dispatchGsmBrSmsCnf
| F_dispatchCdmaBrSmsCnf
| F_dispatchRilCdmaSmsWriteArgs
| F_dispatchCdmaSubscriptionSource
| F_dispatchVoiceRadioTech
| F_dispatchSetInitialAttachApn
| F_dispatchImsSms
| F_dispatchUiccSubscripton.

Inductive response_fn :=
| F_responseSimStatus
| F_responseInts
| F_responseCallList
| F_responseVoid
| F_responseString
| F_responseRilSignalStrength
| F_responseStrings
| F_responseSMS
| F_responseSetupDataCall
| F_responseSIM_IO
| F_responseCallForwards
| F_responseStringsNetworks
| F_responseDataCallList
| F_responseRaw
| F_responseCellList
| F_responseGsmBrSmsCnf
| F_responseCdmaBrSmsCnf
| F_responseCellInfoList
| F_responseGetDataCallProfile
| F_responseSsn
| F_responseSimRefresh
| F_responseCallRing
| F_responseCdmaSms
| F_responseCdmaCallWaiting
| F_responseCdmaInformationRecords
| F_responseSSData.

(** [CommandInfo]; the first row of the table has no functions. *)
Record CommandInfo := mkCI {
  requestNumber : Z;
  dispatchFunction : option dispatch_fn;
  responseFunction : option response_fn }.

Inductive WakeType := DONT_WAKE | WAKE_PARTIAL.

Record UnsolResponseInfo := mkUI {
  unsolNumber : Z;
  unsolResponseFunction : response_fn;
  wakeType : WakeType }.

Section Tables.
Context `{RilH}.

Definition row (c : ril_const) (d : dispatch_fn) (r : response_fn) : CommandInfo :=
  mkCI (rilh c) (Some d) (Some r).
Definition urow (c : ril_const) (r : response_fn) (w : WakeType) : UnsolResponseInfo :=
  mkUI (rilh c) r w.

(** [legacy] is the build flag RIL_VARIANT_LEGACY of BoardConfig.mk. *)
Definition s_commands (legacy : bool) : list CommandInfo :=
  [mkCI 0 None None;
   row RIL_REQUEST_GET_SIM_STATUS F_dispatchVoid F_responseSimStatus;
   row RIL_REQUEST_ENTER_SIM_PIN F_dispatchStrings F_responseInts;
   row RIL_REQUEST_ENTER_SIM_PUK F_dispatchStrings F_responseInts;
   row RIL_REQUEST_ENTER_SIM_PIN2 F_dispatchStrings F_responseInts;
   row RIL_REQUEST_ENTER_SIM_PUK2 F_dispatchStrings F_responseInts;
   row RIL_REQUEST_CHANGE_SIM_PIN F_dispatchStrings F_responseInts;
   row RIL_REQUEST_CHANGE_SIM_PIN2 F_dispatchStrings F_responseInts;
   row RIL_REQUEST_ENTER_DEPERSONALIZATION_CODE F_dispatchStrings F_responseInts;
   row RIL_REQUEST_GET_CURRENT_CALLS F_dispatchVoid F_responseCallList;
   row RIL_REQUEST_DIAL F_dispatchDial F_responseVoid;
   row RIL_REQUEST_GET_IMSI F_dispatchStrings F_responseString;
   row RIL_REQUEST_HANGUP F_dispatchInts F_responseVoid;
   row RIL_REQUEST_HANGUP_WAITING_OR_BACKGROUND F_dispatchVoid F_responseVoid;
   row RIL_REQUEST_HANGUP_FOREGROUND_RESUME_BACKGROUND F_dispatchVoid F_responseVoid;
   row RIL_REQUEST_SWITCH_WAITING_OR_HOLDING_AND_ACTIVE F_dispatchVoid F_responseVoid;
   row RIL_REQUEST_CONFERENCE F_dispatchVoid F_responseVoid;
   row RIL_REQUEST_UDUB F_dispatchVoid F_responseVoid;
   row RIL_REQUEST_LAST_CALL_FAIL_CAUSE F_dispatchVoid F_responseInts;
   row RIL_REQUEST_SIGNAL_STRENGTH F_dispatchVoid F_responseRilSignalStrength;
   row RIL_REQUEST_VOICE_REGISTRATION_STATE F_dispatchVoid F_responseStrings;
   row RIL_REQUEST_DATA_REGISTRATION_STATE F_dispatchVoid F_responseStrings;
   row RIL_REQUEST_OPERATOR F_dispatchVoid F_responseStrings;
   row RIL_REQUEST_RADIO_POWER F_dispatchInts F_responseVoid;
   row RIL_REQUEST_DTMF F_dispatchString F_responseVoid;
   row RIL_REQUEST_SEND_SMS F_dispatchStrings F_responseSMS;
   row RIL_REQUEST_SEND_SMS_EXPECT_MORE F_dispatchStrings F_responseSMS;
   row RIL_REQUEST_SETUP_DATA_CALL F_dispatchDataCall F_responseSetupDataCall;
   row RIL_REQUEST_SIM_IO F_dispatchSIM_IO F_responseSIM_IO;
   row RIL_REQUEST_SEND_USSD F_dispatchString F_responseVoid;
   row RIL_REQUEST_CANCEL_USSD F_dispatchVoid F_responseVoid;
   row RIL_REQUEST_GET_CLIR F_dispatchVoid F_responseInts;
   row RIL_REQUEST_SET_CLIR F_dispatchInts F_responseVoid;
   row RIL_REQUEST_QUERY_CALL_FORWARD_STATUS F_dispatchCallForward F_responseCallForwards;
   row RIL_REQUEST_SET_CALL_FORWARD F_dispatchCallForward F_responseVoid;
   row RIL_REQUEST_QUERY_CALL_WAITING F_dispatchInts F_responseInts;
   row RIL_REQUEST_SET_CALL_WAITING F_dispatchInts F_responseVoid;
   row RIL_REQUEST_SMS_ACKNOWLEDGE F_dispatchInts F_responseVoid;
   row RIL_REQUEST_GET_IMEI F_dispatchVoid F_responseString;
   row RIL_REQUEST_GET_IMEISV F_dispatchVoid F_responseString;
   row RIL_REQUEST_ANSWER F_dispatchVoid F_responseVoid;
   row RIL_REQUEST_DEACTIVATE_DATA_CALL F_dispatchStrings F_responseVoid;
   row RIL_REQUEST_QUERY_FACILITY_LOCK F_dispatchStrings F_responseInts;
   row RIL_REQUEST_SET_FACILITY_LOCK F_dispatchStrings F_responseInts;
   row RIL_REQUEST_CHANGE_BARRING_PASSWORD F_dispatchStrings F_responseVoid;
   row RIL_REQUEST_QUERY_NETWORK_SELECTION_MODE F_dispatchVoid F_responseInts;
   row RIL_REQUEST_SET_NETWORK_SELECTION_AUTOMATIC F_dispatchVoid F_responseVoid;
   row RIL_REQUEST_SET_NETWORK_SELECTION_MANUAL F_dispatchString F_responseVoid;
   row RIL_REQUEST_QUERY_AVAILABLE_NETWORKS F_dispatchVoid (if legacy then F_responseStrings else F_responseStringsNetworks);
   row RIL_REQUEST_DTMF_START F_dispatchString F_responseVoid;
   row RIL_REQUEST_DTMF_STOP F_dispatchVoid F_responseVoid;
   row RIL_REQUEST_BASEBAND_VERSION F_dispatchVoid F_responseString;
   row RIL_REQUEST_SEPARATE_CONNECTION F_dispatchInts F_responseVoid;
   row RIL_REQUEST_SET_MUTE F_dispatchInts F_responseVoid;
   row RIL_REQUEST_GET_MUTE F_dispatchVoid F_responseInts;
   row RIL_REQUEST_QUERY_CLIP F_dispatchVoid F_responseInts;
   row RIL_REQUEST_LAST_DATA_CALL_FAIL_CAUSE F_dispatchVoid F_responseInts;
   row RIL_REQUEST_DATA_CALL_LIST F_dispatchVoid F_responseDataCallList;
   row RIL_REQUEST_RESET_RADIO F_dispatchVoid F_responseVoid;
   row RIL_REQUEST_OEM_HOOK_RAW F_dispatchRaw F_responseRaw;
   row RIL_REQUEST_OEM_HOOK_STRINGS F_dispatchStrings F_responseStrings;
   row RIL_REQUEST_SCREEN_STATE F_dispatchInts F_responseVoid;
   row RIL_REQUEST_SET_SUPP_SVC_NOTIFICATION F_dispatchInts F_responseVoid;
   row RIL_REQUEST_WRITE_SMS_TO_SIM F_dispatchSmsWrite F_responseInts;
   row RIL_REQUEST_DELETE_SMS_ON_SIM F_dispatchInts F_responseVoid;
   row RIL_REQUEST_SET_BAND_MODE F_dispatchInts F_responseVoid;
   row RIL_REQUEST_QUERY_AVAILABLE_BAND_MODE F_dispatchVoid F_responseInts;
   row RIL_REQUEST_STK_GET_PROFILE F_dispatchVoid F_responseString;
   row RIL_REQUEST_STK_SET_PROFILE F_dispatchString F_responseVoid;
   row RIL_REQUEST_STK_SEND_ENVELOPE_COMMAND F_dispatchString F_responseString;
   row RIL_REQUEST_STK_SEND_TERMINAL_RESPONSE F_dispatchString F_responseVoid;
   row RIL_REQUEST_STK_HANDLE_CALL_SETUP_REQUESTED_FROM_SIM F_dispatchInts F_responseVoid;
   row RIL_REQUEST_EXPLICIT_CALL_TRANSFER F_dispatchVoid F_responseVoid;
   row RIL_REQUEST_SET_PREFERRED_NETWORK_TYPE F_dispatchInts F_responseVoid;
   row RIL_REQUEST_GET_PREFERRED_NETWORK_TYPE F_dispatchVoid F_responseInts;
   row RIL_REQUEST_GET_NEIGHBORING_CELL_IDS F_dispatchVoid F_responseCellList;
   row RIL_REQUEST_SET_LOCATION_UPDATES F_dispatchInts F_responseVoid;
   row RIL_REQUEST_CDMA_SET_SUBSCRIPTION_SOURCE F_dispatchInts F_responseVoid;
   row RIL_REQUEST_CDMA_SET_ROAMING_PREFERENCE F_dispatchInts F_responseVoid;
   row RIL_REQUEST_CDMA_QUERY_ROAMING_PREFERENCE F_dispatchVoid F_responseInts;
   row RIL_REQUEST_SET_TTY_MODE F_dispatchInts F_responseVoid;
   row RIL_REQUEST_QUERY_TTY_MODE F_dispatchVoid F_responseInts;
   row RIL_REQUEST_CDMA_SET_PREFERRED_VOICE_PRIVACY_MODE F_dispatchInts F_responseVoid;
   row RIL_REQUEST_CDMA_QUERY_PREFERRED_VOICE_PRIVACY_MODE F_dispatchVoid F_responseInts;
   row RIL_REQUEST_CDMA_FLASH F_dispatchString F_responseVoid;
   row RIL_REQUEST_CDMA_BURST_DTMF F_dispatchStrings F_responseVoid;
   row RIL_REQUEST_CDMA_VALIDATE_AND_WRITE_AKEY F_dispatchString F_responseVoid;
   row RIL_REQUEST_CDMA_SEND_SMS F_dispatchCdmaSms F_responseSMS;
   row RIL_REQUEST_CDMA_SMS_ACKNOWLEDGE F_dispatchCdmaSmsAck F_responseVoid;
   row RIL_REQUEST_GSM_GET_BROADCAST_SMS_CONFIG F_dispatchVoid F_responseGsmBrSmsCnf;
   row RIL_REQUEST_GSM_SET_BROADCAST_SMS_CONFIG F_dispatchGsmBrSmsCnf F_responseVoid;
   row RIL_REQUEST_GSM_SMS_BROADCAST_ACTIVATION F_dispatchInts F_responseVoid;
   row RIL_REQUEST_CDMA_GET_BROADCAST_SMS_CONFIG F_dispatchVoid F_responseCdmaBrSmsCnf;
   row RIL_REQUEST_CDMA_SET_BROADCAST_SMS_CONFIG F_dispatchCdmaBrSmsCnf F_responseVoid;
   row RIL_REQUEST_CDMA_SMS_BROADCAST_ACTIVATION F_dispatchInts F_responseVoid;
   row RIL_REQUEST_CDMA_SUBSCRIPTION F_dispatchVoid F_responseStrings;
   row RIL_REQUEST_CDMA_WRITE_SMS_TO_RUIM F_dispatchRilCdmaSmsWriteArgs F_responseInts;
   row RIL_REQUEST_CDMA_DELETE_SMS_ON_RUIM F_dispatchInts F_responseVoid;
   row RIL_REQUEST_DEVICE_IDENTITY F_dispatchVoid F_responseStrings;
   row RIL_REQUEST_EXIT_EMERGENCY_CALLBACK_MODE F_dispatchVoid F_responseVoid;
   row RIL_REQUEST_GET_SMSC_ADDRESS F_dispatchVoid F_responseString;
   row RIL_REQUEST_SET_SMSC_ADDRESS F_dispatchString F_responseVoid;
   row RIL_REQUEST_REPORT_SMS_MEMORY_STATUS F_dispatchInts F_responseVoid;
   row RIL_REQUEST_REPORT_STK_SERVICE_IS_RUNNING F_dispatchVoid F_responseVoid;
   row RIL_REQUEST_CDMA_GET_SUBSCRIPTION_SOURCE F_dispatchCdmaSubscriptionSource F_responseInts;
   row RIL_REQUEST_ISIM_AUTHENTICATION F_dispatchString F_responseString;
   row RIL_REQUEST_ACKNOWLEDGE_INCOMING_GSM_SMS_WITH_PDU F_dispatchStrings F_responseVoid;
   row RIL_REQUEST_STK_SEND_ENVELOPE_WITH_STATUS F_dispatchString F_responseSIM_IO;
   row RIL_REQUEST_VOICE_RADIO_TECH F_dispatchVoiceRadioTech F_responseInts;
   row RIL_REQUEST_GET_CELL_INFO_LIST F_dispatchVoid F_responseCellInfoList;
   row RIL_REQUEST_SET_UNSOL_CELL_INFO_LIST_RATE F_dispatchInts F_responseVoid;
   row RIL_REQUEST_SET_INITIAL_ATTACH_APN F_dispatchSetInitialAttachApn F_responseVoid;
   row RIL_REQUEST_IMS_REGISTRATION_STATE F_dispatchVoid F_responseInts;
   row RIL_REQUEST_IMS_SEND_SMS F_dispatchImsSms F_responseSMS;
   row RIL_REQUEST_GET_DATA_CALL_PROFILE F_dispatchInts F_responseGetDataCallProfile;
   row RIL_REQUEST_SET_UICC_SUBSCRIPTION F_dispatchUiccSubscripton F_responseVoid;
   row RIL_REQUEST_SET_DATA_SUBSCRIPTION F_dispatchVoid F_responseVoid;
   row RIL_REQUEST_SIM_TRANSMIT_BASIC F_dispatchSIM_IO F_responseSIM_IO;
   row RIL_REQUEST_SIM_OPEN_CHANNEL F_dispatchString F_responseInts;
   row RIL_REQUEST_SIM_CLOSE_CHANNEL F_dispatchInts F_responseVoid;
   row RIL_REQUEST_SIM_TRANSMIT_CHANNEL F_dispatchSIM_IO F_responseSIM_IO] ++
  (if legacy then [] else [row RIL_REQUEST_SIM_GET_ATR F_dispatchInts F_responseString]).

Definition s_unsolResponses : list UnsolResponseInfo :=
  [urow RIL_UNSOL_RESPONSE_RADIO_STATE_CHANGED F_responseVoid WAKE_PARTIAL;
   urow RIL_UNSOL_RESPONSE_CALL_STATE_CHANGED F_responseVoid WAKE_PARTIAL;
   urow RIL_UNSOL_RESPONSE_VOICE_NETWORK_STATE_CHANGED F_responseVoid WAKE_PARTIAL;
   urow RIL_UNSOL_RESPONSE_NEW_SMS F_responseString WAKE_PARTIAL;
   urow RIL_UNSOL_RESPONSE_NEW_SMS_STATUS_REPORT F_responseString WAKE_PARTIAL;
   urow RIL_UNSOL_RESPONSE_NEW_SMS_ON_SIM F_responseInts WAKE_PARTIAL;
   urow RIL_UNSOL_ON_USSD F_responseStrings WAKE_PARTIAL;
   urow RIL_UNSOL_ON_USSD_REQUEST F_responseVoid DONT_WAKE;
   urow RIL_UNSOL_NITZ_TIME_RECEIVED F_responseString WAKE_PARTIAL;
   urow RIL_UNSOL_SIGNAL_STRENGTH F_responseRilSignalStrength DONT_WAKE;
   urow RIL_UNSOL_DATA_CALL_LIST_CHANGED F_responseDataCallList WAKE_PARTIAL;
   urow RIL_UNSOL_SUPP_SVC_NOTIFICATION F_responseSsn WAKE_PARTIAL;
   urow RIL_UNSOL_STK_SESSION_END F_responseVoid WAKE_PARTIAL;
   urow RIL_UNSOL_STK_PROACTIVE_COMMAND F_responseString WAKE_PARTIAL;
   urow RIL_UNSOL_STK_EVENT_NOTIFY F_responseString WAKE_PARTIAL;
   urow RIL_UNSOL_STK_CALL_SETUP F_responseInts WAKE_PARTIAL;
   urow RIL_UNSOL_SIM_SMS_STORAGE_FULL F_responseVoid WAKE_PARTIAL;
   urow RIL_UNSOL_SIM_REFRESH F_responseSimRefresh WAKE_PARTIAL;
   urow RIL_UNSOL_CALL_RING F_responseCallRing WAKE_PARTIAL;
   urow RIL_UNSOL_RESPONSE_SIM_STATUS_CHANGED F_responseVoid WAKE_PARTIAL;
   urow RIL_UNSOL_RESPONSE_CDMA_NEW_SMS F_responseCdmaSms WAKE_PARTIAL;
   urow RIL_UNSOL_RESPONSE_NEW_BROADCAST_SMS F_responseRaw WAKE_PARTIAL;
   urow RIL_UNSOL_CDMA_RUIM_SMS_STORAGE_FULL F_responseVoid WAKE_PARTIAL;
   urow RIL_UNSOL_RESTRICTED_STATE_CHANGED F_responseInts WAKE_PARTIAL;
   urow RIL_UNSOL_ENTER_EMERGENCY_CALLBACK_MODE F_responseVoid WAKE_PARTIAL;
   urow RIL_UNSOL_CDMA_CALL_WAITING F_responseCdmaCallWaiting WAKE_PARTIAL;
   urow RIL_UNSOL_CDMA_OTA_PROVISION_STATUS F_responseInts WAKE_PARTIAL;
   urow RIL_UNSOL_CDMA_INFO_REC F_responseCdmaInformationRecords WAKE_PARTIAL;
   urow RIL_UNSOL_OEM_HOOK_RAW F_responseRaw WAKE_PARTIAL;
   urow RIL_UNSOL_RINGBACK_TONE F_responseInts WAKE_PARTIAL;
   urow RIL_UNSOL_RESEND_INCALL_MUTE F_responseVoid WAKE_PARTIAL;
   urow RIL_UNSOL_CDMA_SUBSCRIPTION_SOURCE_CHANGED F_responseInts WAKE_PARTIAL;
   urow RIL_UNSOL_CDMA_PRL_CHANGED F_responseInts WAKE_PARTIAL;
   urow RIL_UNSOL_EXIT_EMERGENCY_CALLBACK_MODE F_responseVoid WAKE_PARTIAL;
   urow RIL_UNSOL_RIL_CONNECTED F_responseInts WAKE_PARTIAL;
   urow RIL_UNSOL_VOICE_RADIO_TECH_CHANGED F_responseInts WAKE_PARTIAL;
   urow RIL_UNSOL_CELL_INFO_LIST F_responseCellInfoList WAKE_PARTIAL;
   urow RIL_UNSOL_RESPONSE_IMS_NETWORK_STATE_CHANGED F_responseVoid WAKE_PARTIAL;
   urow RIL_UNSOL_ON_SS F_responseSSData WAKE_PARTIAL;
   urow RIL_UNSOL_STK_CC_ALPHA_NOTIFY F_responseString WAKE_PARTIAL;
   urow RIL_UNSOL_UICC_SUBSCRIPTION_STATUS_CHANGED F_responseInts WAKE_PARTIAL].

(** The self-check at the start of [RIL_register]. *)
Definition tables_ok (legacy : bool) : Prop :=
  (forall i ci, s_commands legacy !! i = Some ci -> requestNumber ci = Z.of_nat i) /\
  (forall i ui, s_unsolResponses !! i = Some ui -> unsolNumber ui = Z.of_nat i + rilh RIL_UNSOL_RESPONSE_BASE).

End Tables.

(** ** Values for the witnesses *)

Definition rilh_values (c : ril_const) : Z :=
  match c with
  | RIL_REQUEST_GET_SIM_STATUS => 1
  | RIL_REQUEST_ENTER_SIM_PIN => 2
  | RIL_REQUEST_ENTER_SIM_PUK => 3
  | RIL_REQUEST_ENTER_SIM_PIN2 => 4
  | RIL_REQUEST_ENTER_SIM_PUK2 => 5
  | RIL_REQUEST_CHANGE_SIM_PIN => 6
  | RIL_REQUEST_CHANGE_SIM_PIN2 => 7
  | RIL_REQUEST_ENTER_DEPERSONALIZATION_CODE => 8
  | RIL_REQUEST_GET_CURRENT_CALLS => 9
  | RIL_REQUEST_DIAL => 10
  | RIL_REQUEST_GET_IMSI => 11
  | RIL_REQUEST_HANGUP => 12
  | RIL_REQUEST_HANGUP_WAITING_OR_BACKGROUND => 13
  | RIL_REQUEST_HANGUP_FOREGROUND_RESUME_BACKGROUND => 14
  | RIL_REQUEST_SWITCH_WAITING_OR_HOLDING_AND_ACTIVE => 15
  | RIL_REQUEST_CONFERENCE => 16
  | RIL_REQUEST_UDUB => 17
  | RIL_REQUEST_LAST_CALL_FAIL_CAUSE => 18
  | RIL_REQUEST_SIGNAL_STRENGTH => 19
  | RIL_REQUEST_VOICE_REGISTRATION_STATE => 20
  | RIL_REQUEST_DATA_REGISTRATION_STATE => 21
  | RIL_REQUEST_OPERATOR => 22
  | RIL_REQUEST_RADIO_POWER => 23
  | RIL_REQUEST_DTMF => 24
  | RIL_REQUEST_SEND_SMS => 25
  | RIL_REQUEST_SEND_SMS_EXPECT_MORE => 26
  | RIL_REQUEST_SETUP_DATA_CALL => 27
  | RIL_REQUEST_SIM_IO => 28
  | RIL_REQUEST_SEND_USSD => 29
  | RIL_REQUEST_CANCEL_USSD => 30
  | RIL_REQUEST_GET_CLIR => 31
  | RIL_REQUEST_SET_CLIR => 32
  | RIL_REQUEST_QUERY_CALL_FORWARD_STATUS => 33
  | RIL_REQUEST_SET_CALL_FORWARD => 34
  | RIL_REQUEST_QUERY_CALL_WAITING => 35
  | RIL_REQUEST_SET_CALL_WAITING => 36
  | RIL_REQUEST_SMS_ACKNOWLEDGE => 37
  | RIL_REQUEST_GET_IMEI => 38
  | RIL_REQUEST_GET_IMEISV => 39
  | RIL_REQUEST_ANSWER => 40
  | RIL_REQUEST_DEACTIVATE_DATA_CALL => 41
  | RIL_REQUEST_QUERY_FACILITY_LOCK => 42
  | RIL_REQUEST_SET_FACILITY_LOCK => 43
  | RIL_REQUEST_CHANGE_BARRING_PASSWORD => 44
  | RIL_REQUEST_QUERY_NETWORK_SELECTION_MODE => 45
  | RIL_REQUEST_SET_NETWORK_SELECTION_AUTOMATIC => 46
  | RIL_REQUEST_SET_NETWORK_SELECTION_MANUAL => 47
  | RIL_REQUEST_QUERY_AVAILABLE_NETWORKS => 48
  | RIL_REQUEST_DTMF_START => 49
  | RIL_REQUEST_DTMF_STOP => 50
  | RIL_REQUEST_BASEBAND_VERSION => 51
  | RIL_REQUEST_SEPARATE_CONNECTION => 52
  | RIL_REQUEST_SET_MUTE => 53
  | RIL_REQUEST_GET_MUTE => 54
  | RIL_REQUEST_QUERY_CLIP => 55
  | RIL_REQUEST_LAST_DATA_CALL_FAIL_CAUSE => 56
  | RIL_REQUEST_DATA_CALL_LIST => 57
  | RIL_REQUEST_RESET_RADIO => 58
  | RIL_REQUEST_OEM_HOOK_RAW => 59
  | RIL_REQUEST_OEM_HOOK_STRINGS => 60
  | RIL_REQUEST_SCREEN_STATE => 61
  | RIL_REQUEST_SET_SUPP_SVC_NOTIFICATION => 62
  | RIL_REQUEST_WRITE_SMS_TO_SIM => 63
  | RIL_REQUEST_DELETE_SMS_ON_SIM => 64
  | RIL_REQUEST_SET_BAND_MODE => 65
  | RIL_REQUEST_QUERY_AVAILABLE_BAND_MODE => 66
  | RIL_REQUEST_STK_GET_PROFILE => 67
  | RIL_REQUEST_STK_SET_PROFILE => 68
  | RIL_REQUEST_STK_SEND_ENVELOPE_COMMAND => 69
  | RIL_REQUEST_STK_SEND_TERMINAL_RESPONSE => 70
  | RIL_REQUEST_STK_HANDLE_CALL_SETUP_REQUESTED_FROM_SIM => 71
  | RIL_REQUEST_EXPLICIT_CALL_TRANSFER => 72
  | RIL_REQUEST_SET_PREFERRED_NETWORK_TYPE => 73
  | RIL_REQUEST_GET_PREFERRED_NETWORK_TYPE => 74
  | RIL_REQUEST_GET_NEIGHBORING_CELL_IDS => 75
  | RIL_REQUEST_SET_LOCATION_UPDATES => 76
  | RIL_REQUEST_CDMA_SET_SUBSCRIPTION_SOURCE => 77
  | RIL_REQUEST_CDMA_SET_ROAMING_PREFERENCE => 78
  | RIL_REQUEST_CDMA_QUERY_ROAMING_PREFERENCE => 79
  | RIL_REQUEST_SET_TTY_MODE => 80
  | RIL_REQUEST_QUERY_TTY_MODE => 81
  | RIL_REQUEST_CDMA_SET_PREFERRED_VOICE_PRIVACY_MODE => 82
  | RIL_REQUEST_CDMA_QUERY_PREFERRED_VOICE_PRIVACY_MODE => 83
  | RIL_REQUEST_CDMA_FLASH => 84
  | RIL_REQUEST_CDMA_BURST_DTMF => 85
  | RIL_REQUEST_CDMA_VALIDATE_AND_WRITE_AKEY => 86
  | RIL_REQUEST_CDMA_SEND_SMS => 87
  | RIL_REQUEST_CDMA_SMS_ACKNOWLEDGE => 88
  | RIL_REQUEST_GSM_GET_BROADCAST_SMS_CONFIG => 89
  | RIL_REQUEST_GSM_SET_BROADCAST_SMS_CONFIG => 90
  | RIL_REQUEST_GSM_SMS_BROADCAST_ACTIVATION => 91
  | RIL_REQUEST_CDMA_GET_BROADCAST_SMS_CONFIG => 92
  | RIL_REQUEST_CDMA_SET_BROADCAST_SMS_CONFIG => 93
  | RIL_REQUEST_CDMA_SMS_BROADCAST_ACTIVATION => 94
  | RIL_REQUEST_CDMA_SUBSCRIPTION => 95
  | RIL_REQUEST_CDMA_WRITE_SMS_TO_RUIM => 96
  | RIL_REQUEST_CDMA_DELETE_SMS_ON_RUIM => 97
  | RIL_REQUEST_DEVICE_IDENTITY => 98
  | RIL_REQUEST_EXIT_EMERGENCY_CALLBACK_MODE => 99
  | RIL_REQUEST_GET_SMSC_ADDRESS => 100
  | RIL_REQUEST_SET_SMSC_ADDRESS => 101
  | RIL_REQUEST_REPORT_SMS_MEMORY_STATUS => 102
  | RIL_REQUEST_REPORT_STK_SERVICE_IS_RUNNING => 103
  | RIL_REQUEST_CDMA_GET_SUBSCRIPTION_SOURCE => 104
  | RIL_REQUEST_ISIM_AUTHENTICATION => 105
  | RIL_REQUEST_ACKNOWLEDGE_INCOMING_GSM_SMS_WITH_PDU => 106
  | RIL_REQUEST_STK_SEND_ENVELOPE_WITH_STATUS => 107
  | RIL_REQUEST_VOICE_RADIO_TECH => 108
  | RIL_REQUEST_GET_CELL_INFO_LIST => 109
  | RIL_REQUEST_SET_UNSOL_CELL_INFO_LIST_RATE => 110
  | RIL_REQUEST_SET_INITIAL_ATTACH_APN => 111
  | RIL_REQUEST_IMS_REGISTRATION_STATE => 112
  | RIL_REQUEST_IMS_SEND_SMS => 113
  | RIL_REQUEST_GET_DATA_CALL_PROFILE => 114
  | RIL_REQUEST_SET_UICC_SUBSCRIPTION => 115
  | RIL_REQUEST_SET_DATA_SUBSCRIPTION => 116
  | RIL_REQUEST_SIM_TRANSMIT_BASIC => 117
  | RIL_REQUEST_SIM_OPEN_CHANNEL => 118
  | RIL_REQUEST_SIM_CLOSE_CHANNEL => 119
  | RIL_REQUEST_SIM_TRANSMIT_CHANNEL => 120
  | RIL_REQUEST_SIM_GET_ATR => 121
  | RIL_UNSOL_RESPONSE_RADIO_STATE_CHANGED => 1000
  | RIL_UNSOL_RESPONSE_CALL_STATE_CHANGED => 1001
  | RIL_UNSOL_RESPONSE_VOICE_NETWORK_STATE_CHANGED => 1002
  | RIL_UNSOL_RESPONSE_NEW_SMS => 1003
  | RIL_UNSOL_RESPONSE_NEW_SMS_STATUS_REPORT => 1004
  | RIL_UNSOL_RESPONSE_NEW_SMS_ON_SIM => 1005
  | RIL_UNSOL_ON_USSD => 1006
  | RIL_UNSOL_ON_USSD_REQUEST => 1007
  | RIL_UNSOL_NITZ_TIME_RECEIVED => 1008
  | RIL_UNSOL_SIGNAL_STRENGTH => 1009
  | RIL_UNSOL_DATA_CALL_LIST_CHANGED => 1010
  | RIL_UNSOL_SUPP_SVC_NOTIFICATION => 1011
  | RIL_UNSOL_STK_SESSION_END => 1012
  | RIL_UNSOL_STK_PROACTIVE_COMMAND => 1013
  | RIL_UNSOL_STK_EVENT_NOTIFY => 1014
  | RIL_UNSOL_STK_CALL_SETUP => 1015
  | RIL_UNSOL_SIM_SMS_STORAGE_FULL => 1016
  | RIL_UNSOL_SIM_REFRESH => 1017
  | RIL_UNSOL_CALL_RING => 1018
  | RIL_UNSOL_RESPONSE_SIM_STATUS_CHANGED => 1019
  | RIL_UNSOL_RESPONSE_CDMA_NEW_SMS => 1020
  | RIL_UNSOL_RESPONSE_NEW_BROADCAST_SMS => 1021
  | RIL_UNSOL_CDMA_RUIM_SMS_STORAGE_FULL => 1022
  | RIL_UNSOL_RESTRICTED_STATE_CHANGED => 1023
  | RIL_UNSOL_ENTER_EMERGENCY_CALLBACK_MODE => 1024
  | RIL_UNSOL_CDMA_CALL_WAITING => 1025
  | RIL_UNSOL_CDMA_OTA_PROVISION_STATUS => 1026
  | RIL_UNSOL_CDMA_INFO_REC => 1027
  | RIL_UNSOL_OEM_HOOK_RAW => 1028
  | RIL_UNSOL_RINGBACK_TONE => 1029
  | RIL_UNSOL_RESEND_INCALL_MUTE => 1030
  | RIL_UNSOL_CDMA_SUBSCRIPTION_SOURCE_CHANGED => 1031
  | RIL_UNSOL_CDMA_PRL_CHANGED => 1032
  | RIL_UNSOL_EXIT_EMERGENCY_CALLBACK_MODE => 1033
  | RIL_UNSOL_RIL_CONNECTED => 1034
  | RIL_UNSOL_VOICE_RADIO_TECH_CHANGED => 1035
  | RIL_UNSOL_CELL_INFO_LIST => 1036
  | RIL_UNSOL_RESPONSE_IMS_NETWORK_STATE_CHANGED => 1037
  | RIL_UNSOL_ON_SS => 1038
  | RIL_UNSOL_STK_CC_ALPHA_NOTIFY => 1039
  | RIL_UNSOL_UICC_SUBSCRIPTION_STATUS_CHANGED => 1040
  | RIL_UNSOL_RESPONSE_BASE => 1000
  | RIL_VERSION => 9
  | RIL_VERSION_MIN => 6
  | MAX_SOCKET_NAME_LENGTH => 6
  | MAX_DEBUG_SOCKET_NAME_LENGTH => 12
  | RIL_E_SUCCESS => 0
  | RIL_E_RADIO_NOT_AVAILABLE => 1
  | RIL_E_GENERIC_FAILURE => 2
  | RIL_E_PASSWORD_INCORRECT => 3
  | RIL_E_SIM_PIN2 => 4
  | RIL_E_SIM_PUK2 => 5
  | RIL_E_REQUEST_NOT_SUPPORTED => 6
  | RIL_E_CANCELLED => 7
  | RIL_E_OP_NOT_ALLOWED_DURING_VOICE_CALL => 8
  | RIL_E_OP_NOT_ALLOWED_BEFORE_REG_TO_NW => 9
  | RIL_E_SMS_SEND_FAIL_RETRY => 10
  | RIL_E_SIM_ABSENT => 11
  | RIL_E_ILLEGAL_SIM_OR_ME => 12
  | RADIO_STATE_OFF => 0
  | RADIO_STATE_UNAVAILABLE => 1
  | RADIO_STATE_SIM_NOT_READY => 2
  | RADIO_STATE_SIM_LOCKED_OR_ABSENT => 3
  | RADIO_STATE_SIM_READY => 4
  | RADIO_STATE_RUIM_NOT_READY => 5
  | RADIO_STATE_RUIM_READY => 6
  | RADIO_STATE_RUIM_LOCKED_OR_ABSENT => 7
  | RADIO_STATE_NV_NOT_READY => 8
  | RADIO_STATE_NV_READY => 9
  | RADIO_STATE_ON => 10
  | RIL_CALL_ACTIVE => 0
  | RIL_CALL_HOLDING => 1
  | RIL_CALL_DIALING => 2
  | RIL_CALL_ALERTING => 3
  | RIL_CALL_INCOMING => 4
  | RIL_CALL_WAITING => 5
  | RADIO_TECH_UMTS => 3
  | RADIO_TECH_IS95A => 4
  | RADIO_TECH_IS95B => 5
  | RADIO_TECH_1xRTT => 6
  | RADIO_TECH_EVDO_0 => 7
  | RADIO_TECH_EVDO_A => 8
  | RADIO_TECH_EVDO_B => 12
  | RADIO_TECH_EHRPD => 13
  | RADIO_TECH_3GPP => 1
  | RADIO_TECH_3GPP2 => 2
  | CDMA_SUBSCRIPTION_SOURCE_RUIM_SIM => 0
  | CDMA_SUBSCRIPTION_SOURCE_NV => 1
  | RIL_CDMA_SMS_ADDRESS_MAX => 36
  | RIL_CDMA_SMS_SUBADDRESS_MAX => 36
  | RIL_CDMA_SMS_BEARER_DATA_MAX => 255
  | RIL_CDMA_MAX_NUMBER_OF_INFO_RECS => 10
  | CDMA_ALPHA_INFO_BUFFER_LENGTH => 64
  | CDMA_NUMBER_INFO_BUFFER_LENGTH => 81
  | RIL_CDMA_DISPLAY_INFO_REC => 0
  | RIL_CDMA_CALLED_PARTY_NUMBER_INFO_REC => 1
  | RIL_CDMA_CALLING_PARTY_NUMBER_INFO_REC => 2
  | RIL_CDMA_CONNECTED_NUMBER_INFO_REC => 3
  | RIL_CDMA_SIGNAL_INFO_REC => 4
  | RIL_CDMA_REDIRECTING_NUMBER_INFO_REC => 5
  | RIL_CDMA_LINE_CONTROL_INFO_REC => 6
  | RIL_CDMA_EXTENDED_DISPLAY_INFO_REC => 7
  | RIL_CDMA_T53_CLIR_INFO_REC => 8
  | RIL_CDMA_T53_RELEASE_INFO_REC => 9
  | RIL_CDMA_T53_AUDIO_CONTROL_INFO_REC => 10
  | RIL_CELL_INFO_TYPE_GSM => 1
  | RIL_CELL_INFO_TYPE_CDMA => 2
  | RIL_CELL_INFO_TYPE_LTE => 3
  | RIL_CELL_INFO_TYPE_WCDMA => 4
  | NUM_SERVICE_CLASSES => 7
  | SS_INFO_MAX => 4
  | SS_INTERROGATION => 2
  | SS_CFU => 0
  | SS_CF_BUSY => 1
  | SS_CF_NO_REPLY => 2
  | SS_CF_NOT_REACHABLE => 3
  | SS_CF_ALL => 4
  | SS_CF_ALL_CONDITIONAL => 5
  end.

Definition sizeof_values (t : ctype) : Z :=
  match t with
  | S_RIL_SMS_WriteArgs => 12
  | S_RIL_Dial => 12
  | S_RIL_UUS_Info => 16
  | S_RIL_SIM_IO_v5 => 36
  | S_RIL_SIM_IO_v6 => 40
  | S_RIL_CallForwardInfo => 24
  | S_RIL_CDMA_SMS_Message => 376
  | S_RIL_CDMA_SMS_WriteArgs => 380
  | S_RIL_CDMA_SMS_Ack => 8
  | S_RIL_RadioTechnologyFamily => 4
  | S_RIL_GSM_BroadcastSmsConfigInfo => 20
  | S_RIL_CDMA_BroadcastSmsConfigInfo => 12
  | S_RIL_InitialAttachApn => 20
  | S_RIL_SelectUiccSub => 16
  | S_RIL_SMS_Response => 12
  | S_RIL_Data_Call_Response_v4 => 20
  | S_RIL_Data_Call_Response_v6 => 36
  | S_RIL_SIM_IO_Response => 12
  | S_RIL_SuppSvcNotification => 20
  | S_RIL_CDMA_InformationRecords => 964
  | S_RIL_SignalStrength_v5 => 28
  | S_RIL_SignalStrength_v6 => 48
  | S_RIL_SignalStrength_v8 => 52
  | S_RIL_SignalStrength_v9_CAF => 56
  | S_RIL_CDMA_SignalInfoRecord => 4
  | S_RIL_CDMA_CallWaiting_v6 => 24
  | S_RIL_CellInfo => 80
  | S_RIL_StkCcUnsolSsResponse => 196
  | S_RIL_CardStatus_v5 => 276
  | S_RIL_CardStatus_v6 => 280
  | S_RIL_DataCallProfileInfo => 8
  end.

Definition sample_rilh : RilH := {| rilh := rilh_values; sizeof := sizeof_values |}.
