(* ===== verification/RilTypes.v ===== *)
(** * libril: the structures exchanged with the vendor RIL

    The structures of telephony/ril.h and telephony/ril_cdma_sms.h, with
    the members ril.cpp reads or writes (their definitions are not in this
    repository, the uses are).  A [char *] is [None] for NULL or the bytes
    before the terminating NUL; a pointer to a structure inside an array of
    pointers is an [option].  [voidptr] is the [void *] of the RIL
    interface: the object it points to.  A function that casts it to
    another type, or reads past the object, has undefined behaviour. *)

From S2P Require Import Prelude Bytes.

Abbreviation cstr := (option (list Z)).

Record RIL_SMS_WriteArgs := mkSmsWrite { sw_status : Z; sw_pdu : cstr; sw_smsc : cstr }.

Record RIL_UUS_Info := mkUus { uusType : Z; uusDcs : Z; uusLength : Z; uusData : option (list Z) }.

Record RIL_Dial := mkDial { dial_address : cstr; clir : Z; dial_uusInfo : option RIL_UUS_Info }.

Record RIL_SIM_IO := mkSimIO {
  cla : Z; sim_command : Z; fileid : Z; sim_path : cstr;
  sim_p1 : Z; sim_p2 : Z; sim_p3 : Z; sim_data : cstr; pin2 : cstr; aidPtr : cstr }.

Record RIL_CallForwardInfo := mkCF {
  cf_status : Z; cf_reason : Z; cf_serviceClass : Z; cf_toa : Z; cf_number : cstr; cf_timeSeconds : Z }.

Record RIL_CDMA_SMS_Address := mkAddr {
  digit_mode : Z; number_mode : Z; number_type : Z; number_plan : Z;
  number_of_digits : Z; digits : list Z }.

Record RIL_CDMA_SMS_Subaddress := mkSub {
  subaddressType : Z; odd : Z; sub_number_of_digits : Z; sub_digits : list Z }.

Record RIL_CDMA_SMS_Message := mkCdmaSms {
  uTeleserviceID : Z; bIsServicePresent : Z; uServicecategory : Z;
  sAddress : RIL_CDMA_SMS_Address; sSubAddress : RIL_CDMA_SMS_Subaddress;
  uBearerDataLen : Z; aBearerData : list Z }.

Record RIL_CDMA_SMS_WriteArgs := mkCdmaWrite { rcsw_status : Z; rcsw_message : RIL_CDMA_SMS_Message }.

Record RIL_CDMA_SMS_Ack := mkAck { uErrorClass : Z; uSMSCauseCode : Z }.

Inductive ims_message :=
| ImsGsm (pStrings : option (list cstr))
| ImsCdma (m : RIL_CDMA_SMS_Message).

Record RIL_IMS_SMS_Message := mkIms { ims_tech : Z; ims_retry : Z; messageRef : Z; ims_msg : ims_message }.

Record RIL_GSM_BroadcastSmsConfigInfo := mkGsmBci {
  fromServiceId : Z; toServiceId : Z; fromCodeScheme : Z; toCodeScheme : Z; gsm_selected : Z }.

Record RIL_CDMA_BroadcastSmsConfigInfo := mkCdmaBci { service_category : Z; language : Z; cdma_selected : Z }.

Record RIL_InitialAttachApn := mkApn {
  apn : cstr; protocol : cstr; authtype : Z; username : cstr; password : cstr }.

Record RIL_SelectUiccSub := mkUicc { uicc_slot : Z; app_index : Z; sub_type : Z; act_status : Z }.

Record RIL_Call := mkCall {
  call_state : Z; call_index : Z; call_toa : Z; isMpty : Z; isMT : Z; als : Z; isVoice : Z;
  isVoicePrivacy : Z; call_number : cstr; numberPresentation : Z; call_name : cstr;
  namePresentation : Z; call_uusInfo : option RIL_UUS_Info }.

Record RIL_SMS_Response := mkSmsResp { sms_messageRef : Z; ackPDU : cstr; sms_errorCode : Z }.

Record RIL_Data_Call_Response_v4 := mkDataV4 {
  v4_cid : Z; v4_active : Z; v4_type : cstr; v4_address : cstr }.

Record RIL_Data_Call_Response_v6 := mkDataV6 {
  v6_status : Z; suggestedRetryTime : Z; v6_cid : Z; v6_active : Z; v6_type : cstr;
  ifname : cstr; addresses : cstr; dnses : cstr; gateways : cstr }.

Record RIL_SIM_IO_Response := mkSimResp { sw1 : Z; sw2 : Z; simResponse : cstr }.

Record RIL_SuppSvcNotification := mkSsn {
  notificationType : Z; ssn_code : Z; ssn_index : Z; ssn_type : Z; ssn_number : cstr }.

Record RIL_NeighboringCell := mkCell { cell_cid : cstr; cell_rssi : Z }.

Record RIL_CDMA_SignalInfoRecord := mkSignalInfo {
  isPresent : Z; signalType : Z; alertPitch : Z; signal : Z }.

(** The union [rec] of RIL_CDMA_InformationRecord: the member stored. *)
Record cdma_number := mkNumber {
  num_len : Z; num_buf : list Z; num_type : Z; num_plan : Z; num_pi : Z; num_si : Z }.

Inductive info_union :=
| RecDisplay (alpha_len : Z) (alpha_buf : list Z)
| RecNumber (n : cdma_number)
| RecSignal (s : RIL_CDMA_SignalInfoRecord)
| RecRedir (n : cdma_number) (redirectingReason : Z)
| RecLineCtrl (polarityIncluded toggle reverse powerDenial : Z)
| RecClir (cause : Z)
| RecAudioCtrl (upLink downLink : Z).

Record RIL_CDMA_InformationRecord := mkInfoRec { rec_name : Z; rec : info_union }.

Record RIL_CDMA_InformationRecords := mkInfoRecs {
  numberOfInfoRecs : Z; infoRec : list RIL_CDMA_InformationRecord }.

(** The signal strength structures v5, v6, v8 and v9_CAF extend each other:
    the parts an older structure does not have are [None]. *)
Record RIL_LTE_SignalStrength := mkLte {
  lte_signalStrength : Z; lte_rsrp : Z; lte_rsrq : Z; lte_rssnr : Z; lte_cqi : Z }.

Record RIL_SignalStrength := mkSS {
  gw_signalStrength : Z; gw_bitErrorRate : Z; cdma_dbm : Z; cdma_ecio : Z;
  evdo_dbm : Z; evdo_ecio : Z; evdo_snr : Z;
  ss_lte : option RIL_LTE_SignalStrength;
  ss_timingAdvance : option Z;
  ss_rscp : option Z }.

(** v5 of the structure lacks [number_type] and [number_plan]. *)
Record RIL_CDMA_CallWaiting := mkCallWaiting {
  cw_number : cstr; cw_numberPresentation : Z; cw_name : cstr;
  cw_signalInfo : RIL_CDMA_SignalInfoRecord; cw_types : option (Z * Z) }.

Record RIL_SimRefreshResponse_v7 := mkRefresh { refresh_result : Z; ef_id : Z; refresh_aid : cstr }.

Inductive cell_union :=
| CellGsm (mcc mnc lac cid ss ber : Z)
| CellWcdma (mcc mnc lac cid psc ss ber : Z)
| CellCdma (nId sId bsId long lat dbm ecio edbm eecio esnr : Z)
| CellLte (mcc mnc ci pci tac ss rsrp rsrq rssnr cqi ta : Z).

Record RIL_CellInfo := mkCellInfo {
  cellInfoType : Z; registered : Z; timeStampType : Z; timeStamp : Z; CellInfo : cell_union }.

Inductive ss_union :=
| SsCf (numValidIndexes : Z) (cfInfo : list RIL_CallForwardInfo)
| SsInfo (ssInfo : list Z).

Record RIL_StkCcUnsolSsResponse := mkSSData {
  serviceType : Z; requestType : Z; teleserviceType : Z; ss_serviceClass : Z; ss_result : Z;
  ss_data : ss_union }.

Record RIL_AppStatus := mkApp {
  app_type : Z; app_state : Z; perso_substate : Z; aid_ptr : cstr; app_label_ptr : cstr;
  pin1_replaced : Z; app_pin1 : Z; app_pin2 : Z }.

(** v5 has no [ims_subscription_app_index]. *)
Record RIL_CardStatus := mkCard {
  card_state : Z; universal_pin_state : Z; gsm_umts_subscription_app_index : Z;
  cdma_subscription_app_index : Z; ims_subscription_app_index : option Z;
  num_applications : Z; applications : list RIL_AppStatus }.

Inductive voidptr :=
| VNull
| VInts (l : list Z)
| VString (s : list Z)
| VStrings (l : list cstr)
| VBytes (bs : list Z)
| VSmsWrite (a : RIL_SMS_WriteArgs)
| VDial (d : RIL_Dial)
| VSimIO (s : RIL_SIM_IO)
| VCallForward (c : RIL_CallForwardInfo)
| VCdmaSms (m : RIL_CDMA_SMS_Message)
| VCdmaSmsWrite (w : RIL_CDMA_SMS_WriteArgs)
| VCdmaSmsAck (a : RIL_CDMA_SMS_Ack)
| VIms (m : RIL_IMS_SMS_Message)
| VGsmBci (l : list (option RIL_GSM_BroadcastSmsConfigInfo))
| VCdmaBci (l : list (option RIL_CDMA_BroadcastSmsConfigInfo))
| VApn (a : RIL_InitialAttachApn)
| VUicc (u : RIL_SelectUiccSub)
| VCalls (l : list (option RIL_Call))
| VSmsResponse (r : RIL_SMS_Response)
| VDataCallsV4 (l : list RIL_Data_Call_Response_v4)
| VDataCallsV6 (l : list RIL_Data_Call_Response_v6)
| VSimResponse (r : RIL_SIM_IO_Response)
| VCallForwards (l : list (option RIL_CallForwardInfo))
| VSsn (n : RIL_SuppSvcNotification)
| VCells (l : list (option RIL_NeighboringCell))
| VInfoRecs (r : RIL_CDMA_InformationRecords)
| VSignalStrength (s : RIL_SignalStrength)
| VSignalInfo (s : RIL_CDMA_SignalInfoRecord)
| VCallWaiting (c : RIL_CDMA_CallWaiting)
| VSimRefresh (r : RIL_SimRefreshResponse_v7)
| VCellInfos (l : list RIL_CellInfo)
| VSSData (s : RIL_StkCcUnsolSsResponse)
| VCardStatus (c : RIL_CardStatus)
| VProfiles (num : Z) (l : list (Z * Z)).

Definition is_null (v : voidptr) : bool := match v with VNull => true | _ => false end.

(** A [char *] passed as [void *]. *)
Definition ptr_of_string (s : cstr) : voidptr := match s with Some b => VString b | None => VNull end.
