(* ===== verification/RilDispatch.v ===== *)
(** * libril/ril.cpp: unmarshalling requests (the dispatch functions)

    Each dispatch function reads its arguments from the request's Parcel
    and makes one call: [s_callbacks.onRequest] with the data it built
    ([DRequest]) or [invalidCommandBlock] ([DInvalid]).  Local variables
    that the C code leaves uninitialised start with the value [junk];
    [stack_avail] is the room left on the stack for [alloca] and
    variable-length arrays.  The logging ([appendPrintBuf] and the like) is
    compiled out (RILC_LOG is 0); freeing the strings after the call is not
    represented, the data is the vendor's for the time of the call only. *)

From S2P Require Import Prelude Bytes Parcel RilConst RilTypes.

Inductive dresult :=
| DRequest (data : voidptr) (datalen : Z)
| DInvalid
| DNothing.

Section Dispatch.
Context {P : Type} {HPar : Parcel P} {HJS : JString} {HH : RilH}.

(** [s_callbacks.version], the build flag RILJ_USE_CLA, and the two above. *)
Variables (version : Z) (use_cla : bool) (stack_avail junk : Z).

Abbreviation pcmd := (cmd P).

Definition alloca (n : Z) : pcmd unit := if n <=? stack_avail then mret tt else ub.

(** A variable-length array of [n] elements. *)
Definition vla (n size : Z) : pcmd unit := if n <? 0 then ub else alloca (n * size).

(** ** Strings and integers *)

Definition dispatchVoid : pcmd dresult := mret (DRequest VNull 0).

Definition dispatchString : pcmd dresult :=
  string8 ← strdupReadString;
  mret (DRequest (ptr_of_string string8) sizeof_ptr).

(** [pStrings[i] = strdupReadString(p)] for [k] more indices, in an array
    of [datalen] bytes. *)
Fixpoint readStrings (k : nat) (i datalen : Z) : pcmd (list cstr) :=
  match k with
  | O => mret []
  | S k =>
      s ← strdupReadString;
      if (i + 1) * sizeof_ptr <=? datalen then
        l ← readStrings k (i + 1) datalen;
        mret (s :: l)
      else ub
  end.

(** The array of strings of [dispatchStrings] and [dispatchImsGsmSms]:
    the pointer ([None] is NULL) and [datalen]. *)
Definition read_pStrings (countStrings : Z) : pcmd (option (list cstr) * Z) :=
  if countStrings =? 0 then alloca sizeof_ptr;; mret (Some [], 0)
  else if countStrings =? -1 then mret (None, 0)
  else
    let datalen := u32 (sizeof_ptr * countStrings) in
    alloca datalen;;
    l ← readStrings (Z.to_nat countStrings) 0 datalen;
    mret (Some l, datalen).

Definition ptr_of_strings (l : option (list cstr)) : voidptr :=
  match l with Some l => VStrings l | None => VNull end.

Definition dispatchStrings : pcmd dresult :=
  '(status, countStrings) ← rdI32 junk;
  if negb status then mret DInvalid
  else
    '(pStrings, datalen) ← read_pStrings countStrings;
    mret (DRequest (ptr_of_strings pStrings) datalen).

Fixpoint readInts (k : nat) (i datalen : Z) : pcmd (option (list Z)) :=
  match k with
  | O => mret (Some [])
  | S k =>
      '(status, t) ← rdI32 junk;
      if negb ((i + 1) * sizeof_int <=? datalen) then ub
      else if negb status then mret None
      else
        l ← readInts k (i + 1) datalen;
        mret (cons t <$> l)
  end.

Definition dispatchInts : pcmd dresult :=
  '(status, count) ← rdI32 junk;
  if negb status || (count =? 0) then mret DInvalid
  else
    let datalen := u32 (sizeof_int * count) in
    alloca datalen;;
    r ← readInts (Z.to_nat count) 0 datalen;
    match r with
    | Some pInts => mret (DRequest (VInts pInts) datalen)
    | None => mret DInvalid
    end.

(** ** Structures *)

Definition dispatchSmsWrite : pcmd dresult :=
  '(status, t) ← rdI32 junk;
  pdu ← strdupReadString;
  if negb status || negb (bool_decide (is_Some pdu)) then mret DInvalid
  else
    smsc ← strdupReadString;
    mret (DRequest (VSmsWrite (mkSmsWrite t pdu smsc)) (sizeof S_RIL_SMS_WriteArgs)).

(** The user-to-user information of [dispatchDial]; [None] is the jump to
    [invalid]. *)
Definition read_uus (t : Z) : pcmd (option RIL_UUS_Info) :=
  '(_, t) ← rdI32 t;
  let uusType := t in
  '(_, t) ← rdI32 t;
  let uusDcs := t in
  '(status, len) ← rdI32 junk;
  if negb status then mret None
  else if len =? -1 then mret (Some (mkUus uusType uusDcs 0 None))
  else
    data ← rdInplace (u32 len);
    mret (Some (mkUus uusType uusDcs len data)).

Definition dispatchDial : pcmd dresult :=
  address ← strdupReadString;
  '(status, t) ← rdI32 junk;
  let clir := t in
  if negb status || negb (bool_decide (is_Some address)) then mret DInvalid
  else if version <? 3 then
    mret (DRequest (VDial (mkDial address clir None)) (sizeof S_RIL_Dial - sizeof_ptr))
  else
    '(status, uusPresent) ← rdI32 junk;
    if negb status then mret DInvalid
    else if uusPresent =? 0 then
      mret (DRequest (VDial (mkDial address clir None)) (sizeof S_RIL_Dial))
    else
      r ← read_uus t;
      match r with
      | None => mret DInvalid
      | Some uus => mret (DRequest (VDial (mkDial address clir (Some uus))) (sizeof S_RIL_Dial))
      end.

Definition dispatchSIM_IO (requestNumber : Z) : pcmd dresult :=
  '(cla, t) ←
    (if use_cla && ((requestNumber =? rilh RIL_REQUEST_SIM_TRANSMIT_BASIC)
                 || (requestNumber =? rilh RIL_REQUEST_SIM_TRANSMIT_CHANNEL))
     then '(_, t) ← rdI32 junk; mret (t, t)
     else mret (0, junk));
  '(_, t) ← rdI32 t;
  let command := t in
  '(_, t) ← rdI32 t;
  let fileid := t in
  path ← strdupReadString;
  '(_, t) ← rdI32 t;
  let p1 := t in
  '(_, t) ← rdI32 t;
  let p2 := t in
  '(status, t) ← rdI32 t;
  let p3 := t in
  data ← strdupReadString;
  pin2 ← strdupReadString;
  aidPtr ← strdupReadString;
  if negb status then mret DInvalid
  else
    let size := if version <? 6 then sizeof S_RIL_SIM_IO_v5 else sizeof S_RIL_SIM_IO_v6 in
    mret (DRequest (VSimIO (mkSimIO cla command fileid path p1 p2 p3 data pin2 aidPtr)) size).

Definition dispatchCallForward : pcmd dresult :=
  '(_, t) ← rdI32 junk;
  let cstatus := t in
  '(_, t) ← rdI32 t;
  let reason := t in
  '(_, t) ← rdI32 t;
  let serviceClass := t in
  '(_, t) ← rdI32 t;
  let toa := t in
  number ← strdupReadString;
  '(status, t) ← rdI32 t;
  let timeSeconds := t in
  if negb status then mret DInvalid
  else
    let number := match number with Some [] => None | _ => number end in
    mret (DRequest (VCallForward (mkCF cstatus reason serviceClass toa number timeSeconds))
                   (sizeof S_RIL_CallForwardInfo)).

(** The [data = NULL] of the source is overwritten by [readInplace(0)]. *)
Definition dispatchRaw : pcmd dresult :=
  '(status, len) ← rdI32 junk;
  if negb status then mret DInvalid
  else
    let len := if len =? -1 then 0 else len in
    data ← rdInplace (u32 len);
    mret (DRequest (match data with Some bs => VBytes bs | None => VNull end) (u32 len)).

(** ** CDMA SMS *)

(** [k] more turns, from [digitCount = i], of
    [status = p.read(&ut, 1); a[digitCount] = ut], where [a] has [max]
    elements. *)
Fixpoint readDigits (k : nat) (i max : Z) (status : bool) (ut : Z) : pcmd (bool * Z * list Z) :=
  match k with
  | O => mret (status, ut, [])
  | S k =>
      '(status, ut) ← rdU8 ut;
      if i <? max then
        '(status, ut', l) ← readDigits k (i + 1) max status ut;
        mret (status, ut', ut :: l)
      else ub
  end.

(** The array of [n] bytes, zeroed by [memset], after its first elements
    were stored. *)
Definition zero_fill (n : Z) (l : list Z) : list Z := l ++ replicate (Z.to_nat n - length l) 0.

(** The fields up to the address digits, common to [constructCdmaSms] and
    [dispatchRilCdmaSmsWriteArgs]; [limit] gives the number of digits
    read.  [t] and [ut] are the locals of the C code. *)
Definition readSmsAddress (limit : Z -> Z) (t ut : Z) :
    pcmd (Z * Z * Z * RIL_CDMA_SMS_Address * Z * Z) :=
  '(_, t) ← rdI32 t;
  let teleservice := t in
  '(_, ut) ← rdU8 ut;
  let servicePresent := ut in
  '(_, t) ← rdI32 t;
  let category := t in
  '(_, t) ← rdI32 t;
  let dmode := t in
  '(_, t) ← rdI32 t;
  let nmode := t in
  '(_, t) ← rdI32 t;
  let ntype := t in
  '(_, t) ← rdI32 t;
  let nplan := t in
  '(status, ut) ← rdU8 ut;
  let ndigits := ut in
  '(status, ut, l) ← readDigits (Z.to_nat (limit ndigits)) 0 (rilh RIL_CDMA_SMS_ADDRESS_MAX) status ut;
  mret (teleservice, servicePresent, category,
        mkAddr dmode nmode ntype nplan ndigits (zero_fill (rilh RIL_CDMA_SMS_ADDRESS_MAX) l), t, ut).

Definition readSmsSubAddress (limit : Z -> Z) (t ut : Z) : pcmd (RIL_CDMA_SMS_Subaddress * Z * Z) :=
  '(_, t) ← rdI32 t;
  let stype := t in
  '(_, ut) ← rdU8 ut;
  let sodd := ut in
  '(status, ut) ← rdU8 ut;
  let ndigits := ut in
  '(status, ut, l) ← readDigits (Z.to_nat (limit ndigits)) 0 (rilh RIL_CDMA_SMS_SUBADDRESS_MAX) status ut;
  mret (mkSub stype sodd ndigits (zero_fill (rilh RIL_CDMA_SMS_SUBADDRESS_MAX) l), t, ut).

(** The bearer data, and the status of the last read. *)
Definition readSmsBearer (limit : Z -> Z) (t ut : Z) : pcmd (bool * Z * list Z) :=
  '(status, t) ← rdI32 t;
  '(status, ut, l) ← readDigits (Z.to_nat (limit t)) 0 (rilh RIL_CDMA_SMS_BEARER_DATA_MAX) status ut;
  mret (status, t, zero_fill (rilh RIL_CDMA_SMS_BEARER_DATA_MAX) l).

Definition readCdmaSms (lim1 lim2 lim3 : Z -> Z) (t ut : Z) : pcmd (bool * RIL_CDMA_SMS_Message) :=
  '(teleservice, present, category, addr, t, ut) ← readSmsAddress lim1 t ut;
  '(sub, t, ut) ← readSmsSubAddress lim2 t ut;
  '(status, len, data) ← readSmsBearer lim3 t ut;
  mret (status, mkCdmaSms teleservice present category addr sub len data).

(** [MIN(n, max)]. *)
Definition digitLimit (max : ril_const) (n : Z) : Z := Z.min n (rilh max).

Definition constructCdmaSms : pcmd (bool * RIL_CDMA_SMS_Message) :=
  readCdmaSms (digitLimit RIL_CDMA_SMS_ADDRESS_MAX) (digitLimit RIL_CDMA_SMS_SUBADDRESS_MAX)
    (digitLimit RIL_CDMA_SMS_BEARER_DATA_MAX) junk (u8 junk).

Definition dispatchCdmaSms : pcmd dresult :=
  '(status, rcsm) ← constructCdmaSms;
  if negb status then mret DInvalid
  else mret (DRequest (VCdmaSms rcsm) (sizeof S_RIL_CDMA_SMS_Message)).

Definition dispatchImsCdmaSms (retry msgRef : Z) : pcmd dresult :=
  '(status, rcsm) ← constructCdmaSms;
  if negb status then mret DInvalid
  else
    let rism := mkIms (rilh RADIO_TECH_3GPP2) retry msgRef (ImsCdma rcsm) in
    mret (DRequest (VIms rism) (sizeof S_RIL_RadioTechnologyFamily + 1 + 4 + sizeof S_RIL_CDMA_SMS_Message)).

Definition dispatchImsGsmSms (retry msgRef : Z) : pcmd dresult :=
  '(status, countStrings) ← rdI32 junk;
  if negb status then mret DInvalid
  else
    '(pStrings, datalen) ← read_pStrings countStrings;
    let rism := mkIms (rilh RADIO_TECH_3GPP) retry msgRef (ImsGsm pStrings) in
    mret (DRequest (VIms rism) (u32 (sizeof S_RIL_RadioTechnologyFamily + 1 + 4 + datalen))).

Definition dispatchImsSms : pcmd dresult :=
  '(status, t) ← rdI32 junk;
  if negb status then mret DInvalid
  else
    let format := t in
    '(status, retry) ← rdU8 (u8 junk);
    if negb status then mret DInvalid
    else
      '(status, msgRef) ← rdRaw32 junk;
      if negb status then mret DInvalid
      else if rilh RADIO_TECH_3GPP =? format then dispatchImsGsmSms retry msgRef
      else if rilh RADIO_TECH_3GPP2 =? format then dispatchImsCdmaSms retry msgRef
      else mret DNothing.

Definition dispatchCdmaSmsAck : pcmd dresult :=
  '(_, t) ← rdI32 junk;
  let errorClass := t in
  '(status, t) ← rdI32 t;
  let cause := t in
  if negb status then mret DInvalid
  else mret (DRequest (VCdmaSmsAck (mkAck errorClass cause)) (sizeof S_RIL_CDMA_SMS_Ack)).

(** All [MAX] elements of each array are read here. *)
Definition dispatchRilCdmaSmsWriteArgs : pcmd dresult :=
  '(_, t) ← rdI32 junk;
  let status0 := t in
  '(status, msg) ← readCdmaSms (fun _ => rilh RIL_CDMA_SMS_ADDRESS_MAX)
    (fun _ => rilh RIL_CDMA_SMS_SUBADDRESS_MAX) (fun _ => rilh RIL_CDMA_SMS_BEARER_DATA_MAX)
    t (u8 junk);
  if negb status then mret DInvalid
  else mret (DRequest (VCdmaSmsWrite (mkCdmaWrite status0 msg)) (sizeof S_RIL_CDMA_SMS_WriteArgs)).

(** ** Cell broadcast configuration *)

Fixpoint readGsmBci (k : nat) (status : bool) (t : Z) :
    pcmd (bool * list (option RIL_GSM_BroadcastSmsConfigInfo)) :=
  match k with
  | O => mret (status, [])
  | S k =>
      '(_, t) ← rdI32 t;
      let a := t in
      '(_, t) ← rdI32 t;
      let b := t in
      '(_, t) ← rdI32 t;
      let c := t in
      '(_, t) ← rdI32 t;
      let d := t in
      '(status, t) ← rdI32 t;
      '(status, l) ← readGsmBci k status t;
      mret (status, Some (mkGsmBci a b c d (u8 t)) :: l)
  end.

Definition dispatchGsmBrSmsCnf : pcmd dresult :=
  '(status, num) ← rdI32 junk;
  if negb status then mret DInvalid
  else
    vla num (sizeof S_RIL_GSM_BroadcastSmsConfigInfo + sizeof_ptr);;
    '(status, l) ← readGsmBci (Z.to_nat num) status junk;
    if negb status then mret DInvalid
    else mret (DRequest (VGsmBci l) (u32 (num * sizeof_ptr))).

Fixpoint readCdmaBci (k : nat) (status : bool) (t : Z) :
    pcmd (bool * list (option RIL_CDMA_BroadcastSmsConfigInfo)) :=
  match k with
  | O => mret (status, [])
  | S k =>
      '(_, t) ← rdI32 t;
      let a := t in
      '(_, t) ← rdI32 t;
      let b := t in
      '(status, t) ← rdI32 t;
      '(status, l) ← readCdmaBci k status t;
      mret (status, Some (mkCdmaBci a b (u8 t)) :: l)
  end.

Definition dispatchCdmaBrSmsCnf : pcmd dresult :=
  '(status, num) ← rdI32 junk;
  if negb status then mret DInvalid
  else
    vla num (sizeof S_RIL_CDMA_BroadcastSmsConfigInfo + sizeof_ptr);;
    '(status, l) ← readCdmaBci (Z.to_nat num) status junk;
    if negb status then mret DInvalid
    else mret (DRequest (VCdmaBci l) (u32 (num * sizeof_ptr))).

(** ** Data connections *)

(** [for (...) p2.writeString16(p.readString16())]. *)
Fixpoint copyStrings (k : nat) (p2 : P) : pcmd P :=
  match k with
  | O => mret p2
  | S k => s ← rdString16; copyStrings k (writeString16 (Some s) p2)
  end.

(** Run a command on another parcel, a local variable. *)
Definition on_parcel {A} (q : P) (m : pcmd A) : pcmd A := fun p =>
  match m q with
  | Ok (r, _) => Ok (r, p)
  | UB => UB
  | Block => Block
  end.

Definition numParamsRilV3 : Z := 6.

Definition dispatchDataCall : pcmd dresult :=
  p ← get_st;
  let pos := dataPosition p in
  numParams ← rdI32v;
  if (version <? 4) && (numParams >? numParamsRilV3) then
    p ← get_st;
    let p2 := appendFrom p 0 pos parcel_new in
    let p2 := writeInt32 numParamsRilV3 p2 in
    p2 ← copyStrings (Z.to_nat numParamsRilV3) p2;
    let p2 := setDataPosition pos p2 in
    on_parcel p2 dispatchStrings
  else
    modify (setDataPosition pos);;
    dispatchStrings.

Definition dispatchSetInitialAttachApn : pcmd dresult :=
  apn ← strdupReadString;
  protocol ← strdupReadString;
  '(status, t) ← rdI32 junk;
  let authtype := t in
  username ← strdupReadString;
  password ← strdupReadString;
  if negb status then mret DInvalid
  else mret (DRequest (VApn (mkApn apn protocol authtype username password)) (sizeof S_RIL_InitialAttachApn)).

Definition dispatchUiccSubscripton : pcmd dresult :=
  '(status, t) ← rdI32 junk;
  if negb status then mret DInvalid
  else
    let slot := t in
    '(status, t) ← rdI32 t;
    if negb status then mret DInvalid
    else
      let app := t in
      '(status, t) ← rdI32 t;
      if negb status then mret DInvalid
      else
        let stype := t in
        '(status, t) ← rdI32 t;
        if negb status then mret DInvalid
        else mret (DRequest (VUicc (mkUicc slot app stype t)) (sizeof S_RIL_SelectUiccSub)).

(** The call through [pCI->dispatchFunction], for the functions that only
    read the parcel; the two that query the radio state are in RilCore. *)
Definition dispatchFn (f : dispatch_fn) (requestNumber : Z) : pcmd dresult :=
  match f with
  | F_dispatchVoid => dispatchVoid
  | F_dispatchString => dispatchString
  | F_dispatchStrings => dispatchStrings
  | F_dispatchInts => dispatchInts
  | F_dispatchDial => dispatchDial
  | F_dispatchSIM_IO => dispatchSIM_IO requestNumber
  | F_dispatchCallForward => dispatchCallForward
  | F_dispatchRaw => dispatchRaw
  | F_dispatchSmsWrite => dispatchSmsWrite
  | F_dispatchCdmaSms => dispatchCdmaSms
  | F_dispatchCdmaSmsAck => dispatchCdmaSmsAck
  | F_dispatchGsmBrSmsCnf => dispatchGsmBrSmsCnf
  | F_dispatchCdmaBrSmsCnf => dispatchCdmaBrSmsCnf
  | F_dispatchRilCdmaSmsWriteArgs => dispatchRilCdmaSmsWriteArgs
  | F_dispatchDataCall => dispatchDataCall
  | F_dispatchSetInitialAttachApn => dispatchSetInitialAttachApn
  | F_dispatchImsSms => dispatchImsSms
  | F_dispatchUiccSubscripton => dispatchUiccSubscripton
  | F_dispatchVoiceRadioTech | F_dispatchCdmaSubscriptionSource => dispatchVoid
  end.

End Dispatch.
