(* ===== verification/RilResponse.v ===== *)
(** * libril/ril.cpp: marshalling responses (the response functions)

    A response function writes the vendor's data into the outgoing Parcel
    and returns 0 or [RIL_ERRNO_INVALID_RESPONSE].  Reading the data as a
    type it does not have, or beyond its end, is undefined behaviour. *)

From S2P Require Import Prelude Bytes Parcel RilConst RilTypes.

Definition RIL_ERRNO_INVALID_RESPONSE : Z := -1.
Definition INT_MAX : Z := 2 ^ 31 - 1.

Section Response.
Context {P : Type} {HPar : Parcel P} {HJS : JString} {HH : RilH}.

(** [s_callbacks.version]. *)
Variable version : Z.

Abbreviation pcmd := (cmd P).

(** [for (i = 0; i < k; i++) body(a[i])]: past the end is undefined. *)
Fixpoint for_each {A} (k : nat) (l : list A) (body : A -> pcmd unit) : pcmd unit :=
  match k with
  | O => mret tt
  | S k => match l with
           | [] => ub
           | x :: l => body x;; for_each k l body
           end
  end.

(** The same through an array of pointers. *)
Definition for_each_ptr {A} (k : nat) (l : list (option A)) (body : A -> pcmd unit) : pcmd unit :=
  for_each k l (fun o => match o with Some x => body x | None => ub end).

(** The guard [response == NULL && responselen != 0]. *)
Definition null_with_len (response : voidptr) (responselen : Z) : bool :=
  is_null response && negb (responselen =? 0).

Definition count (responselen size : Z) : nat := Z.to_nat (responselen / size).

(** ** Integers, strings, raw bytes *)

Definition ints_of (v : voidptr) : list Z := match v with VInts l => l | _ => [] end.

Definition responseInts (response : voidptr) (responselen : Z) : pcmd Z :=
  if null_with_len response responselen then mret RIL_ERRNO_INVALID_RESPONSE
  else if negb (responselen mod sizeof_int =? 0) then mret RIL_ERRNO_INVALID_RESPONSE
  else
    let numInts := responselen / sizeof_ptr in
    wrI32 numInts;;
    for_each (Z.to_nat numInts) (ints_of response) wrI32;;
    mret 0.

Definition strings_of (v : voidptr) : list cstr := match v with VStrings l => l | _ => [] end.

Definition responseStrings (response : voidptr) (responselen : Z) : pcmd Z :=
  if null_with_len response responselen then mret RIL_ERRNO_INVALID_RESPONSE
  else if negb (responselen mod sizeof_ptr =? 0) then mret RIL_ERRNO_INVALID_RESPONSE
  else if is_null response then wrI32 0;; mret 0
  else
    let numStrings := responselen / sizeof_ptr in
    wrI32 numStrings;;
    for_each (Z.to_nat numStrings) (strings_of response) writeStringToParcel;;
    mret 0.

(** Without NEW_LIBRIL_HTC the network search is like any other list. *)
Definition responseStringsNetworks := responseStrings.

Definition responseStringsWithVersion (response : voidptr) (responselen : Z) : pcmd Z :=
  wrI32 version;; responseStrings response responselen.

Definition responseString (response : voidptr) (responselen : Z) : pcmd Z :=
  match response with
  | VString s => writeStringToParcel (Some s);; mret 0
  | VNull => writeStringToParcel None;; mret 0
  | _ => ub
  end.

Definition responseVoid (response : voidptr) (responselen : Z) : pcmd Z := mret 0.

(** [p.write(buf, len)] of a buffer holding [bs]. *)
Definition wrBuf (bs : list Z) (len : Z) : pcmd unit :=
  if (0 <=? len) && (len <=? Z.of_nat (length bs)) then wrBytes (take (Z.to_nat len) bs) else ub.

Definition responseRaw (response : voidptr) (responselen : Z) : pcmd Z :=
  if null_with_len response responselen then mret RIL_ERRNO_INVALID_RESPONSE
  else match response with
  | VNull => wrI32 (-1);; mret 0
  | VBytes bs => wrI32 responselen;; wrBuf bs responselen;; mret 0
  | _ => ub
  end.

(** ** Calls *)

Definition writeUus (o : option RIL_UUS_Info) : pcmd unit :=
  match o with
  | Some (mkUus utype udcs ulen (Some udata)) =>
      if version <? 3 then wrI32 0
      else
        wrI32 1;; wrI32 utype;; wrI32 udcs;; wrI32 ulen;; wrBuf udata ulen
  | _ => wrI32 0
  end.

Definition writeCall (c : RIL_Call) : pcmd unit :=
  wrI32 (call_state c);;
  wrI32 (call_index c);;
  wrI32 (call_toa c);;
  wrI32 (isMpty c);;
  wrI32 (isMT c);;
  wrI32 (als c);;
  wrI32 (isVoice c);;
  wrI32 (isVoicePrivacy c);;
  writeStringToParcel (call_number c);;
  wrI32 (numberPresentation c);;
  writeStringToParcel (call_name c);;
  wrI32 (namePresentation c);;
  writeUus (call_uusInfo c).

Definition calls_of (v : voidptr) : list (option RIL_Call) := match v with VCalls l => l | _ => [] end.

(** The shape shared by the lists of pointers: guards, count, elements. *)
Definition pointer_list {A} (response : voidptr) (responselen : Z) (l : list (option A))
    (body : A -> pcmd unit) : pcmd Z :=
  if null_with_len response responselen then mret RIL_ERRNO_INVALID_RESPONSE
  else if negb (responselen mod sizeof_ptr =? 0) then mret RIL_ERRNO_INVALID_RESPONSE
  else
    let num := responselen / sizeof_ptr in
    wrI32 num;;
    for_each_ptr (Z.to_nat num) l body;;
    mret 0.

Definition responseCallList (response : voidptr) (responselen : Z) : pcmd Z :=
  pointer_list response responselen (calls_of response) writeCall.

Definition responseSMS (response : voidptr) (responselen : Z) : pcmd Z :=
  if is_null response then mret RIL_ERRNO_INVALID_RESPONSE
  else if negb (responselen =? sizeof S_RIL_SMS_Response) then mret RIL_ERRNO_INVALID_RESPONSE
  else match response with
  | VSmsResponse r =>
      wrI32 (sms_messageRef r);; writeStringToParcel (ackPDU r);; wrI32 (sms_errorCode r);; mret 0
  | _ => ub
  end.

(** ** Data connections *)

Definition writeDataV4 (d : RIL_Data_Call_Response_v4) : pcmd unit :=
  wrI32 (v4_cid d);; wrI32 (v4_active d);; writeStringToParcel (v4_type d);;
  writeStringToParcel (v4_address d).

Definition dataV4_of (v : voidptr) := match v with VDataCallsV4 l => l | _ => [] end.

Definition responseDataCallListV4 (response : voidptr) (responselen : Z) : pcmd Z :=
  let size := sizeof S_RIL_Data_Call_Response_v4 in
  if null_with_len response responselen then mret RIL_ERRNO_INVALID_RESPONSE
  else if negb (responselen mod size =? 0) then mret RIL_ERRNO_INVALID_RESPONSE
  else
    wrI32 (responselen / size);;
    for_each (count responselen size) (dataV4_of response) writeDataV4;;
    mret 0.

Definition writeDataV6 (d : RIL_Data_Call_Response_v6) : pcmd unit :=
  wrI32 (v6_status d);; wrI32 (suggestedRetryTime d);; wrI32 (v6_cid d);; wrI32 (v6_active d);;
  writeStringToParcel (v6_type d);; writeStringToParcel (ifname d);;
  writeStringToParcel (addresses d);; writeStringToParcel (dnses d);;
  writeStringToParcel (gateways d).

Definition dataV6_of (v : voidptr) := match v with VDataCallsV6 l => l | _ => [] end.

Definition responseDataCallList (response : voidptr) (responselen : Z) : pcmd Z :=
  wrI32 version;;
  if version <? 5 then responseDataCallListV4 response responselen
  else
    let size := sizeof S_RIL_Data_Call_Response_v6 in
    if null_with_len response responselen then mret RIL_ERRNO_INVALID_RESPONSE
    else if negb (responselen mod size =? 0) then mret RIL_ERRNO_INVALID_RESPONSE
    else
      wrI32 (responselen / size);;
      for_each (count responselen size) (dataV6_of response) writeDataV6;;
      mret 0.

Definition responseSetupDataCall (response : voidptr) (responselen : Z) : pcmd Z :=
  if version <? 5 then responseStringsWithVersion response responselen
  else responseDataCallList response responselen.

(** ** SIM I/O, call forwarding, notifications, cells *)

Definition responseSIM_IO (response : voidptr) (responselen : Z) : pcmd Z :=
  if is_null response then mret RIL_ERRNO_INVALID_RESPONSE
  else if negb (responselen =? sizeof S_RIL_SIM_IO_Response) then mret RIL_ERRNO_INVALID_RESPONSE
  else match response with
  | VSimResponse r =>
      wrI32 (sw1 r);; wrI32 (sw2 r);; writeStringToParcel (simResponse r);; mret 0
  | _ => ub
  end.

Definition writeCF (c : RIL_CallForwardInfo) : pcmd unit :=
  wrI32 (cf_status c);; wrI32 (cf_reason c);; wrI32 (cf_serviceClass c);; wrI32 (cf_toa c);;
  writeStringToParcel (cf_number c);; wrI32 (cf_timeSeconds c).

Definition cfs_of (v : voidptr) := match v with VCallForwards l => l | _ => [] end.

Definition responseCallForwards (response : voidptr) (responselen : Z) : pcmd Z :=
  pointer_list response responselen (cfs_of response) writeCF.

Definition responseSsn (response : voidptr) (responselen : Z) : pcmd Z :=
  if is_null response then mret RIL_ERRNO_INVALID_RESPONSE
  else if negb (responselen =? sizeof S_RIL_SuppSvcNotification) then mret RIL_ERRNO_INVALID_RESPONSE
  else match response with
  | VSsn n =>
      wrI32 (notificationType n);; wrI32 (ssn_code n);; wrI32 (ssn_index n);; wrI32 (ssn_type n);;
      writeStringToParcel (ssn_number n);; mret 0
  | _ => ub
  end.

Definition cells_of (v : voidptr) := match v with VCells l => l | _ => [] end.

Definition responseCellList (response : voidptr) (responselen : Z) : pcmd Z :=
  pointer_list response responselen (cells_of response)
    (fun c => wrI32 (cell_rssi c);; writeStringToParcel (cell_cid c)).

(** ** CDMA information records *)

Definition marshallSignalInfoRecord (s : RIL_CDMA_SignalInfoRecord) : pcmd unit :=
  wrI32 (isPresent s);; wrI32 (signalType s);; wrI32 (alertPitch s);; wrI32 (signal s).

(** The bytes of a C string: up to the terminating NUL. *)
Fixpoint until_nul (bs : list Z) : list Z :=
  match bs with
  | [] => []
  | b :: bs => if b =? 0 then [] else b :: until_nul bs
  end.

(** Copy [len] bytes of [buf], NUL-terminate, write as a string. *)
Definition writeCopied (len : Z) (buf : list Z) : pcmd unit :=
  if (0 <=? len) && (len <=? Z.of_nat (length buf))
  then writeStringToParcel (Some (until_nul (take (Z.to_nat len) buf))) else ub.

Definition writeNumber (n : cdma_number) : pcmd Z :=
  if num_len n >? rilh CDMA_NUMBER_INFO_BUFFER_LENGTH then mret RIL_ERRNO_INVALID_RESPONSE
  else
    writeCopied (num_len n) (num_buf n);;
    wrI32 (num_type n);; wrI32 (num_plan n);; wrI32 (num_pi n);; wrI32 (num_si n);;
    mret 0.

(** The body of the loop of [responseCdmaInformationRecords]: the [switch],
    as the writer it selects. *)
Definition writeDisplay (extended : bool) (u : info_union) : pcmd Z :=
  match u with
  | RecDisplay len buf =>
      if len >? rilh CDMA_ALPHA_INFO_BUFFER_LENGTH then mret RIL_ERRNO_INVALID_RESPONSE
      else if extended then wrI32 len;; wrBuf buf len;; mret 0
      else writeCopied len buf;; mret 0
  | _ => ub
  end.

Definition writePartyNumber (u : info_union) : pcmd Z :=
  match u with RecNumber n => writeNumber n | _ => ub end.

Definition writeSignal (u : info_union) : pcmd Z :=
  match u with RecSignal s => marshallSignalInfoRecord s;; mret 0 | _ => ub end.

Definition writeRedir (u : info_union) : pcmd Z :=
  match u with
  | RecRedir n reason =>
      r ← writeNumber n;
      if r =? 0 then wrI32 reason;; mret 0 else mret r
  | _ => ub
  end.

Definition writeLineCtrl (u : info_union) : pcmd Z :=
  match u with
  | RecLineCtrl a b c d => wrI32 a;; wrI32 b;; wrI32 c;; wrI32 d;; mret 0
  | _ => ub
  end.

Definition writeClir (u : info_union) : pcmd Z :=
  match u with RecClir cause => wrI32 cause;; mret 0 | _ => ub end.

Definition writeAudio (u : info_union) : pcmd Z :=
  match u with RecAudioCtrl a b => wrI32 a;; wrI32 b;; mret 0 | _ => ub end.

Definition infoRec_cases : list (ril_const * (info_union -> pcmd Z)) := [
  (RIL_CDMA_EXTENDED_DISPLAY_INFO_REC, writeDisplay true);
  (RIL_CDMA_DISPLAY_INFO_REC, writeDisplay false);
  (RIL_CDMA_CALLED_PARTY_NUMBER_INFO_REC, writePartyNumber);
  (RIL_CDMA_CALLING_PARTY_NUMBER_INFO_REC, writePartyNumber);
  (RIL_CDMA_CONNECTED_NUMBER_INFO_REC, writePartyNumber);
  (RIL_CDMA_SIGNAL_INFO_REC, writeSignal);
  (RIL_CDMA_REDIRECTING_NUMBER_INFO_REC, writeRedir);
  (RIL_CDMA_LINE_CONTROL_INFO_REC, writeLineCtrl);
  (RIL_CDMA_T53_CLIR_INFO_REC, writeClir);
  (RIL_CDMA_T53_AUDIO_CONTROL_INFO_REC, writeAudio);
  (RIL_CDMA_T53_RELEASE_INFO_REC, fun _ => mret RIL_ERRNO_INVALID_RESPONSE)].

Definition writeInfoRec (r : RIL_CDMA_InformationRecord) : pcmd Z :=
  wrI32 (rec_name r);;
  switch (rec_name r) infoRec_cases (fun _ => mret RIL_ERRNO_INVALID_RESPONSE) (rec r).

Fixpoint infoRecs_loop (k : nat) (l : list RIL_CDMA_InformationRecord) : pcmd Z :=
  match k with
  | O => mret 0
  | S k => match l with
           | [] => ub
           | r :: l =>
               c ← writeInfoRec r;
               if c =? 0 then infoRecs_loop k l else mret c
           end
  end.

Definition responseCdmaInformationRecords (response : voidptr) (responselen : Z) : pcmd Z :=
  if null_with_len response responselen then mret RIL_ERRNO_INVALID_RESPONSE
  else if negb (responselen =? sizeof S_RIL_CDMA_InformationRecords) then mret RIL_ERRNO_INVALID_RESPONSE
  else match response with
  | VInfoRecs r =>
      let num := Z.min (numberOfInfoRecs r) (rilh RIL_CDMA_MAX_NUMBER_OF_INFO_RECS) in
      wrI32 num;;
      infoRecs_loop (Z.to_nat num) (infoRec r)
  | _ => ub
  end.

(** ** Signal strength *)

(** The remapping of the LTE values of old RILs (the source stores them
    back into the vendor's object before it writes them); negating INT_MIN
    overflows. *)
Definition fixup_lte (l : RIL_LTE_SignalStrength) : outcome RIL_LTE_SignalStrength :=
  let ss := if lte_signalStrength l =? -1 then 99 else lte_signalStrength l in
  let rsrq := if lte_rsrq l =? -1 then INT_MAX else lte_rsrq l in
  let cqi := if lte_cqi l =? -1 then INT_MAX else lte_cqi l in
  if lte_rsrp l =? -1 then Ok (mkLte ss INT_MAX rsrq (lte_rssnr l) cqi)
  else if lte_rsrp l <? -1 then
    if lte_rsrp l =? - 2 ^ 31 then UB
    else Ok (mkLte ss (- lte_rsrp l) rsrq (lte_rssnr l) cqi)
  else Ok (mkLte ss (lte_rsrp l) rsrq (lte_rssnr l) cqi).

Definition lift {A} (o : outcome A) : pcmd A := fun p =>
  match o with Ok a => Ok (a, p) | UB => UB | Block => Block end.

(** Reading a member the object does not have. *)
Definition member {A} (o : option A) : pcmd A := match o with Some a => mret a | None => ub end.

Definition responseRilSignalStrength (response : voidptr) (responselen : Z) : pcmd Z :=
  if null_with_len response responselen then mret RIL_ERRNO_INVALID_RESPONSE
  else if negb (responselen >=? sizeof S_RIL_SignalStrength_v5) then mret RIL_ERRNO_INVALID_RESPONSE
  else match response with
  | VSignalStrength s =>
      wrI32 (gw_signalStrength s);; wrI32 (gw_bitErrorRate s);;
      wrI32 (cdma_dbm s);; wrI32 (cdma_ecio s);;
      wrI32 (evdo_dbm s);; wrI32 (evdo_ecio s);; wrI32 (evdo_snr s);;
      if responselen >=? sizeof S_RIL_SignalStrength_v6 then
        lte ← member (ss_lte s);
        lte ← (if version <=? 6 then lift (fixup_lte lte) else mret lte);
        wrI32 (lte_signalStrength lte);; wrI32 (lte_rsrp lte);; wrI32 (lte_rsrq lte);;
        wrI32 (lte_rssnr lte);; wrI32 (lte_cqi lte);;
        if responselen >=? sizeof S_RIL_SignalStrength_v8 then
          ta ← member (ss_timingAdvance s);
          wrI32 ta;;
          if responselen >=? sizeof S_RIL_SignalStrength_v9_CAF then
            rscp ← member (ss_rscp s);
            wrI32 rscp;; mret 0
          else wrI32 INT_MAX;; mret 0
        else wrI32 INT_MAX;; wrI32 INT_MAX;; mret 0
      else
        wrI32 99;; wrI32 INT_MAX;; wrI32 INT_MAX;; wrI32 INT_MAX;; wrI32 INT_MAX;;
        wrI32 INT_MAX;; wrI32 INT_MAX;; mret 0
  | _ => ub
  end.

(** ** Rings, call waiting, SIM refresh *)

Definition responseCdmaSignalInfoRecord (response : voidptr) (responselen : Z) : pcmd Z :=
  if is_null response || (responselen =? 0) then mret RIL_ERRNO_INVALID_RESPONSE
  else if negb (responselen =? sizeof S_RIL_CDMA_SignalInfoRecord) then mret RIL_ERRNO_INVALID_RESPONSE
  else match response with
  | VSignalInfo s => marshallSignalInfoRecord s;; mret 0
  | _ => ub
  end.

Definition responseCallRing (response : voidptr) (responselen : Z) : pcmd Z :=
  if is_null response || (responselen =? 0) then responseVoid response responselen
  else responseCdmaSignalInfoRecord response responselen.

Definition responseCdmaCallWaiting (response : voidptr) (responselen : Z) : pcmd Z :=
  if null_with_len response responselen then mret RIL_ERRNO_INVALID_RESPONSE
  else match response with
  | VCallWaiting c =>
      writeStringToParcel (cw_number c);; wrI32 (cw_numberPresentation c);;
      writeStringToParcel (cw_name c);; marshallSignalInfoRecord (cw_signalInfo c);;
      if responselen >=? sizeof S_RIL_CDMA_CallWaiting_v6 then
        t ← member (cw_types c);
        wrI32 (fst t);; wrI32 (snd t);; mret 0
      else wrI32 0;; wrI32 0;; mret 0
  | _ => ub
  end.

Definition responseSimRefresh (response : voidptr) (responselen : Z) : pcmd Z :=
  if null_with_len response responselen then mret RIL_ERRNO_INVALID_RESPONSE
  else if version >=? 7 then
    match response with
    | VSimRefresh r =>
        wrI32 (refresh_result r);; wrI32 (ef_id r);; writeStringToParcel (refresh_aid r);; mret 0
    | _ => ub
    end
  else
    match ints_of response with
    | a :: b :: _ => wrI32 a;; wrI32 b;; writeStringToParcel None;; mret 0
    | _ => ub
    end.

(** ** Cell information *)

Definition wrI32s (l : list Z) : pcmd unit := for_each (length l) l wrI32.

Definition cellInfo_cases : list (ril_const * (cell_union -> pcmd unit)) := [
  (RIL_CELL_INFO_TYPE_GSM, fun u => match u with
    | CellGsm mcc mnc lac cid ss ber => wrI32s [mcc; mnc; lac; cid; ss; ber]
    | _ => ub end);
  (RIL_CELL_INFO_TYPE_WCDMA, fun u => match u with
    | CellWcdma mcc mnc lac cid psc ss ber => wrI32s [mcc; mnc; lac; cid; psc; ss; ber]
    | _ => ub end);
  (RIL_CELL_INFO_TYPE_CDMA, fun u => match u with
    | CellCdma nId sId bsId long lat dbm ecio edbm eecio esnr =>
        wrI32s [nId; sId; bsId; long; lat];; wrI32s [dbm; ecio; edbm; eecio; esnr]
    | _ => ub end);
  (RIL_CELL_INFO_TYPE_LTE, fun u => match u with
    | CellLte mcc mnc ci pci tac ss rsrp rsrq rssnr cqi ta =>
        wrI32s [mcc; mnc; ci; pci; tac];; wrI32s [ss; rsrp; rsrq; rssnr; cqi; ta]
    | _ => ub end)].

Definition writeCellInfo (c : RIL_CellInfo) : pcmd unit :=
  wrI32 (cellInfoType c);; wrI32 (registered c);; wrI32 (timeStampType c);; wrI64 (timeStamp c);;
  switch (cellInfoType c) cellInfo_cases (fun _ => mret tt) (CellInfo c).

Definition cellInfos_of (v : voidptr) := match v with VCellInfos l => l | _ => [] end.

Definition responseCellInfoList (response : voidptr) (responselen : Z) : pcmd Z :=
  let size := sizeof S_RIL_CellInfo in
  if null_with_len response responselen then mret RIL_ERRNO_INVALID_RESPONSE
  else if negb (responselen mod size =? 0) then mret RIL_ERRNO_INVALID_RESPONSE
  else
    wrI32 (responselen / size);;
    for_each (count responselen size) (cellInfos_of response) writeCellInfo;;
    mret 0.

(** ** Supplementary services *)

Definition isServiceTypeCfQuery (serType reqType : Z) : bool :=
  (reqType =? rilh SS_INTERROGATION) &&
  ((serType =? rilh SS_CFU) || (serType =? rilh SS_CF_BUSY) || (serType =? rilh SS_CF_NO_REPLY) ||
   (serType =? rilh SS_CF_NOT_REACHABLE) || (serType =? rilh SS_CF_ALL) ||
   (serType =? rilh SS_CF_ALL_CONDITIONAL)).

Definition responseSSData (response : voidptr) (responselen : Z) : pcmd Z :=
  if null_with_len response responselen then mret RIL_ERRNO_INVALID_RESPONSE
  else if negb (responselen =? sizeof S_RIL_StkCcUnsolSsResponse) then mret RIL_ERRNO_INVALID_RESPONSE
  else match response with
  | VSSData s =>
      wrI32 (serviceType s);; wrI32 (requestType s);; wrI32 (teleserviceType s);;
      wrI32 (ss_serviceClass s);; wrI32 (ss_result s);;
      if isServiceTypeCfQuery (serviceType s) (requestType s) then
        match ss_data s with
        | SsCf n cfInfo =>
            let n := if n >? rilh NUM_SERVICE_CLASSES then rilh NUM_SERVICE_CLASSES else n in
            wrI32 n;;
            for_each (Z.to_nat n) cfInfo writeCF;;
            mret 0
        | SsInfo _ => ub
        end
      else
        match ss_data s with
        | SsInfo ssInfo =>
            wrI32 (rilh SS_INFO_MAX);;
            for_each (Z.to_nat (rilh SS_INFO_MAX)) ssInfo wrI32;;
            mret 0
        | SsCf _ _ => ub
        end
  | _ => ub
  end.

(** ** SIM status *)

Definition writeApp (a : RIL_AppStatus) : pcmd unit :=
  wrI32 (app_type a);; wrI32 (app_state a);; wrI32 (perso_substate a);;
  writeStringToParcel (aid_ptr a);; writeStringToParcel (app_label_ptr a);;
  wrI32 (pin1_replaced a);; wrI32 (app_pin1 a);; wrI32 (app_pin2 a).

Definition sendSimStatusAppInfo (num_apps : Z) (appStatus : list RIL_AppStatus) : pcmd unit :=
  wrI32 num_apps;;
  for_each (Z.to_nat num_apps) appStatus writeApp.

Definition responseSimStatus (response : voidptr) (responselen : Z) : pcmd Z :=
  if null_with_len response responselen then mret RIL_ERRNO_INVALID_RESPONSE
  else if responselen =? sizeof S_RIL_CardStatus_v6 then
    match response with
    | VCardStatus c =>
        wrI32 (card_state c);; wrI32 (universal_pin_state c);;
        wrI32 (gsm_umts_subscription_app_index c);; wrI32 (cdma_subscription_app_index c);;
        ims ← member (ims_subscription_app_index c);
        wrI32 ims;;
        sendSimStatusAppInfo (num_applications c) (applications c);;
        mret 0
    | _ => ub
    end
  else if responselen =? sizeof S_RIL_CardStatus_v5 then
    match response with
    | VCardStatus c =>
        wrI32 (card_state c);; wrI32 (universal_pin_state c);;
        wrI32 (gsm_umts_subscription_app_index c);; wrI32 (cdma_subscription_app_index c);;
        wrI32 (-1);;
        sendSimStatusAppInfo (num_applications c) (applications c);;
        mret 0
    | _ => ub
    end
  else mret RIL_ERRNO_INVALID_RESPONSE.

(** ** Cell broadcast configuration, CDMA SMS, data profiles *)

Definition gsmBci_of (v : voidptr) := match v with VGsmBci l => l | _ => [] end.
Definition cdmaBci_of (v : voidptr) := match v with VCdmaBci l => l | _ => [] end.

Definition writeGsmBci (c : RIL_GSM_BroadcastSmsConfigInfo) : pcmd unit :=
  wrI32 (fromServiceId c);; wrI32 (toServiceId c);; wrI32 (fromCodeScheme c);;
  wrI32 (toCodeScheme c);; wrI32 (gsm_selected c).

Definition responseGsmBrSmsCnf (response : voidptr) (responselen : Z) : pcmd Z :=
  let num := responselen / sizeof_ptr in
  wrI32 num;;
  for_each_ptr (Z.to_nat num) (gsmBci_of response) writeGsmBci;;
  mret 0.

Definition writeCdmaBci (c : RIL_CDMA_BroadcastSmsConfigInfo) : pcmd unit :=
  wrI32 (service_category c);; wrI32 (language c);; wrI32 (cdma_selected c).

Definition responseCdmaBrSmsCnf (response : voidptr) (responselen : Z) : pcmd Z :=
  let num := responselen / sizeof_ptr in
  wrI32 num;;
  for_each_ptr (Z.to_nat num) (cdmaBci_of response) writeCdmaBci;;
  mret 0.

(** [p.write(&x, sizeof(uct))]. *)
Definition wrU8 (x : Z) : pcmd unit := wrBytes [x].

Definition writeCdmaSms (m : RIL_CDMA_SMS_Message) : pcmd unit :=
  let a := sAddress m in
  let s := sSubAddress m in
  wrI32 (uTeleserviceID m);; wrU8 (bIsServicePresent m);; wrI32 (uServicecategory m);;
  wrI32 (digit_mode a);; wrI32 (number_mode a);; wrI32 (number_type a);; wrI32 (number_plan a);;
  wrU8 (number_of_digits a);;
  for_each (Z.to_nat (Z.min (number_of_digits a) (rilh RIL_CDMA_SMS_ADDRESS_MAX))) (digits a) wrU8;;
  wrI32 (subaddressType s);; wrU8 (odd s);; wrU8 (sub_number_of_digits s);;
  for_each (Z.to_nat (Z.min (sub_number_of_digits s) (rilh RIL_CDMA_SMS_SUBADDRESS_MAX))) (sub_digits s) wrU8;;
  wrI32 (uBearerDataLen m);;
  for_each (Z.to_nat (Z.min (uBearerDataLen m) (rilh RIL_CDMA_SMS_BEARER_DATA_MAX))) (aBearerData m) wrU8.

Definition responseCdmaSms (response : voidptr) (responselen : Z) : pcmd Z :=
  if null_with_len response responselen then mret RIL_ERRNO_INVALID_RESPONSE
  else if negb (responselen =? sizeof S_RIL_CDMA_SMS_Message) then mret RIL_ERRNO_INVALID_RESPONSE
  else match response with
  | VCdmaSms m => writeCdmaSms m;; mret 0
  | _ => ub
  end.

(** [num > responselen / size] compares as unsigned. *)
Definition responseGetDataCallProfile (response : voidptr) (responselen : Z) : pcmd Z :=
  if null_with_len response responselen then mret RIL_ERRNO_INVALID_RESPONSE
  else match response with
  | VProfiles num l =>
      let limit := responselen / sizeof S_RIL_DataCallProfileInfo in
      let num := if u32 num >? limit then limit else num in
      wrI32 num;;
      for_each (Z.to_nat num) l (fun pr => wrI32 (fst pr);; wrI32 (snd pr));;
      mret 0
  | _ => ub
  end.

(** The call through [responseFunction]. *)
Definition responseFn (f : response_fn) : voidptr -> Z -> pcmd Z :=
  match f with
  | F_responseInts => responseInts
  | F_responseStrings => responseStrings
  | F_responseStringsNetworks => responseStringsNetworks
  | F_responseString => responseString
  | F_responseVoid => responseVoid
  | F_responseRaw => responseRaw
  | F_responseCallList => responseCallList
  | F_responseSMS => responseSMS
  | F_responseDataCallList => responseDataCallList
  | F_responseSetupDataCall => responseSetupDataCall
  | F_responseSIM_IO => responseSIM_IO
  | F_responseCallForwards => responseCallForwards
  | F_responseSsn => responseSsn
  | F_responseCellList => responseCellList
  | F_responseCdmaInformationRecords => responseCdmaInformationRecords
  | F_responseRilSignalStrength => responseRilSignalStrength
  | F_responseCallRing => responseCallRing
  | F_responseCdmaCallWaiting => responseCdmaCallWaiting
  | F_responseSimRefresh => responseSimRefresh
  | F_responseCellInfoList => responseCellInfoList
  | F_responseSSData => responseSSData
  | F_responseSimStatus => responseSimStatus
  | F_responseGsmBrSmsCnf => responseGsmBrSmsCnf
  | F_responseCdmaBrSmsCnf => responseCdmaBrSmsCnf
  | F_responseCdmaSms => responseCdmaSms
  | F_responseGetDataCallProfile => responseGetDataCallProfile
  end.

End Response.
