(* ===== verification/RilCore.v ===== *)
(** * libril/ril.cpp: requests, responses, sockets, timers

    [ril_state] holds the file's static variables, the heap of
    [RequestInfo] and [UserCallbackInfo] objects, the state of the event
    loop ([estate]), and the trace of what the daemon did to the outside.
    What comes from outside (the results of [write], the vendor RIL, the
    clock, the allocator, the record stream, [accept]) is asked from
    [ril_env], whose functions see the trace so far, so that two calls may
    have different answers; the vendor's sees the whole state, since it has
    the tokens it was given.

    The vendor's [onRequest] may call back into libril before it returns;
    [o_vendor] gives the calls it makes.  The mutexes are not represented:
    a function here is one step of one thread. *)

From Stdlib Require Import String.
From S2P Require Import Prelude Bytes Parcel RilConst RilTypes RilDispatch RilResponse EventHeap EventLoop.

Open Scope Z_scope.

Definition RESPONSE_SOLICITED : Z := 0.
Definition RESPONSE_UNSOLICITED : Z := 1.
Definition MAX_COMMAND_BYTES : Z := 8 * 1024.
Definition TIMEVAL_WAKE_TIMEOUT : timeval := mkTv 1 0.

Record RequestInfo := mkRI {
  token : Z;
  pCI : CommandInfo;
  p_next : option loc;
  cancelled : Z;
  local : Z }.

Definition set_p_next (v : option loc) (r : RequestInfo) : RequestInfo :=
  mkRI (token r) (pCI r) v (cancelled r) (local r).
Definition set_cancelled (v : Z) (r : RequestInfo) : RequestInfo :=
  mkRI (token r) (pCI r) (p_next r) v (local r).

(** The functions installed in events and timers. *)
Inductive callback :=
| CB_processCommandsCallback
| CB_listenCallback
| CB_debugCallback
| CB_userTimerCallback
| CB_processWakeupCallback.

Inductive timed_callback :=
| TC_wakeTimeoutCallback
| TC_vendor (n : Z).

(** [p_next] of UserCallbackInfo is never used; the member [event] is the
    event at the same address. *)
Record UserCallbackInfo := mkUCI { p_callback : timed_callback; userParam : Z }.

(** What the start of the daemon and the debug port do (RilMain.v). *)
Inductive main_effect :=
| MProperty (name : string)
| MSleep (seconds : Z)
| MThread
| MPipe
| MNonblock (fd : Z)
| MRead (fd : Z)
| MSocket (name : string)
| MListen (fd backlog : Z)
| MAccept (fd newfd : Z)
| MRecv (fd len : Z)
| MKill.

Inductive effect :=
| EOnRequest (request : Z) (data : voidptr) (datalen : Z) (t : loc)
| EInvalidBlock (token request : Z)
| EWrite (fd : Z) (bytes : list Z)
| EWriteError (fd : Z) (again : bool)
| EClose (fd : Z)
| EWakeLock (held : bool)
| ETrigger
| ERecord
| EAccept (fd : Z)
| EPropertySet (version : option (list Z))
| EVendorTimer (n param : Z)
| EMain (e : main_effect).

Inductive write_result := Wrote (n : nat) | WriteError (again : bool).
Inductive record_result := Record_ (bytes : list Z) | EndOfStream | StreamError (again : bool).

(** The calls the vendor can make into libril. *)
Inductive vendor_call :=
| CallComplete (t : option loc) (e : Z) (response : voidptr) (responselen : Z)
| CallUnsol (unsolResponse : Z) (data : voidptr) (datalen : Z)
| CallTimed (n param : Z) (relativeTime : option timeval).

Record ril_state := mkRil {
  r_ev : estate callback;
  r_heap : gmap loc RequestInfo;
  s_pendingRequests : option loc;
  r_timers : gmap loc UserCallbackInfo;
  s_last_wake_timeout_info : option loc;
  s_fdCommand : Z;
  s_fdListen : Z;
  s_registerCalled : bool;
  r_version : Z;
  voiceRadioTech : Z;
  cdmaSubscriptionSource : Z;
  simRuimStatus : Z;
  s_lastNITZTimeData : option (list Z);
  r_trace : list effect }.

(** [o_cred]: the name of the peer's user, when it can be found.
    [o_vendor]: the calls the vendor makes may depend on everything, so
    that a contract can speak of the requests that are pending. *)
Record ril_env := mkEnv {
  o_write : list effect -> Z -> list Z -> write_result;
  o_state : list effect -> Z;
  o_realtime : list effect -> Z;
  o_now : list effect -> timeval;
  o_alloc : gset loc -> loc;
  o_self_is_dispatch : list effect -> bool;
  o_vendor : ril_state -> list vendor_call;
  o_record : list effect -> record_result;
  o_accept : list effect -> Z;
  o_cred : list effect -> option (list Z);
  o_stream : list effect -> option loc;
  o_getVersion : option (option (list Z)) }.

Definition set_ev (v : estate callback) (s : ril_state) : ril_state :=
  mkRil v (r_heap s) (s_pendingRequests s) (r_timers s) (s_last_wake_timeout_info s) (s_fdCommand s)
    (s_fdListen s) (s_registerCalled s) (r_version s) (voiceRadioTech s) (cdmaSubscriptionSource s)
    (simRuimStatus s) (s_lastNITZTimeData s) (r_trace s).
Definition set_reqs (h : gmap loc RequestInfo) (l : option loc) (s : ril_state) : ril_state :=
  mkRil (r_ev s) h l (r_timers s) (s_last_wake_timeout_info s) (s_fdCommand s)
    (s_fdListen s) (s_registerCalled s) (r_version s) (voiceRadioTech s) (cdmaSubscriptionSource s)
    (simRuimStatus s) (s_lastNITZTimeData s) (r_trace s).
Definition set_timers (t : gmap loc UserCallbackInfo) (l : option loc) (s : ril_state) : ril_state :=
  mkRil (r_ev s) (r_heap s) (s_pendingRequests s) t l (s_fdCommand s)
    (s_fdListen s) (s_registerCalled s) (r_version s) (voiceRadioTech s) (cdmaSubscriptionSource s)
    (simRuimStatus s) (s_lastNITZTimeData s) (r_trace s).
Definition set_fdCommand (v : Z) (s : ril_state) : ril_state :=
  mkRil (r_ev s) (r_heap s) (s_pendingRequests s) (r_timers s) (s_last_wake_timeout_info s) v
    (s_fdListen s) (s_registerCalled s) (r_version s) (voiceRadioTech s) (cdmaSubscriptionSource s)
    (simRuimStatus s) (s_lastNITZTimeData s) (r_trace s).
Definition set_radio (tech src sim : Z) (s : ril_state) : ril_state :=
  mkRil (r_ev s) (r_heap s) (s_pendingRequests s) (r_timers s) (s_last_wake_timeout_info s) (s_fdCommand s)
    (s_fdListen s) (s_registerCalled s) (r_version s) tech src sim (s_lastNITZTimeData s) (r_trace s).
Definition set_nitz (v : option (list Z)) (s : ril_state) : ril_state :=
  mkRil (r_ev s) (r_heap s) (s_pendingRequests s) (r_timers s) (s_last_wake_timeout_info s) (s_fdCommand s)
    (s_fdListen s) (s_registerCalled s) (r_version s) (voiceRadioTech s) (cdmaSubscriptionSource s)
    (simRuimStatus s) v (r_trace s).
Definition set_registered (v : Z) (s : ril_state) : ril_state :=
  mkRil (r_ev s) (r_heap s) (s_pendingRequests s) (r_timers s) (s_last_wake_timeout_info s) (s_fdCommand s)
    (s_fdListen s) true v (voiceRadioTech s) (cdmaSubscriptionSource s)
    (simRuimStatus s) (s_lastNITZTimeData s) (r_trace s).
Definition add_trace (e : list effect) (s : ril_state) : ril_state :=
  mkRil (r_ev s) (r_heap s) (s_pendingRequests s) (r_timers s) (s_last_wake_timeout_info s) (s_fdCommand s)
    (s_fdListen s) (s_registerCalled s) (r_version s) (voiceRadioTech s) (cdmaSubscriptionSource s)
    (simRuimStatus s) (s_lastNITZTimeData s) (r_trace s ++ e).

#[export] Program Instance ril_event_store : EventStore callback ril_state :=
  {| es_get := r_ev; es_put := set_ev |}.
Next Obligation. done. Qed.
Next Obligation. done. Qed.
Next Obligation. by intros []. Qed.

Abbreviation rcmd := (cmd ril_state).

Definition emit (e : effect) : rcmd unit := modify (add_trace [e]).
Definition ask {A} (f : list effect -> A) : rcmd A := fun s => Ok (f (r_trace s), s).

Lemma bind_ask {A B} (f : list effect -> A) (k : A -> rcmd B) s : (ask f ≫= k) s = k (f (r_trace s)) s.
Proof. done. Qed.
Lemma bind_emit {B} e (k : unit -> rcmd B) s : (emit e ≫= k) s = k tt (add_trace [e] s).
Proof. done. Qed.

#[export] Hint Rewrite @bind_ask @bind_emit : cmd.

(** The static events. *)
Definition s_commands_event : loc := 3%positive.
Definition s_wakeupfd_event : loc := 4%positive.
Definition s_listen_event : loc := 5%positive.
Definition s_debug_event : loc := 6%positive.

Section Core.
Context {P : Type} {HPar : Parcel P} {HJS : JString} {HH : RilH}.

(** Build flags (RIL_VARIANT_LEGACY; NDEBUG for [assert]), stack space,
    content of uninitialised locals, fuel of the two loops that wait for
    the outside. *)
Variables (legacy ndebug : bool) (stack_avail junk : Z) (fuel : nat) (env : ril_env).

Definition use_cla : bool := negb legacy.

(** A failing [assert] aborts the process unless NDEBUG removed it. *)
Definition c_assert (b : bool) : rcmd unit := if b || ndebug then mret tt else ub.

(** Run a command on a local parcel. *)
Definition local_parcel {A} (m : cmd P A) (p : P) : rcmd (A * P) := fun s =>
  match m p with
  | Ok r => Ok (r, s)
  | UB => UB
  | Block => Block
  end.

(** ** Heap of RequestInfo *)

Definition load_req (l : loc) : rcmd RequestInfo := fun s =>
  match r_heap s !! l with Some r => Ok (r, s) | None => UB end.

Definition store_req (l : loc) (f : RequestInfo -> RequestInfo) : rcmd unit := fun s =>
  match r_heap s !! l with
  | Some r => Ok (tt, set_reqs (<[l := f r]> (r_heap s)) (s_pendingRequests s) s)
  | None => UB
  end.

Definition free_req (l : loc) : rcmd unit := fun s =>
  match r_heap s !! l with
  | Some _ => Ok (tt, set_reqs (delete l (r_heap s)) (s_pendingRequests s) s)
  | None => UB
  end.

(** Addresses in use. *)
Definition used (s : ril_state) : gset loc :=
  dom (r_heap s) ∪ dom (r_timers s) ∪ dom (ev_heap (r_ev s)).

(** [pRI = calloc(...)]; the members are set; then it becomes the head of
    [s_pendingRequests]. *)
Definition new_request (tok : Z) (ci : CommandInfo) (loc_ : Z) : rcmd loc := fun s =>
  let a := o_alloc env (used s) in
  Ok (a, set_reqs (<[a := mkRI tok ci (s_pendingRequests s) 0 loc_]> (r_heap s)) (Some a) s).

(** ** Sending *)

(** [blockingWrite]: the part of [buffer] not yet written. *)
Fixpoint blockingWrite_loop (n : nat) (fd : Z) (buffer : list Z) : rcmd Z :=
  match n with
  | O => block
  | S n =>
      match buffer with
      | [] => mret 0
      | _ =>
          w ← ask (fun tr => o_write env tr fd buffer);
          match w with
          | Wrote k =>
              let k := Nat.min k (length buffer) in
              emit (EWrite fd (take k buffer));;
              blockingWrite_loop n fd (drop k buffer)
          | WriteError true => emit (EWriteError fd true);; blockingWrite_loop n fd buffer
          | WriteError false => emit (EWriteError fd false);; emit (EClose fd);; mret (-1)
          end
      end
  end.

Definition blockingWrite (fd : Z) (buffer : list Z) : rcmd Z := blockingWrite_loop fuel fd buffer.

Definition sendResponseRaw (data : list Z) : rcmd Z :=
  s ← get_st;
  let fd := s_fdCommand s in
  let dataSize := Z.of_nat (length data) in
  if fd <? 0 then mret (-1)
  else if dataSize >? MAX_COMMAND_BYTES then mret (-1)
  else
    ret ← blockingWrite fd (be32 dataSize);
    if ret <? 0 then mret ret
    else
      ret ← blockingWrite fd data;
      if ret <? 0 then mret ret else mret 0.

Definition sendResponse (p : P) : rcmd Z := sendResponseRaw (parcel_data p).

(** ** Completing requests *)

(** [ppCur]: the address of [s_pendingRequests] or of a [p_next]. *)
Inductive link := Head | NextOf (l : loc).

Definition get_link (pp : link) : rcmd (option loc) :=
  match pp with
  | Head => s ← get_st; mret (s_pendingRequests s)
  | NextOf l => r ← load_req l; mret (p_next r)
  end.

Definition set_link (pp : link) (v : option loc) : rcmd unit :=
  match pp with
  | Head => modify (fun s => set_reqs (r_heap s) v s)
  | NextOf l => store_req l (set_p_next v)
  end.

Fixpoint dequeue_loop (n : nat) (ppCur : link) (pRI : loc) : rcmd Z :=
  match n with
  | O => block
  | S n =>
      cur ← get_link ppCur;
      match cur with
      | None => mret 0
      | Some c =>
          if decide (pRI = c) then
            r ← load_req c;
            set_link ppCur (p_next r);;
            mret 1
          else dequeue_loop n (NextOf c) pRI
      end
  end.

Definition checkAndDequeueRequestInfo (pRI : option loc) : rcmd Z :=
  match pRI with
  | None => mret 0
  | Some pRI => s ← get_st; dequeue_loop (S (size (r_heap s))) Head pRI
  end.

(** The packet of a solicited response. *)
Definition response_parcel (version : Z) (r : RequestInfo) (e : Z) (response : voidptr) (responselen : Z) : rcmd P :=
  let p := writeInt32 RESPONSE_SOLICITED parcel_new in
  let p := writeInt32 (token r) p in
  let errorOffset := dataPosition p in
  let p := writeInt32 e p in
  if is_null response then mret p
  else match responseFunction (pCI r) with
  | None => ub
  | Some f =>
      '(ret, p) ← local_parcel (responseFn version f response responselen) p;
      if ret =? 0 then mret p
      else mret (writeInt32 ret (setDataPosition errorOffset p))
  end.

(** What follows the dequeuing: from the test of [local] to [free]. *)
Definition complete_dequeued (pRI : loc) (e : Z) (response : voidptr) (responselen : Z) : rcmd unit :=
  r ← load_req pRI;
  (if local r >? 0 then mret tt
   else if cancelled r =? 0 then
     s ← get_st;
     p ← response_parcel (r_version s) r e response responselen;
     sendResponse p;;
     mret tt
   else mret tt);;
  free_req pRI.

Definition RIL_onRequestComplete (t : option loc) (e : Z) (response : voidptr) (responselen : Z) : rcmd unit :=
  found ← checkAndDequeueRequestInfo t;
  match t with
  | Some pRI => if found =? 0 then mret tt else complete_dequeued pRI e response responselen
  | None => mret tt
  end.

(** ** Wake lock and timers *)

Definition grabPartialWakeLock : rcmd unit := emit (EWakeLock true).
Definition releaseWakeLock : rcmd unit := emit (EWakeLock false).

Definition wakeTimeoutCallback (param : Z) : rcmd unit :=
  if param =? 0 then releaseWakeLock else mret tt.

Definition triggerEvLoop : rcmd unit :=
  self ← ask (o_self_is_dispatch env);
  if self : bool then mret tt else emit ETrigger.

Definition rilEventAddWakeup (ev : loc) : rcmd unit :=
  onev (ril_event_add (Some ev));; triggerEvLoop.

Definition internalRequestTimedCallback (cb : timed_callback) (param : Z) (relativeTime : option timeval) : rcmd loc :=
  s ← get_st;
  let p_info := o_alloc env (used s) in
  let myRelativeTime := default (mkTv 0 0) relativeTime in
  modify (fun s => set_timers (<[p_info := mkUCI cb param]> (r_timers s)) (s_last_wake_timeout_info s) s);;
  modify (fun s => set_ev (set_heap (<[p_info := zero_event]> (ev_heap (r_ev s))) (r_ev s)) s);;
  onev (ril_event_set (Some p_info) (-1) false (Some CB_userTimerCallback) (Some p_info));;
  now ← ask (o_now env);
  onev (ril_timer_add (Some p_info) (Some myRelativeTime) now);;
  triggerEvLoop;;
  mret p_info.

Definition RIL_requestTimedCallback (n param : Z) (relativeTime : option timeval) : rcmd unit :=
  internalRequestTimedCallback (TC_vendor n) param relativeTime;; mret tt.

(** ** Radio state *)

Definition decodeVoiceRadioTechnology (radioState : Z) : Z :=
  switch radioState
    [(RADIO_STATE_SIM_NOT_READY, rilh RADIO_TECH_UMTS);
     (RADIO_STATE_SIM_LOCKED_OR_ABSENT, rilh RADIO_TECH_UMTS);
     (RADIO_STATE_SIM_READY, rilh RADIO_TECH_UMTS);
     (RADIO_STATE_RUIM_NOT_READY, rilh RADIO_TECH_1xRTT);
     (RADIO_STATE_RUIM_READY, rilh RADIO_TECH_1xRTT);
     (RADIO_STATE_RUIM_LOCKED_OR_ABSENT, rilh RADIO_TECH_1xRTT);
     (RADIO_STATE_NV_NOT_READY, rilh RADIO_TECH_1xRTT);
     (RADIO_STATE_NV_READY, rilh RADIO_TECH_1xRTT)] (-1).

Definition decodeCdmaSubscriptionSource (radioState : Z) : Z :=
  switch radioState
    [(RADIO_STATE_SIM_NOT_READY, rilh CDMA_SUBSCRIPTION_SOURCE_RUIM_SIM);
     (RADIO_STATE_SIM_LOCKED_OR_ABSENT, rilh CDMA_SUBSCRIPTION_SOURCE_RUIM_SIM);
     (RADIO_STATE_SIM_READY, rilh CDMA_SUBSCRIPTION_SOURCE_RUIM_SIM);
     (RADIO_STATE_RUIM_NOT_READY, rilh CDMA_SUBSCRIPTION_SOURCE_RUIM_SIM);
     (RADIO_STATE_RUIM_READY, rilh CDMA_SUBSCRIPTION_SOURCE_RUIM_SIM);
     (RADIO_STATE_RUIM_LOCKED_OR_ABSENT, rilh CDMA_SUBSCRIPTION_SOURCE_RUIM_SIM);
     (RADIO_STATE_NV_NOT_READY, rilh CDMA_SUBSCRIPTION_SOURCE_NV);
     (RADIO_STATE_NV_READY, rilh CDMA_SUBSCRIPTION_SOURCE_NV)] (-1).

Definition decodeSimStatus (radioState : Z) : Z :=
  switch radioState
    [(RADIO_STATE_SIM_NOT_READY, -1);
     (RADIO_STATE_RUIM_NOT_READY, -1);
     (RADIO_STATE_NV_NOT_READY, -1);
     (RADIO_STATE_NV_READY, -1);
     (RADIO_STATE_SIM_LOCKED_OR_ABSENT, radioState);
     (RADIO_STATE_SIM_READY, radioState);
     (RADIO_STATE_RUIM_READY, radioState);
     (RADIO_STATE_RUIM_LOCKED_OR_ABSENT, radioState)] (-1).

Definition is3gpp2 (radioTech : Z) : bool :=
  switch radioTech
    [(RADIO_TECH_IS95A, true);
     (RADIO_TECH_IS95B, true);
     (RADIO_TECH_1xRTT, true);
     (RADIO_TECH_EVDO_0, true);
     (RADIO_TECH_EVDO_A, true);
     (RADIO_TECH_EVDO_B, true);
     (RADIO_TECH_EHRPD, true)] false.

(** ** Unsolicited responses *)

(** [processRadioState]; [unsol] is [RIL_onUnsolicitedResponse]. *)
Definition processRadioState_with (unsol : Z -> voidptr -> Z -> rcmd unit) (newRadioState : Z) : rcmd Z :=
  if (newRadioState >? rilh RADIO_STATE_UNAVAILABLE) && (newRadioState <? rilh RADIO_STATE_ON) then
    let newVoiceRadioTech := decodeVoiceRadioTechnology newRadioState in
    s ← get_st;
    (if negb (newVoiceRadioTech =? voiceRadioTech s) then
       modify (fun s => set_radio newVoiceRadioTech (cdmaSubscriptionSource s) (simRuimStatus s) s);;
       unsol (rilh RIL_UNSOL_VOICE_RADIO_TECH_CHANGED) (VInts [newVoiceRadioTech]) sizeof_int
     else mret tt);;
    (if is3gpp2 newVoiceRadioTech then
       let newCdmaSubscriptionSource := decodeCdmaSubscriptionSource newRadioState in
       s ← get_st;
       if negb (newCdmaSubscriptionSource =? cdmaSubscriptionSource s) then
         modify (fun s => set_radio (voiceRadioTech s) newCdmaSubscriptionSource (simRuimStatus s) s);;
         unsol (rilh RIL_UNSOL_CDMA_SUBSCRIPTION_SOURCE_CHANGED) (VInts [newCdmaSubscriptionSource]) sizeof_int
       else mret tt
     else mret tt);;
    let newSimStatus := decodeSimStatus newRadioState in
    s ← get_st;
    (if negb (newSimStatus =? simRuimStatus s) then
       modify (fun s => set_radio (voiceRadioTech s) (cdmaSubscriptionSource s) newSimStatus s);;
       unsol (rilh RIL_UNSOL_RESPONSE_SIM_STATUS_CHANGED) VNull 0
     else mret tt);;
    mret (rilh RADIO_STATE_ON)
  else mret newRadioState.

(** [shouldScheduleTimeout]: cancel the previous wake timer, start one. *)
Definition schedule_wake_timeout : rcmd unit :=
  s ← get_st;
  (match s_last_wake_timeout_info s with
   | Some l =>
       match r_timers s !! l with
       | Some u => modify (fun s => set_timers (<[l := mkUCI (p_callback u) 1]> (r_timers s)) (Some l) s)
       | None => ub
       end
   | None => mret tt
   end);;
  p_info ← internalRequestTimedCallback TC_wakeTimeoutCallback 0 (Some TIMEVAL_WAKE_TIMEOUT);
  modify (fun s => set_timers (r_timers s) (Some p_info) s).

(** The "more payload" of two responses. *)
Definition extra_payload (unsol : Z -> voidptr -> Z -> rcmd unit) (unsolResponse timeReceived : Z) (p : P) : rcmd P :=
  if unsolResponse =? rilh RIL_UNSOL_RESPONSE_RADIO_STATE_CHANGED then
    st ← ask (o_state env);
    newState ← processRadioState_with unsol st;
    mret (writeInt32 newState p)
  else if unsolResponse =? rilh RIL_UNSOL_NITZ_TIME_RECEIVED then
    mret (writeInt64 timeReceived p)
  else mret p.

(** From [sendResponse] to the normal exit. *)
Definition unsol_send (unsolResponse : Z) (wake : bool) (p : P) : rcmd unit :=
  ret ← sendResponse p;
  (if negb (ret =? 0) && (unsolResponse =? rilh RIL_UNSOL_NITZ_TIME_RECEIVED)
   then modify (set_nitz (Some (parcel_data p))) else mret tt);;
  if wake then schedule_wake_timeout else mret tt.

Definition onUnsolicited_with (unsol : Z -> voidptr -> Z -> rcmd unit)
    (unsolResponse : Z) (data : voidptr) (datalen : Z) : rcmd unit :=
  s ← get_st;
  if negb (s_registerCalled s) then mret tt
  else
    let index := unsolResponse - rilh RIL_UNSOL_RESPONSE_BASE in
    if index <? 0 then mret tt
    else match s_unsolResponses !! Z.to_nat index with
    | None => mret tt
    | Some ui =>
        let wake := match wakeType ui with WAKE_PARTIAL => true | DONT_WAKE => false end in
        (if wake then grabPartialWakeLock else mret tt);;
        t ← ask (o_realtime env);
        let timeReceived := if unsolResponse =? rilh RIL_UNSOL_NITZ_TIME_RECEIVED then t else 0 in
        let p := writeInt32 unsolResponse (writeInt32 RESPONSE_UNSOLICITED parcel_new) in
        '(ret, p) ← local_parcel (responseFn (r_version s) (unsolResponseFunction ui) data datalen) p;
        if negb (ret =? 0) then
          if wake then releaseWakeLock else mret tt
        else
          p ← extra_payload unsol unsolResponse timeReceived p;
          unsol_send unsolResponse wake p
    end.

(** [processRadioState] only issues responses that do not call it again:
    two levels are enough. *)
Fixpoint onUnsolicited_depth (n : nat) (unsolResponse : Z) (data : voidptr) (datalen : Z) : rcmd unit :=
  match n with
  | O => block
  | S n => onUnsolicited_with (onUnsolicited_depth n) unsolResponse data datalen
  end.

Definition RIL_onUnsolicitedResponse : Z -> voidptr -> Z -> rcmd unit := onUnsolicited_depth 2.
Definition processRadioState : Z -> rcmd Z := processRadioState_with RIL_onUnsolicitedResponse.

(** ** Issuing requests to the vendor *)

Definition vendor_calls (calls : list vendor_call) : rcmd unit :=
  fold_right (fun c k =>
    (match c with
     | CallComplete t e response responselen => RIL_onRequestComplete t e response responselen
     | CallUnsol r data datalen => RIL_onUnsolicitedResponse r data datalen
     | CallTimed n param rel => RIL_requestTimedCallback n param rel
     end);; k) (mret tt) calls.

Definition onRequest (request : Z) (data : voidptr) (datalen : Z) (pRI : loc) : rcmd unit :=
  emit (EOnRequest request data datalen pRI);;
  s ← get_st;
  vendor_calls (o_vendor env s).

Definition invalidCommandBlock (pRI : loc) : rcmd unit :=
  r ← load_req pRI;
  emit (EInvalidBlock (token r) (requestNumber (pCI r))).

Definition dispatchVoiceRadioTech (pRI : loc) (requestNumber : Z) : rcmd unit :=
  state ← ask (o_state env);
  (if (rilh RADIO_STATE_UNAVAILABLE =? state) || (rilh RADIO_STATE_OFF =? state)
   then RIL_onRequestComplete (Some pRI) (rilh RIL_E_RADIO_NOT_AVAILABLE) VNull 0 else mret tt);;
  if rilh RADIO_STATE_ON =? state then onRequest requestNumber VNull 0 pRI
  else
    let tech := decodeVoiceRadioTechnology state in
    modify (fun s => set_radio tech (cdmaSubscriptionSource s) (simRuimStatus s) s);;
    if tech <? 0 then RIL_onRequestComplete (Some pRI) (rilh RIL_E_GENERIC_FAILURE) VNull 0
    else RIL_onRequestComplete (Some pRI) (rilh RIL_E_SUCCESS) (VInts [tech]) sizeof_int.

Definition dispatchCdmaSubscriptionSource (pRI : loc) (requestNumber : Z) : rcmd unit :=
  state ← ask (o_state env);
  (if (rilh RADIO_STATE_UNAVAILABLE =? state) || (rilh RADIO_STATE_OFF =? state)
   then RIL_onRequestComplete (Some pRI) (rilh RIL_E_RADIO_NOT_AVAILABLE) VNull 0 else mret tt);;
  if rilh RADIO_STATE_ON =? state then onRequest requestNumber VNull 0 pRI
  else
    let src := decodeCdmaSubscriptionSource state in
    modify (fun s => set_radio (voiceRadioTech s) src (simRuimStatus s) s);;
    if src <? 0 then RIL_onRequestComplete (Some pRI) (rilh RIL_E_GENERIC_FAILURE) VNull 0
    else RIL_onRequestComplete (Some pRI) (rilh RIL_E_SUCCESS) (VInts [src]) sizeof_int.

(** [pRI->pCI->dispatchFunction(p, pRI)]. *)
Definition dispatch (p : P) (pRI : loc) : rcmd unit :=
  r ← load_req pRI;
  let rq := requestNumber (pCI r) in
  s ← get_st;
  match dispatchFunction (pCI r) with
  | None => ub
  | Some F_dispatchVoiceRadioTech => dispatchVoiceRadioTech pRI rq
  | Some F_dispatchCdmaSubscriptionSource => dispatchCdmaSubscriptionSource pRI rq
  | Some f =>
      '(d, _) ← local_parcel (dispatchFn (r_version s) use_cla stack_avail junk f rq) p;
      match d with
      | DRequest data datalen => onRequest rq data datalen pRI
      | DInvalid => invalidCommandBlock pRI
      | DNothing => mret tt
      end
  end.

Definition issueLocalRequest (request : Z) (data : voidptr) (len : Z) : rcmd unit :=
  match s_commands legacy !! Z.to_nat request with
  | None => ub
  | Some ci =>
      pRI ← new_request (-1) ci 1;
      onRequest request data len pRI
  end.

Definition processCommandBuffer (buffer : list Z) : rcmd Z :=
  let p := setData buffer parcel_new in
  '((_, request), p) ← local_parcel (rdI32 junk) p;
  '((status, tok), p) ← local_parcel (rdI32 junk) p;
  if negb status then mret 0
  else if (request <? 1) || (request >=? Z.of_nat (length (s_commands legacy))) then
    let pErr := writeInt32 RESPONSE_SOLICITED parcel_new in
    let pErr := writeInt32 tok pErr in
    let pErr := writeInt32 (rilh RIL_E_GENERIC_FAILURE) pErr in
    sendResponse pErr;;
    mret 0
  else match s_commands legacy !! Z.to_nat request with
  | None => ub
  | Some ci =>
      pRI ← new_request tok ci 0;
      dispatch p pRI;;
      mret 0
  end.

(** ** The command socket *)

Fixpoint cancel_loop (n : nat) (p_cur : option loc) : rcmd unit :=
  match n with
  | O => block
  | S n =>
      match p_cur with
      | None => mret tt
      | Some l =>
          store_req l (set_cancelled 1);;
          r ← load_req l;
          cancel_loop n (p_next r)
      end
  end.

Definition onCommandsSocketClosed : rcmd unit :=
  s ← get_st;
  cancel_loop (S (size (r_heap s))) (s_pendingRequests s).

(** The [for (;;)] over the records; returns [ret == 0 || !(EAGAIN || EINTR)]. *)
Fixpoint records_loop (n : nat) : rcmd bool :=
  match n with
  | O => block
  | S n =>
      r ← ask (o_record env);
      emit ERecord;;
      match r with
      | Record_ bytes => processCommandBuffer bytes;; records_loop n
      | EndOfStream => mret true
      | StreamError again => mret (negb again)
      end
  end.

Definition processCommandsCallback (fd : Z) : rcmd unit :=
  s ← get_st;
  c_assert (fd =? s_fdCommand s);;
  closed ← records_loop fuel;
  if closed : bool then
    s ← get_st;
    emit (EClose (s_fdCommand s));;
    modify (set_fdCommand (-1));;
    onev (ril_event_del (Some s_commands_event));;
    rilEventAddWakeup s_listen_event;;
    onCommandsSocketClosed
  else mret tt.

(** "unavailable". *)
Definition UNAVAILABLE : list Z := [117; 110; 97; 118; 97; 105; 108; 97; 98; 108; 101].

Definition onNewCommandConnect : rcmd unit :=
  s ← get_st;
  RIL_onUnsolicitedResponse (rilh RIL_UNSOL_RIL_CONNECTED) (VInts [r_version s]) sizeof_int;;
  RIL_onUnsolicitedResponse (rilh RIL_UNSOL_RESPONSE_RADIO_STATE_CHANGED) VNull 0;;
  s ← get_st;
  (match s_lastNITZTimeData s with
   | Some data => sendResponseRaw data;; modify (set_nitz None)
   | None => mret tt
   end);;
  match o_getVersion env with
  | Some version => emit (EPropertySet version)
  | None => emit (EPropertySet (Some UNAVAILABLE))
  end.

(** "radio", the user of the phone process. *)
Definition PHONE_PROCESS : list Z := [114; 97; 100; 105; 111].

Definition listenCallback (fd : Z) : rcmd unit :=
  s ← get_st;
  c_assert (s_fdCommand s <? 0);;
  c_assert (fd =? s_fdListen s);;
  newfd ← ask (o_accept env);
  emit (EAccept newfd);;
  modify (set_fdCommand newfd);;
  if newfd <? 0 then rilEventAddWakeup s_listen_event
  else
    cred ← ask (o_cred env);
    if negb (bool_decide (cred = Some PHONE_PROCESS)) then
      emit (EClose newfd);;
      modify (set_fdCommand (-1));;
      onCommandsSocketClosed;;
      rilEventAddWakeup s_listen_event
    else
      p_rs ← ask (o_stream env);
      onev (ril_event_set (Some s_commands_event) newfd true (Some CB_processCommandsCallback) p_rs);;
      rilEventAddWakeup s_commands_event;;
      onNewCommandConnect.

Definition userTimerCallback (param : option loc) : rcmd unit :=
  s ← get_st;
  match param with
  | None => ub
  | Some l =>
      match r_timers s !! l with
      | None => ub
      | Some u =>
          (match p_callback u with
           | TC_wakeTimeoutCallback => wakeTimeoutCallback (userParam u)
           | TC_vendor n =>
               emit (EVendorTimer n (userParam u));;
               s ← get_st;
               vendor_calls (o_vendor env s)
           end);;
          modify (fun s => set_timers (delete l (r_timers s))
            (if decide (s_last_wake_timeout_info s = Some l) then None else s_last_wake_timeout_info s) s);;
          modify (fun s => set_ev (set_heap (delete l (ev_heap (r_ev s))) (r_ev s)) s)
      end
  end.

End Core.
