(* ===== verification/RilWire.v ===== *)
(** * Wire format: the response functions and the dispatch functions agree

    For the structures libril both receives and sends, what a response
    function writes is read back by the corresponding dispatch function as
    the same data. *)

From S2P Require Import Prelude Bytes Parcel RilConst RilTypes RilDispatch RilResponse.

Section Wire.
Context {P : Type} {HPar : Parcel P} {HLaws : ParcelLaws P} {HJS : JString} {HH : RilH}.
Context {wf : list Z -> Prop} {HJL : JStringLaws wf}.
Variables (version : Z) (use_cla : bool) (stack_avail junk : Z).

Lemma for_each_all {A} (body : A -> cmd P unit) (items : A -> list witem) l :
  (forall x, x ∈ l -> appends (body x) tt (enc_all (items x))) ->
  appends (for_each (length l) l body) tt (enc_all (concat (items <$> l))).
Proof.
  clear HJL. induction l as [|x l IH]; intros Hb; simpl; [apply appends_done|].
  unfold enc_all. rewrite fmap_app, concat_app. eapply (appends_bind _ (fun _ => _) tt).
  - apply Hb. set_solver.
  - apply IH. set_solver.
Qed.

Lemma appends_one {A} (m : cmd P A) a w : appends m a (enc w) -> appends m a (enc_all [w]).
Proof. unfold enc_all. simpl. by rewrite app_nil_r. Qed.

Lemma reads_pre {A B} (m : cmd P A) (f : A -> cmd P B) a b ws :
  reads m a (enc_all []) -> reads (f a) b (enc_all ws) -> reads (m ≫= f) b (enc_all ws).
Proof. apply (reads_app m f a b []). Qed.

Lemma reads_last {A B} (m : cmd P A) (f : A -> cmd P B) a b ws :
  reads m a (enc_all ws) -> reads (f a) b (enc_all []) -> reads (m ≫= f) b (enc_all ws).
Proof. intros Hm Hf. pose proof (reads_app m f a b ws [] Hm Hf) as H. by rewrite app_nil_r in H. Qed.

Lemma reads_alloca n : n <= stack_avail -> reads (alloca stack_avail n) tt (enc_all []).
Proof. intros Hn. unfold alloca. replace (n <=? stack_avail) with true by lia. apply reads_ret. Qed.

(** ** Integers *)

Definition ints_items (l : list Z) : list witem := WI32 (Z.of_nat (length l)) :: (WI32 <$> l).

Lemma fmap_concat {A} (f : A -> witem) l : concat ((fun x => [f x]) <$> l) = f <$> l.
Proof. induction l as [|x l IH]; [done|]. cbn. f_equal. exact IH. Qed.

Lemma len_div4 (n : nat) : 4 * Z.of_nat n / 4 = Z.of_nat n.
Proof. rewrite Z.mul_comm, Z.div_mul; lia. Qed.

Lemma len_mod4 (n : nat) : (4 * Z.of_nat n) mod 4 = 0.
Proof. rewrite Z.mul_comm. by apply Z.mod_mul. Qed.

Lemma responseInts_appends l :
  appends (responseInts (VInts l) (4 * Z.of_nat (length l))) 0 (enc_all (ints_items l)).
Proof.
  unfold responseInts, ints_items, sizeof_int, sizeof_ptr. cbn [null_with_len is_null andb].
  rewrite len_mod4, len_div4, Nat2Z.id. cbn [Z.eqb negb].
  eapply appends_seq; [eauto with parcel|]. rewrite <- (fmap_concat WI32), <- (app_nil_r (concat _)).
  unfold enc_all. rewrite fmap_app, concat_app. eapply (appends_bind _ (fun _ => _) tt).
  - apply for_each_all. intros x _. apply appends_one. eauto with parcel.
  - apply appends_done.
Qed.

Lemma readInts_reads k i datalen l :
  length l = k -> (i + Z.of_nat k) * 4 <= datalen -> Forall i32_ok l -> 0 <= i ->
  reads (readInts junk k i datalen) (Some l) (enc_all (WI32 <$> l)).
Proof.
  revert i l; induction k as [|k IH]; intros i l Hl Hd Hf Hi; destruct l as [|x l]; simplify_eq/=.
  { apply reads_ret. }
  apply Forall_cons in Hf as [Hx Hf]. eapply reads_cons; [eauto with parcel|]. cbn beta iota.
  unfold sizeof_int. replace ((i + 1) * 4 <=? datalen) with true by lia. cbn [negb].
  eapply reads_last; [apply IH; try done; lia|]. apply reads_ret.
Qed.

Lemma dispatchInts_reads l :
  l <> [] -> Forall i32_ok l -> 4 * Z.of_nat (length l) <= stack_avail -> Z.of_nat (length l) < 2 ^ 30 ->
  reads (dispatchInts stack_avail junk) (DRequest (VInts l) (4 * Z.of_nat (length l))) (enc_all (ints_items l)).
Proof.
  intros Hne Hf Hs Hl. unfold dispatchInts, ints_items.
  eapply reads_cons; [apply reads_rdI32; unfold i32_ok; lia|]. cbn [negb orb].
  replace (Z.of_nat (length l) =? 0) with false by (destruct l; [done|simpl; lia]).
  unfold sizeof_int. rewrite u32_id by lia. rewrite Nat2Z.id.
  eapply reads_pre; [by apply reads_alloca|].
  eapply reads_last; [apply readInts_reads; try done; lia|]. apply reads_ret.
Qed.

(** ** Strings *)

Definition str_item (s : cstr) : witem := WStr16 (strdup8to16 s).
Definition strings_items (l : list cstr) : list witem := WI32 (Z.of_nat (length l)) :: (str_item <$> l).

(** A count followed by the elements. *)
Lemma count_list_appends {A} (body : A -> cmd P unit) (items : A -> list witem) l :
  (forall x, x ∈ l -> appends (body x) tt (enc_all (items x))) ->
  appends (wrI32 (Z.of_nat (length l));; for_each (length l) l body;; mret 0) 0
    (enc_all (WI32 (Z.of_nat (length l)) :: concat (items <$> l))).
Proof.
  intros Hb. eapply appends_seq; [eauto with parcel|]. rewrite <- (app_nil_r (concat _)).
  unfold enc_all. rewrite fmap_app, concat_app. eapply (appends_bind _ (fun _ => _) tt).
  - by apply for_each_all.
  - apply appends_done.
Qed.

Lemma responseStrings_appends l :
  appends (responseStrings (VStrings l) (4 * Z.of_nat (length l))) 0 (enc_all (strings_items l)).
Proof.
  unfold responseStrings, strings_items, sizeof_ptr. cbn [null_with_len is_null andb].
  rewrite len_mod4, len_div4, Nat2Z.id. cbn [Z.eqb negb]. rewrite <- (fmap_concat str_item).
  apply count_list_appends. intros x _. apply appends_one. eauto with parcel.
Qed.

Lemma readStrings_reads k i datalen l :
  length l = k -> (i + Z.of_nat k) * 4 <= datalen -> Forall (str_ok wf) l -> 0 <= i ->
  reads (readStrings k i datalen) l (enc_all (str_item <$> l)).
Proof.
  revert i l; induction k as [|k IH]; intros i l Hl Hd Hf Hi; destruct l as [|x l]; simplify_eq/=.
  { apply reads_ret. }
  apply Forall_cons in Hf as [Hx Hf]. eapply reads_cons; [by eapply reads_string|].
  unfold sizeof_ptr. replace ((i + 1) * 4 <=? datalen) with true by lia.
  eapply reads_last; [apply IH; try done; lia|]. apply reads_ret.
Qed.

Lemma read_pStrings_reads l :
  Forall (str_ok wf) l -> 4 * Z.of_nat (length l) <= stack_avail -> 4 <= stack_avail -> Z.of_nat (length l) < 2 ^ 30 ->
  reads (read_pStrings stack_avail (Z.of_nat (length l))) (Some l, 4 * Z.of_nat (length l)) (enc_all (str_item <$> l)).
Proof.
  intros Hf Hs H4 Hl. unfold read_pStrings, sizeof_ptr. destruct l as [|x l].
  - eapply reads_pre; [by apply reads_alloca|]. apply reads_ret.
  - set (xs := x :: l) in *. assert (0 < length xs)%nat by (simpl; lia).
    replace (Z.of_nat (length xs) =? 0) with false by lia. replace (Z.of_nat (length xs) =? -1) with false by lia.
    rewrite u32_id by lia. eapply reads_pre; [by apply reads_alloca|]. rewrite Nat2Z.id.
    eapply reads_last; [apply readStrings_reads; try done; lia|]. apply reads_ret.
Qed.

Lemma dispatchStrings_reads l :
  Forall (str_ok wf) l -> 4 * Z.of_nat (length l) <= stack_avail -> 4 <= stack_avail -> Z.of_nat (length l) < 2 ^ 30 ->
  reads (dispatchStrings stack_avail junk) (DRequest (VStrings l) (4 * Z.of_nat (length l))) (enc_all (strings_items l)).
Proof.
  intros Hf Hs H4 Hl. unfold dispatchStrings, strings_items.
  eapply reads_cons; [apply reads_rdI32; unfold i32_ok; lia|]. cbn [negb].
  eapply reads_last; [by apply read_pStrings_reads|]. apply reads_ret.
Qed.

(** ** Raw bytes *)

Lemma responseRaw_appends bs :
  appends (responseRaw (VBytes bs) (Z.of_nat (length bs))) 0
    (enc_all [WI32 (Z.of_nat (length bs)); WBytes bs]).
Proof.
  unfold responseRaw, wrBuf. cbn [null_with_len is_null andb].
  replace (0 <=? Z.of_nat (length bs)) with true by (symmetry; apply Z.leb_le; lia). rewrite Z.leb_refl. cbn [andb].
  rewrite Nat2Z.id, firstn_all. write_items.
Qed.

Lemma dispatchRaw_reads bs :
  Z.of_nat (length bs) < 2 ^ 31 ->
  reads (dispatchRaw junk) (DRequest (VBytes bs) (Z.of_nat (length bs)))
    (enc_all [WI32 (Z.of_nat (length bs)); WBytes bs]).
Proof.
  intros Hl. unfold dispatchRaw. eapply reads_cons; [apply reads_rdI32; unfold i32_ok; lia|]. cbn [negb].
  replace (Z.of_nat (length bs) =? -1) with false by lia. rewrite u32_id by lia.
  eapply reads_cons; [apply reads_rdInplace; unfold len_ok; lia|]. apply reads_ret.
Qed.

(** ** Cell broadcast configuration *)

Definition gsmBci_items (c : RIL_GSM_BroadcastSmsConfigInfo) : list witem :=
  [WI32 (fromServiceId c); WI32 (toServiceId c); WI32 (fromCodeScheme c); WI32 (toCodeScheme c); WI32 (gsm_selected c)].

Definition gsmBci_ok (c : RIL_GSM_BroadcastSmsConfigInfo) : Prop :=
  i32_ok (fromServiceId c) /\ i32_ok (toServiceId c) /\ i32_ok (fromCodeScheme c) /\ i32_ok (toCodeScheme c) /\
  byte_ok (gsm_selected c).

Definition list_items {A} (items : A -> list witem) (l : list A) : list witem :=
  WI32 (Z.of_nat (length l)) :: concat (items <$> l).

Lemma for_each_ptr_Some {A} k (l : list A) (body : A -> cmd P unit) p :
  for_each_ptr k (Some <$> l) body p = for_each k l body p.
Proof.
  unfold for_each_ptr. revert l p; induction k as [|k IH]; intros l p; [done|]. destruct l as [|x l]; [done|].
  cbn. unfold mbind, cmd_bind. destruct (body x p) as [[? p']| |]; [apply IH|done|done].
Qed.

Lemma for_each_ptr_appends {A} (body : A -> cmd P unit) (items : A -> list witem) l :
  (forall x, appends (body x) tt (enc_all (items x))) ->
  appends (wrI32 (Z.of_nat (length l));; for_each_ptr (length l) (Some <$> l) body;; mret 0) 0
    (enc_all (list_items items l)).
Proof.
  intros Hb p Hp. destruct (count_list_appends body items l (fun x _ => Hb x) p Hp) as (p' & E & H).
  exists p'. split; [|done]. rewrite <- E. unfold mbind, cmd_bind. destruct (wrI32 _ p) as [[? p1]| |]; [|done|done].
  by rewrite for_each_ptr_Some.
Qed.

Lemma responseGsmBrSmsCnf_appends l :
  appends (responseGsmBrSmsCnf (VGsmBci (Some <$> l)) (4 * Z.of_nat (length l))) 0
    (enc_all (list_items gsmBci_items l)).
Proof.
  unfold responseGsmBrSmsCnf, sizeof_ptr. rewrite len_div4, Nat2Z.id. cbn [gsmBci_of].
  apply for_each_ptr_appends. intros c. unfold writeGsmBci, gsmBci_items.
  repeat (eapply appends_seq; [solve [eauto with parcel]|]). apply appends_one. eauto with parcel.
Qed.

Lemma readGsmBci_reads l st t :
  Forall gsmBci_ok l ->
  reads (readGsmBci (length l) st t) (match l with [] => st | _ => true end, Some <$> l) (enc_all (concat (gsmBci_items <$> l))).
Proof.
  intros Hf. revert st t. induction Hf as [|c l Hc Hf IH]; intros st t; [apply reads_ret|].
  destruct c as [a b c d e]. destruct Hc as (H1 & H2 & H3 & H4 & H5). simpl in *.
  assert (He : i32_ok e) by (unfold i32_ok, byte_ok in *; lia).
  cbn [readGsmBci length fmap list_fmap concat gsmBci_items app].
  do 5 (eapply reads_cons; [apply reads_rdI32; done|]; cbn beta iota zeta).
  eapply reads_last; [apply IH|].
  replace (u8 e) with e by (symmetry; by apply Z.mod_small). destruct l; apply reads_ret.
Qed.

Lemma dispatchGsmBrSmsCnf_reads l :
  Forall gsmBci_ok l -> Z.of_nat (length l) < 2 ^ 30 ->
  Z.of_nat (length l) * (sizeof S_RIL_GSM_BroadcastSmsConfigInfo + sizeof_ptr) <= stack_avail ->
  reads (dispatchGsmBrSmsCnf stack_avail junk) (DRequest (VGsmBci (Some <$> l)) (4 * Z.of_nat (length l)))
    (enc_all (list_items gsmBci_items l)).
Proof.
  intros Hf Hl Hs. unfold dispatchGsmBrSmsCnf, list_items.
  eapply reads_cons; [apply reads_rdI32; unfold i32_ok; lia|]. cbn [negb]. unfold vla.
  replace (Z.of_nat (length l) <? 0) with false by lia. eapply reads_pre; [by apply reads_alloca|]. rewrite Nat2Z.id.
  eapply reads_last; [by apply readGsmBci_reads|]. cbn beta iota.
  replace (match l with [] => true | _ => true end) with true by (by destruct l). cbn [negb].
  unfold sizeof_ptr. rewrite u32_id by lia. rewrite (Z.mul_comm _ 4). apply reads_ret.
Qed.

Definition cdmaBci_items (c : RIL_CDMA_BroadcastSmsConfigInfo) : list witem :=
  [WI32 (service_category c); WI32 (language c); WI32 (cdma_selected c)].

Definition cdmaBci_ok (c : RIL_CDMA_BroadcastSmsConfigInfo) : Prop :=
  i32_ok (service_category c) /\ i32_ok (language c) /\ byte_ok (cdma_selected c).

Lemma responseCdmaBrSmsCnf_appends l :
  appends (responseCdmaBrSmsCnf (VCdmaBci (Some <$> l)) (4 * Z.of_nat (length l))) 0
    (enc_all (list_items cdmaBci_items l)).
Proof.
  unfold responseCdmaBrSmsCnf, sizeof_ptr. rewrite len_div4, Nat2Z.id. cbn [cdmaBci_of].
  apply for_each_ptr_appends. intros c. unfold writeCdmaBci, cdmaBci_items.
  repeat (eapply appends_seq; [solve [eauto with parcel]|]). apply appends_one. eauto with parcel.
Qed.

Lemma readCdmaBci_reads l st t :
  Forall cdmaBci_ok l ->
  reads (readCdmaBci (length l) st t) (match l with [] => st | _ => true end, Some <$> l) (enc_all (concat (cdmaBci_items <$> l))).
Proof.
  intros Hf. revert st t. induction Hf as [|c l Hc Hf IH]; intros st t; [apply reads_ret|].
  destruct c as [a b c]. destruct Hc as (H1 & H2 & H3). simpl in *.
  assert (He : i32_ok c) by (unfold i32_ok, byte_ok in *; lia).
  cbn [readCdmaBci length fmap list_fmap concat cdmaBci_items app].
  do 3 (eapply reads_cons; [apply reads_rdI32; done|]; cbn beta iota zeta).
  eapply reads_last; [apply IH|].
  replace (u8 c) with c by (symmetry; by apply Z.mod_small). destruct l; apply reads_ret.
Qed.

Lemma dispatchCdmaBrSmsCnf_reads l :
  Forall cdmaBci_ok l -> Z.of_nat (length l) < 2 ^ 30 ->
  Z.of_nat (length l) * (sizeof S_RIL_CDMA_BroadcastSmsConfigInfo + sizeof_ptr) <= stack_avail ->
  reads (dispatchCdmaBrSmsCnf stack_avail junk) (DRequest (VCdmaBci (Some <$> l)) (4 * Z.of_nat (length l)))
    (enc_all (list_items cdmaBci_items l)).
Proof.
  intros Hf Hl Hs. unfold dispatchCdmaBrSmsCnf, list_items.
  eapply reads_cons; [apply reads_rdI32; unfold i32_ok; lia|]. cbn [negb]. unfold vla.
  replace (Z.of_nat (length l) <? 0) with false by lia. eapply reads_pre; [by apply reads_alloca|]. rewrite Nat2Z.id.
  eapply reads_last; [by apply readCdmaBci_reads|]. cbn beta iota.
  replace (match l with [] => true | _ => true end) with true by (by destruct l). cbn [negb].
  unfold sizeof_ptr. rewrite u32_id by lia. rewrite (Z.mul_comm _ 4). apply reads_ret.
Qed.

(** ** CDMA SMS *)

Definition u8_item (x : Z) : witem := WBytes [x].

(** The digits or bytes in use: the first [Z.min n max]. *)
Definition in_use (n : Z) (max : ril_const) (l : list Z) : list Z := take (Z.to_nat (digitLimit max n)) l.

Definition address_items (a : RIL_CDMA_SMS_Address) : list witem :=
  [WI32 (digit_mode a); WI32 (number_mode a); WI32 (number_type a); WI32 (number_plan a);
   u8_item (number_of_digits a)] ++
  (u8_item <$> in_use (number_of_digits a) RIL_CDMA_SMS_ADDRESS_MAX (digits a)).

Definition subaddress_items (s : RIL_CDMA_SMS_Subaddress) : list witem :=
  [WI32 (subaddressType s); u8_item (odd s); u8_item (sub_number_of_digits s)] ++
  (u8_item <$> in_use (sub_number_of_digits s) RIL_CDMA_SMS_SUBADDRESS_MAX (sub_digits s)).

Definition cdmaSms_items (m : RIL_CDMA_SMS_Message) : list witem :=
  [WI32 (uTeleserviceID m); u8_item (bIsServicePresent m); WI32 (uServicecategory m)] ++
  (address_items (sAddress m) ++ subaddress_items (sSubAddress m) ++
   WI32 (uBearerDataLen m) :: (u8_item <$> in_use (uBearerDataLen m) RIL_CDMA_SMS_BEARER_DATA_MAX (aBearerData m))).

(** An array of [max] elements, zero after those in use. *)
Definition array_ok (n : Z) (max : ril_const) (l : list Z) : Prop :=
  length l = Z.to_nat (rilh max) /\ l = zero_fill (rilh max) (in_use n max l).

Definition cdmaSms_ok (m : RIL_CDMA_SMS_Message) : Prop :=
  Forall i32_ok [uTeleserviceID m; uServicecategory m; digit_mode (sAddress m); number_mode (sAddress m);
    number_type (sAddress m); number_plan (sAddress m); subaddressType (sSubAddress m); uBearerDataLen m] /\
  array_ok (number_of_digits (sAddress m)) RIL_CDMA_SMS_ADDRESS_MAX (digits (sAddress m)) /\
  array_ok (sub_number_of_digits (sSubAddress m)) RIL_CDMA_SMS_SUBADDRESS_MAX (sub_digits (sSubAddress m)) /\
  array_ok (uBearerDataLen m) RIL_CDMA_SMS_BEARER_DATA_MAX (aBearerData m).

Lemma for_each_take {A} k (l : list A) (body : A -> cmd P unit) p :
  (k <= length l)%nat -> for_each k l body p = for_each (length (take k l)) (take k l) body p.
Proof.
  revert k p; induction l as [|x l IH]; intros k p Hk; destruct k as [|k]; [done|simpl in Hk; lia|done|].
  cbn. unfold mbind, cmd_bind. destruct (body x p) as [[? p']| |]; [|done|done]. apply IH. simpl in Hk. lia.
Qed.

Lemma wrU8_appends x : appends (wrU8 x) tt (enc (u8_item x)).
Proof. apply appends_wrBytes. Qed.

Lemma digits_appends n max l :
  length l = Z.to_nat (rilh max) ->
  appends (for_each (Z.to_nat (Z.min n (rilh max))) l wrU8) tt (enc_all (u8_item <$> in_use n max l)).
Proof.
  intros Hl p Hp. rewrite for_each_take by lia. rewrite <- (fmap_concat u8_item).
  apply for_each_all; [|done]. intros x _. apply appends_one, wrU8_appends.
Qed.

Lemma appends_seq_app {B} (m : cmd P unit) (k : cmd P B) b ws1 ws2 :
  appends m tt (enc_all ws1) -> appends k b (enc_all ws2) -> appends (m;; k) b (enc_all (ws1 ++ ws2)).
Proof. intros Hm Hk. unfold enc_all. rewrite fmap_app, concat_app. by eapply (appends_bind _ (fun _ => _) tt). Qed.

Lemma writeCdmaSms_appends m : cdmaSms_ok m -> appends (writeCdmaSms m) tt (enc_all (cdmaSms_items m)).
Proof.
  intros (_ & [H1 _] & [H2 _] & [H3 _]). unfold writeCdmaSms, cdmaSms_items, address_items, subaddress_items.
  rewrite <- !app_assoc. cbn [app].
  do 8 (eapply appends_seq; [first [apply appends_wrI32|apply wrU8_appends]|]).
  eapply appends_seq_app; [by apply digits_appends|].
  do 3 (eapply appends_seq; [first [apply appends_wrI32|apply wrU8_appends]|]).
  eapply appends_seq_app; [by apply digits_appends|].
  eapply appends_seq; [apply appends_wrI32|]. by apply digits_appends.
Qed.

Lemma responseCdmaSms_appends m :
  cdmaSms_ok m ->
  appends (responseCdmaSms (VCdmaSms m) (sizeof S_RIL_CDMA_SMS_Message)) 0 (enc_all (cdmaSms_items m)).
Proof.
  intros Hm. unfold responseCdmaSms. cbn [null_with_len is_null andb]. rewrite Z.eqb_refl. cbn [negb].
  rewrite <- (app_nil_r (cdmaSms_items m)). eapply appends_seq_app; [by apply writeCdmaSms_appends|]. apply appends_done.
Qed.

Lemma readDigits_reads l i max ut :
  l = [] \/ i + Z.of_nat (length l) <= max ->
  exists ut', reads (readDigits (length l) i max true ut) (true, ut', l) (enc_all (u8_item <$> l)).
Proof.
  revert i ut; induction l as [|x l IH]; intros i ut Hm; [exists ut; apply reads_ret|].
  destruct Hm as [|Hm]; [done|]. cbn [length] in Hm.
  destruct (IH (i + 1) x) as [ut' H]; [right; lia|]. exists ut'. cbn [readDigits length]. replace (i <? max) with true by lia.
  eapply reads_cons; [apply reads_rdU8|]. cbn beta iota. eapply reads_last; [exact H|]. apply reads_ret.
Qed.

Lemma array_digits_reads n max l ut :
  array_ok n max l ->
  exists ut', reads (readDigits (Z.to_nat (digitLimit max n)) 0 (rilh max) true ut) (true, ut', in_use n max l)
                (enc_all (u8_item <$> in_use n max l)).
Proof.
  intros [Hl _]. destruct (readDigits_reads (in_use n max l) 0 (rilh max) ut) as [ut' H].
  { unfold in_use. destruct (decide (digitLimit max n <= 0)) as [Hz|Hz];
      [left; by replace (Z.to_nat _) with 0%nat by lia|right]. rewrite length_take. unfold digitLimit in *. lia. }
  exists ut'.
  replace (Z.to_nat (digitLimit max n)) with (length (in_use n max l)); [done|].
  unfold in_use. rewrite length_take. unfold digitLimit in *. lia.
Qed.

Lemma readSmsAddress_reads (m : RIL_CDMA_SMS_Message) t ut :
  cdmaSms_ok m -> exists t' ut',
  reads (readSmsAddress (digitLimit RIL_CDMA_SMS_ADDRESS_MAX) t ut)
    (uTeleserviceID m, bIsServicePresent m, uServicecategory m, sAddress m, t', ut')
    (enc_all ([WI32 (uTeleserviceID m); u8_item (bIsServicePresent m); WI32 (uServicecategory m)] ++
              address_items (sAddress m))).
Proof.
  intros (Hi & Ha & _). destruct m as [tid pres cat [a b c d n l] sub len data]. simpl in *.
  repeat (apply Forall_cons in Hi as [? Hi]).
  destruct (array_digits_reads n _ l n Ha) as [ut' HR]. exists d, ut'. unfold readSmsAddress, address_items. cbn [app digit_mode number_mode number_type number_plan number_of_digits digits].
  do 8 (eapply reads_cons; [first [apply reads_rdU8|by apply reads_rdI32]|]; cbn beta iota zeta).
  eapply reads_last; [exact HR|]. destruct Ha as [_ Ha]. rewrite <- Ha. apply reads_ret.
Qed.

Lemma readSmsSubAddress_reads (m : RIL_CDMA_SMS_Message) t ut :
  cdmaSms_ok m -> exists t' ut',
  reads (readSmsSubAddress (digitLimit RIL_CDMA_SMS_SUBADDRESS_MAX) t ut) (sSubAddress m, t', ut')
    (enc_all (subaddress_items (sSubAddress m))).
Proof.
  intros (Hi & _ & Ha & _). destruct m as [tid pres cat ad [a b n l] len data]. simpl in *.
  repeat (apply Forall_cons in Hi as [? Hi]).
  destruct (array_digits_reads n _ l n Ha) as [ut' HR]. exists a, ut'. unfold readSmsSubAddress, subaddress_items. cbn [app subaddressType odd sub_number_of_digits sub_digits].
  do 3 (eapply reads_cons; [first [apply reads_rdU8|by apply reads_rdI32]|]; cbn beta iota zeta).
  eapply reads_last; [exact HR|]. destruct Ha as [_ Ha]. rewrite <- Ha. apply reads_ret.
Qed.

Lemma readSmsBearer_reads (m : RIL_CDMA_SMS_Message) t ut :
  cdmaSms_ok m ->
  reads (readSmsBearer (digitLimit RIL_CDMA_SMS_BEARER_DATA_MAX) t ut) (true, uBearerDataLen m, aBearerData m)
    (enc_all (WI32 (uBearerDataLen m) :: (u8_item <$> in_use (uBearerDataLen m) RIL_CDMA_SMS_BEARER_DATA_MAX (aBearerData m)))).
Proof.
  intros (Hi & _ & _ & Ha). destruct m as [tid pres cat ad sub len data]. simpl in *.
  repeat (apply Forall_cons in Hi as [? Hi]).
  destruct (array_digits_reads len _ data ut Ha) as [ut' HR]. unfold readSmsBearer.
  eapply reads_cons; [by apply reads_rdI32|]. cbn beta iota zeta.
  eapply reads_last; [exact HR|]. destruct Ha as [_ Ha]. rewrite <- Ha. apply reads_ret.
Qed.

Lemma dispatchCdmaSms_reads m :
  cdmaSms_ok m ->
  reads (dispatchCdmaSms junk) (DRequest (VCdmaSms m) (sizeof S_RIL_CDMA_SMS_Message)) (enc_all (cdmaSms_items m)).
Proof.
  intros Hm. unfold dispatchCdmaSms, constructCdmaSms, readCdmaSms, cdmaSms_items.
  destruct (readSmsAddress_reads m junk (u8 junk) Hm) as (t1 & ut1 & R1).
  destruct (readSmsSubAddress_reads m t1 ut1 Hm) as (t2 & ut2 & R2).
  pose proof (readSmsBearer_reads m t2 ut2 Hm) as R3.
  eapply (reads_last _ _ (true, m)); [|apply reads_ret].
  rewrite app_assoc. eapply reads_app; [exact R1|]. cbn beta iota.
  eapply reads_app; [exact R2|]. cbn beta iota. eapply reads_last; [exact R3|]. cbn beta iota. destruct m. apply reads_ret.
Qed.

(** ** SETUP_DATA_CALL for old vendor RILs *)

Lemma readStrings_units k i datalen us :
  length us = k -> (i + Z.of_nat k) * 4 <= datalen -> Forall units_ok us -> 0 <= i ->
  reads (readStrings k i datalen) (strndup16to8 <$> us) (enc_all (WStr16 <$> us)).
Proof.
  revert i us; induction k as [|k IH]; intros i us Hl Hd Hf Hi; destruct us as [|u us]; simplify_eq/=.
  { apply reads_ret. }
  apply Forall_cons in Hf as [Hu Hf]. eapply reads_cons.
  - intros p data rest Hh. destruct (readString16_ok p data u rest Hu Hh) as (p' & E & H').
    exists p'. split; [|exact H']. unfold strdupReadString. by rewrite E.
  - unfold sizeof_ptr. replace ((i + 1) * 4 <=? datalen) with true by lia.
    eapply reads_last; [apply IH; try done; lia|]. apply reads_ret.
Qed.

(** What copying through [String16] objects does to a null string. *)
Definition copied (s : cstr) : list Z := default [] (strdup8to16 s).

Lemma copyStrings_ok l p data rest p2 :
  Forall (str_ok wf) l -> holds p data (enc_all (str_item <$> l) ++ rest) -> at_end p2 ->
  exists p' p2', copyStrings (length l) p2 p = Ok (p2', p') /\ holds p' data rest /\ at_end p2' /\
    parcel_data p2' = parcel_data p2 ++ enc_all ((fun s => WStr16 (Some (copied s))) <$> l).
Proof.
  revert p p2; induction l as [|s l IH]; intros p p2 Hf Hh He.
  { exists p, p2. rewrite app_nil_r. done. }
  apply Forall_cons in Hf as [Hs Hf]. unfold enc_all in Hh. cbn [fmap list_fmap concat] in Hh. rewrite <- app_assoc in Hh.
  destruct (readString16_ok p data _ _ (str_units_ok s Hs) Hh) as (p1 & E1 & H1).
  destruct (wrote_end _ _ _ (pl_writeString16 (Some (copied s)) p2) He) as [He2 Hd2].
  destruct (IH p1 _ Hf H1 He2) as (p' & p2' & E & H' & He' & Hd').
  exists p', p2'. split_and!; [|done|done|].
  - cbn [length copyStrings]. unfold mbind, cmd_bind, rdString16. rewrite E1. exact E.
  - rewrite Hd', Hd2, <- app_assoc. done.
Qed.

Lemma units_copied s : str_ok wf s -> units_ok (Some (copied s)) /\ strndup16to8 (Some (copied s)) = Some (default [] s).
Proof.
  intros Hs. unfold copied. destruct s as [x|]; simpl.
  - split; [by apply (str_units_ok (Some x))|]. exact (strdup_roundtrip (Some x) Hs).
  - split; [|unfold strndup16to8; simpl; by rewrite js_empty]. intros u [= <-]. simpl. split; [constructor|lia].
Qed.

(** More than six parameters and a vendor RIL before version 4: the vendor
    sees the first six, null strings as empty ones. *)
Lemma dispatchDataCall_old l p data rest :
  version < 4 -> (6 < length l)%nat -> Z.of_nat (length l) < 2 ^ 30 -> Forall (str_ok wf) l -> 24 <= stack_avail ->
  holds p data (enc_all (strings_items l) ++ rest) ->
  exists p', dispatchDataCall version stack_avail junk p =
    Ok (DRequest (VStrings ((fun s => Some (default [] s)) <$> take 6 l)) 24, p').
Proof.
  intros Hv Hl Hl2 Hf Hs Hh. pose proof Hh as [Hd Hrem].
  assert (Hpos : (dataPosition p <= length data)%nat).
  { destruct (Nat.le_gt_cases (dataPosition p) (length data)); [done|]. unfold remaining in Hrem.
    rewrite Hd, drop_ge in Hrem by lia. apply (f_equal length) in Hrem. rewrite length_app in Hrem.
    unfold strings_items, enc_all in Hrem. cbn [fmap list_fmap concat enc] in Hrem. rewrite length_app, length_le32 in Hrem. simpl in Hrem. lia. }
  unfold strings_items in Hh. rewrite <- (take_drop 6 l) in Hh at 2. rewrite fmap_app in Hh.
  unfold enc_all in Hh. cbn [fmap list_fmap concat enc] in Hh. rewrite fmap_app, concat_app, <- !app_assoc in Hh.
  destruct (readInt32_ok p data _ _ Hh) as (p1 & E1 & H1). rewrite i32_id in E1 by (unfold i32_ok; lia).
  unfold dispatchDataCall. rewrite bind_get. unfold mbind at 1, cmd_bind at 1, rdI32v. rewrite E1. change (default 0 (Some (Z.of_nat (length l)))) with (Z.of_nat (length l)).
  replace ((version <? 4) && (Z.of_nat (length l) >? numParamsRilV3)) with true by (unfold numParamsRilV3; lia).
  cbn beta iota. rewrite bind_get. set (pos := dataPosition p).
  destruct pl_new as [D0 P0]. destruct H1 as [Hd1 Hr1].
  assert (He0 : at_end (parcel_new : P)) by (unfold at_end; by rewrite D0, P0).
  destruct (wrote_end _ _ _ (pl_appendFrom p1 0 pos parcel_new ltac:(rewrite Hd1; unfold pos; lia)) He0) as [He1 Hda].
  rewrite D0, drop_0, Hd1 in Hda. cbn [app] in Hda.
  destruct (wrote_end _ _ _ (pl_writeInt32 numParamsRilV3 (appendFrom p1 0 pos parcel_new)) He1) as [He2 Hdb].
  destruct (copyStrings_ok (take 6 l) p1 data (concat (enc <$> (str_item <$> drop 6 l)) ++ rest) _ (Forall_take _ _ _ Hf) (conj Hd1 Hr1) He2)
    as (p' & p2' & Ec & _ & He3 & Hdc).
  rewrite length_take, (Nat.min_l 6 (length l)) in Ec by lia. change (Z.to_nat numParamsRilV3) with 6%nat.
  unfold mbind at 1, cmd_bind at 1. rewrite Ec. exists p'. unfold on_parcel.
  assert (Hlen : length (take pos data) = pos) by (rewrite length_take; unfold pos; lia).
  destruct (pl_setPos pos p2') as [Ds Ps]; [rewrite Hdc, Hdb, Hda, !length_app, Hlen; lia|].
  assert (Hstr : reads (dispatchStrings stack_avail junk) (DRequest (VStrings (strndup16to8 <$> ((fun s => Some (copied s)) <$> take 6 l))) 24)
    (enc_all (WI32 6 :: (WStr16 <$> ((fun s => Some (copied s)) <$> take 6 l))))).
  { unfold dispatchStrings. eapply reads_cons; [apply reads_rdI32; unfold i32_ok; lia|]. cbn [negb].
    eapply (reads_last _ _ (Some _, 24)); [|apply reads_ret].
    unfold read_pStrings, sizeof_ptr. cbn [Z.eqb]. eapply reads_pre; [by apply reads_alloca|].
    eapply reads_last; [|apply reads_ret]. apply readStrings_units; [rewrite !length_fmap, length_take, Nat.min_l by lia; done|vm_compute; done| |lia].
    apply Forall_fmap, Forall_take. eapply Forall_impl; [exact Hf|]. intros s Hs'. by apply units_copied. }
  destruct (Hstr (setDataPosition pos p2') (parcel_data p2') []) as (p3 & E3 & _).
  { split; [done|]. unfold remaining. rewrite Ds, Ps, Hdc, Hdb, Hda, <- app_assoc, app_nil_r.
    rewrite drop_app_length' by done. unfold enc_all. rewrite fmap_cons. cbn [concat]. rewrite <- !list_fmap_compose. reflexivity. }
  rewrite E3. do 4 f_equal. rewrite <- list_fmap_compose. apply list_fmap_ext. intros i s Hi.
  apply (units_copied s). rewrite Forall_lookup in Hf. eapply Hf. eapply lookup_take_Some. exact Hi.
Qed.

(** ** Signal strength *)

(** What the framework is told about LTE: a RIL of version 6 or less marks
    unknown values with -1 and reports RSRP as a negative number. *)
Definition lte_values (l : RIL_LTE_SignalStrength) : list Z :=
  let unknown (dflt x : Z) := if x =? -1 then dflt else x in
  if version <=? 6 then
    [unknown 99 (lte_signalStrength l);
     if lte_rsrp l =? -1 then INT_MAX else Z.abs (lte_rsrp l);
     unknown INT_MAX (lte_rsrq l); lte_rssnr l; unknown INT_MAX (lte_cqi l)]
  else [lte_signalStrength l; lte_rsrp l; lte_rsrq l; lte_rssnr l; lte_cqi l].

Definition lte_unknown : list Z := [99; INT_MAX; INT_MAX; INT_MAX; INT_MAX].

(** The fourteen integers of a signal strength report, for an object of
    [len] bytes: what the older structures lack is reported as unknown. *)
Definition signal_values (s : RIL_SignalStrength) (len : Z) : list Z :=
  let v6 := sizeof S_RIL_SignalStrength_v6 <=? len in
  let v8 := v6 && (sizeof S_RIL_SignalStrength_v8 <=? len) in
  let v9 := v8 && (sizeof S_RIL_SignalStrength_v9_CAF <=? len) in
  [gw_signalStrength s; gw_bitErrorRate s; cdma_dbm s; cdma_ecio s; evdo_dbm s; evdo_ecio s; evdo_snr s] ++
  (if v6 then default [] (lte_values <$> ss_lte s) else lte_unknown) ++
  [if v8 then default 0 (ss_timingAdvance s) else INT_MAX; if v9 then default 0 (ss_rscp s) else INT_MAX].

Lemma fixup_values l :
  version <= 6 -> lte_rsrp l <> - 2 ^ 31 ->
  exists l', fixup_lte l = Ok l' /\
    lte_values l = [lte_signalStrength l'; lte_rsrp l'; lte_rsrq l'; lte_rssnr l'; lte_cqi l'].
Proof.
  intros Hv Hl. unfold fixup_lte, lte_values. replace (version <=? 6) with true by lia.
  destruct (Z.eqb_spec (lte_rsrp l) (-1)); [by eexists|].
  destruct (Z.ltb_spec (lte_rsrp l) (-1)).
  - rewrite (proj2 (Z.eqb_neq _ _) Hl). eexists. split; [done|]. cbn. by rewrite Z.abs_neq by lia.
  - eexists. split; [done|]. cbn. by rewrite Z.abs_eq by lia.
Qed.

(** The effect of a command that writes nothing. *)
Lemma appends_pre {A B} (m : cmd P A) (f : A -> cmd P B) a b bs :
  appends m a [] -> appends (f a) b bs -> appends (m ≫= f) b bs.
Proof. apply (appends_bind m f a b [] bs). Qed.

Lemma lte_fixed l :
  (version <= 6 -> lte_rsrp l <> - 2 ^ 31) ->
  exists l', appends (if version <=? 6 then lift (fixup_lte l) else mret l : cmd P _) l' [] /\
    lte_values l = [lte_signalStrength l'; lte_rsrp l'; lte_rsrq l'; lte_rssnr l'; lte_cqi l'].
Proof.
  intros Hl. destruct (Z.leb_spec version 6) as [Hv|Hv].
  - destruct (fixup_values l Hv (Hl Hv)) as (l' & E & Hl'). exists l'. split; [|done]. rewrite E. apply appends_ret.
  - exists l. split; [apply appends_ret|]. unfold lte_values. by replace (version <=? 6) with false by lia.
Qed.

Lemma responseRilSignalStrength_appends s len :
  sizeof S_RIL_SignalStrength_v5 <= len ->
  (sizeof S_RIL_SignalStrength_v6 <= len -> exists l, ss_lte s = Some l /\ (version <= 6 -> lte_rsrp l <> - 2 ^ 31)) ->
  (sizeof S_RIL_SignalStrength_v8 <= len -> is_Some (ss_timingAdvance s)) ->
  (sizeof S_RIL_SignalStrength_v9_CAF <= len -> is_Some (ss_rscp s)) ->
  appends (responseRilSignalStrength version (VSignalStrength s) len) 0 (enc_all (WI32 <$> signal_values s len)) /\
  length (signal_values s len) = 14%nat.
Proof.
  intros H5 H6 H8 H9. unfold responseRilSignalStrength, signal_values. cbn [null_with_len is_null andb].
  rewrite !Z.geb_leb. replace (sizeof S_RIL_SignalStrength_v5 <=? len) with true by lia. cbn [negb].
  destruct (Z.leb_spec (sizeof S_RIL_SignalStrength_v6) len); cbn [andb];
    [|split; [unfold lte_unknown; cbn [fmap list_fmap app]; write_items|done]].
  destruct H6 as (l & El & Hr); [done|]. destruct (lte_fixed l Hr) as (l' & Hfix & Hv).
  rewrite El. cbn [member fmap option_fmap option_map default]. change (from_option id [] (Some (lte_values l))) with (lte_values l).
  rewrite Hv. split; [|done]. cbn [fmap list_fmap app]. do 7 (eapply appends_seq; [apply appends_wrI32|]).
  eapply appends_pre; [apply appends_ret|]. eapply appends_pre; [exact Hfix|].
  do 5 (eapply appends_seq; [apply appends_wrI32|]).
  destruct (Z.leb_spec (sizeof S_RIL_SignalStrength_v8) len); cbn [andb]; [|write_items].
  destruct H8 as [ta Ha]; [done|]. rewrite Ha. eapply appends_pre; [apply appends_ret|].
  destruct (Z.leb_spec (sizeof S_RIL_SignalStrength_v9_CAF) len); cbn [andb]; [|write_items].
  destruct H9 as [rscp Hs]; [done|]. rewrite Hs. eapply appends_seq; [apply appends_wrI32|].
  eapply appends_pre; [apply appends_ret|]. write_items.
Qed.

End Wire.
