(* ===== verification/RilDispatchSpec.v ===== *)
(** * The dispatch functions never pass on uninitialised data

    A read of the Parcel that fails leaves its output variable as it was,
    so the dispatch functions work with the content of uninitialised
    locals until they look at a status.  They often look only at the last
    one.  What makes this sound: once an integer cannot be read, fewer than
    four bytes are left, and every later read fails too ([starved]).

    [rel Q m1 m2]: two runs behave the same, or both have starved and
    returned values in [Q].  [doom m Q]: from a starved parcel, [m] returns
    a value in [Q]. *)

From S2P Require Import Prelude Bytes Parcel RilConst RilTypes RilDispatch.

Section DispatchSpec.
Context {P : Type} {HPar : Parcel P} {HLaws : ParcelLaws P} {HJS : JString} {HH : RilH}.

Definition doom {A} (m : cmd P A) (Q : A -> Prop) : Prop :=
  forall p, starved p -> exists a p', m p = Ok (a, p') /\ starved p' /\ Q a.

Definition rel {A} (Q : A -> Prop) (m1 m2 : cmd P A) : Prop := forall p,
  m1 p = m2 p \/
  exists a1 p1 a2 p2, m1 p = Ok (a1, p1) /\ m2 p = Ok (a2, p2) /\
    starved p1 /\ starved p2 /\ Q a1 /\ Q a2.

Lemma doom_ret {A} (a : A) (Q : A -> Prop) : Q a -> doom (mret a) Q.
Proof. intros HQ p Hp. exists a, p. done. Qed.

Lemma doom_bind {A B} (m : cmd P A) (f : A -> cmd P B) Q Q' :
  doom m Q -> (forall a, Q a -> doom (f a) Q') -> doom (m ≫= f) Q'.
Proof.
  intros Hm Hf p Hp. destruct (Hm p Hp) as (a & p1 & E1 & S1 & HQ).
  destruct (Hf a HQ p1 S1) as (b & p2 & E2 & H2). exists b, p2. by rewrite (cmd_bind_Ok _ _ _ _ _ E1).
Qed.

Lemma rel_refl {A} Q (m : cmd P A) : rel Q m m.
Proof. intros p. by left. Qed.

Lemma rel_bind {A B} (m1 m2 : cmd P A) (f1 f2 : A -> cmd P B) Q Q' :
  rel Q m1 m2 -> (forall a, rel Q' (f1 a) (f2 a)) ->
  (forall a, Q a -> doom (f1 a) Q' /\ doom (f2 a) Q') -> rel Q' (m1 ≫= f1) (m2 ≫= f2).
Proof.
  intros Hm Hf Hd p. unfold mbind, cmd_bind.
  destruct (Hm p) as [->|(a1 & p1 & a2 & p2 & -> & -> & S1 & S2 & Q1 & Q2)].
  - destruct (m2 p) as [[a p']| |]; [apply Hf|by left|by left].
  - destruct (Hd a1 Q1) as [D1 _]. destruct (Hd a2 Q2) as [_ D2].
    destruct (D1 p1 S1) as (b1 & q1 & E1 & T1 & R1). destruct (D2 p2 S2) as (b2 & q2 & E2 & T2 & R2).
    right. exists b1, q1, b2, q2. done.
Qed.

(** The shape of a read that fails: a false status. *)
Definition failed {A} (r : bool * A) : Prop := fst r = false.

Lemma doom_rdI32 t : doom (rdI32 t) failed.
Proof. intros p Hp. destruct (rdI32_starved t p Hp) as (p' & E & S). eexists _, p'. done. Qed.

Lemma doom_rdU8 t : doom (rdU8 t) failed.
Proof. intros p Hp. destruct (rdU8_starved t p Hp) as (p' & E & S). eexists _, p'. done. Qed.

Lemma doom_string : doom strdupReadString (fun _ => True).
Proof. intros p Hp. destruct (strdupReadString_starved p Hp) as (p' & E & S). eexists _, p'. done. Qed.

Lemma rel_rdI32 t1 t2 : rel failed (rdI32 t1) (rdI32 t2).
Proof.
  intros p. destruct (rdI32_cases p) as [(x & p' & E)|(p' & E & S)]; [left; by rewrite !E|right].
  rewrite !E. by eexists _, _, _, _.
Qed.

Lemma rel_rdU8 t1 t2 : rel failed (rdU8 t1) (rdU8 t2).
Proof.
  intros p. destruct (rdU8_cases p) as [(x & p' & E)|(p' & E & S)]; [left; by rewrite !E|right].
  rewrite !E. by eexists _, _, _, _.
Qed.

Lemma rel_rdRaw32 t1 t2 : rel failed (rdRaw32 t1) (rdRaw32 t2).
Proof.
  intros p. pose proof (pl_read 4 p ltac:(unfold len_ok; lia)) as Hl. unfold rdRaw32.
  destruct (parcel_read 4 p) as [r p']. change (pad4 (Z.to_nat 4)) with 4%nat in Hl. simpl in Hl.
  case_decide; destruct Hl as [-> Hc]; [by left|right].
  assert (starved p') by (eapply consumed_starved; [done|]; unfold starved; lia).
  by eexists _, _, _, _.
Qed.

(** [k] elements from index [i] on fit in an array of [max]; a limit on the
    number of digits that keeps them in the array. *)
Definition digits_fit (k : nat) (i max : Z) : Prop := k = 0%nat \/ i + Z.of_nat k <= max.
Definition limit_ok (limit : Z -> Z) (max : ril_const) : Prop := forall n, limit n <= rilh max.

Lemma digits_fit_S k i max : digits_fit (S k) i max -> i < max /\ digits_fit k (i + 1) max.
Proof. unfold digits_fit. lia. Qed.

Lemma limit_fit limit max n : limit_ok limit max -> digits_fit (Z.to_nat (limit n)) 0 (rilh max).
Proof. intros Hl. specialize (Hl n). unfold digits_fit. lia. Qed.

Lemma limit_MIN max : limit_ok (digitLimit max) max.
Proof. intros n. apply Z.le_min_r. Qed.

Lemma limit_MAX max : limit_ok (fun _ => rilh max) max.
Proof. intros n. reflexivity. Qed.

Lemma doom_readDigits k i max ut : digits_fit k i max -> doom (readDigits k i max false ut) (fun r => fst (fst r) = false).
Proof.
  revert i ut; induction k as [|k IH]; intros i ut Hk; [by apply doom_ret|]. cbn [readDigits].
  apply digits_fit_S in Hk as [Hi Hk]. apply Z.ltb_lt in Hi as ->.
  eapply doom_bind; [apply doom_rdU8|]. intros [st x] Hs. unfold failed in Hs; cbn in Hs; subst st.
  eapply doom_bind; [by apply IH|]. intros [[st y] l] Hs. cbn in Hs. subst st. by apply doom_ret.
Qed.

Lemma rel_readDigits k i max st t1 t2 : digits_fit k i max ->
  rel (fun r => fst (fst r) = false) (readDigits k i max st t1) (readDigits k i max st t2) \/ k = 0%nat.
Proof.
  destruct k as [|k]; [by right|]. intros Hk. left. cbn [readDigits].
  apply digits_fit_S in Hk as [Hi Hk]. apply Z.ltb_lt in Hi as ->. eapply rel_bind; [apply rel_rdU8|intros; apply rel_refl|].
  intros [s x] Hs. unfold failed in Hs; cbn in Hs; subst s.
  split; (eapply doom_bind; [by apply doom_readDigits|]); intros [[st' y] l] Hs; cbn in Hs; subst st'; by apply doom_ret.
Qed.

End DispatchSpec.

#[export] Hint Resolve doom_rdI32 doom_rdU8 doom_string doom_readDigits rel_rdI32 rel_rdU8 rel_rdRaw32 limit_fit limit_MIN limit_MAX : parcel.

(** Open the pairs a read returns and use its false status. *)
Ltac use_failed :=
  cbv beta in *;
  repeat match goal with
  | H : failed ?r |- _ => destruct r; unfold failed in H; cbn [fst] in H; subst
  | H : fst (fst ?r) = false |- _ => destruct r as [[? ?] ?]; cbn [fst] in H; subst
  | H : True |- _ => clear H
  | |- context [let '(_, _) := ?a in _] => is_var a; destruct a
  end; cbn [negb orb andb].

(** One command of a run that has starved. *)
Ltac doom_step :=
  first [ apply doom_ret; solve [done | cbn; done]
        | eapply doom_bind; [solve [eauto with parcel]|intros ? ?; use_failed] ].

Section JunkFree.
Context {P : Type} {HPar : Parcel P} {HLaws : ParcelLaws P} {HJS : JString} {HH : RilH}.
Variables (version : Z) (use_cla : bool) (stack_avail : Z).

Definition invalid (r : dresult) : Prop := r = DInvalid.

Lemma rel_dispatchStrings j1 j2 : rel invalid (dispatchStrings stack_avail j1) (dispatchStrings stack_avail j2).
Proof.
  unfold dispatchStrings. eapply rel_bind; [apply rel_rdI32|intros; apply rel_refl|].
  intros a Ha. use_failed. split; repeat doom_step.
Qed.

Lemma rel_readInts j1 j2 k i datalen :
  rel (fun r => r = None) (readInts j1 k i datalen) (readInts j2 k i datalen).
Proof.
  revert i; induction k as [|k IH]; intros i; [apply rel_refl|]. cbn [readInts].
  assert (Hcont : forall a : bool * Z, rel (fun r => r = None)
    (let '(status, t) := a in
     if negb ((i + 1) * sizeof_int <=? datalen) then ub
     else if negb status then mret None
     else l ← readInts j1 k (i + 1) datalen; mret (cons t <$> l))
    (let '(status, t) := a in
     if negb ((i + 1) * sizeof_int <=? datalen) then ub
     else if negb status then mret None
     else l ← readInts j2 k (i + 1) datalen; mret (cons t <$> l) : cmd P _)).
  { intros [st t]. destruct (negb _); [apply rel_refl|]. destruct (negb st); [apply rel_refl|].
    eapply rel_bind; [apply IH|intros; apply rel_refl|]. intros a ->. split; by apply doom_ret. }
  destruct (negb ((i + 1) * sizeof_int <=? datalen)) eqn:Hb.
  - intros p. left. unfold mbind, cmd_bind, rdI32. by destruct (readInt32 p) as [[x|] p'].
  - eapply rel_bind; [apply rel_rdI32|exact Hcont|].
    intros a Ha. use_failed. split; repeat doom_step.
Qed.

Lemma rel_dispatchInts j1 j2 : rel invalid (dispatchInts stack_avail j1) (dispatchInts stack_avail j2).
Proof.
  unfold dispatchInts. eapply rel_bind; [apply rel_rdI32| |].
  - intros [st n]. destruct (negb st || (n =? 0)); [apply rel_refl|]. unfold alloca.
    destruct (_ <=? stack_avail); [|apply rel_refl].
    eapply (rel_bind _ _ _ _ (fun _ => False)); [apply rel_refl| |done]. intros _.
    eapply rel_bind; [apply rel_readInts|intros; apply rel_refl|]. intros a ->. split; by apply doom_ret.
  - intros a Ha. use_failed. split; repeat doom_step.
Qed.

Lemma rel_dispatchSmsWrite j1 j2 : rel invalid (dispatchSmsWrite j1) (dispatchSmsWrite j2).
Proof.
  unfold dispatchSmsWrite. eapply rel_bind; [apply rel_rdI32|intros; apply rel_refl|].
  intros a Ha. use_failed. split; repeat doom_step.
Qed.

(** Any read of a status or an integer, with whatever follows: the cases
    are a common value, or both runs starved. *)
Ltac junk_step :=
  eapply rel_bind;
    [ solve [eauto with parcel | apply rel_refl]
    | intros ?; repeat match goal with |- context [let '(_, _) := ?a in _] => destruct a end;
      try solve [apply rel_refl]
    | intros ? ?; use_failed; split; repeat doom_step ].

Lemma rel_read_uus j1 j2 t : rel (fun r => r = None) (read_uus j1 t) (read_uus j2 t).
Proof.
  unfold read_uus. eapply rel_bind; [apply rel_refl| |instantiate (1 := fun _ => False); done]. intros [? t1].
  eapply rel_bind; [apply rel_refl| |instantiate (1 := fun _ => False); done]. intros [? t2].
  eapply rel_bind; [apply rel_rdI32|intros; apply rel_refl|]. intros a Ha. use_failed. split; repeat doom_step.
Qed.

Lemma rel_dispatchDial j1 j2 : rel invalid (dispatchDial version j1) (dispatchDial version j2).
Proof.
  unfold dispatchDial. eapply rel_bind; [apply rel_refl| |instantiate (1 := fun _ => False); done]. intros s.
  eapply rel_bind; [apply rel_rdI32| |]; [|intros a Ha; use_failed; split; repeat doom_step].
  intros [st t]. destruct (negb st || _); [apply rel_refl|]. destruct (version <? 3); [apply rel_refl|].
  eapply rel_bind; [apply rel_rdI32| |]; [|intros a Ha; use_failed; split; repeat doom_step].
  intros [st' u]. destruct (negb st'); [apply rel_refl|]. destruct (u =? 0); [apply rel_refl|].
  eapply rel_bind; [apply rel_read_uus|intros; apply rel_refl|]. intros a ->. split; by apply doom_ret.
Qed.

Lemma rel_dispatchCallForward j1 j2 : rel invalid (dispatchCallForward j1) (dispatchCallForward j2).
Proof. unfold dispatchCallForward. junk_step. Qed.

Lemma rel_dispatchRaw j1 j2 : rel invalid (dispatchRaw j1) (dispatchRaw j2).
Proof. unfold dispatchRaw. junk_step. Qed.

Lemma rel_dispatchCdmaSmsAck j1 j2 : rel invalid (dispatchCdmaSmsAck j1) (dispatchCdmaSmsAck j2).
Proof. unfold dispatchCdmaSmsAck. junk_step. Qed.

Lemma rel_dispatchUicc j1 j2 : rel invalid (dispatchUiccSubscripton j1) (dispatchUiccSubscripton j2).
Proof. unfold dispatchUiccSubscripton. junk_step. Qed.

(** A first command that does not depend on the locals. *)
Lemma rel_same {A B} (m : cmd P A) (f1 f2 : A -> cmd P B) Q :
  (forall a, rel Q (f1 a) (f2 a)) -> rel Q (m ≫= f1) (m ≫= f2).
Proof. intros Hf. eapply (rel_bind _ _ _ _ (fun _ => False)); [apply rel_refl|exact Hf|done]. Qed.

Lemma rel_dispatchApn j1 j2 : rel invalid (dispatchSetInitialAttachApn j1) (dispatchSetInitialAttachApn j2).
Proof. unfold dispatchSetInitialAttachApn. do 2 (apply rel_same; intros ?). junk_step. Qed.

(** The reads after the optional class byte. *)
Lemma doom_ret_any {A} (a : A) : doom (mret a : cmd P A) (fun _ => True).
Proof. by apply doom_ret. Qed.

Lemma rel_dispatchSIM_IO j1 j2 rq : rel invalid (dispatchSIM_IO version use_cla j1 rq) (dispatchSIM_IO version use_cla j2 rq).
Proof.
  unfold dispatchSIM_IO. destruct (use_cla && _).
  - eapply (rel_bind _ _ _ _ (fun _ => True)).
    + eapply rel_bind; [apply rel_rdI32|intros; apply rel_refl|]. intros a Ha. use_failed. split; apply doom_ret_any.
    + intros; apply rel_refl.
    + intros [c t] _. split; repeat doom_step.
  - change (mret ?a ≫= ?f) with (f a). cbn beta iota. junk_step.
Qed.

Lemma doom_readGsmBci k t : doom (readGsmBci k false t) failed.
Proof.
  revert t; induction k as [|k IH]; intros t; [by apply doom_ret|]. cbn [readGsmBci].
  repeat doom_step.
Qed.

Lemma doom_readCdmaBci k t : doom (readCdmaBci k false t) failed.
Proof.
  revert t; induction k as [|k IH]; intros t; [by apply doom_ret|]. cbn [readCdmaBci].
  repeat doom_step.
Qed.

#[local] Hint Resolve doom_readGsmBci doom_readCdmaBci : parcel.

Lemma rel_readGsmBci k st t1 t2 : rel failed (readGsmBci k st t1) (readGsmBci k st t2) \/ k = 0%nat.
Proof. destruct k as [|k]; [by right|left]. cbn [readGsmBci]. junk_step. Qed.

Lemma rel_readCdmaBci k st t1 t2 : rel failed (readCdmaBci k st t1) (readCdmaBci k st t2) \/ k = 0%nat.
Proof. destruct k as [|k]; [by right|left]. cbn [readCdmaBci]. junk_step. Qed.

Lemma rel_dispatchGsmBrSmsCnf j1 j2 : rel invalid (dispatchGsmBrSmsCnf stack_avail j1) (dispatchGsmBrSmsCnf stack_avail j2).
Proof.
  unfold dispatchGsmBrSmsCnf. eapply rel_bind; [apply rel_rdI32| |intros a Ha; use_failed; split; repeat doom_step].
  intros [st n]. destruct (negb st); [apply rel_refl|]. apply rel_same. intros _.
  destruct (rel_readGsmBci (Z.to_nat n) st j1 j2) as [H| ->]; [|apply rel_refl].
  eapply rel_bind; [exact H|intros; apply rel_refl|]. intros a Ha. use_failed. split; repeat doom_step.
Qed.

Lemma rel_dispatchCdmaBrSmsCnf j1 j2 : rel invalid (dispatchCdmaBrSmsCnf stack_avail j1) (dispatchCdmaBrSmsCnf stack_avail j2).
Proof.
  unfold dispatchCdmaBrSmsCnf. eapply rel_bind; [apply rel_rdI32| |intros a Ha; use_failed; split; repeat doom_step].
  intros [st n]. destruct (negb st); [apply rel_refl|]. apply rel_same. intros _.
  destruct (rel_readCdmaBci (Z.to_nat n) st j1 j2) as [H| ->]; [|apply rel_refl].
  eapply rel_bind; [exact H|intros; apply rel_refl|]. intros a Ha. use_failed. split; repeat doom_step.
Qed.

(** ** CDMA SMS *)

Lemma doom_readSmsAddress lim t u : limit_ok lim RIL_CDMA_SMS_ADDRESS_MAX -> doom (readSmsAddress lim t u) (fun _ => True).
Proof. intros Hl. unfold readSmsAddress. repeat doom_step. Qed.

Lemma doom_readSmsSubAddress lim t u : limit_ok lim RIL_CDMA_SMS_SUBADDRESS_MAX -> doom (readSmsSubAddress lim t u) (fun _ => True).
Proof. intros Hl. unfold readSmsSubAddress. repeat doom_step. Qed.

Lemma doom_readSmsBearer lim t u : limit_ok lim RIL_CDMA_SMS_BEARER_DATA_MAX -> doom (readSmsBearer lim t u) (fun r => fst (fst r) = false).
Proof. intros Hl. unfold readSmsBearer. repeat doom_step. Qed.

#[local] Hint Resolve doom_readSmsAddress doom_readSmsSubAddress doom_readSmsBearer : parcel.

Lemma doom_readCdmaSms l1 l2 l3 t u :
  limit_ok l1 RIL_CDMA_SMS_ADDRESS_MAX -> limit_ok l2 RIL_CDMA_SMS_SUBADDRESS_MAX -> limit_ok l3 RIL_CDMA_SMS_BEARER_DATA_MAX ->
  doom (readCdmaSms l1 l2 l3 t u) failed.
Proof.
  intros H1 H2 H3. unfold readCdmaSms. eapply doom_bind; [eauto with parcel|]. intros [[[[[? ?] ?] ?] ?] ?] _.
  eapply doom_bind; [eauto with parcel|]. intros [[? ?] ?] _. repeat doom_step.
Qed.

#[local] Hint Resolve doom_readCdmaSms : parcel.

Lemma rel_readSmsAddress lim t1 t2 u1 u2 : limit_ok lim RIL_CDMA_SMS_ADDRESS_MAX -> rel (fun _ => True) (readSmsAddress lim t1 u1) (readSmsAddress lim t2 u2).
Proof.
  intros Hl. unfold readSmsAddress. eapply rel_bind; [apply rel_rdI32| |intros a Ha; use_failed; split; repeat doom_step].
  intros [? t]. junk_step.
Qed.

Lemma rel_readCdmaSms l1 l2 l3 t1 t2 u1 u2 :
  limit_ok l1 RIL_CDMA_SMS_ADDRESS_MAX -> limit_ok l2 RIL_CDMA_SMS_SUBADDRESS_MAX -> limit_ok l3 RIL_CDMA_SMS_BEARER_DATA_MAX ->
  rel failed (readCdmaSms l1 l2 l3 t1 u1) (readCdmaSms l1 l2 l3 t2 u2).
Proof.
  intros H1 H2 H3. unfold readCdmaSms. eapply rel_bind; [by apply rel_readSmsAddress|intros; apply rel_refl|].
  intros [[[[[? ?] ?] ?] ?] ?] _.
  split; (eapply doom_bind; [eauto with parcel|]; intros [[? ?] ?] _; repeat doom_step).
Qed.

#[local] Hint Resolve rel_readCdmaSms : parcel.

Lemma rel_dispatchCdmaSms j1 j2 : rel invalid (dispatchCdmaSms j1) (dispatchCdmaSms j2).
Proof. unfold dispatchCdmaSms, constructCdmaSms. junk_step. Qed.

Lemma rel_dispatchImsCdmaSms j1 j2 a b : rel invalid (dispatchImsCdmaSms j1 a b) (dispatchImsCdmaSms j2 a b).
Proof. unfold dispatchImsCdmaSms, constructCdmaSms. junk_step. Qed.

Lemma rel_dispatchImsGsmSms j1 j2 a b : rel invalid (dispatchImsGsmSms stack_avail j1 a b) (dispatchImsGsmSms stack_avail j2 a b).
Proof. unfold dispatchImsGsmSms. junk_step. Qed.

Lemma rel_dispatchRilCdmaSmsWriteArgs j1 j2 : rel invalid (dispatchRilCdmaSmsWriteArgs j1) (dispatchRilCdmaSmsWriteArgs j2).
Proof.
  unfold dispatchRilCdmaSmsWriteArgs. eapply rel_bind; [apply rel_rdI32| |intros a Ha; use_failed; split; repeat doom_step].
  intros [? t]. junk_step.
Qed.

Lemma rel_dispatchImsSms j1 j2 : rel invalid (dispatchImsSms stack_avail j1) (dispatchImsSms stack_avail j2).
Proof.
  unfold dispatchImsSms. eapply rel_bind; [apply rel_rdI32| |intros a Ha; use_failed; split; repeat doom_step].
  intros [st f]. destruct (negb st); [apply rel_refl|].
  eapply rel_bind; [apply rel_rdU8| |intros a Ha; use_failed; split; repeat doom_step].
  intros [st' r]. destruct (negb st'); [apply rel_refl|].
  eapply rel_bind; [apply rel_rdRaw32| |intros a Ha; use_failed; split; repeat doom_step].
  intros [st'' m]. destruct (negb st''); [apply rel_refl|].
  destruct (rilh RADIO_TECH_3GPP =? f); [apply rel_dispatchImsGsmSms|].
  destruct (rilh RADIO_TECH_3GPP2 =? f); [apply rel_dispatchImsCdmaSms|apply rel_refl].
Qed.

(** ** All of them *)

(** The result without the parcel, which is a local variable. *)
Definition result {A} (o : outcome (A * P)) : outcome A :=
  match o with Ok (a, _) => Ok a | UB => UB | Block => Block end.

Lemma rel_result (m1 m2 : cmd P dresult) p : rel invalid m1 m2 -> result (m1 p) = result (m2 p).
Proof.
  intros Hr. destruct (Hr p) as [->|(a1 & p1 & a2 & p2 & -> & -> & _ & _ & H1 & H2)]; [done|].
  unfold invalid in *. by subst.
Qed.

Lemma dispatchDataCall_junk j1 j2 p :
  result (dispatchDataCall version stack_avail j1 p) = result (dispatchDataCall version stack_avail j2 p).
Proof.
  unfold dispatchDataCall, get_st, modify, mbind, cmd_bind.
  destruct (rdI32v p) as [[n p1]| |]; [|done|done]. destruct (_ && _).
  - unfold mbind. destruct (copyStrings _ _ p1) as [[p2 p3]| |]; [|done|done]. unfold on_parcel.
    pose proof (rel_result _ _ (setDataPosition (dataPosition p) p2) (rel_dispatchStrings j1 j2)) as H.
    destruct (dispatchStrings _ j1 _) as [[? ?]| |], (dispatchStrings _ j2 _) as [[? ?]| |]; try done; simpl in *; congruence.
  - apply rel_result, rel_dispatchStrings.
Qed.

Lemma dispatchFn_junk f rq j1 j2 p :
  result (dispatchFn version use_cla stack_avail j1 f rq p) = result (dispatchFn version use_cla stack_avail j2 f rq p).
Proof.
  destruct f; try (apply dispatchDataCall_junk); apply rel_result; simpl;
    auto using rel_dispatchStrings, rel_dispatchInts, rel_dispatchSmsWrite, rel_dispatchDial, rel_dispatchSIM_IO,
      rel_dispatchCallForward, rel_dispatchRaw, rel_dispatchCdmaSms, rel_dispatchCdmaSmsAck, rel_dispatchGsmBrSmsCnf,
      rel_dispatchCdmaBrSmsCnf, rel_dispatchRilCdmaSmsWriteArgs, rel_dispatchApn, rel_dispatchImsSms,
      rel_dispatchUicc, rel_refl.
Qed.

End JunkFree.
