(* ===== verification/RilResponseSpec.v ===== *)
(** * The response functions on well-formed vendor data

    [object_ok] says what a vendor may pass to a response function: NULL
    where the function allows it, or an object of the type the function
    casts to, as long as [responselen] says.  On such data every response
    function of the tables returns 0 or [RIL_ERRNO_INVALID_RESPONSE],
    reads nothing out of bounds, and only appends to the Parcel. *)

From S2P Require Import Prelude Bytes Parcel RilConst RilTypes RilResponse.

Section ResponseSpec.
Context {P : Type} {HPar : Parcel P} {HLaws : ParcelLaws P} {HJS : JString} {HH : RilH}.
Variable version : Z.

(** ** What the data must look like *)

Definition array_of {A} (l : list A) (size len : Z) : Prop := len = size * Z.of_nat (length l).

(** An array of pointers, none of them NULL. *)
Definition pointers_of {A} (l : list (option A)) (len : Z) : Prop :=
  array_of l sizeof_ptr len /\ Forall is_Some l.

Definition uus_ok (c : RIL_Call) : Prop :=
  forall u d, call_uusInfo c = Some u -> uusData u = Some d -> 0 <= uusLength u <= Z.of_nat (length d).

Definition buffer_ok (max : ril_const) (len : Z) (buf : list Z) : Prop :=
  0 <= len /\ (len <= rilh max -> len <= Z.of_nat (length buf)).

(** The member of the union that goes with a record name. *)
Definition info_ok (c : ril_const) (u : info_union) : Prop :=
  match c, u with
  | RIL_CDMA_EXTENDED_DISPLAY_INFO_REC, RecDisplay len buf
  | RIL_CDMA_DISPLAY_INFO_REC, RecDisplay len buf => buffer_ok CDMA_ALPHA_INFO_BUFFER_LENGTH len buf
  | RIL_CDMA_CALLED_PARTY_NUMBER_INFO_REC, RecNumber n
  | RIL_CDMA_CALLING_PARTY_NUMBER_INFO_REC, RecNumber n
  | RIL_CDMA_CONNECTED_NUMBER_INFO_REC, RecNumber n
  | RIL_CDMA_REDIRECTING_NUMBER_INFO_REC, RecRedir n _ =>
      buffer_ok CDMA_NUMBER_INFO_BUFFER_LENGTH (num_len n) (num_buf n)
  | RIL_CDMA_SIGNAL_INFO_REC, RecSignal _ => True
  | RIL_CDMA_LINE_CONTROL_INFO_REC, RecLineCtrl _ _ _ _ => True
  | RIL_CDMA_T53_CLIR_INFO_REC, RecClir _ => True
  | RIL_CDMA_T53_AUDIO_CONTROL_INFO_REC, RecAudioCtrl _ _ => True
  | RIL_CDMA_T53_RELEASE_INFO_REC, _ => True
  | _, _ => False
  end.

Definition infoRec_ok (r : RIL_CDMA_InformationRecord) : Prop :=
  forall c, c ∈ (@infoRec_cases P _ _ _).*1 -> rec_name r = rilh c -> info_ok c (rec r).

Definition cell_ok (c : ril_const) (u : cell_union) : Prop :=
  match c, u with
  | RIL_CELL_INFO_TYPE_GSM, CellGsm _ _ _ _ _ _
  | RIL_CELL_INFO_TYPE_WCDMA, CellWcdma _ _ _ _ _ _ _
  | RIL_CELL_INFO_TYPE_CDMA, CellCdma _ _ _ _ _ _ _ _ _ _
  | RIL_CELL_INFO_TYPE_LTE, CellLte _ _ _ _ _ _ _ _ _ _ _ => True
  | _, _ => False
  end.

Definition cellInfo_ok (i : RIL_CellInfo) : Prop :=
  forall c, c ∈ (@cellInfo_cases P _).*1 -> cellInfoType i = rilh c -> cell_ok c (CellInfo i).

Definition signal_ok (s : RIL_SignalStrength) (len : Z) : Prop :=
  (sizeof S_RIL_SignalStrength_v6 <= len ->
    exists lte, ss_lte s = Some lte /\ (version <= 6 -> lte_rsrp lte <> - 2 ^ 31)) /\
  (sizeof S_RIL_SignalStrength_v8 <= len -> is_Some (ss_timingAdvance s)) /\
  (sizeof S_RIL_SignalStrength_v9_CAF <= len -> is_Some (ss_rscp s)).

Definition ssdata_ok (s : RIL_StkCcUnsolSsResponse) : Prop :=
  if isServiceTypeCfQuery (serviceType s) (requestType s)
  then exists n cf, ss_data s = SsCf n cf /\ length cf = Z.to_nat (rilh NUM_SERVICE_CLASSES)
  else exists l, ss_data s = SsInfo l /\ length l = Z.to_nat (rilh SS_INFO_MAX).

Definition card_ok (c : RIL_CardStatus) (len : Z) : Prop :=
  (len = sizeof S_RIL_CardStatus_v6 -> is_Some (ims_subscription_app_index c)) /\
  num_applications c <= Z.of_nat (length (applications c)).

Definition sms_arrays (m : RIL_CDMA_SMS_Message) : Prop :=
  length (digits (sAddress m)) = Z.to_nat (rilh RIL_CDMA_SMS_ADDRESS_MAX) /\
  length (sub_digits (sSubAddress m)) = Z.to_nat (rilh RIL_CDMA_SMS_SUBADDRESS_MAX) /\
  length (aBearerData m) = Z.to_nat (rilh RIL_CDMA_SMS_BEARER_DATA_MAX).

(** The functions that may be given NULL whatever the length. *)
Definition null_ok (f : response_fn) (len : Z) : Prop :=
  match f with
  | F_responseCdmaCallWaiting | F_responseSimRefresh | F_responseGetDataCallProfile => len <> 0
  | F_responseGsmBrSmsCnf | F_responseCdmaBrSmsCnf => 0 <= len < sizeof_ptr
  | _ => True
  end.

Definition object_ok (f : response_fn) (v : voidptr) (len : Z) : Prop :=
  match f, v with
  | F_responseVoid, _ => True
  | _, VNull => null_ok f len
  | F_responseInts, VInts l => array_of l sizeof_int len
  | F_responseStrings, VStrings l | F_responseStringsNetworks, VStrings l => array_of l sizeof_ptr len
  | F_responseString, VString _ => True
  | F_responseRaw, VBytes bs => array_of bs 1 len
  | F_responseCallList, VCalls l => pointers_of l len /\ (forall c, Some c ∈ l -> uus_ok c)
  | F_responseSMS, VSmsResponse _ => True
  | F_responseDataCallList, VDataCallsV4 l => version < 5 /\ array_of l (sizeof S_RIL_Data_Call_Response_v4) len
  | F_responseDataCallList, VDataCallsV6 l => 5 <= version /\ array_of l (sizeof S_RIL_Data_Call_Response_v6) len
  | F_responseSetupDataCall, VStrings l => version < 5 /\ array_of l sizeof_ptr len
  | F_responseSetupDataCall, VDataCallsV6 l => 5 <= version /\ array_of l (sizeof S_RIL_Data_Call_Response_v6) len
  | F_responseSIM_IO, VSimResponse _ => True
  | F_responseCallForwards, VCallForwards l => pointers_of l len
  | F_responseSsn, VSsn _ => True
  | F_responseCellList, VCells l => pointers_of l len
  | F_responseCdmaInformationRecords, VInfoRecs r =>
      length (infoRec r) = Z.to_nat (rilh RIL_CDMA_MAX_NUMBER_OF_INFO_RECS) /\ Forall infoRec_ok (infoRec r)
  | F_responseRilSignalStrength, VSignalStrength s => signal_ok s len
  | F_responseCallRing, VSignalInfo _ => True
  | F_responseCdmaCallWaiting, VCallWaiting c => sizeof S_RIL_CDMA_CallWaiting_v6 <= len -> is_Some (cw_types c)
  | F_responseSimRefresh, VSimRefresh _ => 7 <= version
  | F_responseSimRefresh, VInts l => version < 7 /\ (2 <= length l)%nat
  | F_responseCellInfoList, VCellInfos l => array_of l (sizeof S_RIL_CellInfo) len /\ Forall cellInfo_ok l
  | F_responseSSData, VSSData s => ssdata_ok s
  | F_responseSimStatus, VCardStatus c => card_ok c len
  | F_responseGsmBrSmsCnf, VGsmBci l => pointers_of l len
  | F_responseCdmaBrSmsCnf, VCdmaBci l => pointers_of l len
  | F_responseCdmaSms, VCdmaSms m => sms_arrays m
  | F_responseGetDataCallProfile, VProfiles num l => i32_ok num /\ len / sizeof S_RIL_DataCallProfileInfo <= Z.of_nat (length l)
  | _, _ => False
  end.

Definition status_ok (r : Z) : Prop := r = 0 \/ r = RIL_ERRNO_INVALID_RESPONSE.

(** ** The loops *)

Lemma grows_for_each {A} k (l : list A) (body : A -> cmd P unit) :
  (k <= length l)%nat -> (forall x, x ∈ l -> grows (body x) (fun _ => True)) ->
  grows (for_each k l body) (fun _ => True).
Proof.
  revert l; induction k as [|k IH]; intros l Hk Hb; [by apply grows_ret|].
  destruct l as [|x l]; [simpl in Hk; lia|]. cbn [for_each]. apply grows_seq; [apply Hb; set_solver|].
  apply IH; [simpl in Hk; lia|set_solver].
Qed.

Lemma grows_for_each_ptr {A} k (l : list (option A)) (body : A -> cmd P unit) :
  (k <= length l)%nat -> Forall is_Some l -> (forall x, Some x ∈ l -> grows (body x) (fun _ => True)) ->
  grows (for_each_ptr k l body) (fun _ => True).
Proof.
  intros Hk Hl Hb. apply grows_for_each; [done|]. intros o Ho. rewrite Forall_forall in Hl.
  destruct (Hl o Ho) as [x ->]. by apply Hb.
Qed.

Lemma grows_member {A B} (o : option A) (f : A -> cmd P B) Q a :
  o = Some a -> grows (f a) Q -> grows (member o ≫= f) Q.
Proof. intros -> Hf. eapply (grows_bind _ _ (eq a)); [by apply grows_ret|]. by intros ? <-. Qed.

Lemma grows_switch {A B} x (cases : list (ril_const * (A -> cmd P B))) d a Q :
  (forall c f, (c, f) ∈ cases -> x = rilh c -> grows (f a) Q) -> grows (d a) Q ->
  grows (switch x cases d a) Q.
Proof.
  intros Hc Hd. induction cases as [|[c f] cases IH]; [done|]. cbn [switch].
  destruct (Z.eqb_spec x (rilh c)); [apply (Hc c); [set_solver|done]|]. apply IH. intros c' f' Hin. apply Hc. set_solver.
Qed.

Lemma status_zero : status_ok 0.
Proof. by left. Qed.
Lemma status_invalid : status_ok RIL_ERRNO_INVALID_RESPONSE.
Proof. by right. Qed.

End ResponseSpec.

#[export] Hint Resolve status_zero status_invalid : parcel.
#[export] Hint Resolve grows_for_each grows_for_each_ptr : parcel.

(** A straight sequence of writes that ends in a return. *)
Ltac grow :=
  repeat first
    [ apply grows_ret; solve [done | eauto with parcel]
    | apply grows_seq; [solve [eauto with parcel]|]
    | solve [eauto with parcel] ].

Section Responses.
Context {P : Type} {HPar : Parcel P} {HLaws : ParcelLaws P} {HJS : JString} {HH : RilH}.
Variable version : Z.

Abbreviation writes m := (grows (m : cmd P unit) (fun _ => True)).

Lemma grows_writeUus c : uus_ok c -> writes (writeUus version (call_uusInfo c)).
Proof.
  intros Hc. unfold writeUus. destruct (call_uusInfo c) as [[ut ud ul [d|]]|] eqn:E; [|grow..].
  destruct (version <? 3); [grow|]. specialize (Hc _ _ E eq_refl). simpl in Hc. unfold wrBuf.
  replace (0 <=? ul) with true by (symmetry; apply Z.leb_le; lia).
  replace (ul <=? Z.of_nat (length d)) with true by (symmetry; apply Z.leb_le; lia). cbn [andb]. grow.
Qed.

Lemma grows_writeCall c : uus_ok c -> writes (writeCall version c).
Proof. intros Hc. unfold writeCall. grow. by apply grows_writeUus. Qed.

Lemma grows_writeDataV4 d : writes (writeDataV4 d).
Proof. unfold writeDataV4. grow. Qed.
Lemma grows_writeDataV6 d : writes (writeDataV6 d).
Proof. unfold writeDataV6. grow. Qed.
Lemma grows_writeCF c : writes (writeCF c).
Proof. unfold writeCF. grow. Qed.
Lemma grows_marshall s : writes (marshallSignalInfoRecord s).
Proof. unfold marshallSignalInfoRecord. grow. Qed.
Lemma grows_writeGsmBci c : writes (writeGsmBci c).
Proof. unfold writeGsmBci. grow. Qed.
Lemma grows_writeCdmaBci c : writes (writeCdmaBci c).
Proof. unfold writeCdmaBci. grow. Qed.
Lemma grows_writeApp a : writes (writeApp a).
Proof. unfold writeApp. grow. Qed.
Lemma grows_wrU8 x : writes (wrU8 x).
Proof. unfold wrU8. grow. Qed.

End Responses.

#[export] Hint Resolve grows_writeDataV4 grows_writeDataV6 grows_writeCF grows_marshall grows_writeGsmBci
  grows_writeCdmaBci grows_writeApp grows_wrU8 : parcel.

(** ** Every response function *)

Section AllResponses.
Context {P : Type} {HPar : Parcel P} {HLaws : ParcelLaws P} {HJS : JString} {HH : RilH}.
Variable version : Z.
Hypothesis sizes_pos : forall t, 0 < sizeof t.

Abbreviation responds m := (grows (m : cmd P Z) status_ok).

(** The guards shared by most functions: a rejected call writes nothing. *)
Lemma responds_guard (b : bool) (m : cmd P Z) :
  responds m -> responds (if b then mret RIL_ERRNO_INVALID_RESPONSE else m).
Proof. intros Hm. destruct b; [grow|done]. Qed.

Lemma array_count {A} (l : list A) size len : 0 < size -> array_of l size len -> Z.to_nat (len / size) = length l.
Proof. unfold array_of. intros Hs ->. rewrite Z.mul_comm, Z.div_mul by lia. lia. Qed.

Lemma responds_list {A} (l : list A) size len (body : A -> cmd P unit) :
  0 < size -> array_of l size len -> (forall x, x ∈ l -> grows (body x) (fun _ => True)) ->
  responds (wrI32 (len / size);; for_each (Z.to_nat (len / size)) l body;; mret 0).
Proof.
  intros Hs Hl Hb. rewrite (array_count l size len Hs Hl). apply grows_seq; [grow|]. apply grows_seq; [|grow].
  by apply grows_for_each.
Qed.

Lemma responds_pointers {A} v len (l : list (option A)) (body : A -> cmd P unit) :
  pointers_of l len -> (forall x, Some x ∈ l -> grows (body x) (fun _ => True)) ->
  responds (pointer_list v len l body).
Proof.
  intros [Hl Hf] Hb. unfold pointer_list. apply responds_guard, responds_guard.
  rewrite (array_count l sizeof_ptr len) by done. apply grows_seq; [grow|]. apply grows_seq; [|grow].
  by apply grows_for_each_ptr.
Qed.

Lemma pointers_nil {A} : pointers_of (@nil (option A)) 0.
Proof. split; [done|constructor]. Qed.

Lemma array_nil {A} size : array_of (@nil A) size 0.
Proof. unfold array_of. simpl. lia. Qed.

(** NULL with a zero length behaves as an empty array. *)
Lemma null_cases len : null_with_len VNull len = true \/ len = 0.
Proof. unfold null_with_len. simpl. destruct (Z.eqb_spec len 0); [by right|by left]. Qed.

Ltac null_case len := destruct (null_cases len) as [E| ->]; [rewrite E; grow|].

Lemma responds_Ints v len : object_ok version F_responseInts v len -> responds (responseInts v len).
Proof.
  intros Hv. unfold responseInts. destruct v; try done; simpl in Hv.
  - null_case len. apply responds_guard, responds_guard. by apply (responds_list [] sizeof_int); [|apply array_nil|set_solver].
  - apply responds_guard, responds_guard. apply (responds_list l sizeof_int); [done|done|intros; grow].
Qed.

Lemma responds_Strings v len : object_ok version F_responseStrings v len -> responds (responseStrings v len).
Proof.
  intros Hv. unfold responseStrings. destruct v; try done; simpl in Hv.
  - null_case len. apply responds_guard, responds_guard. simpl. grow.
  - apply responds_guard, responds_guard. simpl. apply (responds_list l sizeof_ptr); [done|done|intros; grow].
Qed.

Lemma responds_Raw v len : object_ok version F_responseRaw v len -> responds (responseRaw v len).
Proof.
  intros Hv. unfold responseRaw. destruct v; try done; simpl in Hv.
  - null_case len. apply responds_guard. grow.
  - apply responds_guard. unfold array_of in Hv. unfold wrBuf.
    replace (0 <=? len) with true by (symmetry; apply Z.leb_le; lia).
    replace (len <=? Z.of_nat (length bs)) with true by (symmetry; apply Z.leb_le; lia). cbn [andb]. grow.
Qed.

Lemma responds_CallList v len : object_ok version F_responseCallList v len -> responds (responseCallList version v len).
Proof.
  intros Hv. unfold responseCallList. destruct v; try done; simpl in Hv.
  - unfold pointer_list. null_case len. apply (responds_pointers VNull 0 []); [apply pointers_nil|set_solver].
  - destruct Hv as [Hp Hu]. apply responds_pointers; [done|]. intros c Hc. by apply grows_writeCall, Hu.
Qed.

Lemma responds_DataV4 v len :
  v = VNull \/ (exists l, v = VDataCallsV4 l /\ array_of l (sizeof S_RIL_Data_Call_Response_v4) len) ->
  responds (responseDataCallListV4 v len).
Proof.
  intros [->|(l & -> & Hl)]; unfold responseDataCallListV4.
  - null_case len. apply responds_guard, responds_guard.
    by apply (responds_list [] (sizeof S_RIL_Data_Call_Response_v4)); [|apply array_nil|set_solver].
  - apply responds_guard, responds_guard. apply responds_list; [done|done|intros; grow].
Qed.

Lemma responds_DataCallList v len :
  object_ok version F_responseDataCallList v len -> responds (responseDataCallList version v len).
Proof.
  intros Hv. unfold responseDataCallList. apply grows_seq; [grow|].
  destruct (Z.ltb_spec version 5).
  - apply responds_DataV4. destruct v; simpl in Hv; try done; [by left|destruct Hv; eauto|lia].
  - destruct v; simpl in Hv; try done.
    + null_case len. apply responds_guard, responds_guard.
      by apply (responds_list [] (sizeof S_RIL_Data_Call_Response_v6)); [|apply array_nil|set_solver].
    + lia.
    + apply responds_guard, responds_guard. destruct Hv. apply responds_list; [done|done|intros; grow].
Qed.

Lemma responds_SetupDataCall v len :
  object_ok version F_responseSetupDataCall v len -> responds (responseSetupDataCall version v len).
Proof.
  intros Hv. unfold responseSetupDataCall. destruct (Z.ltb_spec version 5).
  - apply grows_seq; [grow|]. apply responds_Strings. destruct v; simpl in *; try done; [tauto|lia].
  - apply responds_DataCallList. destruct v; simpl in *; try done. lia.
Qed.

(** ** CDMA information records *)

Lemma grows_writeCopied max len buf :
  buffer_ok max len buf -> len <= rilh max -> grows (writeCopied len buf : cmd P unit) (fun _ => True).
Proof.
  intros [H0 Hb] Hm. unfold writeCopied. specialize (Hb Hm).
  replace (0 <=? len) with true by (symmetry; apply Z.leb_le; lia).
  replace (len <=? Z.of_nat (length buf)) with true by (symmetry; apply Z.leb_le; lia). cbn [andb]. grow.
Qed.

Lemma grows_wrBuf max len buf :
  buffer_ok max len buf -> len <= rilh max -> grows (wrBuf buf len : cmd P unit) (fun _ => True).
Proof.
  intros [H0 Hb] Hm. unfold wrBuf. specialize (Hb Hm).
  replace (0 <=? len) with true by (symmetry; apply Z.leb_le; lia).
  replace (len <=? Z.of_nat (length buf)) with true by (symmetry; apply Z.leb_le; lia). cbn [andb]. grow.
Qed.

Lemma responds_writeNumber n :
  buffer_ok CDMA_NUMBER_INFO_BUFFER_LENGTH (num_len n) (num_buf n) -> responds (writeNumber n).
Proof.
  intros Hn. unfold writeNumber. rewrite Z.gtb_ltb. destruct (Z.ltb_spec (rilh CDMA_NUMBER_INFO_BUFFER_LENGTH) (num_len n)); [grow|].
  apply grows_seq; [by eapply grows_writeCopied|]. grow.
Qed.

Lemma responds_writeDisplay ext len buf :
  buffer_ok CDMA_ALPHA_INFO_BUFFER_LENGTH len buf -> responds (writeDisplay ext (RecDisplay len buf)).
Proof.
  intros Hn. unfold writeDisplay. rewrite Z.gtb_ltb. destruct (Z.ltb_spec (rilh CDMA_ALPHA_INFO_BUFFER_LENGTH) len); [grow|].
  destruct ext.
  - apply grows_seq; [grow|]. apply grows_seq; [by eapply grows_wrBuf|]. grow.
  - apply grows_seq; [by eapply grows_writeCopied|]. grow.
Qed.

Lemma responds_writeRedir n reason :
  buffer_ok CDMA_NUMBER_INFO_BUFFER_LENGTH (num_len n) (num_buf n) -> responds (writeRedir (RecRedir n reason)).
Proof.
  intros Hn. unfold writeRedir. eapply grows_bind; [by apply responds_writeNumber|]. intros r Hr.
  destruct (r =? 0); grow.
Qed.

Lemma responds_infoRec c (w : info_union -> cmd P Z) u :
  (c, w) ∈ infoRec_cases -> info_ok c u -> responds (w u).
Proof.
  intros Hin Hu. unfold infoRec_cases in Hin.
  repeat (apply elem_of_cons in Hin as [Hin|Hin]; [injection Hin as -> ->|]); [..|by apply elem_of_nil in Hin];
    destruct u; try done; simpl in Hu;
    [apply responds_writeDisplay; done|apply responds_writeDisplay; done|apply responds_writeNumber; done
    |apply responds_writeNumber; done|apply responds_writeNumber; done
    |unfold writeSignal; grow|apply responds_writeRedir; done|unfold writeLineCtrl; grow
    |unfold writeClir; grow|unfold writeAudio; grow|grow..].
Qed.

Lemma responds_writeInfoRec r : infoRec_ok (P := P) r -> responds (writeInfoRec r).
Proof.
  intros Hr. unfold writeInfoRec. apply grows_seq; [grow|]. apply grows_switch; [|grow].
  intros c w Hin E. eapply responds_infoRec; [done|]. apply Hr; [|done]. apply list_elem_of_fmap. by exists (c, w).
Qed.

Lemma responds_infoRecs k l : (k <= length l)%nat -> Forall (infoRec_ok (P := P)) l -> responds (infoRecs_loop k l).
Proof.
  revert l; induction k as [|k IH]; intros l Hk Hl; [grow|]. destruct l as [|r l]; [simpl in Hk; lia|].
  apply Forall_cons in Hl as [Hr Hl]. cbn [infoRecs_loop]. eapply grows_bind; [by apply responds_writeInfoRec|].
  intros c Hc. destruct (c =? 0); [|grow]. apply IH; [simpl in Hk; lia|done].
Qed.

Lemma responds_InfoRecs v len :
  object_ok (P := P) version F_responseCdmaInformationRecords v len -> responds (responseCdmaInformationRecords v len).
Proof.
  intros Hv. unfold responseCdmaInformationRecords. destruct v; try done; simpl in Hv.
  - null_case len. apply responds_guard. replace (0 =? sizeof S_RIL_CDMA_InformationRecords) with false; [grow|].
    pose proof (sizes_pos S_RIL_CDMA_InformationRecords). lia.
  - apply responds_guard, responds_guard. destruct Hv as [Hl Hf]. apply grows_seq; [grow|].
    apply responds_infoRecs; [rewrite Hl; lia|done].
Qed.

(** ** Signal strength *)

Lemma fixup_lte_ok l : lte_rsrp l <> - 2 ^ 31 -> exists l', fixup_lte l = Ok l'.
Proof.
  intros Hl. unfold fixup_lte. destruct (lte_rsrp l =? -1); [eauto|]. destruct (lte_rsrp l <? -1); [|eauto].
  destruct (Z.eqb_spec (lte_rsrp l) (- 2 ^ 31)); [done|eauto].
Qed.

Lemma responds_SignalStrength v len :
  object_ok (P := P) version F_responseRilSignalStrength v len -> responds (responseRilSignalStrength version v len).
Proof.
  intros Hv. unfold responseRilSignalStrength. destruct v; try done; simpl in Hv.
  { null_case len. apply responds_guard. replace (0 >=? sizeof S_RIL_SignalStrength_v5) with false; [grow|].
    pose proof (sizes_pos S_RIL_SignalStrength_v5). lia. }
  apply responds_guard, responds_guard. destruct Hv as (H6 & H8 & H9). do 7 (apply grows_seq; [grow|]).
  rewrite !Z.geb_leb. destruct (Z.leb_spec (sizeof S_RIL_SignalStrength_v6) len); [|grow].
  destruct H6 as (lte & Hl & Hr); [done|]. eapply grows_member; [done|].
  eapply (grows_bind _ _ (fun _ => True)).
  - destruct (Z.leb_spec version 6); [|grow]. destruct (fixup_lte_ok lte) as [l' E]; [auto|]. rewrite E.
    intros p Hp. exists l', p. done.
  - intros lte' _. do 5 (apply grows_seq; [grow|]).
    destruct (Z.leb_spec (sizeof S_RIL_SignalStrength_v8) len); [|grow]. destruct H8 as [ta Ha]; [done|].
    eapply grows_member; [done|]. apply grows_seq; [grow|].
    destruct (Z.leb_spec (sizeof S_RIL_SignalStrength_v9_CAF) len); [|grow]. destruct H9 as [rscp Hs]; [done|].
    eapply grows_member; [done|]. grow.
Qed.

(** ** The rest *)

Lemma responds_SignalInfo v len :
  v = VNull \/ (exists s, v = VSignalInfo s) -> responds (responseCdmaSignalInfoRecord v len).
Proof. intros [->|[s ->]]; unfold responseCdmaSignalInfoRecord; [grow|]. apply responds_guard, responds_guard. grow. Qed.

Lemma responds_CallWaiting v len :
  object_ok (P := P) version F_responseCdmaCallWaiting v len -> responds (responseCdmaCallWaiting v len).
Proof.
  intros Hv. unfold responseCdmaCallWaiting. destruct v; try done; simpl in Hv.
  - null_case len; done.
  - apply responds_guard. do 4 (apply grows_seq; [grow|]). rewrite Z.geb_leb.
    destruct (Z.leb_spec (sizeof S_RIL_CDMA_CallWaiting_v6) len); [|grow]. destruct Hv as [t Ht]; [done|].
    eapply grows_member; [done|]. grow.
Qed.

Lemma responds_SimRefresh v len :
  object_ok (P := P) version F_responseSimRefresh v len -> responds (responseSimRefresh version v len).
Proof.
  intros Hv. unfold responseSimRefresh. rewrite Z.geb_leb. destruct v; try done; simpl in Hv.
  - null_case len; done.
  - apply responds_guard. destruct Hv as [Hv Hl]. destruct (Z.leb_spec 7 version); [lia|]. simpl.
    destruct l as [|a [|b l]]; simpl in Hl; [lia..|]. grow.
  - apply responds_guard. destruct (Z.leb_spec 7 version); [|lia]. grow.
Qed.

Lemma grows_wrI32s l : grows (wrI32s l : cmd P unit) (fun _ => True).
Proof. apply grows_for_each; [done|]. intros; grow. Qed.

Lemma grows_writeCellInfo i : cellInfo_ok (P := P) i -> grows (writeCellInfo i : cmd P unit) (fun _ => True).
Proof.
  intros Hi. unfold writeCellInfo. do 4 (apply grows_seq; [grow|]). apply grows_switch; [|grow].
  intros c w Hin E. assert (Hc : cell_ok c (CellInfo i)).
  { apply Hi; [|done]. apply list_elem_of_fmap. by exists (c, w). }
  unfold cellInfo_cases in Hin.
  repeat (apply elem_of_cons in Hin as [Hin|Hin]; [injection Hin as -> ->|]); [..|by apply elem_of_nil in Hin];
    destruct (CellInfo i); try done;
    [apply grows_wrI32s|apply grows_wrI32s|apply grows_seq; apply grows_wrI32s..].
Qed.

Lemma responds_CellInfoList v len :
  object_ok (P := P) version F_responseCellInfoList v len -> responds (responseCellInfoList v len).
Proof.
  intros Hv. unfold responseCellInfoList. destruct v; try done; simpl in Hv.
  - null_case len. apply responds_guard, responds_guard.
    by apply (responds_list [] (sizeof S_RIL_CellInfo)); [|apply array_nil|set_solver].
  - apply responds_guard, responds_guard. destruct Hv as [Hl Hf]. rewrite Forall_forall in Hf.
    apply responds_list; [done|done|]. intros i Hi. by apply grows_writeCellInfo, Hf.
Qed.

Lemma responds_SSData v len :
  object_ok (P := P) version F_responseSSData v len -> responds (responseSSData v len).
Proof.
  intros Hv. unfold responseSSData. destruct v; try done; simpl in Hv.
  - null_case len. apply responds_guard. replace (0 =? sizeof S_RIL_StkCcUnsolSsResponse) with false; [grow|].
    pose proof (sizes_pos S_RIL_StkCcUnsolSsResponse). lia.
  - apply responds_guard, responds_guard. do 5 (apply grows_seq; [grow|]). unfold ssdata_ok in Hv.
    destruct (isServiceTypeCfQuery _ _).
    + destruct Hv as (n & cf & -> & Hl). apply grows_seq; [grow|]. apply grows_seq; [|grow].
      apply grows_for_each; [|intros; grow]. rewrite Hl, Z.gtb_ltb. destruct (Z.ltb_spec (rilh NUM_SERVICE_CLASSES) n); lia.
    + destruct Hv as (l & -> & Hl). apply grows_seq; [grow|]. apply grows_seq; [|grow].
      apply grows_for_each; [by rewrite Hl|intros; grow].
Qed.

Lemma responds_SimStatus v len :
  object_ok (P := P) version F_responseSimStatus v len -> responds (responseSimStatus v len).
Proof.
  intros Hv. unfold responseSimStatus. destruct v; try done; simpl in Hv.
  - null_case len. apply responds_guard. pose proof (sizes_pos S_RIL_CardStatus_v6). pose proof (sizes_pos S_RIL_CardStatus_v5).
    replace (0 =? sizeof S_RIL_CardStatus_v6) with false by lia. replace (0 =? sizeof S_RIL_CardStatus_v5) with false by lia. grow.
  - apply responds_guard. destruct Hv as [Hi Ha].
    assert (Happs : grows (sendSimStatusAppInfo (num_applications c) (applications c) : cmd P unit) (fun _ => True)).
    { apply grows_seq; [grow|]. apply grows_for_each; [lia|intros; grow]. }
    destruct (Z.eqb_spec len (sizeof S_RIL_CardStatus_v6)).
    + destruct Hi as [ims Hi]; [done|]. do 4 (apply grows_seq; [grow|]). eapply grows_member; [done|].
      apply grows_seq; [grow|]. apply grows_seq; [done|]. grow.
    + destruct (len =? sizeof S_RIL_CardStatus_v5); [|grow]. do 5 (apply grows_seq; [grow|]).
      apply grows_seq; [done|]. grow.
Qed.

Lemma responds_bci {A} (l : list (option A)) len (body : A -> cmd P unit) :
  (pointers_of l len \/ (l = [] /\ 0 <= len < sizeof_ptr)) -> (forall x, grows (body x) (fun _ => True)) ->
  responds (wrI32 (len / sizeof_ptr);; for_each_ptr (Z.to_nat (len / sizeof_ptr)) l body;; mret 0).
Proof.
  intros Hl Hb. apply grows_seq; [grow|]. apply grows_seq; [|grow]. destruct Hl as [[Hl Hf]|[-> Hl]].
  - rewrite (array_count l sizeof_ptr len) by done. by apply grows_for_each_ptr.
  - rewrite Z.div_small by done. grow.
Qed.

Lemma grows_digits n max l :
  length l = Z.to_nat (rilh max) ->
  grows (for_each (Z.to_nat (Z.min n (rilh max))) l wrU8 : cmd P unit) (fun _ => True).
Proof. intros Hl. apply grows_for_each; [lia|intros; grow]. Qed.

Lemma responds_CdmaSms v len :
  object_ok (P := P) version F_responseCdmaSms v len -> responds (responseCdmaSms v len).
Proof.
  intros Hv. unfold responseCdmaSms. destruct v; try done; simpl in Hv.
  - null_case len. apply responds_guard. replace (0 =? sizeof S_RIL_CDMA_SMS_Message) with false; [grow|].
    pose proof (sizes_pos S_RIL_CDMA_SMS_Message). lia.
  - apply responds_guard, responds_guard. destruct Hv as (H1 & H2 & H3). apply grows_seq; [|grow]. unfold writeCdmaSms.
    do 8 (apply grows_seq; [grow|]). apply grows_seq; [by apply grows_digits|].
    do 3 (apply grows_seq; [grow|]). apply grows_seq; [by apply grows_digits|].
    apply grows_seq; [grow|]. by apply grows_digits.
Qed.

Lemma responds_Profiles v len :
  object_ok (P := P) version F_responseGetDataCallProfile v len -> responds (responseGetDataCallProfile v len).
Proof.
  intros Hv. unfold responseGetDataCallProfile. destruct v; try done; simpl in Hv.
  - null_case len; done.
  - apply responds_guard. apply grows_seq; [grow|]. apply grows_seq; [|grow].
    apply grows_for_each; [|intros; grow]. rewrite Z.gtb_ltb.
    destruct (Z.ltb_spec (len / sizeof S_RIL_DataCallProfileInfo) (u32 num)); [lia|].
    destruct Hv as [Hi Hv]. unfold i32_ok in Hi. destruct (Z.le_gt_cases 0 num); [|lia]. rewrite u32_id in *; lia.
Qed.

Lemma responseFn_responds f v len : object_ok (P := P) version f v len -> responds (responseFn version f v len).
Proof.
  intros Hv. destruct f; simpl responseFn;
    eauto using responds_Ints, responds_Strings, responds_Raw, responds_CallList, responds_DataCallList,
      responds_SetupDataCall, responds_InfoRecs, responds_SignalStrength, responds_CallWaiting, responds_SimRefresh,
      responds_CellInfoList, responds_SSData, responds_SimStatus, responds_CdmaSms, responds_Profiles.
  - unfold responseVoid. grow.
  - unfold responseString. destruct v; try done; grow.
  - unfold responseSMS. destruct v; try done; [grow|]. simpl is_null. apply responds_guard, responds_guard. grow.
  - unfold responseSIM_IO. destruct v; try done; [grow|]. apply responds_guard, responds_guard. grow.
  - unfold responseCallForwards. destruct v; try done; simpl in Hv.
    + unfold pointer_list. null_case len. apply (responds_pointers VNull 0 []); [apply pointers_nil|set_solver].
    + apply responds_pointers; [done|intros; grow].
  - unfold responseCellList. destruct v; try done; simpl in Hv.
    + unfold pointer_list. null_case len. apply (responds_pointers VNull 0 []); [apply pointers_nil|set_solver].
    + apply responds_pointers; [done|intros; grow].
  - unfold responseGsmBrSmsCnf. destruct v; try done; simpl in Hv; apply responds_bci; try (by auto); intros; grow.
  - unfold responseCdmaBrSmsCnf. destruct v; try done; simpl in Hv; apply responds_bci; try (by auto); intros; grow.
  - unfold responseSsn. destruct v; try done; [grow|]. apply responds_guard, responds_guard. grow.
  - unfold responseCallRing. destruct v; try done; [unfold responseVoid; simpl; grow|].
    simpl. destruct (len =? 0); [unfold responseVoid; grow|]. apply responds_SignalInfo. eauto.
Qed.

End AllResponses.
