(* ===== verification/RilRequests.v ===== *)
(** * Requests: the pending list, sending, completion, cancellation

    The linked list of [RequestInfo] objects behind [s_pendingRequests] is
    abstracted by the list of their addresses ([reqs]); the operations of
    RilCore are shown to act on it as list operations.  [sends] describes
    what [sendResponseRaw] puts on the command socket. *)

From S2P Require Import Prelude Bytes Parcel RilConst RilTypes RilDispatch RilResponse RilResponseSpec EventHeap EventLoop RilCore.

(** ** The pending list *)

(** From [head], following [p_next], come the requests [l], then NULL. *)
Fixpoint req_chain (h : gmap loc RequestInfo) (head : option loc) (l : list loc) : Prop :=
  match l with
  | [] => head = None
  | a :: l => head = Some a /\ exists r, h !! a = Some r /\ req_chain h (p_next r) l
  end.

Definition reqs (s : ril_state) (l : list loc) : Prop :=
  NoDup l /\ req_chain (r_heap s) (s_pendingRequests s) l.

(** Everything of a request but its link. *)
Definition rdata (r : RequestInfo) : Z * CommandInfo * Z * Z := (token r, pCI r, cancelled r, local r).

Definition same_rdata (h h' : gmap loc RequestInfo) : Prop :=
  forall a, rdata <$> h' !! a = rdata <$> h !! a.

Lemma same_rdata_refl h : same_rdata h h.
Proof. done. Qed.

Lemma same_rdata_some h h' a r :
  same_rdata h h' -> h !! a = Some r -> exists r', h' !! a = Some r' /\ rdata r' = rdata r.
Proof.
  intros Hs Ha. specialize (Hs a). rewrite Ha in Hs. destruct (h' !! a) as [r'|]; [|done].
  exists r'. split; [done|]. by apply (inj Some) in Hs.
Qed.

Lemma req_chain_some h head l a : req_chain h head l -> a ∈ l -> is_Some (h !! a).
Proof.
  revert head; induction l as [|b l IH]; intros head Hc Ha; [set_solver|].
  destruct Hc as (_ & r & Hr & Hc). apply elem_of_cons in Ha as [->|Ha]; [by rewrite Hr|by eapply IH].
Qed.

Lemma req_chain_frame h h' head l :
  (forall a, a ∈ l -> h' !! a = h !! a) -> req_chain h head l -> req_chain h' head l.
Proof.
  revert head; induction l as [|b l IH]; intros head Hf Hc; [done|].
  destruct Hc as (-> & r & Hr & Hc). split; [done|]. exists r. rewrite Hf by set_solver. split; [done|].
  apply IH; [set_solver|done].
Qed.

(** Only the links matter. *)
Lemma req_chain_next h h' head l :
  (forall a, a ∈ l -> p_next <$> h' !! a = p_next <$> h !! a) -> req_chain h head l -> req_chain h' head l.
Proof.
  revert head; induction l as [|b l IH]; intros head Hf Hc; [done|].
  destruct Hc as (-> & r & Hr & Hc). split; [done|]. specialize (Hf b) as Hb. rewrite Hr in Hb.
  destruct (h' !! b) as [r'|]; [|by specialize (Hb ltac:(set_solver))]. exists r'. split; [done|].
  specialize (Hb ltac:(set_solver)). apply (inj Some) in Hb. rewrite Hb. apply IH; [set_solver|done].
Qed.

Lemma req_chain_length h head l : NoDup l -> req_chain h head l -> (length l <= size h)%nat.
Proof. intros Hn Hc. apply NoDup_length_size; [done|]. intros a Ha. by eapply req_chain_some. Qed.

Lemma load_req_ok (s : ril_state) a r : r_heap s !! a = Some r -> load_req a s = Ok (r, s).
Proof. intros Hr. unfold load_req. by rewrite Hr. Qed.

(** The pointer [ppCur] leads to the rest of the chain. *)
Lemma get_link_ok (s : ril_state) pp head :
  match pp with
  | Head => s_pendingRequests s = head
  | NextOf b => exists r, r_heap s !! b = Some r /\ p_next r = head
  end -> get_link pp s = Ok (head, s).
Proof.
  destruct pp as [|b]; simpl; [by intros <-|]. intros (r & Hr & <-).
  by rewrite (cmd_bind_Ok _ _ _ _ _ (load_req_ok _ _ _ Hr)).
Qed.

Lemma dequeue_absent n (s : ril_state) pp head l a :
  match pp with
  | Head => s_pendingRequests s = head
  | NextOf b => exists r, r_heap s !! b = Some r /\ p_next r = head
  end ->
  req_chain (r_heap s) head l -> (length l < n)%nat -> a ∉ l -> dequeue_loop n pp a s = Ok (0, s).
Proof.
  revert pp head l; induction n as [|n IH]; intros pp head l Hpp Hc Hn Ha; [lia|]. cbn [dequeue_loop].
  rewrite (cmd_bind_Ok _ _ _ _ _ (get_link_ok _ _ _ Hpp)). destruct l as [|b l]; simpl in Hc; [by subst|].
  destruct Hc as (-> & r & Hr & Hc). rewrite decide_False by set_solver.
  apply (IH (NextOf b) (p_next r) l); [by exists r|done|simpl in Hn; lia|set_solver].
Qed.

(** Removing from the middle: the predecessor's link is redirected. *)
Lemma dequeue_present n (s : ril_state) b rb l1 a l2 :
  r_heap s !! b = Some rb -> req_chain (r_heap s) (p_next rb) (l1 ++ a :: l2) ->
  NoDup (b :: l1 ++ a :: l2) -> (length l1 < n)%nat ->
  exists s', dequeue_loop n (NextOf b) a s = Ok (1, s') /\ same_rdata (r_heap s) (r_heap s') /\
    s' = set_reqs (r_heap s') (s_pendingRequests s) s /\
    (exists rb', r_heap s' !! b = Some rb' /\ req_chain (r_heap s') (p_next rb') (l1 ++ l2)) /\
    (forall c, c ∉ b :: l1 -> r_heap s' !! c = r_heap s !! c).
Proof.
  revert b rb l1; induction n as [|n IH]; intros b rb l1 Hb Hc Hnd Hn; [lia|]. cbn [dequeue_loop].
  rewrite (cmd_bind_Ok _ _ _ _ _ (get_link_ok s (NextOf b) _ (ex_intro _ rb (conj Hb eq_refl)))).
  destruct l1 as [|c l1]; simpl in Hc.
  - destruct Hc as (Hn1 & ra & Ha & Hc). rewrite Hn1, decide_True by done.
    rewrite (cmd_bind_Ok _ _ _ _ _ (load_req_ok _ _ _ Ha)). unfold set_link, store_req, mbind, cmd_bind. rewrite Hb.
    eexists. split; [done|]. simpl. split_and!.
    + intros x. destruct (decide (x = b)) as [->|]; [rewrite lookup_insert_eq, Hb; by destruct rb|by rewrite lookup_insert_ne].
    + done.
    + exists (set_p_next (p_next ra) rb). rewrite lookup_insert_eq. split; [done|]. destruct rb; simpl.
      eapply req_chain_frame; [|done]. intros x Hx. rewrite lookup_insert_ne; [done|].
      intros <-. apply NoDup_cons in Hnd as [Hnb _]. simpl in *. set_solver.
    + intros x Hx. rewrite lookup_insert_ne; [done|set_solver].
  - destruct Hc as (Hn1 & rc & Hrc & Hc). rewrite Hn1.
    assert (a <> c).
    { intros ->. apply NoDup_cons in Hnd as [_ Hnd]. apply NoDup_cons in Hnd as [Hnd _]. set_solver. }
    rewrite decide_False by done. apply NoDup_cons in Hnd as [Hnb Hnd].
    destruct (IH c rc l1 Hrc Hc Hnd) as (s' & E & D & Hs & (rc' & Hrc' & Hc') & F); [simpl in Hn; lia|].
    exists s'. split_and!; [done..| |].
    + exists rb. rewrite F by set_solver. split; [done|]. split; [done|]. by exists rc'.
    + intros x Hx. apply F. set_solver.
Qed.

Lemma dequeue_absent_ok (s : ril_state) l t :
  reqs s l -> (forall a, t = Some a -> a ∉ l) -> checkAndDequeueRequestInfo t s = Ok (0, s).
Proof.
  intros [Hn Hc] Ht. unfold checkAndDequeueRequestInfo. destruct t as [a|]; [|done].
  rewrite (cmd_bind_Ok _ _ _ _ _ (eq_refl : get_st s = Ok (s, s))).
  apply (dequeue_absent _ s Head (s_pendingRequests s) l); [done|done| |by apply Ht]. pose proof (req_chain_length _ _ _ Hn Hc). lia.
Qed.

Lemma dequeue_ok (s : ril_state) l1 a l2 :
  reqs s (l1 ++ a :: l2) ->
  exists s', checkAndDequeueRequestInfo (Some a) s = Ok (1, s') /\ reqs s' (l1 ++ l2) /\
    same_rdata (r_heap s) (r_heap s') /\ s' = set_reqs (r_heap s') (s_pendingRequests s') s.
Proof.
  intros [Hn Hc]. unfold checkAndDequeueRequestInfo.
  rewrite (cmd_bind_Ok _ _ _ _ _ (eq_refl : get_st s = Ok (s, s))).
  pose proof (req_chain_length _ _ _ Hn Hc) as Hlen. rewrite length_app in Hlen. simpl in Hlen.
  assert (Hn' : NoDup (l1 ++ l2)).
  { apply NoDup_app in Hn as (H1 & H2 & H3). apply NoDup_cons in H3 as [H3 H4]. apply NoDup_app. set_solver. }
  cbn [dequeue_loop]. rewrite (cmd_bind_Ok _ _ _ _ _ (get_link_ok s Head _ eq_refl)).
  destruct l1 as [|b l1]; simpl in Hc.
  - destruct Hc as (Hh & ra & Ha & Hc). rewrite Hh, decide_True by done.
    rewrite (cmd_bind_Ok _ _ _ _ _ (load_req_ok _ _ _ Ha)). eexists. split; [done|]. by split.
  - destruct Hc as (Hh & rb & Hb & Hc). rewrite Hh.
    apply NoDup_cons in Hn as [Hnb Hn]. assert (a <> b) by set_solver. rewrite decide_False by done.
    destruct (dequeue_present (size (r_heap s)) s b rb l1 a l2 Hb Hc) as (s' & E & D & Hs & (rb' & Hrb' & Hc') & _).
    { by apply NoDup_cons. }
    { simpl in Hlen. lia. }
    assert (Hp : s_pendingRequests s' = Some b) by (rewrite Hs; done).
    exists s'. split_and!; [done| |done|by rewrite Hp, <- Hh]. split; [done|]. simpl. split; [done|]. by exists rb'.
Qed.

(** Freeing a request that is not in the list. *)
Lemma reqs_free (s : ril_state) l a :
  reqs s l -> a ∉ l -> reqs (set_reqs (delete a (r_heap s)) (s_pendingRequests s) s) l.
Proof.
  intros [Hn Hc] Ha. split; [done|]. simpl. eapply req_chain_frame; [|done].
  intros b Hb. rewrite lookup_delete_ne; [done|]. by intros ->.
Qed.

(** The list does not depend on the rest of the state. *)
Lemma reqs_ext (s s' : ril_state) l :
  r_heap s' = r_heap s -> s_pendingRequests s' = s_pendingRequests s -> reqs s l -> reqs s' l.
Proof. intros Hh Hp [Hn Hc]. split; [done|]. by rewrite Hh, Hp. Qed.

(** ** Sending *)

(** The bytes of a trace accepted by the socket [fd]. *)
Definition sent_on (fd : Z) (tr : list effect) : list Z :=
  concat ((fun e => match e with EWrite x bs => if x =? fd then bs else [] | _ => [] end) <$> tr).

Lemma sent_on_app fd t1 t2 : sent_on fd (t1 ++ t2) = sent_on fd t1 ++ sent_on fd t2.
Proof. unfold sent_on. by rewrite fmap_app, concat_app. Qed.

(** Socket traffic only. *)
Definition io_only (fd : Z) (tr : list effect) : Prop :=
  Forall (fun e => match e with EWrite x _ | EWriteError x _ | EClose x => x = fd | _ => False end) tr.

Lemma add_trace_app s t1 t2 : add_trace t2 (add_trace t1 s) = add_trace (t1 ++ t2) s.
Proof. unfold add_trace. simpl. by rewrite app_assoc. Qed.

Lemma add_trace_nil s : add_trace [] s = s.
Proof. destruct s. unfold add_trace. simpl. by rewrite app_nil_r. Qed.

Section Sending.
Context {P : Type} {HPar : Parcel P} {HLaws : ParcelLaws P} {HJS : JString} {HH : RilH}.
Variables (fuel : nat) (env : ril_env).

(** The socket makes progress: after at most [k] interrupted attempts (EINTR
    or EAGAIN) in a row, [write] accepts something or fails for good; and
    the fuel covers that many attempts per byte of the largest packet. *)
Definition socket_live : Prop := exists k : nat, (S k * Z.to_nat MAX_COMMAND_BYTES < fuel)%nat /\
  forall tr fd buf, buf <> [] -> exists j, (j <= k)%nat /\
    (forall i, (i < j)%nat -> o_write env (tr ++ replicate i (EWriteError fd true)) fd buf = WriteError true) /\
    match o_write env (tr ++ replicate j (EWriteError fd true)) fd buf with
    | Wrote n => (0 < n)%nat
    | WriteError again => again = false
    end.

Hypothesis Hlive : socket_live.

(** How a write ends: all of [buf] went out, or a prefix did and the
    descriptor was closed. *)
Definition write_end (fd : Z) (buf : list Z) (ret : Z) (evs : list effect) : Prop :=
  io_only fd evs /\
  (ret = 0 /\ sent_on fd evs = buf \/
   ret = -1 /\ sent_on fd evs `prefix_of` buf /\ EClose fd ∈ evs).

Lemma retries_ok j n (s : ril_state) fd buf :
  buf <> [] ->
  (forall i, (i < j)%nat -> o_write env (r_trace s ++ replicate i (EWriteError fd true)) fd buf = WriteError true) ->
  blockingWrite_loop env (j + n) fd buf s = blockingWrite_loop env n fd buf (add_trace (replicate j (EWriteError fd true)) s).
Proof.
  intros Hb. revert s; induction j as [|j IH]; intros s Hj; [by rewrite add_trace_nil|]. cbn [blockingWrite_loop Nat.add].
  destruct buf as [|x buf]; [done|]. rewrite bind_ask.
  pose proof (Hj 0%nat ltac:(lia)) as H0. rewrite app_nil_r in H0. rewrite H0, bind_emit, IH.
  - by rewrite add_trace_app.
  - intros i Hi. simpl. rewrite <- app_assoc. by apply (Hj (S i) ltac:(lia)).
Qed.

(** Retries put nothing on the socket. *)
Lemma io_retries j fd : io_only fd (replicate j (EWriteError fd true)) /\ sent_on fd (replicate j (EWriteError fd true)) = [].
Proof. induction j as [|j [I S]]; [split; [constructor|done]|]. split; [by constructor|exact S]. Qed.

Lemma write_end_retries j fd buf ret evs :
  write_end fd buf ret evs -> write_end fd buf ret (replicate j (EWriteError fd true) ++ evs).
Proof.
  intros [Hio He]. destruct (io_retries j fd) as [I S]. split; [by apply Forall_app|].
  rewrite sent_on_app, S. destruct He as [[-> Hs]|(-> & Hs & Hc)]; [by left|right]. split_and!; [done|done|set_solver].
Qed.

Lemma blockingWrite_loop_ok k m n (s : ril_state) fd buf :
  (forall tr fd buf, buf <> [] -> exists j, (j <= k)%nat /\
    (forall i, (i < j)%nat -> o_write env (tr ++ replicate i (EWriteError fd true)) fd buf = WriteError true) /\
    match o_write env (tr ++ replicate j (EWriteError fd true)) fd buf with Wrote n => (0 < n)%nat | WriteError again => again = false end) ->
  (length buf <= m)%nat -> (S k * m < n)%nat ->
  exists ret evs, blockingWrite_loop env n fd buf s = Ok (ret, add_trace evs s) /\ write_end fd buf ret evs.
Proof.
  intros HL. revert n s buf; induction m as [|m IH]; intros n s buf Hm Hn.
  all: destruct (decide (buf = [])) as [->|Hb]; [destruct n; [lia|]; exists 0, []; rewrite add_trace_nil;
    split; [done|]; split; [constructor|by left]|].
  { destruct buf; simpl in Hm; [done|lia]. }
  destruct (HL (r_trace s) fd buf Hb) as (j & Hj & Hr & Hw).
  assert (En : n = (j + S (n - j - 1))%nat) by nia. rewrite En, (retries_ok j _ s fd buf Hb Hr).
  set (s1 := add_trace (replicate j (EWriteError fd true)) s).
  assert (Hone : exists ret evs, blockingWrite_loop env (S (n - j - 1)) fd buf s1 = Ok (ret, add_trace evs s1) /\ write_end fd buf ret evs).
  { cbn [blockingWrite_loop]. destruct buf as [|x buf]; [done|]. rewrite bind_ask. cbn [r_trace s1 add_trace].
    destruct (o_write _ (r_trace s ++ _) fd (x :: buf)) as [w|again].
    - set (w' := Nat.min w (length (x :: buf))). assert (0 < w')%nat by (unfold w'; simpl; lia). rewrite bind_emit.
      destruct (IH (n - j - 1)%nat (add_trace [EWrite fd (take w' (x :: buf))] s1) (drop w' (x :: buf))) as (ret & evs & E & Hio & Hend).
      { rewrite length_drop. simpl in *. lia. }
      { nia. }
      exists ret, (EWrite fd (take w' (x :: buf)) :: evs). split; [by rewrite E, add_trace_app|].
      split; [by constructor|]. unfold sent_on. cbn [fmap list_fmap concat]. rewrite Z.eqb_refl.
      fold (sent_on fd evs). destruct Hend as [[-> Hs]|(-> & Hs & Hc)].
      + left. by rewrite Hs, take_drop.
      + right. split_and!; [done| |set_solver]. rewrite <- (take_drop w' (x :: buf)) at 2. by apply prefix_app.
    - subst again. exists (-1), [EWriteError fd false; EClose fd]. rewrite bind_emit, bind_emit, add_trace_app.
      split; [done|]. split; [repeat constructor|]. right. split_and!; [done|apply prefix_nil|set_solver]. }
  destruct Hone as (ret & evs & E & He). exists ret, (replicate j (EWriteError fd true) ++ evs).
  split; [unfold s1 in *; by rewrite E, add_trace_app|by apply write_end_retries].
Qed.

(** What [sendResponseRaw] does with a packet. *)
Definition sends (s : ril_state) (data : list Z) (ret : Z) (evs : list effect) : Prop :=
  if (s_fdCommand s <? 0) || (Z.of_nat (length data) >? MAX_COMMAND_BYTES)
  then ret = -1 /\ evs = []
  else write_end (s_fdCommand s) (be32 (Z.of_nat (length data)) ++ data) ret evs.

Lemma write_end_app fd b1 b2 e1 e2 ret :
  write_end fd b1 0 e1 -> write_end fd b2 ret e2 -> write_end fd (b1 ++ b2) ret (e1 ++ e2).
Proof.
  intros [I1 [[_ S1]|[? _]]] [I2 H2]; [|done]. split; [by apply Forall_app|]. rewrite sent_on_app, S1.
  destruct H2 as [[-> S2]|(-> & S2 & C2)]; [left; by rewrite S2|right].
  split_and!; [done|by apply prefix_app|set_solver].
Qed.

Lemma sendResponseRaw_ok (s : ril_state) data :
  exists ret evs, sendResponseRaw fuel env data s = Ok (ret, add_trace evs s) /\ sends s data ret evs.
Proof.
  destruct Hlive as (k & Hf & HL). unfold sendResponseRaw, sends. rewrite bind_get.
  destruct (s_fdCommand s <? 0); cbn [orb]; [by exists (-1), []; rewrite add_trace_nil|].
  destruct (Z.gtb_spec (Z.of_nat (length data)) MAX_COMMAND_BYTES); [by exists (-1), []; rewrite add_trace_nil|].
  assert (Hw : forall sx b, Z.of_nat (length b) <= MAX_COMMAND_BYTES ->
    exists ret evs, blockingWrite fuel env (s_fdCommand s) b sx = Ok (ret, add_trace evs sx) /\ write_end (s_fdCommand s) b ret evs).
  { intros sx b Hb. apply (blockingWrite_loop_ok k (Z.to_nat MAX_COMMAND_BYTES)); [done|lia|done]. }
  destruct (Hw s (be32 (Z.of_nat (length data)))) as (r1 & e1 & E1 & H1).
  { rewrite length_be32. unfold MAX_COMMAND_BYTES. lia. }
  run_cmd E1. pose proof H1 as [Hio1 [[-> S1]|(-> & S1 & C1)]].
  - cbn [Z.ltb Z.compare]. destruct (Hw (add_trace e1 s) data) as (r2 & e2 & E2 & H2); [lia|].
    run_cmd E2. rewrite add_trace_app. pose proof H2 as [_ [[-> _]|(-> & _)]]; cbn [Z.ltb Z.compare];
      eexists _, (e1 ++ e2); (split; [done|by apply write_end_app]).
  - exists (-1), e1. split; [done|]. split; [done|]. right. split_and!; [done| |done].
    etrans; [exact S1|]. by apply prefix_app_r.
Qed.

End Sending.

(** ** Completing a request *)

Section Complete.
Context {P : Type} {HPar : Parcel P} {HLaws : ParcelLaws P} {HJS : JString} {HH : RilH}.
Variables (fuel : nat) (env : ril_env).
Hypothesis Hlive : socket_live fuel env.
Hypothesis sizes_pos : forall t, 0 < sizeof t.

(** What the vendor may pass to complete the request [r]. *)
Definition completion_ok (version : Z) (r : RequestInfo) (response : voidptr) (responselen : Z) : Prop :=
  response = VNull \/
  exists f, responseFunction (pCI r) = Some f /\ object_ok (P := P) version f response responselen.

(** The packet for a completion: the header, then what the request's
    response function wrote; when it failed, the error code in the header
    is replaced by its result. *)
Definition completion_packet (version : Z) (r : RequestInfo) (e : Z) (response : voidptr) (responselen : Z)
    (packet : list Z) : Prop :=
  let header code := le32 RESPONSE_SOLICITED ++ le32 (token r) ++ le32 code in
  (response = VNull /\ packet = header e) \/
  response <> VNull /\
  exists f (p0 p1 : P) ret body, responseFunction (pCI r) = Some f /\ parcel_data p0 = header e /\ at_end p0 /\
    responseFn version f response responselen p0 = Ok (ret, p1) /\ parcel_data p1 = header e ++ body /\
    packet = header (if ret =? 0 then e else ret) ++ body.

(** When the response function's writes are known, so is the packet. *)
Lemma completion_packet_appends version r e response responselen f ret bs packet :
  response <> VNull -> responseFunction (pCI r) = Some f ->
  appends (P := P) (responseFn version f response responselen) ret bs ->
  completion_packet version r e response responselen packet ->
  packet = le32 RESPONSE_SOLICITED ++ le32 (token r) ++ le32 (if ret =? 0 then e else ret) ++ bs.
Proof.
  intros Hn Hf Ha [[? _]|(_ & f' & p0 & p1 & ret' & body & Hf' & D0 & A0 & E & D1 & ->)]; [done|].
  rewrite Hf in Hf'. injection Hf' as <-. destruct (Ha p0 A0) as (p1' & E' & _ & D1').
  rewrite E in E'. injection E' as -> ->. rewrite D1, D0 in D1'. apply app_inv_head in D1' as ->.
  by rewrite <- !app_assoc.
Qed.

Lemma header_parcel tok e :
  let p := writeInt32 e (writeInt32 tok (writeInt32 RESPONSE_SOLICITED parcel_new)) in
  parcel_data (P := P) p = le32 RESPONSE_SOLICITED ++ le32 tok ++ le32 e /\ at_end p /\
  dataPosition (P := P) (writeInt32 tok (writeInt32 RESPONSE_SOLICITED parcel_new)) = 8%nat.
Proof.
  destruct pl_new as [D0 P0].
  assert (He : at_end (parcel_new : P)) by (unfold at_end; by rewrite D0, P0).
  destruct (wrote_end _ _ _ (pl_writeInt32 RESPONSE_SOLICITED parcel_new) He) as [E1 D1].
  destruct (wrote_end _ _ _ (pl_writeInt32 tok (writeInt32 RESPONSE_SOLICITED parcel_new)) E1) as [E2 D2].
  destruct (wrote_end _ _ _ (pl_writeInt32 e (writeInt32 tok (writeInt32 RESPONSE_SOLICITED parcel_new))) E2) as [E3 D3].
  cbn zeta. split_and!; [|done|].
  - by rewrite D3, D2, D1, D0, <- app_assoc.
  - unfold at_end in E2. by rewrite E2, D2, D1, D0.
Qed.

Lemma patch_header a b c b' (rest : list Z) :
  length a = 4%nat -> length b = 4%nat -> length c = 4%nat -> length b' = 4%nat ->
  patch 8 b' ((a ++ b ++ c) ++ rest) = (a ++ b ++ b') ++ rest.
Proof.
  intros Ha Hb Hc Hb'. rewrite <- !app_assoc. rewrite (app_assoc a b), (app_assoc a b (b' ++ rest)).
  assert (H8 : length (a ++ b) = 8%nat) by (rewrite length_app; lia). rewrite <- H8 at 1. by apply patch_same; rewrite Hc.
Qed.

Lemma response_parcel_ok (s : ril_state) version r e response responselen :
  completion_ok version r response responselen ->
  exists p : P, response_parcel version r e response responselen s = Ok (p, s) /\
    completion_packet version r e response responselen (parcel_data p).
Proof.
  intros Hok. unfold response_parcel. destruct (header_parcel (token r) e) as (D & E & P8). cbn zeta in D, E.
  set (p2 := writeInt32 (token r) (writeInt32 RESPONSE_SOLICITED parcel_new)) in *.
  destruct (is_null response) eqn:Hnull.
  { exists (writeInt32 e p2). split; [done|]. left. split; [by destruct response|done]. }
  destruct Hok as [->|(f & Hf & Ho)]; [done|]. rewrite Hf.
  destruct (responseFn_responds version sizes_pos f response responselen Ho _ E) as (ret & p1 & E1 & Hst & Pe & [body Dp]).
  rewrite D in Dp. unfold local_parcel. unfold mbind at 1, cmd_bind at 1. rewrite E1.
  assert (Hpk : forall packet, packet = (le32 RESPONSE_SOLICITED ++ le32 (token r) ++ le32 (if ret =? 0 then e else ret)) ++ body ->
    completion_packet version r e response responselen packet).
  { intros packet ->. right. split; [by intros ->|]. exists f, (writeInt32 e p2), p1, ret, body. done. }
  destruct (ret =? 0) eqn:Hr.
  - exists p1. split; [done|]. apply Hpk. by rewrite Dp.
  - rewrite P8. eexists. split; [done|]. apply Hpk.
    destruct (pl_setPos 8 p1) as [Ds Ps]; [rewrite Dp, !length_app, !length_le32; lia|].
    destruct (pl_writeInt32 ret (setDataPosition 8 p1)) as [Dw _]. rewrite Dw, Ds, Ps, Dp.
    by apply patch_header; apply length_le32.
Qed.

(** A token that is not pending: nothing happens. *)
Lemma complete_absent (s : ril_state) l t e response responselen :
  reqs s l -> (forall a, t = Some a -> a ∉ l) ->
  RIL_onRequestComplete (P := P) fuel env t e response responselen s = Ok (tt, s).
Proof.
  intros Hl Ht. unfold RIL_onRequestComplete. rewrite (cmd_bind_Ok _ _ _ _ _ (dequeue_absent_ok s l t Hl Ht)).
  by destruct t.
Qed.

(** The state after the request [a] left: the heap without it, the trace
    extended by [evs], the rest as it was. *)
Definition completed (s : ril_state) (a : loc) (evs : list effect) (s' : ril_state) : Prop :=
  r_heap s' !! a = None /\
  (forall b, b <> a -> rdata <$> r_heap s' !! b = rdata <$> r_heap s !! b) /\
  s' = add_trace evs (set_reqs (r_heap s') (s_pendingRequests s') s).

(** No response is due: a local request, or one whose client is gone. *)
Definition silent (r : RequestInfo) : bool := (local r >? 0) || negb (cancelled r =? 0).

(** What a completion puts on the socket. *)
Definition answered (s : ril_state) (r : RequestInfo) (e : Z) (response : voidptr) (responselen : Z) (evs : list effect) : Prop :=
  if silent r then evs = []
  else exists packet ret, completion_packet (r_version s) r e response responselen packet /\ sends s packet ret evs.

Lemma complete_dequeued_ok (s : ril_state) l a r e response responselen :
  reqs s l -> a ∉ l -> r_heap s !! a = Some r ->
  (silent r = false -> completion_ok (r_version s) r response responselen) ->
  exists evs, complete_dequeued (P := P) fuel env a e response responselen s =
      Ok (tt, add_trace evs (set_reqs (delete a (r_heap s)) (s_pendingRequests s) s)) /\
    reqs (add_trace evs (set_reqs (delete a (r_heap s)) (s_pendingRequests s) s)) l /\
    answered s r e response responselen evs.
Proof.
  intros Hl Ha Hr Hok. unfold complete_dequeued. rewrite (cmd_bind_Ok _ _ _ _ _ (load_req_ok _ _ _ Hr)).
  assert (Hfin : forall evs, free_req a (add_trace evs s) =
            Ok (tt, add_trace evs (set_reqs (delete a (r_heap s)) (s_pendingRequests s) s))).
  { intros evs. unfold free_req. simpl r_heap. by rewrite Hr. }
  assert (Hq : forall evs, reqs (add_trace evs (set_reqs (delete a (r_heap s)) (s_pendingRequests s) s)) l).
  { intros evs. eapply reqs_ext; [| |by apply (reqs_free s l a)]; done. }
  unfold answered, silent in *.
  assert (Hnone : forall m : rcmd unit, m s = Ok (tt, s) -> (m;; free_req a) s = Ok (tt, add_trace [] (set_reqs (delete a (r_heap s)) (s_pendingRequests s) s))).
  { intros m Hm. specialize (Hfin []). rewrite add_trace_nil in Hfin. by rewrite (cmd_bind_Ok _ _ _ _ _ Hm). }
  destruct (local r >? 0); cbn [orb] in *; [exists []; split_and!; [by apply Hnone|done|done]|].
  destruct (cancelled r =? 0); cbn [negb] in *; [|exists []; split_and!; [by apply Hnone|done|done]].
  destruct (response_parcel_ok s (r_version s) r e response responselen (Hok eq_refl)) as (p & E2 & Hpk).
  destruct (sendResponseRaw_ok fuel env Hlive s (parcel_data p)) as (ret & evs & E3 & Hs).
  exists evs. split_and!; [|done|by exists (parcel_data p), ret].
  assert (Em : (s ← get_st; p ← response_parcel (r_version s) r e response responselen;
                sendResponse fuel env p;; mret tt) s = Ok (tt, add_trace evs s)).
  { rewrite bind_get. run_cmd E2. unfold sendResponse. by run_cmd E3. }
  run_cmd Em. apply Hfin.
Qed.

Lemma complete_present (s : ril_state) l1 a l2 r e response responselen :
  reqs s (l1 ++ a :: l2) -> r_heap s !! a = Some r ->
  (silent r = false -> completion_ok (r_version s) r response responselen) ->
  exists s' evs, RIL_onRequestComplete (P := P) fuel env (Some a) e response responselen s = Ok (tt, s') /\
    reqs s' (l1 ++ l2) /\ completed s a evs s' /\ answered s r e response responselen evs.
Proof.
  intros Hl Hr Hok. unfold RIL_onRequestComplete.
  destruct (dequeue_ok s l1 a l2 Hl) as (s1 & E1 & L1 & D1 & S1). run_cmd E1. cbn [Z.eqb].
  destruct (same_rdata_some _ _ _ _ D1 Hr) as (r1 & Hr1 & Hrd). unfold rdata in Hrd. injection Hrd as Ht Hp Hc Hlo.
  assert (Ha : a ∉ l1 ++ l2).
  { destruct Hl as [Hn _]. apply NoDup_app in Hn as (_ & H2 & H3). apply NoDup_cons in H3 as [H3 _]. set_solver. }
  assert (Hsil : silent r1 = silent r) by (unfold silent; by rewrite Hlo, Hc).
  assert (Hv : r_version s1 = r_version s) by (by rewrite S1).
  destruct (complete_dequeued_ok s1 (l1 ++ l2) a r1 e response responselen L1 Ha Hr1) as (evs & E2 & L2 & A2).
  { rewrite Hsil, Hv. unfold completion_ok. rewrite Hp. done. }
  eexists _, evs. split; [exact E2|]. split; [done|]. split.
  - split_and!; simpl.
    + apply lookup_delete_eq.
    + intros b Hb. rewrite lookup_delete_ne by done. apply D1.
    + by rewrite S1.
  - unfold answered in *. rewrite Hsil, Hv in A2. destruct (silent r); [done|].
    destruct A2 as (packet & ret & Hpk & Hs). exists packet, ret. split.
    + unfold completion_packet in *. by rewrite Ht, Hp in Hpk.
    + unfold sends in *. by rewrite S1 in Hs.
Qed.

End Complete.

(** ** Cancellation *)

Lemma cancel_loop_ok n (s : ril_state) head l :
  req_chain (r_heap s) head l -> NoDup l -> (length l < n)%nat ->
  exists h', cancel_loop n head s = Ok (tt, set_reqs h' (s_pendingRequests s) s) /\
    (forall a, h' !! a = if decide (a ∈ l) then set_cancelled 1 <$> r_heap s !! a else r_heap s !! a).
Proof.
  revert s head l; induction n as [|n IH]; intros s head l Hc Hn Hlen; [lia|]. cbn [cancel_loop].
  destruct l as [|b l]; simpl in Hc.
  { subst head. exists (r_heap s). split; [by destruct s|done]. }
  destruct Hc as (-> & r & Hr & Hc). apply NoDup_cons in Hn as [Hb Hn].
  set (s1 := set_reqs (<[b := set_cancelled 1 r]> (r_heap s)) (s_pendingRequests s) s).
  assert (E1 : store_req b (set_cancelled 1) s = Ok (tt, s1)) by (unfold store_req; by rewrite Hr). run_cmd E1.
  assert (E2 : load_req b s1 = Ok (set_cancelled 1 r, s1)) by (apply load_req_ok; simpl; apply lookup_insert_eq). run_cmd E2.
  destruct (IH s1 (p_next (set_cancelled 1 r)) l) as (h' & E3 & H3); [|done|simpl in Hlen; lia|].
  { eapply req_chain_frame; [|exact Hc]. intros x Hx. simpl. rewrite lookup_insert_ne; [done|]. by intros ->. }
  exists h'. split; [by rewrite E3|]. intros x. rewrite H3. simpl. destruct (decide (x = b)) as [->|Hne].
  - rewrite decide_False by done. rewrite decide_True by set_solver. by rewrite lookup_insert_eq, Hr.
  - rewrite lookup_insert_ne by done. destruct (decide (x ∈ l)), (decide (x ∈ b :: l)); set_solver.
Qed.

Lemma onCommandsSocketClosed_ok (s : ril_state) l :
  reqs s l ->
  exists h', onCommandsSocketClosed s = Ok (tt, set_reqs h' (s_pendingRequests s) s) /\
    reqs (set_reqs h' (s_pendingRequests s) s) l /\
    (forall a, h' !! a = if decide (a ∈ l) then set_cancelled 1 <$> r_heap s !! a else r_heap s !! a).
Proof.
  intros [Hn Hc]. unfold onCommandsSocketClosed. rewrite (cmd_bind_Ok _ _ _ _ _ (eq_refl : get_st s = Ok (s, s))).
  pose proof (req_chain_length _ _ _ Hn Hc).
  destruct (cancel_loop_ok (S (size (r_heap s))) s (s_pendingRequests s) l Hc Hn) as (h' & E & H'); [lia|].
  exists h'. split_and!; [done| |done]. split; [done|]. simpl. eapply req_chain_next; [|exact Hc].
  intros a Ha. rewrite H', decide_True by done. by destruct (r_heap s !! a).
Qed.
