(* ===== verification/RilTimers.v ===== *)
(** * Timed callbacks and the wake lock

    [internalRequestTimedCallback] on the event loop's invariant, and the
    invariant of the wake lock: the last wake timer is the only one that
    will still release the lock ([userParam] is NULL), the earlier ones are
    cancelled. *)

From S2P Require Import Prelude Bytes Parcel RilConst RilTypes RilDispatch RilResponse.
From S2P Require Import EventHeap EventLoop EventSpec EventLoopSpec RilCore RilRequests.

(** ** Changing the event heap outside the event loop *)

Lemma ev_inv_agree {CB} (s : estate CB) (h' : gmap loc ril_event) ts ps :
  ev_inv s ts ps ->
  (forall b, b ∈ timer_list :: pending_list :: ts ++ ps \/ (exists i, slot (watch_table s) i b) -> h' !! b = ev_heap s !! b) ->
  ev_inv (set_heap h' s) ts ps.
Proof.
  intros [(HT & HP & HD) HS HW HN HDj] Hb. destruct HW as [W1 W2 W3 W4].
  assert (Hlnk : forall b, b ∈ timer_list :: pending_list :: ts ++ ps ->
                nxt h' b = nxt (ev_heap s) b /\ prv h' b = prv (ev_heap s) b).
  { intros b Hin. unfold nxt, prv. by rewrite Hb by auto. }
  assert (Hsf : forall i x, slot_fd h' (watch_table s) i x <-> slot_fd (ev_heap s) (watch_table s) i x).
  { intros i x. split; intros (a & e & Hs & Ha & Hx); exists a, e; [rewrite Hb in Ha by eauto|rewrite Hb by eauto]; done. }
  split; simpl; [| | |done|done].
  - split_and!; [| |done].
    + eapply dll_frame; [|done]. intros b Hin. apply Hlnk. set_solver.
    + eapply dll_frame; [|done]. intros b Hin. apply Hlnk. set_solver.
  - eapply timers_sorted_ext; [|done]. intros b Hin. unfold tmo. rewrite Hb by set_solver. done.
  - split; [done| | |].
    + intros i a Hs. rewrite Hb by eauto. by apply W2.
    + intros x. rewrite W3. by setoid_rewrite Hsf.
    + intros i j x Hi Hj. exact (W4 i j x (proj1 (Hsf i x) Hi) (proj1 (Hsf j x) Hj)).
Qed.

(** Everything the event loop points to is allocated. *)
Lemma ev_inv_alloc {CB} (s : estate CB) ts ps b :
  ev_inv s ts ps -> b ∈ timer_list :: pending_list :: ts ++ ps \/ (exists i, slot (watch_table s) i b) ->
  b ∈ dom (ev_heap s).
Proof.
  intros [(HT & HP & HD) HS HW HN HDj] Hb. apply elem_of_dom. destruct Hb as [Hb|[i Hi]].
  - assert (b ∈ timer_list :: ts \/ b ∈ pending_list :: ps) as [Hin|Hin] by set_solver.
    + by apply (dll_some _ _ _ b HT).
    + by apply (dll_some _ _ _ b HP).
  - destruct (wo_ev _ _ _ HW i b Hi) as (e & He & _). by rewrite He.
Qed.

Lemma ril_event_set_ok {CB} (s : estate CB) a e f pers cb prm :
  ev_heap s !! a = Some e ->
  ril_event_set (Some a) f pers cb prm s =
    Ok (tt, set_heap (<[a := mkEv None None f (-1) pers (mkTv 0 0) cb prm]> (ev_heap s)) s).
Proof.
  intros He. unfold ril_event_set, onheap, mbind, cmd_bind, upd. rewrite He.
  do 3 rewrite lookup_insert_eq. do 3 rewrite insert_insert_eq. done.
Qed.

(** ** Timed callbacks *)

(** Only these members change. *)
Definition with_timer (s : ril_state) (e : estate callback) (t : gmap loc UserCallbackInfo) (evs : list effect) : ril_state :=
  add_trace evs (set_ev e (set_timers t (s_last_wake_timeout_info s) s)).

(** The event [a] was added for a user callback; no other changed but for
    its links. *)
Definition timer_added (v v' : estate callback) (a : loc) : Prop :=
  watch_table v' = watch_table v /\ readFds v' = readFds v /\ nfds v' = nfds v /\
  desc (ev_heap v') a = Some (CB_userTimerCallback, -1, Some a) /\
  (forall b, b <> a -> cfg <$> ev_heap v' !! b = cfg <$> ev_heap v !! b).

Section Timers.
Context {P : Type} {HPar : Parcel P} {HLaws : ParcelLaws P} {HJS : JString} {HH : RilH}.
Variables (fuel : nat) (env : ril_env).

(** The allocator returns unused addresses; the clock is normalised. *)
Hypothesis alloc_fresh : forall X, o_alloc env X ∉ X.
Hypothesis now_ok : forall tr, tv_ok (o_now env tr).

Definition due_list (s : ril_state) (ts : list loc) (a : loc) (d : Z) : list loc :=
  List.filter (fun b => due (ev_heap (r_ev s)) b <? d) ts ++
  a :: List.filter (fun b => negb (due (ev_heap (r_ev s)) b <? d)) ts.

Lemma trigger_ok (s : ril_state) :
  exists evs, triggerEvLoop env s = Ok (tt, add_trace evs s) /\ evs ⊆ [ETrigger].
Proof.
  clear alloc_fresh now_ok. unfold triggerEvLoop. rewrite bind_ask.
  destruct (o_self_is_dispatch env (r_trace s)).
  - exists []. rewrite add_trace_nil. split; [done|set_solver].
  - exists [ETrigger]. split; [done|set_solver].
Qed.

Lemma timed_callback_ok (s : ril_state) ts ps cb param rel :
  ev_inv (r_ev s) ts ps -> tv_ok (default (mkTv 0 0) rel) ->
  let a := o_alloc env (used s) in
  let d := us32 (tv_us (o_now env (r_trace s)) + tv_us (default (mkTv 0 0) rel)) in
  exists e' evs, internalRequestTimedCallback env cb param rel s =
      Ok (a, with_timer s e' (<[a := mkUCI cb param]> (r_timers s)) evs) /\
    (evs ⊆ [ETrigger]) /\ (a ∉ used s) /\ due (ev_heap e') a = d /\
    timer_added (r_ev s) e' a /\
    ev_inv e' (due_list s ts a d) ps.
Proof.
  intros HI Hrel a d. set (h0 := ev_heap (r_ev s)).
  assert (Hfresh : a ∉ used s) by apply alloc_fresh.
  assert (Hnin : forall b, b ∈ timer_list :: pending_list :: ts ++ ps \/ (exists i, slot (watch_table (r_ev s)) i b) -> b <> a).
  { intros b Hb ->. apply Hfresh. unfold used. apply (ev_inv_alloc _ _ _ _ HI) in Hb. set_solver. }
  set (e0 := mkEv None None (-1) (-1) false (mkTv 0 0) (Some CB_userTimerCallback) (Some a)).
  set (s1 := set_timers (<[a := mkUCI cb param]> (r_timers s)) (s_last_wake_timeout_info s) s).
  set (v1 := set_heap (<[a := zero_event]> h0) (r_ev s)). set (v2 := set_heap (<[a := e0]> h0) (r_ev s)).
  unfold internalRequestTimedCallback. rewrite bind_get. fold a. rewrite !bind_modify.
  change (set_timers _ _ s) with s1. change (set_ev _ s1) with (set_ev v1 s1).
  assert (E1 : onev (ril_event_set (Some a) (-1) false (Some CB_userTimerCallback) (Some a)) (set_ev v1 s1) =
               Ok (tt, set_ev v2 s1)).
  { unfold onev. simpl es_get. rewrite (ril_event_set_ok v1 a zero_event) by (simpl; apply lookup_insert_eq).
    simpl. by rewrite insert_insert_eq. }
  run_cmd E1. rewrite bind_ask. simpl r_trace.
  assert (HI2 : ev_inv v2 ts ps).
  { apply (ev_inv_agree (r_ev s)); [done|]. intros b Hb. rewrite lookup_insert_ne; [done|]. intros <-. by eapply Hnin. }
  destruct (ril_timer_add_ok v2 ts ps a (default (mkTv 0 0) rel) (o_now env (r_trace s)) e0)
    as (e' & E2 & Ht & Hr & Hnf & D & Hdue & HI'); [done|by apply lookup_insert_eq| | |done|done|].
  { intros Hb. by eapply Hnin; [left|]. }
  { intros i Hs. eapply Hnin; [right; by exists i|done]. }
  assert (E2' : onev (ril_timer_add (Some a) (Some (default (mkTv 0 0) rel)) (o_now env (r_trace s))) (set_ev v2 s1) =
                Ok (tt, set_ev e' s1)) by (unfold onev; simpl es_get; by rewrite E2).
  run_cmd E2'. destruct (trigger_ok (set_ev e' s1)) as (evs & E3 & Hev). run_cmd E3.
  exists e', evs. split; [done|]. split_and!; [done|done|done| |].
  - split_and!; [done..| |].
    + rewrite (desc_cfg_eq _ _ a (same_data_cfg _ _ D)). unfold desc. by rewrite lookup_insert_eq.
    + intros b Hb. rewrite (same_data_view cfg _ _ b (fun _ => eq_refl) D).
      simpl ev_heap. by rewrite !lookup_insert_ne by done.
  - unfold due_list. assert (Hd : forall b, b ∈ ts -> due (ev_heap v2) b = due h0 b).
    { intros b Hb. unfold due, tmo. simpl. rewrite lookup_insert_ne; [done|]. intros <-. eapply Hnin; [left|done]. set_solver. }
    assert (Hf : forall f : bool -> bool, List.filter (fun b => f (due (ev_heap v2) b <? d)) ts =
                                    List.filter (fun b => f (due h0 b <? d)) ts).
    { intros f. apply filter_ext_in. intros b Hb. by rewrite Hd by by apply list_elem_of_In. }
    pose proof (Hf (fun x => x)) as H1. pose proof (Hf negb) as H2. cbv beta in H1, H2. unfold d in H1, H2.
    rewrite H1, H2 in HI'. done.
Qed.

(** ** The wake lock *)

(** The wake timers that still hold the lock: exactly the last one. *)
Definition wake_inv (s : ril_state) : Prop :=
  (forall a u, r_timers s !! a = Some u -> p_callback u = TC_wakeTimeoutCallback -> userParam u = 0 ->
     s_last_wake_timeout_info s = Some a) /\
  (forall a, s_last_wake_timeout_info s = Some a -> r_timers s !! a = Some (mkUCI TC_wakeTimeoutCallback 0)).

Lemma wake_inv_timers s s' :
  r_timers s' = r_timers s -> s_last_wake_timeout_info s' = s_last_wake_timeout_info s -> wake_inv s -> wake_inv s'.
Proof. intros Ht Hl [H1 H2]. split; rewrite ?Ht, ?Hl; done. Qed.

(** Cancelling the previous wake timer. *)
Definition cancel_last (s : ril_state) : gmap loc UserCallbackInfo :=
  match s_last_wake_timeout_info s with
  | Some l => <[l := mkUCI TC_wakeTimeoutCallback 1]> (r_timers s)
  | None => r_timers s
  end.

Lemma schedule_wake_timeout_ok (s : ril_state) ts ps :
  ev_inv (r_ev s) ts ps -> wake_inv s ->
  let a := o_alloc env (used s) in
  let d := us32 (tv_us (o_now env (r_trace s)) + tv_us TIMEVAL_WAKE_TIMEOUT) in
  exists e' evs,
    let s' := add_trace evs (set_ev e' (set_timers (<[a := mkUCI TC_wakeTimeoutCallback 0]> (cancel_last s)) (Some a) s)) in
    schedule_wake_timeout env s = Ok (tt, s') /\ (evs ⊆ [ETrigger]) /\ (a ∉ used s) /\
    due (ev_heap e') a = d /\ timer_added (r_ev s) e' a /\ ev_inv e' (due_list s ts a d) ps /\ wake_inv s'.
Proof.
  intros HI [W1 W2] a d. set (s1 := set_timers (cancel_last s) (s_last_wake_timeout_info s) s).
  assert (Hused : used s1 = used s).
  { unfold used, s1, cancel_last. simpl. destruct (s_last_wake_timeout_info s) as [l|]; [|done].
    rewrite dom_insert_L, (subseteq_union_1_L {[l]}); [done|]. apply singleton_subseteq_l, elem_of_dom. by rewrite (W2 l eq_refl). }
  assert (E1 : (s0 ← get_st; match s_last_wake_timeout_info s0 with
      | Some l => match r_timers s0 !! l with
                  | Some u => modify (fun s => set_timers (<[l := mkUCI (p_callback u) 1]> (r_timers s)) (Some l) s)
                  | None => ub end
      | None => mret tt end) s = Ok (tt, s1)).
  { rewrite bind_get. unfold s1, cancel_last. destruct (s_last_wake_timeout_info s) as [l|] eqn:El; [by rewrite (W2 l eq_refl)|].
    destruct s; simpl in *; by subst. }
  destruct (timed_callback_ok s1 ts ps TC_wakeTimeoutCallback 0 (Some TIMEVAL_WAKE_TIMEOUT))
    as (e' & evs & E2 & Hev & Hfr & Hdue & Hadd & HI'); [done|by unfold tv_ok; simpl|].
  rewrite Hused in E2, Hfr, Hdue, Hadd, HI'. fold a in E2, Hfr, Hdue, Hadd, HI'. exists e', evs. cbn zeta. split; [|split_and!].
  - unfold schedule_wake_timeout. rewrite bind_get in E1. rewrite bind_get. run_cmd E1. by run_cmd E2.
  - done.
  - done.
  - done.
  - done.
  - done.
  - split; simpl.
    + intros b u Hb Hc Hp. destruct (decide (b = a)) as [->|Hne]; [done|]. rewrite lookup_insert_ne in Hb by done.
      exfalso. unfold cancel_last in Hb. destruct (s_last_wake_timeout_info s) as [l|] eqn:El.
      * destruct (decide (b = l)) as [->|]; [rewrite lookup_insert_eq in Hb; by simplify_eq|].
        rewrite lookup_insert_ne in Hb by done. specialize (W1 _ _ Hb Hc Hp). by simplify_eq.
      * by specialize (W1 _ _ Hb Hc Hp).
    + intros b [= <-]. apply lookup_insert_eq.
Qed.

(** A wake timer fires: the lock is released if it is the last one, the
    object is freed. *)
Lemma wake_timer_fires (s : ril_state) ts ps l u :
  ev_inv (r_ev s) ts ps -> wake_inv s -> r_timers s !! l = Some u -> p_callback u = TC_wakeTimeoutCallback ->
  l ∉ timer_list :: pending_list :: ts ++ ps -> (forall i, ~ slot (watch_table (r_ev s)) i l) ->
  let last := bool_decide (s_last_wake_timeout_info s = Some l) in
  exists s', userTimerCallback (P := P) fuel env (Some l) s = Ok (tt, s') /\
    r_trace s' = r_trace s ++ (if last then [EWakeLock false] else []) /\
    r_timers s' = delete l (r_timers s) /\
    s_last_wake_timeout_info s' = (if last then None else s_last_wake_timeout_info s) /\
    ev_inv (r_ev s') ts ps /\ wake_inv s' /\
    r_heap s' = r_heap s /\ s_pendingRequests s' = s_pendingRequests s.
Proof.
  intros HI HW Hl Hc Hnin Hns last. pose proof HW as [W1 W2].
  assert (Hlast : last = (userParam u =? 0)).
  { unfold last. destruct (Z.eqb_spec (userParam u) 0) as [Hu|Hu].
    - apply bool_decide_eq_true. by eapply W1.
    - apply bool_decide_eq_false. intros H. apply W2 in H. rewrite Hl in H. injection H as ->. done. }
  unfold userTimerCallback. rewrite bind_get, Hl, Hc.
  assert (Ew : wakeTimeoutCallback (userParam u) s = Ok (tt, add_trace (if last then [EWakeLock false] else []) s)).
  { unfold wakeTimeoutCallback. rewrite <- Hlast. destruct last; [done|]. by rewrite add_trace_nil. }
  run_cmd Ew. rewrite bind_modify. eexists. split; [done|]. simpl. split_and!; try done.
  - unfold last. case_bool_decide; [by rewrite decide_True|by rewrite decide_False].
  - apply (ev_inv_agree (r_ev s)); [done|]. intros b Hb. rewrite lookup_delete_ne; [done|]. intros <-.
    destruct Hb as [Hb|[i Hi]]; [done|by eapply Hns].
  - split; simpl.
    + intros b v Hb Hvc Hvp. apply lookup_delete_Some in Hb as [Hne Hb]. pose proof (W1 _ _ Hb Hvc Hvp) as Hs.
      rewrite decide_False; [done|]. rewrite Hs. intros [= <-]. done.
    + intros b. case_decide as Hd; [done|]. intros Hb. rewrite lookup_delete_ne; [by apply W2|]. intros <-. done.
Qed.

End Timers.
