(* ===== verification/RilUnsol.v ===== *)
(** * Unsolicited responses

    What one call of [RIL_onUnsolicitedResponse] does: which packet goes
    out, when the NITZ time is kept for later, and what happens to the wake
    lock; then the radio state change, which nests up to three others. *)

From S2P Require Import Prelude Bytes Parcel RilConst RilTypes RilDispatch RilResponse RilResponseSpec.
From S2P Require Import EventHeap EventLoop EventSpec RilCore RilRequests RilTimers.

Section Unsol.
Context {P : Type} {HPar : Parcel P} {HLaws : ParcelLaws P} {HJS : JString} {HH : RilH}.
Variables (fuel : nat) (env : ril_env).
Hypothesis alloc_fresh : forall X, o_alloc env X ∉ X.
Hypothesis now_ok : forall tr, tv_ok (o_now env tr).
Hypothesis Hlive : socket_live fuel env.
Hypothesis sizes_pos : forall t, 0 < sizeof t.

(** The row of [s_unsolResponses] for a code. *)
Definition unsol_row (code : Z) (ui : UnsolResponseInfo) : Prop :=
  rilh RIL_UNSOL_RESPONSE_BASE <= code /\
  s_unsolResponses !! Z.to_nat (code - rilh RIL_UNSOL_RESPONSE_BASE) = Some ui.

Definition wakes (ui : UnsolResponseInfo) : bool :=
  match wakeType ui with WAKE_PARTIAL => true | DONT_WAKE => false end.

(** The state after a response was sent: socket and wake timer. *)
Record unsol_sent (s : ril_state) (ps : list loc) (code : Z) (wake : bool) (packet : list Z) (s' : ril_state) : Prop := {
  us_fields : exists evs, s' = add_trace evs (set_ev (r_ev s') (set_timers (r_timers s') (s_last_wake_timeout_info s')
                (set_nitz (s_lastNITZTimeData s') s)));
  us_trace : exists ret sev tev, sends s packet ret sev /\ tev ⊆ [ETrigger] /\
    r_trace s' = r_trace s ++ sev ++ tev /\
    s_lastNITZTimeData s' =
      (if negb (ret =? 0) && (code =? rilh RIL_UNSOL_NITZ_TIME_RECEIVED) then Some packet else s_lastNITZTimeData s);
  us_ev : exists ts', ev_inv (r_ev s') ts' ps;
  us_wake : wake_inv s';
  us_last : if wake then exists a, s_last_wake_timeout_info s' = Some a /\ r_timers s !! a = None
            else r_timers s' = r_timers s /\ s_last_wake_timeout_info s' = s_last_wake_timeout_info s }.

Lemma unsol_send_ok (s : ril_state) ts ps code wake (p : P) :
  ev_inv (r_ev s) ts ps -> wake_inv s ->
  exists s', unsol_send fuel env code wake p s = Ok (tt, s') /\ unsol_sent s ps code wake (parcel_data p) s'.
Proof.
  intros HI HW. destruct (sendResponseRaw_ok fuel env Hlive s (parcel_data p)) as (ret & sev & E1 & Hs).
  set (keep := negb (ret =? 0) && (code =? rilh RIL_UNSOL_NITZ_TIME_RECEIVED)).
  set (s1 := set_nitz (if keep then Some (parcel_data p) else s_lastNITZTimeData s) (add_trace sev s)).
  assert (Hs1 : wake_inv s1) by (by apply (wake_inv_timers s)).
  assert (Eu : forall k : rcmd unit, (ret0 ← sendResponse fuel env p;
      (if negb (ret0 =? 0) && (code =? rilh RIL_UNSOL_NITZ_TIME_RECEIVED)
       then modify (set_nitz (Some (parcel_data p))) else mret tt);; k) s = k s1).
  { intros k. unfold sendResponse. run_cmd E1. fold keep. unfold s1. destruct keep; [done|].
    rewrite bind_ret. by destruct s. }
  unfold unsol_send. rewrite Eu. destruct wake.
  - destruct (schedule_wake_timeout_ok env alloc_fresh now_ok s1 ts ps HI Hs1) as (e' & evs & E2 & Hev & Hfr & _ & _ & HI' & HW').
    eexists. split; [exact E2|]. split.
    + simpl. exists (sev ++ evs). destruct s; simpl. unfold add_trace; simpl. by rewrite app_assoc.
    + exists ret, sev, evs. split_and!; [done|done| |done]. simpl. by rewrite app_assoc.
    + eauto.
    + exact HW'.
    + simpl. eexists. split; [done|]. apply not_elem_of_dom. unfold used in Hfr. simpl in Hfr. set_solver.
  - exists s1. split; [done|]. split.
    + exists sev. by destruct s.
    + exists ret, sev, []. rewrite app_nil_r. split_and!; [done|set_solver|done|done].
    + eauto.
    + done.
    + done.
Qed.

(** The packet: header, what the response function wrote, the receive time
    for NITZ. *)
Definition unsol_packet (version code : Z) (ui : UnsolResponseInfo) (data : voidptr) (datalen : Z)
    (extra : list Z) (packet : list Z) : Prop :=
  exists (p0 p1 : P) body, let header := le32 RESPONSE_UNSOLICITED ++ le32 code in
    parcel_data p0 = header /\ at_end p0 /\
    responseFn version (unsolResponseFunction ui) data datalen p0 = Ok (0, p1) /\
    parcel_data p1 = header ++ body /\ packet = header ++ body ++ extra.

Lemma unsol_packet_appends version code ui data datalen extra bs packet :
  appends (P := P) (responseFn version (unsolResponseFunction ui) data datalen) 0 bs ->
  unsol_packet version code ui data datalen extra packet ->
  packet = le32 RESPONSE_UNSOLICITED ++ le32 code ++ bs ++ extra.
Proof.
  intros Ha (p0 & p1 & body & D0 & A0 & E & D1 & ->). destruct (Ha p0 A0) as (p1' & E' & _ & D1').
  rewrite E in E'. injection E' as ->. rewrite D1, D0 in D1'. apply app_inv_head in D1' as ->.
  by rewrite <- !app_assoc.
Qed.

Lemma unsol_header code :
  let p := writeInt32 code (writeInt32 RESPONSE_UNSOLICITED parcel_new) in
  parcel_data (P := P) p = le32 RESPONSE_UNSOLICITED ++ le32 code /\ at_end p.
Proof.
  destruct pl_new as [D0 P0].
  assert (He : at_end (parcel_new : P)) by (unfold at_end; by rewrite D0, P0).
  destruct (wrote_end _ _ _ (pl_writeInt32 RESPONSE_UNSOLICITED parcel_new) He) as [E1 D1].
  destruct (wrote_end _ _ _ (pl_writeInt32 code (writeInt32 RESPONSE_UNSOLICITED parcel_new)) E1) as [E2 D2].
  cbn zeta. split; [|done]. by rewrite D2, D1, D0.
Qed.

(** The steps before the "more payload": the wake lock and the response
    function. *)
Lemma unsol_prefix unsol (s : ril_state) code ui data datalen :
  s_registerCalled s = true -> unsol_row code ui ->
  object_ok (P := P) (r_version s) (unsolResponseFunction ui) data datalen ->
  let grab := if wakes ui then [EWakeLock true] else [] in
  exists ret (p p1 : P) body,
    responseFn (r_version s) (unsolResponseFunction ui) data datalen p = Ok (ret, p1) /\ status_ok ret /\
    parcel_data p = le32 RESPONSE_UNSOLICITED ++ le32 code /\ at_end p /\
    parcel_data p1 = (le32 RESPONSE_UNSOLICITED ++ le32 code) ++ body /\ at_end p1 /\
    onUnsolicited_with fuel env unsol code data datalen s =
      if ret =? 0 then
        (p ← extra_payload env unsol code (if code =? rilh RIL_UNSOL_NITZ_TIME_RECEIVED
                                           then o_realtime env (r_trace s ++ grab) else 0) p1;
         unsol_send fuel env code (wakes ui) p) (add_trace grab s)
      else Ok (tt, add_trace (grab ++ if wakes ui then [EWakeLock false] else []) s).
Proof.
  intros Hr [Hb Hu] Ho grab. destruct (unsol_header code) as [Dh Eh]. cbn zeta in Dh, Eh.
  destruct (responseFn_responds (r_version s) sizes_pos _ _ _ Ho _ Eh) as (ret & p1 & E1 & Hst & Pe & [body Dp]).
  rewrite Dh in Dp. eexists ret, _, p1, body. split_and!; [exact E1|done|done|done|done|done|].
  unfold onUnsolicited_with. rewrite bind_get, Hr. cbn [negb].
  replace (code - rilh RIL_UNSOL_RESPONSE_BASE <? 0) with false by lia. rewrite Hu. fold (wakes ui).
  assert (Eg : (if wakes ui then grabPartialWakeLock else mret tt) s = Ok (tt, add_trace grab s)).
  { unfold grab. destruct (wakes ui); [done|]. by rewrite add_trace_nil. }
  run_cmd Eg. rewrite bind_ask. cbn [r_trace add_trace].
  assert (El : local_parcel (responseFn (r_version s) (unsolResponseFunction ui) data datalen)
      (writeInt32 code (writeInt32 RESPONSE_UNSOLICITED parcel_new)) (add_trace grab s) = Ok ((ret, p1), add_trace grab s)).
  { unfold local_parcel. by rewrite E1. }
  run_cmd El. destruct (ret =? 0); cbn [negb]; [done|].
  unfold grab. destruct (wakes ui); [|by rewrite app_nil_r]. unfold releaseWakeLock, emit, modify. by rewrite add_trace_app.
Qed.

(** Any code but the radio state change: either the response function
    rejects the data and the lock just taken is released, or the packet is
    sent. *)
Lemma unsol_plain_ok unsol (s : ril_state) ts ps code ui data datalen :
  s_registerCalled s = true -> unsol_row code ui -> code <> rilh RIL_UNSOL_RESPONSE_RADIO_STATE_CHANGED ->
  object_ok (P := P) (r_version s) (unsolResponseFunction ui) data datalen ->
  ev_inv (r_ev s) ts ps -> wake_inv s ->
  let grab := if wakes ui then [EWakeLock true] else [] in
  let extra := if code =? rilh RIL_UNSOL_NITZ_TIME_RECEIVED then le64 (o_realtime env (r_trace s ++ grab)) else [] in
  exists s', onUnsolicited_with fuel env unsol code data datalen s = Ok (tt, s') /\
    ((exists (p p1 : P), at_end p /\ responseFn (r_version s) (unsolResponseFunction ui) data datalen p =
         Ok (RIL_ERRNO_INVALID_RESPONSE, p1) /\
       s' = add_trace (grab ++ if wakes ui then [EWakeLock false] else []) s) \/
     exists packet, unsol_packet (r_version s) code ui data datalen extra packet /\
       unsol_sent (add_trace grab s) ps code (wakes ui) packet s').
Proof.
  intros Hr Hu Hne Ho HI HW grab extra.
  destruct (unsol_prefix unsol s code ui data datalen Hr Hu Ho) as (ret & p & p1 & body & E1 & Hst & Dp & Ap & Dp1 & Pe & E).
  rewrite E. destruct Hst as [->| ->]; cbn [Z.eqb].
  - unfold extra_payload. replace (code =? rilh RIL_UNSOL_RESPONSE_RADIO_STATE_CHANGED) with false by lia.
    set (p2 := if code =? rilh RIL_UNSOL_NITZ_TIME_RECEIVED then writeInt64 (o_realtime env (r_trace s ++ grab)) p1 else p1).
    assert (Dp2 : parcel_data p2 = parcel_data p1 ++ extra).
    { unfold p2, extra. destruct (code =? _); [|by rewrite app_nil_r]. by apply (wrote_end _ _ _ (pl_writeInt64 _ p1) Pe). }
    destruct (unsol_send_ok (add_trace grab s) ts ps code (wakes ui) p2 HI) as (s' & E2 & H2); [by apply (wake_inv_timers s)|].
    exists s'. split.
    + rewrite <- E2. unfold p2. by destruct (code =? rilh RIL_UNSOL_NITZ_TIME_RECEIVED).
    + right. exists (parcel_data p2). split; [|done]. exists p, p1, body. cbn zeta. split_and!; [done..|].
      by rewrite Dp2, Dp1, <- !app_assoc.
  - eexists. split; [done|]. left. by exists p, p1.
Qed.

(** A response function known to append [bs] is never rejected. *)
Lemma unsol_appends_ok unsol (s : ril_state) ts ps code ui data datalen bs :
  s_registerCalled s = true -> unsol_row code ui -> code <> rilh RIL_UNSOL_RESPONSE_RADIO_STATE_CHANGED ->
  object_ok (P := P) (r_version s) (unsolResponseFunction ui) data datalen ->
  appends (P := P) (responseFn (r_version s) (unsolResponseFunction ui) data datalen) 0 bs ->
  ev_inv (r_ev s) ts ps -> wake_inv s ->
  let grab := if wakes ui then [EWakeLock true] else [] in
  let extra := if code =? rilh RIL_UNSOL_NITZ_TIME_RECEIVED then le64 (o_realtime env (r_trace s ++ grab)) else [] in
  exists s', onUnsolicited_with fuel env unsol code data datalen s = Ok (tt, s') /\
    unsol_sent (add_trace grab s) ps code (wakes ui) (le32 RESPONSE_UNSOLICITED ++ le32 code ++ bs ++ extra) s'.
Proof.
  intros Hr Hu Hne Ho Ha HI HW grab extra.
  destruct (unsol_plain_ok unsol s ts ps code ui data datalen Hr Hu Hne Ho HI HW)
    as (s' & E & [(p & p1 & Ap & E1 & _)|(packet & Hpk & Hs)]).
  - destruct (Ha p Ap) as (p' & E2 & _). rewrite E1 in E2. done.
  - exists s'. split; [done|]. pose proof (unsol_packet_appends _ _ _ _ _ _ _ _ Ha Hpk) as ->. done.
Qed.

(** ** Radio state *)

Definition radio (s : ril_state) : Z * Z * Z := (voiceRadioTech s, cdmaSubscriptionSource s, simRuimStatus s).

(** The state between two calls into the daemon. *)
Definition unsol_inv (s : ril_state) : Prop :=
  s_registerCalled s = true /\ wake_inv s /\ exists ts ps, ev_inv (r_ev s) ts ps.

(** How often the wake lock was taken: once per response that wakes. *)
Definition grabs (tr : list effect) : nat :=
  length (List.filter (fun e => match e with EWakeLock true => true | _ => false end) tr).

Lemma grabs_app t1 t2 : grabs (t1 ++ t2) = (grabs t1 + grabs t2)%nat.
Proof. unfold grabs. by rewrite List.filter_app, length_app. Qed.

Lemma grabs_none tr : (forall e, e ∈ tr -> e <> EWakeLock true) -> grabs tr = 0%nat.
Proof.
  intros H. unfold grabs. rewrite filter_none; [done|]. intros e He. specialize (H e He). by destruct e as [| | | | |[]| | | | | |].
Qed.

Lemma grabs_io fd tr : io_only fd tr -> grabs tr = 0%nat.
Proof. intros H. apply grabs_none. intros e He ->. unfold io_only in H. rewrite Forall_forall in H. by specialize (H _ He). Qed.

Lemma grabs_trigger tr : tr ⊆ [ETrigger] -> grabs tr = 0%nat.
Proof. intros H. apply grabs_none. intros e He ->. specialize (H _ He). set_solver. Qed.

Lemma grabs_sends s packet ret evs : sends s packet ret evs -> grabs evs = 0%nat.
Proof. unfold sends. case_match; [by intros [_ ->]|]. intros [Hio _]. by eapply grabs_io. Qed.

(** What an unsolicited response leaves alone (the trace only grows). *)
Definition same_rest (s s' : ril_state) : Prop :=
  r_heap s' = r_heap s /\ s_pendingRequests s' = s_pendingRequests s /\ s_fdCommand s' = s_fdCommand s /\
  s_fdListen s' = s_fdListen s /\ r_version s' = r_version s /\ s_lastNITZTimeData s' = s_lastNITZTimeData s.

Lemma same_rest_trans s1 s2 s3 : same_rest s1 s2 -> same_rest s2 s3 -> same_rest s1 s3.
Proof. unfold same_rest. intuition congruence. Qed.

(** A notification, for its effect on the rest of the state. *)
Lemma notify_ok unsol (s : ril_state) code ui data datalen :
  unsol_inv s -> unsol_row code ui -> code <> rilh RIL_UNSOL_RESPONSE_RADIO_STATE_CHANGED ->
  code <> rilh RIL_UNSOL_NITZ_TIME_RECEIVED -> wakes ui = true ->
  object_ok (P := P) (r_version s) (unsolResponseFunction ui) data datalen ->
  exists s' evs, onUnsolicited_with fuel env unsol code data datalen s = Ok (tt, s') /\ unsol_inv s' /\
    radio s' = radio s /\ same_rest s s' /\ r_trace s' = r_trace s ++ evs /\ grabs evs = 1%nat.
Proof.
  intros (Hr & HW & ts & ps & HI) Hu Hne Hnn Hwk Ho.
  destruct (unsol_plain_ok unsol s ts ps code ui data datalen Hr Hu Hne Ho HI HW) as (s' & E & H).
  rewrite Hwk in H. exists s'. destruct H as [(p & p1 & _ & _ & ->)|(packet & _ & Hs)].
  - eexists. split_and!; [exact E| |done|done|done|done]. split_and!; [done|by apply (wake_inv_timers s)|eauto].
  - destruct Hs as [[evs Hf] (ret & sev & tev & Hsend & Htev & Htr & Hz) [ts' Hev] Hw _].
    replace (code =? rilh RIL_UNSOL_NITZ_TIME_RECEIVED) with false in Hz by lia. rewrite andb_false_r in Hz.
    exists ([EWakeLock true] ++ sev ++ tev). split_and!; [exact E| |by rewrite Hf| | |].
    + split_and!; [by rewrite Hf|done|eauto].
    + rewrite Hf. by split_and!.
    + rewrite Htr. simpl. by rewrite <- app_assoc.
    + rewrite !grabs_app, (grabs_sends _ _ _ _ Hsend), (grabs_trigger _ Htev). done.
Qed.

Lemma unsol_inv_radio s a b c : unsol_inv s -> unsol_inv (set_radio a b c s).
Proof. intros (H1 & H2 & H3). split_and!; [done|by apply (wake_inv_timers s)|done]. Qed.

(** The three notifications: their rows, from the self-check of the tables. *)
Variable legacy : bool.
Hypothesis tables : tables_ok legacy.

Lemma unsol_row_at i ui : s_unsolResponses !! i = Some ui -> unsol_row (unsolNumber ui) ui.
Proof.
  intros Hi. destruct tables as [_ Ht]. specialize (Ht i ui Hi). split; [lia|]. rewrite Ht.
  replace (Z.to_nat _) with i by lia. done.
Qed.

Lemma unsol_codes_inj i j ui uj :
  s_unsolResponses !! i = Some ui -> s_unsolResponses !! j = Some uj -> i <> j -> unsolNumber ui <> unsolNumber uj.
Proof. intros Hi Hj Hne. destruct tables as [_ Ht]. specialize (Ht _ _ Hi) as H1. specialize (Ht _ _ Hj) as H2. lia. Qed.

(** One optional notification after the stored value was updated. *)
Lemma maybe_notify unsol (s : ril_state) (changed : bool) upd i ui data datalen :
  unsol_inv s -> s_unsolResponses !! S i = Some ui -> S i <> 8%nat -> wakes ui = true ->
  object_ok (P := P) (r_version s) (unsolResponseFunction ui) data datalen ->
  unsol_inv (upd s) -> same_rest s (upd s) -> r_trace (upd s) = r_trace s ->
  exists s' evs,
    (if changed then modify upd;; onUnsolicited_with fuel env unsol (unsolNumber ui) data datalen else mret tt) s = Ok (tt, s') /\
    unsol_inv s' /\ same_rest s s' /\ radio s' = radio (if changed then upd s else s) /\
    r_trace s' = r_trace s ++ evs /\ grabs evs = (if changed then 1 else 0)%nat /\ (changed = false -> s' = s).
Proof.
  intros HI Hi Hnz Hw Ho HU Hv Ht. destruct changed.
  - rewrite bind_modify.
    destruct (notify_ok unsol (upd s) (unsolNumber ui) ui data datalen) as (s' & evs & E & I' & R & V & T & G);
      [done|by eapply unsol_row_at| | |done|destruct Hv as (_ & _ & _ & _ & Hv & _); by rewrite Hv|].
    { by apply (unsol_codes_inj (S i) 0 ui (urow RIL_UNSOL_RESPONSE_RADIO_STATE_CHANGED F_responseVoid WAKE_PARTIAL)). }
    { by apply (unsol_codes_inj (S i) 8 ui (urow RIL_UNSOL_NITZ_TIME_RECEIVED F_responseString WAKE_PARTIAL)). }
    exists s', evs. split_and!; try done; [by eapply same_rest_trans|congruence].
  - exists s, []. rewrite app_nil_r. done.
Qed.

(** What is stored after a radio state of an old RIL, and which of the
    three values changed. *)
Definition radio_after (s : ril_state) (st : Z) : Z * Z * Z :=
  let tech := decodeVoiceRadioTechnology st in
  (tech, if is3gpp2 tech then decodeCdmaSubscriptionSource st else cdmaSubscriptionSource s, decodeSimStatus st).

Definition radio_changes (s : ril_state) (st : Z) : nat :=
  let '(tech, src, sim) := radio_after s st in
  let changed (x y : Z) : nat := if x =? y then 0%nat else 1%nat in
  (changed tech (voiceRadioTech s) + changed src (cdmaSubscriptionSource s) + changed sim (simRuimStatus s))%nat.

(** The states an old RIL reports. *)
Definition old_state (st : Z) : Prop := rilh RADIO_STATE_UNAVAILABLE < st < rilh RADIO_STATE_ON.

Lemma processRadioState_ok unsol (s : ril_state) st :
  unsol_inv s -> old_state st ->
  exists s' evs, processRadioState_with (onUnsolicited_with (P := P) fuel env unsol) st s = Ok (rilh RADIO_STATE_ON, s') /\
    unsol_inv s' /\ same_rest s s' /\ radio s' = radio_after s st /\ r_trace s' = r_trace s ++ evs /\
    grabs evs = radio_changes s st /\ (radio_changes s st = 0%nat -> s' = s).
Proof.
  intros HI [H1 H2]. unfold processRadioState_with, radio_changes, radio_after.
  replace ((st >? rilh RADIO_STATE_UNAVAILABLE) && (st <? rilh RADIO_STATE_ON)) with true by lia.
  set (tech := decodeVoiceRadioTechnology st). set (src := decodeCdmaSubscriptionSource st). set (sim := decodeSimStatus st).
  rewrite bind_get.
  destruct (maybe_notify unsol s (negb (tech =? voiceRadioTech s))
    (fun s => set_radio tech (cdmaSubscriptionSource s) (simRuimStatus s) s) 34
    (urow RIL_UNSOL_VOICE_RADIO_TECH_CHANGED F_responseInts WAKE_PARTIAL) (VInts [tech]) sizeof_int)
    as (s1 & ev1 & E1 & I1 & V1 & R1 & T1 & G1 & N1); [done|done|done|done|done|by apply unsol_inv_radio|done|done|].
  rewrite (cmd_bind_Ok _ _ _ _ _ E1).
  assert (R1' : radio s1 = (tech, cdmaSubscriptionSource s, simRuimStatus s)).
  { rewrite R1. destruct (Z.eqb_spec tech (voiceRadioTech s)) as [->|]; done. }
  destruct (maybe_notify unsol s1 (is3gpp2 tech && negb (src =? cdmaSubscriptionSource s1))
    (fun s => set_radio (voiceRadioTech s) src (simRuimStatus s) s) 30
    (urow RIL_UNSOL_CDMA_SUBSCRIPTION_SOURCE_CHANGED F_responseInts WAKE_PARTIAL) (VInts [src]) sizeof_int)
    as (s2 & ev2 & E2 & I2 & V2 & R2 & T2 & G2 & N2); [done|done|done|done|done|by apply unsol_inv_radio|done|done|].
  assert (E2' : (if is3gpp2 tech then
      (let newCdmaSubscriptionSource := src in
       s ← get_st;
       if negb (newCdmaSubscriptionSource =? cdmaSubscriptionSource s) then
         modify (fun s => set_radio (voiceRadioTech s) newCdmaSubscriptionSource (simRuimStatus s) s);;
         onUnsolicited_with (P := P) fuel env unsol (rilh RIL_UNSOL_CDMA_SUBSCRIPTION_SOURCE_CHANGED) (VInts [newCdmaSubscriptionSource]) sizeof_int
       else mret tt)
     else mret tt) s1 = Ok (tt, s2)).
  { destruct (is3gpp2 tech); [|exact E2]. cbn zeta. rewrite bind_get. exact E2. }
  rewrite (cmd_bind_Ok _ _ _ _ _ E2'). rewrite bind_get.
  assert (R2' : radio s2 = (tech, if is3gpp2 tech then src else cdmaSubscriptionSource s, simRuimStatus s)).
  { rewrite R2. injection R1' as <- <- <-. destruct (is3gpp2 _); [|done].
    cbn [andb]. destruct (Z.eqb_spec src (cdmaSubscriptionSource s1)) as [->|]; done. }
  destruct (maybe_notify unsol s2 (negb (sim =? simRuimStatus s2))
    (fun s => set_radio (voiceRadioTech s) (cdmaSubscriptionSource s) sim s) 18
    (urow RIL_UNSOL_RESPONSE_SIM_STATUS_CHANGED F_responseVoid WAKE_PARTIAL) VNull 0)
    as (s3 & ev3 & E3 & I3 & V3 & R3 & T3 & G3 & N3); [done|done|done|done|done|by apply unsol_inv_radio|done|done|].
  rewrite (cmd_bind_Ok _ _ _ _ _ E3). injection R1' as Ra1 Ra2 Ra3. injection R2' as Rb1 Rb2 Rb3.
  exists s3, (ev1 ++ ev2 ++ ev3).
  assert (Hc2 : is3gpp2 tech && negb (src =? cdmaSubscriptionSource s1) =
                negb ((if is3gpp2 tech then src else cdmaSubscriptionSource s) =? cdmaSubscriptionSource s)).
  { rewrite Ra2. destruct (is3gpp2 tech); [done|]. cbn [andb]. by rewrite Z.eqb_refl. }
  rewrite Hc2 in G2, N2. rewrite Rb3 in G3, N3. split_and!; [done|done|by do 2 (eapply same_rest_trans; [done|])| | | |].
  - rewrite R3, Rb3. unfold radio. destruct (Z.eqb_spec sim (simRuimStatus s)) as [Hs|]; simpl; congruence.
  - by rewrite T3, T2, T1, <- !app_assoc.
  - rewrite !grabs_app, G1, G2, G3. destruct (tech =? voiceRadioTech s), ((if is3gpp2 tech then src else cdmaSubscriptionSource s) =? cdmaSubscriptionSource s),
      (sim =? simRuimStatus s); reflexivity.
  - intros Hz. destruct (tech =? voiceRadioTech s); [|simpl in Hz; lia].
    destruct ((if is3gpp2 tech then src else cdmaSubscriptionSource s) =? cdmaSubscriptionSource s); [|simpl in Hz; lia].
    destruct (sim =? simRuimStatus s); [|simpl in Hz; lia]. by rewrite N3, N2, N1.
Qed.

(** ** The radio state change itself *)

#[local] Instance old_state_dec st : Decision (old_state st).
Proof. unfold old_state. apply _. Defined.

(** The new state in its packet: ON for the states of old RILs. *)
Definition reported_state (st : Z) : Z := if decide (old_state st) then rilh RADIO_STATE_ON else st.

Lemma processRadioState_any unsol (s : ril_state) st :
  unsol_inv s ->
  exists s' evs, processRadioState_with (onUnsolicited_with (P := P) fuel env unsol) st s = Ok (reported_state st, s') /\
    unsol_inv s' /\ same_rest s s' /\ r_trace s' = r_trace s ++ evs /\
    radio s' = (if decide (old_state st) then radio_after s st else radio s).
Proof.
  intros HI. unfold reported_state. case_decide as Hst.
  - destruct (processRadioState_ok unsol s st HI Hst) as (s' & evs & E & I & R & Ra & T & _). by exists s', evs.
  - exists s, []. rewrite app_nil_r. split; [|done]. unfold processRadioState_with.
    replace ((st >? rilh RADIO_STATE_UNAVAILABLE) && (st <? rilh RADIO_STATE_ON)) with false; [done|].
    unfold old_state in Hst. lia.
Qed.

(** A radio state notification: first the notifications for what the state
    implies (old RILs only), then the packet with the state. *)
Lemma unsol_radio_ok unsol (s : ril_state) :
  unsol_inv s ->
  let code := rilh RIL_UNSOL_RESPONSE_RADIO_STATE_CHANGED in
  let st := o_state env (r_trace s ++ [EWakeLock true]) in
  exists s1 s' ps packet evs,
    onUnsolicited_with fuel env (onUnsolicited_with (P := P) fuel env unsol) code VNull 0 s = Ok (tt, s') /\
    packet = le32 RESPONSE_UNSOLICITED ++ le32 code ++ le32 (reported_state st) /\
    same_rest s s1 /\ r_trace s1 = r_trace s ++ evs /\
    radio s1 = (if decide (old_state st) then radio_after s st else radio s) /\
    unsol_sent s1 ps code true packet s' /\ unsol_inv s' /\ same_rest s s'.
Proof.
  intros HI code st. pose proof HI as (Hr & HW & ts & ps & HE).
  assert (Hnz : code <> rilh RIL_UNSOL_NITZ_TIME_RECEIVED).
  { apply (unsol_codes_inj 0 8 (urow RIL_UNSOL_RESPONSE_RADIO_STATE_CHANGED F_responseVoid WAKE_PARTIAL)
      (urow RIL_UNSOL_NITZ_TIME_RECEIVED F_responseString WAKE_PARTIAL)); done. }
  destruct (unsol_prefix (onUnsolicited_with (P := P) fuel env unsol) s code
    (urow RIL_UNSOL_RESPONSE_RADIO_STATE_CHANGED F_responseVoid WAKE_PARTIAL) VNull 0 Hr) as
    (ret & p & p1 & body & E1 & _ & Dp & Ap & Dp1 & Pe & E); [by apply (unsol_row_at 0 (urow RIL_UNSOL_RESPONSE_RADIO_STATE_CHANGED F_responseVoid WAKE_PARTIAL))|done|].
  cbn in E1. unfold responseVoid in E1. injection E1 as <- <-. cbn [Z.eqb wakes urow wakeType] in E.
  set (s0 := add_trace [EWakeLock true] s) in *.
  destruct (processRadioState_any unsol s0 st) as (s1 & evs & E2 & I1 & R1 & T1 & Ra).
  { split_and!; [done|by apply (wake_inv_timers s)|eauto]. }
  destruct I1 as (Hr1 & HW1 & ts1 & ps1 & HE1).
  destruct (unsol_send_ok s1 ts1 ps1 code true (writeInt32 (reported_state st) p) HE1 HW1) as (s' & E3 & Hs).
  exists s1, s', ps1, (parcel_data (writeInt32 (reported_state st) p)), ([EWakeLock true] ++ evs).
  pose proof Hs as [[evs' Hf] (ret & sev & tev & Hsend & Htev & Htr & Hz) [ts' Hev] Hw _].
  replace (code =? rilh RIL_UNSOL_NITZ_TIME_RECEIVED) with false in Hz by lia. rewrite andb_false_r in Hz.
  assert (R2 : same_rest s1 s') by (rewrite Hf; by split_and!).
  split_and!.
  - rewrite E. unfold extra_payload. fold code. rewrite Z.eqb_refl.
    unfold mbind at 1, cmd_bind at 1. rewrite bind_ask. cbn [r_trace add_trace s0]. fold st. by run_cmd E2.
  - destruct (wrote_end _ _ _ (pl_writeInt32 (reported_state st) p) Ap) as [_ ->]. by rewrite Dp, <- app_assoc.
  - done.
  - rewrite T1. unfold s0. simpl. by rewrite <- app_assoc.
  - done.
  - done.
  - split_and!; [by rewrite Hf|done|eauto].
  - by eapply same_rest_trans.
Qed.

(** The consequences of a sent response for what follows. *)
Lemma sent_rest (s : ril_state) ps code wake packet s' :
  unsol_sent s ps code wake packet s' -> code <> rilh RIL_UNSOL_NITZ_TIME_RECEIVED -> s_registerCalled s = true ->
  unsol_inv s' /\ same_rest s s' /\ exists ret sev tev, sends s packet ret sev /\ tev ⊆ [ETrigger] /\
    r_trace s' = r_trace s ++ sev ++ tev.
Proof.
  intros [[evs' Hf] (ret & sev & tev & Hsend & Htev & Htr & Hz) [ts' Hev] Hw _] Hnz Hr.
  rewrite (proj2 (Z.eqb_neq _ _) Hnz), andb_false_r in Hz. split_and!.
  - split_and!; [by rewrite Hf|done|eauto].
  - rewrite Hf. by split_and!.
  - by exists ret, sev, tev.
Qed.

End Unsol.
