(* ===== verification/RilCommand.v ===== *)
(** * From a record on the command socket to the vendor, and back

    [processCommandBuffer] on every kind of record; completions after the
    command socket was closed; the interleaving of a completion with a
    close and a new connection. *)

From S2P Require Import Prelude Bytes Parcel RilConst RilTypes RilDispatch RilResponse RilWire RilResponseSpec.
From S2P Require Import EventHeap EventLoop RilCore RilRequests.

Section Command.
Context {P : Type} {HPar : Parcel P} {HLaws : ParcelLaws P} {HJS : JString} {HH : RilH}.
Variables (legacy : bool) (stack_avail junk : Z) (fuel : nat) (env : ril_env).
Hypothesis alloc_fresh : forall X, o_alloc env X ∉ X.
Hypothesis Hlive : socket_live fuel env.
Hypothesis sizes_pos : forall t, 0 < sizeof t.

Abbreviation process := (processCommandBuffer (P := P) legacy stack_avail junk fuel env).

(** ** New requests *)

Lemma new_request_ok (s : ril_state) l tok ci lc :
  reqs s l ->
  let a := o_alloc env (used s) in
  let s' := set_reqs (<[a := mkRI tok ci (s_pendingRequests s) 0 lc]> (r_heap s)) (Some a) s in
  new_request env tok ci lc s = Ok (a, s') /\ r_heap s !! a = None /\ (a ∉ l) /\ reqs s' (a :: l).
Proof.
  clear Hlive sizes_pos. intros [Hn Hc] a s'.
  assert (Ha : r_heap s !! a = None).
  { apply not_elem_of_dom. pose proof (alloc_fresh (used s)) as Hf. unfold used at 2 in Hf. set_solver. }
  assert (Hl : a ∉ l) by (intros Hin; destruct (req_chain_some _ _ _ _ Hc Hin) as [r Hr]; by rewrite Hr in Ha).
  split_and!; [done|done|done|]. split; [by apply NoDup_cons|]. simpl. split; [done|].
  eexists. rewrite lookup_insert_eq. split; [done|]. simpl. eapply req_chain_frame; [|done].
  intros b Hb. rewrite lookup_insert_ne; [done|]. by intros <-.
Qed.

(** ** Reading the header *)

Lemma local_Ok {A} (m : cmd P A) p a p' (s : ril_state) : m p = Ok (a, p') -> local_parcel m p s = Ok ((a, p'), s).
Proof. intros E. unfold local_parcel. by rewrite E. Qed.

Lemma setData_holds bs (p : P) : holds (setData bs p) bs bs.
Proof. destruct (pl_setData bs p) as [D Z0]. split; [done|]. unfold remaining. by rewrite D, Z0. Qed.

(** The record's header is complete. *)
Lemma read_header request tok rest :
  i32_ok request -> i32_ok tok -> let buf := le32 request ++ le32 tok ++ rest in
  exists p1 p2 : P, rdI32 junk (setData buf parcel_new) = Ok ((true, request), p1) /\
    rdI32 junk p1 = Ok ((true, tok), p2) /\ holds p2 buf rest.
Proof.
  intros Hq Ht buf. destruct (reads_rdI32 junk request Hq _ _ _ (setData_holds buf (parcel_new : P))) as (p1 & E1 & H1).
  destruct (reads_rdI32 junk tok Ht _ _ rest H1) as (p2 & E2 & H2). by exists p1, p2.
Qed.

(** Fewer than eight bytes: the record is dropped. *)
Lemma process_short (s : ril_state) buf : (length buf < 8)%nat -> process buf s = Ok (0, s).
Proof.
  intros Hb. unfold processCommandBuffer. pose proof (setData_holds buf (parcel_new : P)) as [_ Hr].
  pose proof (pl_readInt32 (setData buf (parcel_new : P))) as Hl. rewrite Hr in Hl.
  assert (Hs : exists r p1, rdI32 junk (setData buf (parcel_new : P)) = Ok (r, p1) /\ starved p1).
  { unfold rdI32. destruct (readInt32 (setData buf parcel_new)) as [r p1]. simpl in Hl.
    case_decide; destruct Hl as [-> Hc]; eexists _, p1; (split; [done|]); unfold starved;
      rewrite (consumed_remaining _ _ _ Hc), Hr, length_drop; lia. }
  destruct Hs as ([st rq] & p1 & E1 & Hst). rewrite (cmd_bind_Ok _ _ _ _ _ (local_Ok _ _ _ _ s E1)). cbn beta iota.
  destruct (rdI32_starved junk p1 Hst) as (p2 & E2 & _).
  by rewrite (cmd_bind_Ok _ _ _ _ _ (local_Ok _ _ _ _ s E2)).
Qed.

(** A request code outside the table is answered with a generic failure. *)
Lemma process_unsupported (s : ril_state) request tok rest :
  i32_ok request -> i32_ok tok -> request < 1 \/ Z.of_nat (length (s_commands legacy)) <= request ->
  exists ret evs, process (le32 request ++ le32 tok ++ rest) s = Ok (0, add_trace evs s) /\
    sends s (le32 RESPONSE_SOLICITED ++ le32 tok ++ le32 (rilh RIL_E_GENERIC_FAILURE)) ret evs.
Proof.
  intros Hq Ht Hbad. destruct (read_header request tok rest Hq Ht) as (p1 & p2 & E1 & E2 & _).
  destruct (header_parcel (P := P) tok (rilh RIL_E_GENERIC_FAILURE)) as (D & _). cbn zeta in D.
  destruct (sendResponseRaw_ok fuel env Hlive s (le32 RESPONSE_SOLICITED ++ le32 tok ++ le32 (rilh RIL_E_GENERIC_FAILURE)))
    as (ret & evs & E & Hs).
  exists ret, evs. split; [|done]. unfold processCommandBuffer.
  rewrite (cmd_bind_Ok _ _ _ _ _ (local_Ok _ _ _ _ s E1)). cbn beta iota.
  rewrite (cmd_bind_Ok _ _ _ _ _ (local_Ok _ _ _ _ s E2)). cbn beta iota. cbn [negb].
  replace ((request <? 1) || (request >=? Z.of_nat (length (s_commands legacy)))) with true by lia.
  unfold sendResponse. rewrite D. by run_cmd E.
Qed.

(** The state with the new request at the head of the list. *)
Definition pushed (s : ril_state) (tok : Z) (ci : CommandInfo) : ril_state :=
  let a := o_alloc env (used s) in
  set_reqs (<[a := mkRI tok ci (s_pendingRequests s) 0 0]> (r_heap s)) (Some a) s.

(** A request of the table: it is queued with its token, then dispatched. *)
Lemma process_valid (s : ril_state) l request tok rest ci :
  reqs s l -> i32_ok request -> i32_ok tok -> 1 <= request -> s_commands legacy !! Z.to_nat request = Some ci ->
  exists p : P, holds p (le32 request ++ le32 tok ++ rest) rest /\
    process (le32 request ++ le32 tok ++ rest) s =
      (dispatch legacy stack_avail junk fuel env p (o_alloc env (used s));; mret 0) (pushed s tok ci).
Proof.
  intros Hl Hq Ht H1 Hci. destruct (read_header request tok rest Hq Ht) as (p1 & p2 & E1 & E2 & Hh).
  exists p2. split; [done|]. unfold processCommandBuffer.
  rewrite (cmd_bind_Ok _ _ _ _ _ (local_Ok _ _ _ _ s E1)). cbn beta iota.
  rewrite (cmd_bind_Ok _ _ _ _ _ (local_Ok _ _ _ _ s E2)). cbn beta iota. cbn [negb].
  pose proof (lookup_lt_Some _ _ _ Hci).
  replace ((request <? 1) || (request >=? Z.of_nat (length (s_commands legacy)))) with false by lia. rewrite Hci.
  destruct (new_request_ok s l tok ci 0 Hl) as (E & _). cbn zeta in E. by run_cmd E.
Qed.

(** The functions of the table that only read the Parcel. *)
Definition plain_dispatch (f : dispatch_fn) : Prop :=
  f <> F_dispatchVoiceRadioTech /\ f <> F_dispatchCdmaSubscriptionSource.

Lemma dispatch_plain (s : ril_state) a r f (p p' : P) d :
  r_heap s !! a = Some r -> dispatchFunction (pCI r) = Some f -> plain_dispatch f ->
  dispatchFn (r_version s) (use_cla legacy) stack_avail junk f (requestNumber (pCI r)) p = Ok (d, p') ->
  dispatch legacy stack_avail junk fuel env p a s =
    match d with
    | DRequest data datalen => onRequest (P := P) fuel env (requestNumber (pCI r)) data datalen a s
    | DInvalid => Ok (tt, add_trace [EInvalidBlock (token r) (requestNumber (pCI r))] s)
    | DNothing => Ok (tt, s)
    end.
Proof.
  intros Hr Hf [Hn1 Hn2] Hd. unfold dispatch. rewrite (cmd_bind_Ok _ _ _ _ _ (load_req_ok _ _ _ Hr)), bind_get, Hf.
  assert (E : forall k : dresult * P -> rcmd unit, (local_parcel (dispatchFn (r_version s) (use_cla legacy) stack_avail junk f
      (requestNumber (pCI r))) p ≫= k) s = k (d, p') s) by (intros k; by rewrite (cmd_bind_Ok _ _ _ _ _ (local_Ok _ _ _ _ s Hd))).
  destruct f; try done; rewrite E; cbn beta iota; destruct d; try done;
    unfold invalidCommandBlock; by rewrite (cmd_bind_Ok _ _ _ _ _ (load_req_ok _ _ _ Hr)).
Qed.

Lemma pushed_lookup s tok ci :
  r_heap (pushed s tok ci) !! o_alloc env (used s) = Some (mkRI tok ci (s_pendingRequests s) 0 0).
Proof. apply lookup_insert_eq. Qed.

(** Arguments the dispatch function accepts: the vendor gets the request
    number and the data; the rest is up to it. *)
Lemma process_issues (s : ril_state) l request tok rest ci f data datalen :
  reqs s l -> i32_ok request -> i32_ok tok -> 1 <= request -> s_commands legacy !! Z.to_nat request = Some ci ->
  dispatchFunction ci = Some f -> plain_dispatch f ->
  reads (P := P) (dispatchFn (r_version s) (use_cla legacy) stack_avail junk f (requestNumber ci)) (DRequest data datalen) rest ->
  let a := o_alloc env (used s) in
  let s1 := add_trace [EOnRequest (requestNumber ci) data datalen a] (pushed s tok ci) in
  reqs s1 (a :: l) /\
  process (le32 request ++ le32 tok ++ rest) s =
    (vendor_calls (P := P) fuel env (o_vendor env s1);; mret 0) s1.
Proof.
  intros Hl Hq Ht H1 Hci Hf Hpl Hrd a s1. destruct (new_request_ok s l tok ci 0 Hl) as (_ & _ & _ & Hl1). split.
  { by eapply reqs_ext; [| |exact Hl1]. }
  destruct (process_valid s l request tok rest ci Hl Hq Ht H1 Hci) as (p & Hh & E). rewrite E.
  rewrite <- (app_nil_r rest) in Hh at 2. destruct (Hrd p _ [] Hh) as (p' & Ed & _).
  unfold mbind at 1, cmd_bind at 1.
  rewrite (dispatch_plain (pushed s tok ci) (o_alloc env (used s)) _ f p p' (DRequest data datalen) (pushed_lookup s tok ci)) by done.
  done.
Qed.

(** Arguments it rejects: the request stays in the list, nothing is sent. *)
Lemma process_invalid (s : ril_state) l request tok rest ci f :
  reqs s l -> i32_ok request -> i32_ok tok -> 1 <= request -> s_commands legacy !! Z.to_nat request = Some ci ->
  dispatchFunction ci = Some f -> plain_dispatch f ->
  (forall p : P, holds p (le32 request ++ le32 tok ++ rest) rest ->
     exists p', dispatchFn (r_version s) (use_cla legacy) stack_avail junk f (requestNumber ci) p = Ok (DInvalid, p')) ->
  let a := o_alloc env (used s) in
  let s1 := add_trace [EInvalidBlock tok (requestNumber ci)] (pushed s tok ci) in
  process (le32 request ++ le32 tok ++ rest) s = Ok (0, s1) /\ reqs s1 (a :: l).
Proof.
  intros Hl Hq Ht H1 Hci Hf Hpl Hrd a s1. destruct (new_request_ok s l tok ci 0 Hl) as (_ & _ & _ & Hl1). split.
  - destruct (process_valid s l request tok rest ci Hl Hq Ht H1 Hci) as (p & Hh & E). rewrite E.
    destruct (Hrd p Hh) as (p' & Ed). unfold mbind at 1, cmd_bind at 1.
    by rewrite (dispatch_plain (pushed s tok ci) (o_alloc env (used s)) _ f p p' DInvalid (pushed_lookup s tok ci)) by done.
  - by eapply reqs_ext; [| |exact Hl1].
Qed.

(** A vendor that answers at once: one response with the request's token,
    and the list is as before. *)
Lemma process_answered (s : ril_state) l request tok rest ci f data datalen e response responselen :
  reqs s l -> i32_ok request -> i32_ok tok -> 1 <= request -> s_commands legacy !! Z.to_nat request = Some ci ->
  dispatchFunction ci = Some f -> plain_dispatch f ->
  reads (P := P) (dispatchFn (r_version s) (use_cla legacy) stack_avail junk f (requestNumber ci)) (DRequest data datalen) rest ->
  let a := o_alloc env (used s) in
  o_vendor env (add_trace [EOnRequest (requestNumber ci) data datalen a] (pushed s tok ci)) = [CallComplete (Some a) e response responselen] ->
  completion_ok (P := P) (r_version s) (mkRI tok ci (s_pendingRequests s) 0 0) response responselen ->
  exists s' packet ret evs, process (le32 request ++ le32 tok ++ rest) s = Ok (0, s') /\ reqs s' l /\
    r_trace s' = r_trace s ++ EOnRequest (requestNumber ci) data datalen a :: evs /\
    sends s packet ret evs /\
    completion_packet (P := P) (r_version s) (mkRI tok ci (s_pendingRequests s) 0 0) e response responselen packet.
Proof.
  intros Hl Hq Ht H1 Hci Hf Hpl Hrd a Hv Hok.
  destruct (process_issues s l request tok rest ci f data datalen Hl Hq Ht H1 Hci Hf Hpl Hrd) as [Hl1 E].
  cbn zeta in Hl1, E. fold a in Hl1, E. set (s1 := add_trace _ (pushed s tok ci)) in *.
  destruct (complete_present fuel env Hlive sizes_pos s1 [] a l (mkRI tok ci (s_pendingRequests s) 0 0) e response responselen Hl1)
    as (s' & evs & E2 & L2 & (_ & _ & Hs') & A2); [apply pushed_lookup|done|].
  destruct A2 as (packet & ret & Hpk & Hsd). exists s', packet, ret, evs. rewrite E.
  rewrite Hv. cbn [vendor_calls fold_right].
  split_and!; [|done| |done|done].
  - unfold mbind, cmd_bind. by rewrite E2.
  - rewrite Hs'. simpl. by rewrite <- app_assoc.
Qed.

(** ** After the command socket was closed *)

(** Every pending request is silent. *)
Definition all_silent (s : ril_state) (l : list loc) : Prop :=
  forall a, a ∈ l -> exists r, r_heap s !! a = Some r /\ silent r = true.

Lemma silent_cancelled r : silent (set_cancelled 1 r) = true.
Proof. unfold silent. simpl. by rewrite orb_true_r. Qed.

Lemma closed_all_silent (s : ril_state) l :
  reqs s l -> exists s', onCommandsSocketClosed s = Ok (tt, s') /\ reqs s' l /\ all_silent s' l /\
    s' = set_reqs (r_heap s') (s_pendingRequests s) s.
Proof.
  intros Hl. destruct (onCommandsSocketClosed_ok s l Hl) as (h' & E & L & Hh). eexists. split_and!; [done|done| |done].
  intros a Ha. simpl. rewrite Hh, decide_True by done. destruct Hl as [_ Hc].
  destruct (req_chain_some _ _ _ _ Hc Ha) as [r Hr]. rewrite Hr. exists (set_cancelled 1 r). split; [done|apply silent_cancelled].
Qed.

(** However the vendor completes them, in whatever order and however often,
    nothing is sent any more. *)
Lemma completions_silent (s : ril_state) l (calls : list (option loc * Z * voidptr * Z)) :
  reqs s l -> all_silent s l ->
  exists s' l', vendor_calls (P := P) fuel env ((fun '(t, e, v, n) => CallComplete t e v n) <$> calls) s = Ok (tt, s') /\
    r_trace s' = r_trace s /\ reqs s' l' /\ l' ⊆ l.
Proof.
  revert s l; induction calls as [|[[[t e] v] n] calls IH]; intros s l Hl Hs.
  { by exists s, l. }
  cbn [fmap list_fmap vendor_calls fold_right].
  assert (Hone : exists s1 l1, RIL_onRequestComplete (P := P) fuel env t e v n s = Ok (tt, s1) /\ r_trace s1 = r_trace s /\
            reqs s1 l1 /\ l1 ⊆ l /\ all_silent s1 l1).
  { assert (Hcase : (exists a, t = Some a /\ a ∈ l) \/ (forall a, t = Some a -> a ∉ l)).
    { destruct t as [a|]; [|by right]. destruct (decide (a ∈ l)); [left; eauto|right]. by intros b [= <-]. }
    destruct Hcase as [(a & -> & Ha)|Hno].
    - apply list_elem_of_split in Ha as (l1 & l2 & ->). destruct (Hs a) as (r & Hr & Hsil); [set_solver|].
      destruct (complete_present fuel env Hlive sizes_pos s l1 a l2 r e v n Hl Hr) as (s1 & evs & E & L & (Hd & Hk & Hf) & A).
      { by rewrite Hsil. }
      unfold answered in A. rewrite Hsil in A. subst evs. exists s1, (l1 ++ l2).
      split_and!; [done|by rewrite Hf; simpl; rewrite app_nil_r|done|set_solver|].
      intros b Hb. assert (Hne : b <> a).
      { intros ->. destruct Hl as [Hn _]. apply NoDup_app in Hn as (_ & H2 & H3). apply NoDup_cons in H3 as [H3 _]. set_solver. }
      destruct (Hs b) as (rb & Hrb & Hsb); [set_solver|]. specialize (Hk b Hne). rewrite Hrb in Hk.
      destruct (r_heap s1 !! b) as [rb'|]; [|done]. exists rb'. split; [done|]. apply (inj Some) in Hk.
      unfold rdata in Hk. injection Hk as _ _ Hc Hlo. unfold silent in *. by rewrite Hc, Hlo.
    - exists s, l. split_and!; [|done|done|done|done]. by eapply complete_absent. }
  destruct Hone as (s1 & l1 & E1 & T1 & L1 & Hsub & Hs1). destruct (IH s1 l1 L1 Hs1) as (s2 & l2 & E2 & T2 & L2 & Hsub2).
  exists s2, l2. rewrite (cmd_bind_Ok _ _ _ _ _ E1). split_and!; [exact E2|congruence|done|set_solver].
Qed.

(** ** The two requests libril may answer itself *)

(** The member of the radio state a query reads off an old RIL's state. *)
Definition query_value (f : dispatch_fn) (state : Z) : Z :=
  match f with
  | F_dispatchVoiceRadioTech => decodeVoiceRadioTechnology state
  | _ => decodeCdmaSubscriptionSource state
  end.

Definition is_query (f : dispatch_fn) : Prop :=
  f = F_dispatchVoiceRadioTech \/ f = F_dispatchCdmaSubscriptionSource.

(** The state after the decoded value was stored. *)
Definition query_store (f : dispatch_fn) (v : Z) (s : ril_state) : ril_state :=
  match f with
  | F_dispatchVoiceRadioTech => set_radio v (cdmaSubscriptionSource s) (simRuimStatus s) s
  | _ => set_radio (voiceRadioTech s) v (simRuimStatus s) s
  end.

(** Both functions, seen as one. *)
Definition query (f : dispatch_fn) (pRI : loc) (requestNumber : Z) : rcmd unit :=
  state ← ask (o_state env);
  (if (rilh RADIO_STATE_UNAVAILABLE =? state) || (rilh RADIO_STATE_OFF =? state)
   then RIL_onRequestComplete (P := P) fuel env (Some pRI) (rilh RIL_E_RADIO_NOT_AVAILABLE) VNull 0 else mret tt);;
  if rilh RADIO_STATE_ON =? state then onRequest (P := P) fuel env requestNumber VNull 0 pRI
  else
    modify (query_store f (query_value f state));;
    if query_value f state <? 0 then RIL_onRequestComplete (P := P) fuel env (Some pRI) (rilh RIL_E_GENERIC_FAILURE) VNull 0
    else RIL_onRequestComplete (P := P) fuel env (Some pRI) (rilh RIL_E_SUCCESS) (VInts [query_value f state]) sizeof_int.

Lemma dispatch_query (s : ril_state) f a r (p : P) :
  is_query f -> r_heap s !! a = Some r -> dispatchFunction (pCI r) = Some f ->
  dispatch legacy stack_avail junk fuel env p a s = query f a (requestNumber (pCI r)) s.
Proof.
  intros Hq Hr Hf. unfold dispatch. rewrite (cmd_bind_Ok _ _ _ _ _ (load_req_ok _ _ _ Hr)), bind_get, Hf.
  by destruct Hq as [->| ->].
Qed.

Lemma query_store_same f v s :
  r_heap (query_store f v s) = r_heap s /\ s_pendingRequests (query_store f v s) = s_pendingRequests s /\
  r_trace (query_store f v s) = r_trace s.
Proof. by destruct f. Qed.

(** The radio is off: one answer; the second completion of the same request,
    with the value decoded from that state, finds nothing to complete. *)
Lemma query_off (s : ril_state) f l1 a l2 r rq :
  reqs s (l1 ++ a :: l2) -> r_heap s !! a = Some r -> silent r = false ->
  let state := o_state env (r_trace s) in
  state = rilh RADIO_STATE_UNAVAILABLE \/ state = rilh RADIO_STATE_OFF -> state <> rilh RADIO_STATE_ON ->
  exists s' ret evs, query f a rq s = Ok (tt, s') /\ reqs s' (l1 ++ l2) /\
    r_trace s' = r_trace s ++ evs /\ r_heap s' !! a = None /\
    sends s (le32 RESPONSE_SOLICITED ++ le32 (token r) ++ le32 (rilh RIL_E_RADIO_NOT_AVAILABLE)) ret evs.
Proof.
  clear alloc_fresh.
  intros Hl Hr Hs state Hoff Hon. unfold query. rewrite bind_ask. fold state.
  replace ((rilh RADIO_STATE_UNAVAILABLE =? state) || (rilh RADIO_STATE_OFF =? state)) with true by lia.
  replace (rilh RADIO_STATE_ON =? state) with false by lia.
  destruct (complete_present fuel env Hlive sizes_pos s l1 a l2 r (rilh RIL_E_RADIO_NOT_AVAILABLE) VNull 0 Hl Hr)
    as (s1 & evs & E & L & (Hd & _ & Ht) & A); [by left|].
  run_cmd E. rewrite bind_modify. set (s2 := query_store f (query_value f state) s1).
  destruct (query_store_same f (query_value f state) s1) as (Hh & Hp & Htr). fold s2 in Hh, Hp, Htr.
  assert (L2 : reqs s2 (l1 ++ l2)) by (by eapply reqs_ext; [| |exact L]).
  assert (Hna : forall b, Some a = Some b -> b ∉ l1 ++ l2).
  { intros b [= <-]. destruct Hl as [Hn _]. apply NoDup_app in Hn as (_ & H2 & H3). apply NoDup_cons in H3 as [H3 _]. set_solver. }
  unfold answered in A. rewrite Hs in A. destruct A as (packet & ret & [[_ ->]|[? _]] & Hsd); [|done].
  exists s2, ret, evs. split_and!; [|done|by rewrite Htr, Ht|by rewrite Hh|done].
  case_match; by eapply complete_absent.
Qed.

(** The radio is on: the vendor is asked, nothing is stored. *)
Lemma query_on (s : ril_state) f a rq :
  let state := o_state env (r_trace s) in
  state = rilh RADIO_STATE_ON -> state <> rilh RADIO_STATE_UNAVAILABLE -> state <> rilh RADIO_STATE_OFF ->
  query f a rq s = onRequest (P := P) fuel env rq VNull 0 a s.
Proof.
  intros state Hon H1 H2. unfold query. rewrite bind_ask. fold state.
  replace ((rilh RADIO_STATE_UNAVAILABLE =? state) || (rilh RADIO_STATE_OFF =? state)) with false by lia.
  by replace (rilh RADIO_STATE_ON =? state) with true by lia.
Qed.

(** The state of an old RIL: the value it implies is stored and sent, or a
    failure when it implies none. *)
Lemma query_old (s : ril_state) f l1 a l2 r rq :
  reqs s (l1 ++ a :: l2) -> r_heap s !! a = Some r -> silent r = false ->
  responseFunction (pCI r) = Some F_responseInts ->
  let state := o_state env (r_trace s) in
  state <> rilh RADIO_STATE_UNAVAILABLE -> state <> rilh RADIO_STATE_OFF -> state <> rilh RADIO_STATE_ON ->
  let v := query_value f state in
  let s0 := query_store f v s in
  exists s' ret evs, query f a rq s = Ok (tt, s') /\ reqs s' (l1 ++ l2) /\ completed s0 a evs s' /\
    sends s (le32 RESPONSE_SOLICITED ++ le32 (token r) ++
             if v <? 0 then le32 (rilh RIL_E_GENERIC_FAILURE) else le32 (rilh RIL_E_SUCCESS) ++ le32 1 ++ le32 v) ret evs.
Proof.
  intros Hl Hr Hs Hrf state H1 H2 H3 v s0. unfold query. rewrite bind_ask. fold state v.
  replace ((rilh RADIO_STATE_UNAVAILABLE =? state) || (rilh RADIO_STATE_OFF =? state)) with false by lia.
  replace (rilh RADIO_STATE_ON =? state) with false by lia. rewrite bind_ret, bind_modify. fold s0.
  destruct (query_store_same f v s) as (Hh & Hp & _). fold s0 in Hh, Hp.
  assert (Hsd0 : forall packet ret evs, sends s0 packet ret evs -> sends s packet ret evs) by (by destruct f).
  assert (L0 : reqs s0 (l1 ++ a :: l2)) by (by eapply reqs_ext; [| |exact Hl]). rewrite <- Hh in Hr.
  set (e := if v <? 0 then rilh RIL_E_GENERIC_FAILURE else rilh RIL_E_SUCCESS).
  set (resp := if v <? 0 then VNull else VInts [v]). set (len := if v <? 0 then 0 else sizeof_int).
  destruct (complete_present fuel env Hlive sizes_pos s0 l1 a l2 r e resp len L0 Hr) as (s1 & evs & E & L & C & A).
  { intros _. unfold resp, len. destruct (v <? 0); [by left|right]. by exists F_responseInts. }
  unfold answered in A. rewrite Hs in A. destruct A as (packet & ret & Hpk & Hsd). exists s1, ret, evs.
  split_and!; [unfold e, resp, len in E; by destruct (v <? 0)|done|done|]. apply Hsd0.
  replace (le32 RESPONSE_SOLICITED ++ _) with packet; [done|]. unfold e, resp, len in Hpk. destruct (v <? 0).
  - by destruct Hpk as [[_ ->]|[? _]].
  - rewrite (completion_packet_appends _ _ _ (VInts [v]) _ _ _ _ packet ltac:(discriminate) Hrf (responseInts_appends [v]) Hpk).
    cbn [Z.eqb]. unfold enc_all, ints_items. cbn [fmap list_fmap concat enc length]. by rewrite app_nil_r.
Qed.

End Command.
