(* ===== verification/RilSocket.v ===== *)
(** * The command socket: loss, close, accept

    A write that fails for good; a completion that overlaps a close and a
    new connection; the end of a connection ([processCommandsCallback]) and
    the start of one ([listenCallback], [onNewCommandConnect]). *)

From S2P Require Import Prelude Bytes Parcel RilConst RilTypes RilDispatch RilResponse RilWire RilResponseSpec.
From S2P Require Import EventHeap EventLoop EventSpec EventLoopSpec RilCore RilRequests RilTimers RilUnsol RilCommand.

Section Socket.
Context {P : Type} {HPar : Parcel P} {HLaws : ParcelLaws P} {HJS : JString} {HH : RilH}.
Variables (legacy ndebug : bool) (stack_avail junk : Z) (fuel : nat) (env : ril_env).
Hypothesis Hlive : socket_live fuel env.
Hypothesis sizes_pos : forall t, 0 < sizeof t.

(** ** A write that fails for good *)

(** The descriptor is closed but stays in [s_fdCommand]: the next response
    is written to a closed descriptor (or to whatever got its number). *)
Lemma broken_socket (s : ril_state) data data2 :
  0 <= s_fdCommand s -> Z.of_nat (length data) <= MAX_COMMAND_BYTES -> Z.of_nat (length data2) <= MAX_COMMAND_BYTES ->
  o_write env (r_trace s) (s_fdCommand s) (be32 (Z.of_nat (length data))) = WriteError false ->
  exists s1 ret evs, sendResponseRaw fuel env data s = Ok (-1, s1) /\
    r_trace s1 = r_trace s ++ [EWriteError (s_fdCommand s) false; EClose (s_fdCommand s)] /\
    sendResponseRaw fuel env data2 s1 = Ok (ret, add_trace evs s1) /\
    write_end (s_fdCommand s) (be32 (Z.of_nat (length data2)) ++ data2) ret evs.
Proof.
  intros Hfd Hlen Hlen2 Hw.
  set (s1 := add_trace [EWriteError (s_fdCommand s) false; EClose (s_fdCommand s)] s).
  destruct (sendResponseRaw_ok fuel env Hlive s1 data2) as (ret & evs & E2 & Hs).
  exists s1, ret, evs. split_and!; [|done|done|].
  - unfold sendResponseRaw. rewrite bind_get. replace (s_fdCommand s <? 0) with false by lia.
    replace (Z.of_nat (length data) >? MAX_COMMAND_BYTES) with false by lia.
    assert (Eb : blockingWrite fuel env (s_fdCommand s) (be32 (Z.of_nat (length data))) s = Ok (-1, s1)).
    { unfold blockingWrite. destruct Hlive as (k & Hf & _). destruct fuel as [|n]; [lia|]. cbn [blockingWrite_loop].
      destruct (be32 (Z.of_nat (length data))) as [|x l] eqn:El.
      { pose proof (length_be32 (Z.of_nat (length data))) as Hl. by rewrite El in Hl. }
      step_cmd. rewrite Hw. step_cmd. by rewrite add_trace_app. }
    by run_cmd Eb.
  - unfold sends in Hs. change (s_fdCommand s1) with (s_fdCommand s) in Hs.
    replace ((s_fdCommand s <? 0) || (Z.of_nat (length data2) >? MAX_COMMAND_BYTES)) with false in Hs by lia. done.
Qed.

(** ** A completion that overlaps a close and a new connection *)

(** [RIL_onRequestComplete] takes the request out of the list and looks at
    [cancelled] later, without the lock: a request dequeued before the
    socket was closed is not marked, and its response goes to the client
    that connected in between. *)
Lemma dequeue_close_complete (s : ril_state) l1 a l2 r e response responselen fd' :
  reqs s (l1 ++ a :: l2) -> r_heap s !! a = Some r -> silent r = false ->
  completion_ok (P := P) (r_version s) r response responselen ->
  exists s1 s2 s3 packet ret evs,
    checkAndDequeueRequestInfo (Some a) s = Ok (1, s1) /\
    onCommandsSocketClosed s1 = Ok (tt, s2) /\ all_silent s2 (l1 ++ l2) /\
    complete_dequeued (P := P) fuel env a e response responselen (set_fdCommand fd' s2) = Ok (tt, s3) /\
    completion_packet (P := P) (r_version s) r e response responselen packet /\
    sends (set_fdCommand fd' s2) packet ret evs /\ r_trace s3 = r_trace s ++ evs.
Proof.
  intros Hl Hr Hs Hok. destruct (dequeue_ok s l1 a l2 Hl) as (s1 & E1 & L1 & D1 & S1).
  assert (Ha : a ∉ l1 ++ l2).
  { destruct Hl as [Hn _]. apply NoDup_app in Hn as (_ & H2 & H3). apply NoDup_cons in H3 as [H3 _]. set_solver. }
  destruct (onCommandsSocketClosed_ok s1 (l1 ++ l2) L1) as (h' & E2 & L2 & Hh).
  destruct (closed_all_silent s1 (l1 ++ l2) L1) as (s2 & E2' & _ & A2 & _). rewrite E2 in E2'. injection E2' as <-.
  destruct (same_rdata_some _ _ _ _ D1 Hr) as (r1 & Hr1 & Hrd). unfold rdata in Hrd. injection Hrd as Ht Hp Hc Hlo.
  set (s2 := set_fdCommand fd' (set_reqs h' (s_pendingRequests s1) s1)) in *.
  assert (Hr2 : r_heap s2 !! a = Some r1) by (simpl; by rewrite Hh, decide_False).
  assert (Hsil : silent r1 = false) by (unfold silent in *; by rewrite Hlo, Hc).
  assert (Hv : r_version s2 = r_version s) by (simpl; by rewrite S1).
  destruct (complete_dequeued_ok fuel env Hlive sizes_pos s2 (l1 ++ l2) a r1 e response responselen) as (evs & E3 & _ & A3).
  { eapply reqs_ext; [| |exact L2]; done. }
  { done. }
  { done. }
  { intros _. rewrite Hv. unfold completion_ok. by rewrite Hp. }
  unfold answered in A3. rewrite Hsil, Hv in A3. destruct A3 as (packet & ret & Hpk & Hsd).
  exists s1, (set_reqs h' (s_pendingRequests s1) s1), (add_trace evs (set_reqs (delete a (r_heap s2)) (s_pendingRequests s2) s2)), packet, ret, evs.
  split_and!; [done|done|done|exact E3| |done|].
  - unfold completion_packet in *. by rewrite Ht, Hp in Hpk.
  - simpl. by rewrite S1.
Qed.

(** ** Watching a static event again *)

(** [rilEventAddWakeup] of an event that is set, not watched, in no list. *)
Definition idle_event (v : estate callback) (ts : list loc) (ev : loc) (e : ril_event) : Prop :=
  ev_heap v !! ev = Some e /\ (forall j, ~ slot (watch_table v) j ev) /\ fd_valid (fd e) = true /\
  (fd e ∉ readFds v) /\ ev ∉ timer_list :: pending_list :: ts.

Lemma first_free_ex tbl i : tbl !! i = Some None -> is_Some (first_free tbl).
Proof.
  revert i; induction tbl as [|[a|] tbl IH]; intros i Hi; [done| |by eexists].
  destruct i as [|i]; [done|]. simpl. destruct (IH i Hi) as [j ->]. by eexists.
Qed.

Lemma addWakeup_ok (s : ril_state) ts ps i ev e :
  ev_inv (r_ev s) ts ps -> idle_event (r_ev s) ts ev e -> watch_table (r_ev s) !! i = Some None ->
  exists v tev j, rilEventAddWakeup env ev s = Ok (tt, add_trace tev (set_ev v s)) /\ tev ⊆ [ETrigger] /\
    ev_heap v = <[ev := set_index (Z.of_nat j) e]> (ev_heap (r_ev s)) /\
    watch_table v = <[j := Some ev]> (watch_table (r_ev s)) /\
    watch_table (r_ev s) !! j = Some None /\
    readFds v = {[fd e]} ∪ readFds (r_ev s) /\ ev_inv v ts ps.
Proof.
  intros HI (He & Hns & Hv & Hr & Hni) Hi. pose proof (ril_event_add_ok (r_ev s) ts ps ev e HI He Hns Hv Hr Hni) as Ha.
  destruct (first_free_ex _ _ Hi) as [j Hj]. rewrite Hj in Ha. destruct Ha as (v & E & Hh & Ht & Hf & _ & HI').
  assert (E1 : onev (ril_event_add (Some ev)) s = Ok (tt, set_ev v s)) by (unfold onev; simpl es_get; by rewrite E).
  destruct (trigger_ok env (set_ev v s)) as (tev & E2 & Hev). exists v, tev, j.
  split_and!; try done; [|by apply first_free_Some]. unfold rilEventAddWakeup. by run_cmd E1.
Qed.

(** ** The end of a connection *)

Lemma unwatched_once {CB} (v : estate CB) ts ps i a e :
  ev_inv v ts ps -> slot (watch_table v) i a -> ev_heap v !! a = Some e ->
  forall j, ~ slot (<[i := None]> (watch_table v)) j a.
Proof.
  intros HI Hi He j Hj. unfold slot in Hj. destruct (decide (i = j)) as [->|Hne].
  - rewrite list_lookup_insert_eq in Hj; [done|by eapply lookup_lt_Some].
  - rewrite list_lookup_insert_ne in Hj by done. apply Hne.
    apply (wo_inj _ _ _ (ei_watch _ _ _ HI) i j (fd e)); by exists a, e.
Qed.

Lemma c_assert_true (b : bool) (s : ril_state) : b = true -> c_assert ndebug b s = Ok (tt, s).
Proof. intros ->. done. Qed.

(** After the records, at the end of the stream: the descriptor is closed
    and no longer watched, the listening one is watched again, and every
    pending request is silent. *)
Lemma commands_closed (s s1 : ril_state) l ts ps i e le :
  records_loop (P := P) legacy stack_avail junk fuel env fuel s = Ok (true, s1) ->
  reqs s1 l -> ev_inv (r_ev s1) ts ps ->
  slot (watch_table (r_ev s1)) i s_commands_event -> ev_heap (r_ev s1) !! s_commands_event = Some e ->
  idle_event (r_ev s1) ts s_listen_event le ->
  exists s' tev, processCommandsCallback (P := P) legacy ndebug stack_avail junk fuel env (s_fdCommand s) s = Ok (tt, s') /\
    s_fdCommand s' = -1 /\ r_trace s' = r_trace s1 ++ EClose (s_fdCommand s1) :: tev /\ tev ⊆ [ETrigger] /\
    reqs s' l /\ all_silent s' l /\ ev_inv (r_ev s') ts ps /\
    readFds (r_ev s') = {[fd le]} ∪ readFds (r_ev s1) ∖ {[fd e]} /\
    (forall j, ~ slot (watch_table (r_ev s')) j s_commands_event) /\
    (exists j, slot (watch_table (r_ev s')) j s_listen_event) /\
    (exists v h' j, s' = add_trace (EClose (s_fdCommand s1) :: tev) (set_reqs h' (s_pendingRequests s1) (set_fdCommand (-1) (set_ev v s1))) /\
       ev_heap v = <[s_listen_event := set_index (Z.of_nat j) le]> (<[s_commands_event := set_index (-1) e]> (ev_heap (r_ev s1))) /\
       watch_table v = <[j := Some s_listen_event]> (<[i := None]> (watch_table (r_ev s1))) /\
       (<[i := None]> (watch_table (r_ev s1))) !! j = Some None).
Proof.
  clear Hlive sizes_pos.
  intros E0 Hl HI Hi He (Hle & Hlns & Hlv & Hlr & Hln).
  set (s2 := set_fdCommand (-1) (add_trace [EClose (s_fdCommand s1)] s1)).
  destruct (ril_event_del_ok (r_ev s1) ts ps i s_commands_event e HI Hi He) as (v & E3 & Hh & Ht & Hf & HI2).
  assert (E3' : onev (ril_event_del (Some s_commands_event)) s2 = Ok (tt, set_ev v s2)) by (unfold onev; simpl es_get; by rewrite E3).
  pose proof (unwatched_once _ _ _ _ _ _ HI Hi He) as Hun. rewrite <- Ht in Hun.
  assert (Hlen : (i < length (watch_table (r_ev s1)))%nat) by (by eapply lookup_lt_Some).
  destruct (addWakeup_ok (set_ev v s2) ts ps i s_listen_event le) as (v' & tev & j & E4 & Hev & Hh' & Ht' & Hj & Hf' & HI3).
  { done. }
  { split_and!; [|intros j Hj; apply (Hlns j)|done| |done].
    - simpl. by rewrite Hh, lookup_insert_ne.
    - simpl in Hj. rewrite Ht in Hj. unfold slot in *. by apply list_lookup_insert_Some in Hj as [(_ & ? & _)|[_ ?]].
    - simpl. rewrite Hf. set_solver. }
  { simpl. rewrite Ht. by apply list_lookup_insert_eq. }
  set (s3 := add_trace tev (set_ev v' s2)). assert (L3 : reqs s3 l) by (by eapply reqs_ext; [| |exact Hl]).
  destruct (closed_all_silent s3 l L3) as (s' & E5 & L' & A' & Hs'). exists s', tev. 
  assert (Hv : r_ev s' = v') by (by rewrite Hs').
  split_and!; [|by rewrite Hs'|rewrite Hs'|done|done|done|by rewrite Hv|rewrite Hv, Hf'|rewrite Hv, Ht'..|].
  - unfold processCommandsCallback. rewrite bind_get. rewrite (cmd_bind_Ok _ _ _ _ _ (c_assert_true _ s (Z.eqb_refl _))).
    run_cmd E0. step_cmd. fold s2. run_cmd E3'.
    change (set_ev v' (set_ev v s2)) with (set_ev v' s2) in E4. by run_cmd E4.
  - simpl. by rewrite <- app_assoc.
  - simpl. by rewrite Hf.
  - intros k Hk. apply list_lookup_insert_Some in Hk as [(_ & ? & _)|[_ ?]]; [done|]. by eapply Hun.
  - exists j. apply list_lookup_insert_eq. by eapply lookup_lt_Some.
  - exists v', (r_heap s'), j. split_and!; [|by rewrite Hh'; simpl; rewrite Hh|by rewrite Ht'; simpl; rewrite Ht|by rewrite <- Ht].
    rewrite Hs'. unfold s3, s2. destruct s1; unfold add_trace; simpl. by rewrite <- app_assoc.
Qed.

(** While the stream only has no more for now, nothing is closed. *)
Lemma commands_wait (s s1 : ril_state) :
  records_loop (P := P) legacy stack_avail junk fuel env fuel s = Ok (false, s1) ->
  processCommandsCallback (P := P) legacy ndebug stack_avail junk fuel env (s_fdCommand s) s = Ok (tt, s1).
Proof.
  intros E0. unfold processCommandsCallback. step_cmd.
  rewrite (cmd_bind_Ok _ _ _ _ _ (c_assert_true _ s (Z.eqb_refl _))). by run_cmd E0.
Qed.

(** The turns of the record loop. *)
Lemma records_turn n (s : ril_state) :
  records_loop (P := P) legacy stack_avail junk fuel env (S n) s =
    let s1 := add_trace [ERecord] s in
    match o_record env (r_trace s) with
    | EndOfStream => Ok (true, s1)
    | StreamError again => Ok (negb again, s1)
    | Record_ bytes =>
        (processCommandBuffer (P := P) legacy stack_avail junk fuel env bytes;;
         records_loop (P := P) legacy stack_avail junk fuel env n) s1
    end.
Proof. cbn [records_loop]. step_cmd. by destruct (o_record env (r_trace s)). Qed.

(** ** The start of a connection *)

Hypothesis alloc_fresh : forall X, o_alloc env X ∉ X.
Hypothesis now_ok : forall tr, tv_ok (o_now env tr).
Hypothesis tables : tables_ok legacy.


Lemma connected_ok (s : ril_state) :
  unsol_inv s -> i32_ok (r_version s) ->
  exists s' ret sev tev,
    RIL_onUnsolicitedResponse (P := P) fuel env (rilh RIL_UNSOL_RIL_CONNECTED) (VInts [r_version s]) sizeof_int s = Ok (tt, s') /\
    unsol_inv s' /\ same_rest s s' /\
    sends s (le32 RESPONSE_UNSOLICITED ++ le32 (rilh RIL_UNSOL_RIL_CONNECTED) ++ le32 1 ++ le32 (r_version s)) ret sev /\
    tev ⊆ [ETrigger] /\ r_trace s' = r_trace s ++ EWakeLock true :: sev ++ tev.
Proof.
  intros HI _. pose proof HI as (Hr & HW & ts & ps & HE). set (ui := urow RIL_UNSOL_RIL_CONNECTED F_responseInts WAKE_PARTIAL).
  assert (Hnz : unsolNumber ui <> rilh RIL_UNSOL_NITZ_TIME_RECEIVED).
  { by apply (unsol_codes_inj legacy tables 34 8 ui (urow RIL_UNSOL_NITZ_TIME_RECEIVED F_responseString WAKE_PARTIAL)). }
  destruct (unsol_appends_ok fuel env alloc_fresh now_ok Hlive sizes_pos (onUnsolicited_depth (P := P) fuel env 1) s ts ps (unsolNumber ui) ui
    (VInts [r_version s]) sizeof_int (enc_all (ints_items [r_version s])) Hr) as (s' & E & Hs); try done.
  { by apply (unsol_row_at legacy tables 34 ui). }
  { by apply (unsol_codes_inj legacy tables 34 0 ui (urow RIL_UNSOL_RESPONSE_RADIO_STATE_CHANGED F_responseVoid WAKE_PARTIAL)). }
  { apply (responseInts_appends [r_version s]). }
  rewrite (proj2 (Z.eqb_neq _ _) Hnz), app_nil_r in Hs.
  destruct (sent_rest _ _ _ _ _ _ Hs Hnz Hr) as (I & R & ret & sev & tev & Hsd & Htev & Htr).
  exists s', ret, sev, tev. split_and!; [exact E|done|done|exact Hsd|done|]. rewrite Htr. simpl. by rewrite <- app_assoc.
Qed.

(** The greeting of a new client: the RIL's version, the radio state (after
    what an old RIL's state implies), the NITZ time that could not be sent
    earlier, which is dropped whether or not it goes out now. *)
Lemma onNewCommandConnect_ok (s : ril_state) :
  unsol_inv s -> i32_ok (r_version s) ->
  exists s' tr st ret1 ev1 ret2 ev2 ev3 t1 t2 t3 t4, onNewCommandConnect (P := P) fuel env s = Ok (tt, s') /\
    unsol_inv s' /\ s_lastNITZTimeData s' = None /\ s_fdCommand s' = s_fdCommand s /\
    r_heap s' = r_heap s /\ s_pendingRequests s' = s_pendingRequests s /\
    r_trace s' = r_trace s ++ t1 ++ ev1 ++ t2 ++ ev2 ++ t3 ++ ev3 ++ t4 /\
    sends s (le32 RESPONSE_UNSOLICITED ++ le32 (rilh RIL_UNSOL_RIL_CONNECTED) ++ le32 1 ++ le32 (r_version s)) ret1 ev1 /\
    st = o_state env tr /\
    sends s (le32 RESPONSE_UNSOLICITED ++ le32 (rilh RIL_UNSOL_RESPONSE_RADIO_STATE_CHANGED) ++ le32 (reported_state st)) ret2 ev2 /\
    match s_lastNITZTimeData s with
    | Some data => exists ret3, sends s data ret3 ev3
    | None => ev3 = []
    end.
Proof.
  intros HI Hv. destruct (connected_ok s HI Hv) as (s1 & ret1 & ev1 & tev1 & E1 & I1 & R1 & S1 & _ & T1).
  destruct (unsol_radio_ok fuel env alloc_fresh now_ok Hlive sizes_pos legacy tables
    (onUnsolicited_depth (P := P) fuel env 0) s1 I1)
    as (sr & s2 & ps & packet & evs & E2 & -> & Rr & Tr & _ & Hs2 & I2 & R2).
  destruct Hs2 as [_ (ret2 & ev2 & tev2 & S2 & _ & T2 & _) _ _ _].
  pose proof (same_rest_trans _ _ _ R1 R2) as (Hh & Hp & Hfd & _ & Hvv & Hn).
  assert (Hsends : forall sx data ret ev, s_fdCommand sx = s_fdCommand s -> sends sx data ret ev -> sends s data ret ev).
  { intros sx data ret ev Hx. unfold sends. by rewrite Hx. }
  assert (Hn3 : exists s3 ev3, (s0 ← get_st; match s_lastNITZTimeData s0 with
      | Some data => sendResponseRaw fuel env data;; modify (set_nitz None) | None => mret tt end) s2 = Ok (tt, s3) /\
      s3 = set_nitz None (add_trace ev3 s2) /\
      match s_lastNITZTimeData s with Some data => exists ret3, sends s data ret3 ev3 | None => ev3 = [] end).
  { rewrite bind_get, Hn. destruct (s_lastNITZTimeData s) as [data|] eqn:En.
    - destruct (sendResponseRaw_ok fuel env Hlive s2 data) as (ret3 & ev3 & E3 & S3).
      exists (set_nitz None (add_trace ev3 s2)), ev3. split_and!; [by run_cmd E3|done|]. exists ret3. by apply (Hsends s2).
    - exists s2, []. split_and!; [done| |done]. destruct s2; cbn in Hn; subst. by rewrite add_trace_nil. }
  destruct Hn3 as (s3 & ev3 & E3 & -> & Hn3).
  set (v := match o_getVersion env with Some version => version | None => Some UNAVAILABLE end).
  exists (add_trace [EPropertySet v] (set_nitz None (add_trace ev3 s2))), (r_trace s1 ++ [EWakeLock true]), (o_state env (r_trace s1 ++ [EWakeLock true])),
    ret1, ev1, ret2, ev2, ev3, [EWakeLock true], (tev1 ++ evs), tev2, [EPropertySet v]. split_and!; try done.
  - unfold onNewCommandConnect. rewrite bind_get. run_cmd E1.
    change (RIL_onUnsolicitedResponse (P := P) fuel env) with (onUnsolicited_with (P := P) fuel env (onUnsolicited_with fuel env (onUnsolicited_depth fuel env 0))).
    run_cmd E2. rewrite bind_get. rewrite bind_get in E3. run_cmd E3. unfold v. by destruct (o_getVersion env).
  - simpl. rewrite T2, Tr, T1, <- !app_assoc. cbn [app]. by rewrite <- !app_assoc.
  - apply (Hsends sr); [|exact S2]. destruct Rr as (_ & _ & -> & _), R1 as (_ & _ & -> & _). done.
Qed.

(** A peer that is not the phone process: its descriptor is closed, nothing
    is sent, and the listening descriptor is watched again. *)
Lemma listen_rejects (s : ril_state) l ts ps i le newfd :
  s_fdCommand s < 0 -> reqs s l -> ev_inv (r_ev s) ts ps -> idle_event (r_ev s) ts s_listen_event le ->
  watch_table (r_ev s) !! i = Some None ->
  o_accept env (r_trace s) = newfd -> 0 <= newfd -> o_cred env (r_trace s ++ [EAccept newfd]) <> Some PHONE_PROCESS ->
  exists s' tev, listenCallback (P := P) ndebug fuel env (s_fdListen s) s = Ok (tt, s') /\ s_fdCommand s' = -1 /\
    r_trace s' = r_trace s ++ EAccept newfd :: EClose newfd :: tev /\ tev ⊆ [ETrigger] /\
    reqs s' l /\ all_silent s' l /\ ev_inv (r_ev s') ts ps /\ (exists j, slot (watch_table (r_ev s')) j s_listen_event) /\
    (exists v h' j, s' = add_trace (EAccept newfd :: EClose newfd :: tev) (set_reqs h' (s_pendingRequests s) (set_fdCommand (-1) (set_ev v s))) /\
       ev_heap v = <[s_listen_event := set_index (Z.of_nat j) le]> (ev_heap (r_ev s)) /\
       watch_table v = <[j := Some s_listen_event]> (watch_table (r_ev s)) /\ watch_table (r_ev s) !! j = Some None).
Proof.
  clear Hlive sizes_pos alloc_fresh now_ok tables.
  intros Hfd Hl HI Hle Hi Ha Hnew Hc.
  set (s1 := set_fdCommand newfd (add_trace [EAccept newfd] s)).
  set (s2 := set_fdCommand (-1) (add_trace [EClose newfd] s1)).
  assert (L2 : reqs s2 l) by (by eapply reqs_ext; [| |exact Hl]).
  destruct (closed_all_silent s2 l L2) as (s3 & E3 & L3 & A3 & Hs3).
  assert (Hev3 : r_ev s3 = r_ev s) by (by rewrite Hs3).
  destruct (addWakeup_ok s3 ts ps i s_listen_event le) as (v & tev & j & E4 & Hev & Hh & Ht & Hj & _ & HI4); [by rewrite Hev3..|].
  exists (add_trace tev (set_ev v s3)), tev. split_and!; [|by rewrite Hs3|rewrite Hs3|done| |done|done| |].
  - unfold listenCallback. rewrite bind_get.
    rewrite (cmd_bind_Ok _ _ _ _ _ (c_assert_true (s_fdCommand s <? 0) s ltac:(lia))).
    rewrite (cmd_bind_Ok _ _ _ _ _ (c_assert_true _ s (Z.eqb_refl _))).
    step_cmd. rewrite Ha. step_cmd. fold s1. replace (newfd <? 0) with false by lia.
    rewrite bind_ask. cbn [r_trace s1 set_fdCommand add_trace].
    rewrite bool_decide_eq_false_2 by done. cbn [negb]. step_cmd. fold s2. by run_cmd E3.
  - simpl. by rewrite <- !app_assoc.
  - by eapply reqs_ext; [| |exact L3].
  - exists j. simpl. rewrite Ht. unfold slot. apply list_lookup_insert_eq. by eapply lookup_lt_Some.
  - exists v, (r_heap s3), j. rewrite <- Hev3. split_and!; [|done|done|done].
    rewrite Hs3. unfold s2, s1. destruct s; unfold add_trace; simpl. by rewrite <- !app_assoc.
Qed.

(** The phone process: the connection becomes the command socket, watched
    persistently for [processCommandsCallback]; then it is greeted. *)
Lemma listen_accepts (s : ril_state) ts ps i e0 newfd :
  s_fdCommand s < 0 -> unsol_inv s -> ev_inv (r_ev s) ts ps ->
  ev_heap (r_ev s) !! s_commands_event = Some e0 -> (forall j, ~ slot (watch_table (r_ev s)) j s_commands_event) ->
  s_commands_event ∉ timer_list :: pending_list :: ts ++ ps ->
  watch_table (r_ev s) !! i = Some None ->
  o_accept env (r_trace s) = newfd -> fd_valid newfd = true -> 0 <= newfd -> newfd ∉ readFds (r_ev s) ->
  o_cred env (r_trace s ++ [EAccept newfd]) = Some PHONE_PROCESS ->
  exists s1 j e tev, listenCallback (P := P) ndebug fuel env (s_fdListen s) s = onNewCommandConnect (P := P) fuel env s1 /\
    s_fdCommand s1 = newfd /\ unsol_inv s1 /\ ev_inv (r_ev s1) ts ps /\ r_version s1 = r_version s /\
    s_lastNITZTimeData s1 = s_lastNITZTimeData s /\ r_trace s1 = r_trace s ++ EAccept newfd :: tev /\ tev ⊆ [ETrigger] /\
    slot (watch_table (r_ev s1)) j s_commands_event /\ ev_heap (r_ev s1) !! s_commands_event = Some e /\
    fd e = newfd /\ persist e = true /\ func e = Some CB_processCommandsCallback /\
    (exists v, s1 = add_trace (EAccept newfd :: tev) (set_fdCommand newfd (set_ev v s)) /\
       ev_heap v = <[s_commands_event := e]> (ev_heap (r_ev s)) /\
       watch_table v = <[j := Some s_commands_event]> (watch_table (r_ev s)) /\ watch_table (r_ev s) !! j = Some None).
Proof.
  clear Hlive sizes_pos alloc_fresh now_ok tables.
  intros Hfd HU HI He0 Hns Hni Hi Ha Hv Hnew Hr Hc.
  set (s1 := set_fdCommand newfd (add_trace [EAccept newfd] s)).
  set (e := mkEv None None newfd (-1) true (mkTv 0 0) (Some CB_processCommandsCallback) (o_stream env (r_trace s1))).
  set (v := set_heap (<[s_commands_event := e]> (ev_heap (r_ev s))) (r_ev s)).
  assert (HI2 : ev_inv v ts ps).
  { apply (ev_inv_agree (r_ev s)); [done|]. intros b Hb. rewrite lookup_insert_ne; [done|]. intros <-.
    destruct Hb as [Hb|[j Hj]]; [done|by eapply Hns]. }
  assert (Eset : onev (ril_event_set (Some s_commands_event) newfd true (Some CB_processCommandsCallback)
      (o_stream env (r_trace s1))) s1 = Ok (tt, set_ev v s1)).
  { unfold onev. simpl es_get. by rewrite (ril_event_set_ok (r_ev s) s_commands_event e0). }
  destruct (addWakeup_ok (set_ev v s1) ts ps i s_commands_event e) as (v' & tev & j & E4 & Hev & Hh & Ht & Hj & _ & HI4).
  { done. }
  { split_and!; [apply lookup_insert_eq|done|done|done|set_solver]. }
  { done. }
  exists (add_trace tev (set_ev v' s1)), j, (set_index (Z.of_nat j) e), tev. destruct HU as (U1 & U2 & _).
  split_and!; try done; [| | | | |].
  - unfold listenCallback. rewrite bind_get.
    rewrite (cmd_bind_Ok _ _ _ _ _ (c_assert_true (s_fdCommand s <? 0) s ltac:(lia))).
    rewrite (cmd_bind_Ok _ _ _ _ _ (c_assert_true _ s (Z.eqb_refl _))).
    step_cmd. rewrite Ha. step_cmd. fold s1. replace (newfd <? 0) with false by lia.
    rewrite bind_ask. cbn [r_trace s1 set_fdCommand add_trace].
    rewrite bool_decide_eq_true_2 by done. cbn [negb]. step_cmd. run_cmd Eset. by run_cmd E4.
  - split_and!; [done|by apply (wake_inv_timers s)|eauto].
  - simpl. by rewrite <- app_assoc.
  - simpl. rewrite Ht. unfold slot. apply list_lookup_insert_eq. by eapply lookup_lt_Some.
  - simpl. rewrite Hh. apply lookup_insert_eq.
  - exists v'. split_and!; [|by rewrite Hh; simpl; rewrite insert_insert_eq|done|done].
    unfold s1. destruct s; unfold add_trace; simpl. by rewrite <- app_assoc.
Qed.

(** [accept] failed: nothing changes but the watch. *)
Lemma listen_failed (s : ril_state) ts ps i le newfd :
  s_fdCommand s < 0 -> ev_inv (r_ev s) ts ps -> idle_event (r_ev s) ts s_listen_event le ->
  watch_table (r_ev s) !! i = Some None ->
  o_accept env (r_trace s) = newfd -> newfd < 0 ->
  exists s' tev v j, listenCallback (P := P) ndebug fuel env (s_fdListen s) s = Ok (tt, s') /\
    s' = add_trace (EAccept newfd :: tev) (set_fdCommand newfd (set_ev v s)) /\ tev ⊆ [ETrigger] /\ ev_inv v ts ps /\
    ev_heap v = <[s_listen_event := set_index (Z.of_nat j) le]> (ev_heap (r_ev s)) /\
    watch_table v = <[j := Some s_listen_event]> (watch_table (r_ev s)) /\ watch_table (r_ev s) !! j = Some None.
Proof.
  clear Hlive sizes_pos alloc_fresh now_ok tables.
  intros Hfd HI Hle Hi Ha Hnew. set (s1 := set_fdCommand newfd (add_trace [EAccept newfd] s)).
  destruct (addWakeup_ok s1 ts ps i s_listen_event le) as (v & tev & j & E4 & Hev & Hh & Ht & Hj & _ & HI4); [done..|].
  exists (add_trace tev (set_ev v s1)), tev, v, j. split_and!; [| |done|done|done|done|done].
  - unfold listenCallback. rewrite bind_get.
    rewrite (cmd_bind_Ok _ _ _ _ _ (c_assert_true (s_fdCommand s <? 0) s ltac:(lia))).
    rewrite (cmd_bind_Ok _ _ _ _ _ (c_assert_true _ s (Z.eqb_refl _))).
    step_cmd. rewrite Ha. step_cmd. fold s1. by replace (newfd <? 0) with true by lia.
  - unfold s1. destruct s; unfold add_trace; simpl. by rewrite <- app_assoc.
Qed.

End Socket.
