(* ===== verification/RilArgs.v ===== *)
(** * What the vendor is given

    Two properties of every dispatch function, whatever the record of the
    client: the data has the type that ril.h gives for the request
    ([gives_dispatchFn]), and the only undefined behaviour is an array
    whose count is negative or too large for the stack
    ([returns_dispatchFn]).

    [yields m Q]: whenever [m] returns, its result is in [Q].  [total m]:
    [m] returns, from every Parcel. *)

From S2P Require Import Prelude Bytes Parcel RilConst RilTypes RilDispatch RilDispatchSpec.

Open Scope Z_scope.

Section Args.
Context {P : Type} {HPar : Parcel P} {HLaws : ParcelLaws P} {HJS : JString} {HH : RilH}.
Variables (version : Z) (use_cla : bool) (stack_avail junk : Z).

(** ** The types of the arguments *)

(** The count of the array of a request, if it has one that can be read. *)
Definition count_read : cmd P (option Z) :=
  '(status, count) ← rdI32 junk;
  mret (if status : bool then Some count else None).

Definition array_count (f : dispatch_fn) : cmd P (option Z) :=
  match f with
  | F_dispatchStrings | F_dispatchInts | F_dispatchDataCall | F_dispatchGsmBrSmsCnf | F_dispatchCdmaBrSmsCnf => count_read
  | F_dispatchImsSms =>
      '(_, format) ← rdI32 junk;
      '(_, _) ← rdU8 (u8 junk);
      '(_, _) ← rdRaw32 junk;
      if rilh RADIO_TECH_3GPP =? format then count_read else mret None
  | _ => mret None
  end.

Definition sent (m : cmd P (option Z)) (p : P) (n : Z) : Prop := exists p', m p = Ok (Some n, p').

(** The client sent the count [count]: [n] members were stored in an array
    of [datalen] bytes.  For a negative count that is none at all, although
    [datalen] bytes were reserved. *)
Definition array_ok (count : Z) (n : nat) (datalen : Z) : Prop :=
  n = Z.to_nat count /\ datalen = u32 (sizeof_ptr * count) /\ (0 <= count -> datalen = sizeof_ptr * Z.of_nat n).

(** The strings of a request: -1 stands for NULL. *)
Definition strings_ok (count : Z) (r : option (list cstr) * Z) : Prop :=
  if count =? -1 then r = (None, 0) else exists l, r.1 = Some l /\ array_ok count (length l) r.2.

(** [n] bytes of the record, which has been read as far as [p']; or NULL,
    when so many are not left. *)
Definition bytes_ok (p' : P) (n : Z) (data : option (list Z)) : Prop :=
  match data with
  | Some bs => Z.of_nat (length bs) = n
  | None => (length (remaining p') < pad4 (Z.to_nat n))%nat
  end.

Definition cdma_sms_ok (m : RIL_CDMA_SMS_Message) : Prop :=
  i32_ok (uTeleserviceID m) /\ i32_ok (uServicecategory m) /\
  i32_ok (digit_mode (sAddress m)) /\ i32_ok (number_mode (sAddress m)) /\ i32_ok (number_type (sAddress m)) /\
  i32_ok (number_plan (sAddress m)) /\ i32_ok (subaddressType (sSubAddress m)) /\ i32_ok (uBearerDataLen m) /\
  length (digits (sAddress m)) = Z.to_nat (rilh RIL_CDMA_SMS_ADDRESS_MAX) /\
  length (sub_digits (sSubAddress m)) = Z.to_nat (rilh RIL_CDMA_SMS_SUBADDRESS_MAX) /\
  length (aBearerData m) = Z.to_nat (rilh RIL_CDMA_SMS_BEARER_DATA_MAX).

Definition uus_ok (p' : P) (u : RIL_UUS_Info) : Prop :=
  i32_ok (uusType u) /\ i32_ok (uusDcs u) /\ i32_ok (uusLength u) /\
  (uusLength u = 0 /\ uusData u = None \/ (0 <= uusLength u -> bytes_ok p' (uusLength u) (uusData u))).

Definition opt_bytes (d : option (list Z)) : voidptr := match d with Some bs => VBytes bs | None => VNull end.

(** The type of the argument of a request, by its dispatch function; [p] is
    the record behind the token, [p'] what is left of it. *)
Definition arg_ok (p p' : P) (f : dispatch_fn) (data : voidptr) (datalen : Z) : Prop :=
  match f with
  | F_dispatchVoid | F_dispatchVoiceRadioTech | F_dispatchCdmaSubscriptionSource => data = VNull /\ datalen = 0
  | F_dispatchString => (data = VNull \/ exists s, data = VString s) /\ datalen = sizeof_ptr
  | F_dispatchStrings => exists count l, sent count_read p count /\ data = ptr_of_strings l /\ strings_ok count (l, datalen)
  | F_dispatchDataCall => exists count l, sent count_read p count /\ data = ptr_of_strings l /\
      strings_ok (if (version <? 4) && (count >? numParamsRilV3) then numParamsRilV3 else count) (l, datalen)
  | F_dispatchInts => exists count l, sent count_read p count /\ count <> 0 /\
      data = VInts l /\ Forall i32_ok l /\ array_ok count (length l) datalen
  | F_dispatchRaw => exists len d, sent count_read p len /\ data = opt_bytes d /\
      datalen = u32 (if len =? -1 then 0 else len) /\ (-1 <= len -> bytes_ok p' datalen d)
  | F_dispatchSmsWrite => exists a, data = VSmsWrite a /\ datalen = sizeof S_RIL_SMS_WriteArgs /\
      i32_ok (sw_status a) /\ is_Some (sw_pdu a)
  | F_dispatchDial => exists d, data = VDial d /\ is_Some (dial_address d) /\ i32_ok (clir d) /\
      (version < 3 -> dial_uusInfo d = None /\ datalen = sizeof S_RIL_Dial - sizeof_ptr) /\
      (3 <= version -> datalen = sizeof S_RIL_Dial) /\ (forall u, dial_uusInfo d = Some u -> uus_ok p' u)
  | F_dispatchSIM_IO => exists s, data = VSimIO s /\
      datalen = (if version <? 6 then sizeof S_RIL_SIM_IO_v5 else sizeof S_RIL_SIM_IO_v6) /\
      i32_ok (cla s) /\ i32_ok (sim_command s) /\ i32_ok (fileid s) /\ i32_ok (sim_p1 s) /\ i32_ok (sim_p2 s) /\ i32_ok (sim_p3 s)
  | F_dispatchCallForward => exists c, data = VCallForward c /\ datalen = sizeof S_RIL_CallForwardInfo /\
      i32_ok (cf_status c) /\ i32_ok (cf_reason c) /\ i32_ok (cf_serviceClass c) /\ i32_ok (cf_toa c) /\ i32_ok (cf_timeSeconds c) /\
      cf_number c <> Some []
  | F_dispatchCdmaSms => exists m, data = VCdmaSms m /\ datalen = sizeof S_RIL_CDMA_SMS_Message /\ cdma_sms_ok m
  | F_dispatchRilCdmaSmsWriteArgs => exists w, data = VCdmaSmsWrite w /\ datalen = sizeof S_RIL_CDMA_SMS_WriteArgs /\
      i32_ok (rcsw_status w) /\ cdma_sms_ok (rcsw_message w)
  | F_dispatchCdmaSmsAck => exists a, data = VCdmaSmsAck a /\ datalen = sizeof S_RIL_CDMA_SMS_Ack /\
      i32_ok (uErrorClass a) /\ i32_ok (uSMSCauseCode a)
  | F_dispatchGsmBrSmsCnf => exists num l, sent count_read p num /\ 0 <= num /\ data = VGsmBci l /\
      length l = Z.to_nat num /\ datalen = sizeof_ptr * num /\ Forall is_Some l
  | F_dispatchCdmaBrSmsCnf => exists num l, sent count_read p num /\ 0 <= num /\ data = VCdmaBci l /\
      length l = Z.to_nat num /\ datalen = sizeof_ptr * num /\ Forall is_Some l
  | F_dispatchSetInitialAttachApn => exists a, data = VApn a /\ datalen = sizeof S_RIL_InitialAttachApn /\ i32_ok (authtype a)
  | F_dispatchUiccSubscripton => exists u, data = VUicc u /\ datalen = sizeof S_RIL_SelectUiccSub /\
      i32_ok (uicc_slot u) /\ i32_ok (app_index u) /\ i32_ok (sub_type u) /\ i32_ok (act_status u)
  | F_dispatchImsSms => exists m, data = VIms m /\ i32_ok (messageRef m) /\
      ((exists c, ims_tech m = rilh RADIO_TECH_3GPP2 /\ ims_msg m = ImsCdma c /\ cdma_sms_ok c /\
          datalen = sizeof S_RIL_RadioTechnologyFamily + 1 + 4 + sizeof S_RIL_CDMA_SMS_Message) \/
       (exists count l len, sent (array_count f) p count /\ ims_tech m = rilh RADIO_TECH_3GPP /\ ims_msg m = ImsGsm l /\
          strings_ok count (l, len) /\ datalen = u32 (sizeof S_RIL_RadioTechnologyFamily + 1 + 4 + len)))
  end.

(** ** What a command can return *)

Definition yields {A} (m : cmd P A) (Q : A -> Prop) : Prop := forall p a p', m p = Ok (a, p') -> Q a.

Lemma yields_ret {A} (a : A) (Q : A -> Prop) : Q a -> yields (mret a) Q.
Proof. intros HQ p b p' [= <- _]. done. Qed.

Lemma yields_ub {A} (Q : A -> Prop) : yields ub Q.
Proof. done. Qed.

Lemma yields_bind {A B} (m : cmd P A) (f : A -> cmd P B) Q1 Q :
  yields m Q1 -> (forall a, Q1 a -> yields (f a) Q) -> yields (m ≫= f) Q.
Proof. intros Hm Hf p b p' (a & p1 & E1 & E2)%cmd_bind_inv. eapply Hf; [by eapply Hm|exact E2]. Qed.

Lemma yields_any {A B} (m : cmd P A) (f : A -> cmd P B) Q : (forall a, yields (f a) Q) -> yields (m ≫= f) Q.
Proof. intros Hf. by apply (yields_bind _ _ (fun _ => True)); auto. Qed.

Lemma yields_weaken {A} (m : cmd P A) (Q Q' : A -> Prop) : yields m Q -> (forall a, Q a -> Q' a) -> yields m Q'.
Proof. intros Hm HQ p a p' E. eauto. Qed.

Lemma yields_rdI32 t : i32_ok t -> yields (rdI32 t) (fun r => i32_ok r.2).
Proof.
  intros Ht p r p'. pose proof (pl_readInt32 p) as Hl. unfold rdI32. destruct (readInt32 p) as [x q]. simpl in Hl.
  case_decide; destruct Hl as [-> _]; intros [= <- _]; [|done]. simpl. unfold get32. apply i32_range.
Qed.

Lemma yields_rdRaw32 t : i32_ok t -> yields (rdRaw32 t) (fun r => i32_ok r.2).
Proof.
  intros Ht p r p'. unfold rdRaw32. destruct (parcel_read 4 p) as [[x|] q]; intros [= <- _]; [|done]. apply i32_range.
Qed.

Lemma yields_I32 {B} t (f : bool * Z -> cmd P B) Q :
  i32_ok t -> (forall st x, i32_ok x -> yields (f (st, x)) Q) -> yields (rdI32 t ≫= f) Q.
Proof. intros Ht Hf. apply (yields_bind _ _ _ _ (yields_rdI32 t Ht)). intros [st x]. apply Hf. Qed.

Lemma yields_Raw32 {B} t (f : bool * Z -> cmd P B) Q :
  i32_ok t -> (forall st x, i32_ok x -> yields (f (st, x)) Q) -> yields (rdRaw32 t ≫= f) Q.
Proof. intros Ht Hf. apply (yields_bind _ _ _ _ (yields_rdRaw32 t Ht)). intros [st x]. apply Hf. Qed.

(** One step of a dispatch function. *)
Ltac yield_step :=
  cbv beta iota zeta;
  lazymatch goal with
  | |- yields (mret _) _ => apply yields_ret
  | |- yields ub _ => apply yields_ub
  | |- yields (rdI32 _ ≫= _) _ => apply yields_I32; [done|intros ? ? ?]
  | |- yields (rdRaw32 _ ≫= _) _ => apply yields_Raw32; [done|intros ? ? ?]
  | |- yields (strdupReadString ≫= _) _ => apply yields_any; intros ?
  | |- yields (rdU8 _ ≫= _) _ => apply yields_any; intros [? ?]
  | |- yields (rdInplace _ ≫= _) _ => apply yields_any; intros ?
  | |- yields (if negb ?b then _ else _) _ => destruct b; cbn [negb]
  | |- yields (if ?b then _ else _) _ => destruct b
  end.

Ltac yields_all := repeat yield_step.

(** *** Arrays *)

Lemma yields_readStrings k i datalen :
  yields (readStrings k i datalen) (fun l => length l = k /\ (k <> 0%nat -> (i + Z.of_nat k) * sizeof_ptr <= datalen)).
Proof.
  revert i. induction k as [|k IH]; intros i; cbn [readStrings]; [by apply yields_ret|].
  apply yields_any. intros x. destruct (Z.leb_spec ((i + 1) * sizeof_ptr) datalen) as [Hle|]; [|apply yields_ub].
  apply (yields_bind _ _ _ _ (IH (i + 1))). intros l [Hl Hk]. apply yields_ret. split; [simpl; lia|]. intros _.
  destruct (decide (k = 0%nat)) as [->|Hne]; [unfold sizeof_ptr in *; lia|]. specialize (Hk Hne). unfold sizeof_ptr in *. lia.
Qed.

Lemma yields_readInts k i datalen :
  i32_ok junk ->
  yields (readInts junk k i datalen) (fun r => forall l, r = Some l ->
    length l = k /\ Forall i32_ok l /\ (k <> 0%nat -> (i + Z.of_nat k) * sizeof_int <= datalen)).
Proof.
  intros Hj. revert i. induction k as [|k IH]; intros i; cbn [readInts]; [apply yields_ret; by intros l [= <-]|].
  apply yields_I32; [done|]. intros st x Hx. cbv beta iota. destruct (Z.leb_spec ((i + 1) * sizeof_int) datalen) as [Hle|]; cbn [negb]; [|apply yields_ub].
  destruct st; cbn [negb]; [|by apply yields_ret].
  apply (yields_bind _ _ _ _ (IH (i + 1))). intros [l|] Hl; apply yields_ret; [|done]. intros l' [= <-].
  destruct (Hl l eq_refl) as (H1 & H2 & H3). split_and!; [simpl; lia|by constructor|]. intros _.
  destruct (decide (k = 0%nat)) as [->|Hne]; [unfold sizeof_int in *; lia|]. specialize (H3 Hne). unfold sizeof_int in *. lia.
Qed.

Lemma yields_alloca {B} n (f : unit -> cmd P B) Q :
  (n <= stack_avail -> yields (f tt) Q) -> yields (alloca stack_avail n ≫= f) Q.
Proof.
  intros Hf. unfold alloca. destruct (Z.leb_spec n stack_avail) as [Hle|]; [|done].
  apply (yields_bind _ _ (fun _ => True)); [by apply yields_ret|]. intros [] _. by apply Hf.
Qed.

(** An array of [count] members, [datalen] bytes, was filled. *)
Lemma array_ok_count count n :
  n = Z.to_nat count -> (n <> 0%nat -> (0 + Z.of_nat n) * 4 <= u32 (4 * count)) -> array_ok count n (u32 (4 * count)).
Proof.
  intros -> Hn. split_and!; [done..|]. unfold sizeof_ptr, u32 in *. intros Hc.
  destruct (Z.eq_dec count 0) as [->|Hne]; [done|]. specialize (Hn ltac:(lia)). rewrite Z2Nat.id in * by lia.
  pose proof (Z.mod_le (4 * count) (2 ^ 32) ltac:(lia) ltac:(lia)). lia.
Qed.

Lemma yields_pStrings count : yields (read_pStrings stack_avail count) (strings_ok count).
Proof.
  unfold read_pStrings, strings_ok. destruct (Z.eqb_spec count 0) as [->|_].
  { apply yields_alloca. intros _. apply yields_ret. by exists []. }
  destruct (count =? -1); [by apply yields_ret|]. cbv zeta. apply yields_alloca. intros _.
  apply (yields_bind _ _ _ _ (yields_readStrings _ 0 _)). intros l [Hl Hk]. apply yields_ret. exists l.
  split; [done|]. rewrite Hl in *. by apply array_ok_count.
Qed.

(** A function that reads a count first: what it yields may depend on it. *)
Lemma count_bind {A} (f : bool -> Z -> cmd P A) p a p' :
  i32_ok junk -> ('(status, count) ← rdI32 junk; f status count) p = Ok (a, p') ->
  (exists p1, f false junk p1 = Ok (a, p')) \/
  exists count p1, i32_ok count /\ sent count_read p count /\ f true count p1 = Ok (a, p').
Proof.
  intros Hj ([st n] & p1 & E & Ef)%cmd_bind_inv. pose proof (yields_rdI32 junk Hj _ _ _ E) as Hn. destruct st.
  - right. exists n, p1. split_and!; [done| |done]. exists p1. unfold count_read. by rewrite (cmd_bind_Ok _ _ _ _ _ E).
  - left. destruct (rdI32_cases p) as [(x & q & E')|(q & E' & _)]; rewrite E' in E; [done|]. injection E as <- <-. by exists q.
Qed.

Definition gives (p : P) (f : dispatch_fn) (d : dresult) (p' : P) : Prop :=
  forall data len, d = DRequest data len -> arg_ok p p' f data len.

Lemma strings_of_dispatchStrings p data len p' :
  i32_ok junk -> dispatchStrings stack_avail junk p = Ok (DRequest data len, p') ->
  exists count l, sent count_read p count /\ data = ptr_of_strings l /\ strings_ok count (l, len).
Proof.
  intros Hj E. unfold dispatchStrings in E.
  apply (count_bind (fun status count => if negb status then _ else _)) in E as [[p1 E]|(n & p1 & _ & Hs & E)]; [done| |done].
  cbn [negb] in E. apply cmd_bind_inv in E as ([l datalen] & p2 & El & [= <- <- _]).
  exists n, l. split_and!; [done..|]. by eapply yields_pStrings in El.
Qed.

(** *** CDMA SMS *)

Lemma yields_readDigits k i max st ut : yields (readDigits k i max st ut) (fun r => length r.2 = k).
Proof.
  revert i st ut. induction k as [|k IH]; intros i st ut; cbn [readDigits]; [by apply yields_ret|].
  apply yields_any. intros [st' ut']. destruct (i <? max); [|apply yields_ub]. apply (yields_bind _ _ _ _ (IH (i + 1) st' ut')). intros [[st2 ut2] l] Hl.
  apply yields_ret. simpl in *. by rewrite Hl.
Qed.

Lemma yields_digits {B} k i max st ut (f : bool * Z * list Z -> cmd P B) Q :
  (forall st ut l, length l = k -> yields (f (st, ut, l)) Q) -> yields (readDigits k i max st ut ≫= f) Q.
Proof. intros Hf. apply (yields_bind _ _ _ _ (yields_readDigits k i max st ut)). intros [[st' ut'] l]. apply Hf. Qed.

Lemma length_zero_fill n l : (length l <= Z.to_nat n)%nat -> length (zero_fill n l) = Z.to_nat n.
Proof. intros Hl. unfold zero_fill. rewrite length_app, length_replicate. lia. Qed.

Lemma to_nat_le a b : a <= b -> (Z.to_nat a <= Z.to_nat b)%nat.
Proof. lia. Qed.

Lemma yields_readCdmaSms lim1 lim2 lim3 t ut :
  i32_ok t -> limit_ok lim1 RIL_CDMA_SMS_ADDRESS_MAX -> limit_ok lim2 RIL_CDMA_SMS_SUBADDRESS_MAX ->
  limit_ok lim3 RIL_CDMA_SMS_BEARER_DATA_MAX ->
  yields (readCdmaSms lim1 lim2 lim3 t ut) (fun r => cdma_sms_ok r.2).
Proof.
  intros Ht H1 H2 H3. unfold readCdmaSms.
  eapply yields_bind; [|intros [[[[[ts pr] cat] ad] t1] ut1] Ha].
  { unfold readSmsAddress. yields_all. apply yields_digits. intros ? ? l Hl. yields_all.
    instantiate (1 := fun '(ts, pr, cat, ad, t1, ut1) => i32_ok ts /\ i32_ok cat /\ i32_ok (digit_mode ad) /\
      i32_ok (number_mode ad) /\ i32_ok (number_type ad) /\ i32_ok (number_plan ad) /\
      length (digits ad) = Z.to_nat (rilh RIL_CDMA_SMS_ADDRESS_MAX) /\ i32_ok t1).
    simpl. split_and!; try done. apply length_zero_fill. rewrite Hl. by apply to_nat_le. }
  destruct Ha as (A1 & A2 & A3 & A4 & A5 & A6 & A7 & A8).
  eapply yields_bind; [|intros [[sb t2] ut2] Hb].
  { unfold readSmsSubAddress. yields_all. apply yields_digits. intros ? ? l Hl. yields_all.
    instantiate (1 := fun '(sb, t2, ut2) => i32_ok (subaddressType sb) /\
      length (sub_digits sb) = Z.to_nat (rilh RIL_CDMA_SMS_SUBADDRESS_MAX) /\ i32_ok t2).
    simpl. split_and!; [done| |done]. apply length_zero_fill. rewrite Hl. by apply to_nat_le. }
  destruct Hb as (B1 & B2 & B3). eapply yields_bind; [|intros [[st len] bd] Hd].
  { unfold readSmsBearer. yields_all. apply yields_digits. intros ? ? l Hl. yields_all.
    instantiate (1 := fun '(st, len, bd) => i32_ok len /\ length bd = Z.to_nat (rilh RIL_CDMA_SMS_BEARER_DATA_MAX)).
    simpl. split_and!; [done|]. apply length_zero_fill. rewrite Hl. by apply to_nat_le. }
  destruct Hd as (D1 & D2). apply yields_ret. by split_and!.
Qed.

(** *** Every dispatch function *)

Hypothesis Hjunk : i32_ok junk.
Hypothesis Hstack : stack_avail < 2 ^ 32.
Hypothesis Hsizes : forall t, 0 < sizeof t.

Lemma yields_construct : yields (constructCdmaSms junk) (fun r => cdma_sms_ok r.2).
Proof. unfold constructCdmaSms. apply yields_readCdmaSms; [done|apply limit_MIN..]. Qed.

(** The configurations that were read: [k] of them. *)
Lemma yields_readGsmBci k st t : i32_ok t -> yields (readGsmBci k st t) (fun r => length r.2 = k /\ Forall is_Some r.2).
Proof.
  revert st t. induction k as [|k IH]; intros st t Ht; cbn [readGsmBci]; [by apply yields_ret|]. yields_all.
  apply (yields_bind _ _ _ _ (IH _ _ H3)). intros [st' l] [Hl Hs]. apply yields_ret. simpl in *. split; [by rewrite Hl|by constructor].
Qed.

Lemma yields_readCdmaBci k st t : i32_ok t -> yields (readCdmaBci k st t) (fun r => length r.2 = k /\ Forall is_Some r.2).
Proof.
  revert st t. induction k as [|k IH]; intros st t Ht; cbn [readCdmaBci]; [by apply yields_ret|]. yields_all.
  apply (yields_bind _ _ _ _ (IH _ _ H1)). intros [st' l] [Hl Hs]. apply yields_ret. simpl in *. split; [by rewrite Hl|by constructor].
Qed.

Lemma yields_vla {B} n size (f : unit -> cmd P B) Q :
  (0 <= n -> n * size <= stack_avail -> yields (f tt) Q) -> yields (vla stack_avail n size ≫= f) Q.
Proof.
  intros Hf. unfold vla. destruct (Z.ltb_spec n 0) as [|Hn]; [done|]. apply yields_alloca. intros Hs. by apply Hf.
Qed.

(** An array of pointers to structures, both on the stack. *)
Lemma config_len num size : 0 <= num -> 0 < size -> num * (size + sizeof_ptr) <= stack_avail ->
  u32 (num * sizeof_ptr) = sizeof_ptr * Z.of_nat (Z.to_nat num).
Proof. intros Hn Hs Hl. unfold u32, sizeof_ptr in *. rewrite Z2Nat.id by done. rewrite Z.mod_small; nia. Qed.

(** By what the rest of the run yields. *)
Ltac by_yields E Q :=
  match type of E with ?m _ = _ => cut (yields m Q); [let H := fresh in intros H; exact (H _ _ _ E)|] end; clear E.

(** The copy of an old RIL's parameters has six of them. *)
Lemma copyStrings_end k p p2 : at_end p2 -> exists p' p2' bs, copyStrings k p2 p = Ok (p2', p') /\ at_end p2' /\
  parcel_data p2' = parcel_data p2 ++ bs.
Proof.
  revert p p2. induction k as [|k IH]; intros p p2 He; [exists p, p2, []; by rewrite app_nil_r|].
  cbn [copyStrings]. unfold rdString16, mbind, cmd_bind. destruct (readString16Inplace p) as [u p1].
  destruct (wrote_end _ _ _ (pl_writeString16 (Some (default [] u)) p2) He) as [He2 Hd2].
  destruct (IH p1 _ He2) as (p' & p2' & bs & E & He' & Hd'). exists p', p2'. eexists. split_and!; [exact E|done|].
  by rewrite Hd', Hd2, <- app_assoc.
Qed.

Lemma sent_remaining p q n : remaining p = remaining q -> sent count_read p n -> sent count_read q n.
Proof.
  intros Hr [p' E]. pose proof (pl_readInt32 p) as Hp. pose proof (pl_readInt32 q) as Hq. rewrite Hr in Hp.
  unfold sent, count_read, mbind, cmd_bind, rdI32 in *. destruct (readInt32 p) as [x p1], (readInt32 q) as [y q1]. simpl in *.
  case_decide; destruct Hp as [-> _], Hq as [-> _]; [|done]. injection E as <- _. by eexists.
Qed.

Lemma sent_unique m p a b : sent m p a -> sent m p b -> a = b.
Proof. intros [p1 E1] [p2 E2]. congruence. Qed.

Lemma sent_read p n p1 : readInt32 p = (Some n, p1) -> sent count_read p n.
Proof. intros E. exists p1. unfold count_read, mbind, cmd_bind, rdI32. by rewrite E. Qed.

(** The count in front of the copy. *)
Lemma sent_six p2 data bs n :
  parcel_data p2 = data ++ le32 numParamsRilV3 ++ bs -> sent count_read (setDataPosition (length data) p2) n -> n = numParamsRilV3.
Proof.
  intros Hd Hn. destruct (pl_setPos (length data) p2) as [D P2]; [rewrite Hd, length_app; lia|].
  assert (Hh : holds (setDataPosition (length data) p2) (parcel_data p2) (le32 numParamsRilV3 ++ bs)).
  { split; [done|]. unfold remaining. by rewrite D, P2, Hd, drop_app_length. }
  destruct (readInt32_ok _ _ _ _ Hh) as (p1 & E & _). rewrite i32_id in E by (unfold i32_ok, numParamsRilV3; lia).
  eapply sent_unique; [done|]. by eapply sent_read.
Qed.

(** [dispatchDataCall] is [dispatchStrings] on the record or on the copy
    made for an old RIL. *)
Lemma dataCall_strings p : (dataPosition p <= length (parcel_data p))%nat ->
  exists q : P,
    (forall n, sent count_read q n -> exists m, sent count_read p m /\
       n = if (version <? 4) && (m >? numParamsRilV3) then numParamsRilV3 else m) /\
    (forall d q', dispatchStrings stack_avail junk q = Ok (d, q') -> exists p', dispatchDataCall version stack_avail junk p = Ok (d, p')) /\
    (forall d p', dispatchDataCall version stack_avail junk p = Ok (d, p') -> exists q', dispatchStrings stack_avail junk q = Ok (d, q')).
Proof.
  intros Hpos. pose proof (pl_readInt32 p) as Hr. set (run := dispatchDataCall version stack_avail junk p).
  assert (Erun : run = dispatchDataCall version stack_avail junk p) by done. clearbody run.
  unfold dispatchDataCall in Erun. rewrite bind_get in Erun. cbv zeta in Erun.
  unfold mbind at 1, cmd_bind at 1, rdI32v in Erun. destruct (readInt32 p) as [r p1] eqn:E1. simpl in Hr.
  destruct ((version <? 4) && (default 0 r >? numParamsRilV3)) eqn:Hn.
  - rewrite bind_get in Erun. case_decide as Hlen; destruct Hr as [-> [Hd1 Hp1]]; [|by rewrite andb_false_r in Hn].
    destruct pl_new as [D0 P0]. assert (He0 : at_end (parcel_new : P)) by (unfold at_end; by rewrite D0, P0).
    destruct (wrote_end _ _ _ (pl_appendFrom p1 0 (dataPosition p) parcel_new ltac:(rewrite Hd1; lia)) He0) as [He1 Hda].
    rewrite D0, drop_0, Hd1 in Hda. cbn [app] in Hda.
    destruct (wrote_end _ _ _ (pl_writeInt32 numParamsRilV3 (appendFrom p1 0 (dataPosition p) parcel_new)) He1) as [He2 Hdb].
    destruct (copyStrings_end (Z.to_nat numParamsRilV3) p1 _ He2) as (p' & p2' & bs & E & He' & Hd').
    rewrite (cmd_bind_Ok _ _ _ _ _ E) in Erun. unfold on_parcel in Erun. subst run.
    exists (setDataPosition (dataPosition p) p2'). split; [|split].
    + intros n Hs. rewrite <- (length_take_le (parcel_data p) (dataPosition p)) in Hs by done.
      apply (sent_six _ _ bs) in Hs as ->; [|by rewrite Hd', Hdb, Hda, <- app_assoc].
      eexists. split; [by eapply sent_read|]. simpl in Hn. by rewrite Hn.
    + intros d q' Ed. exists p'. by rewrite Ed.
    + intros d q'.
      destruct (dispatchStrings _ _ _) as [[x y]| |]; [|done|done]. intros [= <- _]. by eexists.
  - rewrite bind_modify in Erun. subst run. exists (setDataPosition (dataPosition p) p1).
    assert (Hd1 : parcel_data p1 = parcel_data p) by (case_decide; by destruct Hr as [_ [? _]]).
    destruct (pl_setPos (dataPosition p) p1) as [D2 P2]; [by rewrite Hd1|]. split; [|split].
    + intros n Hs. apply (sent_remaining _ p) in Hs; [|unfold remaining; by rewrite D2, P2, Hd1].
      exists n. split; [done|]. case_decide.
      * destruct Hr as [-> _]. apply sent_read, (sent_unique _ _ _ _ Hs) in E1 as ->. simpl in Hn. by rewrite Hn.
      * destruct Hs as [x Hx]. unfold count_read, mbind, cmd_bind, rdI32 in Hx. rewrite E1 in Hx. by destruct Hr as [-> _].
    + by eauto.
    + by eauto.
Qed.

(** What does not depend on the record. *)
Definition gives_any (f : dispatch_fn) (d : dresult) : Prop :=
  forall data len, d = DRequest data len -> forall p p', arg_ok p p' f data len.

Ltac finish_args := first [by intros ? ? [=] | solve [intros data len [= <- <-] p p'; simpl; eauto 12]].

Lemma rdInplace_bytes n p d p' : len_ok n -> rdInplace n p = Ok (d, p') -> bytes_ok p' n d.
Proof.
  intros Hn E. pose proof (pl_readInplace n p Hn) as Hl. unfold rdInplace in E. injection E as E. rewrite E in Hl. cbn [fst snd] in Hl.
  unfold bytes_ok. pose proof (pad4_ge (Z.to_nat n)). unfold len_ok in Hn. case_decide as Hd; destruct Hl as [-> Hc].
  - rewrite length_take. lia.
  - rewrite (consumed_remaining _ _ _ Hc), length_drop. lia.
Qed.

Lemma read_uus_ok t p u p' : i32_ok t -> read_uus junk t p = Ok (Some u, p') -> uus_ok p' u.
Proof.
  intros Ht E. unfold read_uus in E. apply cmd_bind_inv in E as ([s1 x1] & p1 & E1 & E).
  pose proof (yields_rdI32 _ Ht _ _ _ E1) as H1. apply cmd_bind_inv in E as ([s2 x2] & p2 & E2 & E).
  pose proof (yields_rdI32 _ H1 _ _ _ E2) as H2. apply cmd_bind_inv in E as ([s3 n] & p3 & E3 & E).
  pose proof (yields_rdI32 _ Hjunk _ _ _ E3) as H3. simpl in H1, H2, H3. destruct s3; cbn [negb] in E; [|done].
  destruct (Z.eqb_spec n (-1)) as [->|Hn].
  - injection E as <- <-. split_and!; [done..|]. by left.
  - apply cmd_bind_inv in E as (d & p4 & E4 & [= <- <-]). split_and!; [done..|]. right. cbn [uusLength uusData]. intros H0.
    unfold i32_ok in H3. rewrite u32_id in E4 by lia. eapply rdInplace_bytes; [|exact E4]. unfold len_ok. lia.
Qed.

Lemma gives_dispatchDial p d p' : dispatchDial version junk p = Ok (d, p') -> gives p F_dispatchDial d p'.
Proof.
  intros E. unfold dispatchDial in E. apply cmd_bind_inv in E as (a & p1 & _ & E).
  apply cmd_bind_inv in E as ([st x] & p2 & E2 & E). pose proof (yields_rdI32 _ Hjunk _ _ _ E2) as H2. simpl in H2.
  destruct st; cbn [negb orb] in E; [|injection E as <- <-; by intros ? ?].
  destruct (bool_decide_reflect (is_Some a)) as [Ha|Ha]; cbn [negb] in E; [|injection E as <- <-; by intros ? ?].
  destruct (Z.ltb_spec version 3) as [Hv|Hv].
  { injection E as <- <-. intros data len [= <- <-]. eexists. split_and!; try done. simpl. lia. }
  apply cmd_bind_inv in E as ([st n] & p3 & E3 & E). destruct st; cbn [negb] in E; [|injection E as <- <-; by intros ? ?].
  destruct (n =? 0).
  { injection E as <- <-. intros data len [= <- <-]. eexists. split_and!; try done. lia. }
  apply cmd_bind_inv in E as ([u|] & p4 & E4 & E); [|injection E as <- <-; by intros ? ?]. injection E as <- <-.
  apply (read_uus_ok _ _ _ _ H2) in E4. intros data len [= <- <-]. eexists. split_and!; try done; [lia|].
  by intros u1 [= <-].
Qed.

Lemma gives_dispatchRaw p d p' : dispatchRaw junk p = Ok (d, p') -> gives p F_dispatchRaw d p'.
Proof.
  intros E. unfold dispatchRaw in E.
  apply (count_bind (fun status len => if negb status then _ else _)) in E as [[p1 E]|(n & p1 & Hn & Hs & E)]; [| |done].
  { injection E as <- <-. by intros ? ?. }
  cbn [negb] in E. apply cmd_bind_inv in E as (b & p2 & Eb & [= <- <-]). intros data len [= <- <-].
  exists n, b. split_and!; [done..|]. intros H1. eapply rdInplace_bytes; [|exact Eb]. unfold len_ok, i32_ok in *.
  destruct (Z.eqb_spec n (-1)); rewrite u32_id; lia.
Qed.

Lemma gives_dispatchInts p d p' : dispatchInts stack_avail junk p = Ok (d, p') -> gives p F_dispatchInts d p'.
Proof.
  intros E. unfold dispatchInts in E.
  apply (count_bind (fun status count => if negb status || (count =? 0) then _ else _)) in E as [[p1 E]|(n & p1 & Hn & Hs & E)]; [| |done].
  { injection E as <- <-. by intros ? ?. }
  cbn [negb orb] in E. destruct (Z.eqb_spec n 0) as [->|Hne]; [injection E as <- <-; by intros ? ?|].
  cbv zeta in E. apply cmd_bind_inv in E as (? & p2 & _ & E). apply cmd_bind_inv in E as (r & p3 & Er & E).
  apply (yields_readInts _ 0 _ Hjunk) in Er. destruct r as [l|]; [|injection E as <- <-; by intros ? ?].
  injection E as <- <-. intros data len [= <- <-]. destruct (Er l eq_refl) as (H1 & H2 & H3).
  exists n, l. split_and!; try done. rewrite H1 in *. by apply array_ok_count.
Qed.

Lemma gives_dispatchGsm p d p' : dispatchGsmBrSmsCnf stack_avail junk p = Ok (d, p') -> gives p F_dispatchGsmBrSmsCnf d p'.
Proof.
  intros E. unfold dispatchGsmBrSmsCnf in E.
  apply (count_bind (fun status num => if negb status then _ else _)) in E as [[p1 E]|(n & p1 & Hn & Hs & E)]; [| |done].
  { injection E as <- <-. by intros ? ?. }
  cbn [negb] in E. by_yields E (fun d => gives p F_dispatchGsmBrSmsCnf d p'). apply yields_vla. intros H0 Hl.
  apply (yields_bind _ _ _ _ (yields_readGsmBci _ _ _ Hjunk)). intros [st' l] [H1 H2]. yields_all; [|by intros ? ?].
  intros data len [= <- <-]. simpl in *. exists n, l. split_and!; try done.
  rewrite (config_len n (sizeof S_RIL_GSM_BroadcastSmsConfigInfo)), Z2Nat.id by done. done.
Qed.

Lemma gives_dispatchCdma p d p' : dispatchCdmaBrSmsCnf stack_avail junk p = Ok (d, p') -> gives p F_dispatchCdmaBrSmsCnf d p'.
Proof.
  intros E. unfold dispatchCdmaBrSmsCnf in E.
  apply (count_bind (fun status num => if negb status then _ else _)) in E as [[p1 E]|(n & p1 & Hn & Hs & E)]; [| |done].
  { injection E as <- <-. by intros ? ?. }
  cbn [negb] in E. by_yields E (fun d => gives p F_dispatchCdmaBrSmsCnf d p'). apply yields_vla. intros H0 Hl.
  apply (yields_bind _ _ _ _ (yields_readCdmaBci _ _ _ Hjunk)). intros [st' l] [H1 H2]. yields_all; [|by intros ? ?].
  intros data len [= <- <-]. simpl in *. exists n, l. split_and!; try done.
  rewrite (config_len n (sizeof S_RIL_CDMA_BroadcastSmsConfigInfo)), Z2Nat.id by done. done.
Qed.

Lemma yields_dispatchSIM_IO rn : yields (dispatchSIM_IO version use_cla junk rn) (gives_any F_dispatchSIM_IO).
Proof.
  unfold dispatchSIM_IO. apply (yields_bind _ _ (fun r => i32_ok r.1 /\ i32_ok r.2)).
  { yields_all; simpl; try done. }
  intros [c t] [Hc Ht]. simpl in Hc, Ht. yields_all; finish_args.
Qed.

Lemma gives_dispatchDataCall p d p' : (dataPosition p <= length (parcel_data p))%nat ->
  dispatchDataCall version stack_avail junk p = Ok (d, p') -> gives p F_dispatchDataCall d p'.
Proof.
  intros Hpos E data len ->. destruct (dataCall_strings p Hpos) as (q & Hc & _ & Hq). destruct (Hq _ _ E) as [q1 Eq].
  apply strings_of_dispatchStrings in Eq as (n & l & Hs & -> & Hl); [|done]. destruct (Hc n Hs) as (m & Hm & ->). by exists m, l.
Qed.

Lemma gives_dispatchImsSms p d p' : dispatchImsSms stack_avail junk p = Ok (d, p') -> gives p F_dispatchImsSms d p'.
Proof.
  intros E. unfold dispatchImsSms in E. apply cmd_bind_inv in E as ([s1 t] & p1 & E1 & E).
  destruct s1; cbn [negb] in E; [|injection E as <- <-; by intros ? ?]. cbv zeta in E.
  apply cmd_bind_inv in E as ([s2 re] & p2 & E2 & E). destruct s2; cbn [negb] in E; [|injection E as <- <-; by intros ? ?].
  apply cmd_bind_inv in E as ([s3 ref] & p3 & E3 & E). pose proof (yields_rdRaw32 _ Hjunk _ _ _ E3) as H3. simpl in H3.
  destruct s3; cbn [negb] in E; [|injection E as <- <-; by intros ? ?].
  destruct (Z.eqb_spec (rilh RADIO_TECH_3GPP) t) as [Ht|_].
  - unfold dispatchImsGsmSms in E.
    apply (count_bind (fun status count => if negb status then _ else _)) in E as [[p4 E]|(n & p4 & Hn & Hs & E)]; [| |done].
    { injection E as <- <-. by intros ? ?. }
    cbn [negb] in E. apply cmd_bind_inv in E as ([l len'] & p5 & El & [= <- <-]). intros data len [= <- <-].
    eexists. split_and!; [done|done|]. right. exists n, l, len'. split_and!; try done; [|by eapply yields_pStrings in El].
    destruct Hs as [q Hs]. exists q. unfold array_count. rewrite (cmd_bind_Ok _ _ _ _ _ E1). cbv beta iota. rewrite (cmd_bind_Ok _ _ _ _ _ E2).
    cbv beta iota. rewrite (cmd_bind_Ok _ _ _ _ _ E3). cbv beta iota. by rewrite Ht, Z.eqb_refl.
  - destruct (rilh RADIO_TECH_3GPP2 =? t); [|injection E as <- <-; by intros ? ?]. unfold dispatchImsCdmaSms in E.
    by_yields E (fun d => gives p F_dispatchImsSms d p'). apply (yields_bind _ _ _ _ yields_construct). intros [st' m] Hm.
    yields_all; [|by intros ? ?]. intros data len [= <- <-]. eexists. split_and!; [done|done|]. left. by eexists.
Qed.

(** The dispatch functions of no array. *)
Lemma yields_dispatchFn f rn :
  match f with
  | F_dispatchStrings | F_dispatchInts | F_dispatchDataCall | F_dispatchGsmBrSmsCnf | F_dispatchCdmaBrSmsCnf | F_dispatchImsSms
  | F_dispatchRaw | F_dispatchDial => True
  | _ => yields (dispatchFn version use_cla stack_avail junk f rn) (gives_any f)
  end.
Proof.
  destruct f; try done; cbn [dispatchFn]; try (by auto using yields_dispatchSIM_IO);
    try (unfold dispatchVoid; apply yields_ret; by finish_args).
  - unfold dispatchString. yields_all. intros data len [= <- <-] p p'. destruct a; simpl; eauto.
  - unfold dispatchCallForward. yields_all; [|finish_args]. intros data len [= <- <-] p p'. eexists. split_and!; try done.
    simpl. by destruct a as [[|]|].
  - unfold dispatchSmsWrite. yield_step. yield_step. cbv beta iota. destruct st; cbn [negb orb]; [|apply yields_ret; finish_args].
    destruct (bool_decide_reflect (is_Some a)); cbn [negb]; yields_all; finish_args.
  - unfold dispatchCdmaSms. apply (yields_bind _ _ _ _ yields_construct). intros [st m] Hm. yields_all; finish_args.
  - unfold dispatchCdmaSmsAck. yields_all; finish_args.
  - unfold dispatchRilCdmaSmsWriteArgs. yield_step. cbv beta iota zeta.
    eapply yields_bind; [apply yields_readCdmaSms; [done|apply limit_MAX..]|]. intros [st' m] Hm. yields_all; finish_args.
  - unfold dispatchSetInitialAttachApn. yields_all; finish_args.
  - unfold dispatchUiccSubscripton. yields_all; finish_args.
Qed.

Lemma gives_dispatchFn f rn p d p' : (dataPosition p <= length (parcel_data p))%nat ->
  dispatchFn version use_cla stack_avail junk f rn p = Ok (d, p') -> gives p f d p'.
Proof.
  intros Hpos E. pose proof (yields_dispatchFn f rn) as Hy. destruct f; cbn [dispatchFn] in *;
    try (by auto using gives_dispatchDial, gives_dispatchRaw, gives_dispatchInts, gives_dispatchGsm, gives_dispatchCdma,
      gives_dispatchDataCall, gives_dispatchImsSms);
    try (intros data len ->; exact (Hy _ _ _ E data len eq_refl p p')).
  intros data len ->. by apply strings_of_dispatchStrings in E.
Qed.

(** ** When a dispatch function is defined *)

Definition total {A} (m : cmd P A) : Prop := forall p, exists a p', m p = Ok (a, p').

Lemma total_ret {A} (a : A) : total (mret a).
Proof. intros p. by eexists _, _. Qed.

Lemma total_bind {A B} (m : cmd P A) (f : A -> cmd P B) : total m -> (forall a, total (f a)) -> total (m ≫= f).
Proof. intros Hm Hf p. destruct (Hm p) as (a & p1 & E). rewrite (cmd_bind_Ok _ _ _ _ _ E). apply Hf. Qed.

Lemma total_if {A} (b : bool) (m1 m2 : cmd P A) : total m1 -> total m2 -> total (if b then m1 else m2).
Proof. by destruct b. Qed.

Lemma total_rdI32 t : total (rdI32 t).
Proof. intros p. unfold rdI32. destruct (readInt32 p). eauto. Qed.
Lemma total_rdU8 t : total (rdU8 t).
Proof. intros p. unfold rdU8. destruct (parcel_read 1 p). eauto. Qed.
Lemma total_rdRaw32 t : total (rdRaw32 t).
Proof. intros p. unfold rdRaw32. destruct (parcel_read 4 p). eauto. Qed.
Lemma total_rdInplace n : total (rdInplace n).
Proof. intros p. unfold rdInplace. destruct (readInplace n p). eauto. Qed.
Lemma total_string : total strdupReadString.
Proof. intros p. apply strdupReadString_total. Qed.

Create HintDb total.
#[local] Hint Resolve total_ret total_rdI32 total_rdU8 total_rdRaw32 total_rdInplace total_string : total.

Ltac total_step :=
  cbv beta iota zeta;
  lazymatch goal with
  | |- total (_ ≫= _) => apply total_bind; [|intros ?]
  | |- total (if _ then _ else _) => apply total_if
  | |- total (let '_ := ?x in _) => destruct x
  | |- total (match ?x with _ => _ end) => destruct x
  | _ => by auto with total
  end.
Ltac total_all := repeat total_step.

Lemma total_readDigits k i max st ut : digits_fit k i max -> total (readDigits k i max st ut).
Proof.
  revert i st ut. induction k as [|k IH]; intros i st ut Hk; cbn [readDigits]; [apply total_ret|].
  apply digits_fit_S in Hk as [Hi Hk]. apply Z.ltb_lt in Hi as ->. total_all.
Qed.

#[local] Hint Resolve total_readDigits limit_fit limit_MIN limit_MAX : total.

Lemma total_readCdmaSms l1 l2 l3 t ut :
  limit_ok l1 RIL_CDMA_SMS_ADDRESS_MAX -> limit_ok l2 RIL_CDMA_SMS_SUBADDRESS_MAX -> limit_ok l3 RIL_CDMA_SMS_BEARER_DATA_MAX ->
  total (readCdmaSms l1 l2 l3 t ut).
Proof. intros H1 H2 H3. unfold readCdmaSms, readSmsAddress, readSmsSubAddress, readSmsBearer. total_all. Qed.

Lemma total_readGsmBci k st t : total (readGsmBci k st t).
Proof. revert st t. induction k as [|k IH]; intros st t; cbn [readGsmBci]; total_all. Qed.

Lemma total_readCdmaBci k st t : total (readCdmaBci k st t).
Proof. revert st t. induction k as [|k IH]; intros st t; cbn [readCdmaBci]; total_all. Qed.

#[local] Hint Resolve total_readCdmaSms total_readGsmBci total_readCdmaBci : total.

Lemma total_readStrings k i datalen : (i + Z.of_nat k) * 4 <= datalen -> total (readStrings k i datalen).
Proof.
  revert i. induction k as [|k IH]; intros i Hl; cbn [readStrings]; [apply total_ret|]. apply total_bind; [apply total_string|].
  intros x. replace ((i + 1) * sizeof_ptr <=? datalen) with true by (unfold sizeof_ptr; lia).
  apply total_bind; [apply IH; lia|]. intros l. apply total_ret.
Qed.

Lemma total_readInts k i datalen : (i + Z.of_nat k) * 4 <= datalen -> total (readInts junk k i datalen).
Proof.
  revert i. induction k as [|k IH]; intros i Hl; cbn [readInts]; [apply total_ret|]. apply total_bind; [apply total_rdI32|].
  intros [st t]. replace ((i + 1) * sizeof_int <=? datalen) with true by (unfold sizeof_int; lia). cbn [negb].
  total_step; [total_all|]. apply total_bind; [apply IH; lia|]. intros l. apply total_ret.
Qed.

Lemma total_alloca n : n <= stack_avail -> total (alloca stack_avail n).
Proof. intros Hn. unfold alloca. replace (n <=? stack_avail) with true by lia. apply total_ret. Qed.

(** The bytes on the stack for one member of the array. *)
Definition member_size (f : dispatch_fn) : Z :=
  match f with
  | F_dispatchGsmBrSmsCnf => sizeof S_RIL_GSM_BroadcastSmsConfigInfo + sizeof_ptr
  | F_dispatchCdmaBrSmsCnf => sizeof S_RIL_CDMA_BroadcastSmsConfigInfo + sizeof_ptr
  | _ => sizeof_ptr
  end.

Definition fits (size : Z) (m : cmd P (option Z)) (p : P) : Prop :=
  forall count p', m p = Ok (Some count, p') -> 0 <= count /\ count * size <= stack_avail.

Definition returns {A} (m : cmd P A) (p : P) : Prop := exists a p', m p = Ok (a, p').

(** A function that reads a count first. *)
Lemma returns_count {A} size (f : bool -> Z -> cmd P A) p :
  fits size count_read p -> total (f false junk) ->
  (forall count, 0 <= count -> count * size <= stack_avail -> total (f true count)) ->
  returns ('(status, count) ← rdI32 junk; f status count) p.
Proof.
  intros Hf H0 H1. unfold fits, count_read, mbind, cmd_bind in Hf. unfold returns, mbind, cmd_bind.
  destruct (rdI32_cases p) as [(x & p1 & E)|(p1 & E & _)]; rewrite E in *; [|apply H0].
  destruct (Hf x p1 eq_refl) as [Ha Hb]. by apply H1.
Qed.

Hypothesis Hroom : 24 <= stack_avail.

Lemma u32_count count : 0 <= count -> count * 4 <= stack_avail -> u32 (4 * count) = 4 * count.
Proof. intros H1 H2. unfold u32. apply Z.mod_small. lia. Qed.

Lemma total_pStrings count : 0 <= count -> count * sizeof_ptr <= stack_avail -> total (read_pStrings stack_avail count).
Proof.
  intros H1 H2. unfold read_pStrings, sizeof_ptr in *. total_step; [|total_step; [apply total_ret|]].
  - apply total_bind; [apply total_alloca; lia|]. intros _. apply total_ret.
  - cbv zeta. rewrite u32_count by done. apply total_bind; [apply total_alloca; lia|]. intros _.
    apply total_bind; [apply total_readStrings; lia|]. intros l. apply total_ret.
Qed.

Lemma returns_dispatchStrings p : fits sizeof_ptr count_read p -> returns (dispatchStrings stack_avail junk) p.
Proof.
  intros Hf. unfold dispatchStrings. eapply (returns_count sizeof_ptr (fun status count => if negb status then _ else _)); [done| |].
  - apply total_ret.
  - intros count H1 H2. cbn [negb]. apply total_bind; [by apply total_pStrings|]. intros [l len]. apply total_ret.
Qed.

Lemma returns_dispatchInts p : fits sizeof_ptr count_read p -> returns (dispatchInts stack_avail junk) p.
Proof.
  intros Hf. unfold dispatchInts.
  eapply (returns_count sizeof_ptr (fun status count => if negb status || (count =? 0) then _ else _)); [done|apply total_ret|].
  intros count H1 H2. cbn [negb orb]. total_step; [apply total_ret|]. cbv zeta. unfold sizeof_int, sizeof_ptr in *.
  rewrite u32_count by done. apply total_bind; [apply total_alloca; lia|]. intros _.
  apply total_bind; [apply total_readInts; lia|]. intros l. total_all.
Qed.

Lemma total_vla n size : 0 <= n -> n * size <= stack_avail -> total (vla stack_avail n size).
Proof. intros H1 H2. unfold vla. replace (n <? 0) with false by lia. by apply total_alloca. Qed.

Lemma returns_dispatchGsm p : fits (member_size F_dispatchGsmBrSmsCnf) count_read p -> returns (dispatchGsmBrSmsCnf stack_avail junk) p.
Proof.
  intros Hf. unfold dispatchGsmBrSmsCnf.
  eapply (returns_count _ (fun status num => if negb status then _ else _)); [done|apply total_ret|].
  intros num H1 H2. cbn [negb]. apply total_bind; [by apply total_vla|]. intros _. total_all.
Qed.

Lemma returns_dispatchCdma p : fits (member_size F_dispatchCdmaBrSmsCnf) count_read p -> returns (dispatchCdmaBrSmsCnf stack_avail junk) p.
Proof.
  intros Hf. unfold dispatchCdmaBrSmsCnf.
  eapply (returns_count _ (fun status num => if negb status then _ else _)); [done|apply total_ret|].
  intros num H1 H2. cbn [negb]. apply total_bind; [by apply total_vla|]. intros _. total_all.
Qed.

Lemma returns_dispatchDataCall p :
  (dataPosition p <= length (parcel_data p))%nat -> fits sizeof_ptr count_read p -> returns (dispatchDataCall version stack_avail junk) p.
Proof.
  intros Hpos Hf. destruct (dataCall_strings p Hpos) as (q & Hc & Hr & _). destruct (returns_dispatchStrings q) as (d & q' & E).
  - intros n p' En. destruct (Hc n) as (m & [p1 Em] & ->); [by exists p'|]. destruct (_ && _); [unfold sizeof_ptr, numParamsRilV3; lia|].
    by apply (Hf m p1).
  - destruct (Hr _ _ E) as [p1 E1]. by exists d, p1.
Qed.

Lemma returns_dispatchImsSms p : fits sizeof_ptr (array_count F_dispatchImsSms) p -> returns (dispatchImsSms stack_avail junk) p.
Proof.
  intros Hf. unfold dispatchImsSms, returns. destruct (total_rdI32 junk p) as ([st t] & p1 & E1).
  destruct (total_rdU8 (u8 junk) p1) as ([st2 retry] & p2 & E2). destruct (total_rdRaw32 junk p2) as ([st3 ref] & p3 & E3).
  assert (Hf3 : rilh RADIO_TECH_3GPP = t -> fits sizeof_ptr count_read p3).
  { intros <- count p' E. apply (Hf count p'). unfold array_count. rewrite (cmd_bind_Ok _ _ _ _ _ E1). cbv beta iota.
    rewrite (cmd_bind_Ok _ _ _ _ _ E2). cbv beta iota. rewrite (cmd_bind_Ok _ _ _ _ _ E3). cbv beta iota. by rewrite Z.eqb_refl. }
  rewrite (cmd_bind_Ok _ _ _ _ _ E1). destruct st; cbn [negb]; [|by eexists _, _].
  rewrite (cmd_bind_Ok _ _ _ _ _ E2). destruct st2; cbn [negb]; [|by eexists _, _].
  rewrite (cmd_bind_Ok _ _ _ _ _ E3). destruct st3; cbn [negb]; [|by eexists _, _].
  destruct (Z.eqb_spec (rilh RADIO_TECH_3GPP) t) as [Ht|_].
  - unfold dispatchImsGsmSms. specialize (Hf3 Ht).
    eapply (returns_count sizeof_ptr (fun status count => if negb status then _ else _)); [done|apply total_ret|].
    intros count H1 H2. cbn [negb]. apply total_bind; [by apply total_pStrings|]. intros [l len]. apply total_ret.
  - destruct (rilh RADIO_TECH_3GPP2 =? t); [|by eexists _, _]. unfold dispatchImsCdmaSms, constructCdmaSms.
    apply (total_bind (readCdmaSms _ _ _ junk (u8 junk))); [apply total_readCdmaSms; apply limit_MIN|]. intros [st m]. total_all.
Qed.

Lemma total_read_uus t : total (read_uus junk t).
Proof. unfold read_uus. total_all. Qed.
#[local] Hint Resolve total_read_uus : total.

Lemma returns_dispatchFn f rn p :
  (dataPosition p <= length (parcel_data p))%nat -> fits (member_size f) (array_count f) p ->
  returns (dispatchFn version use_cla stack_avail junk f rn) p.
Proof.
  intros Hp Hf. destruct f; cbn [dispatchFn];
    try (by first [apply returns_dispatchStrings|apply returns_dispatchInts|apply returns_dispatchDataCall
      |apply returns_dispatchGsm|apply returns_dispatchCdma|apply returns_dispatchImsSms]).
  all: unfold dispatchVoid, dispatchString, dispatchSmsWrite, dispatchDial, dispatchSIM_IO, dispatchCallForward, dispatchRaw,
    dispatchCdmaSms, constructCdmaSms, dispatchCdmaSmsAck, dispatchRilCdmaSmsWriteArgs, dispatchSetInitialAttachApn,
    dispatchUiccSubscripton; revert p Hp Hf.
  all: intros p _ _; revert p; match goal with |- forall p, returns ?m p => change (total m) end; total_all.
Qed.

(** A negative count in [array_ok] happens: for one just above -2^30 the
    vendor is given an array of which nothing was stored. *)
Lemma negative_count_unfilled count p data rest :
  - 2 ^ 30 < count < -1 -> 4 * (count + 2 ^ 30) <= stack_avail -> holds p data (le32 count ++ rest) ->
  exists p', dispatchStrings stack_avail junk p = Ok (DRequest (VStrings []) (4 * (count + 2 ^ 30)), p').
Proof.
  intros Hc Hs Hh. destruct (rdI32_ok junk _ _ _ _ Hh) as (p1 & E & _). unfold dispatchStrings. rewrite (cmd_bind_Ok _ _ _ _ _ E).
  rewrite i32_id by (unfold i32_ok; lia). cbn [negb]. unfold read_pStrings. replace (count =? 0) with false by lia.
  replace (count =? -1) with false by lia. cbv zeta.
  assert (Hu : u32 (sizeof_ptr * count) = 4 * (count + 2 ^ 30)).
  { unfold u32, sizeof_ptr. symmetry. apply (Z.mod_unique_pos _ _ (-1)); lia. }
  rewrite Hu. replace (Z.to_nat count) with 0%nat by lia. cbn [readStrings]. unfold alloca. replace (_ <=? stack_avail) with true by lia.
  by exists p1.
Qed.

End Args.
