(* ===== verification/RilDaemon.v ===== *)
(** * The daemon's commands, run to the end

    A small program logic for the commands of RilCore.v: [keeps m Q s ps]
    says that [m] run on [s] returns (no undefined behaviour, no missing
    fuel), keeps the invariant of the daemon ([live], with the pending list
    [ps] of the event loop), and is [quiet]: descriptors, watched events
    and what they are set to stay as they are.  With it: responses,
    completions, timers, and whatever the vendor does when it is called, as
    long as what it passes is what its interface says ([calls_ok]). *)

From S2P Require Import Prelude Bytes Parcel RilConst RilTypes RilDispatch RilResponse RilWire RilResponseSpec.
From S2P Require Import EventHeap EventLoop EventSpec EventLoopSpec RilCore RilRequests RilTimers RilUnsol RilCommand.

(** The events that are static variables of ril.cpp. *)
Definition STATICS : list loc := [s_commands_event; s_wakeupfd_event; s_listen_event; s_debug_event].

(** The event of a timer that has not fired. *)
Definition timer_event (s : ril_state) (a : loc) : Prop :=
  is_Some (r_timers s !! a) /\ desc (ev_heap (r_ev s)) a = Some (CB_userTimerCallback, -1, Some a) /\ a ∉ STATICS.

(** ** The invariant and the frame *)

Section Frame.
Variables (version : Z) (reserved : list loc).

(** [ts]: the timers; [ps]: the events about to be served.  [reserved]:
    timers that are being served. *)
Record core (s : ril_state) (ts ps : list loc) : Prop := {
  co_ev : ev_inv (r_ev s) ts ps;
  co_statics : forall a, a ∈ STATICS -> a ∈ dom (ev_heap (r_ev s));
  co_reqs : exists l, reqs s l;
  co_reg : s_registerCalled s = true;
  co_version : r_version s = version;
  co_wake : wake_inv s;
  co_timers : forall a, a ∈ ts -> timer_event s a;
  co_pending : forall a, a ∈ ps -> timer_event s a \/ a ∈ STATICS;
  co_reserved : forall a, a ∈ reserved -> (a ∉ ts) /\ is_Some (r_timers s !! a) }.

Definition live (s : ril_state) (ps : list loc) : Prop := exists ts, core s ts ps.

Record quiet (s s' : ril_state) : Prop := {
  q_table : watch_table (r_ev s') = watch_table (r_ev s);
  q_fds : readFds (r_ev s') = readFds (r_ev s);
  q_cfg : forall b, b ∈ dom (ev_heap (r_ev s)) -> cfg <$> ev_heap (r_ev s') !! b = cfg <$> ev_heap (r_ev s) !! b;
  q_timers : forall b, is_Some (r_timers s !! b) -> is_Some (r_timers s' !! b);
  q_command : s_fdCommand s' = s_fdCommand s;
  q_listen : s_fdListen s' = s_fdListen s;
  q_version : r_version s' = r_version s;
  q_trace : exists evs, r_trace s' = r_trace s ++ evs }.

#[export] Instance quiet_preorder : PreOrder quiet.
Proof.
  split.
  - intros s. split; try done. exists []. by rewrite app_nil_r.
  - intros s1 s2 s3 [T1 F1 C1 M1 D1 L1 V1 [e1 R1]] [T2 F2 C2 M2 D2 L2 V2 [e2 R2]].
    split; [congruence|congruence| |auto|congruence|congruence|congruence|].
    + intros b Hb. rewrite C2, C1; [done|done|]. specialize (C1 b Hb). apply elem_of_dom in Hb as [e He].
      rewrite He in C1. apply elem_of_dom. by destruct (ev_heap (r_ev s2) !! b).
    + exists (e1 ++ e2). by rewrite R2, R1, app_assoc.
Qed.

(** What changes neither events nor requests. *)
Record light (s s' : ril_state) : Prop := {
  li_ev : r_ev s' = r_ev s;
  li_timers : r_timers s' = r_timers s;
  li_last : s_last_wake_timeout_info s' = s_last_wake_timeout_info s;
  li_reg : s_registerCalled s' = s_registerCalled s;
  li_version : r_version s' = r_version s;
  li_command : s_fdCommand s' = s_fdCommand s;
  li_listen : s_fdListen s' = s_fdListen s;
  li_trace : exists evs, r_trace s' = r_trace s ++ evs }.

Lemma light_quiet s s' : light s s' -> quiet s s'.
Proof. intros [E T L G V C N [e R]]. split; rewrite ?E, ?T; try done. eauto. Qed.

Lemma light_live s s' ps l : light s s' -> reqs s' l -> live s ps -> live s' ps.
Proof.
  intros [E T L G V C N [e R]] Hl [ts [H1 H2 H3 H4 H5 H6 H7 H8 H9]]. exists ts.
  assert (Ht : forall a, timer_event s a -> timer_event s' a) by (intros a; unfold timer_event; by rewrite T, E).
  split; rewrite ?E, ?G, ?V; eauto.
  - by apply (wake_inv_timers s).
  - intros a Ha. destruct (H8 a Ha); eauto.
  - by rewrite T.
Qed.

Lemma light_add_trace evs s : light s (add_trace evs s).
Proof. split; try done. by exists evs. Qed.
Lemma light_radio a b c s : light s (set_radio a b c s).
Proof. split; try done. exists []. simpl. by rewrite app_nil_r. Qed.
Lemma light_nitz v s : light s (set_nitz v s).
Proof. split; try done. exists []. simpl. by rewrite app_nil_r. Qed.
Lemma light_reqs h p s : light s (set_reqs h p s).
Proof. split; try done. exists []. simpl. by rewrite app_nil_r. Qed.

Lemma live_reqs s ps : live s ps -> exists l, reqs s l.
Proof. intros [ts H]. apply H. Qed.

(** ** The program logic *)

Definition keeps {A} (m : rcmd A) (Q : A -> ril_state -> Prop) (s : ril_state) (ps : list loc) : Prop :=
  exists a s', m s = Ok (a, s') /\ live s' ps /\ quiet s s' /\ Q a s'.

Lemma keeps_ret {A} (a : A) (Q : A -> ril_state -> Prop) s ps : live s ps -> Q a s -> keeps (mret a) Q s ps.
Proof. intros Hl HQ. by exists a, s. Qed.

Lemma keeps_bind {A B} (m : rcmd A) (f : A -> rcmd B) Q s ps :
  keeps m (fun a s1 => live s1 ps -> quiet s s1 -> keeps (f a) Q s1 ps) s ps -> keeps (m ≫= f) Q s ps.
Proof.
  intros (a & s1 & E1 & L1 & Q1 & H). destruct (H L1 Q1) as (b & s2 & E2 & L2 & Q2 & HQ).
  exists b, s2. split_and!; [by run_cmd E1|done|by trans s1|done].
Qed.

Lemma keeps_weaken {A} (m : rcmd A) (Q Q' : A -> ril_state -> Prop) s ps :
  keeps m Q s ps -> (forall a s', quiet s s' -> Q a s' -> Q' a s') -> keeps m Q' s ps.
Proof. intros (a & s1 & E1 & L1 & Q1 & H) HQ. exists a, s1. eauto. Qed.

(** A command that returns with a light change. *)
Lemma keeps_light {A} (m : rcmd A) (Q : A -> ril_state -> Prop) s ps a s' :
  m s = Ok (a, s') -> light s s' -> r_heap s' = r_heap s -> s_pendingRequests s' = s_pendingRequests s ->
  live s ps -> Q a s' -> keeps m Q s ps.
Proof.
  intros E Hl Hh Hp HL HQ. destruct (live_reqs s ps HL) as [l Hr].
  exists a, s'. split_and!; [done| |by apply light_quiet|done].
  eapply light_live; [done| |done]. by eapply reqs_ext; [| |exact Hr].
Qed.

Lemma keeps_get {B} (f : ril_state -> rcmd B) Q s ps : keeps (f s) Q s ps -> keeps (s0 ← get_st; f s0) Q s ps.
Proof. done. Qed.

Lemma keeps_ask {A B} (g : list effect -> A) (f : A -> rcmd B) Q s ps :
  keeps (f (g (r_trace s))) Q s ps -> keeps (x ← ask g; f x) Q s ps.
Proof. done. Qed.

Lemma keeps_emit e (Q : unit -> ril_state -> Prop) s ps : live s ps -> Q tt (add_trace [e] s) -> keeps (emit e) Q s ps.
Proof. intros HL HQ. eapply keeps_light; [done|apply light_add_trace|done|done|done|done]. Qed.

Lemma keeps_add_trace {A} (m : rcmd A) (Q : A -> ril_state -> Prop) s ps a evs :
  m s = Ok (a, add_trace evs s) -> live s ps -> Q a (add_trace evs s) -> keeps m Q s ps.
Proof. intros E HL HQ. eapply keeps_light; [done|apply light_add_trace|done|done|done|done]. Qed.

End Frame.

(** ** Timers *)

Section Daemon.
Context {P : Type} {HPar : Parcel P} {HLaws : ParcelLaws P} {HJS : JString} {HH : RilH}.
Variables (legacy : bool) (stack_avail junk : Z) (fuel : nat) (env : ril_env) (version : Z) (reserved : list loc).
Hypothesis alloc_fresh : forall X, o_alloc env X ∉ X.
Hypothesis now_ok : forall tr, tv_ok (o_now env tr).
Hypothesis Hlive : socket_live fuel env.
Hypothesis sizes_pos : forall t, 0 < sizeof t.
Hypothesis tables : tables_ok legacy.

Abbreviation live := (live version reserved).
Abbreviation keeps := (keeps version reserved).

Lemma due_list_elem s ts a d b : b ∈ due_list s ts a d -> b = a \/ b ∈ ts.
Proof.
  unfold due_list. rewrite elem_of_app, elem_of_cons.
  intros [Hb%elem_of_filter_bool|[->|Hb%elem_of_filter_bool]]; naive_solver.
Qed.

(** The state after a timer was added. *)
Lemma timer_added_keeps (s : ril_state) ts ps a d e' t' last' evs :
  core version reserved s ts ps -> a ∉ used s -> timer_added (r_ev s) e' a -> ev_inv e' (due_list s ts a d) ps ->
  is_Some (t' !! a) -> (forall b, is_Some (r_timers s !! b) -> is_Some (t' !! b)) ->
  let s' := add_trace evs (set_ev e' (set_timers t' last' s)) in
  wake_inv s' -> live s' ps /\ quiet s s'.
Proof.
  clear. intros HC Ha (Ht & Hr & _ & Hd & Hc) HI Hta Htb s' HW. pose proof HC as [H1 H2 [l Hl] H4 H5 H6 H7 H8 H9].
  assert (Hna : a ∉ dom (ev_heap (r_ev s))) by (unfold used in Ha; set_solver).
  assert (Hev : forall b, timer_event s b -> timer_event s' b).
  { intros b (T1 & T2 & T3). split_and!; [by apply Htb| |done]. rewrite <- T2. apply cfg_desc. simpl.
    apply Hc. intros ->. apply Hna, elem_of_dom. unfold desc in T2. by destruct (ev_heap (r_ev s) !! a). }
  assert (Has : a ∉ STATICS) by (intros Hs; by apply Hna, H2).
  split.
  - exists (due_list s ts a d). split; try done.
    + intros b Hb. simpl. pose proof (H2 b Hb) as Hin. apply elem_of_dom in Hin as [e He].
      assert (Hne : b <> a) by congruence. specialize (Hc b Hne). rewrite He in Hc. apply elem_of_dom.
      by destruct (ev_heap e' !! b).
    + exists l. by eapply reqs_ext; [| |exact Hl].
    + intros b [->|Hb]%due_list_elem; [|by apply Hev, H7]. by split_and!.
    + intros b Hb. destruct (H8 b Hb); auto.
    + intros b Hb. destruct (H9 b Hb) as [Hn Ht']. split; [|by apply Htb].
      intros [->|?]%due_list_elem; [|done]. apply Ha. unfold used. apply elem_of_dom in Ht'. set_solver.
  - split; simpl; try done; [|by exists evs]. intros b Hb. apply Hc. by intros ->.
Qed.

Lemma keeps_timed n param rel (s : ril_state) ps :
  live s ps -> tv_ok (default (mkTv 0 0) rel) ->
  keeps (RIL_requestTimedCallback env n param rel) (fun _ s' => r_heap s' = r_heap s) s ps.
Proof.
  clear Hlive sizes_pos tables.
  intros [ts HC] Hrel. pose proof HC as [H1 _ _ _ _ [W1 W2] _ _ _].
  destruct (timed_callback_ok env alloc_fresh now_ok s ts ps (TC_vendor n) param rel H1 Hrel)
    as (e' & evs & E & _ & Ha & _ & Hadd & HI).
  assert (Hna : r_timers s !! o_alloc env (used s) = None).
  { apply not_elem_of_dom. unfold used in Ha at 2. set_solver. }
  edestruct (timer_added_keeps s ts ps) as [L Q]; [exact HC|exact Ha|exact Hadd|exact HI| | | |].
  4: { eexists tt, _. split_and!; [|exact L|exact Q|done]. unfold RIL_requestTimedCallback. by run_cmd E. }
  - rewrite lookup_insert_eq. eauto.
  - intros b Hb. destruct (decide (b = o_alloc env (used s))) as [->|Hne];
      [rewrite lookup_insert_eq; eauto|by rewrite lookup_insert_ne].
  - split; simpl.
    + intros b u [[_ <-]|[Hne Hb]]%lookup_insert_Some; [done|by apply W1].
    + intros b Hb. pose proof (W2 b Hb) as Hu. rewrite lookup_insert_ne; [done|]. intros <-. by rewrite Hna in Hu.
Qed.

Lemma keeps_schedule (s : ril_state) ps :
  live s ps -> keeps (schedule_wake_timeout env) (fun _ s' => r_heap s' = r_heap s) s ps.
Proof.
  clear Hlive sizes_pos tables.
  intros [ts HC]. pose proof HC as [H1 _ _ _ _ HW _ _ _].
  destruct (schedule_wake_timeout_ok env alloc_fresh now_ok s ts ps H1 HW)
    as (e' & evs & E & _ & Ha & _ & Hadd & HI & HW').
  edestruct (timer_added_keeps s ts ps) as [L Q]; [exact HC|exact Ha|exact Hadd|exact HI| | |exact HW'|].
  3: { eexists tt, _. split_and!; [exact E|exact L|exact Q|done]. }
  - rewrite lookup_insert_eq. eauto.
  - intros b Hb. rewrite lookup_insert. case_decide; [eauto|]. unfold cancel_last.
    destruct (s_last_wake_timeout_info s) as [c|]; [|done]. rewrite lookup_insert. case_decide; eauto.
Qed.

(** ** Sending *)

Lemma keeps_send (s : ril_state) ps (p : P) :
  live s ps -> keeps (sendResponse fuel env p) (fun _ s' => r_heap s' = r_heap s) s ps.
Proof.
  clear alloc_fresh now_ok tables sizes_pos.
  intros HL. destruct (sendResponseRaw_ok fuel env Hlive s (parcel_data p)) as (ret & evs & E & _).
  by eapply keeps_add_trace.
Qed.

Lemma keeps_send_raw (s : ril_state) ps data :
  live s ps -> keeps (sendResponseRaw fuel env data) (fun _ s' => r_heap s' = r_heap s) s ps.
Proof.
  clear alloc_fresh now_ok tables sizes_pos.
  intros HL. destruct (sendResponseRaw_ok fuel env Hlive s data) as (ret & evs & E & _).
  by eapply keeps_add_trace.
Qed.

Lemma keeps_modify (g : ril_state -> ril_state) (s : ril_state) ps :
  light s (g s) -> r_heap (g s) = r_heap s -> s_pendingRequests (g s) = s_pendingRequests s -> live s ps ->
  keeps (modify g) (fun _ s' => s' = g s) s ps.
Proof. intros Hl Hh Hp HL. by eapply keeps_light. Qed.

(** ** Unsolicited responses *)

Lemma keeps_unsol_send code wake (p : P) (s : ril_state) ps :
  live s ps -> keeps (unsol_send fuel env code wake p) (fun _ s' => r_heap s' = r_heap s) s ps.
Proof.
  intros HL. apply keeps_bind. eapply keeps_weaken; [by apply keeps_send|]. intros ret s1 _ Hh1 L1 _.
  apply keeps_bind. eapply (keeps_weaken _ _ _ (fun _ s2 => r_heap s2 = r_heap s1)).
  { case_match; [|by apply keeps_ret].
    eapply keeps_weaken; [apply keeps_modify; [apply light_nitz|done|done|done]|]. by intros _ s2 _ ->. }
  intros [] s2 _ Hh2 L2 _. destruct wake.
  - eapply keeps_weaken; [by apply keeps_schedule|]. intros _ s3 _ ->. congruence.
  - apply keeps_ret; [done|congruence].
Qed.

(** What may be passed with a code: the object its response function
    expects. *)
Definition unsol_data_ok (code : Z) (data : voidptr) (datalen : Z) : Prop :=
  forall ui, unsol_row code ui -> object_ok (P := P) version (unsolResponseFunction ui) data datalen.

Abbreviation heap_same s := (fun _ s' => r_heap s' = r_heap s).

Definition unsol_keeps (unsol : Z -> voidptr -> Z -> rcmd unit) : Prop :=
  forall code data datalen s ps, code <> rilh RIL_UNSOL_RESPONSE_RADIO_STATE_CHANGED ->
    unsol_data_ok code data datalen -> live s ps -> keeps (unsol code data datalen) (heap_same s) s ps.

(** Updating a stored value and notifying, or nothing. *)
Lemma keeps_notify unsol (b : bool) (g : ril_state -> ril_state) code data datalen (s : ril_state) ps :
  unsol_keeps unsol -> code <> rilh RIL_UNSOL_RESPONSE_RADIO_STATE_CHANGED -> unsol_data_ok code data datalen ->
  light s (g s) -> r_heap (g s) = r_heap s -> s_pendingRequests (g s) = s_pendingRequests s -> live s ps ->
  keeps (if b then modify g;; unsol code data datalen else mret tt) (heap_same s) s ps.
Proof.
  intros Hu Hc Hd Hl Hh Hp HL. destruct b; [|by apply keeps_ret].
  apply keeps_bind. eapply keeps_weaken; [by apply keeps_modify|]. intros _ s1 _ -> L1 _.
  eapply keeps_weaken; [by apply Hu|]. intros _ s2 _ ->. done.
Qed.

(** The data of a row of the table. *)
Lemma unsol_data_row i ui data datalen :
  s_unsolResponses !! i = Some ui -> object_ok (P := P) version (unsolResponseFunction ui) data datalen ->
  unsol_data_ok (unsolNumber ui) data datalen.
Proof.
  clear alloc_fresh now_ok Hlive sizes_pos. intros Hi Ho ui' [_ Hu']. destruct tables as [_ Ht]. rewrite (Ht i ui Hi) in Hu'.
  replace (Z.to_nat _) with i in Hu' by lia. rewrite Hi in Hu'. by injection Hu' as <-.
Qed.

Lemma keeps_processRadioState unsol st (s : ril_state) ps :
  unsol_keeps unsol -> live s ps -> keeps (processRadioState_with unsol st) (heap_same s) s ps.
Proof.
  intros Hu HL. unfold processRadioState_with. case_match; [|by apply keeps_ret].
  assert (Hne : forall i ui, s_unsolResponses !! S i = Some ui -> unsolNumber ui <> rilh RIL_UNSOL_RESPONSE_RADIO_STATE_CHANGED).
  { intros i ui Hi. by apply (unsol_codes_inj legacy tables (S i) 0 ui (urow RIL_UNSOL_RESPONSE_RADIO_STATE_CHANGED F_responseVoid WAKE_PARTIAL)). }
  apply keeps_get. apply keeps_bind.
  eapply keeps_weaken; [apply (keeps_notify unsol _ _ (unsolNumber (urow RIL_UNSOL_VOICE_RADIO_TECH_CHANGED F_responseInts WAKE_PARTIAL)));
    try done; [exact (Hne 34%nat _ eq_refl)|by apply (unsol_data_row 35)|apply light_radio]|].
  intros [] s1 _ H1 L1 _. apply keeps_bind. eapply (keeps_weaken _ _ _ (heap_same s1)).
  { destruct (is3gpp2 _); [|by apply keeps_ret]. apply keeps_get.
    apply (keeps_notify unsol _ _ (unsolNumber (urow RIL_UNSOL_CDMA_SUBSCRIPTION_SOURCE_CHANGED F_responseInts WAKE_PARTIAL)));
      try done; [exact (Hne 30%nat _ eq_refl)|by apply (unsol_data_row 31)|apply light_radio]. }
  intros [] s2 _ H2 L2 _. apply keeps_get. apply keeps_bind.
  eapply keeps_weaken; [apply (keeps_notify unsol _ _ (unsolNumber (urow RIL_UNSOL_RESPONSE_SIM_STATUS_CHANGED F_responseVoid WAKE_PARTIAL)));
    try done; [exact (Hne 18%nat _ eq_refl)|by apply (unsol_data_row 19)|apply light_radio]|].
  intros [] s3 _ H3 L3 _. apply keeps_ret; [done|congruence].
Qed.

Lemma keeps_unsolicited unsol code data datalen (s : ril_state) ps :
  unsol_data_ok code data datalen -> live s ps ->
  (code = rilh RIL_UNSOL_RESPONSE_RADIO_STATE_CHANGED -> unsol_keeps unsol) ->
  keeps (onUnsolicited_with fuel env unsol code data datalen) (heap_same s) s ps.
Proof.
  intros Hd HL Hu. unfold onUnsolicited_with. apply keeps_get. destruct HL as [ts HC].
  rewrite (co_reg _ _ _ _ _ HC), (co_version _ _ _ _ _ HC). assert (HL : live s ps) by (by exists ts). clear HC. cbn [negb].
  case_match eqn:Hi; [by apply keeps_ret|]. case_match eqn:Hui; [|by apply keeps_ret]. rename u into ui.
  assert (Hrow : unsol_row code ui) by (split; [lia|done]). specialize (Hd ui Hrow).
  fold (wakes ui). apply keeps_bind. eapply (keeps_weaken _ _ _ (heap_same s)).
  { destruct (wakes ui); [by apply keeps_emit|by apply keeps_ret]. }
  intros [] s1 _ H1 L1 _. apply keeps_ask. destruct (unsol_header (P := P) code) as [_ Eh].
  destruct (responseFn_responds version sizes_pos _ _ _ Hd _ Eh) as (ret & p1 & E1 & _).
  apply keeps_bind. exists (ret, p1), s1. split_and!; [by apply local_Ok|done|done|]. intros _ _. cbv beta iota.
  destruct (negb (ret =? 0)).
  - destruct (wakes ui); [by apply keeps_emit|by apply keeps_ret].
  - apply keeps_bind. eapply (keeps_weaken _ _ _ (heap_same s1)).
    { unfold extra_payload. destruct (Z.eqb_spec code (rilh RIL_UNSOL_RESPONSE_RADIO_STATE_CHANGED)) as [Hc|].
      - apply keeps_ask. apply keeps_bind. eapply keeps_weaken; [by apply keeps_processRadioState; [apply Hu|]|].
        intros st s2 _ H2 L2 _. by apply keeps_ret.
      - case_match; by apply keeps_ret. }
    intros p s2 _ H2 L2 _. eapply keeps_weaken; [by apply keeps_unsol_send|]. intros _ s3 _ ->. congruence.
Qed.

Lemma keeps_RIL_onUnsolicitedResponse code data datalen (s : ril_state) ps :
  unsol_data_ok code data datalen -> live s ps ->
  keeps (RIL_onUnsolicitedResponse (P := P) fuel env code data datalen) (heap_same s) s ps.
Proof.
  intros Hd HL. apply keeps_unsolicited; [done|done|]. intros _ code' data' len' s' ps' Hne Hd' HL'.
  by apply keeps_unsolicited.
Qed.

(** ** The vendor *)

(** Requests only leave the heap. *)
Definition shrinks (s s' : ril_state) : Prop :=
  forall t r', r_heap s' !! t = Some r' -> exists r, r_heap s !! t = Some r /\ rdata r' = rdata r.

#[local] Instance shrinks_preorder : PreOrder shrinks.
Proof.
  split; [by intros s t r Hr; exists r|]. intros s1 s2 s3 H1 H2 t r3 Hr3.
  destruct (H2 t r3 Hr3) as (r2 & Hr2 & D2). destruct (H1 t r2 Hr2) as (r1 & Hr1 & D1).
  exists r1. split; [done|congruence].
Qed.

Lemma shrinks_same s s' : r_heap s' = r_heap s -> shrinks s s'.
Proof. intros H t r. rewrite H. eauto. Qed.

(** What the interface lets the vendor pass: a response for the request
    that is completed (anything at all for one that is not pending, or
    that will not be answered), the data of an unsolicited code, a
    normalised time. *)
Definition vendor_call_ok (s : ril_state) (c : vendor_call) : Prop :=
  match c with
  | CallComplete None _ _ _ => True
  | CallComplete (Some t) e response responselen =>
      forall r, r_heap s !! t = Some r -> silent r = false -> completion_ok (P := P) version r response responselen
  | CallUnsol code data datalen => unsol_data_ok code data datalen
  | CallTimed _ _ rel => tv_ok (default (mkTv 0 0) rel)
  end.

Definition calls_ok (s : ril_state) (calls : list vendor_call) : Prop := Forall (vendor_call_ok s) calls.

Lemma calls_ok_shrinks s s' calls : shrinks s s' -> calls_ok s calls -> calls_ok s' calls.
Proof.
  intros Hs Hcs. eapply Forall_impl; [exact Hcs|]. intros [[t|] e v n|code data n|n param rel]; try done.
  simpl. intros Hc r' Hr' Hsil. destruct (Hs t r' Hr') as (r & Hr & Hd). unfold rdata in Hd. injection Hd as _ Hp Hcn Hlo.
  unfold silent, completion_ok in *. rewrite Hp. apply (Hc r Hr). by rewrite <- Hcn, <- Hlo.
Qed.

Lemma keeps_complete t e response responselen (s : ril_state) ps :
  vendor_call_ok s (CallComplete t e response responselen) -> live s ps ->
  keeps (RIL_onRequestComplete (P := P) fuel env t e response responselen) (fun _ => shrinks s) s ps.
Proof.
  clear alloc_fresh now_ok tables. intros Hok HL. destruct (live_reqs _ _ _ _ HL) as [l Hl].
  assert (Hcase : (exists a, t = Some a /\ a ∈ l) \/ (forall a, t = Some a -> a ∉ l)).
  { destruct t as [a|]; [|by right]. destruct (decide (a ∈ l)); [left; eauto|right]. by intros b [= <-]. }
  destruct Hcase as [(a & -> & Ha)|Hno].
  - pose proof Hl as [_ Hc]. destruct (req_chain_some _ _ _ _ Hc Ha) as [r Hr].
    apply list_elem_of_split in Ha as (l1 & l2 & ->).
    destruct (complete_present fuel env Hlive sizes_pos s l1 a l2 r e response responselen Hl Hr)
      as (s' & evs & E & L & (Hd & Hk & Hs') & _).
    { destruct HL as [ts HC]. rewrite (co_version _ _ _ _ _ HC). by apply Hok. }
    assert (Hli : light s s') by (rewrite Hs'; split; try done; simpl; by exists evs).
    exists tt, s'. split_and!; [done|by eapply light_live|by apply light_quiet|].
    intros b r' Hr'. destruct (decide (b = a)) as [->|Hne]; [by rewrite Hd in Hr'|]. specialize (Hk b Hne).
    rewrite Hr' in Hk. destruct (r_heap s !! b) as [rb|]; [|done]. exists rb. split; [done|]. by apply (inj Some) in Hk.
  - exists tt, s. split_and!; [by eapply complete_absent|done|done|done].
Qed.

Lemma keeps_vendor_calls calls (s : ril_state) ps :
  calls_ok s calls -> live s ps -> keeps (vendor_calls (P := P) fuel env calls) (fun _ => shrinks s) s ps.
Proof.
  revert s. induction calls as [|c calls IH]; intros s Hok HL; [by apply keeps_ret|].
  pose proof Hok as [Hc Hcs]%Forall_cons. cbn [vendor_calls fold_right]. apply keeps_bind.
  eapply (keeps_weaken _ _ _ (fun _ => shrinks s)).
  { destruct c as [t e v n|code data n|n param rel]; [by apply keeps_complete| |].
    - eapply keeps_weaken; [by apply keeps_RIL_onUnsolicitedResponse|]. intros [] s1 _ H1. by apply shrinks_same.
    - eapply keeps_weaken; [by apply keeps_timed|]. intros [] s1 _ H1. by apply shrinks_same. }
  intros [] s1 _ H1 L1 _. eapply keeps_weaken; [by apply IH; [eapply calls_ok_shrinks|]|].
  intros [] s2 _ H2. by trans s1.
Qed.

Hypothesis vendor_ok : forall s, calls_ok s (o_vendor env s).

Lemma keeps_onRequest request data datalen pRI (s : ril_state) ps :
  live s ps -> keeps (onRequest (P := P) fuel env request data datalen pRI) (fun _ => shrinks s) s ps.
Proof.
  intros HL. unfold onRequest. apply keeps_bind. apply keeps_emit; [done|]. intros L1 _. apply keeps_get.
  eapply keeps_weaken; [by apply keeps_vendor_calls|]. intros [] s1 _ H1. exact H1.
Qed.

(** ** Requests *)

Lemma keeps_new_request tok ci lc (s : ril_state) ps :
  live s ps -> keeps (new_request env tok ci lc) (fun a s' => r_heap s' !! a = Some (mkRI tok ci (s_pendingRequests s) 0 lc)) s ps.
Proof.
  clear now_ok Hlive sizes_pos tables vendor_ok. intros HL. destruct (live_reqs _ _ _ _ HL) as [l Hl].
  destruct (new_request_ok env alloc_fresh s l tok ci lc Hl) as (E & _ & _ & L).
  eexists _, _. split_and!; [exact E| | |].
  - eapply light_live; [apply light_reqs|exact L|done].
  - apply light_quiet, light_reqs.
  - simpl. apply lookup_insert_eq.
Qed.

Lemma keeps_issueLocalRequest request data len (s : ril_state) ps :
  is_Some (s_commands legacy !! Z.to_nat request) -> live s ps ->
  keeps (issueLocalRequest (P := P) legacy fuel env request data len) (fun _ _ => True) s ps.
Proof.
  intros [ci Hci] HL. unfold issueLocalRequest. rewrite Hci. apply keeps_bind.
  eapply keeps_weaken; [by apply keeps_new_request|]. intros a s1 _ _ L1 _.
  eapply keeps_weaken; [by apply keeps_onRequest|]. done.
Qed.

(** A completion libril makes itself: no data, or integers for a request
    whose response is integers. *)
Lemma complete_null_ok s t e : vendor_call_ok s (CallComplete t e VNull 0).
Proof. destruct t as [t|]; [|done]. intros r _ _. by left. Qed.

Lemma complete_ints_ok s s' a r e v :
  shrinks s s' -> r_heap s !! a = Some r -> responseFunction (pCI r) = Some F_responseInts ->
  vendor_call_ok s' (CallComplete (Some a) e (VInts [v]) sizeof_int).
Proof.
  intros Hs Hr Hf r' Hr' _. destruct (Hs a r' Hr') as (r1 & Hr1 & Hd). rewrite Hr in Hr1. injection Hr1 as <-.
  unfold rdata in Hd. injection Hd as _ Hp _ _. right. exists F_responseInts. by rewrite Hp.
Qed.

Lemma keeps_query f a r rq (s : ril_state) ps :
  r_heap s !! a = Some r -> responseFunction (pCI r) = Some F_responseInts -> live s ps ->
  keeps (query (P := P) fuel env f a rq) (fun _ _ => True) s ps.
Proof.
  intros Hr Hf HL. unfold query. apply keeps_ask. set (st := o_state env (r_trace s)).
  apply keeps_bind. eapply (keeps_weaken _ _ _ (fun _ => shrinks s)).
  { case_match; [apply keeps_complete; [apply complete_null_ok|done]|by apply keeps_ret]. }
  intros [] s1 _ H1 L1 _. case_match.
  { eapply keeps_weaken; [by apply keeps_onRequest|done]. }
  apply keeps_bind. destruct (query_store_same f (query_value f st) s1) as (Hh & Hp & _).
  eapply keeps_weaken; [apply keeps_modify; [|done|done|done]|].
  { destruct f; apply light_radio. }
  intros [] s2 _ -> L2 _. assert (Hsh : shrinks s (query_store f (query_value f st) s1)) by (trans s1; [done|by apply shrinks_same]).
  case_match; (eapply keeps_weaken; [apply keeps_complete; [|done]|done]); [apply complete_null_ok|by eapply complete_ints_ok].
Qed.

(** The rows of the table that can be requested. *)
Definition row_ok (ci : CommandInfo) : Prop :=
  exists f, dispatchFunction ci = Some f /\ (is_query f -> responseFunction ci = Some F_responseInts).

Lemma rows_ok i ci : s_commands legacy !! S i = Some ci -> row_ok ci.
Proof.
  clear. set (chk := fun ci => match dispatchFunction ci, responseFunction ci with
      | Some F_dispatchVoiceRadioTech, Some F_responseInts | Some F_dispatchCdmaSubscriptionSource, Some F_responseInts => true
      | Some F_dispatchVoiceRadioTech, _ | Some F_dispatchCdmaSubscriptionSource, _ => false
      | Some _, _ => true | None, _ => false end).
  assert (Hall : forallb chk (tail (s_commands legacy)) = true) by (by destruct legacy).
  intros Hi. assert (Hin : ci ∈ tail (s_commands legacy)) by (apply list_elem_of_lookup; by exists i).
  rewrite forallb_forall in Hall. apply list_elem_of_In, Hall in Hin. unfold chk, row_ok, is_query in *.
  destruct (dispatchFunction ci) as [f|]; [|done]. exists f. split; [done|]. intros [-> | ->]; by destruct (responseFunction ci) as [[]|].
Qed.

(** The arguments of a request can be decoded (whatever comes out): they
    fit on the stack. *)
Definition decodes (ci : CommandInfo) (p : P) : Prop :=
  forall f, dispatchFunction ci = Some f -> plain_dispatch f ->
  exists d, dispatchFn version (use_cla legacy) stack_avail junk f (requestNumber ci) p = Ok d.

Lemma keeps_dispatch (p : P) a r (s : ril_state) ps :
  r_heap s !! a = Some r -> row_ok (pCI r) -> decodes (pCI r) p -> live s ps ->
  keeps (dispatch legacy stack_avail junk fuel env p a) (fun _ _ => True) s ps.
Proof.
  intros Hr (f & Hf & Hq) Hd HL. assert (Hcase : is_query f \/ plain_dispatch f).
  { unfold is_query, plain_dispatch. destruct f; auto; right; split; congruence. }
  destruct Hcase as [Hqf|Hpl].
  - destruct (keeps_query f a r (requestNumber (pCI r)) s ps Hr (Hq Hqf) HL) as (x & s' & E & H).
    exists x, s'. split; [|done]. by rewrite (dispatch_query legacy stack_avail junk fuel env s f a r).
  - destruct (Hd f Hf Hpl) as [[d p'] Ed]. unfold keeps.
    assert (Hv : r_version s = version) by (destruct HL as [ts HC]; apply HC). rewrite <- Hv in Ed.
    rewrite (dispatch_plain legacy stack_avail junk fuel env s a r f p p' d Hr Hf Hpl Ed). destruct d as [data datalen| |].
    + eapply keeps_weaken; [by apply keeps_onRequest|done].
    + eapply (keeps_add_trace version reserved (fun s => Ok (tt, add_trace _ s))); done.
    + by apply (keeps_ret version reserved tt).
Qed.

(** A record is no request of the table, or one that can be decoded. *)
Definition record_ok (bytes : list Z) : Prop :=
  forall request tok (p1 p2 : P) b1 ci,
    rdI32 junk (setData bytes parcel_new) = Ok ((b1, request), p1) -> rdI32 junk p1 = Ok ((true, tok), p2) ->
    1 <= request -> s_commands legacy !! Z.to_nat request = Some ci -> decodes ci p2.

Lemma rdI32_total (p : P) : exists r p', rdI32 junk p = Ok (r, p').
Proof. clear. unfold rdI32. destruct (readInt32 p). eauto. Qed.

Lemma keeps_process bytes (s : ril_state) ps :
  record_ok bytes -> live s ps ->
  keeps (processCommandBuffer (P := P) legacy stack_avail junk fuel env bytes) (fun _ _ => True) s ps.
Proof.
  intros Hb HL. unfold processCommandBuffer.
  destruct (rdI32_total (setData bytes parcel_new)) as ([b1 request] & p1 & E1). apply keeps_bind.
  exists ((b1, request), p1), s. split_and!; [by apply local_Ok|done|done|]. intros _ _. cbv beta iota.
  destruct (rdI32_total p1) as ([status tok] & p2 & E2). apply keeps_bind.
  exists ((status, tok), p2), s. split_and!; [by apply local_Ok|done|done|]. intros _ _. cbv beta iota.
  destruct status; cbn [negb]; [|by apply keeps_ret]. case_match eqn:Hrq.
  { apply keeps_bind. eapply keeps_weaken; [by apply keeps_send|]. intros ret s1 _ _ L1 _. by apply keeps_ret. }
  destruct (lookup_lt_is_Some_2 (s_commands legacy) (Z.to_nat request)) as [ci Hci]; [lia|]. rewrite Hci.
  apply keeps_bind. eapply keeps_weaken; [by apply keeps_new_request|]. intros a s1 _ Ha L1 _. cbv beta in Ha.
  apply keeps_bind. eapply keeps_weaken; [apply (keeps_dispatch p2 a _ s1 ps Ha); [| |done]|].
  - simpl. apply (rows_ok (Z.to_nat request - 1)). by replace (S _) with (Z.to_nat request) by lia.
  - simpl. eapply Hb; [exact E1|exact E2|lia|done].
  - intros [] s2 _ _ L2 _. by apply keeps_ret.
Qed.

End Daemon.
