(* ===== verification/RilLoop.v ===== *)
(** * The connection, over the turns of the event loop

    The state machine of the daemon's descriptors: either no client is
    connected, and the listening descriptor is watched or its event is
    about to be served; or there is a client, its descriptor is watched,
    and the listening one is not.  Every function an event can carry keeps
    this, so that the assertions at the start of [listenCallback] and
    [processCommandsCallback] hold whenever they are evaluated. *)

From S2P Require Import Prelude Bytes Parcel RilConst RilTypes RilDispatch RilResponse RilWire RilResponseSpec.
From S2P Require Import EventHeap EventLoop EventSpec EventLoopSpec RilCore RilRequests RilTimers RilUnsol RilCommand.
From S2P Require Import RilSocket RilArgs RilDaemon.

(** The records that were asked for. *)
Definition records (tr : list effect) : nat :=
  length (List.filter (fun e => match e with ERecord => true | _ => false end) tr).

Lemma records_app t1 t2 : records (t1 ++ t2) = (records t1 + records t2)%nat.
Proof. unfold records. by rewrite List.filter_app, length_app. Qed.

(** The event [a] is set for [x]. *)
Definition ev_is (v : estate callback) (a : loc) (x : Z) (pers : bool) (cb : callback) : Prop :=
  exists e, ev_heap v !! a = Some e /\ fd e = x /\ persist e = pers /\ func e = Some cb.

Definition watched (v : estate callback) (a : loc) : Prop := exists i, slot (watch_table v) i a.

Lemma ev_is_cfg v v' a x pers cb :
  cfg <$> ev_heap v' !! a = cfg <$> ev_heap v !! a -> ev_is v a x pers cb -> ev_is v' a x pers cb.
Proof.
  intros Hc (e & He & H1 & H2 & H3). rewrite He in Hc. destruct (ev_heap v' !! a) as [e'|] eqn:He'; [|done].
  apply (inj Some) in Hc. pose proof (f_equal fd Hc) as F1. pose proof (f_equal persist Hc) as F2.
  pose proof (f_equal func Hc) as F3. simpl in *. exists e'. split_and!; congruence.
Qed.

Lemma ev_is_dom v a x pers cb : ev_is v a x pers cb -> a ∈ dom (ev_heap v).
Proof. intros (e & He & _). apply elem_of_dom. eauto. Qed.

Lemma statics_sentinels a : a ∈ STATICS -> a ∉ [timer_list; pending_list].
Proof. revert a. apply Forall_forall. repeat constructor; by apply (bool_decide_unpack _). Qed.

Lemma watched_put v v' j ev a :
  watch_table v' = <[j := Some ev]> (watch_table v) -> watch_table v !! j = Some None ->
  watched v' a <-> a = ev \/ watched v a.
Proof.
  intros Ht Hj. pose proof (lookup_lt_Some _ _ _ Hj) as Hlt. unfold watched, slot. rewrite Ht. split.
  - intros [i Hi]. apply list_lookup_insert_Some in Hi as [(_ & [= <-] & _)|[_ Hi]]; eauto.
  - intros [->|[i Hi]]; [exists j; by apply list_lookup_insert_eq|]. exists i. rewrite list_lookup_insert_ne; [done|congruence].
Qed.

Lemma watched_clear v v' ts ps i ev e a :
  ev_inv v ts ps -> slot (watch_table v) i ev -> ev_heap v !! ev = Some e ->
  watch_table v' = <[i := None]> (watch_table v) -> watched v' a <-> a <> ev /\ watched v a.
Proof.
  intros HI Hi He Ht. unfold watched. rewrite Ht. split.
  - intros [k Hk]. split.
    + intros ->. by apply (unwatched_once v ts ps i ev e HI Hi He k).
    + unfold slot in *. apply list_lookup_insert_Some in Hk as [(_ & ? & _)|[_ Hk]]; [done|eauto].
  - intros [Hne [k Hk]]. exists k. unfold slot in *. rewrite list_lookup_insert_ne; [done|congruence].
Qed.

Section Loop.
Context {P : Type} {HPar : Parcel P} {HLaws : ParcelLaws P} {HJS : JString} {HH : RilH}.
Variables (legacy ndebug : bool) (stack_avail junk : Z) (fuel : nat) (env : ril_env) (version : Z).

(** ** The record loop *)

(** The stack has room for six pointers, and less than the address space;
    and the array of a request, if it has one, fits. *)
Definition room : Prop := 24 <= stack_avail < 2 ^ 32.

Definition record_fits (bytes : list Z) : Prop :=
  forall request tok (p1 p2 : P) b1 ci f,
    rdI32 junk (setData bytes parcel_new) = Ok ((b1, request), p1) -> rdI32 junk p1 = Ok ((true, tok), p2) ->
    1 <= request -> s_commands legacy !! Z.to_nat request = Some ci -> dispatchFunction ci = Some f ->
    fits stack_avail (member_size f) (array_count junk f) p2.

Lemma record_fits_ok bytes : room -> record_fits bytes -> record_ok (P := P) legacy stack_avail junk version bytes.
Proof.
  intros [H1 H2] Hf request tok p1 p2 b1 ci E1 E2 Hr Hc f Hd _.
  destruct (returns_dispatchFn version (use_cla legacy) stack_avail junk H2 H1 f (requestNumber ci) p2) as (d & p' & E).
  - pose proof (pl_readInt32 p1) as Hp. unfold rdI32 in E2. destruct (readInt32 p1) as [x q]. simpl in Hp.
    case_decide as Hl; destruct Hp as [-> [Hd1 Hp1]]; [injection E2 as <- <-|done].
    rewrite Hd1, Hp1. unfold remaining in Hl. rewrite length_drop in Hl. lia.
  - by eapply Hf.
  - eauto.
Qed.

(** The client sends finitely many records, fewer than the fuel, whose
    arrays fit. *)
Record client_ok : Prop := {
  cl_ends : exists m, (m < fuel)%nat /\ forall tr bytes, (m <= records tr)%nat -> o_record env tr <> Record_ bytes;
  cl_records : forall tr bytes, o_record env tr = Record_ bytes -> record_fits bytes }.

(** The outside: RilTheorems.setting, the client, and the vendor. *)
Record world : Prop := {
  wd_alloc : forall X, o_alloc env X ∉ X;
  wd_now : forall tr, tv_ok (o_now env tr);
  wd_live : socket_live fuel env;
  wd_sizes : forall t, 0 < sizeof t;
  wd_tables : tables_ok legacy;
  wd_version : i32_ok version;
  wd_vendor : forall s, calls_ok (P := P) version s (o_vendor env s);
  wd_client : client_ok;
  wd_room : room }.

Hypothesis Hw : world.

Abbreviation live := (live version []).
Abbreviation keeps := (keeps version []).

Lemma keeps_records_loop m n (s : ril_state) ps :
  (forall tr bytes, (m <= records tr)%nat -> o_record env tr <> Record_ bytes) ->
  (m < n + records (r_trace s))%nat -> live s ps -> (0 < n)%nat ->
  keeps (records_loop (P := P) legacy stack_avail junk fuel env n) (fun _ _ => True) s ps.
Proof.
  intros Hm. revert s. induction n as [|n IH]; intros s Hlen HL Hn; [lia|]. cbn [records_loop].
  apply keeps_ask. destruct (o_record env (r_trace s)) as [bytes| |again] eqn:Er.
  - assert (Hlt : (records (r_trace s) < m)%nat).
    { destruct (decide (m <= records (r_trace s))%nat) as [Hge|]; [|lia]. by apply (Hm _ bytes) in Hge. }
    destruct Hw as [Ha Hno Hli Hsz Htb Hv Hve [_ Hrec] Hroom].
    apply keeps_bind. apply keeps_emit; [done|]. intros L1 _. apply keeps_bind.
    eapply keeps_weaken; [apply keeps_process; try done; by eapply record_fits_ok, Hrec|]. intros ret s2 Q2 _ L2 _.
    destruct (q_trace _ _ Q2) as [evs Ht]. apply IH; [|done|lia]. rewrite Ht. simpl. rewrite !records_app.
    change (records [ERecord]) with 1%nat. lia.
  - apply keeps_bind. apply keeps_emit; [done|]. intros L1 _. by apply keeps_ret.
  - apply keeps_bind. apply keeps_emit; [done|]. intros L1 _. by apply keeps_ret.
Qed.

Lemma keeps_records (s : ril_state) ps :
  live s ps -> keeps (records_loop (P := P) legacy stack_avail junk fuel env fuel) (fun _ _ => True) s ps.
Proof.
  intros HL. destruct (cl_ends (wd_client Hw)) as (m & Hm & He). eapply keeps_records_loop; [exact He|lia|done|lia].
Qed.

(** The greeting of a client. *)
Lemma keeps_greeting (s : ril_state) ps :
  live s ps -> keeps (onNewCommandConnect (P := P) fuel env) (fun _ _ => True) s ps.
Proof.
  destruct Hw as [Ha Hno Hli Hsz Htb Hv Hve Hcl _]. intros HL. unfold onNewCommandConnect. apply keeps_get.
  assert (Hver : r_version s = version) by (destruct HL as [ts HC]; apply HC). rewrite Hver.
  apply keeps_bind. eapply keeps_weaken; [eapply keeps_RIL_onUnsolicitedResponse; try done|].
  { by apply (unsol_data_row legacy version Htb 34 (urow RIL_UNSOL_RIL_CONNECTED F_responseInts WAKE_PARTIAL)). }
  intros [] s1 _ _ L1 _. apply keeps_bind. eapply keeps_weaken; [eapply keeps_RIL_onUnsolicitedResponse; try done|].
  { by apply (unsol_data_row legacy version Htb 0 (urow RIL_UNSOL_RESPONSE_RADIO_STATE_CHANGED F_responseVoid WAKE_PARTIAL)). }
  intros [] s2 _ _ L2 _. apply keeps_get. apply keeps_bind. eapply (keeps_weaken _ _ _ (fun _ _ => True)).
  { destruct (s_lastNITZTimeData s2) as [data|]; [|by apply keeps_ret]. apply keeps_bind.
    eapply keeps_weaken; [by apply keeps_send_raw|]. intros ret s3 _ _ L3 _.
    eapply keeps_weaken; [apply keeps_modify; [apply light_nitz|done|done|done]|done]. }
  intros [] s3 _ _ L3 _. by destruct (o_getVersion env); apply keeps_emit.
Qed.

(** ** Events set and watched *)

(** What setting and watching the static events leaves alone. *)
Record rewatch (s s' : ril_state) : Prop := {
  rw_timers : r_timers s' = r_timers s;
  rw_last : s_last_wake_timeout_info s' = s_last_wake_timeout_info s;
  rw_reg : s_registerCalled s' = s_registerCalled s;
  rw_version : r_version s' = r_version s;
  rw_cfg : forall b, b ∉ STATICS -> cfg <$> ev_heap (r_ev s') !! b = cfg <$> ev_heap (r_ev s) !! b;
  rw_dom : dom (ev_heap (r_ev s)) ⊆ dom (ev_heap (r_ev s')) }.

Lemma rewatch_core s s' ts ps l :
  rewatch s s' -> ev_inv (r_ev s') ts ps -> reqs s' l -> core version [] s ts ps -> core version [] s' ts ps.
Proof.
  clear Hw. intros [T L R V C D] HI Hl [H1 H2 H3 H4 H5 H6 H7 H8 H9].
  assert (Ht : forall a, timer_event s a -> timer_event s' a).
  { intros a (T1 & T2 & T3). split_and!; [by rewrite T| |done]. rewrite <- T2. by apply cfg_desc, C. }
  split; [done| |by exists l|congruence|congruence|by apply (wake_inv_timers s)|auto| |by rewrite T].
  - intros a Ha. by apply D, H2.
  - intros a Ha. destruct (H8 a Ha); auto.
Qed.

Lemma statics_commands : s_commands_event ∈ STATICS.
Proof. clear. by repeat constructor. Qed.
Lemma statics_listen : s_listen_event ∈ STATICS.
Proof. clear. by repeat constructor. Qed.

(** ** The connection *)

Section Fds.
Variables wakeup_fd listen_fd debug_fd : Z.

(** The descriptors that stay open as long as the process. *)
Definition own_fds : list Z := [wakeup_fd; listen_fd; debug_fd].

Record fds_ok : Prop := {
  fo_nodup : NoDup own_fds;
  fo_valid : forall x, x ∈ own_fds -> fd_valid x = true }.

(** [accept] fails, or returns a descriptor that is not in use. *)
Definition accept_ok : Prop :=
  forall tr, o_accept env tr < 0 \/ fd_valid (o_accept env tr) = true /\ o_accept env tr ∉ own_fds.

Hypothesis Hfds : fds_ok.
Hypothesis Haccept : accept_ok.

(** Whoever connects is the phone process, and gets the descriptor [x]. *)
Definition accepting (x : Z) : Prop :=
  (forall tr, o_accept env tr = x /\ o_cred env tr = Some PHONE_PROCESS) /\ 0 <= x.

(** The client has gone: after the records that are still to be read, the
    stream ends or fails; it is never just empty for now. *)
Definition gone : Prop := forall tr, o_record env tr <> StreamError true.

Lemma records_gone n s closed s' :
  gone -> records_loop (P := P) legacy stack_avail junk fuel env n s = Ok (closed, s') -> closed = true.
Proof.
  clear Hw Hfds Haccept. intros Hg. revert s. induction n as [|n IH]; intros s E; [done|]. cbn [records_loop] in E.
  rewrite bind_ask in E. specialize (Hg (r_trace s)). destruct (o_record env (r_trace s)) as [bytes| |[|]]; [| |done|].
  - apply cmd_bind_inv in E as (? & s1 & _ & E). apply cmd_bind_inv in E as (? & s2 & _ & E). by eapply IH.
  - apply cmd_bind_inv in E as (? & s1 & _ & [= <- _]). done.
  - apply cmd_bind_inv in E as (? & s1 & _ & [= <- _]). done.
Qed.

(** No client: the listening descriptor is watched, or was found ready. *)
Definition listening (s : ril_state) (ps : list loc) : Prop :=
  s_fdCommand s < 0 /\ ~ watched (r_ev s) s_commands_event /\ (s_commands_event ∉ ps) /\
  (watched (r_ev s) s_listen_event /\ (s_listen_event ∉ ps) \/ ~ watched (r_ev s) s_listen_event /\ s_listen_event ∈ ps).

(** A client: its descriptor is watched, and no other client can come. *)
Definition connected (s : ril_state) (ps : list loc) : Prop :=
  0 <= s_fdCommand s /\ (s_fdCommand s ∉ own_fds) /\ watched (r_ev s) s_commands_event /\
  ev_is (r_ev s) s_commands_event (s_fdCommand s) true CB_processCommandsCallback /\
  ~ watched (r_ev s) s_listen_event /\ s_listen_event ∉ ps.

(** What does not change with the connection. *)
Record base (s : ril_state) : Prop := {
  ba_slots : forall i a, slot (watch_table (r_ev s)) i a -> a ∈ STATICS;
  ba_wakeup : ev_is (r_ev s) s_wakeupfd_event wakeup_fd true CB_processWakeupCallback;
  ba_debug : ev_is (r_ev s) s_debug_event debug_fd true CB_debugCallback;
  ba_listen : ev_is (r_ev s) s_listen_event listen_fd false CB_listenCallback;
  ba_wakeup_on : watched (r_ev s) s_wakeupfd_event;
  ba_debug_on : watched (r_ev s) s_debug_event;
  ba_fdListen : s_fdListen s = listen_fd }.

Definition conn (s : ril_state) (ps : list loc) : Prop := base s /\ (listening s ps \/ connected s ps).

Lemma watched_table v v' a : watch_table v' = watch_table v -> watched v' a <-> watched v a.
Proof. unfold watched. by intros ->. Qed.

Lemma base_quiet s s' : quiet s s' -> base s -> base s'.
Proof.
  intros [T F C M D L V R] [B1 B2 B3 B4 B5 B6 B7].
  assert (He : forall a x pers cb, ev_is (r_ev s) a x pers cb -> ev_is (r_ev s') a x pers cb).
  { intros a x pers cb H. eapply ev_is_cfg; [|exact H]. apply C. by eapply ev_is_dom. }
  split; try by apply He.
  - intros i a. rewrite T. apply B1.
  - by apply (watched_table (r_ev s)).
  - by apply (watched_table (r_ev s)).
  - congruence.
Qed.

Lemma conn_quiet s s' ps : quiet s s' -> conn s ps -> conn s' ps.
Proof.
  intros HQ [HB HS]. split; [by eapply base_quiet|]. pose proof HQ as [T F C M D L V R].
  pose proof (fun a => watched_table (r_ev s) (r_ev s') a T) as Hwt. unfold listening, connected.
  rewrite !Hwt, D. destruct HS as [HS|(S1 & S2 & S3 & S4 & S5)]; [by left|right]. split_and!; try done; [|apply S5..].
  eapply ev_is_cfg; [|exact S4]. apply C. by eapply ev_is_dom.
Qed.

(** The table has more slots than there are static events. *)
Lemma free_slot {CB} (v : estate CB) ts ps :
  ev_inv v ts ps -> (forall i a, slot (watch_table v) i a -> a ∈ STATICS) -> exists i, watch_table v !! i = Some None.
Proof.
  clear. intros HI Hs. destruct (decide (None ∈ watch_table v)) as [Hn|Hn]; [by apply list_elem_of_lookup in Hn|exfalso].
  assert (Hall : forall tbl : list (option loc), None ∉ tbl -> tbl = Some <$> omap id tbl).
  { clear. induction tbl as [|[a|] tbl IH]; intros Hn; [done| |by destruct Hn; constructor].
    simpl. f_equal. apply IH. set_solver. }
  pose proof (Hall _ Hn) as Ht. set (l := omap id (watch_table v)) in *.
  assert (Hl : forall i a, l !! i = Some a -> slot (watch_table v) i a).
  { intros i a Hi. unfold slot. by rewrite Ht, list_lookup_fmap, Hi. }
  assert (Hnd : NoDup l).
  { apply NoDup_alt. intros i j a Hi%Hl Hj%Hl. destruct (decide (i = j)) as [|Hne]; [done|].
    by destruct (slot_distinct _ _ _ i j a a (ei_watch _ _ _ HI) Hne Hi Hj). }
  assert (Hsub : l ⊆+ STATICS).
  { apply NoDup_submseteq; [done|]. intros a [i Hi]%list_elem_of_lookup. by eapply Hs, Hl. }
  apply submseteq_length in Hsub. pose proof (wo_len _ _ _ (ei_watch _ _ _ HI)) as Hlen.
  rewrite Ht, length_fmap in Hlen. rewrite Hlen in Hsub. unfold MAX_FD_EVENTS in Hsub. simpl in Hsub. lia.
Qed.

Lemma static_not_listed (s : ril_state) ts ps a :
  core version [] s ts ps -> a ∈ STATICS -> a ∉ timer_list :: pending_list :: ts.
Proof.
  clear. intros HC Ha. pose proof (statics_sentinels a Ha).
  intros [->|[->|Hb]%elem_of_cons]%elem_of_cons; [set_solver..|]. by apply (co_timers _ _ _ _ _ HC) in Hb as (_ & _ & ?).
Qed.

(** The listening event can be watched again. *)
Lemma listen_idle (s : ril_state) ts ps :
  core version [] s ts ps -> base s -> ~ watched (r_ev s) s_listen_event ->
  (watched (r_ev s) s_commands_event -> exists x pers cb, ev_is (r_ev s) s_commands_event x pers cb /\ x ∉ own_fds) ->
  exists le, idle_event (r_ev s) ts s_listen_event le /\ fd le = listen_fd /\ persist le = false /\ func le = Some CB_listenCallback.
Proof.
  intros HC [B1 (we & W1 & W2 & _) (de & D1 & D2 & _) (le & L1 & L2 & L3 & L4) _ _ _] Hl Hc. exists le. split; [|done].
  destruct Hfds as [Hnd Hval]. pose proof Hnd as [Hn1 [Hn2 _]%NoDup_cons]%NoDup_cons.
  split_and!; [done| | | |].
  - intros j Hj. apply Hl. by exists j.
  - rewrite L2. apply Hval. set_solver.
  - rewrite (wo_fds _ _ _ (ei_watch _ _ _ (co_ev _ _ _ _ _ HC))). intros (j & a & e & Hj & He & Hx).
    pose proof (B1 j a Hj) as Ha. rewrite L2 in Hx. unfold STATICS in Ha. rewrite !elem_of_cons, elem_of_nil in Ha.
    destruct Ha as [->|[->|[->|[->|[]]]]].
    + destruct Hc as (x & pers & cb & (e' & He' & Hx' & _) & Hno); [by exists j|]. rewrite He in He'. injection He' as <-.
      apply Hno. rewrite <- Hx', Hx. by do 2 constructor.
    + rewrite W1 in He. injection He as <-. apply Hn1. rewrite <- W2, Hx. by constructor.
    + apply Hl. by exists j.
    + rewrite D1 in He. injection He as <-. apply Hn2. rewrite <- Hx, D2. by constructor.
  - eapply static_not_listed; [exact HC|apply statics_listen].
Qed.

(** The part that does not change, after the static events were moved. *)
Lemma base_moved (s s' : ril_state) :
  (forall a, watched (r_ev s') a -> a ∈ STATICS) ->
  (forall a, a <> s_commands_event -> cfg <$> ev_heap (r_ev s') !! a = cfg <$> ev_heap (r_ev s) !! a) ->
  (forall a, a <> s_commands_event -> a <> s_listen_event -> watched (r_ev s) a -> watched (r_ev s') a) ->
  s_fdListen s' = s_fdListen s -> base s -> base s'.
Proof.
  clear. intros Hs Hc Hwt Hl [B1 B2 B3 B4 B5 B6 B7].
  assert (He : forall a x pers cb, a <> s_commands_event -> ev_is (r_ev s) a x pers cb -> ev_is (r_ev s') a x pers cb).
  { intros a x pers cb Hne H. by eapply ev_is_cfg; [apply Hc|]. }
  split; [|by apply He..|by apply Hwt|by apply Hwt|congruence].
  intros i a Hi. apply Hs. by exists i.
Qed.

Lemma base_watched (s : ril_state) a : base s -> watched (r_ev s) a -> a ∈ STATICS.
Proof. intros [B1 _ _ _ _ _ _] [i Hi]. by eapply B1. Qed.

Lemma cfg_set_index {CB} (h : gmap loc (@ril_event CB)) a e v b : h !! a = Some e -> cfg <$> <[a := set_index v e]> h !! b = cfg <$> h !! b.
Proof. intros He. apply (same_cfg_view cfg); [done|]. by apply set_index_cfg. Qed.

(** ** The end of a connection *)

Lemma commands_ends (s s' : ril_state) ts ps l i e j le v h' tev :
  core version [] s ts ps -> base s -> connected s ps -> s_commands_event ∉ ps ->
  ev_inv (r_ev s') ts ps -> reqs s' l ->
  slot (watch_table (r_ev s)) i s_commands_event -> ev_heap (r_ev s) !! s_commands_event = Some e ->
  ev_heap (r_ev s) !! s_listen_event = Some le ->
  s' = add_trace tev (set_reqs h' (s_pendingRequests s) (set_fdCommand (-1) (set_ev v s))) ->
  ev_heap v = <[s_listen_event := set_index (Z.of_nat j) le]> (<[s_commands_event := set_index (-1) e]> (ev_heap (r_ev s))) ->
  watch_table v = <[j := Some s_listen_event]> (<[i := None]> (watch_table (r_ev s))) ->
  (<[i := None]> (watch_table (r_ev s))) !! j = Some None ->
  live s' ps /\ conn s' ps.
Proof.
  clear Hw Hfds Haccept. intros HC HB (_ & _ & _ & _ & _ & Hnl) Hnc HI Hl Hi He Hle Hs' Hh Ht Hj.
  set (v1 := set_watch_table (<[i := None]> (watch_table (r_ev s))) (r_ev s)).
  assert (Hwt : forall a, watched v a <-> a = s_listen_event \/ a <> s_commands_event /\ watched (r_ev s) a).
  { intros a. rewrite (watched_put v1 v j s_listen_event a Ht Hj).
    by rewrite (watched_clear (r_ev s) v1 ts ps i s_commands_event e a (co_ev _ _ _ _ _ HC) Hi He). }
  assert (Hcf : forall b, cfg <$> ev_heap v !! b = cfg <$> ev_heap (r_ev s) !! b).
  { intros b. rewrite Hh, (cfg_set_index _ _ le); [by apply cfg_set_index|]. by rewrite lookup_insert_ne. }
  subst s'. split; [exists ts; eapply (rewatch_core s); [|exact HI|exact Hl|exact HC]|split].
  - split; try done. simpl. rewrite Hh, !dom_insert. set_solver.
  - apply (base_moved s); try done.
    + intros a [->|[_ Ha]]%Hwt; [apply statics_listen|by eapply base_watched].
    + intros a Hnc' _ Ha. apply Hwt. auto.
  - left. split_and!; [simpl; lia| |done|].
    + intros [?|[? _]]%Hwt; done.
    + left. split; [|done]. apply Hwt. by left.
Qed.

Lemma commands_callback_ok (s : ril_state) ps :
  live s ps -> base s -> connected s ps -> s_commands_event ∉ ps ->
  exists s', processCommandsCallback (P := P) legacy ndebug stack_avail junk fuel env (s_fdCommand s) s = Ok (tt, s') /\
    live s' ps /\ conn s' ps /\ (gone -> s_fdCommand s' < 0).
Proof.
  intros HL HB HS Hnc. destruct (keeps_records s ps HL) as (closed & s1 & E1 & L1 & Q1 & _).
  assert (HC1 : conn s1 ps) by (eapply conn_quiet; [exact Q1|split; [done|by right]]).
  destruct closed; [|exists s1; split_and!; [by apply commands_wait|done|done|intros Hg; exfalso]].
  2: { by apply (records_gone _ _ _ _ Hg) in E1. }
  destruct HC1 as [B1 [(Hneg & _)|S1]]; [destruct HS as [? _]; rewrite (q_command _ _ Q1) in Hneg; lia|].
  pose proof L1 as [ts C1]. destruct (co_reqs _ _ _ _ _ C1) as [l Hl]. pose proof S1 as (F1 & F2 & [i Hi] & He' & F5 & F6).
  pose proof He' as (e & He & He1 & He2 & He3).
  destruct (listen_idle s1 ts ps C1 B1 F5) as (le & Hidle & _).
  { intros _. by exists (s_fdCommand s1), true, CB_processCommandsCallback. }
  destruct (commands_closed legacy ndebug stack_avail junk fuel env s s1 l ts ps i e le E1 Hl (co_ev _ _ _ _ _ C1) Hi He Hidle)
    as (s' & tev & E & F & _ & _ & L & _ & HI & _ & _ & _ & v & h' & j & Hs' & Hh & Ht & Hj).
  exists s'. split; [done|]. destruct (commands_ends s1 s' ts ps l i e j le v h' (EClose (s_fdCommand s1) :: tev)) as [L' N']; try done.
  { apply Hidle. }
  split_and!; [done|done|]. intros _. rewrite F. lia.
Qed.

(** ** A connection on the listening descriptor *)

(** The listening event has been taken out of the table and the pending
    list. *)
Definition called (s : ril_state) (ps : list loc) : Prop :=
  s_fdCommand s < 0 /\ ~ watched (r_ev s) s_commands_event /\ (s_commands_event ∉ ps) /\
  ~ watched (r_ev s) s_listen_event /\ s_listen_event ∉ ps.

(** The listening event is watched again, and there is no client. *)
Lemma listens_again (s s' : ril_state) ts ps l j le v h' x tev :
  core version [] s ts ps -> base s -> called s ps -> x < 0 -> ev_inv v ts ps -> reqs s' l ->
  ev_heap (r_ev s) !! s_listen_event = Some le ->
  s' = add_trace tev (set_reqs h' (s_pendingRequests s) (set_fdCommand x (set_ev v s))) ->
  ev_heap v = <[s_listen_event := set_index (Z.of_nat j) le]> (ev_heap (r_ev s)) ->
  watch_table v = <[j := Some s_listen_event]> (watch_table (r_ev s)) -> watch_table (r_ev s) !! j = Some None ->
  live s' ps /\ conn s' ps.
Proof.
  clear Hw Hfds Haccept. intros HC HB (_ & Hnw & Hnc & Hnl & Hnp) Hx HI Hl Hle Hs' Hh Ht Hj.
  pose proof (fun a => watched_put (r_ev s) v j s_listen_event a Ht Hj) as Hwt.
  assert (Hcf : forall b, cfg <$> ev_heap v !! b = cfg <$> ev_heap (r_ev s) !! b).
  { intros b. rewrite Hh. by apply cfg_set_index. }
  subst s'. split; [exists ts; eapply (rewatch_core s); [|exact HI|exact Hl|exact HC]|split].
  - split; try done. simpl. rewrite Hh, dom_insert. set_solver.
  - apply (base_moved s); try done.
    + intros a [->|Ha]%Hwt; [apply statics_listen|by eapply base_watched].
    + intros a _ _ Ha. apply Hwt. by right.
  - left. split_and!; [simpl; lia| |done|].
    + by intros [?|?]%Hwt.
    + left. split; [|done]. apply Hwt. by left.
Qed.

(** The new descriptor is none of those that are watched. *)
Lemma newfd_unwatched (s : ril_state) ts ps x :
  core version [] s ts ps -> base s -> called s ps -> x ∉ own_fds -> x ∉ readFds (r_ev s).
Proof.
  clear Hw Hfds Haccept. intros HC [B1 (we & W1 & W2 & _) (de & D1 & D2 & _) _ _ _ _] (_ & Hnw & _ & Hnl & _) Hx.
  rewrite (wo_fds _ _ _ (ei_watch _ _ _ (co_ev _ _ _ _ _ HC))). intros (j & a & e & Hj & He & Hxe). apply Hx.
  pose proof (B1 j a Hj) as Ha. unfold STATICS in Ha. rewrite !elem_of_cons, elem_of_nil in Ha.
  destruct Ha as [->|[->|[->|[->|[]]]]].
  - destruct Hnw. by exists j.
  - rewrite W1 in He. injection He as <-. rewrite <- Hxe, W2. by constructor.
  - destruct Hnl. by exists j.
  - rewrite D1 in He. injection He as <-. rewrite <- Hxe, D2. by do 3 constructor.
Qed.

(** A client was accepted. *)
Lemma client_accepted (s s' : ril_state) ts ps l j e x v tev :
  core version [] s ts ps -> base s -> called s ps -> 0 <= x -> x ∉ own_fds -> ev_inv v ts ps -> reqs s' l ->
  fd e = x -> persist e = true -> func e = Some CB_processCommandsCallback ->
  s' = add_trace tev (set_fdCommand x (set_ev v s)) ->
  ev_heap v = <[s_commands_event := e]> (ev_heap (r_ev s)) ->
  watch_table v = <[j := Some s_commands_event]> (watch_table (r_ev s)) -> watch_table (r_ev s) !! j = Some None ->
  live s' ps /\ conn s' ps.
Proof.
  clear Hw Hfds Haccept. intros HC HB (_ & Hnw & Hnc & Hnl & Hnp) Hx Hno HI Hl He1 He2 He3 Hs' Hh Ht Hj.
  pose proof (fun a => watched_put (r_ev s) v j s_commands_event a Ht Hj) as Hwt.
  assert (Hcf : forall b, b <> s_commands_event -> cfg <$> ev_heap v !! b = cfg <$> ev_heap (r_ev s) !! b).
  { intros b Hb. by rewrite Hh, lookup_insert_ne. }
  subst s'. split; [exists ts; eapply (rewatch_core s); [|exact HI|exact Hl|exact HC]|split].
  - split; try done; simpl.
    + intros b Hb. apply Hcf. intros ->. apply Hb, statics_commands.
    + rewrite Hh, dom_insert. set_solver.
  - apply (base_moved s); try done.
    + intros a [->|Ha]%Hwt; [apply statics_commands|by eapply base_watched].
    + intros a _ _ Ha. apply Hwt. by right.
  - right. split_and!; [done|done|apply Hwt; by left| |by intros [?|?]%Hwt|done].
    exists e. split_and!; try done. simpl. by rewrite Hh, lookup_insert_eq.
Qed.

Lemma live_unsol_inv (s : ril_state) ps : live s ps -> unsol_inv s.
Proof. intros [ts HC]. split_and!; [apply HC|apply HC|]. exists ts, ps. apply HC. Qed.

Lemma listen_callback_ok (s : ril_state) ps :
  live s ps -> base s -> called s ps ->
  exists s', listenCallback (P := P) ndebug fuel env listen_fd s = Ok (tt, s') /\ live s' ps /\ conn s' ps /\
    (forall x, accepting x -> s_fdCommand s' = x).
Proof.
  intros HL HB HS. pose proof HL as [ts HC]. pose proof HS as (Hneg & Hnw & Hnc & Hnl & Hnp).
  destruct (co_reqs _ _ _ _ _ HC) as [l Hl]. pose proof (co_ev _ _ _ _ _ HC) as HI.
  destruct (listen_idle s ts ps HC HB Hnl) as (le & Hle & _); [done|].
  destruct (free_slot _ _ _ HI (ba_slots _ HB)) as [i Hi]. rewrite <- (ba_fdListen _ HB).
  destruct (Haccept (r_trace s)) as [Hf|[Hv Hno]].
  { destruct (listen_failed ndebug fuel env s ts ps i le _ Hneg HI Hle Hi eq_refl Hf)
      as (s' & tev & v & j & E & Hs' & _ & HI' & Hh & Ht & Hj).
    exists s'. split; [done|].
    destruct (listens_again s s' ts ps l j le v (r_heap s) _ (EAccept (o_accept env (r_trace s)) :: tev) HC HB HS Hf HI') as [L' N']; try done.
    - rewrite Hs'. by eapply reqs_ext; [| |exact Hl].
    - apply Hle.
    - split_and!; [done|done|]. intros x [Hx Hx0]. destruct (Hx (r_trace s)) as [Hx1 _]. lia. }
  set (x := o_accept env (r_trace s)) in *.
  assert (Hx : 0 <= x) by (unfold fd_valid in Hv; lia).
  destruct (decide (o_cred env (r_trace s ++ [EAccept x]) = Some PHONE_PROCESS)) as [Hc|Hc].
  - pose proof (co_statics _ _ _ _ _ HC _ statics_commands) as [e0 He0]%elem_of_dom.
    destruct (listen_accepts ndebug fuel env s ts ps i e0 x Hneg (live_unsol_inv s ps HL) HI He0)
      as (s1 & j & e & tev & E & _ & _ & HI1 & _ & _ & _ & _ & _ & _ & F1 & F2 & F3 & v & Hs1 & Hh & Ht & Hj); try done.
    { intros j Hj. apply Hnw. by exists j. }
    { pose proof (static_not_listed s ts ps _ HC statics_commands) as Hn. set_solver. }
    { by apply (newfd_unwatched s ts ps). }
    destruct (client_accepted s s1 ts ps l j e x v (EAccept x :: tev) HC HB HS Hx Hno) as [L1 C1]; try done.
    { by rewrite Hs1 in HI1. }
    { rewrite Hs1. by eapply reqs_ext; [| |exact Hl]. }
    destruct (keeps_greeting s1 ps L1) as ([] & s' & E' & L' & Q' & _). exists s'. split_and!; [by rewrite E|done| |].
    + exact (conn_quiet s1 s' ps Q' C1).
    + intros y [Hy _]. destruct (Hy (r_trace s)) as [Hy1 _]. rewrite (q_command _ _ Q'), Hs1. exact Hy1.
  - destruct (listen_rejects ndebug fuel env s l ts ps i le x Hneg Hl HI Hle Hi eq_refl Hx Hc)
      as (s' & tev & E & _ & _ & _ & L' & _ & HI' & _ & v & h' & j & Hs' & Hh & Ht & Hj).
    exists s'. split; [done|].
    destruct (listens_again s s' ts ps l j le v h' (-1) (EAccept x :: EClose x :: tev) HC HB HS) as [L2 N2]; try done.
    { by rewrite Hs' in HI'. }
    { apply Hle. }
    split_and!; [done|done|]. intros y [Hy _]. by destruct (Hy (r_trace s ++ [EAccept x])) as [_ Hy2].
Qed.

(** ** A timer fires *)

(** The function of a timer; the timer itself is set apart. *)
Lemma keeps_timer_function (s : ril_state) ps a u :
  RilDaemon.live version [a] s ps ->
  RilDaemon.keeps version [a]
    (match p_callback u with
     | TC_wakeTimeoutCallback => wakeTimeoutCallback (userParam u)
     | TC_vendor n => emit (EVendorTimer n (userParam u));; s ← get_st; vendor_calls (P := P) fuel env (o_vendor env s)
     end) (fun _ _ => True) s ps.
Proof.
  destruct Hw as [Ha Hno Hli Hsz Htb Hv Hve Hcl _]. intros HL. destruct (p_callback u).
  - unfold wakeTimeoutCallback. case_match; [by apply keeps_emit|by apply keeps_ret].
  - apply keeps_bind. apply keeps_emit; [done|]. intros L1 _. apply keeps_get.
    eapply keeps_weaken; [eapply keeps_vendor_calls; try done; by apply Hve|done].
Qed.

Lemma desc_delete (h : gmap loc (@ril_event callback)) a b : b <> a -> desc (delete a h) b = desc h b.
Proof. clear. intros Hb. unfold desc. by rewrite lookup_delete_ne. Qed.

(** The object of a timer that was served is freed. *)
Lemma timer_freed (s : ril_state) ts ps a :
  core version [a] s ts ps -> a ∉ ps -> a ∉ STATICS -> a ∉ [timer_list; pending_list] -> base s ->
  let s' := set_ev (set_heap (delete a (ev_heap (r_ev s))) (r_ev s)) (set_timers (delete a (r_timers s))
    (if decide (s_last_wake_timeout_info s = Some a) then None else s_last_wake_timeout_info s) s) in
  live s' ps /\ (forall b, b ∈ STATICS -> ev_heap (r_ev s') !! b = ev_heap (r_ev s) !! b).
Proof.
  clear Hw Hfds Haccept. intros [H1 H2 [l Hl] H4 H5 [W1 W2] H7 H8 H9] Hps Hst Hli HB s'.
  destruct (H9 a) as [Hts [u Hu]]; [by constructor|].
  assert (Hkeep : forall b, b <> a -> timer_event s b -> timer_event s' b).
  { intros b Hb (T1 & T2 & T3). split_and!; [|by rewrite <- T2; apply desc_delete|done].
    simpl. by rewrite lookup_delete_ne. }
  split.
  - exists ts. split; try done.
    + apply (ev_inv_agree (r_ev s)); [done|]. intros b Hb. rewrite lookup_delete_ne; [done|]. intros <-.
      destruct Hb as [Hb|[i Hi]]; [set_solver|]. by apply Hst, (ba_slots _ HB i).
    + intros b Hb. simpl. rewrite dom_delete_L. apply elem_of_difference. split; [by apply H2|].
      intros ->%elem_of_singleton. done.
    + exists l. by eapply reqs_ext; [| |exact Hl].
    + split; simpl.
      * intros b v Hb Hvc Hvp. apply lookup_delete_Some in Hb as [Hne Hb]. pose proof (W1 _ _ Hb Hvc Hvp) as Hs.
        rewrite decide_False; [done|]. rewrite Hs. congruence.
      * intros b. case_decide as Hd; [done|]. intros Hb. rewrite lookup_delete_ne; [by apply W2|]. by intros <-.
    + intros b Hb. apply Hkeep; [by intros ->|by apply H7].
    + intros b Hb. destruct (H8 b Hb); [left|by right]. apply Hkeep; [by intros ->|done].
    + intros b Hb. by apply elem_of_nil in Hb.
  - intros b Hb. simpl. apply lookup_delete_ne. by intros ->.
Qed.

(** A state with the same static events and the same table. *)
Lemma conn_same (s s' : ril_state) ps :
  watch_table (r_ev s') = watch_table (r_ev s) -> s_fdCommand s' = s_fdCommand s -> s_fdListen s' = s_fdListen s ->
  (forall b, b ∈ STATICS -> cfg <$> ev_heap (r_ev s') !! b = cfg <$> ev_heap (r_ev s) !! b) ->
  conn s ps -> conn s' ps.
Proof.
  clear Hw Hfds Haccept. intros T D M C [[B1 B2 B3 B4 B5 B6 B7] HS]. pose proof (fun a => watched_table (r_ev s) (r_ev s') a T) as Hwt.
  assert (He : forall a x pers cb, a ∈ STATICS -> ev_is (r_ev s) a x pers cb -> ev_is (r_ev s') a x pers cb).
  { intros a x pers cb Ha H. eapply ev_is_cfg; [by apply C|done]. }
  split.
  - split; try (apply He; [by repeat constructor|done]); [|by apply Hwt..|congruence]. intros i a. rewrite T. apply B1.
  - unfold listening, connected. rewrite !Hwt, D. destruct HS as [HS|(S1 & S2 & S3 & S4 & S5)]; [by left|right].
    split_and!; try done; [|apply S5..]. apply He; [apply statics_commands|done].
Qed.

Lemma timer_callback_ok (s : ril_state) ts ps a :
  core version [] s ts ps -> conn s ps -> timer_event s a -> a ∉ timer_list :: pending_list :: ts ++ ps ->
  exists s', userTimerCallback (P := P) fuel env (Some a) s = Ok (tt, s') /\ live s' ps /\ conn s' ps /\
    s_fdCommand s' = s_fdCommand s.
Proof.
  intros HC HN ([u Hu] & Hd & Hst) Ha.
  assert (HL : RilDaemon.live version [a] s ps).
  { exists ts. destruct HC as [H1 H2 H3 H4 H5 H6 H7 H8 _]. split; try done. intros b ->%list_elem_of_singleton.
    split; [set_solver|by rewrite Hu]. }
  destruct (keeps_timer_function s ps a u HL) as ([] & s1 & E1 & [ts1 C1] & Q1 & _).
  pose proof (conn_quiet _ _ ps Q1 HN) as N1. destruct N1 as [B1 _].
  destruct (timer_freed s1 ts1 ps a C1) as [L2 H2]; [set_solver|done|set_solver|done|].
  eexists. split_and!; [|exact L2| |apply (q_command _ _ Q1)].
  - unfold userTimerCallback. rewrite bind_get, Hu. by run_cmd E1.
  - eapply (conn_same s1); try done; [|by eapply conn_quiet]. intros b Hb. by rewrite H2.
Qed.

End Fds.

End Loop.
