(* ===== verification/CStr.v ===== *)
(** * C strings

    The functions of the C library that the programs apply to strings.  A C
    string is a [string] without NUL characters; [strcmp(a, b) == 0] is
    [String.eqb].  [long] has 32 bits, as on the ARM target
    (BoardConfig.mk). *)

From Stdlib Require Import Ascii String.
From stdpp Require Export strings.
From stdpp Require Export pretty.
From S2P Require Import Prelude Bytes.

Open Scope Z_scope.

Definition streq (a b : string) : bool := String.eqb a b.

Lemma streq_true a b : streq a b = true <-> a = b.
Proof. apply String.eqb_eq. Qed.

Lemma streq_false a b : streq a b = false <-> a <> b.
Proof. apply String.eqb_neq. Qed.

(** The loop [for (; *s1 == *s2 && *s1; s1++, s2++);] followed by the test
    of [*s1]: whether it reached the end of [s1]. *)
Fixpoint prefix_of (s1 s2 : string) : bool :=
  match s1, s2 with
  | EmptyString, _ => true
  | String a s1, String b s2 => Ascii.eqb a b && prefix_of s1 s2
  | String _ _, EmptyString => false
  end.

Lemma prefix_of_spec s1 s2 : prefix_of s1 s2 = true <-> exists t, s2 = (s1 +:+ t)%string.
Proof.
  revert s2. induction s1 as [|a s1 IH]; intros s2; simpl; [split; eauto|].
  destruct s2 as [|b s2]; [by split; [|intros [? ?]]|].
  rewrite andb_true_iff, Ascii.eqb_eq, IH. split.
  - intros (-> & t & ->). by exists t.
  - intros [t [= -> ->]]. eauto.
Qed.

Lemma prefix_of_refl s : prefix_of s s = true.
Proof. induction s as [|a s IH]; [done|]. simpl. by rewrite Ascii.eqb_refl. Qed.

(** The line feed and the double quote. *)
Definition nl : string := String (ascii_of_nat 10) EmptyString.
Definition dq : string := String (ascii_of_nat 34) EmptyString.

(** ** Strings in buffers *)

(** The characters before the first null byte. *)
Fixpoint cstring (buf : list Z) : string :=
  match buf with
  | [] => EmptyString
  | b :: buf => if b =? 0 then EmptyString else String (ascii_of_N (Z.to_N b)) (cstring buf)
  end.

(** The bytes of a string. *)
Definition string_bytes (s : string) : list Z := (fun c => Z.of_N (N_of_ascii c)) <$> list_ascii_of_string s.

Lemma cstring_bytes w rest : Forall (fun b => b <> 0) (string_bytes w) -> cstring (string_bytes w ++ 0 :: rest) = w.
Proof.
  induction w as [|c w IH]; [done|]. unfold string_bytes. cbn [list_ascii_of_string fmap list_fmap app cstring].
  intros [Hc Hw]%Forall_cons. rewrite (proj2 (Z.eqb_neq _ _)) by done.
  rewrite N2Z.id, ascii_N_embedding. f_equal. by apply IH.
Qed.

Lemma length_string_bytes w : length (string_bytes w) = String.length w.
Proof. unfold string_bytes. rewrite length_fmap. induction w as [|c w IH]; [done|]. exact (f_equal S IH). Qed.

(** ** Decimals *)

Lemma pretty_N_go_length k n s :
  (n < 10 ^ N.of_nat k)%N -> (String.length (pretty_N_go n s) <= k + String.length s)%nat.
Proof.
  revert n s. induction k as [|k IH]; intros n s Hn.
  { change (10 ^ N.of_nat 0)%N with 1%N in Hn. replace n with 0%N by lia. by rewrite pretty_N_go_0. }
  destruct (decide (n = 0)%N) as [->|Hz]; [rewrite pretty_N_go_0; lia|].
  rewrite pretty_N_go_step by lia. etrans; [apply IH|simpl; lia].
  apply N.Div0.div_lt_upper_bound. rewrite Nat2N.inj_succ, N.pow_succ_r' in Hn. lia.
Qed.

Lemma pretty_pos_length p : Z.pos p <= 2 ^ 31 -> (String.length (pretty (N.pos p)) <= 10)%nat.
Proof.
  intros Hp. unfold pretty, pretty_N. rewrite decide_False by done.
  etrans; [apply (pretty_N_go_length 10)|simpl; lia]. change (10 ^ N.of_nat 10)%N with 10000000000%N. lia.
Qed.

Lemma string_length_app a b : String.length (a +:+ b) = (String.length a + String.length b)%nat.
Proof. induction a as [|c a IH]; [done|]. exact (f_equal S IH). Qed.

(** ** Numbers *)

Definition chr (c : ascii) : Z := Z.of_N (N_of_ascii c).

(** [isspace] in the C locale. *)
Definition isspace (c : ascii) : bool := (chr c =? 32) || ((9 <=? chr c) && (chr c <=? 13)).

Fixpoint skip_space (s : string) : string :=
  match s with
  | String c s' => if isspace c then skip_space s' else s
  | EmptyString => s
  end.

(** The value of a digit, whatever the base. *)
Definition digit_val (c : ascii) : option Z :=
  let n := chr c in
  if (48 <=? n) && (n <=? 57) then Some (n - 48)
  else if (97 <=? n) && (n <=? 122) then Some (n - 97 + 10)
  else if (65 <=? n) && (n <=? 90) then Some (n - 65 + 10)
  else None.

Fixpoint digits (base : Z) (s : string) (acc : Z) : Z :=
  match s with
  | String c s' =>
      match digit_val c with
      | Some d => if d <? base then digits base s' (acc * base + d) else acc
      | None => acc
      end
  | EmptyString => acc
  end.

Definition sign (s : string) : bool * string :=
  match s with
  | String "-"%char s' => (true, s')
  | String "+"%char s' => (false, s')
  | _ => (false, s)
  end.

(** The base that 0 stands for, and what is left after a [0x]. *)
Definition detect_base (base : Z) (s : string) : Z * string :=
  match s with
  | String "0"%char (String "x"%char s') | String "0"%char (String "X"%char s') =>
      if (base =? 0) || (base =? 16) then (16, s') else (base, s)
  | String "0"%char _ => (if base =? 0 then 8 else base, s)
  | _ => (if base =? 0 then 10 else base, s)
  end.

Definition LONG_MAX : Z := 2 ^ 31 - 1.
Definition LONG_MIN : Z := - 2 ^ 31.
Definition ERANGE : Z := 34.

(** [strtol(s, NULL, base)]: the value, and what [errno] is set to (0 when
    it is left alone). *)
Definition strtol (s : string) (base : Z) : Z * Z :=
  let '(neg, s) := sign (skip_space s) in
  let '(base, s) := detect_base base s in
  let v := digits base s 0 in
  let v := if neg then - v else v in
  if v >? LONG_MAX then (LONG_MAX, ERANGE)
  else if v <? LONG_MIN then (LONG_MIN, ERANGE)
  else (v, 0).

Definition strtol_val (s : string) (base : Z) : Z := (strtol s base).1.

Lemma strtol_range s base : i32_ok (strtol_val s base).
Proof.
  unfold strtol_val, strtol, i32_ok, LONG_MAX, LONG_MIN.
  destruct (sign _) as [neg t], (detect_base base t) as [b u].
  destruct (_ >? _) eqn:H1; [simpl; lia|]. destruct (_ <? _) eqn:H2; simpl; lia.
Qed.

Example strtol_hex : strtol "  -0x1F" 0 = (-31, 0).
Proof. reflexivity. Qed.
Example strtol_oct : strtol "010 " 0 = (8, 0).
Proof. reflexivity. Qed.
Example strtol_big : strtol "99999999999" 10 = (LONG_MAX, ERANGE).
Proof. reflexivity. Qed.
Example strtol_none : strtol "abc" 10 = (0, 0).
Proof. reflexivity. Qed.

(** [%d] *)
Lemma pretty_int_length v : - 2 ^ 31 <= v < 2 ^ 31 -> (String.length (pretty v) <= 11)%nat.
Proof.
  intros Hv. destruct v as [|p|p]; [simpl; lia| |].
  - pose proof (pretty_pos_length p). change (pretty (Z.pos p)) with (pretty (N.pos p)). lia.
  - pose proof (pretty_pos_length p). change (pretty (Z.neg p)) with ("-" +:+ pretty (N.pos p)).
    rewrite string_length_app. simpl (String.length "-"). lia.
Qed.
