(* ===== verification/RilMain.v ===== *)
(** * libril/ril.cpp: the start of the daemon, its threads and the debug port

    [main_state] adds the static variables that only these functions use to
    [ril_state].  [RIL_register] runs in the main thread; the event loop's
    thread runs [eventLoop], which is [eventLoop_init] (until it has told
    the main thread that it is up), [eventLoop_wakeup] and the loop.  What
    the outside answers comes from [main_env].

    [callback_call] is the table of the functions that events carry; with
    it, a turn of the daemon is [ril_event_loop_body]. *)

From Stdlib Require Import Ascii String.
From S2P Require Import Prelude Bytes Parcel RilConst RilTypes RilDispatch RilResponse EventHeap EventLoop RilCore CStr.

Open Scope Z_scope.

(** [g_log_tag_5] is the character [g_log_tag[5]]; [rild] is the array with
    the name of the socket. *)
Record main_state := mkMain {
  m_ril : ril_state;
  s_started : Z;
  s_fdWakeupRead : Z;
  s_fdWakeupWrite : Z;
  s_fdDebug : Z;
  extlog : Z;
  g_log_tag_5 : ascii;
  rild : list Z }.

Definition set_ril (v : ril_state) (m : main_state) : main_state :=
  mkMain v (s_started m) (s_fdWakeupRead m) (s_fdWakeupWrite m) (s_fdDebug m) (extlog m) (g_log_tag_5 m) (rild m).
Definition set_started (v : Z) (m : main_state) : main_state :=
  mkMain (m_ril m) v (s_fdWakeupRead m) (s_fdWakeupWrite m) (s_fdDebug m) (extlog m) (g_log_tag_5 m) (rild m).
Definition set_wakeup (r w : Z) (m : main_state) : main_state :=
  mkMain (m_ril m) (s_started m) r w (s_fdDebug m) (extlog m) (g_log_tag_5 m) (rild m).
Definition set_fdDebug (v : Z) (m : main_state) : main_state :=
  mkMain (m_ril m) (s_started m) (s_fdWakeupRead m) (s_fdWakeupWrite m) v (extlog m) (g_log_tag_5 m) (rild m).
Definition set_extlog (v : Z) (m : main_state) : main_state :=
  mkMain (m_ril m) (s_started m) (s_fdWakeupRead m) (s_fdWakeupWrite m) (s_fdDebug m) v (g_log_tag_5 m) (rild m).
Definition set_log_tag (v : ascii) (m : main_state) : main_state :=
  mkMain (m_ril m) (s_started m) (s_fdWakeupRead m) (s_fdWakeupWrite m) (s_fdDebug m) (extlog m) v (rild m).
Definition set_rild (v : list Z) (m : main_state) : main_state :=
  mkMain (m_ril m) (s_started m) (s_fdWakeupRead m) (s_fdWakeupWrite m) (s_fdDebug m) (extlog m) (g_log_tag_5 m) v.
Definition set_fdListen (v : Z) (s : ril_state) : ril_state :=
  mkRil (r_ev s) (r_heap s) (s_pendingRequests s) (r_timers s) (s_last_wake_timeout_info s) (s_fdCommand s)
    v (s_registerCalled s) (r_version s) (voiceRadioTech s) (cdmaSubscriptionSource s)
    (simRuimStatus s) (s_lastNITZTimeData s) (r_trace s).

#[export] Program Instance main_event_store : EventStore callback main_state :=
  {| es_get := fun m => r_ev (m_ril m); es_put := fun e m => set_ril (set_ev e (m_ril m)) m |}.
Next Obligation. done. Qed.
Next Obligation. done. Qed.
Next Obligation. by intros [[]]. Qed.

Abbreviation mcmd := (cmd main_state).

(** What the calls of these functions return: [read], the number of bytes
    and whether [errno] is EINTR; [recv], the bytes, or an error;
    [property_get] with an empty default, the value. *)
Record main_env := mkMainEnv {
  m_thread : list effect -> bool;
  m_pipe : list effect -> option (Z * Z);
  m_read : list effect -> Z * bool;
  m_property : list effect -> string -> string;
  m_socket : list effect -> string -> Z;
  m_listen : list effect -> Z -> Z;
  m_accept : list effect -> Z;
  m_recv : list effect -> Z -> Z -> option (list Z) }.

(** A command on the part of ril_state. *)
Definition onril {A} (c : rcmd A) : mcmd A := fun m =>
  match c (m_ril m) with
  | Ok (a, s) => Ok (a, set_ril s m)
  | UB => UB
  | Block => Block
  end.

(** A call to the outside, in the trace. *)
Definition mcall {A} (e : main_effect) (f : list effect -> A) : mcmd A :=
  onril (a ← ask f; emit (EMain e);; mret a).

(** The zero-initialised process. *)
Definition boot_ev : estate callback := mkEstate
  (<[timer_list := zero_event]> (<[pending_list := zero_event]> (<[s_commands_event := zero_event]>
    (<[s_wakeupfd_event := zero_event]> (<[s_listen_event := zero_event]> (<[s_debug_event := zero_event]> ∅))))))
  (replicate MAX_FD_EVENTS None) ∅ 0.

Definition boot_ril : ril_state :=
  mkRil boot_ev ∅ None ∅ None (-1) (-1) false 0 (-1) (-1) (-1) None [].

Definition SOCKET_NAME_RIL : string := "rild".
Definition SOCKET_NAME_RIL_DEBUG : string := "rild-debug".

(** [char a[n] = s], and [strncpy(a, s, n)] for an array [a] of [n]
    characters: what is not copied is zero. *)
Definition char_array (n : Z) (s : string) : list Z :=
  take (Z.to_nat n) (string_bytes s ++ replicate (Z.to_nat n) 0).

(** A string read from an array, which has to be terminated. *)
Definition array_string (a : list Z) : option string :=
  if bool_decide (0 ∈ a) then Some (cstring a) else None.

Section Main.
Context {P : Type} {HPar : Parcel P} {HJS : JString} {HH : RilH}.
Variables (legacy ndebug : bool) (stack_avail junk : Z) (fuel : nat) (env : ril_env) (menv : main_env).
(** The content of [dialData.uusInfo], which is not initialised. *)
Variable junk_uus : option RIL_UUS_Info.

Definition boot_state : main_state :=
  mkMain boot_ril 0 0 0 (-1) 0 "x" (char_array (rilh MAX_SOCKET_NAME_LENGTH) SOCKET_NAME_RIL).

(** ** The name of the socket *)

Definition RIL_getRilSocketName : mcmd string :=
  m ← get_st;
  match array_string (rild m) with
  | Some s => mret s
  | None => ub
  end.

Definition RIL_setRilSocketName (s : string) : mcmd unit :=
  modify (set_rild (char_array (rilh MAX_SOCKET_NAME_LENGTH) s)).

(** ** The event loop's thread *)

(** The [do ... while] of [processWakeupCallback]. *)
Fixpoint drain_loop (n : nat) : mcmd unit :=
  match n with
  | O => Prelude.block
  | S n =>
      m ← get_st;
      '(ret, eintr) ← mcall (MRead (s_fdWakeupRead m)) (m_read menv);
      if (ret >? 0) || ((ret <? 0) && eintr) then drain_loop n else mret tt
  end.

Definition processWakeupCallback : mcmd unit := drain_loop fuel.

Definition eventLoop_init : mcmd unit :=
  onev ril_event_init;;
  modify (set_started 1).

(** [false]: the pipe could not be created, and the thread ends. *)
Definition eventLoop_wakeup : mcmd bool :=
  filedes ← mcall MPipe (m_pipe menv);
  match filedes with
  | None => mret false
  | Some (r, w) =>
      modify (set_wakeup r w);;
      mcall (MNonblock r) (fun _ => tt);;
      onev (ril_event_set (Some s_wakeupfd_event) r true (Some CB_processWakeupCallback) None);;
      onril (rilEventAddWakeup env s_wakeupfd_event);;
      mret true
  end.

(** [pthread_create], and the wait for [s_started]. *)
Definition RIL_startEventLoop : mcmd unit :=
  modify (set_started 0);;
  ok ← mcall MThread (m_thread menv);
  if ok : bool then eventLoop_init else mret tt.

(** ** The debug port *)

Definition recv (fd len : Z) : mcmd (option (list Z)) :=
  b ← mcall (MRecv fd len) (fun tr => m_recv menv tr fd len);
  mret (take (Z.to_nat len) <$> b).

(** [recv(fd, &n, sizeof(int), 0) == sizeof(int)]. *)
Definition recv_int (fd : Z) : mcmd (option Z) :=
  b ← recv fd sizeof_int;
  mret (match b with
        | Some b => if Z.of_nat (length b) =? sizeof_int then Some (get32 b) else None
        | None => None
        end).

(** [freeDebugCallbackArgs] only frees memory and is not represented. *)

(** The loop over the arguments; [k] are left, [args] are read, [size] is
    the size of the array of pointers.  The buffer of an argument has
    [len + 1] bytes, so that a negative [len] makes [recv] write past it. *)
Fixpoint recv_args (k : nat) (fd size : Z) (args : list (list Z)) : mcmd (option (list (list Z))) :=
  match k with
  | O => mret (Some args)
  | S k =>
      len ← recv_int fd;
      match len with
      | None => mret None
      | Some len =>
          if (Z.of_nat (length args) + 1) * sizeof_ptr >? size then ub
          else if len <? 0 then ub
          else
            b ← recv fd len;
            match b with
            | Some b => if Z.of_nat (length b) =? len then recv_args k fd size (args ++ [b]) else mret None
            | None => mret None
            end
      end
  end.

(** [args[i]] as a string. *)
Definition arg_string (args : list (list Z)) (i : nat) : mcmd (list Z) :=
  match args !! i with
  | Some b => mret (string_bytes (cstring b))
  | None => ub
  end.

Definition atoi (b : list Z) : Z := strtol_val (cstring b) 10.

Definition issueLocal (request : ril_const) (data : voidptr) (len : Z) : mcmd unit :=
  onril (issueLocalRequest (P := P) legacy fuel env (rilh request) data len).

(** The [switch] over the option. *)
Definition debug_option (opt : Z) (args : list (list Z)) : mcmd unit :=
  match opt with
  | 0 => issueLocal RIL_REQUEST_RESET_RADIO VNull 0
  | 1 =>
      issueLocal RIL_REQUEST_RADIO_POWER (VInts [0]) sizeof_int;;
      m ← get_st;
      onril (emit (EClose (s_fdCommand (m_ril m))));;
      onril (modify (set_fdCommand (-1)))
  | 2 => onril (RIL_onUnsolicitedResponse (P := P) fuel env (rilh RIL_UNSOL_RESPONSE_VOICE_NETWORK_STATE_CHANGED) VNull 0)
  | 3 => issueLocal RIL_REQUEST_OEM_HOOK_RAW (VInts [65536; 16; 1; 32; 0; 8]) (6 * sizeof_int)
  | 4 => issueLocal RIL_REQUEST_OEM_HOOK_RAW (VInts [65536; 16; 0; 32; 0; 8]) (6 * sizeof_int)
  | 5 =>
      issueLocal RIL_REQUEST_RADIO_POWER (VInts [1]) sizeof_int;;
      mcall (MSleep 2) (fun _ => tt);;
      issueLocal RIL_REQUEST_SET_NETWORK_SELECTION_AUTOMATIC VNull 0
  | 6 =>
      apn ← arg_string args 1;
      issueLocal RIL_REQUEST_SETUP_DATA_CALL (VStrings [Some apn]) sizeof_ptr
  | 7 => issueLocal RIL_REQUEST_DEACTIVATE_DATA_CALL (VStrings [Some (string_bytes "1")]) sizeof_ptr
  | 8 =>
      address ← arg_string args 1;
      issueLocal RIL_REQUEST_DIAL (VDial (mkDial (Some address) 0 junk_uus)) (sizeof S_RIL_Dial)
  | 9 => issueLocal RIL_REQUEST_ANSWER VNull 0
  | 10 => issueLocal RIL_REQUEST_HANGUP (VInts [1]) sizeof_int
  | _ => mret tt
  end.

Definition debugCallback (fd : Z) : mcmd unit :=
  acceptFD ← onril (a ← ask (m_accept menv); emit (EMain (MAccept fd a));; mret a);
  if acceptFD <? 0 then mret tt
  else
    number ← recv_int acceptFD;
    match number with
    | None => mret tt
    | Some number =>
        args ← recv_args (Z.to_nat number) acceptFD (u32 (sizeof_ptr * number)) [];
        match args with
        | None => mret tt
        | Some args =>
            match args !! 0%nat with
            | None => ub
            | Some a0 => debug_option (atoi a0) args
            end;;
            onril (emit (EClose acceptFD))
        end
    end.

(** ** The functions that events carry *)

Definition callback_call (cb : callback) (fd : Z) (param : option loc) : mcmd unit :=
  match cb with
  | CB_processCommandsCallback => onril (processCommandsCallback (P := P) legacy ndebug stack_avail junk fuel env fd)
  | CB_listenCallback => onril (listenCallback (P := P) ndebug fuel env fd)
  | CB_debugCallback => debugCallback fd
  | CB_userTimerCallback => onril (userTimerCallback (P := P) fuel env param)
  | CB_processWakeupCallback => processWakeupCallback
  end.

Definition eventLoop (turns : list loop_env) : mcmd unit :=
  eventLoop_init;;
  ok ← eventLoop_wakeup;
  if ok : bool then
    ril_event_loop callback_call fuel turns;;
    mcall MKill (fun _ => tt)
  else mret tt.

(** ** Registration *)

(** "Used for testing purpose only." *)
Definition RIL_setcallbacks (version : Z) : mcmd unit :=
  onril (modify (fun s => mkRil (r_ev s) (r_heap s) (s_pendingRequests s) (r_timers s) (s_last_wake_timeout_info s)
    (s_fdCommand s) (s_fdListen s) (s_registerCalled s) version (voiceRadioTech s) (cdmaSubscriptionSource s)
    (simRuimStatus s) (s_lastNITZTimeData s) (r_trace s))).

Definition property_get (name : string) : mcmd string :=
  mcall (MProperty name) (fun tr => m_property menv tr name).

(** The log tag, the delay and [extlog]. *)
Definition register_settings : mcmd unit :=
  name ← RIL_getRilSocketName;
  let c := if streq name "rild" then "0"%char else "1"%char in
  modify (set_log_tag c);;
  prop_val ← property_get ("ro.ril.delay_" +:+ String c "");
  (if Z.of_nat (String.length prop_val) >? 0 then
     let delay := strtol_val prop_val 0 in
     if delay >? 0 then mcall (MSleep delay) (fun _ => tt) else mret tt
   else mret tt);;
  prop_val ← property_get "ro.ril.extlog";
  if Z.of_nat (String.length prop_val) >? 0 then
    let v := strtol_val prop_val 0 in
    modify (set_extlog (if v <? 0 then 0 else v))
  else mret tt.

(** The checks of the argument; [false] is a [return].  [version] is the
    member of [*callbacks], or [None] for NULL. *)
Definition register_callbacks (version : option Z) : mcmd bool :=
  m ← get_st;
  match version with
  | None => mret false
  | Some version =>
      if version <? rilh RIL_VERSION_MIN then mret false
      else if version >? rilh RIL_VERSION then mret false
      else if s_registerCalled (m_ril m) then mret false
      else onril (modify (set_registered version));; mret true
  end.

(** The assertions of the "little self-check". *)
Definition commands_numbered : bool :=
  forallb (fun b => b) (imap (fun i ci => Z.of_nat i =? requestNumber ci) (s_commands legacy)).
Definition unsol_numbered : bool :=
  forallb (fun b => b) (imap (fun i ui => Z.of_nat i + rilh RIL_UNSOL_RESPONSE_BASE =? unsolNumber ui) s_unsolResponses).

(** [Some c]: [exit(c)]. *)
Definition register_listen : mcmd (option Z) :=
  name ← RIL_getRilSocketName;
  fd ← mcall (MSocket name) (fun tr => m_socket menv tr name);
  onril (modify (set_fdListen fd));;
  if fd <? 0 then mret (Some (-1))
  else
    ret ← mcall (MListen fd 4) (fun tr => m_listen menv tr fd);
    if ret <? 0 then mret (Some (-1))
    else
      onev (ril_event_set (Some s_listen_event) fd false (Some CB_listenCallback) None);;
      onril (rilEventAddWakeup env s_listen_event);;
      mret None.

(** [strncat(rildebug, inst, n)], the array having [n] characters: the copy
    stops after [n] characters of [inst], which may be too late. *)
Definition debug_socket_name (name : string) : option string :=
  let n := rilh MAX_DEBUG_SOCKET_NAME_LENGTH in
  let inst := if (String.length SOCKET_NAME_RIL <=? String.length name)%nat
              then String.substring (String.length SOCKET_NAME_RIL) (Z.to_nat n) name else ""%string in
  let s := SOCKET_NAME_RIL_DEBUG +:+ inst in
  if Z.of_nat (String.length s) <? n then Some s else None.

Definition register_debug : mcmd (option Z) :=
  name ← RIL_getRilSocketName;
  match debug_socket_name name with
  | None => ub
  | Some rildebug =>
      fd ← mcall (MSocket rildebug) (fun tr => m_socket menv tr rildebug);
      modify (set_fdDebug fd);;
      if fd <? 0 then mret (Some (-1))
      else
        ret ← mcall (MListen fd 4) (fun tr => m_listen menv tr fd);
        if ret <? 0 then mret (Some (-1))
        else
          onev (ril_event_set (Some s_debug_event) fd true (Some CB_debugCallback) None);;
          onril (rilEventAddWakeup env s_debug_event);;
          mret None
  end.

(** [between]: what the event loop's thread does after the listening
    socket was added; see [RIL_register]. *)
Definition RIL_register_with (between : mcmd unit) (version : option Z) : mcmd (option Z) :=
  register_settings;;
  go ← register_callbacks version;
  if go : bool then
    onril (c_assert ndebug commands_numbered);;
    onril (c_assert ndebug unsol_numbered);;
    m ← get_st;
    (if s_started m =? 0 then RIL_startEventLoop else mret tt);;
    r ← register_listen;
    match r with
    | Some c => mret (Some c)
    | None => between;; register_debug
    end
  else mret None.

Definition RIL_register : option Z -> mcmd (option Z) := RIL_register_with (mret tt).

End Main.
