(* ===== verification/RilDebug.v ===== *)
(** * The debug port

    The message of a connection to the debug port, read and served: what
    is read for what was sent ([debug_read_ok]), and that every option but
    "radio off" returns and leaves the connection of the phone process
    alone ([debug_callback_ok]). *)

From S2P Require Import Prelude Bytes Parcel RilConst RilTypes RilDispatch RilResponse RilWire RilResponseSpec.
From S2P Require Import EventHeap EventLoop EventSpec EventLoopSpec RilCore RilRequests RilTimers RilUnsol RilCommand.
From S2P Require Import RilSocket RilDaemon RilLoop CStr RilMain.

Lemma onril_Ok {A} (c : rcmd A) m a s' : c (m_ril m) = Ok (a, s') -> onril c m = Ok (a, set_ril s' m).
Proof. intros E. unfold onril. by rewrite E. Qed.

Lemma mcall_ok {A} e (f : list effect -> A) m :
  mcall e f m = Ok (f (r_trace (m_ril m)), set_ril (add_trace [EMain e] (m_ril m)) m).
Proof. done. Qed.

(** [evs] happened, and nothing else. *)
Definition traced (evs : list effect) (m : main_state) : main_state := set_ril (add_trace evs (m_ril m)) m.

Lemma traced_nil m : traced [] m = m.
Proof. destruct m as [[]]. unfold traced, set_ril, add_trace. simpl. by rewrite app_nil_r. Qed.

Lemma traced_app e1 e2 m : traced e2 (traced e1 m) = traced (e1 ++ e2) m.
Proof. destruct m as [[]]. unfold traced, set_ril, add_trace. simpl. by rewrite app_assoc. Qed.

Section Debug.
Context {P : Type} {HPar : Parcel P} {HLaws : ParcelLaws P} {HJS : JString} {HH : RilH}.
Variables (legacy : bool) (fuel : nat) (env : ril_env) (menv : main_env).
Variable junk_uus : option RIL_UUS_Info.

(** ** Reading the message *)

(** The number of the arguments, and the arguments. *)
Definition debug_read (fd : Z) : mcmd (option (list (list Z))) :=
  number ← recv_int menv fd;
  match number with
  | None => mret None
  | Some number => recv_args menv (Z.to_nat number) fd (u32 (sizeof_ptr * number)) []
  end.

Definition debug_serve (acceptFD : Z) (args : option (list (list Z))) : mcmd unit :=
  match args with
  | None => mret tt
  | Some args =>
      match args !! 0%nat with
      | None => ub
      | Some a0 => debug_option (P := P) legacy fuel env junk_uus (atoi a0) args
      end;;
      onril (emit (EClose acceptFD))
  end.

Lemma debugCallback_refused fd m :
  m_accept menv (r_trace (m_ril m)) < 0 ->
  debugCallback (P := P) legacy fuel env menv junk_uus fd m = Ok (tt, traced [EMain (MAccept fd (m_accept menv (r_trace (m_ril m))))] m).
Proof.
  intros Ha. unfold debugCallback. set (a := m_accept menv (r_trace (m_ril m))) in *.
  rewrite (cmd_bind_Ok _ _ _ _ _ (onril_Ok (a ← ask (m_accept menv); emit (EMain (MAccept fd a));; mret a) m a _ eq_refl)).
  by replace (a <? 0) with true by lia.
Qed.

Lemma debugCallback_accepted fd m :
  let a := m_accept menv (r_trace (m_ril m)) in 0 <= a ->
  debugCallback (P := P) legacy fuel env menv junk_uus fd m =
    (args ← debug_read a; debug_serve a args) (traced [EMain (MAccept fd a)] m).
Proof.
  intros a Ha. unfold debugCallback.
  rewrite (cmd_bind_Ok _ _ _ _ _ (onril_Ok (a ← ask (m_accept menv); emit (EMain (MAccept fd a));; mret a) m a _ eq_refl)).
  replace (a <? 0) with false by lia. change (set_ril _ m) with (traced [EMain (MAccept fd a)] m).
  unfold debug_read, mbind, cmd_bind. destruct (recv_int menv a _) as [[[number|] m1]| |]; [|done..]. done.
Qed.

(** *** What was sent is what is read *)

(** The calls of [recv] that read [chunks], each in one piece. *)
Definition recvs (fd : Z) (chunks : list (list Z)) : list effect := (fun c => EMain (MRecv fd (Z.of_nat (length c)))) <$> chunks.

Fixpoint sends_chunks (tr : list effect) (fd : Z) (chunks : list (list Z)) : Prop :=
  match chunks with
  | [] => True
  | c :: chunks =>
      m_recv menv tr fd (Z.of_nat (length c)) = Some c /\
      sends_chunks (tr ++ [EMain (MRecv fd (Z.of_nat (length c)))]) fd chunks
  end.

(** An argument: its length, its bytes. *)
Definition arg_chunks (a : list Z) : list (list Z) := [le32 (Z.of_nat (length a)); a].

Definition message (args : list (list Z)) : list (list Z) :=
  le32 (Z.of_nat (length args)) :: flat_map arg_chunks args.

Lemma recv_chunk fd m c :
  m_recv menv (r_trace (m_ril m)) fd (Z.of_nat (length c)) = Some c ->
  recv menv fd (Z.of_nat (length c)) m = Ok (Some c, traced (recvs fd [c]) m).
Proof.
  intros Hc. unfold recv. rewrite (cmd_bind_Ok _ _ _ _ _ (mcall_ok _ _ m)), Hc. simpl. by rewrite Nat2Z.id, take_ge.
Qed.

Lemma recv_int_chunk fd m n :
  i32_ok n -> m_recv menv (r_trace (m_ril m)) fd sizeof_int = Some (le32 n) ->
  recv_int menv fd m = Ok (Some n, traced (recvs fd [le32 n]) m).
Proof.
  intros Hn Hc. unfold recv_int. replace sizeof_int with (Z.of_nat (length (le32 n))) in * by (by rewrite length_le32).
  rewrite (cmd_bind_Ok _ _ _ _ _ (recv_chunk fd m (le32 n) Hc)), Z.eqb_refl. unfold mret, cmd_ret. by rewrite get32_le32, i32_id.
Qed.

Lemma recv_args_chunks fd size rest args m :
  (Z.of_nat (length args) + Z.of_nat (length rest)) * sizeof_ptr <= size ->
  Forall (fun a => i32_ok (Z.of_nat (length a))) rest ->
  sends_chunks (r_trace (m_ril m)) fd (flat_map arg_chunks rest) ->
  recv_args menv (length rest) fd size args m = Ok (Some (args ++ rest), traced (recvs fd (flat_map arg_chunks rest)) m).
Proof.
  revert args m. induction rest as [|a rest IH]; intros args m Hsz Ha Hs; cbn [length recv_args].
  - by rewrite app_nil_r, traced_nil.
  - apply Forall_cons in Ha as [Ha Hr]. cbn [flat_map arg_chunks app sends_chunks] in Hs. destruct Hs as (H1 & H2 & H3).
    rewrite length_le32 in H1, H2, H3. rewrite (cmd_bind_Ok _ _ _ _ _ (recv_int_chunk fd m _ Ha H1)).
    cbn [length] in Hsz. replace ((Z.of_nat (length args) + 1) * sizeof_ptr >? size) with false by (symmetry; rewrite Z.gtb_ltb; apply Z.ltb_ge; unfold sizeof_ptr in *; lia).
    replace (Z.of_nat (length a) <? 0) with false by (symmetry; apply Z.ltb_ge; lia).
    rewrite (cmd_bind_Ok _ _ _ _ _ (recv_chunk fd (traced (recvs fd [le32 _]) m) a H2)), Z.eqb_refl, IH; [|rewrite length_app; cbn [length]; lia|done|done].
    by rewrite !traced_app, <- app_assoc.
Qed.

Lemma debug_read_ok fd m args :
  Z.of_nat (length args) * sizeof_ptr < 2 ^ 32 -> Forall (fun a => i32_ok (Z.of_nat (length a))) args ->
  sends_chunks (r_trace (m_ril m)) fd (message args) ->
  debug_read fd m = Ok (Some args, traced (recvs fd (message args)) m).
Proof.
  intros Hn Ha [H1 H2]. assert (Hi : i32_ok (Z.of_nat (length args))) by (unfold i32_ok, sizeof_ptr in *; lia).
  unfold debug_read. rewrite length_le32 in H1, H2. rewrite (cmd_bind_Ok _ _ _ _ _ (recv_int_chunk fd m _ Hi H1)), Nat2Z.id.
  rewrite (recv_args_chunks fd _ args []); [by rewrite traced_app| |done|done].
  unfold u32. rewrite Z.mod_small; [simpl; lia|]. unfold sizeof_ptr in *. lia.
Qed.

(** *** A message that is cut short *)

(** [recv] fails, or returns less than the chunk [c]. *)
Definition cut (tr : list effect) (fd : Z) (c : list Z) : Prop :=
  forall b, m_recv menv tr fd (Z.of_nat (length c)) = Some b -> (length b < length c)%nat.

Lemma recv_cut fd m c :
  cut (r_trace (m_ril m)) fd c ->
  exists r, recv menv fd (Z.of_nat (length c)) m = Ok (r, traced (recvs fd [c]) m) /\
    forall b, r = Some b -> (length b < length c)%nat.
Proof.
  intros Hc. unfold recv. rewrite (cmd_bind_Ok _ _ _ _ _ (mcall_ok _ _ m)). eexists. split; [done|]. unfold cut in Hc.
  destruct (m_recv menv _ fd _) as [b|]; [|done]. intros b' [= <-]. rewrite length_take. specialize (Hc b eq_refl). lia.
Qed.

Lemma recv_int_cut fd m n :
  cut (r_trace (m_ril m)) fd (le32 n) -> recv_int menv fd m = Ok (None, traced (recvs fd [le32 n]) m).
Proof.
  intros Hc. destruct (recv_cut fd m _ Hc) as (r & E & Hr). unfold recv_int.
  replace sizeof_int with (Z.of_nat (length (le32 n))) by (by rewrite length_le32). run_cmd E.
  destruct r as [b|]; [|done]. specialize (Hr b eq_refl). replace (Z.of_nat (length b) =? _) with false; [done|].
  symmetry. apply Z.eqb_neq. lia.
Qed.

Lemma recv_args_cut fd size rest args m c1 c c2 :
  (Z.of_nat (length args) + Z.of_nat (length rest)) * sizeof_ptr <= size ->
  Forall (fun a => i32_ok (Z.of_nat (length a))) rest ->
  flat_map arg_chunks rest = c1 ++ c :: c2 -> sends_chunks (r_trace (m_ril m)) fd c1 ->
  cut (r_trace (m_ril m) ++ recvs fd c1) fd c ->
  recv_args menv (length rest) fd size args m = Ok (None, traced (recvs fd (c1 ++ [c])) m).
Proof.
  revert args m c1. induction rest as [|a rest IH]; intros args m c1 Hsz Ha Hm Hs Hc; [by destruct c1|].
  apply Forall_cons in Ha as [Ha Hr]. cbn [flat_map arg_chunks app] in Hm. cbn [length recv_args] in *.
  destruct c1 as [|b1 c1]; simpl in Hm.
  { injection Hm as <- _. cbn [recvs fmap list_fmap] in Hc. rewrite app_nil_r in Hc.
    by rewrite (cmd_bind_Ok _ _ _ _ _ (recv_int_cut fd m _ Hc)). }
  injection Hm as <- Hm. destruct Hs as [H1 Hs]. rewrite length_le32 in H1, Hs.
  rewrite (cmd_bind_Ok _ _ _ _ _ (recv_int_chunk fd m _ Ha H1)).
  replace ((Z.of_nat (length args) + 1) * sizeof_ptr >? size) with false
    by (symmetry; rewrite Z.gtb_ltb; apply Z.ltb_ge; unfold sizeof_ptr in *; lia).
  replace (Z.of_nat (length a) <? 0) with false by (symmetry; apply Z.ltb_ge; lia).
  set (m1 := traced (recvs fd [le32 (Z.of_nat (length a))]) m).
  destruct c1 as [|b2 c1]; simpl in Hm.
  { injection Hm as <- _. destruct (recv_cut fd m1 a Hc) as (r & E & Hl). run_cmd E. unfold m1. rewrite !traced_app.
    destruct r as [b|]; [|done]. specialize (Hl b eq_refl). replace (Z.of_nat (length b) =? _) with false; [done|].
    symmetry. apply Z.eqb_neq. lia. }
  injection Hm as <- Hm. destruct Hs as [H2 Hs]. rewrite (cmd_bind_Ok _ _ _ _ _ (recv_chunk fd m1 a H2)), Z.eqb_refl.
  rewrite (IH (args ++ [a]) (traced (recvs fd [a]) m1) c1); [unfold m1; by rewrite !traced_app|rewrite length_app; cbn [length]; lia|done|done|done|].
  revert Hc. simpl. by rewrite <- !app_assoc.
Qed.

Lemma debug_read_cut fd m args c1 c c2 :
  Z.of_nat (length args) * sizeof_ptr < 2 ^ 32 -> Forall (fun a => i32_ok (Z.of_nat (length a))) args ->
  message args = c1 ++ c :: c2 -> sends_chunks (r_trace (m_ril m)) fd c1 -> cut (r_trace (m_ril m) ++ recvs fd c1) fd c ->
  debug_read fd m = Ok (None, traced (recvs fd (c1 ++ [c])) m).
Proof.
  intros Hn Ha Hm Hs Hc. assert (Hi : i32_ok (Z.of_nat (length args))) by (unfold i32_ok, sizeof_ptr in *; lia).
  unfold debug_read, message in *. destruct c1 as [|b1 c1]; simpl in Hm.
  { injection Hm as <- _. cbn [recvs fmap list_fmap] in Hc. rewrite app_nil_r in Hc.
    by rewrite (cmd_bind_Ok _ _ _ _ _ (recv_int_cut fd m _ Hc)). }
  injection Hm as <- Hm. destruct Hs as [H1 Hs]. rewrite length_le32 in H1, Hs.
  rewrite (cmd_bind_Ok _ _ _ _ _ (recv_int_chunk fd m _ Hi H1)), Nat2Z.id.
  rewrite (recv_args_cut fd _ args [] _ c1 c c2); [by rewrite traced_app| |done|done|done|].
  - unfold u32. rewrite Z.mod_small; [simpl; lia|]. unfold sizeof_ptr in *. lia.
  - revert Hc. simpl. by rewrite <- app_assoc.
Qed.

(** *** Whatever was sent *)

Lemma recv_int_traced fd m : exists r, recv_int menv fd m = Ok (r, traced [EMain (MRecv fd sizeof_int)] m).
Proof. eexists. unfold recv_int, recv. by rewrite (cmd_bind_Ok _ _ _ _ _ (cmd_bind_Ok _ _ _ _ _ (mcall_ok _ _ m))). Qed.

Lemma recv_args_traced k fd size args m r m' :
  recv_args menv k fd size args m = Ok (r, m') -> exists evs, m' = traced evs m.
Proof.
  revert args m. induction k as [|k IH]; intros args m; cbn [recv_args].
  { intros [= _ <-]. exists []. by rewrite traced_nil. }
  destruct (recv_int_traced fd m) as [len E]. rewrite (cmd_bind_Ok _ _ _ _ _ E). destruct len as [len|]; [|intros [= _ <-]; eauto].
  destruct (_ >? size); [done|]. destruct (len <? 0); [done|]. unfold recv.
  rewrite (cmd_bind_Ok _ _ _ _ _ (cmd_bind_Ok _ _ _ _ _ (mcall_ok _ _ _))).
  match goal with |- context [fmap (take _) ?x] => destruct x as [b|] end; cbn [fmap option_fmap option_map];
    fold (traced [EMain (MRecv fd len)] (traced [EMain (MRecv fd sizeof_int)] m)); rewrite traced_app;
    [|intros [= _ <-]; eauto].
  case_match; [intros (evs & ->)%IH; rewrite traced_app|intros [= _ <-]]; eauto.
Qed.

Lemma debug_read_traced fd m r m' : debug_read fd m = Ok (r, m') -> exists evs, m' = traced evs m.
Proof.
  unfold debug_read. destruct (recv_int_traced fd m) as [n E]. rewrite (cmd_bind_Ok _ _ _ _ _ E).
  destruct n as [n|]; [intros (evs & ->)%recv_args_traced; eexists; by rewrite traced_app|intros [= _ <-]; eauto].
Qed.

(** ** Serving it *)

Variables (stack_avail junk version : Z).
Hypothesis Hw : world (P := P) legacy stack_avail junk fuel env version.

(** Options other than 1, which closes the client's socket behind the back
    of the event loop; 6 and 8 read a second argument. *)
Definition polite_args (args : list (list Z)) : Prop :=
  exists a0 rest, args = a0 :: rest /\ atoi a0 <> 1 /\ (atoi a0 ∈ [6; 8] -> rest <> []).

(** What comes after a connection was accepted: a connection that ends
    early, or a polite message. *)
Definition debug_polite : Prop := forall m fd,
  let a := m_accept menv (r_trace (m_ril m)) in 0 <= a ->
  exists r m', debug_read a (traced [EMain (MAccept fd a)] m) = Ok (r, m') /\ match r with Some args => polite_args args | None => True end.

(** [c] returns, and is [quiet] for the part of ril_state. *)
Definition mkeeps (c : mcmd unit) (m : main_state) (ps : list loc) : Prop :=
  exists m', c m = Ok (tt, m') /\ live version [] (m_ril m') ps /\ quiet (m_ril m) (m_ril m').

Lemma mkeeps_ret m ps : live version [] (m_ril m) ps -> mkeeps (mret tt) m ps.
Proof. intros HL. by exists m. Qed.

Lemma mkeeps_bind {A} (c : mcmd A) (f : A -> mcmd unit) m ps a m1 :
  c m = Ok (a, m1) -> quiet (m_ril m) (m_ril m1) -> mkeeps (f a) m1 ps -> mkeeps (c ≫= f) m ps.
Proof.
  intros E Q1 (m2 & E2 & L2 & Q2). exists m2. split_and!; [by run_cmd E|done|by trans (m_ril m1)].
Qed.

Lemma mkeeps_seq (c d : mcmd unit) m ps :
  mkeeps c m ps -> (forall m', live version [] (m_ril m') ps -> mkeeps d m' ps) -> mkeeps (c;; d) m ps.
Proof. intros (m1 & E & L & Q) Hd. eapply mkeeps_bind; [exact E|done|]. by apply Hd. Qed.

Lemma mkeeps_onril (c : rcmd unit) (Q : unit -> ril_state -> Prop) m ps :
  keeps version [] c Q (m_ril m) ps -> mkeeps (onril c) m ps.
Proof. intros ([] & s & E & L & HQ & _). exists (set_ril s m). split_and!; [by apply onril_Ok|done|done]. Qed.

Lemma mkeeps_emit e m ps : live version [] (m_ril m) ps -> mkeeps (onril (emit e)) m ps.
Proof. intros HL. apply (mkeeps_onril _ (fun _ _ => True)). by apply keeps_emit. Qed.

Lemma traced_live evs m ps : live version [] (m_ril m) ps -> live version [] (m_ril (traced evs m)) ps.
Proof.
  intros HL. destruct (live_reqs _ _ _ _ HL) as [l Hl]. eapply light_live; [apply light_add_trace| |done].
  by eapply reqs_ext; [| |exact Hl].
Qed.

Lemma traced_quiet evs m : quiet (m_ril m) (m_ril (traced evs m)).
Proof. apply light_quiet, light_add_trace. Qed.

(** The requests of the debug port have rows. *)
Lemma mkeeps_issueLocal i ci data len m ps :
  s_commands legacy !! i = Some ci -> live version [] (m_ril m) ps ->
  mkeeps (onril (issueLocalRequest (P := P) legacy fuel env (requestNumber ci) data len)) m ps.
Proof.
  intros Hi HL. destruct Hw as [Ha Hno Hli Hsz Htb Hv Hve Hcl _]. eapply mkeeps_onril, keeps_issueLocalRequest; try done.
  rewrite (proj1 Htb i ci Hi), Nat2Z.id. by exists ci.
Qed.

Lemma mkeeps_unsol i ui m ps :
  s_unsolResponses !! i = Some ui -> unsolResponseFunction ui = F_responseVoid -> live version [] (m_ril m) ps ->
  mkeeps (onril (RIL_onUnsolicitedResponse (P := P) fuel env (unsolNumber ui) VNull 0)) m ps.
Proof.
  intros Hi Hf HL. destruct Hw as [Ha Hno Hli Hsz Htb Hv Hve Hcl _]. eapply mkeeps_onril, keeps_RIL_onUnsolicitedResponse; try done.
  eapply unsol_data_row; [done..|]. by rewrite Hf.
Qed.

(** The row [k] of the table. *)
Ltac row k Hreq := solve [apply (Hreq k); [match goal with |- exists ci, s_commands ?legacy !! _ = _ /\ _ => by destruct legacy; eexists end|done]].

Lemma debug_option_ok args a0 m ps :
  args !! 0%nat = Some a0 -> polite_args args -> live version [] (m_ril m) ps ->
  mkeeps (debug_option (P := P) legacy fuel env junk_uus (atoi a0) args) m ps.
Proof.
  intros H0 (a & rest & -> & Hno & Htwo) HL. injection H0 as ->.
  assert (Hreq : forall k rq data len m, (exists ci, s_commands legacy !! k = Some ci /\ requestNumber ci = rilh rq) ->
    live version [] (m_ril m) ps -> mkeeps (issueLocal (P := P) legacy fuel env rq data len) m ps).
  { intros k rq data len m0 (ci & Hi & Hk) HL0. unfold issueLocal. rewrite <- Hk. by eapply mkeeps_issueLocal. }
  assert (Harg : atoi a0 ∈ [6; 8] -> exists b, arg_string (a0 :: rest) 1 m = Ok (b, m)).
  { intros Hin. specialize (Htwo Hin). destruct rest as [|b rest]; [done|]. by eexists. }
  clear Htwo. revert Hno Harg. generalize (atoi a0). intros opt Hno Harg. unfold debug_option.
  repeat case_match; subst; try (by apply mkeeps_ret); try done; clear Hno;
    try (destruct Harg as [b Eb]; [by repeat constructor|]; eapply mkeeps_bind; [exact Eb|done|]);
    try (row 58%nat Hreq || row 59%nat Hreq || row 41%nat Hreq || row 40%nat Hreq || row 12%nat Hreq || row 27%nat Hreq || row 10%nat Hreq).
  - apply mkeeps_seq; [row 23%nat Hreq|]. intros m1 L1. eapply mkeeps_bind; [apply mcall_ok|apply traced_quiet|].
    apply (Hreq 46%nat); [by destruct legacy; eexists|by apply traced_live].
  - by apply (mkeeps_unsol 2 (urow RIL_UNSOL_RESPONSE_VOICE_NETWORK_STATE_CHANGED F_responseVoid WAKE_PARTIAL)).
Qed.

Lemma debug_callback_ok fd m ps :
  debug_polite -> live version [] (m_ril m) ps -> mkeeps (debugCallback (P := P) legacy fuel env menv junk_uus fd) m ps.
Proof.
  intros Hp HL. set (a := m_accept menv (r_trace (m_ril m))). destruct (Z.lt_ge_cases a 0) as [Ha|Ha].
  { eexists. rewrite (debugCallback_refused fd m Ha). split_and!; [done|by apply traced_live|apply traced_quiet]. }
  specialize (Hp m fd Ha). destruct Hp as (r & m1 & E & Hr). fold a in E.
  destruct (debug_read_traced _ _ _ _ E) as [evs ->].
  unfold mkeeps. rewrite (debugCallback_accepted fd m Ha). fold a. set (m0 := traced [EMain (MAccept fd a)] m) in *.
  assert (L0 : live version [] (m_ril m0) ps) by (by apply traced_live).
  destruct (mkeeps_bind (debug_read a) (debug_serve a) m0 ps _ _ E (traced_quiet evs m0)) as (m2 & E2 & L2 & Q2).
  - destruct r as [args|]; [|by apply mkeeps_ret, traced_live]. unfold debug_serve.
    destruct (args !! 0%nat) as [a0|] eqn:H0; [|by destruct Hr as (? & ? & -> & _)].
    apply mkeeps_seq; [apply debug_option_ok; [done|done|by apply traced_live]|]. intros m2 L2. by apply mkeeps_emit.
  - exists m2. split_and!; [done|done|]. trans (m_ril m0); [apply traced_quiet|done].
Qed.

End Debug.
