(* ===== verification/RilTurn.v ===== *)
(** * One turn of the daemon

    What a turn of the event loop does with the connection: the events that
    are due and the ready descriptors go to the pending list, and each is
    served by the function it carries.  [turn_ok]: whatever [select], the
    clients and the vendor do within [outside], the turn ends and the
    invariant of the daemon holds again. *)

From S2P Require Import Prelude Bytes Parcel RilConst RilTypes RilDispatch RilResponse RilWire RilResponseSpec.
From S2P Require Import EventHeap EventLoop EventSpec EventLoopSpec RilCore RilRequests RilTimers RilUnsol RilCommand.
From S2P Require Import RilSocket RilDaemon RilLoop CStr RilMain RilDebug.

(** ** The table after the ready events were taken *)

Lemma NoDup_watched {CB} (v : estate CB) ts ps : ev_inv v ts ps -> NoDup (omap id (watch_table v)).
Proof.
  intros HI. assert (Hu : forall i j a, slot (watch_table v) i a -> slot (watch_table v) j a -> i = j).
  { intros i j a Hi Hj. destruct (decide (i = j)) as [|Hne]; [done|].
    by destruct (slot_distinct _ _ _ i j a a (ei_watch _ _ _ HI) Hne Hi Hj). }
  revert Hu. generalize (watch_table v). clear. unfold slot. intros tbl. induction tbl as [|[a|] tbl IH]; intros Hu.
  - constructor.
  - constructor.
    + intros Ha. apply list_elem_of_omap in Ha as (o & Ho & Eo). simpl in Eo. subst o.
      apply list_elem_of_lookup in Ho as [k Hk]. by specialize (Hu 0%nat (S k) a eq_refl Hk).
    + apply IH. intros i j b Hi Hj. by specialize (Hu (S i) (S j) b Hi Hj) as [= ->].
  - apply IH. intros i j b Hi Hj. by specialize (Hu (S i) (S j) b Hi Hj) as [= ->].
Qed.

Lemma length_omap_id {A} (l : list (option A)) : (length (omap id l) <= length l)%nat.
Proof.
  induction l as [|[a|] l IH]; [done| |by apply le_S].
  change (omap id (Some a :: l)) with (a :: omap id l). cbn [length]. lia.
Qed.

Lemma ready_watched {CB} (h : gmap loc (@ril_event CB)) out tbl a : a ∈ ready h out tbl -> Some a ∈ tbl.
Proof.
  unfold ready. intros [Ha _]%elem_of_filter_bool. apply list_elem_of_omap in Ha as (o & Ho & Eo). simpl in Eo. by subst o.
Qed.

Lemma taken_elem {CB} (h : gmap loc (@ril_event CB)) out n tbl a :
  NoDup (omap id tbl) ->
  Some a ∈ taken h out n tbl <->
  Some a ∈ tbl /\ (is_persistent h a = true \/ a ∉ take (Z.to_nat n) (ready h out tbl)).
Proof.
  revert n. induction tbl as [|[b|] tbl IH]; intros n Hnd.
  - cbn [taken]. set_solver.
  - apply NoDup_cons in Hnd as [Hb Hnd].
    assert (Hrb : Some b ∉ tbl).
    { intros Hin. apply Hb, list_elem_of_omap. by exists (Some b). }
    cbn [taken]. rewrite ready_cons. destruct (is_ready h out b) eqn:Hr; [destruct (Z.gtb_spec n 0) as [Hn|Hn]|rewrite andb_false_r].
    + replace (Z.to_nat n) with (S (Z.to_nat (n - 1))) by lia. cbn [andb take]. rewrite elem_of_cons, IH by done.
      rewrite !elem_of_cons. destruct (is_persistent h b) eqn:Hp; split.
      * intros [[= ->]|[H1 H2]]; [by auto|]. split; [by right|]. destruct H2 as [H2|H2]; [by left|].
        destruct (decide (a = b)) as [->|]; [by left|right; set_solver].
      * intros [[[= ->]|H1] H2]; [by left|]. right. split; [done|]. destruct H2 as [H2|H2]; [by left|right; set_solver].
      * intros [?|[H1 H2]]; [done|]. split; [by right|]. destruct H2 as [H2|H2]; [by left|right].
        intros [->|?]; [|by apply H2].
        by apply Hrb.
      * intros [[[= ->]|H1] H2]; [destruct H2 as [H2|H2]; [congruence|by destruct H2; left]|].
        right. split; [done|]. destruct H2 as [H2|H2]; [by left|right; set_solver].
    + cbn [andb]. replace (Z.to_nat n) with 0%nat by lia. cbn [take]. rewrite (taken_stop h out n tbl) by done. set_solver.
    + rewrite !elem_of_cons, IH by done. split.
      * intros [[= ->]|[H1 H2]]; [|by auto]. split; [by left|right]. intros Hin.
        apply elem_of_take in Hin as (k & Hk & _). apply Hrb, (ready_watched h out), list_elem_of_lookup. by exists k.
      * intros [[[= ->]|H1] H2]; auto.
  - cbn [taken]. change (ready h out (None :: tbl)) with (ready h out tbl). rewrite !elem_of_cons, IH by done. naive_solver.
Qed.

Lemma watched_elem v a : watched v a <-> Some a ∈ watch_table v.
Proof. unfold watched. by rewrite slot_elem. Qed.

Section Turn.
Context {P : Type} {HPar : Parcel P} {HLaws : ParcelLaws P} {HJS : JString} {HH : RilH}.
Variables (legacy ndebug : bool) (stack_avail junk : Z) (fuel : nat) (env : ril_env) (menv : main_env).
Variables (junk_uus : option RIL_UUS_Info) (version wakeup_fd listen_fd debug_fd : Z).

(** The pipe is empty after finitely many reads, fewer than the fuel. *)
Definition wakeup_drains : Prop := forall tr fd, exists j, (j < fuel)%nat /\
  let '(ret, eintr) := m_read menv (tr ++ replicate j (EMain (MRead fd))) in
  ret <= 0 /\ (ret < 0 -> eintr = false).

(** The outside of a running daemon: [world] (RilLoop.v), the three
    descriptors that stay open, [accept], the pipe; and what is sent to the
    debug port is polite (RilDebug.v). *)
Record outside : Prop := {
  od_world : world (P := P) legacy stack_avail junk fuel env version;
  od_fds : fds_ok wakeup_fd listen_fd debug_fd;
  od_accept : accept_ok env wakeup_fd listen_fd debug_fd;
  od_drains : wakeup_drains;
  od_debug : debug_polite menv }.

Hypothesis Ho : outside.

Abbreviation core := (core version []).
Abbreviation live := (live version []).
Abbreviation conn := (conn wakeup_fd listen_fd debug_fd).
Abbreviation call := (callback_call (P := P) legacy ndebug stack_avail junk fuel env menv junk_uus).

(** The invariant of the daemon; [ps] are the events still to be served. *)
Definition good (m : main_state) (ps : list loc) : Prop := live (m_ril m) ps /\ conn (m_ril m) ps.

Definition fdc (m : main_state) : Z := s_fdCommand (m_ril m).

(** ** The wakeup and debug descriptors *)

Lemma good_add_trace m ps evs : good m ps -> good (set_ril (add_trace evs (m_ril m)) m) ps.
Proof.
  intros [HL HN]. destruct (live_reqs _ _ _ _ HL) as [l Hl].
  assert (Hli : light (m_ril m) (add_trace evs (m_ril m))) by apply light_add_trace.
  split; [|eapply conn_quiet; [by apply light_quiet|done]].
  eapply light_live; [done| |done]. by eapply reqs_ext; [| |exact Hl].
Qed.

Lemma drain_ok j n m ps :
  (j < n)%nat ->
  (let '(ret, eintr) := m_read menv (r_trace (m_ril m) ++ replicate j (EMain (MRead (s_fdWakeupRead m)))) in
   ret <= 0 /\ (ret < 0 -> eintr = false)) ->
  good m ps -> exists m', drain_loop menv n m = Ok (tt, m') /\ good m' ps /\ fdc m' = fdc m.
Proof.
  revert n m. induction j as [|j IH]; intros n m Hn Hj HG; (destruct n as [|n]; [lia|]); cbn [drain_loop];
    unfold mcall; rewrite bind_get; set (m1 := set_ril (add_trace [EMain (MRead (s_fdWakeupRead m))] (m_ril m)) m);
    pose proof (good_add_trace m ps [EMain (MRead (s_fdWakeupRead m))] HG) as G1; fold m1 in G1.
  - rewrite app_nil_r in Hj. destruct (m_read menv (r_trace (m_ril m))) as [ret eintr] eqn:Er. exists m1.
    split; [|done]. rewrite (cmd_bind_Ok _ _ _ _ _ (onril_Ok _ m (ret, eintr) (m_ril m1) (eq_trans (bind_ask _ _ _) ltac:(by rewrite Er)))).
    cbv beta iota. destruct Hj as [H1 H2]. replace ((ret >? 0) || (ret <? 0) && eintr) with false; [done|].
    destruct (Z.ltb_spec ret 0) as [Hlt|]; [rewrite H2 by done|]; simpl; rewrite ?orb_false_r; lia.
  - destruct (m_read menv (r_trace (m_ril m))) as [ret eintr] eqn:Er.
    rewrite (cmd_bind_Ok _ _ _ _ _ (onril_Ok _ m (ret, eintr) (m_ril m1) (eq_trans (bind_ask _ _ _) ltac:(by rewrite Er)))).
    cbv beta iota. destruct ((ret >? 0) || (ret <? 0) && eintr); [|by exists m1]. apply (IH n m1); [lia| |done].
    simpl. by rewrite <- app_assoc.
Qed.

Lemma wakeup_callback_ok m ps : good m ps -> exists m', processWakeupCallback fuel menv m = Ok (tt, m') /\ good m' ps /\ fdc m' = fdc m.
Proof.
  intros HG. destruct (od_drains Ho (r_trace (m_ril m)) (s_fdWakeupRead m)) as (j & Hj & Hs).
  by apply (drain_ok j).
Qed.

Lemma debug_good m ps fd :
  good m ps -> exists m', debugCallback (P := P) legacy fuel env menv junk_uus fd m = Ok (tt, m') /\ good m' ps /\ fdc m' = fdc m.
Proof.
  intros [HL HN]. destruct (debug_callback_ok legacy fuel env menv junk_uus stack_avail junk version (od_world Ho) fd m ps (od_debug Ho) HL)
    as (m' & E & L & Q).
  exists m'. split_and!; [done|split; [done|by eapply conn_quiet]|apply Q].
Qed.

(** ** Serving one event *)

(** The event is a timer, or one of the four that are watched; in each
    case the function it carries finds what it asserts. *)
Lemma serve_ok m ts ps a e :
  core (m_ril m) ts ps -> conn (m_ril m) (a :: ps) -> a ∉ timer_list :: pending_list :: ts ++ ps ->
  timer_event (m_ril m) a \/ a ∈ STATICS -> ev_heap (r_ev (m_ril m)) !! a = Some e ->
  exists f m', func e = Some f /\ call f (fd e) (param e) m = Ok (tt, m') /\ good m' ps /\
    (a <> s_listen_event -> a <> s_commands_event -> fdc m' = fdc m) /\
    (forall x, a = s_listen_event -> accepting env x -> fdc m' = x) /\
    (a = s_commands_event -> gone env -> fdc m' < 0).
Proof.
  destruct Ho as [HW HF HA _ _]. intros HC [HB HS] Ha Hcase He.
  assert (HL : live (m_ril m) ps) by (by exists ts).
  assert (Hps : a ∉ ps) by set_solver.
  assert (Hkeep : a <> s_listen_event -> conn (m_ril m) ps).
  { intros Hne. split; [done|]. destruct HS as [(H1 & H2 & H3 & H4)|(H1 & H2 & H3 & H4 & H5 & H6)]; [left|right].
    - split_and!; [done|done|set_solver|]. destruct H4 as [[? ?]|[? ?]]; [left|right]; set_solver.
    - split_and!; try done. set_solver. }
  destruct Hcase as [HT|Hst].
  { assert (Hnst : a ∉ [s_listen_event; s_commands_event]).
    { destruct HT as (_ & _ & HT). intros [->|[->|Hn]%elem_of_cons]%elem_of_cons;
        [by apply HT, statics_listen|by apply HT, statics_commands|by apply elem_of_nil in Hn]. }
    destruct (timer_callback_ok legacy stack_avail junk fuel env version HW _ _ _ HF HA (m_ril m) ts ps a HC)
      as (s' & E & HL' & HN' & HF'); [|done|done|].
    { apply Hkeep. intros ->. destruct HT as (_ & _ & HT). apply HT, statics_listen. }
    destruct HT as (_ & Hd & _). unfold desc in Hd. rewrite He in Hd. simpl in Hd.
    destruct (func e) as [f|]; [|done]. injection Hd as -> -> ->.
    exists CB_userTimerCallback, (set_ril s' m). split_and!; [done|by apply onril_Ok|done|done|intros x ->|intros ->]; destruct Hnst; by repeat constructor. }
  unfold STATICS in Hst. rewrite !elem_of_cons, elem_of_nil in Hst. destruct Hst as [->|[->|[->|[->|[]]]]].
  - destruct HS as [(_ & _ & Hn & _)|HS]; [by destruct Hn; constructor|].
    destruct HS as (H1 & H2 & H3 & (e' & He' & F1 & F2 & F3) & H5 & H6). rewrite He in He'. injection He' as <-.
    destruct (commands_callback_ok legacy ndebug stack_avail junk fuel env version HW _ _ _ HF HA (m_ril m) ps HL HB)
      as (s' & E & HL' & HN' & HG'); [split_and!; try done; [by exists e|set_solver]|done|].
    exists CB_processCommandsCallback, (set_ril s' m). split_and!; [done| |done|done|done|done]. rewrite F1. by apply onril_Ok.
  - destruct (ba_wakeup _ _ _ _ HB) as (e' & He' & F1 & F2 & F3). rewrite He in He'. injection He' as <-.
    destruct (wakeup_callback_ok m ps) as (m' & E & HG & HF'); [split; [done|by apply Hkeep]|].
    by exists CB_processWakeupCallback, m'.
  - destruct (ba_listen _ _ _ _ HB) as (e' & He' & F1 & F2 & F3). rewrite He in He'. injection He' as <-.
    destruct HS as [(H1 & H2 & H3 & [[_ H4]|[H4 _]])|(_ & _ & _ & _ & _ & H6)]; [by destruct H4; constructor| |by destruct H6; constructor].
    destruct (listen_callback_ok legacy ndebug stack_avail junk fuel env version HW _ _ _ HF HA (m_ril m) ps HL HB)
      as (s' & E & HL' & HN' & HA'); [split_and!; try done; set_solver|].
    exists CB_listenCallback, (set_ril s' m). split_and!; [done| |done|done|intros x _; apply HA'|done]. rewrite F1. by apply onril_Ok.
  - destruct (ba_debug _ _ _ _ HB) as (e' & He' & F1 & F2 & F3). rewrite He in He'. injection He' as <-.
    destruct (debug_good m ps (fd e)) as (m' & E & HG & HF'); [split; [done|by apply Hkeep]|].
    by exists CB_debugCallback, m'.
Qed.

(** ** Serving the pending list *)

(** Changes to the links of the lists. *)
Lemma core_relink (s : ril_state) ts ps ts' ps' h' :
  core s ts ps -> same_cfg (ev_heap (r_ev s)) h' -> ev_inv (set_heap h' (r_ev s)) ts' ps' ->
  (forall a, a ∈ ts' -> timer_event s a) -> (forall a, a ∈ ps' -> timer_event s a \/ a ∈ STATICS) ->
  core (set_ev (set_heap h' (r_ev s)) s) ts' ps'.
Proof.
  clear Ho. intros [H1 H2 [l Hl] H4 H5 H6 H7 H8 H9] Hd HI Ht Hp.
  assert (Hev : forall a, timer_event s a -> timer_event (set_ev (set_heap h' (r_ev s)) s) a).
  { intros a (T1 & T2 & T3). split_and!; [done| |done]. rewrite <- T2. simpl. by apply desc_cfg_eq. }
  split; try done.
  - intros a Ha. simpl. specialize (H2 a Ha). apply elem_of_dom in H2 as [e He]. apply elem_of_dom.
    pose proof (same_cfg_view cfg _ _ a (fun _ => eq_refl) Hd) as Hv. rewrite He in Hv. by destruct (h' !! a).
  - exists l. by eapply reqs_ext; [| |exact Hl].
  - auto.
  - intros a Ha. destruct (Hp a Ha); auto.
  - intros a Ha. by apply elem_of_nil in Ha.
Qed.

(** The descriptor of the client after the events [ps] were served. *)
Definition served (m : main_state) (ps : list loc) (m' : main_state) : Prop :=
  ((s_listen_event ∉ ps) -> (s_commands_event ∉ ps) -> fdc m' = fdc m) /\
  (forall x, s_listen_event ∈ ps -> accepting env x -> fdc m' = x) /\
  (s_commands_event ∈ ps -> gone env -> fdc m' < 0).

(** The listening event and the client's are never both to be served. *)
Lemma not_both m ps : good m ps -> s_listen_event ∈ ps -> s_commands_event ∈ ps -> False.
Proof. clear. intros [_ [_ [(_ & _ & H & _)|(_ & _ & _ & _ & _ & H)]]]; done. Qed.

Lemma served_cons m a ps m2 m' :
  good m (a :: ps) -> a ∉ ps ->
  (a <> s_listen_event -> a <> s_commands_event -> fdc m2 = fdc m) ->
  (forall x, a = s_listen_event -> accepting env x -> fdc m2 = x) ->
  (a = s_commands_event -> gone env -> fdc m2 < 0) ->
  served m2 ps m' -> served m (a :: ps) m'.
Proof.
  clear Ho. intros HG Ha H1 H2 H3 (S1 & S2 & S3). pose proof (not_both _ _ HG) as Hnb. split_and!.
  - intros Hl Hc. rewrite not_elem_of_cons in Hl, Hc. destruct Hl as [Hl1 Hl2], Hc as [Hc1 Hc2].
    rewrite S1 by done. by apply H1.
  - intros x [Heq|Hin]%elem_of_cons Hx; [|by apply S2]. rewrite S1; [by apply H2|by rewrite Heq|].
    intros Hc. apply Hnb; [rewrite Heq; by constructor|by constructor].
  - intros [Heq|Hin]%elem_of_cons Hg; [|by apply S3]. rewrite S1; [by apply H3| |by rewrite Heq].
    intros Hc. apply Hnb; [by constructor|rewrite Heq; by constructor].
Qed.

Lemma onev_load (m : main_state) a e :
  ev_heap (r_ev (m_ril m)) !! a = Some e -> onev (onheap (load (Some a))) m = Ok (e, m).
Proof. clear. intros He. unfold onev, onheap, load. simpl. rewrite He. by destruct m as [[[]]]. Qed.

Lemma onev_main {A} (c : cmd (estate callback) A) (m : main_state) a v :
  c (r_ev (m_ril m)) = Ok (a, v) -> onev c m = Ok (a, set_ril (set_ev v (m_ril m)) m).
Proof. clear. intros E. unfold onev. simpl. by rewrite E. Qed.

Lemma firePending_good n m ps :
  (length ps < n)%nat -> good m ps ->
  exists m', firePending_loop call n (Some (firstn_or ps pending_list)) m = Ok (tt, m') /\ good m' [] /\ served m ps m'.
Proof.
  revert m ps. induction n as [|n IH]; intros m ps Hlen HG; [lia|]. pose proof HG as [[ts HC] HN]. cbn [firePending_loop].
  destruct ps as [|a ps]; cbn [firstn_or List.hd].
  { rewrite decide_True by done. exists m. split_and!; [done|done|]. split_and!; [done| |].
    - intros x Hx. by apply elem_of_nil in Hx.
    - intros Hx. by apply elem_of_nil in Hx. }
  pose proof (co_ev _ _ _ _ _ HC) as HI. pose proof (ei_lists _ _ _ HI) as (_ & HP & HD). pose proof HP as [HND HLk].
  apply NoDup_cons in HND as [Hn1 HND]. apply NoDup_cons in HND as [Hn2 _].
  rewrite decide_False; [|intros [= ->]; apply Hn1; by constructor].
  destruct (load_some _ a (dll_some _ _ _ a HP ltac:(set_solver))) as (e & E1 & Ne & _ & He).
  rewrite (cmd_bind_Ok _ _ _ _ _ (onev_load m a e He)).
  destruct (pend_remove (r_ev (m_ril m)) ts ps a HI) as (h' & E2 & D2 & I2).
  rewrite (cmd_bind_Ok _ _ _ _ _ (onev_main _ m _ _ (onheap_Ok _ _ _ _ E2))).
  set (m1 := set_ril (set_ev (set_heap h' (r_ev (m_ril m))) (m_ril m)) m).
  assert (Hcfg : same_cfg (ev_heap (r_ev (m_ril m))) h') by (by apply same_data_cfg).
  assert (C1 : core (m_ril m1) ts ps).
  { apply (core_relink _ ts (a :: ps)); try done; [apply HC|]. intros b Hb. apply (co_pending _ _ _ _ _ HC). by right. }
  assert (N1 : conn (m_ril m1) (a :: ps)).
  { eapply (conn_same _ _ _ (m_ril m)); try done. intros b _. simpl. by apply (same_cfg_view cfg). }
  destruct (same_data_lookup _ _ _ _ D2 He) as (e' & He' & _).
  rewrite (cmd_bind_Ok _ _ _ _ _ (onev_load m1 a e' He')).
  destruct (serve_ok m1 ts ps a e' C1 N1) as (f & m2 & Hf & E4 & G2 & F1 & F2 & F3); [| |done|].
  { assert (a ∉ timer_list :: ts) by (intros Hin; apply (HD a Hin); set_solver). set_solver. }
  { destruct (co_pending _ _ _ _ _ HC a) as [(T1 & T2 & T3)|Hs]; [by constructor|left|by right].
    split_and!; [done| |done]. rewrite <- T2. simpl. by apply desc_cfg_eq. }
  rewrite Hf. run_cmd E4.
  assert (Hnx : next e = Some (firstn_or ps pending_list)).
  { rewrite Ne. simpl in HLk. destruct HLk as (_ & _ & HLk). by apply links_first in HLk. }
  rewrite Hnx. destruct (IH m2 ps) as (m3 & E5 & G3 & S3); [simpl in Hlen; lia|done|].
  exists m3. split_and!; [done|done|]. by apply (served_cons m a ps m2).
Qed.

(** ** The turn *)

(** More fuel than there are events that can be served. *)
Definition enough (n : nat) (m : main_state) : Prop := (size (r_timers (m_ril m)) + MAX_FD_EVENTS < n)%nat.

Lemma timers_bounded (s : ril_state) ts ps : core s ts ps -> (length ts <= size (r_timers s))%nat.
Proof.
  clear. intros HC. apply NoDup_length_size.
  - pose proof (ei_lists _ _ _ (co_ev _ _ _ _ _ HC)) as ([HN _] & _). by apply NoDup_cons in HN as [_ HN].
  - intros a Ha. by destruct (co_timers _ _ _ _ _ HC a Ha).
Qed.

(** Expired timers are queued. *)
Lemma timeouts_good m now :
  tv_ok now -> good m [] ->
  exists ps v, processTimeouts now (r_ev (m_ril m)) = Ok (tt, v) /\ good (set_ril (set_ev v (m_ril m)) m) ps /\
    (length ps <= size (r_timers (m_ril m)))%nat /\ (forall a, a ∈ ps -> a ∉ STATICS) /\
    watch_table v = watch_table (r_ev (m_ril m)) /\ readFds v = readFds (r_ev (m_ril m)).
Proof.
  clear Ho. intros Hn [[ts HC] HN]. destruct (processTimeouts_ok _ _ _ now (co_ev _ _ _ _ _ HC) Hn) as (v & E & D & T & R & N & I).
  simpl in I. set (ps := List.filter (expired (ev_heap (r_ev (m_ril m))) now) ts) in *.
  pose proof (same_data_cfg _ _ D) as Hcfg.
  assert (Hps : forall a, a ∈ ps -> timer_event (m_ril m) a).
  { intros a [Ha _]%elem_of_filter_bool. by apply (co_timers _ _ _ _ _ HC). }
  assert (Hst : forall a, a ∈ ps -> a ∉ STATICS) by (intros a Ha; by apply Hps).
  assert (Hv : v = set_watch_table (watch_table v) (set_readFds (readFds v) (set_nfds (nfds v) (set_heap (ev_heap v) (r_ev (m_ril m)))))) by (by destruct v).
  rewrite T, R, N in Hv. replace (set_watch_table _ _) with (set_heap (ev_heap v) (r_ev (m_ril m))) in Hv by (by destruct (r_ev (m_ril m))).
  exists ps, v. split_and!; [done| | |done|done|done].
  - split; [eexists; rewrite Hv; eapply core_relink; [exact HC|exact Hcfg|by rewrite <- Hv; exact I| |]|].
    + intros a [Ha _]%elem_of_filter_bool. by apply (co_timers _ _ _ _ _ HC).
    + intros a Ha. left. by apply Hps.
    + destruct HN as [HB HS]. assert (Hnl : s_listen_event ∉ ps) by (intros Hin; by apply (Hst _ Hin), statics_listen).
      assert (Hnc : s_commands_event ∉ ps) by (intros Hin; by apply (Hst _ Hin), statics_commands).
      eapply (conn_same _ _ _ (m_ril m)); try done; [intros b _; simpl; by apply (same_cfg_view cfg)|].
      split; [done|]. destruct HS as [(H1 & H2 & _ & H4)|(H1 & H2 & H3 & H4 & H5 & _)]; [left|right].
      * split_and!; [done|done|done|]. destruct H4 as [[? _]|[_ H4]]; [by left|by apply elem_of_nil in H4].
      * by split_and!.
  - etrans; [|by apply (timers_bounded _ ts [] HC)]. apply filter_length_le.
Qed.

(** Ready descriptors are queued; the listening one is no longer watched. *)
Lemma readies_good m ps out n :
  good m ps -> (forall a, a ∈ ps -> a ∉ STATICS) ->
  let qs := take (Z.to_nat n) (ready (ev_heap (r_ev (m_ril m))) out (watch_table (r_ev (m_ril m)))) in
  exists v, processReadReadies out n (r_ev (m_ril m)) = Ok (tt, v) /\ good (set_ril (set_ev v (m_ril m)) m) (ps ++ qs) /\
    (length qs <= MAX_FD_EVENTS)%nat.
Proof.
  clear Ho. intros [[ts HC] HN] Hps qs. pose proof (co_ev _ _ _ _ _ HC) as HI. destruct HN as [HB HS].
  destruct (processReadReadies_ok _ _ _ out n HI) as (v & E & T & C & I).
  { intros i a Hi Ha. apply (Hps a Ha). by eapply (ba_slots _ _ _ _ HB). }
  set (v0 := r_ev (m_ril m)) in *. fold qs in I.
  pose proof (NoDup_watched v0 ts ps HI) as Hnd.
  assert (Hwt : forall a, watched v a <-> watched v0 a /\ (is_persistent (ev_heap v0) a = true \/ a ∉ qs)).
  { intros a. rewrite !watched_elem, T. by apply taken_elem. }
  assert (Hqs : forall a, a ∈ qs -> watched v0 a).
  { intros a Ha. apply watched_elem. apply elem_of_take in Ha as (k & Hk & _). eapply ready_watched, list_elem_of_lookup. by exists k. }
  assert (Hcf : forall b, cfg <$> ev_heap v !! b = cfg <$> ev_heap v0 !! b) by (intros b; by apply (same_cfg_view cfg)).
  exists v. split_and!; [done| |].
  - split; [exists ts|].
    + destruct HC as [H1 H2 [l Hl] H4 H5 H6 H7 H8 H9].
      assert (Hev : forall a, timer_event (m_ril m) a -> timer_event (set_ev v (m_ril m)) a).
      { intros a (T1 & T2 & T3). split_and!; [done| |done]. rewrite <- T2. by apply desc_cfg_eq. }
      split; try done.
      * intros a Ha. specialize (H2 a Ha). apply elem_of_dom in H2 as [e He]. apply elem_of_dom.
        specialize (Hcf a). fold v0 in He. rewrite He in Hcf. simpl. by destruct (ev_heap v !! a).
      * exists l. by eapply reqs_ext; [| |exact Hl].
      * auto.
      * intros a [Ha|Ha]%elem_of_app; [destruct (H8 a Ha); auto|right].
        destruct (Hqs a Ha) as [i Hi]. by eapply (ba_slots _ _ _ _ HB).
    + destruct (ba_listen _ _ _ _ HB) as (le & Hle & _ & Hp & _).
      assert (Hlp : is_persistent (ev_heap v0) s_listen_event = false) by (unfold is_persistent; unfold v0; by rewrite Hle, Hp).
      assert (Hlw : watched v s_listen_event <-> watched v0 s_listen_event /\ s_listen_event ∉ qs) by (rewrite Hwt, Hlp; naive_solver).
      assert (Hpers : forall a x cb, ev_is v0 a x true cb -> watched v0 a -> watched v a).
      { intros a x cb (e & He & _ & He2 & _) Hw. apply Hwt. split; [done|left]. unfold is_persistent. by rewrite He. }
      split.
      * apply (base_moved _ _ _ (m_ril m)); try done; simpl.
        { intros a [Ha _]%Hwt. by eapply base_watched. }
        { intros a Hc Hl Ha. assert (Hst : a ∈ STATICS) by (by eapply base_watched).
          unfold STATICS in Hst. rewrite !elem_of_cons, elem_of_nil in Hst. destruct Hst as [->|[->|[->|[->|[]]]]]; try done.
          - eapply Hpers; [apply (ba_wakeup _ _ _ _ HB)|done].
          - eapply Hpers; [apply (ba_debug _ _ _ _ HB)|done]. }
      * destruct HS as [(S1 & S2 & S3 & S4)|(S1 & S2 & S3 & S4 & S5 & S6)]; [left|right].
        { split_and!; [done|by rewrite Hwt; intros [? _]| |].
          - rewrite elem_of_app. intros [?|Hin%Hqs]; done.
          - unfold v0 in Hlw, Hqs. destruct S4 as [[S4 S5]|[S4 S5]].
            + destruct (decide (s_listen_event ∈ qs)); [right|left]; simpl; rewrite Hlw, elem_of_app; naive_solver.
            + right. simpl. rewrite Hlw, elem_of_app. naive_solver. }
        { split_and!; [done|done|by eapply Hpers| |by rewrite Hlw; intros [? _]|].
          - eapply ev_is_cfg; [apply Hcf|done].
          - rewrite elem_of_app. intros [?|Hin%Hqs]; done. }
  - unfold qs. rewrite length_take. etrans; [apply Nat.le_min_r|]. unfold ready. etrans; [apply filter_length_le|].
    rewrite <- (wo_len _ _ _ (ei_watch _ _ _ HI)). apply length_omap_id.
Qed.

Lemma pending_good n m ps :
  (length ps < n)%nat -> good m ps -> exists m', firePending call n m = Ok (tt, m') /\ good m' [] /\ served m ps m'.
Proof.
  intros Hlen HG. pose proof HG as [[ts HC] _]. pose proof (co_ev _ _ _ _ _ HC) as HI.
  pose proof (ei_lists _ _ _ HI) as (_ & HP & _).
  destruct (load_some _ pending_list (dll_some _ _ _ pending_list HP ltac:(by constructor))) as (e & E & Ne & _ & He).
  unfold firePending. rewrite (cmd_bind_Ok _ _ _ _ _ (onev_load m pending_list e He)), Ne.
  destruct HP as [_ HLk]. rewrite (links_first _ _ _ _ HLk). by apply firePending_good.
Qed.

(** No two events that are ready have the same descriptor. *)
Lemma ready_length (v : estate callback) ts ps out :
  ev_inv v ts ps -> (length (ready (ev_heap v) out (watch_table v)) <= size out)%nat.
Proof.
  clear Ho. intros HI. pose proof (NoDup_watched v ts ps HI) as Hnd. pose proof (ei_watch _ _ _ HI) as HW.
  set (l := ready (ev_heap v) out (watch_table v)). set (g := fun a => default (-1) (fd <$> ev_heap v !! a)).
  assert (Hl : forall a, a ∈ l -> exists i e, slot (watch_table v) i a /\ ev_heap v !! a = Some e /\ fd e ∈ out /\ g a = fd e).
  { intros a Ha. pose proof (ready_watched _ _ _ _ Ha) as [i Hi]%slot_elem.
    apply elem_of_filter_bool in Ha as [_ Hr]. unfold is_ready in Hr.
    destruct (wo_ev _ _ _ HW i a Hi) as (e & He & _). rewrite He in Hr. apply bool_decide_eq_true in Hr.
    exists i, e. split_and!; [done|done|done|]. unfold g. by rewrite He. }
  assert (Hnl : NoDup l) by (unfold l, ready; by apply NoDup_ListNoDup, List.NoDup_filter, NoDup_ListNoDup).
  assert (Hng : NoDup (g <$> l)).
  { apply NoDup_fmap_2_strong; [|done]. intros a b Ha Hb Hg.
    destruct (Hl a Ha) as (i & e & Hi & He & _ & Ga), (Hl b Hb) as (j & e' & Hj & He' & _ & Gb).
    assert (i = j) as -> by (apply (wo_inj _ _ _ HW i j (fd e)); [by exists a, e|exists b, e'; split_and!; [done|done|congruence]]).
    unfold slot in *. congruence. }
  rewrite <- (length_fmap g l), <- (size_list_to_set (g <$> l) (C := gset Z)) by done.
  apply subseteq_size. intros x [a [-> Ha]]%elem_of_list_to_set%list_elem_of_fmap.
  by destruct (Hl a Ha) as (i & e & _ & _ & Ho' & ->).
Qed.

Lemma ready_taken (v : estate callback) ts ps out a x pers cb :
  ev_inv v ts ps -> watched v a -> ev_is v a x pers cb -> x ∈ out ->
  a ∈ take (size out) (ready (ev_heap v) out (watch_table v)).
Proof.
  clear Ho. intros HI Hw (e & He & Hx & _) Hin. rewrite take_ge by (by eapply ready_length).
  unfold ready. apply list_elem_of_In, filter_In. split.
  - apply list_elem_of_In, list_elem_of_omap. exists (Some a). split; [by apply watched_elem|done].
  - unfold is_ready. rewrite He, Hx. by apply bool_decide_eq_true.
Qed.

(** The call of [select] in this turn reports [x], and counts what it
    reports. *)
Definition reports (lenv : loop_env) (m : main_state) (x : Z) : Prop := exists out,
  (forall ptv, select lenv (nfds (r_ev (m_ril m))) (readFds (r_ev (m_ril m))) ptv = SelOk (Z.of_nat (size out)) out) /\ x ∈ out.

Lemma turn_ok lenv n m :
  tv_ok (now_calc lenv) -> tv_ok (now_proc lenv) -> enough n m -> good m [] ->
  exists b m', ril_event_loop_body call n lenv m = Ok (b, m') /\ good m' [] /\
    (forall x, fdc m < 0 -> reports lenv m listen_fd -> accepting env x -> b = true /\ fdc m' = x) /\
    (0 <= fdc m -> reports lenv m (fdc m) -> gone env -> b = true /\ fdc m' < 0).
Proof.
  intros Hn1 Hn2 Hlen HG. pose proof HG as [[ts HC] _]. pose proof (co_ev _ _ _ _ _ HC) as HI.
  unfold ril_event_loop_body. rewrite bind_get.
  assert (Hcalc : exists r, onev (calcNextTimeout (now_calc lenv) (mkTv 0 0)) m = Ok (r, m)).
  { assert (Hid : set_ril (set_ev (r_ev (m_ril m)) (m_ril m)) m = m) by (by destruct m as [[]]).
    pose proof (calcNextTimeout_ok _ _ _ _ (mkTv 0 0) HI Hn1) as Hc.
    destruct ts as [|t ts]; [eexists; by rewrite (onev_main _ m _ _ Hc), Hid|].
    destruct Hc as (tv & Hc & _). eexists. by rewrite (onev_main _ m _ _ Hc), Hid. }
  destruct Hcalc as [r Hcalc]. run_cmd Hcalc.
  change (es_get m) with (r_ev (m_ril m)). set (ptv := if fst r =? -1 then None else Some (snd r)).
  assert (Hno : forall x, reports lenv m x -> exists out, x ∈ out /\
    select lenv (nfds (r_ev (m_ril m))) (readFds (r_ev (m_ril m))) ptv = SelOk (Z.of_nat (size out)) out).
  { intros x (out & H1 & H2). by exists out. }
  destruct (select lenv _ _ ptv) as [k out|eintr] eqn:Hsel.
  2: { exists eintr, m. split_and!; [by destruct eintr|done| |]; intros; by edestruct Hno as (? & _ & ?). }
  destruct (k <? 0) eqn:Hk.
  { exists false, m. split_and!; [done|done| |].
    - intros x _ H3 _. destruct (Hno _ H3) as (out' & _ & [= -> ->]).
      apply Z.ltb_lt in Hk. by destruct (Zle_not_lt _ _ (Nat2Z.is_nonneg (size out'))).
    - intros _ H3 _. destruct (Hno _ H3) as (out' & _ & [= -> ->]).
      apply Z.ltb_lt in Hk. by destruct (Zle_not_lt _ _ (Nat2Z.is_nonneg (size out'))). }
  destruct (timeouts_good m (now_proc lenv) Hn2 HG) as (ps & v & E1 & G1 & L1 & S1 & T1 & R1).
  rewrite (cmd_bind_Ok _ _ _ _ _ (onev_main _ m _ _ E1)). set (m1 := set_ril (set_ev v (m_ril m)) m) in *.
  destruct (readies_good m1 ps out k G1 S1) as (v2 & E2 & G2 & L2).
  rewrite (cmd_bind_Ok _ _ _ _ _ (onev_main _ m1 _ _ E2)). set (m2 := set_ril (set_ev v2 (m_ril m1)) m1) in *.
  set (qs := take (Z.to_nat k) _) in *.
  destruct (pending_good n m2 (ps ++ qs)) as (m3 & E3 & G3 & S3); [|done|].
  { unfold enough in Hlen. rewrite length_app. lia. }
  run_cmd E3. exists true, m3. destruct S3 as (_ & S4 & S5). destruct G1 as [[ts1 C1] [B1 HS1]].
  assert (Hin : forall a x pers cb, reports lenv m x -> watched v a -> ev_is v a x pers cb -> a ∈ ps ++ qs).
  { intros a x pers cb Hr Hw Hi. destruct (Hno _ Hr) as (out' & Hx & [= -> ->]). apply elem_of_app. right.
    unfold qs. rewrite Nat2Z.id. by eapply (ready_taken v ts1 ps); [apply (co_ev _ _ _ _ _ C1)|..]. }
  split_and!; [done|done| |].
  - intros x Hneg Hr Ha. split; [done|]. apply S4; [|done]. destruct HG as [_ [HB [(_ & _ & _ & [[Hw _]|[_ Hn]])|(Hpos & _)]]].
    + eapply Hin; [exact Hr| |apply (ba_listen _ _ _ _ B1)]. by apply (watched_table (r_ev (m_ril m))).
    + by apply elem_of_nil in Hn.
    + unfold fdc in Hneg. lia.
  - intros Hpos Hr Hg. split; [done|]. apply S5; [|done]. destruct HS1 as [(Hneg & _)|(_ & _ & Hw & Hi & _)].
    + simpl in Hneg. unfold fdc in Hpos. lia.
    + by eapply Hin.
Qed.

(** ** Calls from the vendor's own threads *)

Lemma vendor_good calls m ps :
  calls_ok (P := P) version (m_ril m) calls -> good m ps ->
  exists m', onril (vendor_calls (P := P) fuel env calls) m = Ok (tt, m') /\ good m' ps.
Proof.
  destruct Ho as [[Ha Hno Hli Hsz Htb Hv Hve _ _] _ _ _ _]. intros Hc [HL HN].
  destruct (keeps_vendor_calls legacy fuel env version [] Ha Hno Hli Hsz Htb calls (m_ril m) ps Hc HL)
    as ([] & s' & E & L' & Q' & _).
  exists (set_ril s' m). split; [by apply onril_Ok|]. split; [done|]. by eapply conn_quiet.
Qed.

End Turn.
