(* ===== verification/RilStart.v ===== *)
(** * The start of the daemon

    From the zero-initialised process to the running daemon: the event
    thread initialises the loop and watches the pipe, the main thread
    registers the vendor's functions and watches the two sockets.  The two
    threads meet only at [s_started]; [start_good] is about every order of
    what follows. *)

From Stdlib Require Import Ascii String.
From S2P Require Import Prelude Bytes Parcel RilConst RilTypes RilDispatch RilResponse RilWire RilResponseSpec.
From S2P Require Import EventHeap EventLoop EventSpec EventLoopSpec RilCore RilRequests RilTimers RilUnsol RilCommand.
From S2P Require Import RilSocket RilDaemon RilLoop CStr RilMain RilDebug RilTurn.

Open Scope Z_scope.

(** The events that are watched, with what they are set to. *)
Abbreviation watches := (list (loc * (Z * bool * callback))).

Definition watch_fds (ws : watches) : list Z := (fun w => w.2.1.1) <$> ws.

(** Nothing has happened yet but that the events [ws] were set and
    watched. *)
Record up (s : ril_state) (ws : watches) : Prop := {
  up_ev : ev_inv (r_ev s) [] [];
  up_statics : forall a, a ∈ STATICS -> a ∈ dom (ev_heap (r_ev s));
  up_entries : forall a, a ∈ ws.*1 -> a ∈ STATICS;
  up_watched : forall a, watched (r_ev s) a <-> a ∈ ws.*1;
  up_is : forall a x pers cb, (a, (x, pers, cb)) ∈ ws -> ev_is (r_ev s) a x pers cb;
  up_fds : forall x, x ∈ readFds (r_ev s) -> x ∈ watch_fds ws;
  up_heap : r_heap s = ∅;
  up_pending : s_pendingRequests s = None;
  up_timers : r_timers s = ∅;
  up_last : s_last_wake_timeout_info s = None;
  up_command : s_fdCommand s < 0 }.

Section Start.
Context {P : Type} {HPar : Parcel P} {HLaws : ParcelLaws P} {HJS : JString} {HH : RilH}.
Variables (legacy ndebug : bool) (stack_avail junk : Z) (fuel : nat) (env : ril_env) (menv : main_env).

Lemma up_trace s ws evs : up s ws -> up (add_trace evs s) ws.
Proof. by intros []. Qed.

(** ** One more event is watched *)

Lemma watch_static m ws a x pers cb :
  up (m_ril m) ws -> a ∈ STATICS -> a ∉ ws.*1 -> fd_valid x = true -> x ∉ watch_fds ws ->
  exists v tev, (onev (ril_event_set (Some a) x pers (Some cb) None);; onril (rilEventAddWakeup env a)) m =
      Ok (tt, set_ril (add_trace tev (set_ev v (m_ril m))) m) /\
    up (add_trace tev (set_ev v (m_ril m))) ((a, (x, pers, cb)) :: ws).
Proof.
  intros [H1 H2 He H3 H4 H5 H6 H7 H8 H9 H10] Ha Haw Hx Hxw.
  destruct (proj1 (elem_of_dom _ _) (H2 a Ha)) as [e0 He0].
  set (e := mkEv None None x (-1) pers (mkTv 0 0) (Some cb) None).
  set (v1 := set_heap (<[a := e]> (ev_heap (r_ev (m_ril m)))) (r_ev (m_ril m))).
  pose proof (statics_sentinels a Ha) as Hna.
  assert (Hnw : ~ watched (r_ev (m_ril m)) a) by (by rewrite H3).
  assert (HI1 : ev_inv v1 [] []).
  { apply (ev_inv_agree (r_ev (m_ril m))); [done|]. intros b Hb. rewrite lookup_insert_ne; [done|]. intros <-.
    destruct Hb as [Hb|[i Hi]]; [by apply Hna|by apply Hnw; exists i]. }
  set (m1 := set_ril (set_ev v1 (m_ril m)) m).
  assert (E1 : onev (ril_event_set (Some a) x pers (Some cb) None) m = Ok (tt, m1)).
  { by rewrite (onev_main _ m _ _ (ril_event_set_ok (r_ev (m_ril m)) a e0 x pers (Some cb) None He0)). }
  destruct (free_slot v1 [] [] HI1) as [i Hi].
  { intros i b Hb. apply He, H3. by exists i. }
  assert (Hidle : idle_event v1 [] a e).
  { split_and!; [apply lookup_insert_eq| |done|by intros Hin%H5|done]. intros j Hj. apply Hnw. by exists j. }
  destruct (addWakeup_ok env (m_ril m1) [] [] i a e HI1 Hidle Hi) as (v & tev & j & E2 & _ & Hh & Ht & Hj & Hr & HI2).
  exists v, tev. split.
  { run_cmd E1. rewrite (onril_Ok _ m1 _ _ E2). by destruct m as [[]]. }
  assert (Hh' : ev_heap v = <[a := set_index (Z.of_nat j) e]> (ev_heap (r_ev (m_ril m)))).
  { rewrite Hh. simpl. by rewrite insert_insert_eq. }
  assert (Hwt : forall b, watched v b <-> b = a \/ watched (r_ev (m_ril m)) b).
  { intros b. by apply (watched_put v1 v j). }
  split; try done; simpl.
  - intros b Hb. rewrite Hh', dom_insert. set_solver.
  - intros b [->|Hb]%elem_of_cons; auto.
  - intros b. rewrite Hwt, elem_of_cons, H3. done.
  - intros b y p c [[= -> -> -> ->]|Hb]%elem_of_cons.
    + exists (set_index (Z.of_nat j) e). by rewrite Hh', lookup_insert_eq.
    + destruct (H4 b y p c Hb) as (eb & Heb & Hs). exists eb. rewrite Hh', lookup_insert_ne; [done|].
      intros <-. apply Haw, list_elem_of_fmap. by exists (a, (y, p, c)).
  - intros y. rewrite Hr. intros [->%elem_of_singleton|Hy]%elem_of_union; [by left|right; by apply H5].
Qed.

(** ** The steps of the two threads *)

Variables (version wakeup_fd listen_fd debug_fd : Z) (name debug_name : string).

(** What the system answers: a thread, a pipe, and the two sockets that
    init created for the names. *)
Record starter : Prop := {
  sr_thread : forall tr, m_thread menv tr = true;
  sr_pipe : forall tr, exists w, m_pipe menv tr = Some (wakeup_fd, w);
  sr_socket : forall tr, m_socket menv tr name = listen_fd;
  sr_debug : forall tr, m_socket menv tr debug_name = debug_fd;
  sr_listen : forall tr fd, 0 <= m_listen menv tr fd;
  sr_name : debug_socket_name name = Some debug_name }.

Hypothesis Hs : starter.
Hypothesis Hfds : fds_ok wakeup_fd listen_fd debug_fd.
Hypothesis Htables : tables_ok legacy.

(** What the watching of events does not touch. *)
Record stable (m m' : main_state) : Prop := {
  sb_reg : s_registerCalled (m_ril m') = s_registerCalled (m_ril m);
  sb_version : r_version (m_ril m') = r_version (m_ril m);
  sb_started : s_started m' = s_started m;
  sb_rild : rild m' = rild m }.

Definition W : loc * (Z * bool * callback) := (s_wakeupfd_event, (wakeup_fd, true, CB_processWakeupCallback)).
Definition L : loc * (Z * bool * callback) := (s_listen_event, (listen_fd, false, CB_listenCallback)).
Definition D : loc * (Z * bool * callback) := (s_debug_event, (debug_fd, true, CB_debugCallback)).

Lemma own_valid x : x ∈ own_fds wakeup_fd listen_fd debug_fd -> fd_valid x = true /\ (x <? 0) = false.
Proof. intros Hx. pose proof (fo_valid _ _ _ Hfds x Hx) as Hv. split; [done|]. unfold fd_valid in Hv. lia. Qed.

Lemma name_read m : array_string (rild m) = Some name -> RIL_getRilSocketName m = Ok (name, m).
Proof. intros Hn. unfold RIL_getRilSocketName. rewrite bind_get, Hn. done. Qed.

Lemma wakeup_step m ws :
  up (m_ril m) ws -> W.1 ∉ ws.*1 -> wakeup_fd ∉ watch_fds ws ->
  exists m', (eventLoop_wakeup env menv;; mret tt) m = Ok (tt, m') /\ up (m_ril m') (W :: ws) /\ stable m m' /\
    s_fdListen (m_ril m') = s_fdListen (m_ril m).
Proof.
  intros HU Hw Hf. destruct (own_valid wakeup_fd) as [Hv _]; [by constructor|].
  unfold eventLoop_wakeup. unfold mbind at 1, cmd_bind at 1. rewrite (cmd_bind_Ok _ _ _ _ _ (mcall_ok _ _ m)).
  destruct (sr_pipe Hs (r_trace (m_ril m))) as [w Hp]. rewrite Hp, bind_modify, (cmd_bind_Ok _ _ _ _ _ (mcall_ok _ _ _)).
  set (m1 := set_ril _ _).
  destruct (watch_static m1 ws s_wakeupfd_event wakeup_fd true CB_processWakeupCallback) as (v & tev & E & U); try done.
  { by do 2 apply up_trace. }
  { by repeat constructor. }
  apply cmd_bind_inv in E as ([] & m2 & E2 & E3). run_cmd E2. run_cmd E3. eexists. split_and!; [done|exact U|done|done].
Qed.

Lemma listen_step m ws :
  up (m_ril m) ws -> L.1 ∉ ws.*1 -> listen_fd ∉ watch_fds ws -> array_string (rild m) = Some name ->
  exists m', register_listen env menv m = Ok (None, m') /\ up (m_ril m') (L :: ws) /\ stable m m' /\
    s_fdListen (m_ril m') = listen_fd.
Proof.
  intros HU Hw Hf Hn. destruct (own_valid listen_fd) as [Hv Hneg]; [by do 2 constructor|].
  unfold register_listen. rewrite (cmd_bind_Ok _ _ _ _ _ (name_read m Hn)), (cmd_bind_Ok _ _ _ _ _ (mcall_ok _ _ m)).
  rewrite (sr_socket Hs). unfold mbind at 1, cmd_bind at 1. unfold onril at 1, modify at 1. rewrite Hneg.
  rewrite (cmd_bind_Ok _ _ _ _ _ (mcall_ok _ _ _)). set (m1 := set_ril (add_trace [EMain (MListen _ _)] _) _).
  match goal with |- context [m_listen menv ?tr listen_fd] => pose proof (sr_listen Hs tr listen_fd) end.
  replace (m_listen menv _ listen_fd <? 0) with false by lia.
  destruct (watch_static m1 ws s_listen_event listen_fd false CB_listenCallback) as (v & tev & E & U); try done.
  { destruct HU. by split. }
  { by repeat constructor. }
  apply cmd_bind_inv in E as ([] & m2 & E2 & E3). run_cmd E2. run_cmd E3. eexists. split_and!; [done|exact U|done|done].
Qed.

Lemma debug_step m ws :
  up (m_ril m) ws -> D.1 ∉ ws.*1 -> debug_fd ∉ watch_fds ws -> array_string (rild m) = Some name ->
  exists m', register_debug env menv m = Ok (None, m') /\ up (m_ril m') (D :: ws) /\ stable m m' /\
    s_fdListen (m_ril m') = s_fdListen (m_ril m).
Proof.
  intros HU Hw Hf Hn. destruct (own_valid debug_fd) as [Hv Hneg]; [by do 3 constructor|].
  unfold register_debug. rewrite (cmd_bind_Ok _ _ _ _ _ (name_read m Hn)), (sr_name Hs), (cmd_bind_Ok _ _ _ _ _ (mcall_ok _ _ m)).
  rewrite (sr_debug Hs), bind_modify, Hneg.
  rewrite (cmd_bind_Ok _ _ _ _ _ (mcall_ok _ _ _)). set (m1 := set_ril (add_trace [EMain (MListen _ _)] _) _).
  match goal with |- context [m_listen menv ?tr debug_fd] => pose proof (sr_listen Hs tr debug_fd) end.
  replace (m_listen menv _ debug_fd <? 0) with false by lia.
  destruct (watch_static m1 ws s_debug_event debug_fd true CB_debugCallback) as (v & tev & E & U); try done.
  { by do 2 apply up_trace. }
  { by repeat constructor. }
  apply cmd_bind_inv in E as ([] & m2 & E2 & E3). run_cmd E2. run_cmd E3. eexists. split_and!; [done|exact U|done|done].
Qed.

(** ** Registration *)

(** The settings change neither the vendor's functions nor the events. *)
Record settled (m m' : main_state) : Prop := {
  se_ril : exists evs, m_ril m' = add_trace evs (m_ril m);
  se_started : s_started m' = s_started m;
  se_rild : rild m' = rild m }.

(** A property that is set to something. *)
Definition is_set (v : string) : bool := Z.of_nat (String.length v) >? 0.

(** What the settings are set to, given the values of the two
    properties. *)
Definition settings_of (m : main_state) (delay extlog_val : string) : ascii * Z * list effect :=
  let c := if streq name "rild" then "0"%char else "1"%char in
  (c, if is_set extlog_val then Z.max 0 (strtol_val extlog_val 0) else extlog m,
   EMain (MProperty ("ro.ril.delay_" +:+ String c "")) ::
   (if is_set delay && (strtol_val delay 0 >? 0) then [EMain (MSleep (strtol_val delay 0))] else []) ++
   [EMain (MProperty "ro.ril.extlog")]).

Lemma register_settings_ok m :
  array_string (rild m) = Some name ->
  exists m' delay extlog_val, register_settings menv m = Ok (tt, m') /\ settled m m' /\
    let '(c, x, evs) := settings_of m delay extlog_val in
    g_log_tag_5 m' = c /\ extlog m' = x /\ m_ril m' = add_trace evs (m_ril m) /\
    delay = m_property menv (r_trace (m_ril m)) ("ro.ril.delay_" +:+ String c "").
Proof.
  clear Hs Hfds Htables. intros Hn. unfold register_settings. rewrite (cmd_bind_Ok _ _ _ _ _ (name_read m Hn)), bind_modify.
  set (c := if streq name "rild" then "0"%char else "1"%char). set (m0 := set_log_tag c m).
  set (prop := ("ro.ril.delay_" +:+ String c "")%string). set (delay := m_property menv (r_trace (m_ril m)) prop).
  unfold property_get. rewrite (cmd_bind_Ok _ _ _ _ _ (mcall_ok _ _ m0)). set (m1 := set_ril (add_trace [EMain (MProperty prop)] (m_ril m0)) m0).
  fold delay. fold (is_set delay).
  set (zz := if is_set delay && (strtol_val delay 0 >? 0) then [EMain (MSleep (strtol_val delay 0))] else []).
  set (m2 := set_ril (add_trace zz (m_ril m1)) m1).
  assert (E2 : (if is_set delay then
      (let delay := strtol_val delay 0 in if delay >? 0 then mcall (MSleep delay) (fun _ => tt) else mret tt)
      else mret tt) m1 = Ok (tt, m2)).
  { unfold m2, zz. assert (Hid : set_ril (add_trace [] (m_ril m1)) m1 = m1) by (by rewrite add_trace_nil; destruct m).
    destruct (is_set delay); cbn [andb]; [|by rewrite Hid]. cbv zeta. destruct (strtol_val delay 0 >? 0); [done|by rewrite Hid]. }
  run_cmd E2. rewrite (cmd_bind_Ok _ _ _ _ _ (mcall_ok _ _ m2)).
  set (xv := m_property menv (r_trace (m_ril m2)) "ro.ril.extlog"). fold (is_set xv).
  set (m3 := set_ril (add_trace [EMain (MProperty "ro.ril.extlog")] (m_ril m2)) m2).
  set (x := if is_set xv then Z.max 0 (strtol_val xv 0) else extlog m).
  exists (set_extlog x m3), delay, xv. unfold settings_of. fold c x prop zz.
  assert (Et : m_ril (set_extlog x m3) = add_trace (EMain (MProperty prop) :: zz ++ [EMain (MProperty "ro.ril.extlog")]) (m_ril m)).
  { simpl. by rewrite !add_trace_app. }
  split_and!; [|split; [by eexists|done|done]|done|done|exact Et|done].
  unfold x. destruct (is_set xv); [|by destruct m].
  unfold modify. do 2 f_equal. f_equal. destruct (Z.ltb_spec (strtol_val xv 0) 0); lia.
Qed.

(** The self-check passes. *)
Lemma imap_all {A} (f : nat -> A -> bool) l :
  (forall i x, l !! i = Some x -> f i x = true) -> forallb (fun b => b) (imap f l) = true.
Proof.
  clear. intros Hf. apply forallb_forall. intros b Hb. apply list_elem_of_In, list_elem_of_lookup in Hb as [i Hi].
  rewrite list_lookup_imap in Hi. destruct (l !! i) as [x|] eqn:Hx; [|done]. injection Hi as <-. by apply Hf.
Qed.

Lemma commands_numbered_true : commands_numbered legacy = true.
Proof. apply imap_all. intros i ci Hi. apply Z.eqb_eq. symmetry. by apply (proj1 Htables). Qed.

Lemma unsol_numbered_true : unsol_numbered = true.
Proof. apply imap_all. intros i ui Hi. apply Z.eqb_eq. symmetry. by apply (proj2 Htables). Qed.

(** The thread is started. *)
Lemma startEventLoop_ok m :
  r_ev (m_ril m) = boot_ev -> r_heap (m_ril m) = ∅ -> s_pendingRequests (m_ril m) = None -> r_timers (m_ril m) = ∅ ->
  s_last_wake_timeout_info (m_ril m) = None -> s_fdCommand (m_ril m) < 0 ->
  exists m', RIL_startEventLoop menv m = Ok (tt, m') /\ up (m_ril m') [] /\ s_started m' = 1 /\ rild m' = rild m /\
    s_registerCalled (m_ril m') = s_registerCalled (m_ril m) /\ r_version (m_ril m') = r_version (m_ril m).
Proof.
  intros H1 H2 H3 H4 H5 H6. unfold RIL_startEventLoop. rewrite bind_modify, (cmd_bind_Ok _ _ _ _ _ (mcall_ok _ _ _)), (sr_thread Hs).
  set (m1 := set_ril _ _). unfold eventLoop_init.
  destruct (ril_event_init_ok (r_ev (m_ril m1))) as (v & E & HI & Hf & Ht & Hr); [by simpl; rewrite H1; eexists..|by left; simpl; rewrite H1|].
  rewrite (cmd_bind_Ok _ _ _ _ _ (onev_main _ m1 _ _ E)). eexists. split; [done|].
  split_and!; try done. split; try done; simpl.
  - intros a Ha. pose proof (statics_sentinels a Ha) as Hn. apply elem_of_dom.
    rewrite Hf; [|intros ->; apply Hn; by constructor|intros ->; apply Hn; by do 2 constructor].
    simpl. rewrite H1. revert a Ha Hn. clear. intros a Ha _. revert a Ha. apply Forall_forall. repeat constructor; by eexists.
  - intros a Ha. by apply elem_of_nil in Ha.
  - intros a. split; [|intros Ha; by apply elem_of_nil in Ha]. intros [i Hi]. unfold slot in Hi. rewrite Ht in Hi.
    by apply lookup_replicate in Hi as [? _].
  - intros a x pers cb Ha. by apply elem_of_nil in Ha.
  - intros x. rewrite Hr. intros Hx. by apply elem_of_empty in Hx.
Qed.

Lemma register_callbacks_ok m :
  rilh RIL_VERSION_MIN <= version <= rilh RIL_VERSION -> s_registerCalled (m_ril m) = false ->
  register_callbacks (Some version) m = Ok (true, set_ril (set_registered version (m_ril m)) m).
Proof.
  intros Hv Hr. unfold register_callbacks. rewrite bind_get. replace (version <? rilh RIL_VERSION_MIN) with false by lia.
  replace (version >? rilh RIL_VERSION) with false by lia. by rewrite Hr.
Qed.

Lemma up_registered s ws : up s ws -> up (set_registered version s) ws.
Proof. by intros []. Qed.

(** A step of the other thread. *)
Definition ran (c : mcmd unit) (ws ws' : watches) : Prop := forall m, up (m_ril m) ws ->
  exists m', c m = Ok (tt, m') /\ up (m_ril m') ws' /\ stable m m' /\ s_fdListen (m_ril m') = s_fdListen (m_ril m).

Lemma ran_nothing ws : ran (mret tt) ws ws.
Proof. intros m HU. by exists m. Qed.

Lemma ran_wakeup ws : W.1 ∉ ws.*1 -> wakeup_fd ∉ watch_fds ws -> ran (eventLoop_wakeup env menv;; mret tt) ws (W :: ws).
Proof. intros H1 H2 m HU. by apply wakeup_step. Qed.

Lemma register_ok between m ws ws' :
  rilh RIL_VERSION_MIN <= version <= rilh RIL_VERSION -> s_started m <> 0 -> array_string (rild m) = Some name ->
  s_registerCalled (m_ril m) = false -> up (m_ril m) ws ->
  L.1 ∉ ws.*1 -> listen_fd ∉ watch_fds ws -> ran between (L :: ws) ws' -> D.1 ∉ ws'.*1 -> debug_fd ∉ watch_fds ws' ->
  exists m', RIL_register_with legacy ndebug env menv between (Some version) m = Ok (None, m') /\ up (m_ril m') (D :: ws') /\
    s_registerCalled (m_ril m') = true /\ r_version (m_ril m') = version /\ s_fdListen (m_ril m') = listen_fd.
Proof.
  intros Hv Hst Hn Hr HU HL1 HL2 Hb HD1 HD2. unfold RIL_register_with.
  destruct (register_settings_ok m Hn) as (m1 & _ & _ & E1 & [[evs R1] S1 N1] & _). run_cmd E1.
  rewrite (cmd_bind_Ok _ _ _ _ _ (register_callbacks_ok m1 Hv ltac:(by rewrite R1))).
  set (m2 := set_ril (set_registered version (m_ril m1)) m1).
  rewrite commands_numbered_true, unsol_numbered_true.
  assert (Ha : onril (c_assert ndebug true) m2 = Ok (tt, m2)) by (by destruct m as [[]], m1 as [[]]). run_cmd Ha. run_cmd Ha.
  rewrite bind_get. change (s_started m2) with (s_started m1). rewrite S1, (proj2 (Z.eqb_neq _ _) Hst), bind_ret.
  destruct (listen_step m2 ws) as (m3 & E3 & U3 & S3 & F3); try done.
  { simpl. rewrite R1. by apply up_registered, up_trace. }
  { simpl. by rewrite N1. }
  run_cmd E3. destruct (Hb m3 U3) as (m4 & E4 & U4 & S4 & F4). run_cmd E4.
  destruct (debug_step m4 ws') as (m5 & E5 & U5 & S5 & F5); try done.
  { rewrite (sb_rild _ _ S4), (sb_rild _ _ S3). simpl. by rewrite N1. }
  exists m5. split_and!; [done|done| | |congruence].
  - by rewrite (sb_reg _ _ S5), (sb_reg _ _ S4), (sb_reg _ _ S3).
  - by rewrite (sb_version _ _ S5), (sb_version _ _ S4), (sb_version _ _ S3).
Qed.

(** ** The daemon is up *)

Lemma up_good m ws :
  up (m_ril m) ws -> (forall w, w ∈ ws <-> w ∈ [W; L; D]) ->
  s_registerCalled (m_ril m) = true -> r_version (m_ril m) = version -> s_fdListen (m_ril m) = listen_fd ->
  good version wakeup_fd listen_fd debug_fd m [].
Proof.
  clear Hs Hfds Htables. intros [H1 H2 He H3 H4 H5 H6 H7 H8 H9 H10] Hws Hreg Hv Hl.
  assert (Hin : forall a, a ∈ ws.*1 <-> a ∈ [W; L; D].*1).
  { intros a. rewrite !list_elem_of_fmap. by setoid_rewrite Hws. }
  assert (Hwt : forall a, watched (r_ev (m_ril m)) a <-> a ∈ [W; L; D].*1) by (intros a; by rewrite H3).
  split.
  - exists []. split; try done.
    + exists []. split; [constructor|done].
    + split; [by rewrite H8; intros a u Hu|by rewrite H9].
    + intros a Ha. by apply elem_of_nil in Ha.
    + intros a Ha. by apply elem_of_nil in Ha.
    + intros a Ha. by apply elem_of_nil in Ha.
  - split.
    + split; [| | | | | |done].
      * intros i a Hi. apply He, H3. by exists i.
      * apply H4, Hws. by constructor.
      * apply H4, Hws. by do 3 constructor.
      * apply H4, Hws. by do 2 constructor.
      * apply Hwt. by constructor.
      * apply Hwt. by do 3 constructor.
    + left. split_and!; [done| |by intros Ha; apply elem_of_nil in Ha|left].
      * rewrite Hwt. by apply (bool_decide_unpack (s_commands_event ∉ [s_wakeupfd_event; s_listen_event; s_debug_event])).
      * split; [|by intros Ha; apply elem_of_nil in Ha]. apply Hwt. by do 2 constructor.
Qed.

(** When the event thread watches the pipe: before [RIL_register], between
    its two sockets, or after it. *)
Inductive order := WakeupFirst | WakeupBetween | WakeupLast.

Definition when (b : bool) : mcmd unit := if b then eventLoop_wakeup env menv;; mret tt else mret tt.

Definition start (o : order) : mcmd (option Z) :=
  RIL_startEventLoop menv;;
  when (match o with WakeupFirst => true | _ => false end);;
  r ← RIL_register_with legacy ndebug env menv (when (match o with WakeupBetween => true | _ => false end)) (Some version);
  when (match o with WakeupLast => true | _ => false end);;
  mret r.

Lemma start_good o :
  rilh RIL_VERSION_MIN <= version <= rilh RIL_VERSION ->
  array_string (char_array (rilh MAX_SOCKET_NAME_LENGTH) name) = Some name ->
  exists m, (RIL_setRilSocketName name;; start o) boot_state = Ok (None, m) /\ good version wakeup_fd listen_fd debug_fd m [].
Proof.
  intros Hv Hn. destruct Hfds as [[Hf1 [Hf2 _]%NoDup_cons]%NoDup_cons _].
  assert (HWL : wakeup_fd <> listen_fd) by (intros ->; apply Hf1; by constructor).
  assert (HWD : wakeup_fd <> debug_fd) by (intros ->; apply Hf1; by do 2 constructor).
  assert (HLD : listen_fd <> debug_fd) by (intros ->; apply Hf2; by constructor).
  unfold RIL_setRilSocketName. rewrite bind_modify. set (m0 := set_rild _ boot_state).
  destruct (startEventLoop_ok m0) as (m1 & E1 & U1 & S1 & N1 & R1 & _); try done. unfold start. run_cmd E1.
  assert (Hn1 : array_string (rild m1) = Some name) by (by rewrite N1).
  assert (Hst : s_started m1 <> 0) by (by rewrite S1). change (s_registerCalled (m_ril m0)) with false in R1.
  destruct o; unfold when.
  - destruct (ran_wakeup [] ltac:(set_solver) ltac:(set_solver) m1 U1) as (m2 & E2 & U2 & S2 & _). run_cmd E2.
    destruct (register_ok (mret tt) m2 [W] [L; W]) as (m3 & E3 & U3 & G3 & V3 & F3); try done;
      [by rewrite (sb_started _ _ S2)|by rewrite (sb_rild _ _ S2)|by rewrite (sb_reg _ _ S2)|set_solver|set_solver|apply ran_nothing|set_solver|set_solver|].
    run_cmd E3. exists m3. split; [done|]. apply (up_good m3 [D; L; W]); [done|set_solver|done..].
  - rewrite bind_ret. destruct (register_ok (eventLoop_wakeup env menv;; mret tt) m1 [] [W; L]) as (m3 & E3 & U3 & G3 & V3 & F3); try done;
      [set_solver|set_solver|apply ran_wakeup; set_solver|set_solver|set_solver|].
    run_cmd E3. exists m3. split; [done|]. apply (up_good m3 [D; W; L]); [done|set_solver|done..].
  - rewrite bind_ret. destruct (register_ok (mret tt) m1 [] [L]) as (m3 & E3 & U3 & G3 & V3 & F3); try done;
      [set_solver|set_solver|apply ran_nothing|set_solver|set_solver|].
    run_cmd E3. destruct (ran_wakeup [D; L] ltac:(set_solver) ltac:(set_solver) m3 U3) as (m4 & E4 & U4 & S4 & F4). run_cmd E4.
    exists m4. split; [done|]. apply (up_good m4 [W; D; L]); [done|set_solver|by rewrite (sb_reg _ _ S4)|by rewrite (sb_version _ _ S4)|congruence].
Qed.

End Start.
