(* ===== verification/RilExample.v ===== *)
(** * A concrete daemon for the instances of the theorems

    The byte-and-position Parcel, 7-bit strings, the constants of ril.h
    the RIL was built with (RilConst.v), an allocator of unused addresses,
    a socket that accepts everything, and a vendor RIL chosen per example.
    [ex_ril] is the daemon after registration with a client on descriptor
    9, no request pending and no timer. *)

From S2P Require Import Prelude Bytes Parcel RilConst RilTypes RilDispatch RilResponse RilResponseSpec.
From S2P Require Import EventHeap EventLoop EventSpec EventLoopSpec RilCore RilRequests RilTimers RilUnsol.

(** The instances the examples run with. *)
#[global] Existing Instance sample_rilh.
#[global] Existing Instance ascii_js.
#[global] Existing Instance ascii_js_laws.

Lemma ex_sizes t : 0 < sizeof t.
Proof. by destruct t. Qed.

Lemma imap_check {A} (f : nat -> A -> bool) l :
  forallb (fun b => b) (imap f l) = true -> forall i x, l !! i = Some x -> f i x = true.
Proof.
  intros Hf i x Hi. rewrite forallb_forall in Hf. apply Hf, list_elem_of_In.
  apply list_elem_of_lookup. exists i. by rewrite list_lookup_imap, Hi.
Qed.

(** The tables are in order, with and without RIL_VARIANT_LEGACY: the
    request code of a row is its index. *)
Lemma ex_tables legacy : tables_ok legacy.
Proof.
  split.
  - intros i ci Hi. apply Z.eqb_eq.
    apply (imap_check (fun i ci => requestNumber ci =? Z.of_nat i) (s_commands legacy)); [by destruct legacy; vm_compute|done].
  - intros i ui Hi. apply Z.eqb_eq.
    apply (imap_check (fun i ui => unsolNumber ui =? Z.of_nat i + rilh RIL_UNSOL_RESPONSE_BASE) s_unsolResponses);
      [by vm_compute|done].
Qed.

Definition ex_fuel : nat := S (Z.to_nat MAX_COMMAND_BYTES).

(** The vendor: [v]; the radio state: [st]; a stream with no more records;
    a new connection, on 12, from the user [cred]. *)
Definition ex_env (st : Z) (v : ril_state -> list vendor_call) (cred : option (list Z)) : ril_env := {|
  o_write := fun _ _ b => Wrote (length b);
  o_state := fun _ => st;
  o_realtime := fun _ => 77;
  o_now := fun _ => mkTv 100 0;
  o_alloc := fun X => fresh X;
  o_self_is_dispatch := fun _ => true;
  o_vendor := v;
  o_record := fun _ => EndOfStream;
  o_accept := fun _ => 12;
  o_cred := fun _ => cred;
  o_stream := fun _ => None;
  o_getVersion := None |}.

Definition no_calls : ril_state -> list vendor_call := fun _ => [].

Lemma ex_alloc st v c X : o_alloc (ex_env st v c) X ∉ X.
Proof. apply is_fresh. Qed.

Lemma ex_now st v c tr : tv_ok (o_now (ex_env st v c) tr).
Proof. unfold tv_ok; simpl; lia. Qed.

Lemma ex_live st v c : socket_live ex_fuel (ex_env st v c).
Proof.
  exists 0%nat. split; [unfold ex_fuel; lia|]. intros tr fd [|x b] Hb; [done|]. exists 0%nat.
  split_and!; [lia|intros i Hi; lia|simpl; lia].
Qed.

Definition ex_ev_event (x : Z) (pers : bool) (cb : callback) : @ril_event callback :=
  mkEv None None x (-1) pers (mkTv 0 0) (Some cb) None.

Definition ex_sent (l : loc) : @ril_event callback := mkEv (Some l) (Some l) (-1) 0 false (mkTv 0 0) None None.

(** The static events are set; the command socket (9) is watched. *)
Definition ex_ev : estate callback := mkEstate
  (<[s_commands_event := set_index 0 (ex_ev_event 9 true CB_processCommandsCallback)]>
    (<[s_listen_event := ex_ev_event 5 false CB_listenCallback]>
      (<[pending_list := ex_sent pending_list]> (<[timer_list := ex_sent timer_list]> ∅))))
  (Some s_commands_event :: replicate (MAX_FD_EVENTS - 1) None) {[9]} 10.

Definition ex_ril : ril_state :=
  mkRil ex_ev ∅ None ∅ None 9 5 true 6 (-1) (-1) (-1) None [].

Lemma ex_slot i a : slot (watch_table ex_ev) i a -> i = 0%nat /\ a = s_commands_event.
Proof.
  unfold slot. destruct i as [|i]; simpl; [by intros [= <-]|].
  intros H. by apply (lookup_replicate_1 (MAX_FD_EVENTS - 1)%nat) in H as [? _].
Qed.

Lemma ex_ev_inv : ev_inv ex_ev [] [].
Proof.
  assert (H9 : forall i x, slot_fd (ev_heap ex_ev) (watch_table ex_ev) i x <-> i = 0%nat /\ x = 9).
  { intros i x. split.
    - intros (a & e & [-> ->]%ex_slot & He & <-). vm_compute in He. by simplify_eq.
    - intros [-> ->]. exists s_commands_event, (set_index 0 (ex_ev_event 9 true CB_processCommandsCallback)). done. }
  split.
  - split_and!; [split; [apply NoDup_singleton|done]..|set_solver].
  - split; constructor.
  - split; [done| | |].
    + intros i a [-> ->]%ex_slot. by eexists.
    + intros x. setoid_rewrite H9. simpl. split; [intros ->%elem_of_singleton; by exists 0%nat|by intros (i & _ & ->); set_solver].
    + intros i j x Hi%H9 Hj%H9. lia.
  - split; [intros x Hx; simpl in *; apply elem_of_singleton in Hx; lia|]. right. simpl. set_solver.
  - intros i a [-> ->]%ex_slot. set_solver.
Qed.

Lemma ex_reqs : reqs ex_ril [].
Proof. split; [constructor|done]. Qed.

Lemma ex_wake : wake_inv ex_ril.
Proof. split; [intros a u Ha; done|done]. Qed.

Lemma ex_unsol_inv : unsol_inv ex_ril.
Proof. split_and!; [done|apply ex_wake|exists [], []; apply ex_ev_inv]. Qed.
