(* ===== verification/RilTheorems.v ===== *)
(** * Properties of libril/ril.cpp

    The properties proper, each with a concrete instance (RilExample.v).
    The work is done by the lemmas of RilWire, RilDispatchSpec,
    RilResponseSpec, RilRequests, RilTimers, RilUnsol, RilCommand and
    RilSocket. *)

From S2P Require Import Prelude Bytes Parcel RilConst RilTypes RilDispatch RilResponse RilWire RilDispatchSpec.
From S2P Require Import RilResponseSpec EventHeap EventLoop EventSpec EventLoopSpec RilCore RilRequests RilTimers RilUnsol.
From S2P Require Import RilCommand RilSocket RilArgs RilExample.

(** What is assumed of the outside: the allocator returns unused
    addresses, the clock is normalised, [write] makes progress or fails
    after finitely many interruptions (and the fuel covers them), every
    structure has a positive size, and the command tables are indexed by
    request code. *)
Record setting {HH : RilH} (legacy : bool) (fuel : nat) (env : ril_env) : Prop := {
  set_alloc : forall X, o_alloc env X ∉ X;
  set_now : forall tr, tv_ok (o_now env tr);
  set_live : socket_live fuel env;
  set_sizes : forall t, 0 < sizeof t;
  set_tables : tables_ok legacy }.

Lemma ex_setting legacy st v c : setting legacy ex_fuel (ex_env st v c).
Proof.
  split; [apply ex_alloc|apply ex_now|apply ex_live|apply ex_sizes|apply ex_tables].
Qed.

Section Theorems.
Context {P : Type} {HPar : Parcel P} {HLaws : ParcelLaws P} {HJS : JString} {HH : RilH}.
Variables (legacy ndebug : bool) (stack_avail junk : Z) (fuel : nat) (env : ril_env).

(** ** Requests and their responses *)

(** C2. A request of the table whose arguments its dispatch function
    accepts reaches the vendor once with those arguments; when the vendor
    completes it, exactly one packet is sent, carrying the token of the
    request, and the list of pending requests is as before. *)
Theorem request_answered (s : ril_state) l request tok rest ci f data datalen e response responselen :
  setting legacy fuel env ->
  reqs s l -> i32_ok request -> i32_ok tok -> 1 <= request -> s_commands legacy !! Z.to_nat request = Some ci ->
  dispatchFunction ci = Some f -> plain_dispatch f ->
  reads (P := P) (dispatchFn (r_version s) (use_cla legacy) stack_avail junk f (requestNumber ci)) (DRequest data datalen) rest ->
  let a := o_alloc env (used s) in
  let r := mkRI tok ci (s_pendingRequests s) 0 0 in
  o_vendor env (add_trace [EOnRequest (requestNumber ci) data datalen a] (pushed env s tok ci)) = [CallComplete (Some a) e response responselen] ->
  completion_ok (P := P) (r_version s) r response responselen ->
  exists s' packet ret evs,
    processCommandBuffer (P := P) legacy stack_avail junk fuel env (le32 request ++ le32 tok ++ rest) s = Ok (0, s') /\
    reqs s' l /\
    r_trace s' = r_trace s ++ EOnRequest (requestNumber ci) data datalen a :: evs /\
    sends s packet ret evs /\ completion_packet (P := P) (r_version s) r e response responselen packet.
Proof. intros []. by apply process_answered. Qed.

(** C7. Completing a pending request removes it from the list, frees it and
    leaves every other request as it was; it sends one response, or none
    for a local request or one whose client is gone; and a second
    completion of the same request does nothing. *)
Theorem completion_once (s : ril_state) l1 a l2 r e response responselen :
  setting legacy fuel env ->
  reqs s (l1 ++ a :: l2) -> r_heap s !! a = Some r ->
  (silent r = false -> completion_ok (P := P) (r_version s) r response responselen) ->
  exists s' evs, RIL_onRequestComplete (P := P) fuel env (Some a) e response responselen s = Ok (tt, s') /\
    reqs s' (l1 ++ l2) /\ completed s a evs s' /\ answered (P := P) s r e response responselen evs /\
    forall e' response' responselen',
      RIL_onRequestComplete (P := P) fuel env (Some a) e' response' responselen' s' = Ok (tt, s').
Proof.
  intros [_ _ Hw Hz _] Hl Hr Hok.
  destruct (complete_present fuel env Hw Hz s l1 a l2 r e response responselen Hl Hr Hok) as (s' & evs & E & L & C & A).
  exists s', evs. split_and!; try done. intros e' v' n'. eapply complete_absent; [exact L|]. intros b [= <-].
  destruct Hl as [Hn _]. apply NoDup_app in Hn as (_ & H2 & H3). apply NoDup_cons in H3 as [H3 _]. set_solver.
Qed.

(** C4. After the command socket was closed, the vendor may complete the
    requests that were pending, in any order and however often: nothing is
    sent for them. *)
Theorem closed_silences (s : ril_state) l (calls : list (option loc * Z * voidptr * Z)) :
  setting legacy fuel env -> reqs s l ->
  exists s1 s2 l', onCommandsSocketClosed s = Ok (tt, s1) /\
    vendor_calls (P := P) fuel env ((fun '(t, e, v, n) => CallComplete t e v n) <$> calls) s1 = Ok (tt, s2) /\
    r_trace s2 = r_trace s /\ reqs s2 l' /\ l' ⊆ l.
Proof.
  intros [Ha _ Hw Hz _] Hl. destruct (closed_all_silent s l Hl) as (s1 & E1 & L1 & A1 & Hs).
  destruct (completions_silent fuel env Ha Hw Hz s1 l calls L1 A1) as (s2 & l' & E2 & T & L & Hsub).
  exists s1, s2, l'. split_and!; try done. by rewrite T, Hs.
Qed.

(** C38. The exception: a completion that has already taken its request out
    of the list when the socket is closed is not silenced; its response,
    with the token of the lost connection, goes to the next client. *)
Theorem stale_response_reaches_new_client (s : ril_state) l1 a l2 r e response responselen fd' :
  setting legacy fuel env ->
  reqs s (l1 ++ a :: l2) -> r_heap s !! a = Some r -> silent r = false ->
  completion_ok (P := P) (r_version s) r response responselen ->
  exists s1 s2 s3 packet ret evs,
    checkAndDequeueRequestInfo (Some a) s = Ok (1, s1) /\
    onCommandsSocketClosed s1 = Ok (tt, s2) /\ all_silent s2 (l1 ++ l2) /\
    complete_dequeued (P := P) fuel env a e response responselen (set_fdCommand fd' s2) = Ok (tt, s3) /\
    completion_packet (P := P) (r_version s) r e response responselen packet /\
    sends (set_fdCommand fd' s2) packet ret evs /\ r_trace s3 = r_trace s ++ evs.
Proof. intros []. by apply dequeue_close_complete. Qed.

(** Records that are no requests: fewer than eight bytes are dropped
    without a trace; a request code outside the table is answered with
    GENERIC_FAILURE and the record's token, and leaves nothing pending. *)
Theorem bad_record_handled (s : ril_state) buf request tok rest :
  setting legacy fuel env ->
  ((length buf < 8)%nat -> processCommandBuffer (P := P) legacy stack_avail junk fuel env buf s = Ok (0, s)) /\
  (buf = le32 request ++ le32 tok ++ rest -> i32_ok request -> i32_ok tok ->
   request < 1 \/ Z.of_nat (length (s_commands legacy)) <= request ->
   exists ret evs, processCommandBuffer (P := P) legacy stack_avail junk fuel env buf s = Ok (0, add_trace evs s) /\
     sends s (le32 RESPONSE_SOLICITED ++ le32 tok ++ le32 (rilh RIL_E_GENERIC_FAILURE)) ret evs).
Proof. intros []. split; [by apply process_short|]. intros ->. by apply process_unsupported. Qed.

(** C37. Arguments the dispatch function rejects: the vendor is not called
    and no response is sent, but the request stays in the list of pending
    requests (its client waits for ever). *)
Theorem invalid_block_stays_pending (s : ril_state) l request tok rest ci f :
  setting legacy fuel env ->
  reqs s l -> i32_ok request -> i32_ok tok -> 1 <= request -> s_commands legacy !! Z.to_nat request = Some ci ->
  dispatchFunction ci = Some f -> plain_dispatch f ->
  (forall p : P, holds p (le32 request ++ le32 tok ++ rest) rest ->
     exists p', dispatchFn (r_version s) (use_cla legacy) stack_avail junk f (requestNumber ci) p = Ok (DInvalid, p')) ->
  exists s', processCommandBuffer (P := P) legacy stack_avail junk fuel env (le32 request ++ le32 tok ++ rest) s = Ok (0, s') /\
    r_trace s' = r_trace s ++ [EInvalidBlock tok (requestNumber ci)] /\
    reqs s' (o_alloc env (used s) :: l).
Proof.
  intros [Ha Hn Hw Hz Htb] Hl Hq Ht H1 Hc Hf Hp Hd.
  destruct (process_invalid (P := P) legacy stack_avail junk fuel env Ha s l request tok rest ci f) as [E L]; try done. by eexists.
Qed.
(** ** Reading requests, writing responses *)

(** C33. No dispatch function of the table ever acts on uninitialised data:
    its outcome (the data given to the vendor, or the rejection) does not
    depend on what the locals it declares held before. *)
Theorem dispatch_initialised version f request junk1 junk2 (p : P) :
  result (dispatchFn version (use_cla legacy) stack_avail junk1 f request p) =
  result (dispatchFn version (use_cla legacy) stack_avail junk2 f request p).
Proof. apply dispatchFn_junk. Qed.

(** C31. Whatever the client sent, what a dispatch function passes to the
    vendor has the type that ril.h gives for its requests: integers of 32
    bits, structures of their size for the version of the vendor RIL, all
    strings that have to be there, arrays of the number of members that was
    sent (six for an old RIL's SETUP_DATA_CALL) and byte arrays of the length
    passed with them.  The exceptions are those of [arg_ok]: for a negative
    count nothing is stored in the array although its length may be
    positive; when the record is too short for a byte array, NULL comes
    with the length sent; and nothing is said of the bytes for a negative
    length other than -1, which [readInplace] leaves open. *)
Theorem dispatch_typed version cla f request (p p' : P) data datalen :
  i32_ok junk -> stack_avail < 2 ^ 32 -> (forall t, 0 < sizeof t) -> (dataPosition p <= length (parcel_data p))%nat ->
  dispatchFn version cla stack_avail junk f request p = Ok (DRequest data datalen, p') ->
  arg_ok version junk p p' f data datalen.
Proof. intros Hj Hs Hz Hp E. by eapply gives_dispatchFn in E; [apply E|..]. Qed.

(** C30. The only thing a client can make undefined in a dispatch function
    is the array of a request: when its count, if there is one that can be
    read, is not negative and the array fits on the stack, every dispatch
    function returns, whatever else the record holds or lacks. *)
Theorem dispatch_defined version cla f request (p : P) :
  24 <= stack_avail < 2 ^ 32 -> (dataPosition p <= length (parcel_data p))%nat ->
  (forall count p', array_count junk f p = Ok (Some count, p') -> 0 <= count /\ count * member_size f <= stack_avail) ->
  exists d p', dispatchFn version cla stack_avail junk f request p = Ok (d, p').
Proof. intros [H1 H2] Hp Hf. by apply returns_dispatchFn. Qed.

(** C32. Every response function of the tables, on data of the type and
    length it expects (or NULL where it takes NULL), returns 0 or
    INVALID_RESPONSE, reads nothing out of bounds, and leaves what was
    already in the packet as it was. *)
Theorem response_functions_safe version f v len (p : P) :
  (forall t, 0 < sizeof t) -> object_ok (P := P) version f v len -> at_end p ->
  exists ret p', responseFn version f v len p = Ok (ret, p') /\ (ret = 0 \/ ret = RIL_ERRNO_INVALID_RESPONSE) /\
    at_end p' /\ parcel_data p `prefix_of` parcel_data p'.
Proof. intros Hs Ho Hp. destruct (responseFn_responds version Hs f v len Ho p Hp) as (r & p' & H). by exists r, p'. Qed.

(** C36. Integers, strings (null ones included) and raw bytes: what the
    response function writes for them, the dispatch function reads back as
    the same data of the same length. *)
Theorem wire_primitives {wf} {HJL : JStringLaws wf} (ints : list Z) (strs : list cstr) (bs : list Z) (p : P) :
  at_end p -> 4 <= stack_avail ->
  (ints <> [] -> Forall i32_ok ints -> 4 * Z.of_nat (length ints) <= stack_avail -> Z.of_nat (length ints) < 2 ^ 30 ->
   exists p1 p2, responseInts (VInts ints) (4 * Z.of_nat (length ints)) p = Ok (0, p1) /\
     dispatchInts stack_avail junk (setDataPosition (dataPosition p) p1) =
       Ok (DRequest (VInts ints) (4 * Z.of_nat (length ints)), p2) /\ remaining p2 = []) /\
  (Forall (str_ok wf) strs -> 4 * Z.of_nat (length strs) <= stack_avail -> Z.of_nat (length strs) < 2 ^ 30 ->
   exists p1 p2, responseStrings (VStrings strs) (4 * Z.of_nat (length strs)) p = Ok (0, p1) /\
     dispatchStrings stack_avail junk (setDataPosition (dataPosition p) p1) =
       Ok (DRequest (VStrings strs) (4 * Z.of_nat (length strs)), p2) /\ remaining p2 = []) /\
  (Z.of_nat (length bs) < 2 ^ 31 ->
   exists p1 p2, responseRaw (VBytes bs) (Z.of_nat (length bs)) p = Ok (0, p1) /\
     dispatchRaw junk (setDataPosition (dataPosition p) p1) =
       Ok (DRequest (VBytes bs) (Z.of_nat (length bs)), p2) /\ remaining p2 = []).
Proof.
  intros Hp H4. split_and!; intros.
  - destruct (write_read _ _ _ _ _ (responseInts_appends ints) (dispatchInts_reads stack_avail junk ints ltac:(done) ltac:(done) ltac:(done) ltac:(done)) p Hp)
      as (p1 & p2 & E1 & E2 & _ & R). by exists p1, p2.
  - destruct (write_read _ _ _ _ _ (responseStrings_appends strs) (dispatchStrings_reads stack_avail junk strs ltac:(done) ltac:(done) ltac:(done) ltac:(done)) p Hp)
      as (p1 & p2 & E1 & E2 & _ & R). by exists p1, p2.
  - destruct (write_read _ _ _ _ _ (responseRaw_appends bs) (dispatchRaw_reads junk bs ltac:(done)) p Hp)
      as (p1 & p2 & E1 & E2 & _ & R). by exists p1, p2.
Qed.

(** The cell broadcast configurations of both technologies are read
    back as they were written. *)
Theorem wire_cell_broadcast (gsm : list RIL_GSM_BroadcastSmsConfigInfo) (cdma : list RIL_CDMA_BroadcastSmsConfigInfo) (p : P) :
  at_end p ->
  (Forall gsmBci_ok gsm -> Z.of_nat (length gsm) < 2 ^ 30 ->
   Z.of_nat (length gsm) * (sizeof S_RIL_GSM_BroadcastSmsConfigInfo + sizeof_ptr) <= stack_avail ->
   exists p1 p2, responseGsmBrSmsCnf (VGsmBci (Some <$> gsm)) (4 * Z.of_nat (length gsm)) p = Ok (0, p1) /\
     dispatchGsmBrSmsCnf stack_avail junk (setDataPosition (dataPosition p) p1) =
       Ok (DRequest (VGsmBci (Some <$> gsm)) (4 * Z.of_nat (length gsm)), p2) /\ remaining p2 = []) /\
  (Forall cdmaBci_ok cdma -> Z.of_nat (length cdma) < 2 ^ 30 ->
   Z.of_nat (length cdma) * (sizeof S_RIL_CDMA_BroadcastSmsConfigInfo + sizeof_ptr) <= stack_avail ->
   exists p1 p2, responseCdmaBrSmsCnf (VCdmaBci (Some <$> cdma)) (4 * Z.of_nat (length cdma)) p = Ok (0, p1) /\
     dispatchCdmaBrSmsCnf stack_avail junk (setDataPosition (dataPosition p) p1) =
       Ok (DRequest (VCdmaBci (Some <$> cdma)) (4 * Z.of_nat (length cdma)), p2) /\ remaining p2 = []).
Proof.
  intros Hp. split; intros Hf Hl Hs.
  - destruct (write_read _ _ _ _ _ (responseGsmBrSmsCnf_appends gsm) (dispatchGsmBrSmsCnf_reads stack_avail junk gsm Hf Hl Hs) p Hp)
      as (p1 & p2 & E1 & E2 & _ & R). by exists p1, p2.
  - destruct (write_read _ _ _ _ _ (responseCdmaBrSmsCnf_appends cdma) (dispatchCdmaBrSmsCnf_reads stack_avail junk cdma Hf Hl Hs) p Hp)
      as (p1 & p2 & E1 & E2 & _ & R). by exists p1, p2.
Qed.

(** A CDMA message whose arrays are zero beyond the digits in use is
    read back as it was written, whatever its digit counts (they are
    clamped to the arrays on both sides). *)
Theorem wire_cdma_sms (m : RIL_CDMA_SMS_Message) (p : P) :
  at_end p -> cdmaSms_ok m ->
  exists p1 p2, responseCdmaSms (VCdmaSms m) (sizeof S_RIL_CDMA_SMS_Message) p = Ok (0, p1) /\
    dispatchCdmaSms junk (setDataPosition (dataPosition p) p1) =
      Ok (DRequest (VCdmaSms m) (sizeof S_RIL_CDMA_SMS_Message), p2) /\ remaining p2 = [].
Proof.
  intros Hp Hm. destruct (write_read _ _ _ _ _ (responseCdmaSms_appends m Hm) (dispatchCdmaSms_reads junk m Hm) p Hp)
    as (p1 & p2 & E1 & E2 & _ & R). by exists p1, p2.
Qed.

(** SETUP_DATA_CALL for a vendor RIL before version 4: of more than six
    parameters it sees the first six, null ones as empty strings. *)
Theorem data_call_old_vendor {wf} {HJL : JStringLaws wf} version (l : list cstr) (p : P) data rest :
  version < 4 -> (6 < length l)%nat -> Z.of_nat (length l) < 2 ^ 30 -> Forall (str_ok wf) l -> 24 <= stack_avail ->
  holds p data (enc_all (strings_items l) ++ rest) ->
  exists p', dispatchDataCall version stack_avail junk p =
    Ok (DRequest (VStrings ((fun s => Some (default [] s)) <$> take 6 l)) 24, p').
Proof. apply dispatchDataCall_old. Qed.

(** A signal strength report is always fourteen integers, whichever
    version of the structure the vendor passes: the members its version
    lacks are reported as unknown, and the -1 and negative LTE values of
    RILs up to version 6 are converted. *)
Theorem signal_strength_values version (s : RIL_SignalStrength) len (p : P) :
  sizeof S_RIL_SignalStrength_v5 <= len ->
  (sizeof S_RIL_SignalStrength_v6 <= len -> exists l, ss_lte s = Some l /\ (version <= 6 -> lte_rsrp l <> - 2 ^ 31)) ->
  (sizeof S_RIL_SignalStrength_v8 <= len -> is_Some (ss_timingAdvance s)) ->
  (sizeof S_RIL_SignalStrength_v9_CAF <= len -> is_Some (ss_rscp s)) ->
  at_end p ->
  exists p', responseRilSignalStrength version (VSignalStrength s) len p = Ok (0, p') /\
    parcel_data p' = parcel_data p ++ enc_all (WI32 <$> signal_values version s len) /\
    length (signal_values version s len) = 14%nat.
Proof.
  intros H5 H6 H8 H9 Hp. destruct (responseRilSignalStrength_appends version s len H5 H6 H8 H9) as [Ha Hl].
  destruct (Ha p Hp) as (p' & E & _ & D). by exists p'.
Qed.

(** ** The socket *)

(** C15. [sendResponseRaw] refuses a packet when there is no client or it is
    larger than 8 KiB, without writing anything; otherwise the descriptor
    receives its length (big endian) and its bytes in order, or a prefix of
    them and is closed. *)
Theorem response_framed (s : ril_state) data :
  setting legacy fuel env ->
  exists ret evs, sendResponseRaw fuel env data s = Ok (ret, add_trace evs s) /\
    if (s_fdCommand s <? 0) || (Z.of_nat (length data) >? MAX_COMMAND_BYTES)
    then ret = -1 /\ evs = []
    else ret = 0 /\ sent_on (s_fdCommand s) evs = be32 (Z.of_nat (length data)) ++ data \/
         ret = -1 /\ sent_on (s_fdCommand s) evs `prefix_of` be32 (Z.of_nat (length data)) ++ data /\
         EClose (s_fdCommand s) ∈ evs.
Proof.
  intros []. destruct (sendResponseRaw_ok fuel env set_live0 s data) as (ret & evs & E & H).
  exists ret, evs. split; [done|]. unfold sends in H. case_match; [done|]. by destruct H.
Qed.

(** C39. A write that fails for good closes the descriptor but keeps its
    number as the command socket: the next response is written to the
    closed descriptor. *)
Theorem broken_socket_still_used (s : ril_state) data data2 :
  setting legacy fuel env ->
  0 <= s_fdCommand s -> Z.of_nat (length data) <= MAX_COMMAND_BYTES -> Z.of_nat (length data2) <= MAX_COMMAND_BYTES ->
  o_write env (r_trace s) (s_fdCommand s) (be32 (Z.of_nat (length data))) = WriteError false ->
  exists s1 ret evs, sendResponseRaw fuel env data s = Ok (-1, s1) /\
    r_trace s1 = r_trace s ++ [EWriteError (s_fdCommand s) false; EClose (s_fdCommand s)] /\
    sendResponseRaw fuel env data2 s1 = Ok (ret, add_trace evs s1) /\
    write_end (s_fdCommand s) (be32 (Z.of_nat (length data2)) ++ data2) ret evs.
Proof. intros []. by apply broken_socket. Qed.

(** At the end of the stream, after the records before it were
    processed: the descriptor is closed and no longer watched, the
    listening one is watched again, and no pending request will be
    answered. *)
Theorem connection_closed (s s1 : ril_state) l ts ps i e le :
  records_loop (P := P) legacy stack_avail junk fuel env fuel s = Ok (true, s1) ->
  reqs s1 l -> ev_inv (r_ev s1) ts ps ->
  slot (watch_table (r_ev s1)) i s_commands_event -> ev_heap (r_ev s1) !! s_commands_event = Some e ->
  idle_event (r_ev s1) ts s_listen_event le ->
  exists s' tev, processCommandsCallback (P := P) legacy ndebug stack_avail junk fuel env (s_fdCommand s) s = Ok (tt, s') /\
    s_fdCommand s' = -1 /\ r_trace s' = r_trace s1 ++ EClose (s_fdCommand s1) :: tev /\ tev ⊆ [ETrigger] /\
    reqs s' l /\ all_silent s' l /\ ev_inv (r_ev s') ts ps /\
    readFds (r_ev s') = {[fd le]} ∪ readFds (r_ev s1) ∖ {[fd e]} /\
    (forall j, ~ slot (watch_table (r_ev s')) j s_commands_event) /\
    (exists j, slot (watch_table (r_ev s')) j s_listen_event).
Proof.
  intros E0 Hl HI Hi He Hle.
  destruct (commands_closed legacy ndebug stack_avail junk fuel env s s1 l ts ps i e le E0 Hl HI Hi He Hle)
    as (s' & tev & H1 & H2 & H3 & H4 & H5 & H6 & H7 & H8 & H9 & H10 & _). by exists s', tev.
Qed.

(** A client that is not the phone process is never sent anything: its
    descriptor is closed at once and the daemon listens again. *)
Theorem connection_rejected (s : ril_state) l ts ps i le newfd :
  s_fdCommand s < 0 -> reqs s l -> ev_inv (r_ev s) ts ps -> idle_event (r_ev s) ts s_listen_event le ->
  watch_table (r_ev s) !! i = Some None ->
  o_accept env (r_trace s) = newfd -> 0 <= newfd -> o_cred env (r_trace s ++ [EAccept newfd]) <> Some PHONE_PROCESS ->
  exists s' tev, listenCallback (P := P) ndebug fuel env (s_fdListen s) s = Ok (tt, s') /\ s_fdCommand s' = -1 /\
    r_trace s' = r_trace s ++ EAccept newfd :: EClose newfd :: tev /\ tev ⊆ [ETrigger] /\
    reqs s' l /\ all_silent s' l /\ ev_inv (r_ev s') ts ps /\ exists j, slot (watch_table (r_ev s')) j s_listen_event.
Proof.
  intros Hfd Hl HI Hle Hi Ha Hn Hc.
  destruct (listen_rejects ndebug fuel env s l ts ps i le newfd Hfd Hl HI Hle Hi Ha Hn Hc)
    as (s' & tev & H1 & H2 & H3 & H4 & H5 & H6 & H7 & H8 & _). by exists s', tev.
Qed.

(** The phone process is greeted with the version of the RIL, then the
    radio state, then the NITZ time that could not be sent earlier, which
    is dropped whether or not it goes out now; and its descriptor is the
    command socket. *)
Theorem connection_greeted (s : ril_state) ts ps i e0 newfd :
  setting legacy fuel env ->
  s_fdCommand s < 0 -> unsol_inv s -> i32_ok (r_version s) -> ev_inv (r_ev s) ts ps ->
  ev_heap (r_ev s) !! s_commands_event = Some e0 -> (forall j, ~ slot (watch_table (r_ev s)) j s_commands_event) ->
  s_commands_event ∉ timer_list :: pending_list :: ts ++ ps ->
  watch_table (r_ev s) !! i = Some None ->
  o_accept env (r_trace s) = newfd -> fd_valid newfd = true -> newfd ∉ readFds (r_ev s) ->
  o_cred env (r_trace s ++ [EAccept newfd]) = Some PHONE_PROCESS ->
  let on_new (data : list Z) ret evs := sends (set_fdCommand newfd s) data ret evs in
  exists s' tr st ret1 ev1 ret2 ev2 ev3 t1 t2 t3 t4,
    listenCallback (P := P) ndebug fuel env (s_fdListen s) s = Ok (tt, s') /\
    s_fdCommand s' = newfd /\ s_lastNITZTimeData s' = None /\ unsol_inv s' /\
    r_trace s' = r_trace s ++ EAccept newfd :: t1 ++ ev1 ++ t2 ++ ev2 ++ t3 ++ ev3 ++ t4 /\
    on_new (le32 RESPONSE_UNSOLICITED ++ le32 (rilh RIL_UNSOL_RIL_CONNECTED) ++ le32 1 ++ le32 (r_version s)) ret1 ev1 /\
    st = o_state env tr /\
    on_new (le32 RESPONSE_UNSOLICITED ++ le32 (rilh RIL_UNSOL_RESPONSE_RADIO_STATE_CHANGED) ++ le32 (reported_state st)) ret2 ev2 /\
    match s_lastNITZTimeData s with Some data => exists ret3, on_new data ret3 ev3 | None => ev3 = [] end.
Proof.
  intros [Ha Hn Hw Hz Ht] Hfd HU Hv HI He0 Hns Hni Hi Hacc Hval Hr Hc on_new.
  destruct (listen_accepts ndebug fuel env s ts ps i e0 newfd) as
    (s1 & j & e & tev & E1 & F1 & U1 & _ & V1 & N1 & T1 & _); try done.
  { unfold fd_valid in Hval. lia. }
  destruct (onNewCommandConnect_ok legacy fuel env Hw Hz Ha Hn Ht s1 U1) as
    (s' & tr & st & ret1 & ev1 & ret2 & ev2 & ev3 & t1 & t2 & t3 & t4 & E2 & U2 & N2 & F2 & _ & _ & T2 & S1 & St & S2 & S3).
  { by rewrite V1. }
  assert (Hon : forall data ret evs, sends s1 data ret evs <-> on_new data ret evs).
  { intros data ret evs. unfold on_new, sends. by rewrite F1. }
  rewrite V1 in S1. apply Hon in S1, S2.
  exists s', tr, st, ret1, ev1, ret2, ev2, ev3, (tev ++ t1), t2, t3, t4. split_and!; try done.
  - by rewrite E1.
  - by rewrite F2.
  - by rewrite T2, T1, <- !app_assoc.
  - rewrite N1 in S3. destruct (s_lastNITZTimeData s) as [d|]; [|done].
    destruct S3 as (ret3 & S3). exists ret3. by apply Hon.
Qed.

(** ** Unsolicited responses, radio state, wake lock *)

(** C20. An unsolicited response other than the radio state takes the wake
    lock if its row says so.  Either its data is rejected, and then nothing
    is sent and the lock just taken is released at once; or its packet is
    sent, a NITZ time with the time of its reception, kept for the next
    client when it could not be sent; and the lock is left to a new wake
    timer. *)
Theorem unsolicited_sent unsol (s : ril_state) ts ps code ui data datalen :
  setting legacy fuel env ->
  s_registerCalled s = true -> unsol_row code ui -> code <> rilh RIL_UNSOL_RESPONSE_RADIO_STATE_CHANGED ->
  object_ok (P := P) (r_version s) (unsolResponseFunction ui) data datalen ->
  ev_inv (r_ev s) ts ps -> wake_inv s ->
  let grab := if wakes ui then [EWakeLock true] else [] in
  let extra := if code =? rilh RIL_UNSOL_NITZ_TIME_RECEIVED then le64 (o_realtime env (r_trace s ++ grab)) else [] in
  exists s', onUnsolicited_with fuel env unsol code data datalen s = Ok (tt, s') /\
    ((exists (p p1 : P), at_end p /\ responseFn (r_version s) (unsolResponseFunction ui) data datalen p =
         Ok (RIL_ERRNO_INVALID_RESPONSE, p1) /\
       s' = add_trace (grab ++ if wakes ui then [EWakeLock false] else []) s) \/
     exists packet, unsol_packet (P := P) (r_version s) code ui data datalen extra packet /\
       unsol_sent (add_trace grab s) ps code (wakes ui) packet s').
Proof. intros []. by apply unsol_plain_ok. Qed.

(** The state an old RIL reports implies a voice technology, a CDMA
    subscription source (for 3GPP2 technologies) and a SIM status; each is
    stored, and one notification is issued for each that changed and none
    for the others; when nothing changed nothing happens at all. *)
Theorem radio_state_notifies_changes unsol (s : ril_state) st :
  setting legacy fuel env -> unsol_inv s -> old_state st ->
  exists s' evs, processRadioState_with (onUnsolicited_with (P := P) fuel env unsol) st s = Ok (rilh RADIO_STATE_ON, s') /\
    unsol_inv s' /\ same_rest s s' /\ radio s' = radio_after s st /\ r_trace s' = r_trace s ++ evs /\
    grabs evs = radio_changes s st /\ (radio_changes s st = 0%nat -> s' = s).
Proof. intros []. by apply (processRadioState_ok _ _ set_alloc0 set_now0 set_live0 set_sizes0 legacy). Qed.

(** C24. The wake timer: after a response that wakes, the new timer, due one
    second later (as the 32-bit [tv_sec] holds it), is the only one that will release the lock; the earlier
    ones are cancelled.  When a wake timer fires, the lock is released if
    and only if it is that one, its object is freed, and the event lists
    and the pending requests are untouched. *)
Theorem wake_timer_last_releases (s : ril_state) ts ps :
  setting legacy fuel env -> ev_inv (r_ev s) ts ps -> wake_inv s ->
  let a := o_alloc env (used s) in
  let t := tv_us (o_now env (r_trace s)) + tv_us TIMEVAL_WAKE_TIMEOUT in
  let d := us32 t in
  (us_ok t -> d = t) /\
  (exists s' evs, schedule_wake_timeout env s = Ok (tt, s') /\
     r_trace s' = r_trace s ++ evs /\ evs ⊆ [ETrigger] /\ s_last_wake_timeout_info s' = Some a /\
     due (ev_heap (r_ev s')) a = d /\ ev_inv (r_ev s') (due_list s ts a d) ps /\ wake_inv s') /\
  (forall l u, r_timers s !! l = Some u -> p_callback u = TC_wakeTimeoutCallback ->
     l ∉ timer_list :: pending_list :: ts ++ ps -> (forall i, ~ slot (watch_table (r_ev s)) i l) ->
     let last := bool_decide (s_last_wake_timeout_info s = Some l) in
     exists s', userTimerCallback (P := P) fuel env (Some l) s = Ok (tt, s') /\
       r_trace s' = r_trace s ++ (if last then [EWakeLock false] else []) /\
       r_timers s' = delete l (r_timers s) /\
       s_last_wake_timeout_info s' = (if last then None else s_last_wake_timeout_info s) /\
       ev_inv (r_ev s') ts ps /\ wake_inv s' /\ r_heap s' = r_heap s /\ s_pendingRequests s' = s_pendingRequests s).
Proof.
  intros [Ha Hn _ _ _] HI HW a t d. split; [apply us32_id|split].
  - destruct (schedule_wake_timeout_ok env Ha Hn s ts ps HI HW) as (e' & evs & E & Hev & _ & Hd & _ & HI' & HW').
    cbn zeta in *. eexists _, evs. split; [exact E|]. by split_and!.
  - intros l u Hu Hc Hnin Hns. by apply (wake_timer_fires fuel env s ts ps l u).
Qed.

(** The voice technology and CDMA subscription queries: with the radio
    on, the vendor is asked; with the radio off or unavailable the one
    response is RADIO_NOT_AVAILABLE (the second completion the code issues
    finds nothing); in a state of an old RIL the value it implies is stored
    and sent, or GENERIC_FAILURE if it implies none. *)
Theorem radio_query_answered (s : ril_state) f l1 a l2 r (p : P) :
  setting legacy fuel env -> is_query f ->
  reqs s (l1 ++ a :: l2) -> r_heap s !! a = Some r -> silent r = false ->
  dispatchFunction (pCI r) = Some f -> responseFunction (pCI r) = Some F_responseInts ->
  NoDup [rilh RADIO_STATE_UNAVAILABLE; rilh RADIO_STATE_OFF; rilh RADIO_STATE_ON] ->
  let state := o_state env (r_trace s) in
  let v := query_value f state in
  let run := dispatch (P := P) legacy stack_avail junk fuel env p a in
  let header code := le32 RESPONSE_SOLICITED ++ le32 (token r) ++ le32 code in
  if state =? rilh RADIO_STATE_ON
  then run s = onRequest (P := P) fuel env (requestNumber (pCI r)) VNull 0 a s
  else exists s' packet ret evs, run s = Ok (tt, s') /\ reqs s' (l1 ++ l2) /\ r_heap s' !! a = None /\
    r_trace s' = r_trace s ++ evs /\ sends s packet ret evs /\
    packet = if (state =? rilh RADIO_STATE_UNAVAILABLE) || (state =? rilh RADIO_STATE_OFF)
             then header (rilh RIL_E_RADIO_NOT_AVAILABLE)
             else if v <? 0 then header (rilh RIL_E_GENERIC_FAILURE)
             else header (rilh RIL_E_SUCCESS) ++ le32 1 ++ le32 v.
Proof.
  intros [_ _ Hw Hz _] Hq Hl Hr Hs Hd Hrf Hnd state v run header. unfold run.
  rewrite (dispatch_query legacy stack_avail junk fuel env s f a r p Hq Hr Hd).
  assert (Hne : rilh RADIO_STATE_UNAVAILABLE <> rilh RADIO_STATE_ON /\ rilh RADIO_STATE_OFF <> rilh RADIO_STATE_ON).
  { apply NoDup_cons in Hnd as [H1 Hnd]. apply NoDup_cons in Hnd as [H2 _]. set_solver. }
  destruct Hne as [N1 N2]. destruct (Z.eqb_spec state (rilh RADIO_STATE_ON)) as [Hon|Hon].
  { apply query_on; unfold state in *; congruence. }
  destruct ((state =? _) || _) eqn:Hoff.
  - destruct (query_off fuel env Hw Hz s f l1 a l2 r (requestNumber (pCI r)) Hl Hr Hs) as (s' & ret & evs & E & L & T & F & S);
      [unfold state in Hoff; lia|done|]. by exists s', (header (rilh RIL_E_RADIO_NOT_AVAILABLE)), ret, evs.
  - apply orb_false_iff in Hoff as [O1%Z.eqb_neq O2%Z.eqb_neq].
    destruct (query_old fuel env Hw Hz s f l1 a l2 r (requestNumber (pCI r)) Hl Hr Hs Hrf O1 O2 Hon) as (s' & ret & evs & E & L & (F & _ & C) & S).
    eexists s', _, ret, evs. split_and!; [done|done|done| |exact S|].
    + rewrite C. by destruct Hq as [->| ->].
    + fold state v. unfold header. destruct (v <? 0); by rewrite <- ?app_assoc.
Qed.

End Theorems.

(** ** Instances *)

(** A vendor that answers BASEBAND_VERSION with "ab". *)
Definition ex_baseband (s : ril_state) : list vendor_call :=
  match r_trace s with
  | [EOnRequest _ _ _ a] => [CallComplete (Some a) 0 (VString [97; 98]) 4]
  | _ => []
  end.

Definition ex_ci : CommandInfo := row RIL_REQUEST_BASEBAND_VERSION F_dispatchVoid F_responseString.

Lemma request_answered_witness :
  exists s' packet ret evs,
    processCommandBuffer (P := buf) true 4096 0 ex_fuel (ex_env 10 ex_baseband None) (le32 51 ++ le32 7 ++ []) ex_ril = Ok (0, s') /\
    reqs s' [] /\ sends ex_ril packet ret evs /\
    completion_packet (P := buf) 6 (mkRI 7 ex_ci None 0 0) 0 (VString [97; 98]) 4 packet.
Proof.
  destruct (request_answered (P := buf) true 4096 0 ex_fuel (ex_env 10 ex_baseband None) ex_ril [] 51 7 [] ex_ci F_dispatchVoid
    VNull 0 0 (VString [97; 98]) 4) as (s' & packet & ret & evs & E & L & _ & S & C).
  - apply ex_setting.
  - apply ex_reqs.
  - unfold i32_ok; lia.
  - unfold i32_ok; lia.
  - lia.
  - reflexivity.
  - reflexivity.
  - by split.
  - apply (reads_ret (P := buf)).
  - reflexivity.
  - right. by exists F_responseString.
  - by exists s', packet, ret, evs.
Defined.

(** The daemon with one request, at address 20, pending. *)
Definition ex_pending : ril_state := set_reqs {[20%positive := mkRI 7 ex_ci None 0 0]} (Some 20%positive) ex_ril.

Lemma ex_pending_reqs : reqs ex_pending [20%positive].
Proof. split; [apply NoDup_singleton|]. split; [done|]. by eexists. Qed.

Lemma completion_once_witness :
  exists s' evs, RIL_onRequestComplete (P := buf) ex_fuel (ex_env 10 no_calls None) (Some 20%positive) 0 VNull 0 ex_pending = Ok (tt, s') /\
    reqs s' [] /\ answered (P := buf) ex_pending (mkRI 7 ex_ci None 0 0) 0 VNull 0 evs /\
    RIL_onRequestComplete (P := buf) ex_fuel (ex_env 10 no_calls None) (Some 20%positive) 1 VNull 0 s' = Ok (tt, s').
Proof.
  destruct (completion_once (P := buf) true ex_fuel (ex_env 10 no_calls None) ex_pending [] 20%positive [] (mkRI 7 ex_ci None 0 0) 0 VNull 0)
    as (s' & evs & E & L & _ & A & T).
  - apply ex_setting.
  - apply ex_pending_reqs.
  - reflexivity.
  - intros _. by left.
  - exists s', evs. split; [exact E|]. split; [exact L|]. split; [exact A|apply T].
Defined.

Lemma closed_silences_witness :
  exists s1 s2 l', onCommandsSocketClosed ex_pending = Ok (tt, s1) /\
    vendor_calls (P := buf) ex_fuel (ex_env 10 no_calls None) [CallComplete (Some 20%positive) 0 VNull 0; CallComplete None 0 VNull 0] s1 = Ok (tt, s2) /\
    r_trace s2 = [] /\ reqs s2 l' /\ l' ⊆ [20%positive].
Proof.
  exact (closed_silences (P := buf) true ex_fuel (ex_env 10 no_calls None) ex_pending [20%positive]
    [(Some 20%positive, 0, VNull, 0); (None, 0, VNull, 0)] (ex_setting _ _ _ _) ex_pending_reqs).
Defined.

Lemma stale_response_reaches_new_client_witness :
  exists s1 s2 s3 packet ret evs,
    checkAndDequeueRequestInfo (Some 20%positive) ex_pending = Ok (1, s1) /\
    onCommandsSocketClosed s1 = Ok (tt, s2) /\
    complete_dequeued (P := buf) ex_fuel (ex_env 10 no_calls None) 20%positive 0 VNull 0 (set_fdCommand 12 s2) = Ok (tt, s3) /\
    completion_packet (P := buf) 6 (mkRI 7 ex_ci None 0 0) 0 VNull 0 packet /\
    sends (set_fdCommand 12 s2) packet ret evs /\ r_trace s3 = evs.
Proof.
  destruct (stale_response_reaches_new_client (P := buf) true ex_fuel (ex_env 10 no_calls None) ex_pending [] 20%positive []
    (mkRI 7 ex_ci None 0 0) 0 VNull 0 12) as (s1 & s2 & s3 & packet & ret & evs & E1 & E2 & _ & E3 & C & S & T).
  - apply ex_setting.
  - apply ex_pending_reqs.
  - reflexivity.
  - reflexivity.
  - by left.
  - by exists s1, s2, s3, packet, ret, evs.
Defined.

Lemma bad_record_handled_witness :
  processCommandBuffer (P := buf) true 4096 0 ex_fuel (ex_env 10 no_calls None) [1; 0; 0; 0] ex_ril = Ok (0, ex_ril) /\
  exists ret evs, processCommandBuffer (P := buf) true 4096 0 ex_fuel (ex_env 10 no_calls None) (le32 4000 ++ le32 7 ++ []) ex_ril =
    Ok (0, add_trace evs ex_ril) /\ sends ex_ril (le32 0 ++ le32 7 ++ le32 2) ret evs.
Proof.
  split.
  - apply (bad_record_handled (P := buf) true 4096 0 ex_fuel (ex_env 10 no_calls None) ex_ril [1; 0; 0; 0] 0 0 []); [apply ex_setting|simpl; lia].
  - refine (proj2 (bad_record_handled (P := buf) true 4096 0 ex_fuel (ex_env 10 no_calls None) ex_ril
      (le32 4000 ++ le32 7 ++ []) 4000 7 [] (ex_setting _ _ _ _)) _ _ _ _).
    + reflexivity.
    + unfold i32_ok; lia.
    + unfold i32_ok; lia.
    + right. vm_compute. discriminate.
Defined.

(** SCREEN_STATE without its argument. *)
Definition ex_screen : CommandInfo := row RIL_REQUEST_SCREEN_STATE F_dispatchInts F_responseVoid.

Lemma invalid_block_stays_pending_witness :
  exists s', processCommandBuffer (P := buf) true 4096 0 ex_fuel (ex_env 10 no_calls None) (le32 61 ++ le32 7 ++ []) ex_ril = Ok (0, s') /\
    r_trace s' = [EInvalidBlock 7 61] /\ reqs s' [fresh (used ex_ril)].
Proof.
  apply (invalid_block_stays_pending (P := buf) true 4096 0 ex_fuel (ex_env 10 no_calls None) ex_ril [] 61 7 [] ex_screen F_dispatchInts).
  - apply ex_setting.
  - apply ex_reqs.
  - unfold i32_ok; lia.
  - unfold i32_ok; lia.
  - lia.
  - reflexivity.
  - reflexivity.
  - by split.
  - intros p [_ Hr]. destruct (rdI32_starved (P := buf) 0 p) as (p' & E & _); [unfold starved; rewrite Hr; simpl; lia|].
    exists p'. simpl. unfold dispatchInts. by rewrite (cmd_bind_Ok _ _ _ _ _ E).
Defined.

Lemma dispatch_initialised_witness :
  result (dispatchFn (P := buf) 6 (use_cla true) 4096 1 F_dispatchDial 10 ([1; 2; 3], 0%nat)) =
  result (dispatchFn (P := buf) 6 (use_cla true) 4096 2 F_dispatchDial 10 ([1; 2; 3], 0%nat)).
Proof. exact (dispatch_initialised (P := buf) true 4096 6 F_dispatchDial 10 1 2 ([1; 2; 3], 0%nat)). Defined.

Lemma dispatch_typed_witness :
  arg_ok 6 0 (le32 2 ++ le32 5 ++ le32 6, 0%nat) (le32 2 ++ le32 5 ++ le32 6, 12%nat) F_dispatchInts (VInts [5; 6]) 8.
Proof.
  apply (dispatch_typed (P := buf) 4096 0 6 false F_dispatchInts 1 (le32 2 ++ le32 5 ++ le32 6, 0%nat) (le32 2 ++ le32 5 ++ le32 6, 12%nat)).
  - unfold i32_ok; lia.
  - lia.
  - apply ex_sizes.
  - simpl. lia.
  - by vm_compute.
Defined.

(** A record that ends after its count. *)
Lemma dispatch_defined_witness :
  exists d p', dispatchFn (P := buf) 6 false 4096 0 F_dispatchDataCall 27 (le32 7, 0%nat) = Ok (d, p').
Proof.
  apply (dispatch_defined (P := buf) 4096 0 6 false F_dispatchDataCall 27 (le32 7, 0%nat)).
  - lia.
  - simpl; lia.
  - intros count p' E. vm_compute in E. injection E as <- _. unfold member_size, sizeof_ptr. lia.
Defined.

Lemma response_functions_safe_witness :
  exists ret p', responseFn (P := buf) 6 F_responseStrings (VStrings [Some [97]; None]) 8 ([], 0%nat) = Ok (ret, p') /\
    (ret = 0 \/ ret = RIL_ERRNO_INVALID_RESPONSE).
Proof.
  destruct (response_functions_safe (P := buf) 6 F_responseStrings (VStrings [Some [97]; None]) 8 ([], 0%nat)) as (ret & p' & E & S & _).
  - apply ex_sizes.
  - reflexivity.
  - reflexivity.
  - by exists ret, p'.
Defined.

Lemma ex_str_ok : str_ok (Forall (fun c => 0 < c < 128)) (Some [97; 98]).
Proof. intros x [= <-]. split; [repeat constructor; lia|simpl; lia]. Qed.

Lemma ex_null_ok : str_ok (Forall (fun c => 0 < c < 128)) None.
Proof. done. Qed.

Lemma wire_primitives_witness :
  exists p1 p2, responseStrings (P := buf) (VStrings [Some [97; 98]; None]) 8 ([5], 1%nat) = Ok (0, p1) /\
    dispatchStrings 4096 0 (setDataPosition 1 p1) = Ok (DRequest (VStrings [Some [97; 98]; None]) 8, p2) /\ remaining p2 = [].
Proof.
  refine (proj1 (proj2 (wire_primitives (P := buf) 4096 0 [1] [Some [97; 98]; None] [] ([5], 1%nat) _ _)) _ _ _).
  - reflexivity.
  - lia.
  - apply Forall_cons_2; [apply ex_str_ok|]. apply Forall_cons_2; [apply ex_null_ok|]. apply Forall_nil_2.
  - simpl; lia.
  - simpl; lia.
Defined.

Lemma wire_cell_broadcast_witness :
  exists p1 p2, responseCdmaBrSmsCnf (P := buf) (VCdmaBci [Some (mkCdmaBci 1 2 1)]) 4 ([], 0%nat) = Ok (0, p1) /\
    dispatchCdmaBrSmsCnf 4096 0 (setDataPosition 0 p1) = Ok (DRequest (VCdmaBci [Some (mkCdmaBci 1 2 1)]) 4, p2) /\ remaining p2 = [].
Proof.
  refine (proj2 (wire_cell_broadcast (P := buf) 4096 0 [] [mkCdmaBci 1 2 1] ([], 0%nat) _) _ _ _).
  - reflexivity.
  - repeat constructor; simpl; unfold i32_ok; lia.
  - simpl; lia.
  - vm_compute. discriminate.
Defined.

(** Two address digits, one byte of data. *)
Definition ex_sms : RIL_CDMA_SMS_Message :=
  mkCdmaSms 4098 1 0 (mkAddr 1 0 0 0 2 (zero_fill (rilh RIL_CDMA_SMS_ADDRESS_MAX) [3; 4]))
    (mkSub 0 0 0 (zero_fill (rilh RIL_CDMA_SMS_SUBADDRESS_MAX) [])) 1 (zero_fill (rilh RIL_CDMA_SMS_BEARER_DATA_MAX) [200]).

Lemma wire_cdma_sms_witness :
  exists p1 p2, responseCdmaSms (P := buf) (VCdmaSms ex_sms) 376 ([], 0%nat) = Ok (0, p1) /\
    dispatchCdmaSms 0 (setDataPosition 0 p1) = Ok (DRequest (VCdmaSms ex_sms) 376, p2) /\ remaining p2 = [].
Proof.
  refine (wire_cdma_sms (P := buf) 0 ex_sms ([], 0%nat) _ _); [reflexivity|].
  split; [repeat constructor; simpl; lia|]. split; [|split]; split; reflexivity.
Defined.

Definition ex_params : list cstr := [Some [97; 98]; None; None; Some [97; 98]; None; None; Some [97; 98]].

Lemma data_call_old_vendor_witness :
  exists p', dispatchDataCall (P := buf) 3 4096 0 (enc_all (strings_items ex_params), 0%nat) =
    Ok (DRequest (VStrings [Some [97; 98]; Some []; Some []; Some [97; 98]; Some []; Some []]) 24, p').
Proof.
  apply (data_call_old_vendor (P := buf) 4096 0 3 ex_params (enc_all (strings_items ex_params), 0%nat) (enc_all (strings_items ex_params)) []).
  - lia.
  - simpl; lia.
  - simpl; lia.
  - repeat (apply Forall_cons_2; [first [apply ex_str_ok|apply ex_null_ok]|]). apply Forall_nil_2.
  - lia.
  - split; [reflexivity|]. by rewrite app_nil_r.
Defined.

Lemma signal_strength_values_witness :
  exists p', responseRilSignalStrength (P := buf) 6
      (VSignalStrength (mkSS 1 2 3 4 5 6 7 (Some (mkLte (-1) (-90) (-1) 8 9)) None None)) 48 ([], 0%nat) = Ok (0, p') /\
    parcel_data p' = enc_all (WI32 <$> [1; 2; 3; 4; 5; 6; 7; 99; 90; INT_MAX; 8; 9; INT_MAX; INT_MAX]).
Proof.
  destruct (signal_strength_values (P := buf) 6 (mkSS 1 2 3 4 5 6 7 (Some (mkLte (-1) (-90) (-1) 8 9)) None None) 48 ([], 0%nat))
    as (p' & E & D & _).
  - vm_compute. discriminate.
  - intros _. eexists. split; [reflexivity|]. intros _. discriminate.
  - intros H. by vm_compute in H.
  - intros H. by vm_compute in H.
  - reflexivity.
  - exists p'. split; [exact E|exact D].
Defined.

Lemma response_framed_witness :
  exists ret evs, sendResponseRaw ex_fuel (ex_env 10 no_calls None) [1; 2] ex_ril = Ok (ret, add_trace evs ex_ril) /\
    (ret = 0 /\ sent_on 9 evs = [0; 0; 0; 2; 1; 2] \/
     ret = -1 /\ sent_on 9 evs `prefix_of` [0; 0; 0; 2; 1; 2] /\ EClose 9 ∈ evs).
Proof. exact (response_framed true ex_fuel (ex_env 10 no_calls None) ex_ril [1; 2] (ex_setting _ _ _ _)). Defined.

(** The same daemon on a socket whose first write fails. *)
Definition ex_broken : ril_env :=
  let e := ex_env 10 no_calls None in
  mkEnv (fun tr fd b => match tr with [] => WriteError false | _ => Wrote (length b) end) (o_state e) (o_realtime e)
    (o_now e) (o_alloc e) (o_self_is_dispatch e) (o_vendor e) (o_record e) (o_accept e) (o_cred e) (o_stream e) (o_getVersion e).

Lemma ex_broken_setting : setting true ex_fuel ex_broken.
Proof.
  split; [apply (ex_alloc 10 no_calls None)|apply (ex_now 10 no_calls None)| |apply ex_sizes|apply ex_tables].
  exists 0%nat. split; [unfold ex_fuel; lia|]. intros tr fd b Hb. exists 0%nat. split_and!; [lia|intros i Hi; lia|].
  destruct tr, b; simpl; try done; lia.
Qed.

Lemma broken_socket_still_used_witness :
  exists s1 ret evs, sendResponseRaw ex_fuel ex_broken [1] ex_ril = Ok (-1, s1) /\
    r_trace s1 = [EWriteError 9 false; EClose 9] /\
    sendResponseRaw ex_fuel ex_broken [2] s1 = Ok (ret, add_trace evs s1) /\ write_end 9 [0; 0; 0; 1; 2] ret evs.
Proof.
  refine (broken_socket_still_used true ex_fuel ex_broken ex_ril [1] [2] ex_broken_setting _ _ _ _).
  - simpl; lia.
  - vm_compute. discriminate.
  - vm_compute. discriminate.
  - reflexivity.
Defined.

Definition ex_pending_closed : ril_state := add_trace [ERecord] ex_pending.

Lemma ex_listen_idle : idle_event ex_ev [] s_listen_event (ex_ev_event 5 false CB_listenCallback).
Proof.
  split_and!; [done|by intros j [_ ?]%ex_slot|done|simpl; set_solver|set_solver].
Qed.

Lemma connection_closed_witness :
  exists s' tev, processCommandsCallback (P := buf) true false 4096 0 ex_fuel (ex_env 10 no_calls None) 9 ex_pending = Ok (tt, s') /\
    s_fdCommand s' = -1 /\ r_trace s' = ERecord :: EClose 9 :: tev /\ all_silent s' [20%positive] /\
    readFds (r_ev s') = {[5]} ∪ {[9]} ∖ {[9]}.
Proof.
  destruct (connection_closed (P := buf) true false 4096 0 ex_fuel (ex_env 10 no_calls None) ex_pending ex_pending_closed
    [20%positive] [] [] 0 (set_index 0 (ex_ev_event 9 true CB_processCommandsCallback)) (ex_ev_event 5 false CB_listenCallback))
    as (s' & tev & E & F & T & _ & _ & A & _ & R & _).
  - exact (records_turn (P := buf) true 4096 0 ex_fuel (ex_env 10 no_calls None) (Z.to_nat MAX_COMMAND_BYTES) ex_pending).
  - eapply reqs_ext; [| |apply ex_pending_reqs]; reflexivity.
  - apply ex_ev_inv.
  - reflexivity.
  - reflexivity.
  - apply ex_listen_idle.
  - by exists s', tev.
Defined.

(** The daemon without a client: nothing watched. *)
Definition ex_ev_alone : estate callback := mkEstate
  (<[s_commands_event := ex_ev_event 9 true CB_processCommandsCallback]>
    (<[s_listen_event := ex_ev_event 5 false CB_listenCallback]>
      (<[pending_list := ex_sent pending_list]> (<[timer_list := ex_sent timer_list]> ∅))))
  (replicate MAX_FD_EVENTS None) ∅ 1.

Definition ex_alone : ril_state := set_nitz (Some [1; 2; 3]) (set_fdCommand (-1) (set_ev ex_ev_alone ex_ril)).

Lemma ex_alone_inv : ev_inv ex_ev_alone [] [].
Proof. apply ev_inv_empty; try reflexivity. by right. Qed.

Lemma ex_alone_slot j a : ~ slot (watch_table ex_ev_alone) j a.
Proof. intros H. by apply (lookup_replicate_1 MAX_FD_EVENTS) in H as [? _]. Qed.

Lemma connection_rejected_witness :
  exists s' tev, listenCallback (P := buf) false ex_fuel (ex_env 10 no_calls None) 5 ex_alone = Ok (tt, s') /\
    s_fdCommand s' = -1 /\ r_trace s' = EAccept 12 :: EClose 12 :: tev /\ tev ⊆ [ETrigger].
Proof.
  destruct (connection_rejected (P := buf) false ex_fuel (ex_env 10 no_calls None) ex_alone [] [] [] 0
    (ex_ev_event 5 false CB_listenCallback) 12) as (s' & tev & E & F & T & S & _).
  - reflexivity.
  - apply (reqs_ext ex_ril); [reflexivity..|apply ex_reqs].
  - apply ex_alone_inv.
  - split_and!; [reflexivity|intros j; apply ex_alone_slot|reflexivity|set_solver|set_solver].
  - reflexivity.
  - reflexivity.
  - lia.
  - simpl. discriminate.
  - by exists s', tev.
Defined.

Lemma connection_greeted_witness :
  exists s' ret1 ev1 ev3 t1 t2, listenCallback (P := buf) false ex_fuel (ex_env 10 no_calls (Some PHONE_PROCESS)) 5 ex_alone = Ok (tt, s') /\
    s_fdCommand s' = 12 /\ s_lastNITZTimeData s' = None /\
    r_trace s' = EAccept 12 :: t1 ++ ev1 ++ t2 /\
    sends (set_fdCommand 12 ex_alone) (le32 1 ++ le32 1034 ++ le32 1 ++ le32 6) ret1 ev1 /\
    exists ret3, sends (set_fdCommand 12 ex_alone) [1; 2; 3] ret3 ev3.
Proof.
  destruct (connection_greeted (P := buf) true false ex_fuel (ex_env 10 no_calls (Some PHONE_PROCESS)) ex_alone [] [] 0
    (ex_ev_event 9 true CB_processCommandsCallback) 12)
    as (s' & tr & st & ret1 & ev1 & ret2 & ev2 & ev3 & t1 & t2 & t3 & t4 & E & F & N & _ & T & S1 & _ & _ & S3).
  - apply ex_setting.
  - reflexivity.
  - split; [reflexivity|]. split; [by apply (wake_inv_timers ex_ril), ex_wake|]. exists [], []. apply ex_alone_inv.
  - unfold i32_ok; simpl; lia.
  - apply ex_alone_inv.
  - reflexivity.
  - intros j. apply ex_alone_slot.
  - set_solver.
  - reflexivity.
  - reflexivity.
  - reflexivity.
  - set_solver.
  - reflexivity.
  - exists s', ret1, ev1, ev3, t1, (t2 ++ ev2 ++ t3 ++ ev3 ++ t4). by split_and!.
Defined.

Lemma unsolicited_sent_witness :
  exists s', onUnsolicited_with (P := buf) ex_fuel (ex_env 10 no_calls None) (fun _ _ _ => mret tt) 1008 (VString [49]) 4 ex_ril = Ok (tt, s') /\
    ((exists (p p1 : buf), at_end p /\ responseFn (P := buf) 6 F_responseString (VString [49]) 4 p = Ok (RIL_ERRNO_INVALID_RESPONSE, p1) /\
       s' = add_trace [EWakeLock true; EWakeLock false] ex_ril) \/
     exists packet, unsol_packet (P := buf) 6 1008 (urow RIL_UNSOL_NITZ_TIME_RECEIVED F_responseString WAKE_PARTIAL)
         (VString [49]) 4 (le64 77) packet /\
       unsol_sent (add_trace [EWakeLock true] ex_ril) [] 1008 true packet s').
Proof.
  refine (unsolicited_sent (P := buf) true ex_fuel (ex_env 10 no_calls None) (fun _ _ _ => mret tt) ex_ril [] [] 1008
    (urow RIL_UNSOL_NITZ_TIME_RECEIVED F_responseString WAKE_PARTIAL) (VString [49]) 4 (ex_setting _ _ _ _) _ _ _ _ _ _).
  - reflexivity.
  - split; [vm_compute; discriminate|reflexivity].
  - vm_compute. discriminate.
  - exact I.
  - apply ex_ev_inv.
  - apply ex_wake.
Defined.

Lemma radio_state_notifies_changes_witness :
  exists s' evs, processRadioState_with (onUnsolicited_with (P := buf) ex_fuel (ex_env 10 no_calls None) (fun _ _ _ => mret tt)) 6 ex_ril = Ok (10, s') /\
    radio s' = (6, 0, 6) /\ r_trace s' = evs /\ grabs evs = 3%nat.
Proof.
  destruct (radio_state_notifies_changes (P := buf) true ex_fuel (ex_env 10 no_calls None) (fun _ _ _ => mret tt) ex_ril 6)
    as (s' & evs & E & _ & _ & R & T & G & _).
  - apply ex_setting.
  - apply ex_unsol_inv.
  - split; reflexivity.
  - exists s', evs. split; [exact E|]. split; [exact R|]. split; [exact T|exact G].
Defined.

Lemma wake_timer_last_releases_witness :
  exists s' evs, schedule_wake_timeout (ex_env 10 no_calls None) ex_ril = Ok (tt, s') /\ r_trace s' = evs /\
    s_last_wake_timeout_info s' = Some (fresh (used ex_ril)) /\
    due (ev_heap (r_ev s')) (fresh (used ex_ril)) = 101000000 /\ wake_inv s'.
Proof.
  destruct (proj1 (proj2 (wake_timer_last_releases (P := buf) true ex_fuel (ex_env 10 no_calls None) ex_ril [] []
    (ex_setting _ _ _ _) ex_ev_inv ex_wake))) as (s' & evs & E & T & _ & L & D & _ & W).
  exists s', evs. split; [exact E|]. split; [exact T|]. split; [exact L|]. split; [exact D|exact W].
Defined.

(** VOICE_RADIO_TECH pending, the radio off. *)
Definition ex_query : ril_state :=
  set_reqs {[20%positive := mkRI 7 (row RIL_REQUEST_VOICE_RADIO_TECH F_dispatchVoiceRadioTech F_responseInts) None 0 0]} (Some 20%positive) ex_ril.

Lemma radio_query_answered_witness :
  exists s' packet ret evs, dispatch (P := buf) true 4096 0 ex_fuel (ex_env 0 no_calls None) ([], 0%nat) 20%positive ex_query = Ok (tt, s') /\
    reqs s' [] /\ sends ex_query packet ret evs /\ packet = le32 0 ++ le32 7 ++ le32 1.
Proof.
  destruct (radio_query_answered (P := buf) true 4096 0 ex_fuel (ex_env 0 no_calls None) ex_query F_dispatchVoiceRadioTech [] 20%positive []
    (mkRI 7 (row RIL_REQUEST_VOICE_RADIO_TECH F_dispatchVoiceRadioTech F_responseInts) None 0 0) ([], 0%nat))
    as (s' & packet & ret & evs & E & L & _ & _ & S & ->).
  - apply ex_setting.
  - by left.
  - split; [apply NoDup_singleton|]. split; [done|]. by eexists.
  - reflexivity.
  - reflexivity.
  - reflexivity.
  - reflexivity.
  - apply (bool_decide_unpack _). vm_compute. exact I.
  - by eexists s', _, ret, evs.
Defined.
