(* ===== verification/RilMainTheorems.v ===== *)
(** * Properties of the running daemon

    The daemon from its start, over every sequence of turns of its event
    loop and of calls from the vendor's threads; the debug port; and what
    [RIL_register] refuses.  The lemmas are those of RilDaemon, RilLoop,
    RilDebug, RilTurn and RilStart; the instances run the daemon of
    RilExample.v with descriptors 4 (the pipe), 5 and 6 (the sockets). *)

From Stdlib Require Import String.
From S2P Require Import Prelude Bytes Parcel RilConst RilTypes RilDispatch RilResponse RilWire RilResponseSpec.
From S2P Require Import EventHeap EventLoop EventSpec EventLoopSpec RilCore RilRequests RilTimers RilUnsol RilCommand.
From S2P Require Import RilSocket RilDaemon RilLoop CStr RilMain RilDebug RilTurn RilStart RilExample.

Open Scope Z_scope.

Section Running.
Context {P : Type} {HPar : Parcel P} {HLaws : ParcelLaws P} {HJS : JString} {HH : RilH}.
Variables (legacy ndebug : bool) (stack_avail junk : Z) (junk_uus : option RIL_UUS_Info).
Variables (version wakeup_fd listen_fd debug_fd : Z) (name debug_name : string).

Abbreviation turn fuel env menv :=
  (ril_event_loop_body (callback_call (P := P) legacy ndebug stack_avail junk fuel env menv junk_uus)).
Abbreviation vendor fuel env calls := (onril (vendor_calls (P := P) fuel env calls)).
Abbreviation outside fuel env menv :=
  (outside (P := P) legacy stack_avail junk fuel env menv version wakeup_fd listen_fd debug_fd).
Abbreviation good := (good version wakeup_fd listen_fd debug_fd).
Abbreviation boot env menv o := ((RIL_setRilSocketName name;; start legacy ndebug env menv version o) boot_state).

(** A step of the daemon: a turn of the event loop, with more fuel than
    there are events; or calls from a thread of the vendor's.  Each step has
    an outside of its own: what comes from the clients, the system and the
    vendor later has nothing to do with what came before. *)
Inductive daemon_step : main_state -> main_state -> Prop :=
| TurnStep fuel env menv n lenv b m m' :
    outside fuel env menv -> tv_ok (now_calc lenv) -> tv_ok (now_proc lenv) -> enough n m ->
    turn fuel env menv n lenv m = Ok (b, m') -> daemon_step m m'
| VendorStep fuel env menv calls m m' :
    outside fuel env menv -> calls_ok (P := P) version (m_ril m) calls ->
    vendor fuel env calls m = Ok (tt, m') -> daemon_step m m'.

(** The conditions under which the daemon starts. *)
Record startable (fuel : nat) (env : ril_env) (menv : main_env) : Prop := {
  st_outside : outside fuel env menv;
  st_starter : starter menv wakeup_fd listen_fd debug_fd name debug_name;
  st_version : rilh RIL_VERSION_MIN <= version <= rilh RIL_VERSION;
  st_name : array_string (char_array (rilh MAX_SOCKET_NAME_LENGTH) name) = Some name }.

(** The process was started as the daemon's main function does it, its
    event thread being somewhere in between ([o]), and has run since. *)
Definition running (o : order) (m : main_state) : Prop := exists fuel env menv m0,
  startable fuel env menv /\ boot env menv o = Ok (None, m0) /\ rtc daemon_step m0 m.

Lemma step_good m m' : daemon_step m m' -> good m [] -> good m' [].
Proof.
  intros [fuel env menv n lenv b m1 m2 Ho H1 H2 Hn E|fuel env menv calls m1 m2 Ho Hc E] HG.
  - destruct (turn_ok legacy ndebug stack_avail junk fuel env menv junk_uus version wakeup_fd listen_fd debug_fd Ho lenv n m1 H1 H2 Hn HG)
      as (b' & m3 & E' & G' & _). rewrite E in E'. by injection E' as -> ->.
  - destruct (vendor_good legacy stack_avail junk fuel env menv version wakeup_fd listen_fd debug_fd Ho calls m1 [] Hc HG)
      as (m3 & E' & G'). rewrite E in E'. by injection E' as ->.
Qed.

Lemma starts fuel env menv o : startable fuel env menv -> exists m0, boot env menv o = Ok (None, m0) /\ good m0 [].
Proof.
  intros [Ho Hs Hv Hn]. eapply start_good; try done; [apply Ho|apply Ho].
Qed.

Lemma running_good o m : running o m -> good m [].
Proof.
  intros (fuel & env & menv & m0 & HS & E0 & Hr). destruct (starts fuel env menv o HS) as (m1 & E1 & G).
  rewrite E0 in E1. injection E1 as <-. clear E0. induction Hr as [|m1 m2 m3 Hst _ IH]; [done|]. apply IH. by eapply step_good.
Qed.

(** Either nobody is connected and the listening socket is watched for the
    next client, or the socket of the client is watched and the listening
    one is not. *)
Definition one_client (s : ril_state) : Prop :=
  (s_fdCommand s < 0 /\ watched (r_ev s) s_listen_event /\ ~ watched (r_ev s) s_commands_event) \/
  (0 <= s_fdCommand s /\ ~ watched (r_ev s) s_listen_event /\ watched (r_ev s) s_commands_event /\
   ev_is (r_ev s) s_commands_event (s_fdCommand s) true CB_processCommandsCallback).

Lemma good_one_client m : good m [] -> one_client (m_ril m).
Proof.
  intros [_ [_ [(H1 & H2 & _ & [[H3 _]|[_ H3]])|(H1 & _ & H2 & H3 & H4 & _)]]]; [by left|by apply elem_of_nil in H3|by right].
Qed.

(** C1. The daemon starts in every order its two threads can run in.  From
    then on every turn of the event loop returns, every call from a thread
    of the vendor's returns, no assertion of the callbacks fails, and at
    most one client is connected, the listening socket being watched exactly
    when there is none: in every state that any sequence of turns and vendor
    calls leads to, whatever [select] reports and each client sends, as long
    as the outside of each step satisfies [RilTurn.outside].  That is: the
    array of each record fits on the stack and is not of negative size, and
    the client's stream does not go on for ever ([client_ok]); the vendor
    passes what its interface says ([calls_ok]); messages to the debug port
    are not its option 1, whose effect is [debug_radio_off_breaks], and
    bring a second argument to the options 6 and 8 ([debug_polite]);
    [accept] returns descriptors not in use, the wakeup pipe drains, writes
    to the client are not interrupted for ever, and allocations succeed. *)
Theorem daemon_safe o :
  (forall fuel env menv, startable fuel env menv -> exists m0, boot env menv o = Ok (None, m0)) /\
  forall m, running o m ->
    one_client (m_ril m) /\
    forall fuel env menv, outside fuel env menv ->
      (forall n lenv, tv_ok (now_calc lenv) -> tv_ok (now_proc lenv) -> enough n m ->
        exists b m', turn fuel env menv n lenv m = Ok (b, m')) /\
      (forall calls, calls_ok (P := P) version (m_ril m) calls -> exists m', vendor fuel env calls m = Ok (tt, m')).
Proof.
  split.
  { intros fuel env menv HS. destruct (starts fuel env menv o HS) as (m0 & E & _). by exists m0. }
  intros m Hm. pose proof (running_good o m Hm) as HG. split; [by apply good_one_client|]. intros fuel env menv Ho. split.
  - intros n lenv H1 H2 Hn. edestruct turn_ok as (b & m' & E & _); [exact Ho|done..|]. by exists b, m'.
  - intros calls Hc. edestruct vendor_good as (m' & E & _); [exact Ho|done..|]. by exists m'.
Qed.

(** C3. The phone process always gets through.  In every state the daemon
    can reach, whatever its clients did before: without a client, the turn
    in which [select] reports the listening socket and the phone process is
    accepted serves it; with a client, the turn that reads the end (or an
    error) of its stream, after the records that are left in it, gives the
    socket up, and then the turn that sees the next connection serves it.
    The conditions on the outside of these turns, and of all before, are
    those of [daemon_safe], the polite debug port among them. *)
Theorem client_gets_through o m x :
  running o m ->
  (forall fuel env menv n lenv, outside fuel env menv -> accepting env x -> fdc m < 0 ->
    tv_ok (now_calc lenv) -> tv_ok (now_proc lenv) -> enough n m -> reports lenv m listen_fd ->
    exists m', turn fuel env menv n lenv m = Ok (true, m') /\ fdc m' = x) /\
  (forall fuel env menv n lenv, outside fuel env menv -> gone env -> 0 <= fdc m ->
    tv_ok (now_calc lenv) -> tv_ok (now_proc lenv) -> enough n m -> reports lenv m (fdc m) ->
    exists m', turn fuel env menv n lenv m = Ok (true, m') /\ fdc m' < 0 /\
      forall fuel' env' menv' n' lenv', outside fuel' env' menv' -> accepting env' x ->
        tv_ok (now_calc lenv') -> tv_ok (now_proc lenv') -> enough n' m' -> reports lenv' m' listen_fd ->
        exists m'', turn fuel' env' menv' n' lenv' m' = Ok (true, m'') /\ fdc m'' = x).
Proof.
  intros Hm. pose proof (running_good o m Hm) as HG.
  assert (Hin : forall fuel env menv m n lenv, outside fuel env menv -> accepting env x -> good m [] -> fdc m < 0 ->
    tv_ok (now_calc lenv) -> tv_ok (now_proc lenv) -> enough n m -> reports lenv m listen_fd ->
    exists m', turn fuel env menv n lenv m = Ok (true, m') /\ fdc m' = x).
  { intros fuel env menv m1 n lenv Ho Hx G1 Hneg H1 H2 Hn Hr. edestruct turn_ok as (b & m' & E & _ & HA & _); [exact Ho|done..|].
    destruct (HA x Hneg Hr Hx) as [-> <-]. by exists m'. }
  split; [intros fuel env menv n lenv Ho Hx; by apply Hin|].
  intros fuel env menv n lenv Ho Hg Hpos H1 H2 Hn Hr. edestruct turn_ok as (b & m' & E & G' & _ & HB); [exact Ho|done..|].
  destruct (HB Hpos Hr Hg) as [-> Hneg]. exists m'. split_and!; [done|done|]. intros fuel' env' menv' n' lenv' Ho' Hx'. by apply Hin.
Qed.

End Running.

Section DebugPort.
Context {P : Type} {HPar : Parcel P} {HLaws : ParcelLaws P} {HJS : JString} {HH : RilH}.
Variables (legacy : bool) (stack_avail junk : Z) (fuel : nat) (env : ril_env) (menv : main_env).
Variables (junk_uus : option RIL_UUS_Info) (version : Z).

Abbreviation debug := (debugCallback (P := P) legacy fuel env menv junk_uus).

(** C21. The debug port reads the arguments that the client sent (the number
    of the arguments, then the length and the bytes of each), serves the
    option that the first of them names with all of them, and closes the
    connection.  When the message is cut short, at any place, nothing is
    served, and the connection stays open for ever. *)
Theorem debug_message_served fd m a0 rest :
  let a := m_accept menv (r_trace (m_ril m)) in let args := a0 :: rest in
  let tr := r_trace (m_ril m) ++ [EMain (MAccept fd a)] in
  0 <= a -> Z.of_nat (length args) * sizeof_ptr < 2 ^ 32 -> Forall (fun b => i32_ok (Z.of_nat (length b))) args ->
  (sends_chunks menv tr a (message args) ->
    debug fd m = (debug_option (P := P) legacy fuel env junk_uus (atoi a0) args;; onril (emit (EClose a)))
      (traced (EMain (MAccept fd a) :: recvs a (message args)) m)) /\
  (forall c1 c c2, message args = c1 ++ c :: c2 -> sends_chunks menv tr a c1 -> cut menv (tr ++ recvs a c1) a c ->
    debug fd m = Ok (tt, traced (EMain (MAccept fd a) :: recvs a (c1 ++ [c])) m)).
Proof.
  intros a args tr Ha Hn Hl. split.
  - intros Hs. rewrite (debugCallback_accepted legacy fuel env menv junk_uus fd m Ha). fold a.
    rewrite (cmd_bind_Ok _ _ _ _ _ (debug_read_ok menv a (traced [EMain (MAccept fd a)] m) args Hn Hl Hs)).
    by rewrite traced_app.
  - intros c1 c c2 Hm Hs Hc. rewrite (debugCallback_accepted legacy fuel env menv junk_uus fd m Ha). fold a.
    rewrite (cmd_bind_Ok _ _ _ _ _ (debug_read_cut menv a (traced [EMain (MAccept fd a)] m) args c1 c c2 Hn Hl Hm Hs Hc)).
    by rewrite traced_app.
Qed.

(** C22. "Radio off" of the debug port closes the socket of the client but
    leaves it watched: the request is made, the stored descriptor is -1,
    and when the event of the old descriptor is served, the assertion of
    [processCommandsCallback] fails. *)
Theorem debug_radio_off_breaks fd listen_fd wakeup_fd debug_fd m ps a0 rest :
  world (P := P) legacy stack_avail junk fuel env version ->
  live version [] (m_ril m) ps -> connected wakeup_fd listen_fd debug_fd (m_ril m) ps ->
  let a := m_accept menv (r_trace (m_ril m)) in let args := a0 :: rest in
  0 <= a -> Z.of_nat (length args) * sizeof_ptr < 2 ^ 32 -> Forall (fun b => i32_ok (Z.of_nat (length b))) args ->
  sends_chunks menv (r_trace (m_ril m) ++ [EMain (MAccept fd a)]) a (message args) -> atoi a0 = 1 ->
  exists m', debug fd m = Ok (tt, m') /\ s_fdCommand (m_ril m') = -1 /\
    watched (r_ev (m_ril m')) s_commands_event /\
    ev_is (r_ev (m_ril m')) s_commands_event (s_fdCommand (m_ril m)) true CB_processCommandsCallback /\
    processCommandsCallback (P := P) legacy false stack_avail junk fuel env (s_fdCommand (m_ril m)) (m_ril m') = UB.
Proof.
  intros Hw HL (Hpos & _ & Hwd & Hev & _) a args Ha Hn Hl Hs Hopt.
  rewrite (debugCallback_accepted legacy fuel env menv junk_uus fd m Ha). fold a. set (m0 := traced [EMain (MAccept fd a)] m).
  rewrite (cmd_bind_Ok _ _ _ _ _ (debug_read_ok menv a m0 args Hn Hl Hs)). unfold debug_serve. cbn [lookup list_lookup args]. rewrite Hopt.
  set (m1 := traced (recvs a (message args)) m0). cbn [debug_option].
  destruct (mkeeps_issueLocal legacy fuel env stack_avail junk version Hw 23 (row RIL_REQUEST_RADIO_POWER F_dispatchInts F_responseVoid)
    (VInts [0]) sizeof_int m1 ps) as (m2 & E2 & L2 & Q2); [by destruct legacy|by do 2 apply traced_live|].
  rewrite (cmd_bind_Ok _ _ _ _ _ (cmd_bind_Ok _ _ _ _ _ E2)). eexists. split_and!; [done|done| | |].
  - simpl. by apply (watched_table (r_ev (m_ril m)) _ _ (q_table _ _ Q2)).
  - simpl. eapply ev_is_cfg; [|exact Hev]. apply (q_cfg _ _ Q2). by eapply ev_is_dom.
  - unfold processCommandsCallback. rewrite bind_get. simpl.
    replace (s_fdCommand (m_ril m) =? -1) with false; [done|]. symmetry. apply Z.eqb_neq. lia.
Qed.

End DebugPort.

Section Registration.
Context {HH : RilH}.
Variables (legacy ndebug : bool) (env : ril_env) (menv : main_env).

(** What [RIL_register] does not accept. *)
Definition refused (version : option Z) (m : main_state) : Prop :=
  match version with
  | None => True
  | Some v => v < rilh RIL_VERSION_MIN \/ rilh RIL_VERSION < v \/ s_registerCalled (m_ril m) = true
  end.

Lemma register_callbacks_refused version m : refused version m -> register_callbacks version m = Ok (false, m).
Proof.
  intros Hr. unfold register_callbacks. rewrite bind_get. destruct version as [v|]; [|done]. simpl in Hr.
  destruct (Z.ltb_spec v (rilh RIL_VERSION_MIN)); [done|]. rewrite Z.gtb_ltb.
  destruct (Z.ltb_spec (rilh RIL_VERSION) v); [done|]. destruct Hr as [?|[?| ->]]; [lia|lia|done].
Qed.

Lemma register_listen_exits m name :
  array_string (rild m) = Some name ->
  (forall tr, m_socket menv tr name < 0) \/ (forall tr fd, m_listen menv tr fd < 0) ->
  exists m', register_listen env menv m = Ok (Some (-1), m') /\ r_ev (m_ril m') = r_ev (m_ril m) /\
    s_registerCalled (m_ril m') = s_registerCalled (m_ril m).
Proof.
  intros Hn Hf. unfold register_listen. rewrite (cmd_bind_Ok _ _ _ _ _ (name_read name m Hn)), (cmd_bind_Ok _ _ _ _ _ (mcall_ok _ _ m)).
  unfold mbind at 1, cmd_bind at 1. unfold onril at 1, modify at 1.
  destruct (Z.ltb_spec (m_socket menv (r_trace (m_ril m)) name) 0) as [Hs|Hs]; [by eexists|].
  rewrite (cmd_bind_Ok _ _ _ _ _ (mcall_ok _ _ _)). destruct Hf as [Hf|Hf]; [specialize (Hf (r_trace (m_ril m))); lia|].
  rewrite (proj2 (Z.ltb_lt _ _) (Hf _ _)). by eexists.
Qed.

(** C23. [RIL_register] without functions, with functions of a version that
    is not supported, or a second time, returns and changes nothing of the
    RIL's state: no function is replaced, nothing more is watched, the
    event loop is not started.  When there is no socket for the phone
    process, or it cannot be listened to, the process exits with -1, and
    nothing is watched either. *)
Theorem register_errors version m name :
  array_string (rild m) = Some name ->
  (refused version m -> exists evs m', RIL_register legacy ndebug env menv version m = Ok (None, m') /\
    m_ril m' = add_trace evs (m_ril m) /\ s_started m' = s_started m) /\
  (~ refused version m -> tables_ok legacy -> s_started m <> 0 ->
    (forall tr, m_socket menv tr name < 0) \/ (forall tr fd, m_listen menv tr fd < 0) ->
    exists m', RIL_register legacy ndebug env menv version m = Ok (Some (-1), m') /\
      r_ev (m_ril m') = r_ev (m_ril m) /\ s_registerCalled (m_ril m') = true).
Proof.
  intros Hn. destruct (register_settings_ok menv name m Hn) as (m1 & _ & _ & E1 & [[evs R1] S1 N1] & _).
  unfold RIL_register, RIL_register_with. split.
  - intros Hr. assert (Hr1 : refused version m1) by (unfold refused in *; by rewrite R1).
    run_cmd E1. rewrite (cmd_bind_Ok _ _ _ _ _ (register_callbacks_refused version m1 Hr1)). by exists evs, m1.
  - intros Hr Ht Hst Hf. destruct version as [v|]; [|by destruct Hr]. simpl in Hr.
    assert (Hv : rilh RIL_VERSION_MIN <= v <= rilh RIL_VERSION /\ s_registerCalled (m_ril m) = false).
    { destruct (s_registerCalled (m_ril m)); [destruct Hr; auto|]. split; [|done].
      destruct (Z.lt_ge_cases v (rilh RIL_VERSION_MIN)); [destruct Hr; auto|].
      destruct (Z.lt_ge_cases (rilh RIL_VERSION) v); [destruct Hr; auto|lia]. }
    destruct Hv as [Hv Hreg]. run_cmd E1.
    rewrite (cmd_bind_Ok _ _ _ _ _ (register_callbacks_ok v m1 Hv ltac:(by rewrite R1))).
    set (m2 := set_ril (set_registered v (m_ril m1)) m1).
    rewrite (commands_numbered_true legacy Ht), (unsol_numbered_true legacy Ht).
    assert (Ha : onril (c_assert ndebug true) m2 = Ok (tt, m2)) by (by destruct m as [[]], m1 as [[]]). run_cmd Ha. run_cmd Ha.
    rewrite bind_get. change (s_started m2) with (s_started m1). rewrite S1, (proj2 (Z.eqb_neq _ _) Hst), bind_ret.
    destruct (register_listen_exits m2 name) as (m3 & E3 & G3 & C3); [by simpl; rewrite N1|done|].
    run_cmd E3. exists m3. split_and!; [done| |by rewrite C3]. rewrite G3. simpl. by rewrite R1.
Qed.

End Registration.

(** ** Instances *)

(** The calls of [recv] since the last connection to the debug port. *)
Definition received (tr : list effect) : nat :=
  fold_left (fun n e => match e with EMain (MAccept _ _) => 0%nat | EMain (MRecv _ _) => S n | _ => n end) tr 0%nat.

(** The pipe is (4, 3); init made the sockets 5 for "rild" and 6; nothing
    is in the pipe; whoever connects to the debug port, on 20, sends the
    chunks [sent]. *)
Definition ex_main (sent : list (list Z)) : main_env := {|
  m_thread := fun _ => true;
  m_pipe := fun _ => Some (4, 3);
  m_read := fun _ => (-1, false);
  m_property := fun _ _ => ""%string;
  m_socket := fun _ n => if String.eqb n "rild" then 5 else 6;
  m_listen := fun _ _ => 0;
  m_accept := fun _ => 20;
  m_recv := fun tr _ _ => sent !! received tr |}.

Lemma received_accept tr fd a : received (tr ++ [EMain (MAccept fd a)]) = 0%nat.
Proof. unfold received. by rewrite fold_left_app. Qed.

Lemma ex_main_sends sent fd c1 c2 tr c3 :
  sent = c1 ++ c2 ++ c3 -> received tr = length c1 -> sends_chunks (ex_main sent) tr fd c2.
Proof.
  revert c1 tr. induction c2 as [|c c2 IH]; intros c1 tr Hm Hr; [done|]. split.
  - simpl. rewrite Hr, Hm. by apply list_lookup_middle.
  - apply (IH (c1 ++ [c])); [by rewrite Hm, <- app_assoc|]. unfold received in *. rewrite fold_left_app, length_app. simpl. lia.
Qed.

Lemma ex_main_message sent fd tr a : sends_chunks (ex_main sent) (tr ++ [EMain (MAccept fd a)]) a sent.
Proof. apply (ex_main_sends sent a [] sent _ []); [by rewrite app_nil_r|apply received_accept]. Qed.

(** The option 9, "answer call". *)
Definition ex_answer : list (list Z) := [[57]].

Lemma ex_answer_polite : debug_polite (ex_main (message ex_answer)).
Proof.
  intros m fd a Ha. eexists _, _. split.
  - apply (debug_read_ok _ a _ ex_answer); [done|by repeat constructor|]. apply ex_main_message.
  - exists [57], []. split_and!; [done|by vm_compute|]. replace (atoi [57]) with 9 by (by vm_compute). intros Hin. exfalso. set_solver.
Qed.

(** The phone process connects on 12, and sends nothing. *)
Definition ex_daemon : ril_env := ex_env 10 no_calls (Some PHONE_PROCESS).

Lemma ex_world : world (P := buf) true 4096 0 ex_fuel ex_daemon 6.
Proof.
  split; [apply ex_alloc|apply ex_now|apply ex_live|apply ex_sizes|apply ex_tables|unfold i32_ok; lia|by constructor| |unfold room; lia].
  split; [exists 0%nat; split; [unfold ex_fuel; lia|done]|done].
Qed.

(** A client that sends one request (BASEBAND_VERSION, with token 7) and
    leaves, and a vendor that answers every request at once. *)
Definition ex_busy : ril_env := {|
  o_write := fun _ _ b => Wrote (length b);
  o_state := fun _ => 10;
  o_realtime := fun _ => 77;
  o_now := fun _ => mkTv 100 0;
  o_alloc := fun X => fresh X;
  o_self_is_dispatch := fun _ => true;
  o_vendor := fun s =>
    match last (r_trace s) with
    | Some (EOnRequest _ _ _ a) => [CallComplete (Some a) 0 VNull 0]
    | _ => []
    end;
  o_record := fun tr => if (records tr =? 0)%nat then Record_ (le32 51 ++ le32 7) else EndOfStream;
  o_accept := fun _ => 12;
  o_cred := fun _ => Some PHONE_PROCESS;
  o_stream := fun _ => None;
  o_getVersion := None |}.

Lemma ex_busy_live : socket_live ex_fuel ex_busy.
Proof. exact (ex_live 10 no_calls None). Qed.

Lemma ex_busy_record : record_fits (P := buf) true 4096 0 (le32 51 ++ le32 7).
Proof.
  intros request tok p1 p2 b1 ci f E1 E2 _ Hc Hf. vm_compute in E1. injection E1 as <- <- <-.
  vm_compute in Hc. injection Hc as <-. injection Hf as <-. intros count p' [=].
Qed.

Lemma ex_busy_world : world (P := buf) true 4096 0 ex_fuel ex_busy 6.
Proof.
  split; [apply (ex_alloc 10 no_calls None)|apply (ex_now 10 no_calls None)|apply ex_busy_live|apply ex_sizes|apply ex_tables|unfold i32_ok; lia| | |unfold room; lia].
  - intros s. simpl. destruct (last (r_trace s)) as [[]|]; try by constructor.
    constructor; [apply complete_null_ok|constructor].
  - split.
    + exists 1%nat. split; [unfold ex_fuel, MAX_COMMAND_BYTES; lia|]. intros tr bytes Hr. simpl. destruct (records tr); [lia|done].
    + intros tr bytes. simpl. destruct (records tr); simpl; [intros [= <-]; apply ex_busy_record|done].
Qed.

Lemma ex_outside env : world (P := buf) true 4096 0 ex_fuel env 6 -> (forall tr, o_accept env tr = 12) ->
  outside (P := buf) true 4096 0 ex_fuel env (ex_main (message ex_answer)) 6 4 5 6.
Proof.
  intros Hw Ha. split; [done| | | |apply ex_answer_polite].
  - split; [by apply (bool_decide_unpack (NoDup [4; 5; 6]))|]. apply Forall_forall. by repeat constructor.
  - intros tr. right. rewrite Ha. split; [done|]. by apply (bool_decide_unpack (12 ∉ [4; 5; 6])).
  - intros tr fd. exists 0%nat. split; [unfold ex_fuel; lia|done].
Qed.

Lemma ex_startable env : world (P := buf) true 4096 0 ex_fuel env 6 -> (forall tr, o_accept env tr = 12) ->
  startable (P := buf) true 4096 0 6 4 5 6 "rild" "rild-debug" ex_fuel env (ex_main (message ex_answer)).
Proof. intros Hw Ha. split; [by apply ex_outside|split; try done; intros tr; by exists 3|done|done]. Qed.

Abbreviation ex_running := (running (P := buf) true false 4096 0 None 6 4 5 6 "rild" "rild-debug").

(** A daemon whose client sends a request, and another turn of it. *)
Lemma daemon_safe_witness : exists m, ex_running WakeupBetween m /\ one_client (m_ril m) /\
  exists b m', ril_event_loop_body (callback_call (P := buf) true false 4096 0 ex_fuel ex_busy (ex_main (message ex_answer)) None)
    (S (size (r_timers (m_ril m)) + MAX_FD_EVENTS)) (mkLoopEnv (mkTv 100 0) (mkTv 100 0) (fun _ _ _ => SelOk 1 {[5]})) m = Ok (b, m').
Proof.
  destruct (daemon_safe (P := buf) true false 4096 0 None 6 4 5 6 "rild" "rild-debug" WakeupBetween) as [H0 H].
  destruct (H0 ex_fuel ex_busy (ex_main (message ex_answer)) (ex_startable ex_busy ex_busy_world ltac:(done))) as [m0 E0].
  assert (R0 : ex_running WakeupBetween m0).
  { exists ex_fuel, ex_busy, (ex_main (message ex_answer)), m0. split; [by apply ex_startable; [apply ex_busy_world|]|by split]. }
  exists m0. destruct (H m0 R0) as [H1 H2]. split; [exact R0|]. split; [exact H1|].
  destruct (H2 ex_fuel ex_busy (ex_main (message ex_answer)) (ex_outside ex_busy ex_busy_world ltac:(done))) as [H3 _].
  apply H3; [unfold tv_ok; simpl; lia|unfold tv_ok; simpl; lia|unfold enough; lia].
Defined.

Lemma ex_accept tr : o_accept ex_daemon tr = 12.
Proof. done. Qed.

Lemma ex_accepting : accepting ex_daemon 12.
Proof. by split. Qed.
Lemma ex_busy_accepting : accepting ex_busy 12.
Proof. by split. Qed.

(** The daemon after its start, computed. *)
Definition ex_started : main_state :=
  match (RIL_setRilSocketName "rild";; start true false ex_daemon (ex_main (message ex_answer)) 6 WakeupLast) boot_state with
  | Ok (_, m) => m
  | _ => boot_state
  end.

Lemma ex_started_running : ex_running WakeupLast ex_started.
Proof.
  exists ex_fuel, ex_daemon, (ex_main (message ex_answer)), ex_started.
  split; [by apply ex_startable; [apply ex_world|]|]. split; [by vm_compute|done].
Qed.

(** [select] reports [x]. *)
Definition ex_loop (x : Z) : loop_env := mkLoopEnv (mkTv 100 0) (mkTv 100 0) (fun _ _ _ => SelOk 1 {[x]}).

Lemma ex_reports x m : reports (ex_loop x) m x.
Proof. exists {[x]}. split; [intros ptv; by rewrite size_singleton|by apply elem_of_singleton]. Qed.

Abbreviation ex_turn env := (ril_event_loop_body (callback_call (P := buf) true false 4096 0 ex_fuel env (ex_main (message ex_answer)) None)).

Lemma ex_tv : tv_ok (mkTv 100 0).
Proof. unfold tv_ok; simpl; lia. Qed.

Lemma ex_busy_gone : gone ex_busy.
Proof. intros tr. simpl. by destruct (records tr). Qed.

(** The phone process connects, sends a request and leaves, and connects
    again, now to a daemon with another outside. *)
Lemma client_gets_through_witness : exists n1 m1 n2 m2 n3 m3,
  ex_turn ex_busy n1 (ex_loop 5) ex_started = Ok (true, m1) /\ fdc m1 = 12 /\
  ex_turn ex_busy n2 (ex_loop 12) m1 = Ok (true, m2) /\ fdc m2 < 0 /\
  ex_turn ex_daemon n3 (ex_loop 5) m2 = Ok (true, m3) /\ fdc m3 = 12.
Proof.
  pose proof (fun m => client_gets_through (P := buf) true false 4096 0 None 6 4 5 6 "rild" "rild-debug" WakeupLast m 12) as H.
  assert (Hn : forall m, enough (S (size (r_timers (m_ril m)) + MAX_FD_EVENTS)) m) by (intros m; unfold enough; lia).
  pose proof (ex_outside ex_busy ex_busy_world ltac:(done)) as Hb.
  destruct (H ex_started ex_started_running) as [H1 _].
  destruct (H1 _ _ _ _ (ex_loop 5) Hb ex_busy_accepting eq_refl ex_tv ex_tv (Hn ex_started) (ex_reports 5 ex_started)) as (m1 & E1 & F1).
  assert (R1 : ex_running WakeupLast m1).
  { destruct ex_started_running as (f & e & me & m0 & S0 & E0 & R0). exists f, e, me, m0. split; [done|]. split; [done|].
    eapply rtc_r; [exact R0|]. eapply TurnStep; [exact Hb| | | |exact E1]; [apply ex_tv|apply ex_tv|apply Hn]. }
  destruct (H m1 R1) as [_ H2].
  assert (Hr : reports (ex_loop 12) m1 (fdc m1)) by (rewrite F1; apply ex_reports).
  assert (Hp : 0 <= fdc m1) by (rewrite F1; lia).
  destruct (H2 _ _ _ _ (ex_loop 12) Hb ex_busy_gone Hp ex_tv ex_tv (Hn m1) Hr) as (m2 & E2 & F2 & H3).
  destruct (H3 _ _ _ _ (ex_loop 5) (ex_outside ex_daemon ex_world ex_accept) ex_accepting ex_tv ex_tv (Hn m2) (ex_reports 5 m2))
    as (m3 & E3 & F3).
  eexists _, m1, _, m2, _, m3. split_and!; [exact E1|exact F1|exact E2|exact F2|exact E3|exact F3].
Defined.

(** The option 9 is served; a connection that sends only the number of the
    arguments is left open. *)
Lemma debug_message_served_witness :
  (exists m', debugCallback (P := buf) true ex_fuel ex_daemon (ex_main (message ex_answer)) None 6 ex_started = Ok (tt, m') /\
    s_pendingRequests (m_ril m') <> None) /\
  (exists m', debugCallback (P := buf) true ex_fuel ex_daemon (ex_main [le32 1]) None 6 ex_started = Ok (tt, m') /\
    r_trace (m_ril m') = r_trace (m_ril ex_started) ++ [EMain (MAccept 6 20); EMain (MRecv 20 4); EMain (MRecv 20 4)]).
Proof.
  assert (Hl : Forall (fun b : list Z => i32_ok (Z.of_nat (length b))) ex_answer) by (by repeat constructor).
  split.
  - destruct (debug_message_served (P := buf) true ex_fuel ex_daemon (ex_main (message ex_answer)) None 6 ex_started [57] [])
      as [H _]; [done|done|done|].
    rewrite (H (ex_main_message _ _ _ _)).
    eexists. split; [by vm_compute|by vm_compute].
  - destruct (debug_message_served (P := buf) true ex_fuel ex_daemon (ex_main [le32 1]) None 6 ex_started [57] [])
      as [_ H]; [done|done|done|].
    rewrite (H [le32 1] (le32 1) [[57]]); [by eexists|done|apply ex_main_message|].
    intros b. simpl. unfold received. rewrite !fold_left_app. simpl. done.
Defined.

(** A whole session, computed: the daemon starts, the client connects, its
    request is answered with its token, and the client leaves. *)
Definition ex_turns (xs : list Z) : main_state -> outcome (list bool * main_state) :=
  foldr (fun x k m =>
    match ril_event_loop_body (callback_call (P := buf) true false 4096 0 ex_fuel ex_busy (ex_main (message ex_answer)) None) 100 (ex_loop x) m with
    | Ok (b, m') => match k m' with Ok (bs, m'') => Ok (b :: bs, m'') | UB => UB | Block => Block end
    | UB => UB
    | Block => Block
    end) (fun m => Ok ([], m)) xs.

Example ex_session :
  match (RIL_setRilSocketName "rild";; start true false ex_busy (ex_main (message ex_answer)) 6 WakeupFirst) boot_state with
  | Ok (_, m) => match ex_turns [5; 12] m with
    | Ok (bs, m') => bs = [true; true] /\ fdc m' = -1 /\
        drop 17 (r_trace (m_ril m')) =
          [ERecord; EOnRequest 51 VNull 0 9; EWrite 12 [0; 0; 0; 12]; EWrite 12 (le32 0 ++ le32 7 ++ le32 0); ERecord; EClose 12]
    | _ => False
    end
  | _ => False
  end.
Proof. by vm_compute. Qed.

(** The client on 12 is connected; the debug port is told "1". *)
Definition ex_off : list (list Z) := [[49]].

Lemma ex_connected : exists m, good 6 4 5 6 m [] /\ fdc m = 12.
Proof.
  destruct (starts (P := buf) true false 4096 0 6 4 5 6 "rild" "rild-debug" ex_fuel ex_daemon (ex_main (message ex_answer))
    WakeupLast (ex_startable ex_daemon ex_world ex_accept)) as (m0 & E0 & G0).
  assert (Hm : m0 = ex_started) by (unfold ex_started; by rewrite E0). subst m0.
  destruct (turn_ok (P := buf) true false 4096 0 ex_fuel ex_daemon (ex_main (message ex_answer)) None 6 4 5 6 (ex_outside ex_daemon ex_world ex_accept) (ex_loop 5) 100
    ex_started ex_tv ex_tv) as (b & m & _ & G & H & _); [by apply Nat.ltb_lt; vm_compute|exact G0|].
  exists m. split; [exact G|]. apply (H 12 eq_refl); [apply ex_reports|apply ex_accepting].
Qed.

Lemma debug_radio_off_breaks_witness : exists m m',
  fdc m = 12 /\ debugCallback (P := buf) true ex_fuel ex_daemon (ex_main (message ex_off)) None 6 m = Ok (tt, m') /\ fdc m' = -1 /\
  processCommandsCallback (P := buf) true false 4096 0 ex_fuel ex_daemon 12 (m_ril m') = UB.
Proof.
  destruct ex_connected as (m & [HL HN] & Hfd).
  assert (HC : connected 4 5 6 (m_ril m) []).
  { destruct HN as [_ [(Hneg & _)|HC]]; [|exact HC]. unfold fdc in Hfd. lia. }
  destruct (debug_radio_off_breaks (P := buf) true 4096 0 ex_fuel ex_daemon (ex_main (message ex_off)) None 6 6 5 4 6 m [] [49] [])
    as (m' & E & H1 & _ & _ & H2).
  - apply ex_world.
  - exact HL.
  - exact HC.
  - done.
  - done.
  - by repeat constructor.
  - apply ex_main_message.
  - by vm_compute.
  - exists m, m'. split_and!; [exact Hfd|exact E|exact H1|]. rewrite <- H2. by rewrite <- Hfd.
Defined.

(** init made no socket. *)
Definition ex_no_socket : main_env := {|
  m_thread := fun _ => true;
  m_pipe := fun _ => Some (4, 3);
  m_read := fun _ => (-1, false);
  m_property := fun _ _ => ""%string;
  m_socket := fun _ _ => -1;
  m_listen := fun _ _ => 0;
  m_accept := fun _ => -1;
  m_recv := fun _ _ _ => None |}.

Lemma register_errors_witness :
  (exists m', RIL_register true false ex_daemon (ex_main []) None ex_started = Ok (None, m')) /\
  (exists m', RIL_register true false ex_daemon (ex_main []) (Some 1) ex_started = Ok (None, m')) /\
  (exists m', RIL_register true false ex_daemon (ex_main []) (Some 6) ex_started = Ok (None, m')) /\
  (exists m', RIL_register true false ex_daemon ex_no_socket (Some 6) (set_started 1 boot_state) = Ok (Some (-1), m')).
Proof.
  assert (Hn : array_string (rild ex_started) = Some "rild"%string) by (by vm_compute).
  split_and!.
  - destruct (register_errors true false ex_daemon (ex_main []) None ex_started "rild" Hn) as [H _].
    destruct (H I) as (evs & m' & E & _). exists m'. exact E.
  - destruct (register_errors true false ex_daemon (ex_main []) (Some 1) ex_started "rild" Hn) as [H _].
    destruct H as (evs & m' & E & _); [by left|]. exists m'. exact E.
  - destruct (register_errors true false ex_daemon (ex_main []) (Some 6) ex_started "rild" Hn) as [H _].
    destruct H as (evs & m' & E & _); [right; right; by vm_compute|]. exists m'. exact E.
  - destruct (register_errors true false ex_daemon ex_no_socket (Some 6) (set_started 1 boot_state) "rild" ltac:(by vm_compute)) as [_ H].
    destruct H as (m' & E & _); [|apply ex_tables|done|by left|exists m'; exact E].
    unfold refused. replace (rilh RIL_VERSION_MIN) with 6 by (by vm_compute). replace (rilh RIL_VERSION) with 9 by (by vm_compute).
    intros [?|[?|?]]; [lia|lia|done].
Defined.
