(* ===== verification/Prog.v ===== *)
(** * Programs that call the outside

    A program as a tree of calls: [Call c k] makes the call [c] and goes on
    with [k r] for its result [r].  [Exit] is [exit()], [Undef] undefined
    behaviour, [OutOfFuel] a loop cut by the fuel of its model.

    Two readings of a program: [exec] relates it to every trace the outside
    can produce, with [resp_ok] as the only assumption on the results of
    calls; [run] executes it on a given outside, a function on a world.
    [wp] computes, by a monitor that reads the trace, what has to hold for a
    postcondition to hold after every execution. *)

From S2P Require Import Prelude.

Inductive prog (E : Type -> Type) (A : Type) : Type :=
| Ret (a : A)
| Exit (code : Z)
| Undef
| OutOfFuel
| Call {R : Type} (c : E R) (k : R -> prog E A).
Arguments Ret {E A} a.
Arguments Exit {E A} code.
Arguments Undef {E A}.
Arguments OutOfFuel {E A}.
Arguments Call {E A R} c k.

#[export] Instance prog_ret E : MRet (prog E) := fun A a => Ret a.
#[export] Instance prog_bind E : MBind (prog E) := fun A B f =>
  fix go p :=
    match p with
    | Ret a => f a
    | Exit z => Exit z
    | Undef => Undef
    | OutOfFuel => OutOfFuel
    | Call c k => Call c (fun r => go (k r))
    end.

Definition call {E R} (c : E R) : prog E R := Call c (fun r => Ret r).
Definition exit_ {E A} (z : Z) : prog E A := Exit z.
Definition undef {E A} : prog E A := Undef.

(** [if (b) p;] *)
Definition when_ {E} (b : bool) (p : prog E unit) : prog E unit := if b then p else Ret tt.

(** How an execution ends. *)
Inductive result (A : Type) : Type :=
| Returned (a : A)
| Exited (code : Z)
| Undefined
| NoFuel.
Arguments Returned {A} a.
Arguments Exited {A} code.
Arguments Undefined {A}.
Arguments NoFuel {A}.

Inductive event (E : Type -> Type) : Type :=
| Ev {R : Type} (c : E R) (r : R).
Arguments Ev {E R} c r.

(** The results that calls can have. *)
Class Syscalls (E : Type -> Type) := resp_ok : forall R, E R -> R -> Prop.
Arguments resp_ok {E _ R} c r.

(** ** The bind, by cases *)

Section Bind.
Context {E : Type -> Type} {A B : Type}.
Implicit Types (f : A -> prog E B) (g : unit -> prog E B).

Lemma prog_bind_ret (a : A) f : (Ret a ≫= f) = f a.
Proof. done. Qed.
Lemma prog_bind_mret (a : A) f : (mret a ≫= f) = f a.
Proof. done. Qed.
Lemma prog_bind_exit z f : (exit_ z ≫= f) = Exit z.
Proof. done. Qed.
Lemma prog_bind_call {R} (c : E R) (k : R -> prog E A) f :
  (Call c k ≫= f) = Call c (fun r => k r ≫= f).
Proof. done. Qed.
Lemma prog_bind_call1 {R} (c : E R) (f : R -> prog E B) : (call c ≫= f) = Call c f.
Proof. done. Qed.
Lemma prog_bind_if (b : bool) (p q : prog E A) f :
  ((if b then p else q) ≫= f) = if b then p ≫= f else q ≫= f.
Proof. by destruct b. Qed.
End Bind.

(** ** Executions *)

Section Exec.
Context {E : Type -> Type} {HE : Syscalls E}.

Fixpoint exec {A} (p : prog E A) (tr : list (event E)) (o : result A) : Prop :=
  match p with
  | Ret a => tr = [] /\ o = Returned a
  | Exit z => tr = [] /\ o = Exited z
  | Undef => tr = [] /\ o = Undefined
  | OutOfFuel => tr = [] /\ o = NoFuel
  | Call c k => exists r tr', resp_ok c r /\ tr = Ev c r :: tr' /\ exec (k r) tr' o
  end.

(** ** Monitors *)

Section Wp.
Context {S : Type} (step : S -> event E -> S).

Fixpoint wp {A} (p : prog E A) (Q : result A -> S -> Prop) (s : S) : Prop :=
  match p with
  | Ret a => Q (Returned a) s
  | Exit z => Q (Exited z) s
  | Undef => Q Undefined s
  | OutOfFuel => Q NoFuel s
  | Call c k => forall r, resp_ok c r -> wp (k r) Q (step s (Ev c r))
  end.

(** What is left to show when a first part ends. *)
Definition then_ {A B} (f : A -> prog E B) (Q : result B -> S -> Prop) (o : result A) (s : S) : Prop :=
  match o with
  | Returned a => wp (f a) Q s
  | Exited z => Q (Exited z) s
  | Undefined => Q Undefined s
  | NoFuel => Q NoFuel s
  end.

Lemma wp_bind {A B} (p : prog E A) (f : A -> prog E B) Q s :
  wp p (then_ f Q) s -> wp (p ≫= f) Q s.
Proof. revert s. induction p as [| | | |R c k IH]; intros s; simpl; try done. intros H r Hr. by apply IH, H. Qed.

Lemma wp_mono {A} (p : prog E A) (Q Q' : result A -> S -> Prop) s :
  (forall o s', Q o s' -> Q' o s') -> wp p Q s -> wp p Q' s.
Proof. intros HQ. revert s. induction p as [| | | |R c k IH]; intros s; simpl; auto. Qed.

(** A postcondition proved with [wp] holds of every execution. *)
Lemma wp_sound {A} (p : prog E A) Q s tr o :
  wp p Q s -> exec p tr o -> Q o (fold_left step tr s).
Proof.
  revert s tr. induction p as [a|z| | |R c k IH]; intros s tr; simpl.
  1-4: by intros ? [-> ->].
  intros H (r & tr' & Hr & -> & He). simpl. by eapply IH; [apply H|].
Qed.

(** Programs whose calls the monitor does not see, and which return. *)
Fixpoint silent {A} (p : prog E A) (P : A -> Prop) : Prop :=
  match p with
  | Ret a => P a
  | Call c k => (forall s r, step s (Ev c r) = s) /\ forall r, resp_ok c r -> silent (k r) P
  | _ => False
  end.

Lemma silent_wp {A} (p : prog E A) (P : A -> Prop) (Q : result A -> S -> Prop) s :
  silent p P -> (forall a, P a -> Q (Returned a) s) -> wp p Q s.
Proof.
  induction p as [| | | |R c k IH]; simpl; [auto|done..|].
  intros [Hs Hk] HQ r Hr. rewrite Hs. auto.
Qed.

Lemma silent_bind {A B} (p : prog E A) (f : A -> prog E B) (P : A -> Prop) P' :
  silent p P -> (forall a, P a -> silent (f a) P') -> silent (p ≫= f) P'.
Proof. intros Hp Hf. induction p as [| | | |R c k IH]; simpl in *; [by apply Hf|done..|].
  destruct Hp as [Hs Hk]. split; [done|]. intros r Hr. by apply IH, Hk.
Qed.

Lemma silent_when b (p : prog E unit) : silent p (fun _ => True) -> silent (when_ b p) (fun _ => True).
Proof. by destruct b. Qed.

End Wp.

(** ** Runs on a given outside *)

Section Run.
Context {W : Type} (h : forall R, E R -> W -> R * W).

Fixpoint run {A} (p : prog E A) (w : W) : result A * W :=
  match p with
  | Ret a => (Returned a, w)
  | Exit z => (Exited z, w)
  | Undef => (Undefined, w)
  | OutOfFuel => (NoFuel, w)
  | Call c k => let '(r, w') := h _ c w in run (k r) w'
  end.

Fixpoint run_trace {A} (p : prog E A) (w : W) : list (event E) :=
  match p with
  | Call c k => let '(r, w') := h _ c w in Ev c r :: run_trace (k r) w'
  | _ => []
  end.

Definition run_then {A B} (f : A -> prog E B) (o : result A * W) : result B * W :=
  match o with
  | (Returned a, w) => run (f a) w
  | (Exited z, w) => (Exited z, w)
  | (Undefined, w) => (Undefined, w)
  | (NoFuel, w) => (NoFuel, w)
  end.

Lemma run_bind {A B} (p : prog E A) (f : A -> prog E B) w :
  run (p ≫= f) w = run_then f (run p w).
Proof. revert w. induction p as [| | | |R c k IH]; intros w; simpl; try done. destruct (h R c w). apply IH. Qed.

(** An outside that keeps to [resp_ok] gives an execution. *)
Lemma run_exec {A} (p : prog E A) w :
  (forall R (c : E R) w, resp_ok c (h R c w).1) -> exec p (run_trace p w) (run p w).1.
Proof.
  intros Hh. revert w. induction p as [| | | |R c k IH]; intros w; simpl; try done.
  pose proof (Hh R c w) as Hr. destruct (h R c w) as [r w'] eqn:Hw. simpl in *.
  exists r, (run_trace (k r) w'). rewrite ?Hw. eauto.
Qed.

End Run.
End Exec.
