(* ===== verification/StProg.v ===== *)
(** * Programs with static variables

    A program of Prog.v that threads the static variables of a C file, as a
    state monad over [prog]; [wps] is [wp] for programs that return, run out
    of fuel only where [nf] allows it, and are undefined only where [ub]
    does. *)

From S2P Require Import Prelude Prog.

Definition stprog (V : Type) (E : Type -> Type) (A : Type) : Type := V -> prog E (A * V).

#[export] Instance stprog_ret V E : MRet (stprog V E) := fun A a g => Ret (a, g).
#[export] Instance stprog_bind V E : MBind (stprog V E) := fun A B f p g => p g ≫= fun '(a, g') => f a g'.

Section StProg.
Context {V : Type} {E : Type -> Type}.

Definition lift {A} (p : prog E A) : stprog V E A := fun g => p ≫= fun a => Ret (a, g).
Definition gets {A} (f : V -> A) : stprog V E A := fun g => Ret (f g, g).
Definition modify (f : V -> V) : stprog V E unit := fun g => Ret (tt, f g).
Definition do_call {R} (c : E R) : stprog V E R := lift (call c).
Definition st_undef {A} : stprog V E A := fun _ => Undef.
Definition no_fuel {A} : stprog V E A := fun _ => OutOfFuel.
Definition when_s (b : bool) (p : stprog V E unit) : stprog V E unit := if b then p else mret tt.

(** Undefined without a value. *)
Definition defined {A} (o : option A) : stprog V E A :=
  match o with Some a => mret a | None => st_undef end.

Section Rules.
Context {HE : Syscalls E} {S : Type} (step : S -> event E -> S) (nf ub : S -> Prop).

Definition wps {A} (p : stprog V E A) (Q : A -> V -> S -> Prop) (g : V) (s : S) : Prop :=
  wp step (p g) (fun o s' =>
    match o with Returned (a, g') => Q a g' s' | NoFuel => nf s' | Undefined => ub s' | Exited _ => False end) s.

Lemma wps_bind {A B} (p : stprog V E A) (f : A -> stprog V E B) Q g s :
  wps p (fun a g' s' => wps (f a) Q g' s') g s -> wps (p ≫= f) Q g s.
Proof.
  intros H. unfold wps. change ((p ≫= f) g) with (p g ≫= fun '(a, g') => f a g'). apply wp_bind.
  eapply wp_mono; [|exact H]. by intros [[a g']| | |] s'.
Qed.

Lemma wps_mono {A} (p : stprog V E A) (Q Q' : A -> V -> S -> Prop) g s :
  (forall a g' s', Q a g' s' -> Q' a g' s') -> wps p Q g s -> wps p Q' g s.
Proof. intros HQ. apply wp_mono. intros [[a g']| | |] s'; auto. Qed.

Lemma wps_ret {A} (a : A) Q g s : Q a g s -> wps (mret a) Q g s.
Proof. done. Qed.
Lemma wps_gets {A} (f : V -> A) (Q : A -> V -> S -> Prop) g s : Q (f g) g s -> wps (gets f) Q g s.
Proof. done. Qed.
Lemma wps_modify f (Q : unit -> V -> S -> Prop) g s : Q tt (f g) s -> wps (modify f) Q g s.
Proof. done. Qed.
Lemma wps_call {R} (c : E R) (Q : R -> V -> S -> Prop) g s :
  (forall r, resp_ok c r -> Q r g (step s (Ev c r))) -> wps (do_call c) Q g s.
Proof. intros H r Hr. by apply H. Qed.
Lemma wps_no_fuel {A} (Q : A -> V -> S -> Prop) g s : nf s -> wps no_fuel Q g s.
Proof. done. Qed.
Lemma wps_undef {A} (Q : A -> V -> S -> Prop) g s : ub s -> wps st_undef Q g s.
Proof. done. Qed.
Lemma wps_defined {A} (o : option A) a (Q : A -> V -> S -> Prop) g s :
  o = Some a -> Q a g s -> wps (defined o) Q g s.
Proof. by intros ->. Qed.
Lemma wps_if {A} (b : bool) (p q : stprog V E A) Q g s :
  (b = true -> wps p Q g s) -> (b = false -> wps q Q g s) -> wps (if b then p else q) Q g s.
Proof. destruct b; auto. Qed.
Lemma wps_when b p (Q : unit -> V -> S -> Prop) g s :
  (b = true -> wps p Q g s) -> (b = false -> Q tt g s) -> wps (when_s b p) Q g s.
Proof. destruct b; intros H1 H2; [by apply H1|by apply H2]. Qed.

(** What [wps] says of an execution. *)
Lemma wps_sound {A} (p : stprog V E A) (Q : A -> V -> S -> Prop) g s tr o :
  wps p Q g s -> exec (p g) tr o ->
  (exists a g', o = Returned (a, g') /\ Q a g' (fold_left step tr s)) \/
  (o = NoFuel /\ nf (fold_left step tr s)) \/ (o = Undefined /\ ub (fold_left step tr s)).
Proof.
  intros Hw He. pose proof (wp_sound step _ _ _ _ _ Hw He) as H. cbn beta in H.
  destruct o as [[a g']| | |]; [left; by exists a, g'|done|by right; right|by right; left].
Qed.
End Rules.
End StProg.

#[global] Arguments wps : simpl never.
