(* ===== verification/MmcSys.v ===== *)
(** * mmc_utils/mmc.h, and what the tool asks of the system

    The constants of mmc.h under their names, the ioctl command
    ([struct mmc_ioc_cmd] of linux/mmc/ioctl.h, the members the tool sets),
    and the system and library calls the tool makes as the calls of a
    [prog].  [resp_ok] is what their documentation says of their results:
    [read] and [write] transfer at most what was asked, the MMC ioctl copies
    data out only for a read command, at most [blksz * blocks] bytes and all
    of them when it succeeds, which it says by returning 0.

    [printf] records its format, spelled as in the source, and its
    arguments. *)

From Stdlib Require Import Ascii String.
From S2P Require Import Prelude Bytes Prog CStr.

Open Scope Z_scope.

(** ** Constants *)

Definition MMC_BLOCK_MAJOR : Z := 179.
Definition MMC_SWITCH : Z := 6.
Definition MMC_SEND_EXT_CSD : Z := 8.
Definition MMC_SEND_STATUS : Z := 13.
Definition R1_SWITCH_ERROR : Z := Z.shiftl 1 7.
Definition MMC_SWITCH_MODE_WRITE_BYTE : Z := 0x03.
Definition MMC_READ_MULTIPLE_BLOCK : Z := 18.
Definition MMC_WRITE_MULTIPLE_BLOCK : Z := 25.
Definition EXT_CSD_S_CMD_SET : Z := 504.
Definition EXT_CSD_HPI_FEATURE : Z := 503.
Definition EXT_CSD_BKOPS_SUPPORT : Z := 502.
Definition EXT_CSD_CACHE_SIZE_3 : Z := 252.
Definition EXT_CSD_CACHE_SIZE_2 : Z := 251.
Definition EXT_CSD_CACHE_SIZE_1 : Z := 250.
Definition EXT_CSD_CACHE_SIZE_0 : Z := 249.
Definition EXT_CSD_BOOT_INFO : Z := 228.
Definition EXT_CSD_SEC_COUNT_3 : Z := 215.
Definition EXT_CSD_SEC_COUNT_2 : Z := 214.
Definition EXT_CSD_SEC_COUNT_1 : Z := 213.
Definition EXT_CSD_SEC_COUNT_0 : Z := 212.
Definition EXT_CSD_PART_SWITCH_TIME : Z := 199.
Definition EXT_CSD_REV : Z := 192.
Definition EXT_CSD_BOOT_CFG : Z := 179.
Definition EXT_CSD_PART_CONFIG : Z := 179.
Definition EXT_CSD_BOOT_BUS_CONDITIONS : Z := 177.
Definition EXT_CSD_ERASE_GROUP_DEF : Z := 175.
Definition EXT_CSD_BOOT_WP : Z := 173.
Definition EXT_CSD_WR_REL_SET : Z := 167.
Definition EXT_CSD_WR_REL_PARAM : Z := 166.
Definition EXT_CSD_SANITIZE_START : Z := 165.
Definition EXT_CSD_BKOPS_EN : Z := 163.
Definition EXT_CSD_RST_N_FUNCTION : Z := 162.
Definition EXT_CSD_PARTITIONING_SUPPORT : Z := 160.
Definition EXT_CSD_MAX_ENH_SIZE_MULT_2 : Z := 159.
Definition EXT_CSD_MAX_ENH_SIZE_MULT_1 : Z := 158.
Definition EXT_CSD_MAX_ENH_SIZE_MULT_0 : Z := 157.
Definition EXT_CSD_PARTITIONS_ATTRIBUTE : Z := 156.
Definition EXT_CSD_PARTITION_SETTING_COMPLETED : Z := 155.
Definition EXT_CSD_GP_SIZE_MULT_4_2 : Z := 154.
Definition EXT_CSD_GP_SIZE_MULT_4_1 : Z := 153.
Definition EXT_CSD_GP_SIZE_MULT_4_0 : Z := 152.
Definition EXT_CSD_GP_SIZE_MULT_3_2 : Z := 151.
Definition EXT_CSD_GP_SIZE_MULT_3_1 : Z := 150.
Definition EXT_CSD_GP_SIZE_MULT_3_0 : Z := 149.
Definition EXT_CSD_GP_SIZE_MULT_2_2 : Z := 148.
Definition EXT_CSD_GP_SIZE_MULT_2_1 : Z := 147.
Definition EXT_CSD_GP_SIZE_MULT_2_0 : Z := 146.
Definition EXT_CSD_GP_SIZE_MULT_1_2 : Z := 145.
Definition EXT_CSD_GP_SIZE_MULT_1_1 : Z := 144.
Definition EXT_CSD_GP_SIZE_MULT_1_0 : Z := 143.
Definition EXT_CSD_ENH_SIZE_MULT_2 : Z := 142.
Definition EXT_CSD_ENH_SIZE_MULT_1 : Z := 141.
Definition EXT_CSD_ENH_SIZE_MULT_0 : Z := 140.
Definition EXT_CSD_ENH_START_ADDR_3 : Z := 139.
Definition EXT_CSD_ENH_START_ADDR_2 : Z := 138.
Definition EXT_CSD_ENH_START_ADDR_1 : Z := 137.
Definition EXT_CSD_ENH_START_ADDR_0 : Z := 136.
Definition EXT_CSD_NATIVE_SECTOR_SIZE : Z := 63.
Definition EXT_CSD_USE_NATIVE_SECTOR : Z := 62.
Definition EXT_CSD_DATA_SECTOR_SIZE : Z := 61.
Definition EXT_CSD_EXT_PARTITIONS_ATTRIBUTE_1 : Z := 53.
Definition EXT_CSD_EXT_PARTITIONS_ATTRIBUTE_0 : Z := 52.
Definition EXT_CSD_CACHE_CTRL : Z := 33.
Definition HS_CTRL_REL : Z := Z.shiftl 1 0.
Definition EN_REL_WR : Z := Z.shiftl 1 2.
Definition BKOPS_ENABLE : Z := Z.shiftl 1 0.
Definition EXT_CSD_HPI_SUPP : Z := Z.shiftl 1 0.
Definition EXT_CSD_HPI_IMPL : Z := Z.shiftl 1 1.
Definition EXT_CSD_CMD_SET_NORMAL : Z := Z.shiftl 1 0.
Definition EXT_CSD_BOOT_WP_B_PWR_WP_DIS : Z := 0x40.
Definition EXT_CSD_BOOT_WP_B_PERM_WP_DIS : Z := 0x10.
Definition EXT_CSD_BOOT_WP_B_PERM_WP_EN : Z := 0x04.
Definition EXT_CSD_BOOT_WP_B_PWR_WP_EN : Z := 0x01.
Definition EXT_CSD_BOOT_INFO_HS_MODE : Z := Z.shiftl 1 2.
Definition EXT_CSD_BOOT_INFO_DDR_DDR : Z := Z.shiftl 1 1.
Definition EXT_CSD_BOOT_INFO_ALT : Z := Z.shiftl 1 0.
Definition EXT_CSD_BOOT_CFG_ACK : Z := Z.shiftl 1 6.
Definition EXT_CSD_BOOT_CFG_EN : Z := 0x38.
Definition EXT_CSD_BOOT_CFG_ACC : Z := 0x07.
Definition EXT_CSD_RST_N_EN_MASK : Z := 0x03.
Definition EXT_CSD_HW_RESET_EN : Z := 0x01.
Definition EXT_CSD_HW_RESET_DIS : Z := 0x02.
Definition EXT_CSD_PART_CONFIG_ACC_MASK : Z := 0x7.
Definition EXT_CSD_PART_CONFIG_ACC_BOOT0 : Z := 0x1.
Definition EXT_CSD_PART_CONFIG_ACC_BOOT1 : Z := 0x2.
Definition EXT_CSD_PART_CONFIG_ACC_USER_AREA : Z := 0x7.
Definition EXT_CSD_PART_CONFIG_ACC_ACK : Z := 0x40.
Definition EXT_CSD_PARTITIONING_EN : Z := Z.shiftl 1 0.
Definition EXT_CSD_ENH_ATTRIBUTE_EN : Z := Z.shiftl 1 1.
Definition EXT_CSD_ENH_4 : Z := Z.shiftl 1 4.
Definition EXT_CSD_ENH_3 : Z := Z.shiftl 1 3.
Definition EXT_CSD_ENH_2 : Z := Z.shiftl 1 2.
Definition EXT_CSD_ENH_1 : Z := Z.shiftl 1 1.
Definition EXT_CSD_ENH_USR : Z := Z.shiftl 1 0.
Definition EXT_CSD_REV_V5_1 : Z := 8.
Definition EXT_CSD_REV_V5_0 : Z := 7.
Definition EXT_CSD_REV_V4_5 : Z := 6.
Definition EXT_CSD_REV_V4_4_1 : Z := 5.
Definition EXT_CSD_REV_V4_3 : Z := 3.
Definition EXT_CSD_REV_V4_2 : Z := 2.
Definition EXT_CSD_REV_V4_1 : Z := 1.
Definition EXT_CSD_REV_V4_0 : Z := 0.
Definition MMC_RSP_PRESENT : Z := Z.shiftl 1 0.
Definition MMC_RSP_136 : Z := Z.shiftl 1 1.
Definition MMC_RSP_CRC : Z := Z.shiftl 1 2.
Definition MMC_RSP_BUSY : Z := Z.shiftl 1 3.
Definition MMC_RSP_OPCODE : Z := Z.shiftl 1 4.
Definition MMC_CMD_AC : Z := Z.shiftl 0 5.
Definition MMC_CMD_ADTC : Z := Z.shiftl 1 5.
Definition MMC_RSP_SPI_S1 : Z := Z.shiftl 1 7.
Definition MMC_RSP_SPI_BUSY : Z := Z.shiftl 1 10.
Definition MMC_RSP_SPI_R1 : Z := MMC_RSP_SPI_S1.
Definition MMC_RSP_SPI_R1B : Z := Z.lor MMC_RSP_SPI_S1 MMC_RSP_SPI_BUSY.
Definition MMC_RSP_R1 : Z := Z.lor (Z.lor MMC_RSP_PRESENT MMC_RSP_CRC) MMC_RSP_OPCODE.
Definition MMC_RSP_R1B : Z := Z.lor (Z.lor (Z.lor MMC_RSP_PRESENT MMC_RSP_CRC) MMC_RSP_OPCODE) MMC_RSP_BUSY.

(** ** Calls *)

Inductive open_mode := O_RDWR | O_RDONLY | O_WRONLY_CREAT_APPEND.
Inductive stream := Stdout | Stderr.
Inductive parg := PZ (z : Z) | PS (s : string).

(** [data_ptr] is the memory it points to, if it points to any. *)
Record mmc_ioc_cmd := mkIoc {
  write_flag : Z;
  opcode : Z;
  arg : Z;
  flags : Z;
  blksz : Z;
  blocks : Z;
  data_ptr : option (list Z) }.

(** The value of [ioctl], [errno], [response[0]], and the data copied out. *)
Record ioctl_res := mkIres {
  i_ret : Z;
  i_errno : Z;
  i_response : Z;
  i_data : list Z }.

(** [inr] is [errno] after a result of -1. *)
Inductive syscall : Type -> Type :=
| Open (path : string) (m : open_mode) : syscall Z
| Close (fd : Z) : syscall unit
| Ioctl (fd : Z) (c : mmc_ioc_cmd) : syscall ioctl_res
| Read (fd n : Z) : syscall (list Z + Z)
| Write (fd : Z) (bs : list Z) : syscall (Z + Z)
| Print (f : stream) (fmt : string) (args : list parg) : syscall unit
| Putchar (c : ascii) : syscall unit
| Fwrite (bs : list Z) : syscall unit
| Perror (msg : string) : syscall unit
| Allocate (n : Z) : syscall bool.

Definition is_read (c : mmc_ioc_cmd) : bool :=
  (write_flag c =? 0) && match data_ptr c with Some _ => true | None => false end.

Definition ioctl_size (c : mmc_ioc_cmd) : nat := Z.to_nat (blksz c * blocks c).

Record ioctl_ok (c : mmc_ioc_cmd) (r : ioctl_res) : Prop := {
  io_ret : i_ret r = 0 \/ i_ret r = -1;
  io_errno : i_ret r = -1 -> 0 < i_errno r < 2 ^ 15;
  io_response : 0 <= i_response r < 2 ^ 32;
  io_bytes : Forall byte_ok (i_data r);
  io_read : is_read c = false -> i_data r = [];
  io_size : (length (i_data r) <= ioctl_size c)%nat;
  io_all : is_read c = true -> i_ret r = 0 -> length (i_data r) = ioctl_size c }.

#[export] Instance mmc_syscalls : Syscalls syscall := fun R c =>
  match c in syscall R return R -> Prop with
  | Open _ _ => fun fd => -1 <= fd < 2 ^ 31
  | Ioctl _ c => fun r => ioctl_ok c r
  | Read _ n => fun r => match r with inl bs => Z.of_nat (length bs) <= n /\ Forall byte_ok bs | inr e => 0 < e end
  | Write _ bs => fun r => match r with inl n => 0 <= n <= Z.of_nat (length bs) | inr e => 0 < e end
  | _ => fun _ => True
  end.

Abbreviation mmc := (prog syscall).

Definition EINTR : Z := 4.
Definition EINVAL : Z := 22.

Definition printf (fmt : string) (args : list parg) : mmc unit := call (Print Stdout fmt args).
Definition eprintf (fmt : string) (args : list parg) : mmc unit := call (Print Stderr fmt args).
Definition perror (msg : string) : mmc unit := call (Perror msg).
Definition ioctl (fd : Z) (c : mmc_ioc_cmd) : mmc ioctl_res := call (Ioctl fd c).

(** [CHECK(expr, msg, exit(1))]. *)
Definition CHECK (expr : bool) (msg : string) : mmc unit := when_ expr (eprintf msg [];; exit_ 1).

(** ** C operations that can be undefined *)

(** [argv[i]]: the vector ends with a null pointer, which no caller may
    read as a string. *)
Definition argv_at (argv : list string) (i : nat) : mmc string :=
  match argv !! i with Some s => mret s | None => undef end.

(** [buf[i]] of an array of bytes. *)
Definition at_ (buf : list Z) (i : Z) : mmc Z :=
  if i <? 0 then undef else
  match buf !! Z.to_nat i with Some v => mret v | None => undef end.

(** The data an ioctl stores over the start of the buffer. *)
Definition copy_out (buf data : list Z) : mmc (list Z) :=
  if (length data <=? length buf)%nat then mret (data ++ drop (length data) buf) else undef.

(** [x << n] on [int]: the bits shifted out are lost; a shift by a negative
    number or by 32 and more is undefined. *)
Definition shl (x n : Z) : mmc Z :=
  if (n <? 0) || (31 <? n) then undef else mret (i32 (Z.shiftl x n)).

(** Unsigned division. *)
Definition udiv (a b : Z) : mmc Z := if b =? 0 then undef else mret (a / b).

(** A bit test, as a condition. *)
Definition bits (x mask : Z) : bool := negb (Z.land x mask =? 0).
Definition nz (x : Z) : bool := negb (x =? 0).
