(* ===== verification/MmcCmds.v ===== *)
(** * mmc_utils/mmc_cmds.c: the commands on EXT_CSD registers

    One definition per function of the file, [do_read_extcsd] (MmcExtcsd.v)
    and the RPMB commands (MmcRpmb.v) excepted.  A command takes the
    arguments [argv] that the tool's [main] prepares: [argv[0]] is the name
    of the program and the command, [nargs] is the length.  Three blocks the
    commands repeat are definitions of their own: opening the device,
    reading the registers and giving up, writing a register and giving up.

    [unsigned int] and [unsigned long] have 32 bits. *)

From Stdlib Require Import Ascii String.
From S2P Require Import Prelude Bytes Prog CStr MmcSys.

Open Scope Z_scope.

(** ** Talking to the device *)

Definition read_extcsd (fd : Z) : mmc (Z * list Z) :=
  let ext_csd := replicate 512 0 in
  let idata := {| write_flag := 0; opcode := MMC_SEND_EXT_CSD; arg := 0;
    flags := Z.lor (Z.lor MMC_RSP_SPI_R1 MMC_RSP_R1) MMC_CMD_ADTC;
    blksz := 512; blocks := 1; data_ptr := Some ext_csd |} in
  r ← ioctl fd idata;
  ext_csd ← copy_out ext_csd (i_data r);
  when_ (nz (i_ret r)) (perror "ioctl");;
  mret (i_ret r, ext_csd).

Definition switch_arg (index value : Z) : Z :=
  Z.lor (Z.lor (Z.lor (Z.shiftl MMC_SWITCH_MODE_WRITE_BYTE 24) (Z.shiftl index 16))
    (Z.shiftl value 8)) EXT_CSD_CMD_SET_NORMAL.

Definition write_extcsd_value (fd index value : Z) : mmc Z :=
  let idata := {| write_flag := 1; opcode := MMC_SWITCH;
    arg := switch_arg (u8 index) (u8 value);
    flags := Z.lor (Z.lor MMC_RSP_SPI_R1B MMC_RSP_R1B) MMC_CMD_AC;
    blksz := 0; blocks := 0; data_ptr := None |} in
  r ← ioctl fd idata;
  when_ (nz (i_ret r)) (perror "ioctl");;
  mret (i_ret r).

Definition send_status (fd : Z) : mmc (Z * Z) :=
  let idata := {| write_flag := 0; opcode := MMC_SEND_STATUS; arg := Z.shiftl 1 16;
    flags := Z.lor MMC_RSP_R1 MMC_CMD_AC; blksz := 0; blocks := 0; data_ptr := None |} in
  r ← ioctl fd idata;
  when_ (nz (i_ret r)) (perror "ioctl");;
  mret (i_ret r, i_response r).

(** [if (ret) { fprintf(stderr, ...); exit(1); }]. *)
Definition or_die (ret : Z) (fmt : string) (args : list parg) : mmc unit :=
  when_ (nz ret) (eprintf fmt args;; exit_ 1).

Definition open_device (device : string) : mmc Z :=
  fd ← call (Open device O_RDWR);
  when_ (fd <? 0) (perror "open";; exit_ 1);;
  mret fd.

Definition read_or_die (fd : Z) (device : string) : mmc (list Z) :=
  '(ret, ext_csd) ← read_extcsd fd;
  or_die ret "Could not read EXT_CSD from %s\n" [PS device];;
  mret ext_csd.

Definition write_or_die (fd index value : Z) (device : string) : mmc unit :=
  ret ← write_extcsd_value fd index value;
  or_die ret "Could not write 0x%02x to EXT_CSD[%d] in %s\n" [PZ value; PZ index; PS device].

(** ** Single registers *)

Definition do_write_extcsd_byte (argv : list string) : mmc Z :=
  CHECK (negb (length argv =? 4)%nat) "Usage: mmc extcsd write <offset> <value> </path/to/mmcblkX>\n";;
  a1 ← argv_at argv 1;
  a2 ← argv_at argv 2;
  let index := strtol_val a1 0 in
  let value := strtol_val a2 0 in
  device ← argv_at argv 3;
  fd ← open_device device;
  ret ← write_extcsd_value fd index value;
  or_die ret "Could not write byte 0x%02x (%d) to EXT_CSD[%d] in %s\n" [PZ value; PZ value; PZ index; PS device];;
  printf "Successful write byte 0x%02x (%d) to EXT_CSD[%d] in %s\n" [PZ value; PZ value; PZ index; PS device];;
  mret 0.

Definition print_writeprotect_status (ext_csd : list Z) : mmc unit :=
  ext_csd_rev ← at_ ext_csd EXT_CSD_REV;
  when_ (5 <=? ext_csd_rev) (
    v ← at_ ext_csd 174;
    printf "Boot write protection status registers [BOOT_WP_STATUS]: 0x%02x\n" [PZ v];;
    reg ← at_ ext_csd EXT_CSD_BOOT_WP;
    printf "Boot Area Write protection [BOOT_WP]: 0x%02x\n" [PZ reg];;
    printf " Power ro locking: " [];;
    (if bits reg EXT_CSD_BOOT_WP_B_PWR_WP_DIS then printf "not possible\n" []
     else printf "possible\n" []);;
    printf " Permanent ro locking: " [];;
    (if bits reg EXT_CSD_BOOT_WP_B_PERM_WP_DIS then printf "not possible\n" []
     else printf "possible\n" []);;
    printf " ro lock status: " [];;
    (if bits reg EXT_CSD_BOOT_WP_B_PWR_WP_EN then printf "locked until next power on\n" []
     else if bits reg EXT_CSD_BOOT_WP_B_PERM_WP_EN then printf "locked permanently\n" []
     else printf "not locked\n" [])).

Definition do_writeprotect_get (argv : list string) : mmc Z :=
  CHECK (negb (length argv =? 2)%nat) "Usage: mmc writeprotect get </path/to/mmcblkX>\n";;
  device ← argv_at argv 1;
  fd ← open_device device;
  ext_csd ← read_or_die fd device;
  print_writeprotect_status ext_csd;;
  mret 0.

Definition do_writeprotect_set (argv : list string) : mmc Z :=
  CHECK (negb (length argv =? 2)%nat) "Usage: mmc writeprotect set </path/to/mmcblkX>\n";;
  device ← argv_at argv 1;
  fd ← open_device device;
  ext_csd ← read_or_die fd device;
  v ← at_ ext_csd EXT_CSD_BOOT_WP;
  let value := u8 (Z.lor v EXT_CSD_BOOT_WP_B_PWR_WP_EN) in
  write_or_die fd EXT_CSD_BOOT_WP value device;;
  mret 0.

Definition do_disable_512B_emulation (argv : list string) : mmc Z :=
  CHECK (negb (length argv =? 2)%nat) "Usage: mmc disable 512B emulation </path/to/mmcblkX>\n";;
  device ← argv_at argv 1;
  fd ← open_device device;
  ext_csd ← read_or_die fd device;
  wr_rel_param ← at_ ext_csd EXT_CSD_WR_REL_PARAM;
  native_sector_size ← at_ ext_csd EXT_CSD_NATIVE_SECTOR_SIZE;
  data_sector_size ← at_ ext_csd EXT_CSD_DATA_SECTOR_SIZE;
  (if nz native_sector_size && negb (nz data_sector_size) && bits wr_rel_param EN_REL_WR then
     ret ← write_extcsd_value fd EXT_CSD_USE_NATIVE_SECTOR 1;
     or_die ret "Could not write 0x%02x to EXT_CSD[%d] in %s\n" [PZ 1; PZ EXT_CSD_BOOT_WP; PS device];;
     printf "MMC disable 512B emulation successful.  Now reset the device to switch to 4KB native sector mode.\n" []
   else if nz native_sector_size && nz data_sector_size then
     printf "MMC 512B emulation mode is already disabled; doing nothing.\n" []
   else
     printf "MMC does not support disabling 512B emulation mode.\n" []);;
  mret 0.

(** The new PARTITION_CONFIG, when the boot area is one of the three. *)
Definition boot_config (boot_area send_ack value : Z) : option Z :=
  (if boot_area =? EXT_CSD_PART_CONFIG_ACC_BOOT0 then
     let value := u8 (Z.lor value (Z.shiftl 1 3)) in
     Some (u8 (Z.land value (Z.lnot (Z.shiftl 3 4))))
   else if boot_area =? EXT_CSD_PART_CONFIG_ACC_BOOT1 then
     let value := u8 (Z.lor value (Z.shiftl 1 4)) in
     let value := u8 (Z.land value (Z.lnot (Z.shiftl 1 3))) in
     Some (u8 (Z.land value (Z.lnot (Z.shiftl 1 5))))
   else if boot_area =? EXT_CSD_PART_CONFIG_ACC_USER_AREA then
     Some (u8 (Z.lor value (Z.shiftl boot_area 3)))
   else None) ≫= fun value : Z =>
  Some (if nz send_ack then u8 (Z.lor value EXT_CSD_PART_CONFIG_ACC_ACK)
        else u8 (Z.land value (Z.lnot EXT_CSD_PART_CONFIG_ACC_ACK))).

Definition do_write_boot_en (argv : list string) : mmc Z :=
  CHECK (negb (length argv =? 4)%nat) "Usage: mmc bootpart enable <partition_number> <send_ack> </path/to/mmcblkX>\n";;
  a1 ← argv_at argv 1;
  a2 ← argv_at argv 2;
  let boot_area := strtol_val a1 10 in
  let send_ack := strtol_val a2 10 in
  device ← argv_at argv 3;
  fd ← open_device device;
  ext_csd ← read_or_die fd device;
  value ← at_ ext_csd EXT_CSD_PART_CONFIG;
  match boot_config boot_area send_ack value with
  | None => eprintf "Cannot enable the boot area\n" [];; exit_ 1
  | Some value =>
      write_or_die fd EXT_CSD_PART_CONFIG value device;;
      mret 0
  end.

(** The value of a word among those of a list; an unknown one is an error. *)
Definition word_value (w : string) (cases : list (string * Z)) (err : string) : mmc Z :=
  match find (fun c => streq w c.1) cases with
  | Some (_, v) => mret v
  | None => eprintf err [];; exit_ 1
  end.

Definition do_boot_bus_conditions_set (argv : list string) : mmc Z :=
  CHECK (negb (length argv =? 5)%nat) "Usage: mmc: bootbus set <boot_mode> <reset_boot_bus_conditions> <boot_bus_width> <device>\n";;
  a1 ← argv_at argv 1;
  v1 ← word_value a1 [("single_backward", 0); ("single_hs", 0x8); ("dual", 0x10)] "illegal <boot_mode> specified\n";
  a2 ← argv_at argv 2;
  v2 ← word_value a2 [("x1", 0); ("retain", 0x4)] "illegal <reset_boot_bus_conditions> specified\n";
  a3 ← argv_at argv 3;
  v3 ← word_value a3 [("x1", 0); ("x4", 0x1); ("x8", 0x2)] "illegal <boot_bus_width> specified\n";
  let value := Z.lor (Z.lor v1 v2) v3 in
  device ← argv_at argv 4;
  fd ← open_device device;
  ext_csd ← read_or_die fd device;
  old ← at_ ext_csd EXT_CSD_BOOT_BUS_CONDITIONS;
  printf "Changing ext_csd[BOOT_BUS_CONDITIONS] from 0x%02x to 0x%02x\n" [PZ old; PZ value];;
  write_or_die fd EXT_CSD_BOOT_BUS_CONDITIONS value device;;
  call (Close fd);;
  mret 0.

Definition do_hwreset (value : Z) (argv : list string) : mmc Z :=
  CHECK (negb (length argv =? 2)%nat) "Usage: mmc hwreset enable </path/to/mmcblkX>\n";;
  device ← argv_at argv 1;
  fd ← open_device device;
  ext_csd ← read_or_die fd device;
  rst ← at_ ext_csd EXT_CSD_RST_N_FUNCTION;
  when_ (Z.land rst EXT_CSD_RST_N_EN_MASK =? EXT_CSD_HW_RESET_EN) (
    eprintf "H/W Reset is already permanently enabled on %s\n" [PS device];; exit_ 1);;
  when_ (Z.land rst EXT_CSD_RST_N_EN_MASK =? EXT_CSD_HW_RESET_DIS) (
    eprintf "H/W Reset is already permanently disabled on %s\n" [PS device];; exit_ 1);;
  write_or_die fd EXT_CSD_RST_N_FUNCTION value device;;
  mret 0.

Definition do_hwreset_en (argv : list string) : mmc Z := do_hwreset EXT_CSD_HW_RESET_EN argv.
Definition do_hwreset_dis (argv : list string) : mmc Z := do_hwreset EXT_CSD_HW_RESET_DIS argv.

Definition do_write_bkops_en (argv : list string) : mmc Z :=
  CHECK (negb (length argv =? 2)%nat) "Usage: mmc bkops enable </path/to/mmcblkX>\n";;
  device ← argv_at argv 1;
  fd ← open_device device;
  ext_csd ← read_or_die fd device;
  sup ← at_ ext_csd EXT_CSD_BKOPS_SUPPORT;
  when_ (negb (bits sup 0x1)) (eprintf "%s doesn't support BKOPS\n" [PS device];; exit_ 1);;
  ret ← write_extcsd_value fd EXT_CSD_BKOPS_EN BKOPS_ENABLE;
  or_die ret "Could not write 0x%02x to EXT_CSD[%d] in %s\n" [PZ 0; PZ EXT_CSD_BKOPS_EN; PS device];;
  mret 0.

Definition do_status_get (argv : list string) : mmc Z :=
  CHECK (negb (length argv =? 2)%nat) "Usage: mmc status get </path/to/mmcblkX>\n";;
  device ← argv_at argv 1;
  fd ← open_device device;
  '(ret, response) ← send_status fd;
  or_die ret "Could not read response to SEND_STATUS from %s\n" [PS device];;
  printf "SEND_STATUS response: 0x%08x\n" [PZ response];;
  mret 0.

Definition do_dump_extcsd (argv : list string) : mmc Z :=
  CHECK (negb (length argv =? 2)%nat) "Usage: mmc extcsd dump </path/to/mmcblkX>\n";;
  device ← argv_at argv 1;
  fd ← open_device device;
  ext_csd ← read_or_die fd device;
  call (Fwrite ext_csd);;
  mret 0.

Definition do_sanitize (argv : list string) : mmc Z :=
  CHECK (negb (length argv =? 2)%nat) "Usage: mmc sanitize </path/to/mmcblkX>\n";;
  device ← argv_at argv 1;
  fd ← open_device device;
  write_or_die fd EXT_CSD_SANITIZE_START 1 device;;
  mret 0.

Definition do_cache_ctrl (value : Z) (argv : list string) : mmc Z :=
  CHECK (negb (length argv =? 2)%nat) "Usage: mmc cache enable </path/to/mmcblkX>\n";;
  device ← argv_at argv 1;
  fd ← open_device device;
  ext_csd ← read_or_die fd device;
  rev ← at_ ext_csd EXT_CSD_REV;
  when_ (rev <? EXT_CSD_REV_V4_5) (
    eprintf "The CACHE option is only availabe on devices >= MMC 4.5 %s\n" [PS device];; exit_ 1);;
  c3 ← at_ ext_csd EXT_CSD_CACHE_SIZE_3;
  c2 ← at_ ext_csd EXT_CSD_CACHE_SIZE_2;
  c1 ← at_ ext_csd EXT_CSD_CACHE_SIZE_1;
  c0 ← at_ ext_csd EXT_CSD_CACHE_SIZE_0;
  when_ (negb (nz c3 || nz c2 || nz c1 || nz c0)) (
    eprintf "The CACHE option is not available on %s\n" [PS device];; exit_ 1);;
  write_or_die fd EXT_CSD_CACHE_CTRL value device;;
  mret 0.

Definition do_cache_en (argv : list string) : mmc Z := do_cache_ctrl 1 argv.
Definition do_cache_dis (argv : list string) : mmc Z := do_cache_ctrl 0 argv.
