(* ===== verification/MmcPartition.v ===== *)
(** * mmc_utils/mmc_cmds.c: partitioning

    The one-time programmable settings: general purpose partitions, the
    enhanced user area, write reliability, and the register that makes them
    final.  [unsigned long] has 32 bits: sizes in KiB wrap around at 4 TiB,
    byte addresses at 4 GiB. *)

From Stdlib Require Import Ascii String.
From S2P Require Import Prelude Bytes Prog CStr MmcSys MmcCmds.

Open Scope Z_scope.

Definition get_sector_count (ext_csd : list Z) : mmc Z :=
  b3 ← at_ ext_csd EXT_CSD_SEC_COUNT_3;
  b2 ← at_ ext_csd EXT_CSD_SEC_COUNT_2;
  b1 ← at_ ext_csd EXT_CSD_SEC_COUNT_1;
  b0 ← at_ ext_csd EXT_CSD_SEC_COUNT_0;
  mret (u32 (Z.lor (Z.lor (Z.lor (i32 (Z.shiftl b3 24)) (Z.shiftl b2 16)) (Z.shiftl b1 8)) b0)).

Definition is_blockaddresed (ext_csd : list Z) : mmc bool :=
  sectors ← get_sector_count ext_csd;
  mret (sectors >? u32 (u32 (2 * 1024) * 1024 * 1024) / 512).

Definition get_hc_wp_grp_size (ext_csd : list Z) : mmc Z := at_ ext_csd 221.
Definition get_hc_erase_grp_size (ext_csd : list Z) : mmc Z := at_ ext_csd 224.

(** 0 when the register was programmed, 1 when it was not. *)
Definition set_partitioning_setting_completed (dry_run : bool) (device : string) (fd : Z) : mmc Z :=
  if dry_run then
    eprintf "NOT setting PARTITION_SETTING_COMPLETED\n" [];;
    eprintf "These changes will not take effect neither now nor after a power cycle\n" [];;
    mret 1
  else
    eprintf "setting OTP PARTITION_SETTING_COMPLETED!\n" [];;
    ret ← write_extcsd_value fd EXT_CSD_PARTITION_SETTING_COMPLETED 0x1;
    if nz ret then
      eprintf "Could not write 0x1 to EXT_CSD[%d] in %s\n" [PZ EXT_CSD_PARTITION_SETTING_COMPLETED; PS device];;
      mret 1
    else
      '(ret, response) ← send_status fd;
      if nz ret then
        eprintf "Could not get response to SEND_STATUS from %s\n" [PS device];;
        mret 1
      else if bits response R1_SWITCH_ERROR then
        eprintf "Setting OTP PARTITION_SETTING_COMPLETED failed on %s\n" [PS device];;
        mret 1
      else
        eprintf "Setting OTP PARTITION_SETTING_COMPLETED on %s SUCCESS\n" [PS device];;
        eprintf "Device power cycle needed for settings to take effect.\nConfirm that PARTITION_SETTING_COMPLETED bit is set using 'extcsd read' after power cycle\n" [];;
        mret 0.

(** [(e[b2] << 16) | (e[b1] << 8) | e[b0]]. *)
Definition csd24 (ext_csd : list Z) (b2 b1 b0 : Z) : mmc Z :=
  v2 ← at_ ext_csd b2;
  v1 ← at_ ext_csd b1;
  v0 ← at_ ext_csd b0;
  mret (Z.lor (Z.lor (Z.shiftl v2 16) (Z.shiftl v1 8)) v0).

(** [512l * regl * erase_sz * wp_sz]. *)
Definition kib_of (regl erase_sz wp_sz : Z) : Z := u32 (u32 (u32 (512 * regl) * erase_sz) * wp_sz).

(** One area: its size, and the enhanced total with the area added when its
    attribute is set. *)
Definition enh_area_part (ext_csd : list Z) (erase_sz wp_sz b2 b1 b0 attr enh_area_sz : Z)
    (msg : string) : mmc (Z * Z) :=
  regl ← csd24 ext_csd b2 b1 b0;
  let part_sz := kib_of regl erase_sz wp_sz in
  pa ← at_ ext_csd EXT_CSD_PARTITIONS_ATTRIBUTE;
  if bits pa attr then
    let enh_area_sz := u32 (enh_area_sz + part_sz) in
    printf msg [PZ regl];;
    printf " i.e. %lu KiB\n" [PZ part_sz];;
    mret (part_sz, enh_area_sz)
  else mret (part_sz, enh_area_sz).

Definition check_enhanced_area_total_limit (device : string) (fd : Z) : mmc Z :=
  ext_csd ← read_or_die fd device;
  wp_sz ← get_hc_wp_grp_size ext_csd;
  erase_sz ← get_hc_erase_grp_size ext_csd;
  '(gp4_part_sz, enh_area_sz) ← enh_area_part ext_csd erase_sz wp_sz
    EXT_CSD_GP_SIZE_MULT_4_2 EXT_CSD_GP_SIZE_MULT_4_1 EXT_CSD_GP_SIZE_MULT_4_0 EXT_CSD_ENH_4 0
    "Enhanced GP4 Partition Size [GP_SIZE_MULT_4]: 0x%06x\n";
  '(gp3_part_sz, enh_area_sz) ← enh_area_part ext_csd erase_sz wp_sz
    EXT_CSD_GP_SIZE_MULT_3_2 EXT_CSD_GP_SIZE_MULT_3_1 EXT_CSD_GP_SIZE_MULT_3_0 EXT_CSD_ENH_3 enh_area_sz
    "Enhanced GP3 Partition Size [GP_SIZE_MULT_3]: 0x%06x\n";
  '(gp2_part_sz, enh_area_sz) ← enh_area_part ext_csd erase_sz wp_sz
    EXT_CSD_GP_SIZE_MULT_2_2 EXT_CSD_GP_SIZE_MULT_2_1 EXT_CSD_GP_SIZE_MULT_2_0 EXT_CSD_ENH_2 enh_area_sz
    "Enhanced GP2 Partition Size [GP_SIZE_MULT_2]: 0x%06x\n";
  '(gp1_part_sz, enh_area_sz) ← enh_area_part ext_csd erase_sz wp_sz
    EXT_CSD_GP_SIZE_MULT_1_2 EXT_CSD_GP_SIZE_MULT_1_1 EXT_CSD_GP_SIZE_MULT_1_0 EXT_CSD_ENH_1 enh_area_sz
    "Enhanced GP1 Partition Size [GP_SIZE_MULT_1]: 0x%06x\n";
  '(user_area_sz, enh_area_sz) ← enh_area_part ext_csd erase_sz wp_sz
    EXT_CSD_ENH_SIZE_MULT_2 EXT_CSD_ENH_SIZE_MULT_1 EXT_CSD_ENH_SIZE_MULT_0 EXT_CSD_ENH_USR enh_area_sz
    "Enhanced User Data Area Size [ENH_SIZE_MULT]: 0x%06x\n";
  regl ← csd24 ext_csd EXT_CSD_MAX_ENH_SIZE_MULT_2 EXT_CSD_MAX_ENH_SIZE_MULT_1 EXT_CSD_MAX_ENH_SIZE_MULT_0;
  let max_enh_area_sz := kib_of regl erase_sz wp_sz in
  printf "Max Enhanced Area Size [MAX_ENH_SIZE_MULT]: 0x%06x\n" [PZ regl];;
  printf " i.e. %lu KiB\n" [PZ max_enh_area_sz];;
  if enh_area_sz >? max_enh_area_sz then
    eprintf "Programmed total enhanced size %lu KiB cannot exceed max enhanced area %lu KiB %s\n"
      [PZ enh_area_sz; PZ max_enh_area_sz; PS device];;
    mret 1
  else
    sectors ← get_sector_count ext_csd;
    let total_sz := sectors / 2 in
    let total_gp_user_sz :=
      u32 (u32 (u32 (u32 (gp4_part_sz + gp3_part_sz) + gp2_part_sz) + gp1_part_sz) + user_area_sz) in
    if total_gp_user_sz >? total_sz then
      eprintf "requested total partition size %lu KiB cannot exceed card capacity %lu KiB %s\n"
        [PZ total_gp_user_sz; PZ total_sz; PS device];;
      mret 1
    else mret 0.

(** [512l * wp * erase], the size in KiB of a write protect group. *)
Definition group_align (ext_csd : list Z) : mmc Z :=
  wp ← get_hc_wp_grp_size ext_csd;
  erase ← get_hc_erase_grp_size ext_csd;
  mret (u32 (u32 (512 * wp) * erase)).

(** [(length_kib + align/2l) / align], as an [unsigned int]. *)
Definition size_mult (length_kib align : Z) : mmc Z := udiv (u32 (length_kib + align / 2)) align.

(** The last steps of the two commands that make partitions. *)
Definition check_limit_or_die (device : string) (fd : Z) : mmc unit :=
  ret ← check_enhanced_area_total_limit device fd;
  when_ (nz ret) (exit_ 1).

Definition complete_or_die (dry_run : bool) (device : string) (fd : Z) : mmc unit :=
  r ← set_partitioning_setting_completed dry_run device fd;
  when_ (negb (nz r)) (exit_ 1).

Definition check_not_completed (ext_csd : list Z) : mmc unit :=
  psc ← at_ ext_csd EXT_CSD_PARTITION_SETTING_COMPLETED;
  when_ (nz psc) (printf " Device is already partitioned\n" [];; exit_ 1).

(** Set EXT_CSD_ERASE_GROUP_DEF bit 0. *)
Definition erase_group_def (fd : Z) (device : string) : mmc unit :=
  ret ← write_extcsd_value fd EXT_CSD_ERASE_GROUP_DEF 0x1;
  or_die ret "Could not write 0x1 to EXT_CSD[%d] in %s\n" [PZ EXT_CSD_ERASE_GROUP_DEF; PS device].

(** The value of EXT_PARTITIONS_ATTRIBUTE for the partition. *)
Definition ext_partition_attr (partition ext_attr value : Z) : mmc Z :=
  if nz ext_attr then
    a ← shl ext_attr (4 * Z.rem (partition - 1) 2);
    mret (u8 (Z.lor value a))
  else
    a ← shl 0xF (4 * Z.rem partition 2);
    mret (u8 (Z.land value a)).

Definition do_create_gp_partition (argv : list string) : mmc Z :=
  CHECK (negb (length argv =? 7)%nat) "Usage: mmc gp create <-y|-n> <length KiB> <partition> <enh_attr> <ext_attr> </path/to/mmcblkX>\n";;
  a1 ← argv_at argv 1;
  let dry_run := negb (streq "-y" a1) in
  a2 ← argv_at argv 2;
  let length_kib := u32 (strtol_val a2 10) in
  a3 ← argv_at argv 3;
  let partition := strtol_val a3 10 in
  a4 ← argv_at argv 4;
  let enh_attr := strtol_val a4 10 in
  a5 ← argv_at argv 5;
  let ext_attr := strtol_val a5 10 in
  device ← argv_at argv 6;
  when_ ((partition <? 0) || (4 <? partition)) (
    printf "Invalid gp parition number valid range [1-4]\n" [];; exit_ 1);;
  when_ (nz enh_attr && nz ext_attr) (
    printf "Not allowed to set both enhanced attribute and extended attribute\n" [];; exit_ 1);;
  fd ← open_device device;
  ext_csd ← read_or_die fd device;
  check_not_completed ext_csd;;
  align ← group_align ext_csd;
  gp_size_mult ← size_mult length_kib align;
  erase_group_def fd device;;
  let value := Z.land (Z.shiftr gp_size_mult 16) 0xff in
  let address := u8 (EXT_CSD_GP_SIZE_MULT_1_2 + (partition - 1) * 3) in
  write_or_die fd address value device;;
  let value := Z.land (Z.shiftr gp_size_mult 8) 0xff in
  let address := u8 (EXT_CSD_GP_SIZE_MULT_1_1 + (partition - 1) * 3) in
  write_or_die fd address value device;;
  let value := Z.land gp_size_mult 0xff in
  let address := u8 (EXT_CSD_GP_SIZE_MULT_1_0 + (partition - 1) * 3) in
  write_or_die fd address value device;;
  value ← at_ ext_csd EXT_CSD_PARTITIONS_ATTRIBUTE;
  b ← shl 1 partition;
  let value := if nz enh_attr then u8 (Z.lor value b) else u8 (Z.land value (Z.lnot b)) in
  ret ← write_extcsd_value fd EXT_CSD_PARTITIONS_ATTRIBUTE value;
  or_die ret "Could not write EXT_CSD_ENH_%x to EXT_CSD[%d] in %s\n" [PZ partition; PZ EXT_CSD_PARTITIONS_ATTRIBUTE; PS device];;
  let address := u8 (EXT_CSD_EXT_PARTITIONS_ATTRIBUTE_0 + Z.quot (partition - 1) 2) in
  value ← at_ ext_csd address;
  value ← ext_partition_attr partition ext_attr value;
  ret ← write_extcsd_value fd address value;
  or_die ret "Could not write 0x%x to EXT_CSD[%d] in %s\n" [PZ value; PZ address; PS device];;
  check_limit_or_die device fd;;
  complete_or_die dry_run device fd;;
  mret 0.

(** [start_kib * 1024 / (is_blockaddresed(ext_csd) ? 512 : 1)], rounded down
    to a multiple of [align]. *)
Definition enh_start (start_kib : Z) (blockaddressed : bool) (align : Z) : mmc Z :=
  let enh_start_addr := u32 (start_kib * 1024) / (if blockaddressed then 512 else 1) in
  q ← udiv enh_start_addr align;
  mret (u32 (q * align)).

Definition do_enh_area_set (argv : list string) : mmc Z :=
  CHECK (negb (length argv =? 5)%nat) "Usage: mmc enh_area set <-y|-n> <start KiB> <length KiB> </path/to/mmcblkX>\n";;
  a1 ← argv_at argv 1;
  let dry_run := negb (streq "-y" a1) in
  a2 ← argv_at argv 2;
  let start_kib := u32 (strtol_val a2 10) in
  a3 ← argv_at argv 3;
  let length_kib := u32 (strtol_val a3 10) in
  device ← argv_at argv 4;
  fd ← open_device device;
  ext_csd ← read_or_die fd device;
  sup ← at_ ext_csd EXT_CSD_PARTITIONING_SUPPORT;
  when_ (negb (bits sup EXT_CSD_ENH_ATTRIBUTE_EN)) (
    printf " Device cannot have enhanced tech.\n" [];; exit_ 1);;
  check_not_completed ext_csd;;
  align ← group_align ext_csd;
  enh_size_mult ← size_mult length_kib align;
  ba ← is_blockaddresed ext_csd;
  enh_start_addr ← enh_start start_kib ba align;
  erase_group_def fd device;;
  write_or_die fd EXT_CSD_ENH_START_ADDR_3 (Z.land (Z.shiftr enh_start_addr 24) 0xff) device;;
  write_or_die fd EXT_CSD_ENH_START_ADDR_2 (Z.land (Z.shiftr enh_start_addr 16) 0xff) device;;
  write_or_die fd EXT_CSD_ENH_START_ADDR_1 (Z.land (Z.shiftr enh_start_addr 8) 0xff) device;;
  write_or_die fd EXT_CSD_ENH_START_ADDR_0 (Z.land enh_start_addr 0xff) device;;
  write_or_die fd EXT_CSD_ENH_SIZE_MULT_2 (Z.land (Z.shiftr enh_size_mult 16) 0xff) device;;
  write_or_die fd EXT_CSD_ENH_SIZE_MULT_1 (Z.land (Z.shiftr enh_size_mult 8) 0xff) device;;
  write_or_die fd EXT_CSD_ENH_SIZE_MULT_0 (Z.land enh_size_mult 0xff) device;;
  pa ← at_ ext_csd EXT_CSD_PARTITIONS_ATTRIBUTE;
  let value := u8 (Z.lor pa EXT_CSD_ENH_USR) in
  ret ← write_extcsd_value fd EXT_CSD_PARTITIONS_ATTRIBUTE value;
  or_die ret "Could not write EXT_CSD_ENH_USR to EXT_CSD[%d] in %s\n" [PZ EXT_CSD_PARTITIONS_ATTRIBUTE; PS device];;
  check_limit_or_die device fd;;
  printf "Done setting ENH_USR area on %s\n" [PS device];;
  complete_or_die dry_run device fd;;
  mret 0.

Definition do_write_reliability_set (argv : list string) : mmc Z :=
  CHECK (negb (length argv =? 4)%nat) "Usage: mmc write_reliability set <-y|-n> <partition> </path/to/mmcblkX>\n";;
  a1 ← argv_at argv 1;
  let dry_run := negb (streq "-y" a1) in
  a2 ← argv_at argv 2;
  let partition := strtol_val a2 10 in
  device ← argv_at argv 3;
  fd ← open_device device;
  ext_csd ← read_or_die fd device;
  check_not_completed ext_csd;;
  param ← at_ ext_csd EXT_CSD_WR_REL_PARAM;
  when_ (negb (bits param HS_CTRL_REL)) (
    printf "Cannot set write reliability parameters, WR_REL_SET is read-only\n" [];; exit_ 1);;
  v ← at_ ext_csd EXT_CSD_WR_REL_SET;
  b ← shl 1 partition;
  let value := u8 (Z.lor v b) in
  write_or_die fd EXT_CSD_WR_REL_SET value device;;
  printf "Done setting EXT_CSD_WR_REL_SET to 0x%02x on %s\n" [PZ value; PS device];;
  complete_or_die dry_run device fd;;
  mret 0.
