(* ===== verification/MmcExtcsd.v ===== *)
(** * mmc_utils/mmc_cmds.c: printing the EXT_CSD registers

    [do_read_extcsd], in pieces that follow the text of the function; what
    is printed depends on the revision of the register file. *)

From Stdlib Require Import Ascii String.
From S2P Require Import Prelude Bytes Prog CStr MmcSys MmcCmds MmcPartition.

Open Scope Z_scope.

(** The version of the standard for a revision; others end the command. *)
Definition extcsd_rev_str (ext_csd_rev : Z) : option string :=
  if ext_csd_rev =? 7 then Some "5.0"
  else if ext_csd_rev =? 6 then Some "4.5"
  else if ext_csd_rev =? 5 then Some "4.41"
  else if ext_csd_rev =? 3 then Some "4.3"
  else if ext_csd_rev =? 2 then Some "4.2"
  else if ext_csd_rev =? 1 then Some "4.1"
  else if ext_csd_rev =? 0 then Some "4.0"
  else None.

Section Print.
Variables (ext_csd : list Z) (ext_csd_rev : Z).

(** [printf(fmt, ext_csd[i])]. *)
Definition line (fmt : string) (i : Z) : mmc unit :=
  v ← at_ ext_csd i;
  printf fmt [PZ v].

(** [if (reg & mask) printf(fmt);]. *)
Definition flag_line (reg mask : Z) (fmt : string) : mmc unit := when_ (bits reg mask) (printf fmt []).

(** [for (j = from; j > from - n; j--) printf(fmt, j, ext_csd[j]);]. *)
Fixpoint down_lines (n : nat) (j : Z) (fmt : string) : mmc unit :=
  match n with
  | O => mret tt
  | S n =>
      v ← at_ ext_csd j;
      printf fmt [PZ j; PZ v];;
      down_lines n (j - 1) fmt
  end.

(** Two bytes as a number. *)
Definition line16 (fmt : string) (hi lo : Z) : mmc unit :=
  h ← at_ ext_csd hi;
  l ← at_ ext_csd lo;
  printf fmt [PZ (Z.lor (Z.shiftl h 8) l)].

Definition print_cmd_set : mmc unit :=
  reg ← at_ ext_csd EXT_CSD_S_CMD_SET;
  printf "Card Supported Command sets [S_CMD_SET: 0x%02x]\n" [PZ reg];;
  when_ (negb (nz reg)) (printf " - Standard MMC command sets\n" []).

Definition print_hpi : mmc unit :=
  reg ← at_ ext_csd EXT_CSD_HPI_FEATURE;
  printf "HPI Features [HPI_FEATURE: 0x%02x]: " [PZ reg];;
  when_ (bits reg EXT_CSD_HPI_SUPP) (
    if bits reg EXT_CSD_HPI_IMPL then printf "implementation based on CMD12\n" []
    else printf "implementation based on CMD13\n" []).

Definition print_rev6_features : mmc unit :=
  line "Max Packet Read Cmd [MAX_PACKED_READS: 0x%02x]\n" 501;;
  line "Max Packet Write Cmd [MAX_PACKED_WRITES: 0x%02x]\n" 500;;
  line "Data TAG support [DATA_TAG_SUPPORT: 0x%02x]\n" 499;;
  line "Data TAG Unit Size [TAG_UNIT_SIZE: 0x%02x]\n" 498;;
  line "Tag Resources Size [TAG_RES_SIZE: 0x%02x]\n" 497;;
  line "Context Management Capabilities [CONTEXT_CAPABILITIES: 0x%02x]\n" 496;;
  line "Large Unit Size [LARGE_UNIT_SIZE_M1: 0x%02x]\n" 495;;
  line "Extended partition attribute support [EXT_SUPPORT: 0x%02x]\n" 494;;
  line "Generic CMD6 Timer [GENERIC_CMD6_TIME: 0x%02x]\n" 248;;
  line "Power off notification [POWER_OFF_LONG_TIME: 0x%02x]\n" 247;;
  c0 ← at_ ext_csd 249;
  c1 ← at_ ext_csd 250;
  c2 ← at_ ext_csd 251;
  c3 ← at_ ext_csd 252;
  printf "Cache Size [CACHE_SIZE] is %d KiB\n"
    [PZ (Z.lor (Z.lor (Z.lor (Z.shiftl c0 0) (Z.shiftl c1 8)) (Z.shiftl c2 16)) (i32 (Z.shiftl c3 24)))].

Definition print_rev5_power : mmc unit :=
  line "Background operations status [BKOPS_STATUS: 0x%02x]\n" 246;;
  line "1st Initialisation Time after programmed sector [INI_TIMEOUT_AP: 0x%02x]\n" 241;;
  line "Power class for 52MHz, DDR at 3.6V [PWR_CL_DDR_52_360: 0x%02x]\n" 239;;
  line "Power class for 52MHz, DDR at 1.95V [PWR_CL_DDR_52_195: 0x%02x]\n" 238;;
  when_ (6 <=? ext_csd_rev) (
    line "Power class for 200MHz at 3.6V [PWR_CL_200_360: 0x%02x]\n" 237;;
    line "Power class for 200MHz, at 1.95V [PWR_CL_200_195: 0x%02x]\n" 236);;
  printf "Minimum Performance for 8bit at 52MHz in DDR mode:\n" [];;
  line " [MIN_PERF_DDR_W_8_52: 0x%02x]\n" 235;;
  line " [MIN_PERF_DDR_R_8_52: 0x%02x]\n" 234;;
  line "TRIM Multiplier [TRIM_MULT: 0x%02x]\n" 232;;
  line "Secure Feature support [SEC_FEATURE_SUPPORT: 0x%02x]\n" 231.

Definition print_rev5_secure : mmc unit :=
  line "Secure Erase Multiplier [SEC_ERASE_MULT: 0x%02x]\n" 230;;
  line "Secure TRIM Multiplier [SEC_TRIM_MULT: 0x%02x]\n" 229.

Definition print_boot_info : mmc unit :=
  reg ← at_ ext_csd EXT_CSD_BOOT_INFO;
  printf "Boot Information [BOOT_INFO: 0x%02x]\n" [PZ reg];;
  flag_line reg EXT_CSD_BOOT_INFO_ALT " Device supports alternative boot method\n";;
  flag_line reg EXT_CSD_BOOT_INFO_DDR_DDR " Device supports dual data rate during boot\n";;
  flag_line reg EXT_CSD_BOOT_INFO_HS_MODE " Device supports high speed timing during boot\n";;
  line "Boot partition size [BOOT_SIZE_MULTI: 0x%02x]\n" 226;;
  line "Access size [ACC_SIZE: 0x%02x]\n" 225.

Definition print_groups : mmc unit :=
  reg ← get_hc_erase_grp_size ext_csd;
  printf "High-capacity erase unit size [HC_ERASE_GRP_SIZE: 0x%02x]\n" [PZ reg];;
  printf " i.e. %u KiB\n" [PZ (512 * reg)];;
  line "High-capacity erase timeout [ERASE_TIMEOUT_MULT: 0x%02x]\n" 223;;
  line "Reliable write sector count [REL_WR_SEC_C: 0x%02x]\n" 222;;
  reg ← get_hc_wp_grp_size ext_csd;
  printf "High-capacity W protect group size [HC_WP_GRP_SIZE: 0x%02x]\n" [PZ reg];;
  erase ← get_hc_erase_grp_size ext_csd;
  printf " i.e. %lu KiB\n" [PZ (u32 (u32 (512 * erase) * reg))];;
  line "Sleep current (VCC) [S_C_VCC: 0x%02x]\n" 220;;
  line "Sleep current (VCCQ) [S_C_VCCQ: 0x%02x]\n" 219;;
  line "Sleep/awake timeout [S_A_TIMEOUT: 0x%02x]\n" 217.

Definition print_sectors : mmc unit :=
  sectors ← get_sector_count ext_csd;
  printf "Sector Count [SEC_COUNT: 0x%08x]\n" [PZ sectors];;
  ba ← is_blockaddresed ext_csd;
  if (ba : bool) then printf " Device is block-addressed\n" []
  else printf " Device is NOT block-addressed\n" [].

Definition print_performance : mmc unit :=
  printf "Minimum Write Performance for 8bit:\n" [];;
  line " [MIN_PERF_W_8_52: 0x%02x]\n" 210;;
  line " [MIN_PERF_R_8_52: 0x%02x]\n" 209;;
  line " [MIN_PERF_W_8_26_4_52: 0x%02x]\n" 208;;
  line " [MIN_PERF_R_8_26_4_52: 0x%02x]\n" 207;;
  printf "Minimum Write Performance for 4bit:\n" [];;
  line " [MIN_PERF_W_4_26: 0x%02x]\n" 206;;
  line " [MIN_PERF_R_4_26: 0x%02x]\n" 205;;
  printf "Power classes registers:\n" [];;
  line " [PWR_CL_26_360: 0x%02x]\n" 203;;
  line " [PWR_CL_52_360: 0x%02x]\n" 202;;
  line " [PWR_CL_26_195: 0x%02x]\n" 201;;
  line " [PWR_CL_52_195: 0x%02x]\n" 200.

Definition print_timing : mmc unit :=
  when_ (5 <=? ext_csd_rev) (
    line "Partition switching timing [PARTITION_SWITCH_TIME: 0x%02x]\n" 199;;
    line "Out-of-interrupt busy timing [OUT_OF_INTERRUPT_TIME: 0x%02x]\n" 198);;
  when_ (6 <=? ext_csd_rev) (
    line "I/O Driver Strength [DRIVER_STRENGTH: 0x%02x]\n" 197).

Definition print_card_type : mmc unit :=
  reg ← at_ ext_csd 196;
  printf "Card Type [CARD_TYPE: 0x%02x]\n" [PZ reg];;
  flag_line reg 0x20 " HS200 Single Data Rate eMMC @200MHz 1.2VI/O\n";;
  flag_line reg 0x10 " HS200 Single Data Rate eMMC @200MHz 1.8VI/O\n";;
  flag_line reg 0x08 " HS Dual Data Rate eMMC @52MHz 1.2VI/O\n";;
  flag_line reg 0x04 " HS Dual Data Rate eMMC @52MHz 1.8V or 3VI/O\n";;
  flag_line reg 0x02 " HS eMMC @52MHz - at rated device voltage(s)\n";;
  flag_line reg 0x01 " HS eMMC @26MHz - at rated device voltage(s)\n".

Definition print_modes : mmc unit :=
  line "CSD structure version [CSD_STRUCTURE: 0x%02x]\n" 194;;
  line "Command set [CMD_SET: 0x%02x]\n" 191;;
  line "Command set revision [CMD_SET_REV: 0x%02x]\n" 189;;
  line "Power class [POWER_CLASS: 0x%02x]\n" 187;;
  line "High-speed interface timing [HS_TIMING: 0x%02x]\n" 185;;
  line "Erased memory content [ERASED_MEM_CONT: 0x%02x]\n" 181.

Definition print_boot_config : mmc unit :=
  reg ← at_ ext_csd EXT_CSD_BOOT_CFG;
  printf "Boot configuration bytes [PARTITION_CONFIG: 0x%02x]\n" [PZ reg];;
  let en := Z.shiftr (Z.land reg EXT_CSD_BOOT_CFG_EN) 3 in
  (if en =? 0x0 then printf " Not boot enable\n" []
   else if en =? 0x1 then printf " Boot Partition 1 enabled\n" []
   else if en =? 0x2 then printf " Boot Partition 2 enabled\n" []
   else if en =? 0x7 then printf " User Area Enabled for boot\n" []
   else mret tt);;
  let acc := Z.land reg EXT_CSD_BOOT_CFG_ACC in
  (if acc =? 0x0 then printf " No access to boot partition\n" []
   else if acc =? 0x1 then printf " R/W Boot Partition 1\n" []
   else if acc =? 0x2 then printf " R/W Boot Partition 2\n" []
   else if acc =? 0x3 then printf " R/W Replay Protected Memory Block (RPMB)\n" []
   else printf " Access to General Purpose partition %d\n" [PZ (acc - 3)]).

Definition print_boot_protection : mmc unit :=
  line "Boot config protection [BOOT_CONFIG_PROT: 0x%02x]\n" 178;;
  line "Boot bus Conditions [BOOT_BUS_CONDITIONS: 0x%02x]\n" 177;;
  line "High-density erase group definition [ERASE_GROUP_DEF: 0x%02x]\n" EXT_CSD_ERASE_GROUP_DEF;;
  print_writeprotect_status ext_csd.

Definition fast : string := "existing data is at risk if a power failure occurs during a write operation".
Definition reliable : string := "the device protects existing data if a power failure occurs during a write operation".

(** [for (i = i0; i < i0 + n; i++) ...]. *)
Fixpoint rel_lines (n : nat) (i reg : Z) : mmc unit :=
  match n with
  | O => mret tt
  | S n =>
      printf " partition %d: %s\n" [PZ i; PS (if bits reg (Z.shiftl 1 i) then reliable else fast)];;
      rel_lines n (i + 1) reg
  end.

Definition print_reliability : mmc unit :=
  line "User area write protection register [USER_WP]: 0x%02x\n" 171;;
  line "FW configuration [FW_CONFIG]: 0x%02x\n" 169;;
  line "RPMB Size [RPMB_SIZE_MULT]: 0x%02x\n" 168;;
  reg ← at_ ext_csd EXT_CSD_WR_REL_SET;
  printf "Write reliability setting register [WR_REL_SET]: 0x%02x\n" [PZ reg];;
  printf " user area: %s\n" [PS (if bits reg (Z.shiftl 1 0) then reliable else fast)];;
  rel_lines 4 1 reg;;
  reg ← at_ ext_csd EXT_CSD_WR_REL_PARAM;
  printf "Write reliability parameter register [WR_REL_PARAM]: 0x%02x\n" [PZ reg];;
  flag_line reg 0x01 " Device supports writing EXT_CSD_WR_REL_SET\n";;
  flag_line reg 0x04 " Device supports the enhanced def. of reliable write\n";;
  line "Enable background operations handshake [BKOPS_EN]: 0x%02x\n" 163;;
  line "H/W reset function [RST_N_FUNCTION]: 0x%02x\n" 162;;
  line "HPI management [HPI_MGMT]: 0x%02x\n" 161.

Definition print_partitioning : mmc unit :=
  reg ← at_ ext_csd EXT_CSD_PARTITIONING_SUPPORT;
  printf "Partitioning Support [PARTITIONING_SUPPORT]: 0x%02x\n" [PZ reg];;
  (if bits reg EXT_CSD_PARTITIONING_EN then printf " Device support partitioning feature\n" []
   else printf " Device NOT support partitioning feature\n" []);;
  (if bits reg EXT_CSD_ENH_ATTRIBUTE_EN then printf " Device can have enhanced tech.\n" []
   else printf " Device cannot have enhanced tech.\n" []);;
  regl ← csd24 ext_csd EXT_CSD_MAX_ENH_SIZE_MULT_2 EXT_CSD_MAX_ENH_SIZE_MULT_1 EXT_CSD_MAX_ENH_SIZE_MULT_0;
  printf "Max Enhanced Area Size [MAX_ENH_SIZE_MULT]: 0x%06x\n" [PZ regl];;
  wp_sz ← get_hc_wp_grp_size ext_csd;
  erase_sz ← get_hc_erase_grp_size ext_csd;
  printf " i.e. %lu KiB\n" [PZ (kib_of regl wp_sz erase_sz)];;
  line "Partitions attribute [PARTITIONS_ATTRIBUTE]: 0x%02x\n" EXT_CSD_PARTITIONS_ATTRIBUTE;;
  reg ← at_ ext_csd EXT_CSD_PARTITION_SETTING_COMPLETED;
  printf "Partitioning Setting [PARTITION_SETTING_COMPLETED]: 0x%02x\n" [PZ reg];;
  (if nz reg then printf " Device partition setting complete\n" []
   else printf " Device partition setting NOT complete\n" []).

(** A partition's size register. *)
Definition size_line (fmt : string) (b2 b1 b0 : Z) : mmc unit :=
  regl ← csd24 ext_csd b2 b1 b0;
  printf fmt [PZ regl].

Definition print_gp_sizes : mmc unit :=
  size_line "General Purpose Partition Size\n [GP_SIZE_MULT_4]: 0x%06x\n" 154 153 152;;
  size_line " [GP_SIZE_MULT_3]: 0x%06x\n" 151 150 149;;
  size_line " [GP_SIZE_MULT_2]: 0x%06x\n" 148 147 146;;
  size_line " [GP_SIZE_MULT_1]: 0x%06x\n" 145 144 143.

(** The factor from addresses to bytes is 512 for a device that is NOT
    block-addressed: the branches are the wrong way round. *)
Definition print_enh_area : mmc unit :=
  regl ← csd24 ext_csd EXT_CSD_ENH_SIZE_MULT_2 EXT_CSD_ENH_SIZE_MULT_1 EXT_CSD_ENH_SIZE_MULT_0;
  printf "Enhanced User Data Area Size [ENH_SIZE_MULT]: 0x%06x\n" [PZ regl];;
  erase_sz ← get_hc_erase_grp_size ext_csd;
  wp_sz ← get_hc_wp_grp_size ext_csd;
  printf " i.e. %lu KiB\n" [PZ (kib_of regl erase_sz wp_sz)];;
  b3 ← at_ ext_csd EXT_CSD_ENH_START_ADDR_3;
  b2 ← at_ ext_csd EXT_CSD_ENH_START_ADDR_2;
  b1 ← at_ ext_csd EXT_CSD_ENH_START_ADDR_1;
  b0 ← at_ ext_csd EXT_CSD_ENH_START_ADDR_0;
  let regl := u32 (Z.lor (Z.lor (Z.lor (i32 (Z.shiftl b3 24)) (Z.shiftl b2 16)) (Z.shiftl b1 8)) b0) in
  printf "Enhanced User Data Start Address [ENH_START_ADDR]: 0x%06x\n" [PZ regl];;
  ba ← is_blockaddresed ext_csd;
  printf " i.e. %lu bytes offset\n" [PZ (u32 ((if (ba : bool) then 1 else 512) * regl))];;
  line "Bad Block Management mode [SEC_BAD_BLK_MGMNT]: 0x%02x\n" 134.

Definition print_rev6_vendor : mmc unit :=
  line "Periodic Wake-up [PERIODIC_WAKEUP]: 0x%02x\n" 131;;
  line "Program CID/CSD in DDR mode support [PROGRAM_CID_CSD_DDR_SUPPORT]: 0x%02x\n" 130;;
  down_lines 64 127 "Vendor Specific Fields [VENDOR_SPECIFIC_FIELD[%d]]: 0x%02x\n".

Definition print_rev6_sectors : mmc unit :=
  line "Native sector size [NATIVE_SECTOR_SIZE]: 0x%02x\n" 63;;
  line "Sector size emulation [USE_NATIVE_SECTOR]: 0x%02x\n" 62;;
  line "Sector size [DATA_SECTOR_SIZE]: 0x%02x\n" 61;;
  line "1st initialization after disabling sector size emulation [INI_TIMEOUT_EMU]: 0x%02x\n" 60;;
  line "Class 6 commands control [CLASS_6_CTRL]: 0x%02x\n" 59;;
  line "Number of addressed group to be Released[DYNCAP_NEEDED]: 0x%02x\n" 58;;
  line16 "Exception events control [EXCEPTION_EVENTS_CTRL]: 0x%04x\n" 57 56;;
  line16 "Exception events status[EXCEPTION_EVENTS_STATUS]: 0x%04x\n" 55 54;;
  line16 "Extended Partitions Attribute [EXT_PARTITIONS_ATTRIBUTE]: 0x%04x\n" 53 52;;
  down_lines 15 51 "Context configuration [CONTEXT_CONF[%d]]: 0x%02x\n";;
  line "Packed command status [PACKED_COMMAND_STATUS]: 0x%02x\n" 36;;
  line "Packed command failure index [PACKED_FAILURE_INDEX]: 0x%02x\n" 35;;
  line "Power Off Notification [POWER_OFF_NOTIFICATION]: 0x%02x\n" 34;;
  line "Control to turn the Cache ON/OFF [CACHE_CTRL]: 0x%02x\n" 33.

(** Everything after the heading, for revision 3 and later. *)
Definition print_registers : mmc unit :=
  print_cmd_set;;
  print_hpi;;
  line "Background operations support [BKOPS_SUPPORT: 0x%02x]\n" 502;;
  when_ (6 <=? ext_csd_rev) print_rev6_features;;
  when_ (5 <=? ext_csd_rev) print_rev5_power;;
  when_ (ext_csd_rev =? 5) print_rev5_secure;;
  print_boot_info;;
  print_groups;;
  print_sectors;;
  print_performance;;
  print_timing;;
  print_card_type;;
  print_modes;;
  print_boot_config;;
  print_boot_protection;;
  when_ (5 <=? ext_csd_rev) (
    print_reliability;;
    print_partitioning;;
    print_gp_sizes;;
    print_enh_area);;
  when_ (6 <=? ext_csd_rev) (
    print_rev6_vendor;;
    print_rev6_sectors).

End Print.

Definition do_read_extcsd (argv : list string) : mmc Z :=
  CHECK (negb (length argv =? 2)%nat) "Usage: mmc extcsd read </path/to/mmcblkX>\n";;
  device ← argv_at argv 1;
  fd ← open_device device;
  ext_csd ← read_or_die fd device;
  ext_csd_rev ← at_ ext_csd EXT_CSD_REV;
  match extcsd_rev_str ext_csd_rev with
  | None => mret 0
  | Some str =>
      printf "=============================================\n" [];;
      printf "  Extended CSD rev 1.%d (MMC %s)\n" [PZ ext_csd_rev; PS str];;
      printf "=============================================\n\n" [];;
      when_ (3 <=? ext_csd_rev) (print_registers ext_csd ext_csd_rev);;
      mret 0
  end.
