(* ===== verification/MmcRpmb.v ===== *)
(** * mmc_utils/mmc_cmds.c: the replay protected memory block

    The 512-byte frames exchanged with the device, the [DO_IO] loop that
    moves a whole buffer, [do_rpmb_op] and the four RPMB commands.

    A frame is a record of the members of [struct rpmb_frame]; its integers
    are as the (little-endian) machine holds them, so that [htobe16] and
    [be16toh] swap their bytes, and [frame_bytes] lays the members out in
    memory.  The HMAC functions are those of the vendored library in
    mmc_utils/3rdparty, which is not modelled: the class [Hmac] gives their
    types.
    [junk] is what an uninitialised frame holds. *)

From Stdlib Require Import Ascii String.
From S2P Require Import Prelude Bytes Prog CStr MmcSys MmcCmds.

Open Scope Z_scope.

(** ** Frames *)

Inductive rpmb_op_type :=
| MMC_RPMB_WRITE_KEY | MMC_RPMB_READ_CNT | MMC_RPMB_WRITE | MMC_RPMB_READ | MMC_RPMB_READ_RESP.

Definition rpmb_op_code (t : rpmb_op_type) : Z :=
  match t with
  | MMC_RPMB_WRITE_KEY => 0x01
  | MMC_RPMB_READ_CNT => 0x02
  | MMC_RPMB_WRITE => 0x03
  | MMC_RPMB_READ => 0x04
  | MMC_RPMB_READ_RESP => 0x05
  end.

Record rpmb_frame := mkFrame {
  stuff : list Z;
  key_mac : list Z;
  data : list Z;
  nonce : list Z;
  write_counter : Z;
  addr : Z;
  block_count : Z;
  f_result : Z;
  req_resp : Z }.

Definition swap16 (x : Z) : Z := le_val (rev (le16 x)).
Definition swap32 (x : Z) : Z := le_val (rev (le32 x)).
Definition htobe16 (x : Z) : Z := swap16 x.
Definition be16toh (x : Z) : Z := swap16 x.
Definition htobe32 (x : Z) : Z := swap32 x.
Definition be32toh (x : Z) : Z := swap32 x.

Definition frame_bytes (f : rpmb_frame) : list Z :=
  stuff f ++ key_mac f ++ data f ++ nonce f ++ le32 (write_counter f) ++ le16 (addr f) ++
  le16 (block_count f) ++ le16 (f_result f) ++ le16 (req_resp f).

(** The members at their offsets. *)
Definition sub (off n : nat) (bs : list Z) : list Z := take n (drop off bs).

Definition frame_of (bs : list Z) : rpmb_frame :=
  mkFrame (sub 0 196 bs) (sub 196 32 bs) (sub 228 256 bs) (sub 484 16 bs)
    (le_val (sub 500 4 bs)) (le_val (sub 504 2 bs)) (le_val (sub 506 2 bs))
    (le_val (sub 508 2 bs)) (le_val (sub 510 2 bs)).

(** [calloc] and [memset(..., 0, ...)]. *)
Definition zero_frame : rpmb_frame :=
  mkFrame (replicate 196 0) (replicate 32 0) (replicate 256 0) (replicate 16 0) 0 0 0 0 0.

Definition set_key_mac (v : list Z) (f : rpmb_frame) : rpmb_frame :=
  mkFrame (stuff f) v (data f) (nonce f) (write_counter f) (addr f) (block_count f) (f_result f) (req_resp f).
Definition set_data (v : list Z) (f : rpmb_frame) : rpmb_frame :=
  mkFrame (stuff f) (key_mac f) v (nonce f) (write_counter f) (addr f) (block_count f) (f_result f) (req_resp f).
Definition set_write_counter (v : Z) (f : rpmb_frame) : rpmb_frame :=
  mkFrame (stuff f) (key_mac f) (data f) (nonce f) v (addr f) (block_count f) (f_result f) (req_resp f).
Definition set_addr (v : Z) (f : rpmb_frame) : rpmb_frame :=
  mkFrame (stuff f) (key_mac f) (data f) (nonce f) (write_counter f) v (block_count f) (f_result f) (req_resp f).
Definition set_block_count (v : Z) (f : rpmb_frame) : rpmb_frame :=
  mkFrame (stuff f) (key_mac f) (data f) (nonce f) (write_counter f) (addr f) v (f_result f) (req_resp f).
Definition set_req_resp (v : Z) (f : rpmb_frame) : rpmb_frame :=
  mkFrame (stuff f) (key_mac f) (data f) (nonce f) (write_counter f) (addr f) (block_count f) (f_result f) v.

(** The part of a frame the MAC covers: [sizeof(frame) - offsetof(data)]
    bytes from [data] on. *)
Definition mac_part (f : rpmb_frame) : list Z := drop 228 (frame_bytes f).

(** An array of frames in memory. *)
Definition frames_bytes (fs : list rpmb_frame) : list Z := concat (frame_bytes <$> fs).

Fixpoint frames_of (n : nat) (bs : list Z) : list rpmb_frame :=
  match n with
  | O => []
  | S n => frame_of bs :: frames_of n (drop 512 bs)
  end.

(** ** DO_IO

    [func(fd, buf + ret, nbyte - ret)] until [nbyte] bytes are done, the end
    of the file, or an error other than EINTR; an interrupted call counts
    for nothing. *)

Definition io_done (r ret nbyte : Z) : bool := (r =? 0) || (ret =? nbyte).

Fixpoint do_io_read (fuel : nat) (fd : Z) (buf : list Z) (nbyte : Z) : mmc (Z * list Z) :=
  match fuel with
  | O => OutOfFuel
  | S fuel =>
      let ret := Z.of_nat (length buf) in
      r ← call (Read fd (nbyte - ret));
      match r with
      | inr e =>
          if negb (e =? EINTR) then mret (-1, buf)
          else if io_done (-1) ret nbyte then mret (ret, buf)
          else do_io_read fuel fd buf nbyte
      | inl bs =>
          let buf := buf ++ bs in
          let ret := ret + Z.of_nat (length bs) in
          if io_done (Z.of_nat (length bs)) ret nbyte then mret (ret, buf)
          else do_io_read fuel fd buf nbyte
      end
  end.

(** [ret] counts the bytes of [buf] already written. *)
Fixpoint do_io_write (fuel : nat) (fd : Z) (buf : list Z) (ret : Z) : mmc Z :=
  match fuel with
  | O => OutOfFuel
  | S fuel =>
      let nbyte := Z.of_nat (length buf) in
      r ← call (Write fd (drop (Z.to_nat ret) buf));
      match r with
      | inr e =>
          if negb (e =? EINTR) then mret (-1)
          else if io_done (-1) ret nbyte then mret ret
          else do_io_write fuel fd buf ret
      | inl n =>
          let ret := ret + n in
          if io_done n ret nbyte then mret ret
          else do_io_write fuel fd buf ret
      end
  end.

(** ** The operation *)

(** An ioctl on frames: what the driver copies out goes over [frames]. *)
Definition ioctl_frames (fd wflag op blks : Z) (frames : list rpmb_frame) :
    mmc (ioctl_res * list rpmb_frame) :=
  let bs := frames_bytes frames in
  r ← ioctl fd {| write_flag := wflag; opcode := op; arg := 0x0;
    flags := Z.lor (Z.lor MMC_RSP_SPI_R1 MMC_RSP_R1) MMC_CMD_ADTC;
    blksz := 512; blocks := blks; data_ptr := Some bs |};
  bs ← copy_out bs (i_data r);
  mret (r, frames_of (length frames) bs).

(** [write_flag |= (1<<31)]: a reliable write. *)
Definition RELIABLE : Z := i32 (Z.lor 1 (Z.shiftl 1 31)).

(** [err < 0] becomes [-errno]. *)
Definition rpmb_err (r : ioctl_res) : Z := - i_errno r.

Definition do_rpmb_op (fd : Z) (frame_in : option rpmb_frame) (frame_out : option (list rpmb_frame))
    (out_cnt : Z) : mmc (Z * list rpmb_frame) :=
  match frame_in, frame_out with
  | Some fin, Some fout =>
      if out_cnt =? 0 then mret (- EINVAL, fout) else
      let rpmb_type := be16toh (req_resp fin) in
      if (rpmb_type =? rpmb_op_code MMC_RPMB_WRITE) || (rpmb_type =? rpmb_op_code MMC_RPMB_WRITE_KEY) then
        if negb (out_cnt =? 1) then mret (- EINVAL, fout) else
        '(r, _) ← ioctl_frames fd RELIABLE MMC_WRITE_MULTIPLE_BLOCK 1 [fin];
        if i_ret r <? 0 then mret (rpmb_err r, fout) else
        let fout := set_req_resp (htobe16 (rpmb_op_code MMC_RPMB_READ_RESP)) zero_frame :: tail fout in
        '(r, _) ← ioctl_frames fd 1 MMC_WRITE_MULTIPLE_BLOCK 1 fout;
        if i_ret r <? 0 then mret (rpmb_err r, fout) else
        '(r, fout) ← ioctl_frames fd 0 MMC_READ_MULTIPLE_BLOCK 1 fout;
        if i_ret r <? 0 then mret (rpmb_err r, fout) else
        mret (i_ret r, fout)
      else if (rpmb_type =? rpmb_op_code MMC_RPMB_READ_CNT) || (rpmb_type =? rpmb_op_code MMC_RPMB_READ) then
        if (rpmb_type =? rpmb_op_code MMC_RPMB_READ_CNT) && negb (out_cnt =? 1) then mret (- EINVAL, fout) else
        '(r, _) ← ioctl_frames fd 1 MMC_WRITE_MULTIPLE_BLOCK 1 [fin];
        if i_ret r <? 0 then mret (rpmb_err r, fout) else
        '(r, fout) ← ioctl_frames fd 0 MMC_READ_MULTIPLE_BLOCK out_cnt fout;
        if i_ret r <? 0 then mret (rpmb_err r, fout) else
        mret (i_ret r, fout)
      else mret (- EINVAL, fout)
  | _, _ => mret (- EINVAL, default [] frame_out)
  end.

(** ** The commands *)

Class Hmac := {
  hmac_ctx : Type;
  hmac_sha256_init : list Z -> hmac_ctx;
  hmac_sha256_update : hmac_ctx -> list Z -> hmac_ctx;
  hmac_sha256_final : hmac_ctx -> Z -> list Z;
  hmac_sha256 : list Z -> list Z -> Z -> list Z }.

(** What RFC 2104 says of it: the MAC has the size asked for, here 32, and
    feeding a message in parts gives the MAC of the whole. *)
Class HmacLaws (HM : Hmac) := {
  hmac_length : forall key msg, length (hmac_sha256 key msg 32) = 32%nat;
  hmac_parts : forall key parts,
    hmac_sha256_final (fold_left hmac_sha256_update parts (hmac_sha256_init key)) 32 =
    hmac_sha256 key (concat parts) 32 }.

Section Commands.
Context {HM : Hmac}.
Variables (junk : rpmb_frame) (fuel : nat).

Definition STDIN_FILENO : Z := 0.
Definition STDOUT_FILENO : Z := 1.

(** [-] stands for a standard stream. *)
Definition open_or_std (path : string) (std : Z) (m : open_mode) (err : string) : mmc Z :=
  if streq "-" path then mret std
  else
    fd ← call (Open path m);
    when_ (fd <? 0) (perror err;; exit_ 1);;
    mret fd.

Definition close_unless (fd std : Z) : mmc unit := when_ (negb (fd =? std)) (call (Close fd)).

(** [DO_IO(read, fd, buf, nbyte)], giving up when it fails or falls short. *)
Definition read_all (fd nbyte : Z) (err msg : string) : mmc (list Z) :=
  '(ret, buf) ← do_io_read fuel fd [] nbyte;
  if ret <? 0 then perror err;; exit_ 1
  else if negb (ret =? nbyte) then printf msg [PZ nbyte; PZ ret];; exit_ 1
  else mret buf.

Definition open_rpmb (argv : list string) : mmc Z :=
  path ← argv_at argv 1;
  fd ← call (Open path O_RDWR);
  when_ (fd <? 0) (perror "device open";; exit_ 1);;
  mret fd.

(** One frame out, one frame back. *)
Definition rpmb_op1 (dev_fd : Z) (frame_in : rpmb_frame) : mmc (Z * rpmb_frame) :=
  '(ret, out) ← do_rpmb_op dev_fd (Some frame_in) (Some [junk]) 1;
  when_ (nz ret) (perror "RPMB ioctl failed";; exit_ 1);;
  mret (ret, default junk (head out)).

Definition check_result (f_out : rpmb_frame) : mmc unit :=
  when_ (nz (f_result f_out)) (
    printf "RPMB operation failed, retcode 0x%04x\n" [PZ (be16toh (f_result f_out))];; exit_ 1).

Definition do_rpmb_write_key (argv : list string) : mmc Z :=
  let frame_in := set_req_resp (htobe16 (rpmb_op_code MMC_RPMB_WRITE_KEY)) zero_frame in
  CHECK (negb (length argv =? 3)%nat) "Usage: mmc rpmb write-key </path/to/mmcblkXrpmb> </path/to/key>\n";;
  dev_fd ← open_rpmb argv;
  a2 ← argv_at argv 2;
  key_fd ← open_or_std a2 STDIN_FILENO O_RDONLY "can't open key file";
  key ← read_all key_fd 32 "read the key" "Auth key must be %lu bytes length, but we read only %d, exit\n";
  let frame_in := set_key_mac key frame_in in
  '(ret, frame_out) ← rpmb_op1 dev_fd frame_in;
  check_result frame_out;;
  call (Close dev_fd);;
  close_unless key_fd STDIN_FILENO;;
  mret ret.

(** The code of the device, and the counter when it is 0. *)
Definition rpmb_read_counter (dev_fd : Z) : mmc (Z * option Z) :=
  let frame_in := set_req_resp (htobe16 (rpmb_op_code MMC_RPMB_READ_CNT)) zero_frame in
  '(ret, frame_out) ← rpmb_op1 dev_fd frame_in;
  if nz (f_result frame_out) then mret (be16toh (f_result frame_out), None)
  else mret (0, Some (be32toh (write_counter frame_out))).

(** An [unsigned int] that was not assigned is undefined to use. *)
Definition assigned (x : option Z) : mmc Z := match x with Some v => mret v | None => undef end.

Definition do_rpmb_read_counter (argv : list string) : mmc Z :=
  CHECK (negb (length argv =? 2)%nat) "Usage: mmc rpmb read-counter </path/to/mmcblkXrpmb>\n";;
  dev_fd ← open_rpmb argv;
  '(ret, cnt) ← rpmb_read_counter dev_fd;
  when_ (nz ret) (printf "RPMB operation failed, retcode 0x%04x\n" [PZ ret];; exit_ 1);;
  call (Close dev_fd);;
  cnt ← assigned cnt;
  printf "Counter value: 0x%08x\n" [PZ cnt];;
  mret ret.

(** [errno = 0; x = strtol(s, NULL, 0); if (errno) ...], as a [uint16_t]. *)
Definition strtol16 (s err : string) : mmc Z :=
  let '(v, errno) := strtol s 0 in
  when_ (nz errno) (perror err;; exit_ 1);;
  mret (u16 v).

(** The loop that feeds the frames to the HMAC. *)
Fixpoint mac_loop (ctx : hmac_ctx) (frames : list rpmb_frame) : hmac_ctx :=
  match frames with
  | [] => ctx
  | f :: fs => mac_loop (hmac_sha256_update ctx (mac_part f)) fs
  end.

(** Compare the MAC of the frames with the last frame's. *)
Definition verify_mac (key : list Z) (frames : list rpmb_frame) : mmc unit :=
  let ctx := mac_loop (hmac_sha256_init key) frames in
  let mac := hmac_sha256_final ctx 32 in
  match last frames with
  | None => undef
  | Some frame_out =>
      when_ (negb (bool_decide (mac = key_mac frame_out))) (printf "RPMB MAC missmatch\n" [];; exit_ 1)
  end.

(** [ret] is the value of the last [DO_IO], or what it was before. *)
Fixpoint write_frames (data_fd : Z) (frames : list rpmb_frame) (ret : Z) : mmc Z :=
  match frames with
  | [] => mret ret
  | f :: fs =>
      ret ← do_io_write fuel data_fd (data f) 0;
      if ret <? 0 then perror "write the data";; exit_ 1
      else if negb (ret =? Z.of_nat (length (data f))) then
        printf "Data must be %lu bytes length, but we wrote only %d, exit\n"
          [PZ (Z.of_nat (length (data f))); PZ ret];; exit_ 1
      else write_frames data_fd fs ret
  end.

(** The key of the fifth argument, and its descriptor. *)
Definition read_block_key (argv : list string) : mmc (Z * list Z) :=
  a5 ← argv_at argv 5;
  key_fd ← open_or_std a5 STDIN_FILENO O_RDONLY "can't open input key file";
  key ← read_all key_fd 32 "read the key data" "Data must be %lu bytes length, but we read only %d, exit\n";
  mret (key_fd, key).

Definition do_rpmb_read_block (argv : list string) : mmc Z :=
  let nargs := length argv in
  CHECK (negb (nargs =? 5)%nat && negb (nargs =? 6)%nat) "Usage: mmc rpmb read-block </path/to/mmcblkXrpmb> <address> <blocks count> </path/to/output_file> [/path/to/key]\n";;
  let frame_in := set_req_resp (htobe16 (rpmb_op_code MMC_RPMB_READ)) zero_frame in
  dev_fd ← open_rpmb argv;
  a2 ← argv_at argv 2;
  address ← strtol16 a2 "incorrect address";
  let frame_in := set_addr (htobe16 address) frame_in in
  a3 ← argv_at argv 3;
  blocks_cnt ← strtol16 a3 "incorrect blocks count";
  when_ (blocks_cnt =? 0) (printf "please, specify valid blocks count number\n" [];; exit_ 1);;
  ok ← call (Allocate (512 * blocks_cnt));
  when_ (negb ok) (printf "can't allocate memory for RPMB outer frames\n" [];; exit_ 1);;
  let frame_out := replicate (Z.to_nat blocks_cnt) zero_frame in
  a4 ← argv_at argv 4;
  data_fd ← open_or_std a4 STDOUT_FILENO O_WRONLY_CREAT_APPEND "can't open output file";
  '(key_fd, key) ← (if (nargs =? 6)%nat then read_block_key argv else mret (-1, []));
  '(ret, frame_out) ← do_rpmb_op dev_fd (Some frame_in) (Some frame_out) blocks_cnt;
  when_ (nz ret) (perror "RPMB ioctl failed";; exit_ 1);;
  match last frame_out with
  | None => undef
  | Some l => check_result l
  end;;
  when_ (nargs =? 6)%nat (verify_mac key frame_out);;
  ret ← write_frames data_fd frame_out ret;
  call (Close dev_fd);;
  close_unless data_fd STDOUT_FILENO;;
  when_ (negb (key_fd =? -1)) (close_unless key_fd STDIN_FILENO);;
  mret ret.

Definition do_rpmb_write_block (argv : list string) : mmc Z :=
  let frame_in := set_block_count (htobe16 1)
    (set_req_resp (htobe16 (rpmb_op_code MMC_RPMB_WRITE)) zero_frame) in
  CHECK (negb (length argv =? 5)%nat) "Usage: mmc rpmb write-block </path/to/mmcblkXrpmb> <address> </path/to/input_file> </path/to/key>\n";;
  dev_fd ← open_rpmb argv;
  '(ret, cnt) ← rpmb_read_counter dev_fd;
  when_ (nz ret) (printf "RPMB read counter operation failed, retcode 0x%04x\n" [PZ ret];; exit_ 1);;
  cnt ← assigned cnt;
  let frame_in := set_write_counter (htobe32 cnt) frame_in in
  a2 ← argv_at argv 2;
  address ← strtol16 a2 "incorrect address";
  let frame_in := set_addr (htobe16 address) frame_in in
  a3 ← argv_at argv 3;
  data_fd ← open_or_std a3 STDIN_FILENO O_RDONLY "can't open input file";
  block ← read_all data_fd 256 "read the data" "Data must be %lu bytes length, but we read only %d, exit\n";
  let frame_in := set_data block frame_in in
  a4 ← argv_at argv 4;
  key_fd ← open_or_std a4 STDIN_FILENO O_RDONLY "can't open key file";
  key ← read_all key_fd 32 "read the key" "Auth key must be %lu bytes length, but we read only %d, exit\n";
  let frame_in := set_key_mac (hmac_sha256 key (mac_part frame_in) 32) frame_in in
  '(ret, frame_out) ← rpmb_op1 dev_fd frame_in;
  check_result frame_out;;
  call (Close dev_fd);;
  close_unless data_fd STDIN_FILENO;;
  close_unless key_fd STDIN_FILENO;;
  mret ret.

End Commands.
