(* ===== verification/MmcMain.v ===== *)
(** * mmc_utils/mmc.c: the command line

    The table of commands, how an argument vector selects one, and [main].
    The words of a command may be abbreviated; [parse_args] takes the first
    command of the table that fits, and [check_ambiguity] refuses it when an
    abbreviation could also mean another command.

    [malloc] in [prepare_args] may fail; the allocations of [split_command]
    are not checked by the code and are taken to succeed. *)

From Stdlib Require Import Ascii String.
From S2P Require Import Prelude Bytes Prog CStr MmcSys MmcCmds MmcPartition MmcExtcsd MmcRpmb.

Open Scope Z_scope.

Definition MMC_VERSION : string := "0.1".

Inductive help_type := BASIC_HELP | ADVANCED_HELP.

(** The functions of the table. *)
Inductive CommandFunction :=
| Do_dump_extcsd
| Do_read_extcsd
| Do_write_extcsd_byte
| Do_writeprotect_get
| Do_writeprotect_set
| Do_disable_512B_emulation
| Do_create_gp_partition
| Do_enh_area_set
| Do_write_reliability_set
| Do_status_get
| Do_write_boot_en
| Do_boot_bus_conditions_set
| Do_write_bkops_en
| Do_hwreset_en
| Do_hwreset_dis
| Do_sanitize
| Do_rpmb_write_key
| Do_rpmb_read_counter
| Do_rpmb_read_block
| Do_rpmb_write_block
| Do_cache_en
| Do_cache_dis.

#[export] Instance CommandFunction_eq : EqDecision CommandFunction.
Proof. solve_decision. Defined.

Record Command := mkCommand {
  func : CommandFunction;
  nargs : Z;
  verb : string;
  help_text : string;
  adv_help : option string;
  cmds : list string;
  ncmds : Z }.


(** The last two members are filled in by [parse_args]. *)
Definition commands : list Command := [
  mkCommand Do_dump_extcsd (-1) "extcsd dump"
    ("<device>" +:+ nl +:+
     "Dump extcsd data from <device>.")
    None [] 0;
  mkCommand Do_read_extcsd (-1) "extcsd read"
    ("<device>" +:+ nl +:+
     "Print extcsd data from <device>.")
    None [] 0;
  mkCommand Do_write_extcsd_byte (-3) "extcsd write"
    ("<offset> <value> <device>" +:+ nl +:+
     "Set byte in extcsd of <device>.")
    None [] 0;
  mkCommand Do_writeprotect_get (-1) "writeprotect get"
    ("<device>" +:+ nl +:+
     "Determine the eMMC writeprotect status of <device>.")
    None [] 0;
  mkCommand Do_writeprotect_set (-1) "writeprotect set"
    ("<device>" +:+ nl +:+
     "Set the eMMC writeprotect status of <device>." +:+ nl +:+
     "This sets the eMMC to be write-protected until next boot.")
    None [] 0;
  mkCommand Do_disable_512B_emulation (-1) "disable 512B emulation"
    ("<device>" +:+ nl +:+
     "Set the eMMC data sector size to 4KB by disabling emulation on" +:+ nl +:+
     "<device>.")
    None [] 0;
  mkCommand Do_create_gp_partition (-6) "gp create"
    ("<-y|-n> <length KiB> <partition> <enh_attr> <ext_attr> <device>" +:+ nl +:+
     "create general purpose partition for the <device>." +:+ nl +:+
     "Dry-run only unless -y is passed." +:+ nl +:+
     "NOTE!  This is a one-time programmable (unreversible) change." +:+ nl +:+
     "To set enhanced attribute to general partition being created set" +:+ nl +:+
     " <enh_attr> to 1 else set it to 0." +:+ nl +:+
     "To set extended attribute to general partition" +:+ nl +:+
     " set <ext_attr> to 1,2 else set it to 0")
    None [] 0;
  mkCommand Do_enh_area_set (-4) "enh_area set"
    ("<-y|-n> <start KiB> <length KiB> <device>" +:+ nl +:+
     "Enable the enhanced user area for the <device>." +:+ nl +:+
     "Dry-run only unless -y is passed." +:+ nl +:+
     "NOTE!  This is a one-time programmable (unreversible) change.")
    None [] 0;
  mkCommand Do_write_reliability_set (-2) "write_reliability set"
    ("<-y|-n> <partition> <device>" +:+ nl +:+
     "Enable write reliability per partition for the <device>." +:+ nl +:+
     "Dry-run only unless -y is passed." +:+ nl +:+
     "NOTE!  This is a one-time programmable (unreversible) change.")
    None [] 0;
  mkCommand Do_status_get (-1) "status get"
    ("<device>" +:+ nl +:+
     "Print the response to STATUS_SEND (CMD13).")
    None [] 0;
  mkCommand Do_write_boot_en (-3) "bootpart enable"
    ("<boot_partition> <send_ack> <device>" +:+ nl +:+
     "Enable the boot partition for the <device>." +:+ nl +:+
     "To receive acknowledgment of boot from the card set <send_ack>" +:+ nl +:+
     "to 1, else set it to 0.")
    None [] 0;
  mkCommand Do_boot_bus_conditions_set (-4) "bootbus set"
    ("<boot_mode> <reset_boot_bus_conditions> <boot_bus_width> <device>" +:+ nl +:+
     "Set Boot Bus Conditions." +:+ nl +:+
     "<boot_mode> must be " +:+ dq +:+ "single_backward|single_hs|dual" +:+ dq +:+ nl +:+
     "<reset_boot_bus_conditions> must be " +:+ dq +:+ "x1|retain" +:+ dq +:+ nl +:+
     "<boot_bus_width> must be " +:+ dq +:+ "x1|x4|x8" +:+ dq)
    None [] 0;
  mkCommand Do_write_bkops_en (-1) "bkops enable"
    ("<device>" +:+ nl +:+
     "Enable the eMMC BKOPS feature on <device>." +:+ nl +:+
     "NOTE!  This is a one-time programmable (unreversible) change.")
    None [] 0;
  mkCommand Do_hwreset_en (-1) "hwreset enable"
    ("<device>" +:+ nl +:+
     "Permanently enable the eMMC H/W Reset feature on <device>." +:+ nl +:+
     "NOTE!  This is a one-time programmable (unreversible) change.")
    None [] 0;
  mkCommand Do_hwreset_dis (-1) "hwreset disable"
    ("<device>" +:+ nl +:+
     "Permanently disable the eMMC H/W Reset feature on <device>." +:+ nl +:+
     "NOTE!  This is a one-time programmable (unreversible) change.")
    None [] 0;
  mkCommand Do_sanitize (-1) "sanitize"
    ("<device>" +:+ nl +:+
     "Send Sanitize command to the <device>." +:+ nl +:+
     "This will delete the unmapped memory region of the device.")
    None [] 0;
  mkCommand Do_rpmb_write_key (-1) "rpmb write-key"
    ("<rpmb device> <key file>" +:+ nl +:+
     "Program authentication key which is 32 bytes length and stored" +:+ nl +:+
     "in the specified file. Also you can specify '-' instead of" +:+ nl +:+
     "key file path to read the key from stdin." +:+ nl +:+
     "NOTE!  This is a one-time programmable (unreversible) change." +:+ nl +:+
     "Example:" +:+ nl +:+
     "  $ echo -n AAAABBBBCCCCDDDDEEEEFFFFGGGGHHHH | \" +:+ nl +:+
     "    mmc rpmb write-key /dev/mmcblk0rpmb -")
    None [] 0;
  mkCommand Do_rpmb_read_counter (-1) "rpmb read-counter"
    ("<rpmb device>" +:+ nl +:+
     "Counter value for the <rpmb device> will be read to stdout.")
    None [] 0;
  mkCommand Do_rpmb_read_block (-1) "rpmb read-block"
    ("<rpmb device> <address> <blocks count> <output file> [key file]" +:+ nl +:+
     "Blocks of 256 bytes will be read from <rpmb device> to output" +:+ nl +:+
     "file or stdout if '-' is specified. If key is specified - read" +:+ nl +:+
     "data will be verified. Instead of regular path you can specify" +:+ nl +:+
     "'-' to read key from stdin." +:+ nl +:+
     "Example:" +:+ nl +:+
     "  $ echo -n AAAABBBBCCCCDDDDEEEEFFFFGGGGHHHH | \" +:+ nl +:+
     "    mmc rpmb read-block /dev/mmcblk0rpmb 0x02 2 /tmp/block -" +:+ nl +:+
     "or read two blocks without verification" +:+ nl +:+
     "  $ mmc rpmb read-block /dev/mmcblk0rpmb 0x02 2 /tmp/block")
    None [] 0;
  mkCommand Do_rpmb_write_block (-1) "rpmb write-block"
    ("<rpmb device> <address> <256 byte data file> <key file>" +:+ nl +:+
     "Block of 256 bytes will be written from data file to" +:+ nl +:+
     "<rpmb device>. Also you can specify '-' instead of key" +:+ nl +:+
     "file path or data file to read the data from stdin." +:+ nl +:+
     "Example:" +:+ nl +:+
     "  $ (awk 'BEGIN {while (c++<256) printf " +:+ dq +:+ "a" +:+ dq +:+ "}' | \" +:+ nl +:+
     "    echo -n AAAABBBBCCCCDDDDEEEEFFFFGGGGHHHH) | \" +:+ nl +:+
     "    mmc rpmb write-block /dev/mmcblk0rpmb 0x02 - -")
    None [] 0;
  mkCommand Do_cache_en (-1) "cache enable"
    ("<device>" +:+ nl +:+
     "Enable the eMMC cache feature on <device>." +:+ nl +:+
     "NOTE! The cache is an optional feature on devices >= eMMC4.5.")
    None [] 0;
  mkCommand Do_cache_dis (-1) "cache disable"
    ("<device>" +:+ nl +:+
     "Disable the eMMC cache feature on <device>." +:+ nl +:+
     "NOTE! The cache is an optional feature on devices >= eMMC4.5.")
    None [] 0
].

(** What follows the last slash. *)
Fixpoint strrchr_next (s : string) (acc : option string) : option string :=
  match s with
  | EmptyString => acc
  | String c s' => strrchr_next s' (if Ascii.eqb c "/"%char then Some s' else acc)
  end.

Definition get_prgname (programname : string) : string :=
  default programname (strrchr_next programname None).

(** [for (pc = s; *pc; pc++)]. *)
Fixpoint put_help (s : string) : mmc unit :=
  match s with
  | EmptyString => mret tt
  | String c s' =>
      call (Putchar c);;
      when_ (Ascii.eqb c (ascii_of_nat 10)) (printf "\t\t" []);;
      put_help s'
  end.

Definition print_help (programname : string) (cmd : Command) (helptype : help_type) : mmc unit :=
  printf "\t%s %s " [PS programname; PS (verb cmd)];;
  put_help (match helptype, adv_help cmd with
            | ADVANCED_HELP, Some h => h
            | _, _ => help_text cmd
            end);;
  call (Putchar (ascii_of_nat 10)).

Fixpoint help_loop (np : string) (cps : list Command) : mmc unit :=
  match cps with
  | [] => mret tt
  | cp :: cps => print_help np cp BASIC_HELP;; help_loop np cps
  end.

Definition help (np : string) : mmc unit :=
  printf "Usage:\n" [];;
  help_loop np commands;;
  printf "\n\t%s help|--help|-h\n\t\tShow the help.\n" [PS np];;
  printf "\n\t%s <cmd> --help\n\t\tShow detailed help for a command or subset of commands.\n" [PS np];;
  printf "\n%s\n" [PS MMC_VERSION].

Definition strndup (s : string) (l : nat) : string := String.substring 0 l s.

(** The loop of [split_command]: [p] is where it is, [s] the start of the
    current word, [l] the length counted so far.  The loop's increment also
    applies to the [l = 0] of a new word. *)
Fixpoint split_loop (p s : string) (l : nat) : list string :=
  match p with
  | EmptyString => [strndup s l]
  | String c p' =>
      if negb (Ascii.eqb c " "%char) then split_loop p' s (S l)
      else strndup s l :: split_loop p' p' 1
  end.

Definition split_command (cmd : string) : list string := split_loop cmd cmd 0.

Definition fill (cp : Command) : Command :=
  if ncmds cp =? 0 then
    let ws := split_command (verb cp) in
    mkCommand (func cp) (nargs cp) (verb cp) (help_text cp) (adv_help cp) ws (Z.of_nat (length ws))
  else cp.

(** ** Ambiguity *)

(** [strcmp] with [cmds[i]]: the null pointer at the end of the array is not
    a string. *)
Definition word_at (c : Command) (i : nat) : mmc string :=
  match cmds c !! i with Some w => mret w | None => undef end.

(** Whether the first [n] words differ. *)
Fixpoint skip_loop (c1 c2 : Command) (j n : nat) : mmc bool :=
  match n with
  | O => mret false
  | S n =>
      w1 ← word_at c1 j;
      w2 ← word_at c2 j;
      if streq w1 w2 then skip_loop c1 c2 (S j) n else mret true
  end.

Definition ambiguous_with (cmd cp : Command) (argv : list string) (i : nat) : mmc bool :=
  if ncmds cp <? Z.of_nat i then mret false else
  skip ← skip_loop cmd cp 0 i;
  if (skip : bool) then mret false else
  w1 ← word_at cmd i;
  w2 ← word_at cp i;
  if streq w1 w2 then mret false else
  s1 ← argv_at argv (i + 1);
  mret (prefix_of s1 w2).

(** The number of commands the [i]-th word could also mean. *)
Fixpoint count_loop (cmd : Command) (cps : list Command) (argv : list string) (i : nat) (match_ : Z) : mmc Z :=
  match cps with
  | [] => mret match_
  | cp :: cps =>
      b ← ambiguous_with cmd cp argv i;
      count_loop cmd cps argv i (if (b : bool) then match_ + 1 else match_)
  end.

(** The words up to the ambiguous one. *)
Fixpoint print_words (argv : list string) (j n : nat) : mmc unit :=
  match n with
  | O => mret tt
  | S n =>
      w ← argv_at argv (j + 1);
      eprintf "%s%s" [PS (if (j =? 0)%nat then "" else " "); PS w];;
      print_words argv (S j) n
  end.

Fixpoint ambiguity_loop (cps : list Command) (cmd : Command) (argv : list string) (i n : nat) : mmc Z :=
  match n with
  | O => mret 0
  | S n =>
      match_ ← count_loop cmd cps argv i 0;
      if nz match_ then
        eprintf "ERROR: in command '" [];;
        print_words argv 0 (S i);;
        w ← argv_at argv (S i);
        eprintf "', '%s' is ambiguous\n" [PS w];;
        mret (-2)
      else ambiguity_loop cps cmd argv (S i) n
  end.

Definition check_ambiguity (cps : list Command) (cmd : Command) (argv : list string) : mmc Z :=
  ambiguity_loop cps cmd argv 0 (Z.to_nat (ncmds cmd)).

(** ** Selection *)

(** The name of the program and the command become [argv[0]]. *)
Definition prepare_args (av : list string) (prgname : string) (cmd : Command) : mmc (option (list string)) :=
  ret ← call (Allocate (4 * (Z.of_nat (length av) + 1)));
  newname ← call (Allocate (Z.of_nat (String.length prgname + String.length (verb cmd) + 2)));
  if negb ret || negb newname then mret None
  else mret (Some ((prgname +:+ " " +:+ verb cmd) :: av)).

(** Whether the arguments fit the words, and the word where it stopped. *)
Fixpoint match_loop (ws : list string) (argv : list string) (i : nat) : mmc (bool * nat) :=
  match ws with
  | [] => mret (true, i)
  | w :: ws =>
      s1 ← argv_at argv (i + 1);
      if prefix_of s1 w then match_loop ws argv (S i) else mret (false, i)
  end.

(** [argc > n && !strcmp(argv[n], s)]. *)
Definition argv_is (argv : list string) (n : nat) (s : string) : bool :=
  match argv !! n with Some a => streq a s | None => false end.

(** Whether help was printed, and the command that fits. *)
Fixpoint parse_loop (cps : list Command) (argv : list string) (prgname : string) (helprequested : bool) :
    mmc (bool * option Command) :=
  match cps with
  | [] => mret (helprequested, None)
  | cp :: cps =>
      if Z.of_nat (length argv) - 1 <? ncmds cp then parse_loop cps argv prgname helprequested else
      '(match_, i) ← match_loop (cmds cp) argv 0;
      if argv_is argv (i + 1) "--help" then
        when_ (negb helprequested) (printf "Usage:\n" []);;
        print_help prgname cp ADVANCED_HELP;;
        parse_loop cps argv prgname true
      else if negb match_ then parse_loop cps argv prgname helprequested
      else mret (helprequested, Some cp)
  end.

(** The value returned and, when it is 1, the function and its arguments. *)
Definition parse_args (argv : list string) : mmc (Z * option (CommandFunction * list string)) :=
  a0 ← argv_at argv 0;
  let prgname := get_prgname a0 in
  if (length argv <? 2)%nat || argv_is argv 1 "help" || argv_is argv 1 "-h" || argv_is argv 1 "--help" then
    help prgname;;
    mret (0, None)
  else
  let cps := fill <$> commands in
  '(helprequested, matchcmd) ← parse_loop cps argv prgname false;
  if (helprequested : bool) then printf "\n%s\n" [PS MMC_VERSION];; mret (0, None) else
  match matchcmd with
  | None =>
      w ← argv_at argv 1;
      eprintf "ERROR: unknown command '%s'\n" [PS w];;
      help prgname;;
      mret (-1, None)
  | Some cmd =>
      let nargs_ := Z.of_nat (length argv) - ncmds cmd - 1 in
      let args_ := drop (Z.to_nat (ncmds cmd) + 1) argv in
      amb ← check_ambiguity cps cmd argv;
      if nz amb then mret (-2, None)
      else if (nargs cmd <? 0) && (nargs cmd <? - nargs_) then
        eprintf "ERROR: '%s' requires minimum %d arg(s)\n" [PS (verb cmd); PZ (- nargs cmd)];;
        mret (-2, None)
      else if (0 <=? nargs cmd) && negb (nargs cmd =? nargs_) && negb (nargs cmd =? 999) then
        eprintf "ERROR: '%s' requires %d arg(s)\n" [PS (verb cmd); PZ (nargs cmd)];;
        mret (-2, None)
      else
        p ← prepare_args args_ prgname cmd;
        match p with
        | None => eprintf "ERROR: not enough memory\\n" [];; mret (-20, None)
        | Some args => mret (1, Some (func cmd, args))
        end
  end.

(** ** main *)

Section Main.
Context {HM : Hmac}.
Variables (junk : rpmb_frame) (fuel : nat).

Definition run_command (f : CommandFunction) (argv : list string) : mmc Z :=
  match f with
  | Do_dump_extcsd => do_dump_extcsd argv
  | Do_read_extcsd => do_read_extcsd argv
  | Do_write_extcsd_byte => do_write_extcsd_byte argv
  | Do_writeprotect_get => do_writeprotect_get argv
  | Do_writeprotect_set => do_writeprotect_set argv
  | Do_disable_512B_emulation => do_disable_512B_emulation argv
  | Do_create_gp_partition => do_create_gp_partition argv
  | Do_enh_area_set => do_enh_area_set argv
  | Do_write_reliability_set => do_write_reliability_set argv
  | Do_status_get => do_status_get argv
  | Do_write_boot_en => do_write_boot_en argv
  | Do_boot_bus_conditions_set => do_boot_bus_conditions_set argv
  | Do_write_bkops_en => do_write_bkops_en argv
  | Do_hwreset_en => do_hwreset_en argv
  | Do_hwreset_dis => do_hwreset_dis argv
  | Do_sanitize => do_sanitize argv
  | Do_rpmb_write_key => do_rpmb_write_key junk fuel argv
  | Do_rpmb_read_counter => do_rpmb_read_counter junk argv
  | Do_rpmb_read_block => do_rpmb_read_block fuel argv
  | Do_rpmb_write_block => do_rpmb_write_block junk fuel argv
  | Do_cache_en => do_cache_en argv
  | Do_cache_dis => do_cache_dis argv
  end.

(** [exit(func(nargs, args))], or [exit(-r)] when there is no command. *)
Definition mmc_main (argv : list string) : mmc unit :=
  '(r, cmd) ← parse_args argv;
  match cmd with
  | Some (f, args) =>
      if r <=? 0 then exit_ (- r) else
      ret ← run_command f args;
      exit_ ret
  | None => exit_ (- r)
  end.

End Main.
