(* ===== verification/MmcSpec.v ===== *)
(** * Observing the eMMC tool

    What a trace of the tool does to the device and to its output, and the
    rules that carry postconditions about it through the blocks the commands
    are made of. *)

From Stdlib Require Import Ascii String.
From S2P Require Import Prelude Bytes Prog CStr MmcSys MmcCmds MmcPartition.

Open Scope Z_scope.

(** The ioctls with their results, and the bytes written to and read from
    descriptors. *)
Record obs := mkObs {
  ios : list (mmc_ioc_cmd * ioctl_res);
  outs : list (Z * list Z);
  ins : list (Z * list Z) }.

Definition no_obs : obs := mkObs [] [] [].

Definition add_io (c : mmc_ioc_cmd) (r : ioctl_res) (s : obs) : obs :=
  mkObs (ios s ++ [(c, r)]) (outs s) (ins s).
Definition add_out (fd : Z) (bs : list Z) (s : obs) : obs := mkObs (ios s) (outs s ++ [(fd, bs)]) (ins s).
Definition add_in (fd : Z) (bs : list Z) (s : obs) : obs := mkObs (ios s) (outs s) (ins s ++ [(fd, bs)]).

Definition see (s : obs) (e : event syscall) : obs :=
  match e with
  | @Ev _ R c r =>
      match c in syscall R return R -> obs with
      | Ioctl _ c => fun r => add_io c r s
      | Write fd bs => fun r =>
          match r with
          | inl n => add_out fd (take (Z.to_nat n) bs) s
          | inr _ => s
          end
      | Read fd _ => fun r =>
          match r with
          | inl bs => add_in fd bs s
          | inr _ => s
          end
      | _ => fun _ => s
      end r
  end.

Definition observed (tr : list (event syscall)) : obs := fold_left see tr no_obs.

Abbreviation wpm := (wp see).

(** ** The two commands to the device *)

Definition read_cmd : mmc_ioc_cmd :=
  mkIoc 0 MMC_SEND_EXT_CSD 0 (Z.lor (Z.lor MMC_RSP_SPI_R1 MMC_RSP_R1) MMC_CMD_ADTC) 512 1 (Some (replicate 512 0)).
Definition switch_cmd (index value : Z) : mmc_ioc_cmd :=
  mkIoc 1 MMC_SWITCH (switch_arg (u8 index) (u8 value)) (Z.lor (Z.lor MMC_RSP_SPI_R1B MMC_RSP_R1B) MMC_CMD_AC) 0 0 None.
Definition status_cmd : mmc_ioc_cmd :=
  mkIoc 0 MMC_SEND_STATUS (Z.shiftl 1 16) (Z.lor MMC_RSP_R1 MMC_CMD_AC) 0 0 None.

(** How the device reads the argument of SWITCH. *)
Definition sw_access (c : mmc_ioc_cmd) : Z := Z.land (Z.shiftr (arg c) 24) 3.
Definition sw_index (c : mmc_ioc_cmd) : Z := Z.land (Z.shiftr (arg c) 16) 0xff.
Definition sw_value (c : mmc_ioc_cmd) : Z := Z.land (Z.shiftr (arg c) 8) 0xff.
Definition sw_set (c : mmc_ioc_cmd) : Z := Z.land (arg c) 7.

Lemma u8_range x : 0 <= u8 x < 256.
Proof. apply Z.mod_pos_bound. lia. Qed.

Lemma u8_id x : 0 <= x < 256 -> u8 x = x.
Proof. apply Z.mod_small. Qed.

Lemma switch_arg_sum i v : 0 <= i < 256 -> 0 <= v < 256 -> switch_arg i v = 3 * 2 ^ 24 + i * 2 ^ 16 + v * 2 ^ 8 + 1.
Proof.
  intros Hi Hv. unfold switch_arg, MMC_SWITCH_MODE_WRITE_BYTE, EXT_CSD_CMD_SET_NORMAL.
  rewrite !Z.shiftl_mul_pow2 by lia.
  assert (Hd : forall a b n, 0 <= n -> 0 <= b < 2 ^ n -> Z.lor (a * 2 ^ n) b = a * 2 ^ n + b) by (intros; by apply lor_mul_pow2).
  rewrite (Hd 3 (i * 2 ^ 16) 24) by lia.
  replace (3 * 2 ^ 24 + i * 2 ^ 16) with ((3 * 2 ^ 8 + i) * 2 ^ 16) by lia.
  rewrite (Hd _ (v * 2 ^ 8) 16) by lia.
  replace ((3 * 2 ^ 8 + i) * 2 ^ 16 + v * 2 ^ 8) with (((3 * 2 ^ 8 + i) * 2 ^ 8 + v) * 2 ^ 8) by lia.
  rewrite Z.mul_1_l. change (2 ^ 0) with 1.
  rewrite (Hd _ 1 8) by lia. lia.
Qed.

Lemma switch_decode i v :
  sw_access (switch_cmd i v) = 3 /\ sw_index (switch_cmd i v) = u8 i /\
  sw_value (switch_cmd i v) = u8 v /\ sw_set (switch_cmd i v) = 1.
Proof.
  pose proof (u8_range i) as Hi. pose proof (u8_range v) as Hv.
  unfold sw_access, sw_index, sw_value, sw_set, switch_cmd. cbn [arg].
  rewrite (switch_arg_sum _ _ Hi Hv).
  change 3 with (Z.ones 2) at 2. change 0xff with (Z.ones 8). change 7 with (Z.ones 3).
  rewrite !Z.land_ones, !Z.shiftr_div_pow2 by lia.
  change (2 ^ 24) with 16777216. change (2 ^ 16) with 65536. change (2 ^ 8) with 256.
  change (2 ^ 2) with 4. change (2 ^ 3) with 8.
  generalize dependent (u8 i). generalize dependent (u8 v). intros v' Hv i' Hi.
  split_and!.
  - rewrite <- (Z.div_unique (3 * 16777216 + i' * 65536 + v' * 256 + 1) 16777216 3 (i' * 65536 + v' * 256 + 1)) by lia. done.
  - rewrite <- (Z.div_unique (3 * 16777216 + i' * 65536 + v' * 256 + 1) 65536 (3 * 256 + i') (v' * 256 + 1)) by lia.
    symmetry. apply Z.mod_unique with 3; lia.
  - rewrite <- (Z.div_unique (3 * 16777216 + i' * 65536 + v' * 256 + 1) 256 ((3 * 256 + i') * 256 + v') 1) by lia.
    symmetry. apply Z.mod_unique with (3 * 256 + i'); lia.
  - symmetry. apply Z.mod_unique with (3 * 2097152 + i' * 8192 + v' * 32); lia.
Qed.

Lemma sw_index_switch i v : sw_index (switch_cmd i v) = u8 i.
Proof. by destruct (switch_decode i v) as (? & ? & ? & ?). Qed.
Lemma sw_value_switch i v : sw_value (switch_cmd i v) = u8 v.
Proof. by destruct (switch_decode i v) as (? & ? & ? & ?). Qed.
Lemma sw_access_switch i v : sw_access (switch_cmd i v) = 3.
Proof. by destruct (switch_decode i v) as (? & ? & ? & ?). Qed.
Create Rewrite HintDb mmc.
#[export] Hint Rewrite sw_index_switch sw_value_switch sw_access_switch : mmc.

(** ** Registers

    A register file as the device sends it, and its multi-byte registers,
    least significant byte first. *)

Definition regs_ok (e : list Z) : Prop := length e = 512%nat /\ Forall byte_ok e.

Definition byte (e : list Z) (i : Z) : Z := default 0 (e !! Z.to_nat i).
Definition reg24 (e : list Z) (b : Z) : Z := byte e b + 2 ^ 8 * byte e (b + 1) + 2 ^ 16 * byte e (b + 2).
Definition reg32 (e : list Z) (b : Z) : Z := reg24 e b + 2 ^ 24 * byte e (b + 3).

Lemma byte_range e i : Forall byte_ok e -> 0 <= byte e i < 2 ^ 8.
Proof.
  intros He. unfold byte. destruct (e !! Z.to_nat i) as [v|] eqn:Hv; [|simpl; lia].
  by apply (Forall_lookup_1 _ _ _ _ He Hv).
Qed.

Lemma reg24_range e b : Forall byte_ok e -> 0 <= reg24 e b < 2 ^ 24.
Proof.
  intros He. unfold reg24.
  pose proof (byte_range e b He). pose proof (byte_range e (b + 1) He). pose proof (byte_range e (b + 2) He). lia.
Qed.

(** [(b2 << 16) | (b1 << 8) | b0]. *)
Lemma lor24 b2 b1 b0 : 0 <= b1 < 2 ^ 8 -> 0 <= b0 < 2 ^ 8 ->
  Z.lor (Z.lor (Z.shiftl b2 16) (Z.shiftl b1 8)) b0 = b0 + 2 ^ 8 * b1 + 2 ^ 16 * b2.
Proof.
  intros H1 H0. rewrite !Z.shiftl_mul_pow2 by lia. rewrite lor_mul_pow2 by lia.
  replace (b2 * 2 ^ 16 + b1 * 2 ^ 8) with ((b2 * 2 ^ 8 + b1) * 2 ^ 8) by lia.
  rewrite lor_mul_pow2 by lia. lia.
Qed.

Lemma u32_lor a b : u32 (Z.lor a b) = Z.lor (u32 a) (u32 b).
Proof. unfold u32. rewrite <- !Z.land_ones by lia. apply Z.land_lor_distr_l. Qed.

Lemma u32_i32 x : u32 (i32 x) = u32 x.
Proof.
  unfold u32, i32. rewrite Zminus_mod, Zmod_mod, <- Zminus_mod. f_equal. lia.
Qed.

(** The same with a fourth byte, shifted as an [int]. *)
Lemma lor32 b3 b2 b1 b0 :
  0 <= b3 < 2 ^ 8 -> 0 <= b2 < 2 ^ 8 -> 0 <= b1 < 2 ^ 8 -> 0 <= b0 < 2 ^ 8 ->
  u32 (Z.lor (Z.lor (Z.lor (i32 (Z.shiftl b3 24)) (Z.shiftl b2 16)) (Z.shiftl b1 8)) b0) =
    b0 + 2 ^ 8 * b1 + 2 ^ 16 * b2 + 2 ^ 24 * b3.
Proof.
  intros H3 H2 H1 H0. rewrite !u32_lor, u32_i32.
  rewrite !Z.shiftl_mul_pow2 by lia. rewrite !u32_id by lia.
  rewrite lor_mul_pow2 by lia.
  replace (b3 * 2 ^ 24 + b2 * 2 ^ 16) with ((b3 * 2 ^ 8 + b2) * 2 ^ 16) by lia. rewrite lor_mul_pow2 by lia.
  replace ((b3 * 2 ^ 8 + b2) * 2 ^ 16 + b1 * 2 ^ 8) with (((b3 * 2 ^ 8 + b2) * 2 ^ 8 + b1) * 2 ^ 8) by lia.
  rewrite lor_mul_pow2 by lia. lia.
Qed.

(** ** Rules *)

Section Rules.
Context {A : Type}.
Implicit Types (Q : result unit -> obs -> Prop) (s : obs).

Lemma wp_printf fmt args Q s : Q (Returned tt) s -> wpm (printf fmt args) Q s.
Proof. by intros HQ [] _. Qed.
Lemma wp_eprintf fmt args Q s : Q (Returned tt) s -> wpm (eprintf fmt args) Q s.
Proof. by intros HQ [] _. Qed.
Lemma wp_perror msg Q s : Q (Returned tt) s -> wpm (perror msg) Q s.
Proof. by intros HQ [] _. Qed.
Lemma wp_close fd Q s : Q (Returned tt) s -> wpm (call (Close fd)) Q s.
Proof. by intros HQ [] _. Qed.
Lemma wp_fwrite bs Q s : Q (Returned tt) s -> wpm (call (Fwrite bs)) Q s.
Proof. by intros HQ [] _. Qed.

Lemma wp_exit z (Q : result A -> obs -> Prop) s : Q (Exited z) s -> wpm (exit_ z) Q s.
Proof. done. Qed.
Lemma wp_mret (a : A) (Q : result A -> obs -> Prop) s : Q (Returned a) s -> wpm (mret a) Q s.
Proof. done. Qed.

Lemma wp_when b p Q s :
  (b = true -> wpm p Q s) -> (b = false -> Q (Returned tt) s) -> wpm (when_ b p) Q s.
Proof. destruct b; simpl; auto. Qed.

Lemma wp_if (b : bool) (p q : mmc A) (Q : result A -> obs -> Prop) s :
  (b = true -> wpm p Q s) -> (b = false -> wpm q Q s) -> wpm (if b then p else q) Q s.
Proof. destruct b; auto. Qed.

Lemma wp_CHECK b msg Q s :
  (b = false -> Q (Returned tt) s) -> (b = true -> Q (Exited 1) s) -> wpm (CHECK b msg) Q s.
Proof. unfold CHECK. intros H1 H2. apply wp_when; [|done]. intros Hb [] _. by apply H2. Qed.

Lemma wp_argv_at argv i (Q : result string -> obs -> Prop) s :
  (i < length argv)%nat -> (forall a, argv !! i = Some a -> Q (Returned a) s) -> wpm (argv_at argv i) Q s.
Proof. intros [a Ha]%lookup_lt_is_Some HQ. unfold argv_at. rewrite Ha. by apply HQ. Qed.

Lemma wp_at e i (Q : result Z -> obs -> Prop) s :
  0 <= i < Z.of_nat (length e) -> Q (Returned (byte e i)) s -> wpm (at_ e i) Q s.
Proof.
  intros Hi HQ. unfold at_, byte in *. rewrite (proj2 (Z.ltb_ge i 0)) by lia.
  destruct (lookup_lt_is_Some_2 e (Z.to_nat i)) as [v Hv]; [lia|]. by rewrite Hv in *.
Qed.

Lemma wp_udiv a b (Q : result Z -> obs -> Prop) s :
  (b <> 0 -> Q (Returned (a / b)) s) -> (b = 0 -> Q Undefined s) -> wpm (udiv a b) Q s.
Proof. intros H1 H2. unfold udiv. destruct (Z.eqb_spec b 0); simpl; auto. Qed.

Lemma wp_shl x n (Q : result Z -> obs -> Prop) s :
  (0 <= n <= 31 -> Q (Returned (i32 (Z.shiftl x n))) s) -> (~ 0 <= n <= 31 -> Q Undefined s) ->
  wpm (shl x n) Q s.
Proof.
  intros H1 H2. unfold shl. destruct (Z.ltb_spec n 0), (Z.ltb_spec 31 n); cbn [orb];
    first [apply H2; lia|apply H1; lia].
Qed.

(** A part that only prints. *)
Lemma wp_silent (p : mmc A) (P : A -> Prop) (Q : result A -> obs -> Prop) s :
  silent see p P -> (forall a, P a -> Q (Returned a) s) -> wpm p Q s.
Proof. apply silent_wp. Qed.

Lemma wp_or_die ret fmt args Q s :
  (ret = 0 -> Q (Returned tt) s) -> (ret <> 0 -> Q (Exited 1) s) -> wpm (or_die ret fmt args) Q s.
Proof.
  intros H1 H2. unfold or_die, nz. apply wp_when.
  - intros H [] _. apply H2. by destruct (Z.eqb_spec ret 0).
  - intros H. apply H1. by destruct (Z.eqb_spec ret 0).
Qed.

Lemma wp_open_device device (Q : result Z -> obs -> Prop) s :
  (forall fd, 0 <= fd -> Q (Returned fd) s) -> Q (Exited 1) s -> wpm (open_device device) Q s.
Proof.
  intros H1 H2 fd Hfd. apply wp_bind. cbn [see]. destruct s. apply wp_when; cbn [then_].
  - by intros _ [] _.
  - intros Hf%Z.ltb_ge. by apply H1.
Qed.

End Rules.

Lemma wp_ioctl fd c (Q : result ioctl_res -> obs -> Prop) s :
  (forall r, ioctl_ok c r -> Q (Returned r) (add_io c r s)) -> wpm (ioctl fd c) Q s.
Proof. by intros HQ r Hr; apply HQ. Qed.

Lemma wp_read_or_die fd device (Q : result (list Z) -> obs -> Prop) s :
  (forall r, i_ret r = 0 -> regs_ok (i_data r) -> Q (Returned (i_data r)) (add_io read_cmd r s)) ->
  (forall r, i_ret r = -1 -> Q (Exited 1) (add_io read_cmd r s)) ->
  wpm (read_or_die fd device) Q s.
Proof.
  intros H1 H2. unfold read_or_die, read_extcsd. do 2 apply wp_bind. apply wp_ioctl. intros r Hr.
  cbn [then_]. pose proof (io_size _ _ Hr) as Hs. change (ioctl_size _) with 512%nat in Hs.
  unfold copy_out at 1. rewrite (proj2 (Nat.leb_le _ _)) by (rewrite length_replicate; lia).
  rewrite prog_bind_mret. apply wp_bind.
  destruct (io_ret _ _ Hr) as [H|H]; rewrite H; apply wp_when; try done; intros _.
  - cbn -[or_die drop replicate app]. apply wp_bind. apply wp_or_die; [intros _|done].
    pose proof (io_all _ _ Hr eq_refl H) as Hl. change (ioctl_size _) with 512%nat in Hl.
    cbn [then_ wp mret prog_ret]. rewrite drop_ge by (rewrite length_replicate; lia). rewrite app_nil_r.
    apply H1; [done|]. split; [done|apply Hr].
  - apply wp_perror. cbn -[or_die drop replicate app]. apply wp_bind. apply wp_or_die; [done|intros _].
    by apply H2.
Qed.

Lemma wp_write_value fd index value (Q : result Z -> obs -> Prop) s :
  (forall r, i_ret r = 0 \/ i_ret r = -1 -> Q (Returned (i_ret r)) (add_io (switch_cmd index value) r s)) ->
  wpm (write_extcsd_value fd index value) Q s.
Proof.
  intros HQ. unfold write_extcsd_value. apply wp_bind, wp_ioctl. intros r Hr. cbn [then_].
  apply wp_bind, wp_when; intros _; [apply wp_perror|]; apply (HQ r (io_ret _ _ Hr)).
Qed.

Lemma wp_write_or_die fd index value device (Q : result unit -> obs -> Prop) s :
  (forall r, i_ret r = 0 -> Q (Returned tt) (add_io (switch_cmd index value) r s)) ->
  (forall r, i_ret r = -1 -> Q (Exited 1) (add_io (switch_cmd index value) r s)) ->
  wpm (write_or_die fd index value device) Q s.
Proof.
  intros H1 H2. apply wp_bind, wp_write_value. intros r [Hr|Hr]; cbn [then_]; apply wp_or_die; intros H;
    try congruence; auto.
Qed.

Lemma wp_send_status fd (Q : result (Z * Z) -> obs -> Prop) s :
  (forall r, i_ret r = 0 \/ i_ret r = -1 -> Q (Returned (i_ret r, i_response r)) (add_io status_cmd r s)) ->
  wpm (send_status fd) Q s.
Proof.
  intros HQ. unfold send_status. apply wp_bind, wp_ioctl. intros r Hr. cbn [then_].
  apply wp_bind, wp_when; intros _; [apply wp_perror|]; apply (HQ r (io_ret _ _ Hr)).
Qed.
