(* ===== verification/MmcPrint.v ===== *)
(** * The printing commands only print

    [print_registers] and [print_writeprotect_status], on a register file of
    512 bytes, make no call but [printf] and read no byte outside it. *)

From Stdlib Require Import Ascii String.
From S2P Require Import Prelude Bytes Prog CStr MmcSys MmcCmds MmcPartition MmcExtcsd MmcSpec.

Open Scope Z_scope.

(** Returns, after calls that only print. *)
Abbreviation prints p := (silent see p (fun _ => True)).

Lemma prints_bind {A B} (p : mmc A) (f : A -> mmc B) : prints p -> (forall a, prints (f a)) -> prints (p ≫= f).
Proof. intros Hp Hf. eapply silent_bind; [apply Hp|auto]. Qed.

Lemma prints_printf fmt args : prints (printf fmt args).
Proof. split; [|done]. by intros [] []. Qed.

Lemma prints_if {A} (b : bool) (p q : mmc A) : prints p -> prints q -> prints (if b then p else q).
Proof. by destruct b. Qed.

Lemma prints_when b p : prints p -> prints (when_ b p).
Proof. apply silent_when. Qed.

Create HintDb prints.
#[export] Hint Resolve prints_bind prints_printf prints_when prints_if : prints.

Section Prints.
Variable (e : list Z) (rev : Z).
Hypothesis Hlen : length e = 512%nat.

Lemma prints_at i : 0 <= i < 512 -> prints (at_ e i).
Proof.
  intros Hi. unfold at_. rewrite (proj2 (Z.ltb_ge i 0)) by lia.
  destruct (lookup_lt_is_Some_2 e (Z.to_nat i)) as [v ->]; [lia|done].
Qed.

Ltac prints_step :=
  match goal with
  | |- silent _ (mbind _ _) _ => apply prints_bind; [|intros ?]
  | |- silent _ (printf _ _) _ => apply prints_printf
  | |- silent _ (when_ _ _) _ => apply prints_when
  | |- silent _ (if _ then _ else _) _ => apply prints_if
  | |- silent _ (mret _) _ => exact I
  | |- silent _ (at_ _ ?i) _ => apply prints_at; let i' := eval cbv in i in change i with i'; lia
  | |- silent _ (let _ := _ in _) _ => cbv zeta
  end.

Lemma prints_writeprotect : prints (print_writeprotect_status e).
Proof. unfold print_writeprotect_status. repeat prints_step. Qed.

Lemma prints_line fmt i : 0 <= i < 512 -> prints (line e fmt i).
Proof. intros Hi. apply prints_bind; [by apply prints_at|intros v; apply prints_printf]. Qed.

Lemma prints_flag reg mask fmt : prints (flag_line reg mask fmt).
Proof. unfold flag_line. repeat prints_step. Qed.

Lemma prints_down n j fmt : 0 <= j - Z.of_nat n + 1 -> j < 512 -> prints (down_lines e n j fmt).
Proof.
  revert j. induction n as [|n IH]; intros j H1 H2; cbn [down_lines]; [exact I|].
  repeat prints_step. apply IH; lia.
Qed.

Lemma prints_line16 fmt hi lo : 0 <= hi < 512 -> 0 <= lo < 512 -> prints (line16 e fmt hi lo).
Proof. intros H1 H2. unfold line16. apply prints_bind; [by apply prints_at|intros h].
  apply prints_bind; [by apply prints_at|intros l]. apply prints_printf. Qed.

Lemma prints_csd24 b2 b1 b0 : 0 <= b2 < 512 -> 0 <= b1 < 512 -> 0 <= b0 < 512 -> prints (csd24 e b2 b1 b0).
Proof.
  intros H2 H1 H0. unfold csd24.
  do 3 (apply prints_bind; [by apply prints_at|intros ?]). exact I.
Qed.

Lemma prints_sector_count : prints (get_sector_count e).
Proof. unfold get_sector_count. repeat prints_step. Qed.

Lemma prints_blockaddressed : prints (is_blockaddresed e).
Proof. unfold is_blockaddresed. apply prints_bind; [apply prints_sector_count|done]. Qed.

Lemma prints_rel n i reg : prints (rel_lines n i reg).
Proof. revert i. induction n as [|n IH]; intros i; cbn [rel_lines]; [exact I|]. repeat prints_step. apply IH. Qed.

Ltac prints_all :=
  repeat first
    [ prints_step
    | apply prints_line; unfold EXT_CSD_ERASE_GROUP_DEF, EXT_CSD_PARTITIONS_ATTRIBUTE; lia
    | apply prints_flag | apply prints_rel | apply prints_down; lia | apply prints_line16; lia
    | apply prints_csd24; match goal with |- 0 <= ?i < _ => let i' := eval cbv in i in change i with i'; lia end
    | apply prints_sector_count | apply prints_blockaddressed | apply prints_writeprotect ].

Lemma prints_features : prints (print_cmd_set e) /\ prints (print_hpi e) /\ prints (print_rev6_features e).
Proof. unfold print_cmd_set, print_hpi, print_rev6_features. split_and!; prints_all. Qed.

Lemma prints_rev5 : prints (print_rev5_power e rev) /\ prints (print_rev5_secure e).
Proof. unfold print_rev5_power, print_rev5_secure. split; prints_all. Qed.

Lemma prints_sizes : prints (print_boot_info e) /\ prints (print_groups e) /\ prints (print_sectors e).
Proof.
  unfold print_boot_info, print_groups, print_sectors, get_hc_erase_grp_size, get_hc_wp_grp_size.
  split_and!; prints_all.
Qed.

Lemma prints_modes : prints (print_performance e) /\ prints (print_timing e rev) /\
  prints (print_card_type e) /\ prints (print_modes e).
Proof. unfold print_performance, print_timing, print_card_type, print_modes. split_and!; prints_all. Qed.

Lemma prints_boot : prints (print_boot_config e) /\ prints (print_boot_protection e).
Proof. unfold print_boot_config, print_boot_protection. split; prints_all. Qed.

Lemma prints_partitions : prints (print_reliability e) /\ prints (print_partitioning e) /\
  prints (print_gp_sizes e) /\ prints (print_enh_area e).
Proof.
  unfold print_reliability, print_partitioning, print_gp_sizes, print_enh_area, size_line,
    get_hc_erase_grp_size, get_hc_wp_grp_size.
  split_and!; prints_all.
Qed.

Lemma prints_rev6 : prints (print_rev6_vendor e) /\ prints (print_rev6_sectors e).
Proof. unfold print_rev6_vendor, print_rev6_sectors. split; prints_all. Qed.

Lemma prints_registers : prints (print_registers e rev).
Proof.
  destruct prints_features as (? & ? & ?), prints_rev5 as [? ?], prints_sizes as (? & ? & ?),
    prints_modes as (? & ? & ? & ?), prints_boot as [? ?], prints_partitions as (? & ? & ? & ?),
    prints_rev6 as [? ?].
  unfold print_registers. repeat first [assumption|prints_step|apply prints_line; lia].
Qed.

End Prints.
