(* ===== verification/MmcLimit.v ===== *)
(** * The size limits of an eMMC

    [check_enhanced_area_total_limit] as a function of the registers, as the
    code computes it (32-bit sizes in KiB), and the limits it stands for,
    over the integers. *)

From Stdlib Require Import Ascii String.
From S2P Require Import Prelude Bytes Prog CStr MmcSys MmcCmds MmcPartition MmcSpec.

Open Scope Z_scope.

Definition erase_grp (e : list Z) : Z := byte e 224.
Definition wp_grp (e : list Z) : Z := byte e 221.
Definition sector_count (e : list Z) : Z := reg32 e 212.
Definition blockaddressed (e : list Z) : bool := sector_count e >? 2 ^ 22.

(** The five areas: the register of the size and the attribute bit. *)
Definition areas : list (Z * Z) :=
  [(EXT_CSD_GP_SIZE_MULT_4_0, EXT_CSD_ENH_4); (EXT_CSD_GP_SIZE_MULT_3_0, EXT_CSD_ENH_3);
   (EXT_CSD_GP_SIZE_MULT_2_0, EXT_CSD_ENH_2); (EXT_CSD_GP_SIZE_MULT_1_0, EXT_CSD_ENH_1);
   (EXT_CSD_ENH_SIZE_MULT_0, EXT_CSD_ENH_USR)].

Definition enhanced (e : list Z) (a : Z * Z) : bool := bits (byte e EXT_CSD_PARTITIONS_ATTRIBUTE) a.2.

(** As the code computes them. *)
Definition part_kib32 (e : list Z) (b : Z) : Z := kib_of (reg24 e b) (erase_grp e) (wp_grp e).
Definition add_enh32 (e : list Z) (acc : Z) (a : Z * Z) : Z :=
  if enhanced e a then u32 (acc + part_kib32 e a.1) else acc.
Definition limit_value (e : list Z) : Z :=
  if fold_left (add_enh32 e) areas 0 >? part_kib32 e EXT_CSD_MAX_ENH_SIZE_MULT_0 then 1
  else if fold_left (fun acc a => u32 (acc + part_kib32 e a.1)) areas 0 >? sector_count e / 2 then 1
  else 0.

(** The limits themselves. *)
Definition group_kib (e : list Z) : Z := 512 * erase_grp e * wp_grp e.
Definition area_kib (e : list Z) (a : Z * Z) : Z := reg24 e a.1 * group_kib e.
Definition sumZ (l : list Z) : Z := fold_right Z.add 0 l.
Definition enhanced_kib (e : list Z) : Z := sumZ (area_kib e <$> filter (fun a => enhanced e a = true) areas).
Definition total_kib (e : list Z) : Z := sumZ (area_kib e <$> areas).
Definition max_enhanced_kib (e : list Z) : Z := reg24 e EXT_CSD_MAX_ENH_SIZE_MULT_0 * group_kib e.

Definition limits_ok (e : list Z) : Prop :=
  enhanced_kib e <= max_enhanced_kib e /\ total_kib e <= sector_count e / 2.

(** ** Rules *)

Lemma wp_csd24 e b2 b1 b0 (Q : result Z -> obs -> Prop) s :
  regs_ok e -> 0 <= b0 -> b0 + 2 < 512 -> b1 = b0 + 1 -> b2 = b0 + 2 ->
  Q (Returned (reg24 e b0)) s -> wpm (csd24 e b2 b1 b0) Q s.
Proof.
  intros [Hl He] H0 H1 -> -> HQ. unfold csd24.
  do 3 (apply wp_bind, wp_at; [lia|]; cbn [then_]).
  apply wp_mret. by rewrite lor24 by (apply byte_range; done).
Qed.

Lemma wp_sector_count e (Q : result Z -> obs -> Prop) s :
  regs_ok e -> Q (Returned (sector_count e)) s -> wpm (get_sector_count e) Q s.
Proof.
  intros [Hl He] HQ. unfold get_sector_count.
  do 4 (apply wp_bind, wp_at; [unfold EXT_CSD_SEC_COUNT_3, EXT_CSD_SEC_COUNT_2, EXT_CSD_SEC_COUNT_1, EXT_CSD_SEC_COUNT_0; lia|]; cbn [then_]).
  apply wp_mret. rewrite lor32 by (apply byte_range; done). apply HQ.
Qed.

Lemma wp_blockaddressed e (Q : result bool -> obs -> Prop) s :
  regs_ok e -> Q (Returned (blockaddressed e)) s -> wpm (is_blockaddresed e) Q s.
Proof. intros He HQ. by apply wp_bind, wp_sector_count; [|apply HQ]. Qed.

Lemma wp_enh_area_part e b2 b1 b0 attr acc msg (Q : result (Z * Z) -> obs -> Prop) s :
  regs_ok e -> 0 <= b0 -> b0 + 2 < 512 -> b1 = b0 + 1 -> b2 = b0 + 2 ->
  Q (Returned (part_kib32 e b0, add_enh32 e acc (b0, attr))) s ->
  wpm (enh_area_part e (erase_grp e) (wp_grp e) b2 b1 b0 attr acc msg) Q s.
Proof.
  intros He H0 H1 H2 H3 HQ. unfold enh_area_part.
  apply wp_bind, wp_csd24; try done. cbn [then_]. apply wp_bind, wp_at.
  { rewrite (proj1 He). unfold EXT_CSD_PARTITIONS_ATTRIBUTE. lia. }
  cbn [then_]. unfold add_enh32, enhanced in HQ. cbn [fst snd] in HQ.
  apply wp_if; intros Hb; rewrite Hb in HQ; [|by apply wp_mret].
  do 2 (apply wp_bind, wp_printf; cbn [then_]). by apply wp_mret.
Qed.

Lemma fold_left_cons {A B} (f : A -> B -> A) a x l : fold_left f (x :: l) a = fold_left f l (f a x).
Proof. done. Qed.
Lemma fold_left_nil {A B} (f : A -> B -> A) a : fold_left f [] a = a.
Proof. done. Qed.

Lemma part_kib32_u32 e b : u32 (part_kib32 e b) = part_kib32 e b.
Proof. unfold part_kib32, kib_of, u32. apply Zmod_mod. Qed.

Lemma wp_check_limit device fd (Q : result Z -> obs -> Prop) s :
  (forall r, i_ret r = 0 -> regs_ok (i_data r) -> Q (Returned (limit_value (i_data r))) (add_io read_cmd r s)) ->
  (forall r, i_ret r = -1 -> Q (Exited 1) (add_io read_cmd r s)) ->
  wpm (check_enhanced_area_total_limit device fd) Q s.
Proof.
  intros H1 H2. unfold check_enhanced_area_total_limit.
  apply wp_bind, wp_read_or_die; [|done]. intros r Hr He. cbn [then_]. specialize (H1 r Hr He).
  unfold get_hc_wp_grp_size, get_hc_erase_grp_size.
  do 2 (apply wp_bind, wp_at; [rewrite (proj1 He); lia|]; cbn [then_]).
  fold (wp_grp (i_data r)). fold (erase_grp (i_data r)).
  do 5 (apply wp_bind, wp_enh_area_part; [done|by vm_compute..|]; cbn [then_]; cbv beta iota).
  apply wp_bind, wp_csd24; [done|by vm_compute..|]. cbn [then_].
  do 2 (apply wp_bind, wp_printf; cbn [then_]).
  unfold limit_value, areas in H1. rewrite !fold_left_cons, !fold_left_nil in H1. cbn [fst] in H1.
  fold (part_kib32 (i_data r) EXT_CSD_MAX_ENH_SIZE_MULT_0).
  apply wp_if; intros Hb; rewrite Hb in H1.
  { apply wp_bind, wp_eprintf; cbn [then_]. by apply wp_mret. }
  apply wp_bind, wp_sector_count; [done|]. cbn [then_]. cbv zeta.
  rewrite Z.add_0_l, part_kib32_u32 in H1.
  apply wp_if; intros Hc; rewrite Hc in H1; [|by apply wp_mret].
  apply wp_bind, wp_eprintf; cbn [then_]. by apply wp_mret.
Qed.

(** ** Exactness where nothing wraps around *)

Lemma part_kib32_area e a : part_kib32 e a.1 = u32 (area_kib e a).
Proof.
  unfold part_kib32, kib_of, area_kib, group_kib, u32.
  rewrite Zmult_mod_idemp_l, <- Z.mul_assoc, Zmult_mod_idemp_l. f_equal. ring.
Qed.

Lemma area_kib_nonneg e a : regs_ok e -> 0 <= area_kib e a.
Proof.
  intros [_ He]. unfold area_kib, group_kib, erase_grp, wp_grp.
  pose proof (reg24_range e a.1 He). pose proof (byte_range e 224 He). pose proof (byte_range e 221 He).
  apply Z.mul_nonneg_nonneg; [lia|]. apply Z.mul_nonneg_nonneg; lia.
Qed.

Lemma sumZ_nonneg e l : regs_ok e -> 0 <= sumZ (area_kib e <$> l).
Proof.
  intros He. induction l as [|a l IH]; [done|]. cbn [fmap list_fmap sumZ fold_right].
  pose proof (area_kib_nonneg e a He). unfold sumZ in IH. lia.
Qed.

Lemma fold_total e l acc :
  regs_ok e -> 0 <= acc -> acc + sumZ (area_kib e <$> l) < 2 ^ 32 ->
  fold_left (fun acc a => u32 (acc + part_kib32 e a.1)) l acc = acc + sumZ (area_kib e <$> l).
Proof.
  intros He. revert acc. induction l as [|a l IH]; intros acc H0 H.
  { rewrite fold_left_nil. unfold sumZ. simpl. lia. }
  rewrite fold_left_cons, part_kib32_area. change (sumZ (area_kib e <$> a :: l)) with (area_kib e a + sumZ (area_kib e <$> l)) in *.
  pose proof (area_kib_nonneg e a He). pose proof (sumZ_nonneg e l He).
  rewrite (u32_id (area_kib e a)), u32_id by lia. rewrite IH; lia.
Qed.

Lemma fold_enhanced e l acc :
  regs_ok e -> 0 <= acc -> acc + sumZ (area_kib e <$> l) < 2 ^ 32 ->
  fold_left (add_enh32 e) l acc = acc + sumZ (area_kib e <$> filter (fun a => enhanced e a = true) l).
Proof.
  intros He. revert acc. induction l as [|a l IH]; intros acc H0 H.
  { rewrite fold_left_nil. unfold sumZ. simpl. lia. }
  rewrite fold_left_cons.
  change (sumZ (area_kib e <$> a :: l)) with (area_kib e a + sumZ (area_kib e <$> l)) in H.
  pose proof (area_kib_nonneg e a He). pose proof (sumZ_nonneg e l He). unfold add_enh32 at 2.
  rewrite filter_cons. destruct (enhanced e a).
  - rewrite part_kib32_area, (u32_id (area_kib e a)), u32_id, decide_True by (done || lia). rewrite IH by lia.
    cbn [fmap list_fmap sumZ fold_right]. unfold sumZ. lia.
  - rewrite decide_False by done. apply IH; lia.
Qed.

Lemma limit_value_cases e : limit_value e = 0 \/ limit_value e = 1.
Proof. unfold limit_value. destruct (_ >? _); [by right|]. destruct (_ >? _); [by right|by left]. Qed.

Lemma limit_value_exact e :
  regs_ok e -> total_kib e < 2 ^ 32 -> max_enhanced_kib e < 2 ^ 32 ->
  limit_value e = 0 <-> limits_ok e.
Proof.
  intros He Ht Hm. unfold limit_value, limits_ok, total_kib, enhanced_kib in *.
  rewrite fold_enhanced, fold_total by (done || lia). rewrite !Z.add_0_l.
  change (part_kib32 e EXT_CSD_MAX_ENH_SIZE_MULT_0) with (part_kib32 e (EXT_CSD_MAX_ENH_SIZE_MULT_0, 0).1).
  rewrite part_kib32_area.
  change (area_kib e (EXT_CSD_MAX_ENH_SIZE_MULT_0, 0)) with (max_enhanced_kib e).
  rewrite (u32_id (max_enhanced_kib e)).
  2: { pose proof (area_kib_nonneg e (EXT_CSD_MAX_ENH_SIZE_MULT_0, 0) He) as Hn.
       change (area_kib e _) with (max_enhanced_kib e) in Hn. lia. }
  rewrite !Z.gtb_ltb.
  destruct (Z.ltb_spec (max_enhanced_kib e) (sumZ (area_kib e <$> filter (fun a => enhanced e a = true) areas)));
    destruct (Z.ltb_spec (sector_count e / 2) (sumZ (area_kib e <$> areas))); split; intros; (done || lia).
Qed.
