(* ===== verification/MmcCard.v ===== *)
(** * A card behind the eMMC tool

    The part of an eMMC (JEDEC JESD84) the commands rely on, as a step
    relation: SEND_EXT_CSD sends the registers, SWITCH with the write-byte
    access mode stores a settable register, or records an error for another
    one, SEND_STATUS reports and clears that error.  The commands refine
    updates of the register file: [Tracks] follows the registers along the
    ioctls of a trace. *)

From Stdlib Require Import Ascii String.
From S2P Require Import Prelude Bytes Prog CStr MmcSys MmcCmds MmcPartition MmcSpec MmcLimit.

Open Scope Z_scope.

Record card := mkCard { regs : list Z; switch_error : bool }.

Abbreviation io := (mmc_ioc_cmd * ioctl_res)%type.

Definition set_reg (e : list Z) (i v : Z) : list Z := <[Z.to_nat i := v]> e.

Section Card.
(** The registers that can be written, in a given state of the others. *)
Variable settable : list Z -> Z -> bool.

Inductive card_step : card -> io -> card -> Prop :=
| step_read e b c r :
    opcode c = MMC_SEND_EXT_CSD -> is_read c = true -> i_ret r = 0 -> i_data r = e ->
    card_step (mkCard e b) (c, r) (mkCard e b)
| step_switch e b c r :
    opcode c = MMC_SWITCH -> sw_access c = 3 -> settable e (sw_index c) = true -> i_ret r = 0 ->
    card_step (mkCard e b) (c, r) (mkCard (set_reg e (sw_index c) (sw_value c)) b)
| step_switch_error e b c r :
    opcode c = MMC_SWITCH -> sw_access c = 3 -> settable e (sw_index c) = false -> i_ret r = 0 ->
    card_step (mkCard e b) (c, r) (mkCard e true)
| step_status e b c r :
    opcode c = MMC_SEND_STATUS -> i_ret r = 0 -> bits (i_response r) R1_SWITCH_ERROR = b ->
    card_step (mkCard e b) (c, r) (mkCard e false).

Fixpoint card_steps (k : card) (l : list io) (k' : card) : Prop :=
  match l with
  | [] => k' = k
  | x :: l => exists k1, card_step k x k1 /\ card_steps k1 l k'
  end.

Lemma card_steps_snoc k l x k' :
  card_steps k (l ++ [x]) k' <-> exists k1, card_steps k l k1 /\ card_step k1 x k'.
Proof.
  revert k. induction l as [|y l IH]; intros k; simpl.
  - split; [intros (k1 & H & ->); eauto|intros (k1 & -> & H); eauto].
  - split.
    + intros (k1 & Hy & H). apply IH in H as (k2 & H1 & H2). eauto.
    + intros (k2 & (k1 & Hy & H1) & H2). exists k1. split; [done|]. apply IH. eauto.
Qed.

(** ** Following the registers *)

Variable k0 : card.

(** Along the observed ioctls, a card that was [k0] has the registers [e]
    and no pending error. *)
Definition Tracks (s : obs) (e : list Z) : Prop :=
  forall k, card_steps k0 (ios s) k -> k = mkCard e false.

(** No card answers like this. *)
Definition Impossible (s : obs) : Prop := forall k, ~ card_steps k0 (ios s) k.

Lemma tracks_read s e r : Tracks s e -> Tracks (add_io read_cmd r s) e /\ (forall k, card_steps k0 (ios (add_io read_cmd r s)) k -> i_data r = e).
Proof.
  intros Ht. split; intros k Hk; cbn [add_io ios] in Hk; apply card_steps_snoc in Hk as (k1 & H1 & H2);
    rewrite (Ht _ H1) in H2; by inversion H2.
Qed.

Lemma tracks_switch s e i v r :
  Tracks s e -> settable e (u8 i) = true -> Tracks (add_io (switch_cmd i v) r s) (set_reg e (u8 i) (u8 v)).
Proof.
  intros Ht Hs k Hk. cbn [add_io ios] in Hk. apply card_steps_snoc in Hk as (k1 & H1 & H2).
  rewrite (Ht _ H1) in H2.
  inversion H2 as [? ? ? ? Ho|? ? ? ? Ho Ha Hset Hr|? ? ? ? Ho Ha Hset Hr|? ? ? ? Ho]; try done.
  - by rewrite sw_index_switch, sw_value_switch.
  - rewrite sw_index_switch in Hset. congruence.
Qed.

Lemma tracks_status s e r : Tracks s e ->
  Tracks (add_io status_cmd r s) e /\
  (forall k, card_steps k0 (ios (add_io status_cmd r s)) k -> bits (i_response r) R1_SWITCH_ERROR = false).
Proof.
  intros Ht. split; intros k Hk; cbn [add_io ios] in Hk; apply card_steps_snoc in Hk as (k1 & H1 & H2);
    rewrite (Ht _ H1) in H2; inversion H2 as [? ? ? ? Ho|? ? ? ? Ho|? ? ? ? Ho|? ? ? ? Ho Hr Hb]; done.
Qed.

Lemma add_io_nonempty c r s : ios (add_io c r s) <> [].
Proof. cbn [add_io ios]. by destruct (ios s). Qed.

Lemma card_no_failure s c r : i_ret r = -1 -> Impossible (add_io c r s).
Proof.
  intros Hr k Hk. cbn [add_io ios] in Hk. apply card_steps_snoc in Hk as (k1 & _ & H2).
  inversion H2; congruence.
Qed.

Lemma wp_extends {A} (p : mmc A) s : wpm p (fun _ s' => exists l, ios s' = ios s ++ l) s.
Proof.
  revert s. induction p as [| | | |R c k IH]; intros s; cbn [wp]; try (exists []; by rewrite app_nil_r).
  intros r Hr. eapply wp_mono; [|apply (IH r (see s (Ev c r)))]. intros o s' [l Hl]. cbn beta in Hl.
  assert (Hs : exists l', ios (see s (Ev c r)) = ios s ++ l').
  { destruct c; cbn; try (exists []; by rewrite app_nil_r); [by eexists|destruct r; exists []; by rewrite app_nil_r..]. }
  destruct Hs as [l' Hl']. exists (l' ++ l). by rewrite Hl, Hl', app_assoc.
Qed.

Lemma card_steps_app k l l' k' : card_steps k (l ++ l') k' -> exists k1, card_steps k l k1.
Proof.
  revert k. induction l as [|x l IH]; intros k; simpl; [eauto|]. intros (k1 & Hx & H). apply IH in H as [k2 H]. eauto.
Qed.

(** A postcondition that holds where no card answers like this. *)
Definition Vacuous {A} (Q : result A -> obs -> Prop) : Prop := forall s o, Impossible s -> Q o s.

Lemma wp_impossible {A} (p : mmc A) (Q : result A -> obs -> Prop) s : Vacuous Q -> Impossible s -> wpm p Q s.
Proof.
  intros HQ Hs. eapply wp_mono; [|apply (wp_extends p)]. intros o s' [l Hl]. apply HQ.
  intros k Hk. cbn beta in Hl. rewrite Hl in Hk. apply card_steps_app in Hk as [k1 Hk]. by apply (Hs k1).
Qed.

Lemma vacuous_then {A B} (f : A -> mmc B) Q : Vacuous Q -> Vacuous (then_ see f Q).
Proof. intros HQ s [a|z| |] Hs; cbn [then_]; [by apply wp_impossible|by apply HQ..]. Qed.

(** ** Rules *)

Section Rules.
Context {A : Type}.
Implicit Types (s : obs) (e : list Z).

Lemma wp_read_card fd device (Q : result (list Z) -> obs -> Prop) s e :
  Vacuous Q -> Tracks s e ->
  (forall s', Tracks s' e -> ios s' <> [] -> regs_ok e -> Q (Returned e) s') ->
  wpm (read_or_die fd device) Q s.
Proof.
  intros HV Ht HQ. apply wp_read_or_die; intros r Hr; [intros He|by apply HV, card_no_failure].
  destruct (tracks_read s e r Ht) as [Ht' Hd].
  destruct (decide (i_data r = e)) as [<-|Hne]; [apply HQ; [done|apply add_io_nonempty|done]|].
  apply HV. intros k Hk. by apply Hne, (Hd k).
Qed.

Lemma wp_write_card fd i v device (Q : result unit -> obs -> Prop) s e :
  Vacuous Q -> Tracks s e -> settable e (u8 i) = true ->
  (forall s', Tracks s' (set_reg e (u8 i) (u8 v)) -> ios s' <> [] -> Q (Returned tt) s') ->
  wpm (write_or_die fd i v device) Q s.
Proof.
  intros HV Ht Hs HQ. apply wp_write_or_die; intros r Hr; [|by apply HV, card_no_failure].
  apply HQ; [by apply tracks_switch|apply add_io_nonempty].
Qed.

Lemma wp_value_card fd i v (Q : result Z -> obs -> Prop) s e :
  Vacuous Q -> Tracks s e -> settable e (u8 i) = true ->
  (forall s', Tracks s' (set_reg e (u8 i) (u8 v)) -> ios s' <> [] -> Q (Returned 0) s') ->
  wpm (write_extcsd_value fd i v) Q s.
Proof.
  intros HV Ht Hs HQ. apply wp_write_value; intros r [Hr|Hr]; rewrite Hr; [|by apply HV, card_no_failure].
  apply HQ; [by apply tracks_switch|apply add_io_nonempty].
Qed.

Lemma wp_status_card fd (Q : result (Z * Z) -> obs -> Prop) s e :
  Vacuous Q -> Tracks s e ->
  (forall s' w, Tracks s' e -> ios s' <> [] -> bits w R1_SWITCH_ERROR = false -> Q (Returned (0, w)) s') ->
  wpm (send_status fd) Q s.
Proof.
  intros HV Ht HQ. apply wp_send_status; intros r [Hr|Hr]; rewrite Hr; [|by apply HV, card_no_failure].
  destruct (tracks_status s e r Ht) as [Ht' Hd].
  destruct (bits (i_response r) R1_SWITCH_ERROR) eqn:Hb.
  - apply HV. intros k Hk. discriminate (Hd k Hk).
  - apply HQ; [done|apply add_io_nonempty|done].
Qed.

Lemma wp_limit_card device fd (Q : result Z -> obs -> Prop) s e :
  Vacuous Q -> Tracks s e ->
  (forall s', Tracks s' e -> ios s' <> [] -> regs_ok e -> Q (Returned (limit_value e)) s') ->
  wpm (check_enhanced_area_total_limit device fd) Q s.
Proof.
  intros HV Ht HQ. apply wp_check_limit; intros r Hr; [intros He|by apply HV, card_no_failure].
  destruct (tracks_read s e r Ht) as [Ht' Hd].
  destruct (decide (i_data r = e)) as [<-|Hne]; [apply HQ; [done|apply add_io_nonempty|done]|].
  apply HV. intros k Hk. by apply Hne, (Hd k).
Qed.

End Rules.
End Card.

(** ** Registers after updates *)

Lemma byte_set e i v j :
  0 <= i < Z.of_nat (length e) -> 0 <= j -> byte (set_reg e i v) j = if decide (i = j) then v else byte e j.
Proof.
  intros Hi Hj. unfold byte, set_reg. case_decide as Hd.
  - subst. by rewrite list_lookup_insert_eq by lia.
  - by rewrite list_lookup_insert_ne by lia.
Qed.

Lemma length_set e i v : length (set_reg e i v) = length e.
Proof. apply length_insert. Qed.

Lemma regs_ok_set e i v : regs_ok e -> 0 <= v < 2 ^ 8 -> regs_ok (set_reg e i v).
Proof.
  intros [Hl He] Hv. split; [by rewrite length_set|]. unfold set_reg.
  apply Forall_insert; [done|apply Hv].
Qed.

(** ** The enhanced user area

    What [do_enh_area_set] makes of the registers: the start of the area in
    the address units of the card and its size in groups, both of 32-bit
    arithmetic, the attribute bit and ERASE_GROUP_DEF. *)

Definition group_of (e : list Z) : Z := u32 (u32 (512 * wp_grp e) * erase_grp e).
Definition start_of (e : list Z) (start_kib : Z) : Z :=
  u32 (start_kib * 1024) / (if blockaddressed e then 512 else 1) / group_of e * group_of e.
Definition mult_of (e : list Z) (length_kib : Z) : Z :=
  u32 (length_kib + group_of e / 2) / group_of e.

Record enh_area_done (e : list Z) (start_kib length_kib : Z) (e' : list Z) : Prop := {
  ed_regs : regs_ok e';
  ed_start : reg32 e' EXT_CSD_ENH_START_ADDR_0 = start_of e start_kib;
  ed_mult : reg24 e' EXT_CSD_ENH_SIZE_MULT_0 = mult_of e length_kib mod 2 ^ 24;
  ed_attr : byte e' EXT_CSD_PARTITIONS_ATTRIBUTE = Z.lor (byte e EXT_CSD_PARTITIONS_ATTRIBUTE) EXT_CSD_ENH_USR;
  ed_erase : byte e' EXT_CSD_ERASE_GROUP_DEF = 1;
  ed_rest j : 0 <= j -> ~ 136 <= j <= 142 -> j <> 156 -> j <> 175 -> byte e' j = byte e j }.

(** The registers the command writes, PARTITION_SETTING_COMPLETED aside. *)
Definition enh_area_indices : list Z := [136; 137; 138; 139; 140; 141; 142; 156; 175].

Definition enh_area_regs (e : list Z) (start mult : Z) : list Z :=
  fold_left (fun e p => set_reg e p.1 (u8 p.2))
    [(175, 1); (139, Z.land (Z.shiftr start 24) 0xff); (138, Z.land (Z.shiftr start 16) 0xff);
     (137, Z.land (Z.shiftr start 8) 0xff); (136, Z.land start 0xff);
     (142, Z.land (Z.shiftr mult 16) 0xff); (141, Z.land (Z.shiftr mult 8) 0xff);
     (140, Z.land mult 0xff); (156, u8 (Z.lor (byte e 156) 1))] e.

Lemma land_byte x n : 0 <= n -> Z.land (Z.shiftr x n) 0xff = x / 2 ^ n mod 2 ^ 8.
Proof. intros Hn. change 0xff with (Z.ones 8). by rewrite Z.land_ones, Z.shiftr_div_pow2 by lia. Qed.

(** A number from its bytes. *)
Lemma bytes24 x : 0 <= x ->
  u8 (Z.land x 0xff) + 2 ^ 8 * u8 (Z.land (Z.shiftr x 8) 0xff) + 2 ^ 16 * u8 (Z.land (Z.shiftr x 16) 0xff) = x mod 2 ^ 24.
Proof.
  intros Hx. rewrite <- (Z.shiftr_0_r x) at 1. rewrite !land_byte by lia. unfold u8. rewrite !Zmod_mod.
  change (2 ^ 0) with 1. rewrite Z.div_1_r.
  change (2 ^ 24) with (2 ^ 8 * (2 ^ 8 * 2 ^ 8)). rewrite !Z.rem_mul_r by lia.
  change (2 ^ 16) with (2 ^ 8 * 2 ^ 8). rewrite <- Z.div_div by lia. ring.
Qed.

Lemma bytes32 x : 0 <= x < 2 ^ 32 ->
  u8 (Z.land x 0xff) + 2 ^ 8 * u8 (Z.land (Z.shiftr x 8) 0xff) + 2 ^ 16 * u8 (Z.land (Z.shiftr x 16) 0xff) +
    2 ^ 24 * u8 (Z.land (Z.shiftr x 24) 0xff) = x.
Proof.
  intros Hx. rewrite bytes24 by lia. rewrite land_byte by lia. unfold u8. rewrite Zmod_mod.
  rewrite (Z.mod_small (x / 2 ^ 24)).
  - rewrite (Z.div_mod x (2 ^ 24)) at 3 by lia. lia.
  - split; [apply Z.div_pos; lia|]. apply Z.div_lt_upper_bound; lia.
Qed.

Lemma u32_range x : 0 <= u32 x < 2 ^ 32.
Proof. apply Z.mod_pos_bound. lia. Qed.

Lemma u8_lor a b : 0 <= a < 256 -> 0 <= b < 256 -> u8 (Z.lor a b) = Z.lor a b.
Proof.
  intros Ha Hb. rewrite <- (u8_id a Ha), <- (u8_id b Hb). unfold u8.
  rewrite <- !(Z.land_ones _ 8) by lia. by rewrite <- Z.land_lor_distr_l, <- Z.land_assoc, Z.land_diag.
Qed.

Lemma start_of_range e k : regs_ok e -> 0 <= start_of e k < 2 ^ 32.
Proof.
  intros He. unfold start_of. set (a := u32 (k * 1024) / _).
  assert (Ha : 0 <= a < 2 ^ 32).
  { pose proof (u32_range (k * 1024)). unfold a. destruct (blockaddressed e); [|rewrite Z.div_1_r; lia].
    split; [apply Z.div_pos; lia|]. apply Z.div_lt_upper_bound; lia. }
  assert (Hg : 0 <= group_of e) by apply u32_range.
  destruct (Z.eqb_spec (group_of e) 0) as [->|Hz]; [lia|].
  pose proof (Z.mul_div_le a (group_of e)). pose proof (Z.div_pos a (group_of e)). nia.
Qed.

Lemma mult_of_range e k : 0 <= mult_of e k.
Proof.
  unfold mult_of. pose proof (u32_range (k + group_of e / 2)).
  destruct (Z.eqb_spec (group_of e) 0) as [->|Hz]; [by rewrite Z.div_0_r|].
  apply Z.div_pos; [lia|]. pose proof (u32_range (u32 (512 * wp_grp e) * erase_grp e)). unfold group_of in *. lia.
Qed.

Lemma enh_area_regs_done e start_kib length_kib :
  regs_ok e -> enh_area_done e start_kib length_kib (enh_area_regs e (start_of e start_kib) (mult_of e length_kib)).
Proof.
  intros He. pose proof (start_of_range e start_kib He) as Hs. pose proof (mult_of_range e length_kib) as Hm.
  remember (start_of e start_kib) as st eqn:Est. remember (mult_of e length_kib) as mu eqn:Emu.
  assert (Hb : forall j, 0 <= j -> byte (enh_area_regs e st mu) j =
    if decide (156 = j) then u8 (u8 (Z.lor (byte e 156) 1)) else
    if decide (140 = j) then u8 (Z.land mu 0xff) else
    if decide (141 = j) then u8 (Z.land (Z.shiftr mu 8) 0xff) else
    if decide (142 = j) then u8 (Z.land (Z.shiftr mu 16) 0xff) else
    if decide (136 = j) then u8 (Z.land st 0xff) else
    if decide (137 = j) then u8 (Z.land (Z.shiftr st 8) 0xff) else
    if decide (138 = j) then u8 (Z.land (Z.shiftr st 16) 0xff) else
    if decide (139 = j) then u8 (Z.land (Z.shiftr st 24) 0xff) else
    if decide (175 = j) then u8 1 else byte e j).
  { intros j Hj. unfold enh_area_regs. cbn [fold_left fst snd].
    by repeat (rewrite byte_set; [case_decide; [done|]|rewrite ?length_set, (proj1 He); lia|done]). }
  split.
  - unfold enh_area_regs. cbn [fold_left fst snd]. repeat (apply regs_ok_set; [|apply u8_range]). done.
  - unfold reg32, reg24. rewrite !Hb by (vm_compute; done). cbn -[Z.land Z.shiftr u8]. rewrite <- Est. by apply bytes32.
  - unfold reg24. rewrite !Hb by (vm_compute; done). cbn -[Z.land Z.shiftr u8]. rewrite <- Emu. by apply bytes24.
  - rewrite Hb by (vm_compute; done). cbn -[Z.land Z.shiftr u8].
    change (byte e EXT_CSD_PARTITIONS_ATTRIBUTE) with (byte e 156). pose proof (byte_range e 156 (proj2 He)).
    by rewrite !u8_lor by (done || lia).
  - by rewrite Hb by (vm_compute; done).
  - intros j H0 H1 H2 H3. rewrite Hb by done. by repeat (rewrite decide_False by lia).
Qed.
