(* ===== verification/MmcIo.v ===== *)
(** * The DO_IO loop

    What [do_io_read] and [do_io_write] leave behind whatever the calls
    return, and the fuel that is enough for them to end: each turn moves at
    least one byte or is an interruption, so that [(k + 1) * nbyte] turns
    are enough when no more than [k] calls in a row are interrupted. *)

From Stdlib Require Import Ascii String.
From S2P Require Import Prelude Bytes Prog CStr MmcSys MmcCmds MmcPartition MmcRpmb MmcSpec.

Open Scope Z_scope.

Definition add_ins (fd : Z) (chunks : list (list Z)) (s : obs) : obs :=
  mkObs (ios s) (outs s) (ins s ++ (pair fd <$> chunks)).
Definition add_outs (fd : Z) (chunks : list (list Z)) (s : obs) : obs :=
  mkObs (ios s) (outs s ++ (pair fd <$> chunks)) (ins s).

Lemma add_ins_nil fd s : add_ins fd [] s = s.
Proof. destruct s. unfold add_ins. simpl. by rewrite app_nil_r. Qed.
Lemma add_outs_nil fd s : add_outs fd [] s = s.
Proof. destruct s. unfold add_outs. simpl. by rewrite app_nil_r. Qed.
Lemma add_ins_in fd bs chunks s : add_ins fd chunks (add_in fd bs s) = add_ins fd (bs :: chunks) s.
Proof. unfold add_ins, add_in. cbn [ins ios outs fmap list_fmap]. by rewrite <- app_assoc. Qed.
Lemma add_outs_out fd bs chunks s : add_outs fd chunks (add_out fd bs s) = add_outs fd (bs :: chunks) s.
Proof. unfold add_outs, add_out. cbn [ins ios outs fmap list_fmap]. by rewrite <- app_assoc. Qed.

Lemma snd_pairs (fd : Z) (cs : list (list Z)) : snd <$> (pair fd <$> cs) = cs.
Proof. induction cs as [|c cs IH]; [done|]. cbn [fmap list_fmap snd]. by rewrite IH. Qed.

Lemma add_outs_outs fd cs cs' s : add_outs fd cs' (add_outs fd cs s) = add_outs fd (cs ++ cs') s.
Proof. unfold add_outs. cbn [ins ios outs]. by rewrite fmap_app, app_assoc. Qed.

(** ** What is moved *)

Lemma wp_do_io_read fuel fd buf nbyte (Q : result (Z * list Z) -> obs -> Prop) s :
  (forall chunks ret, Forall byte_ok (concat chunks) ->
     ret = -1 \/ ret = Z.of_nat (length (buf ++ concat chunks)) ->
     Q (Returned (ret, buf ++ concat chunks)) (add_ins fd chunks s)) ->
  (forall chunks, Q NoFuel (add_ins fd chunks s)) ->
  wpm (do_io_read fuel fd buf nbyte) Q s.
Proof.
  revert buf s. induction fuel as [|fuel IH]; intros buf s HQ HF; cbn [do_io_read].
  { specialize (HF []). by rewrite add_ins_nil in HF. }
  intros [bs|e] Hr; cbn [see].
  - destruct Hr as [Hl Hb]. change (wpm (if io_done (Z.of_nat (length bs)) (Z.of_nat (length buf) + Z.of_nat (length bs)) nbyte
      then mret (Z.of_nat (length buf) + Z.of_nat (length bs), buf ++ bs) else do_io_read fuel fd (buf ++ bs) nbyte) Q (add_in fd bs s)).
    apply wp_if; intros _.
    + apply wp_mret. specialize (HQ [bs]). rewrite <- add_ins_in, add_ins_nil in HQ. simpl in HQ.
      rewrite app_nil_r in HQ. apply HQ; [done|]. right. rewrite length_app. lia.
    + apply IH.
      * intros chunks ret Hc Hr. rewrite add_ins_in, <- app_assoc. rewrite <- app_assoc in Hr.
        apply (HQ (bs :: chunks)); [|done]. simpl. by apply Forall_app.
      * intros chunks. rewrite add_ins_in. apply HF.
  - assert (H0 : forall ret, ret = -1 \/ ret = Z.of_nat (length buf) -> Q (Returned (ret, buf)) s).
    { intros ret Hret. specialize (HQ [] ret). rewrite add_ins_nil in HQ. simpl in HQ. rewrite app_nil_r in HQ. auto. }
    change (wpm (if negb (e =? EINTR) then mret (-1, buf) else if io_done (-1) (Z.of_nat (length buf)) nbyte
      then mret (Z.of_nat (length buf), buf) else do_io_read fuel fd buf nbyte) Q s).
    repeat (apply wp_if; intros _); try (apply wp_mret, H0; auto). by apply IH.
Qed.

(** A prefix of the rest of the buffer is written. *)
Lemma wp_do_io_write fuel fd buf ret0 (Q : result Z -> obs -> Prop) s :
  0 <= ret0 ->
  (forall chunks ret, concat chunks `prefix_of` drop (Z.to_nat ret0) buf ->
     ret = -1 \/ ret = ret0 + Z.of_nat (length (concat chunks)) ->
     Q (Returned ret) (add_outs fd chunks s)) ->
  (forall chunks, concat chunks `prefix_of` drop (Z.to_nat ret0) buf -> Q NoFuel (add_outs fd chunks s)) ->
  wpm (do_io_write fuel fd buf ret0) Q s.
Proof.
  revert ret0 s. induction fuel as [|fuel IH]; intros ret0 s H0 HQ HF; cbn [do_io_write].
  { specialize (HF []). rewrite add_outs_nil in HF. apply HF. apply prefix_nil. }
  intros [n|e] Hr; cbn [see].
  - set (b := take (Z.to_nat n) (drop (Z.to_nat ret0) buf)).
    assert (Hlb : Z.of_nat (length b) = n).
    { destruct Hr as [Hn1 Hn2]. subst b. rewrite length_take. lia. }
    change (wpm (if io_done n (ret0 + n) (Z.of_nat (length buf)) then mret (ret0 + n)
      else do_io_write fuel fd buf (ret0 + n)) Q (add_out fd b s)).
    assert (Hp : forall chunks, concat chunks `prefix_of` drop (Z.to_nat (ret0 + n)) buf ->
      concat (b :: chunks) `prefix_of` drop (Z.to_nat ret0) buf).
    { intros chunks Hc. cbn [concat]. rewrite <- (take_drop (Z.to_nat n) (drop (Z.to_nat ret0) buf)).
      apply prefix_app. rewrite drop_drop.
      by replace (Z.to_nat ret0 + Z.to_nat n)%nat with (Z.to_nat (ret0 + n)) by lia. }
    apply wp_if; intros _.
    + apply wp_mret. specialize (HQ [b]). rewrite <- add_outs_out, add_outs_nil in HQ. apply HQ.
      * apply (Hp []), prefix_nil.
      * right. simpl. rewrite app_nil_r. lia.
    + apply IH; [lia| |].
      * intros chunks ret Hc Hret. rewrite add_outs_out. apply HQ; [by apply Hp|].
        destruct Hret as [->| ->]; [by left|right]. cbn [concat]. rewrite length_app. lia.
      * intros chunks Hc. rewrite add_outs_out. apply HF. by apply Hp.
  - assert (H1 : forall ret, ret = -1 \/ ret = ret0 -> Q (Returned ret) s).
    { intros ret Hret. specialize (HQ [] ret). rewrite add_outs_nil in HQ. apply HQ; [apply prefix_nil|simpl; lia]. }
    change (wpm (if negb (e =? EINTR) then mret (-1) else if io_done (-1) ret0 (Z.of_nat (length buf))
      then mret ret0 else do_io_write fuel fd buf ret0) Q s).
    repeat (apply wp_if; intros _); try (apply wp_mret, H1; auto). by apply IH.
Qed.

(** ** When it ends *)

(** At most [k] interrupted calls in a row, [j] of them now. *)
Fixpoint interrupts (k j : nat) (tr : list (event syscall)) : Prop :=
  match tr with
  | [] => True
  | @Ev _ R c r :: tr =>
      match c in syscall R return R -> Prop with
      | Read _ _ => fun r =>
          match r with
          | inr e => if e =? EINTR then (0 < j)%nat /\ interrupts k (j - 1) tr else interrupts k k tr
          | inl _ => interrupts k k tr
          end
      | Write _ _ => fun r =>
          match r with
          | inr e => if e =? EINTR then (0 < j)%nat /\ interrupts k (j - 1) tr else interrupts k k tr
          | inl _ => interrupts k k tr
          end
      | _ => fun _ => interrupts k k tr
      end r
  end.

(** The bytes of the reads of a trace, and how its last read ended. *)
Definition bytes_read (tr : list (event syscall)) : list Z := concat (snd <$> ins (observed tr)).

Definition chunk (r : list Z + Z) : list Z := match r with inl bs => bs | inr _ => [] end.
Definition chunks (rs : list (list Z + Z)) : list Z := concat (chunk <$> rs).

(** The loop goes on after this result. *)
Definition goes_on (r : list Z + Z) : Prop :=
  match r with inl bs => bs <> [] | inr e => e = EINTR end.

(** Reads of [fd] with the results [rs], each asking for what is missing of
    [n] bytes. *)
Fixpoint read_calls (fd n : Z) (rs : list (list Z + Z)) : list (event syscall) :=
  match rs with
  | [] => []
  | r :: rs => Ev (Read fd n) r :: read_calls fd (n - Z.of_nat (length (chunk r))) rs
  end.

Inductive io_end := IoFull | IoEof | IoError.

(** What the loop returns after reading [got] of [n] bytes. *)
Definition io_value (n got : Z) (e : io_end) : Z :=
  match e with IoFull => n | IoEof => got | IoError => -1 end.

(** Its last read, which makes [got] bytes in all. *)
Definition last_read (n got : Z) (r : list Z + Z) (e : io_end) : Prop :=
  match e with
  | IoFull => chunk r <> [] /\ got = n
  | IoEof => r = inl [] /\ got < n
  | IoError => (exists err, r = inr err /\ err <> EINTR) /\ got < n
  end.

(** A trace of nothing but the reads of such a loop: all but the last
    brought bytes or were interrupted. *)
Definition io_ends (fd n : Z) (tr : list (event syscall)) (e : io_end) : Prop :=
  exists rs r, tr = read_calls fd n (rs ++ [r]) /\ Forall goes_on rs /\
    last_read n (Z.of_nat (length (chunks (rs ++ [r])))) r e.

Lemma fold_see_ins tr s : ins (fold_left see tr s) = ins s ++ ins (observed tr).
Proof.
  unfold observed. revert s. induction tr as [|e tr IH]; intros s; [simpl; by rewrite app_nil_r|].
  cbn [fold_left]. rewrite IH, (IH (see no_obs e)), app_assoc. f_equal.
  destruct e as [R c r]. destruct c; cbn [see]; try (simpl; by rewrite ?app_nil_r); destruct r; simpl; by rewrite ?app_nil_r.
Qed.

Lemma bytes_read_cons e tr : bytes_read (e :: tr) = concat (snd <$> ins (see no_obs e)) ++ bytes_read tr.
Proof. unfold bytes_read, observed. cbn [fold_left]. by rewrite fold_see_ins, fmap_app, concat_app. Qed.

(** One more turn in front, or the last one. *)
Lemma io_ends_cons fd n r tr e :
  goes_on r -> io_ends fd (n - Z.of_nat (length (chunk r))) tr e -> io_ends fd n (Ev (Read fd n) r :: tr) e.
Proof.
  intros Hr (rs & l & -> & Hg & Hl). exists (r :: rs), l. split_and!; [done|by constructor|].
  unfold chunks in *. cbn [app fmap list_fmap concat]. rewrite length_app, Nat2Z.inj_add.
  destruct e; destruct Hl as [H1 H2]; (split; [done|lia]).
Qed.

Lemma io_ends_last fd n r e : last_read n (Z.of_nat (length (chunk r))) r e -> io_ends fd n [Ev (Read fd n) r] e.
Proof. intros Hl. exists [], r. split_and!; [done|done|]. unfold chunks. cbn. by rewrite app_nil_r. Qed.

Lemma do_io_read_ends fuel fd buf nbyte k j tr o :
  exec (do_io_read fuel fd buf nbyte) tr o -> interrupts k j tr -> (j <= k)%nat ->
  Z.of_nat (length buf) < nbyte ->
  (Z.to_nat (nbyte - Z.of_nat (length buf) - 1) * (k + 1) + j + 1 <= fuel)%nat ->
  exists e, let bs := buf ++ bytes_read tr in
    o = Returned (io_value nbyte (Z.of_nat (length bs)) e, bs) /\ io_ends fd (nbyte - Z.of_nat (length buf)) tr e.
Proof.
  revert buf j tr. induction fuel as [|fuel IH]; intros buf j tr He Hi Hj Hb Hf; [lia|].
  cbn [do_io_read] in He. destruct He as (r & tr' & Hr & -> & He). cbv zeta. rewrite bytes_read_cons.
  destruct r as [bs|e]; cbn [see ins add_in no_obs app fmap list_fmap snd concat]; rewrite ?app_nil_r.
  - destruct Hr as [Hl Hbs]. cbn [interrupts] in Hi.
    change (exec (if io_done (Z.of_nat (length bs)) (Z.of_nat (length buf) + Z.of_nat (length bs)) nbyte
      then mret (Z.of_nat (length buf) + Z.of_nat (length bs), buf ++ bs) else do_io_read fuel fd (buf ++ bs) nbyte) tr' o) in He.
    unfold io_done in He. rewrite app_assoc. destruct (Z.eqb_spec (Z.of_nat (length bs)) 0) as [Hz|Hz]; cbn [orb] in He.
    + destruct bs; [|done]. destruct He as [-> ->]. exists IoEof. unfold bytes_read. simpl. rewrite !app_nil_r, Z.add_0_r.
      split; [done|]. apply io_ends_last. split; [done|simpl; lia].
    + assert (Hne : bs <> []) by by intros ->.
      destruct (Z.eqb_spec (Z.of_nat (length buf) + Z.of_nat (length bs)) nbyte) as [Hn|Hn].
      * destruct He as [-> ->]. exists IoFull. unfold bytes_read. simpl. rewrite app_nil_r, Hn.
        split; [done|]. apply io_ends_last. split; [done|simpl; lia].
      * destruct (IH (buf ++ bs) k tr' He) as (e & -> & H); [done|lia|rewrite length_app; lia| |].
        { rewrite length_app. replace (Z.to_nat (nbyte - Z.of_nat (length buf) - 1))
            with (Z.to_nat (nbyte - Z.of_nat (length buf + length bs) - 1) + length bs)%nat in Hf by lia. nia. }
        exists e. split; [done|]. rewrite length_app, Nat2Z.inj_add, Z.sub_add_distr in H. by apply io_ends_cons.
  - simpl in Hr. cbn [interrupts app] in *.
    change (exec (if negb (e =? EINTR) then mret (-1, buf) else if io_done (-1) (Z.of_nat (length buf)) nbyte
      then mret (Z.of_nat (length buf), buf) else do_io_read fuel fd buf nbyte) tr' o) in He.
    destruct (Z.eqb_spec e EINTR) as [->|Hne]; cbn [negb] in He.
    + unfold io_done in He. cbn in He. destruct (Z.eqb_spec (Z.of_nat (length buf)) nbyte); [lia|].
      destruct Hi as [Hj0 Hi]. destruct (IH buf (j - 1)%nat tr' He) as (e & -> & H); [done|lia|done|lia|].
      exists e. split; [done|]. apply io_ends_cons; [done|]. cbn. by rewrite Z.sub_0_r.
    + destruct He as [-> ->]. exists IoError. unfold bytes_read. simpl. rewrite app_nil_r. split; [done|].
      apply io_ends_last. split; [by eexists|simpl; lia].
Qed.
