(* ===== verification/MmcFrames.v ===== *)
(** * RPMB frames in memory

    Laying frames out and reading them back, and the byte swaps of their
    integers. *)

From Stdlib Require Import Ascii String.
From S2P Require Import Prelude Bytes Prog CStr MmcSys MmcCmds MmcRpmb.

Open Scope Z_scope.

(** Members of the sizes of the C structure. *)
Record frame_len (f : rpmb_frame) : Prop := {
  fl_stuff : length (stuff f) = 196%nat;
  fl_key_mac : length (key_mac f) = 32%nat;
  fl_data : length (data f) = 256%nat;
  fl_nonce : length (nonce f) = 16%nat }.

Record frame_ok (f : rpmb_frame) : Prop := {
  fo_len : frame_len f;
  fo_counter : 0 <= write_counter f < 2 ^ 32;
  fo_addr : u16_ok (addr f);
  fo_count : u16_ok (block_count f);
  fo_result : u16_ok (f_result f);
  fo_req : u16_ok (req_resp f) }.

Lemma length_frame_bytes f : frame_len f -> length (frame_bytes f) = 512%nat.
Proof.
  intros [H1 H2 H3 H4]. unfold frame_bytes, le32, le16.
  rewrite !length_app, !length_le_bytes, H1, H2, H3, H4. done.
Qed.

Lemma length_sub off n bs : (off + n <= length bs)%nat -> length (sub off n bs) = n.
Proof. intros H. unfold sub. rewrite length_take, length_drop. lia. Qed.

Lemma frame_of_len bs : (512 <= length bs)%nat -> frame_len (frame_of bs).
Proof. intros H. split; cbn [frame_of stuff key_mac data nonce]; apply length_sub; lia. Qed.

(** Skipping a member. *)
Lemma sub_skip (a bs : list Z) off n : (length a <= off)%nat -> sub off n (a ++ bs) = sub (off - length a) n bs.
Proof. intros H. unfold sub. rewrite drop_app_ge by lia. done. Qed.

Lemma sub_head a bs n : length a = n -> sub 0 n (a ++ bs) = a.
Proof. intros <-. unfold sub. rewrite drop_0. apply take_app_length. Qed.

Lemma frame_roundtrip f bs : frame_ok f -> frame_of (frame_bytes f ++ bs) = f.
Proof.
  destruct f as [st km da no wc ad bc re rr].
  intros [[H1 H2 H3 H4] H5 H6 H7 H8 H9]. unfold frame_of, frame_bytes.
  cbn [stuff key_mac data nonce write_counter addr block_count f_result req_resp] in *.
  assert (L4 : length (le32 wc) = 4%nat) by apply length_le_bytes.
  assert (L2 : forall x, length (le16 x) = 2%nat) by (intros; apply length_le_bytes).
  rewrite <- !app_assoc.
  assert (Hw : le_val (le32 wc) = wc) by (unfold le32; rewrite le_val_bytes; apply Z.mod_small; lia).
  f_equal; try (etrans; [apply (f_equal le_val)|first [exact Hw|by apply u16_le16]]);
    repeat (rewrite sub_skip by (rewrite ?H1, ?H2, ?H3, ?H4, ?L4, ?L2; lia);
            rewrite ?H1, ?H2, ?H3, ?H4, ?L4, ?L2; cbn [Nat.sub]);
    by apply sub_head.
Qed.

Lemma frames_roundtrip fs : Forall frame_ok fs -> frames_of (length fs) (frames_bytes fs) = fs.
Proof.
  unfold frames_bytes. induction 1 as [|f fs Hf _ IH]; [done|]. cbn [fmap list_fmap concat length frames_of].
  rewrite frame_roundtrip by done. f_equal.
  by rewrite drop_app_length' by (by rewrite length_frame_bytes by apply Hf).
Qed.

Lemma length_frames_bytes fs : Forall frame_len fs -> length (frames_bytes fs) = (512 * length fs)%nat.
Proof.
  unfold frames_bytes. induction 1 as [|f fs Hf _ IH]; [done|]. cbn [fmap list_fmap concat length].
  rewrite length_app, length_frame_bytes, IH by done. lia.
Qed.

Lemma length_frames_of n bs : length (frames_of n bs) = n.
Proof. revert bs. induction n as [|n IH]; intros bs; simpl; [done|]. by rewrite IH. Qed.

Lemma frames_of_len n bs : (512 * n <= length bs)%nat -> Forall frame_len (frames_of n bs).
Proof.
  revert bs. induction n as [|n IH]; intros bs H; simpl; constructor.
  - apply frame_of_len. lia.
  - apply IH. rewrite length_drop. lia.
Qed.

Lemma zero_frame_ok : frame_ok zero_frame.
Proof. by vm_compute. Qed.

(** ** Byte order *)

Lemma swap16_swap16 x : u16_ok x -> swap16 (swap16 x) = x.
Proof.
  intros Hx. unfold swap16. rewrite <- (u16_le16 x Hx) at 2. f_equal.
  assert (Hl : length (rev (le16 x)) = 2%nat) by (unfold le16; by rewrite length_rev, length_le_bytes).
  unfold le16 at 1. rewrite <- Hl, le_val_le_bytes; [apply rev_involutive|].
  apply Forall_rev, le_bytes_ok.
Qed.

Lemma swap16_ok x : u16_ok (swap16 x).
Proof.
  unfold u16_ok, swap16, le16. cbn [le_bytes rev app le_val].
  pose proof (Z.mod_pos_bound x (2 ^ 8)). pose proof (Z.mod_pos_bound (x / 2 ^ 8) (2 ^ 8)). lia.
Qed.

Lemma swap16_zero x : u16_ok x -> swap16 x = 0 -> x = 0.
Proof. intros Hx H. rewrite <- (swap16_swap16 x Hx), H. done. Qed.

Lemma le_val_range bs : Forall byte_ok bs -> 0 <= le_val bs < 2 ^ (8 * Z.of_nat (length bs)).
Proof.
  unfold byte_ok. induction 1 as [|b bs Hb _ IH]; cbn [le_val length]; [simpl; lia|].
  rewrite Nat2Z.inj_succ. replace (8 * Z.succ (Z.of_nat (length bs))) with (8 + 8 * Z.of_nat (length bs)) by lia.
  rewrite Z.pow_add_r by lia. lia.
Qed.

Lemma swap32_swap32 x : 0 <= x < 2 ^ 32 -> swap32 (swap32 x) = x.
Proof.
  intros Hx. unfold swap32. assert (Hw : le_val (le32 x) = x).
  { unfold le32. rewrite le_val_bytes. apply Z.mod_small. lia. }
  rewrite <- Hw at 2. f_equal.
  assert (Hl : length (rev (le32 x)) = 4%nat) by (unfold le32; by rewrite length_rev, length_le_bytes).
  unfold le32 at 1. rewrite <- Hl, le_val_le_bytes; [apply rev_involutive|].
  apply Forall_rev, le_bytes_ok.
Qed.

Lemma frame_of_counter bs : (512 <= length bs)%nat -> Forall byte_ok bs -> 0 <= write_counter (frame_of bs) < 2 ^ 32.
Proof.
  intros Hl Hb. cbn [frame_of write_counter]. pose proof (length_sub 500 4 bs ltac:(lia)) as H4.
  pose proof (le_val_range (sub 500 4 bs)) as Hr. rewrite H4 in Hr. apply Hr. unfold sub. by apply Forall_take, Forall_drop.
Qed.
