(* ===== verification/MmcSafety.v ===== *)
(** * What a command of the eMMC tool can do to the device

    One statement, [command_spec], that every command satisfies whatever the
    device answers: nothing follows a failed ioctl, the exit status is then
    1 except after the one-time write of a partition command, which comes
    last,
    the one-time programmable PARTITION_SETTING_COMPLETED is written only on
    request and on an unpartitioned device, and the arguments and registers
    that lead to undefined behaviour are the ones listed in [ub_cause]. *)

From Stdlib Require Import Ascii String.
From S2P Require Import Prelude Bytes Prog CStr MmcSys MmcCmds MmcPartition MmcExtcsd MmcRpmb MmcMain MmcSpec.
From S2P Require Import MmcPrint MmcLimit.

Open Scope Z_scope.

Abbreviation io := (mmc_ioc_cmd * ioctl_res)%type.

(** Only the last ioctl may have failed. *)
Fixpoint fail_last (l : list io) : Prop :=
  match l with
  | [] | [_] => True
  | x :: l => i_ret x.2 = 0 /\ fail_last l
  end.

Definition failed (l : list io) : bool := existsb (fun x => nz (i_ret x.2)) l.

Definition is_switch (i : Z) (x : io) : bool := (opcode x.1 =? MMC_SWITCH) && (sw_index x.1 =? i).

(** Whether register [i] is written. *)
Definition switches (i : Z) (l : list io) : bool := existsb (is_switch i) l.

(** The registers of the first ioctl. *)
Definition first_regs (l : list io) : list Z :=
  match l with [] => [] | x :: _ => i_data x.2 end.

Definition partition_cmd (f : CommandFunction) : bool :=
  match f with
  | Do_create_gp_partition | Do_enh_area_set | Do_write_reliability_set => true
  | _ => false
  end.

Definition rpmb_cmd (f : CommandFunction) : bool :=
  match f with
  | Do_rpmb_write_key | Do_rpmb_read_counter | Do_rpmb_read_block | Do_rpmb_write_block => true
  | _ => false
  end.

(** The number in the [i]-th argument. *)
Definition argz (argv : list string) (i : nat) : Z :=
  match argv !! i with Some a => strtol_val a 10 | None => 0 end.

Definition group_zero (e : list Z) : Prop := byte e 221 = 0 \/ byte e 224 = 0.

Definition ub_cause (f : CommandFunction) (argv : list string) (l : list io) : Prop :=
  match f with
  | Do_write_reliability_set => ~ 0 <= argz argv 2 <= 31
  | Do_enh_area_set => group_zero (first_regs l)
  | Do_create_gp_partition =>
      group_zero (first_regs l) \/ (argz argv 3 = 0 /\ argz argv 5 <> 0)
  | _ => False
  end.

(** The ioctls end with the one-time write, which ran after nothing but
    successful ones, or with it and the status query. *)
Definition completing (l : list io) : Prop :=
  exists l' r, failed l' = false /\ switches EXT_CSD_PARTITION_SETTING_COMPLETED l' = false /\
    let w := (switch_cmd EXT_CSD_PARTITION_SETTING_COMPLETED 1, r) in
    (l = l' ++ [w] \/ exists r', i_ret r = 0 /\ l = l' ++ [w; (status_cmd, r')]).

Record command_spec (f : CommandFunction) (argv : list string) (o : result Z) (s : obs) : Prop := {
  cs_fail : fail_last (ios s);
  cs_status : failed (ios s) = true ->
    o = if partition_cmd f && switches EXT_CSD_PARTITION_SETTING_COMPLETED (ios s) then Returned 0 else Exited 1;
  cs_completing : partition_cmd f = true -> switches EXT_CSD_PARTITION_SETTING_COMPLETED (ios s) = true ->
    completing (ios s);
  cs_completed : switches EXT_CSD_PARTITION_SETTING_COMPLETED (ios s) = true ->
    f = Do_write_extcsd_byte \/
    (partition_cmd f = true /\ argv !! 1%nat = Some "-y" /\ byte (first_regs (ios s)) EXT_CSD_PARTITION_SETTING_COMPLETED = 0);
  cs_undefined : o = Undefined -> ub_cause f argv (ios s);
  cs_fuel : o = NoFuel -> rpmb_cmd f = true }.

Lemma is_switch_switch i j v r : is_switch i (switch_cmd j v, r) = (u8 j =? i).
Proof. unfold is_switch. cbn [fst]. by rewrite sw_index_switch. Qed.
Lemma is_switch_read i r : is_switch i (read_cmd, r) = false.
Proof. done. Qed.
Lemma is_switch_status i r : is_switch i (status_cmd, r) = false.
Proof. done. Qed.
#[export] Hint Rewrite is_switch_switch is_switch_read is_switch_status : mmc.

(** One step of a command. *)
Ltac mmc_step :=
  match goal with
  | |- then_ _ _ _ _ _ => cbn [then_]; cbv beta iota
  | |- wp _ (mbind _ _) _ _ => apply wp_bind
  | |- wp _ (mret _) _ _ => apply wp_mret
  | |- wp _ (Ret _) _ _ => apply wp_mret
  | |- wp _ (exit_ _) _ _ => apply wp_exit
  | |- wp _ (printf _ _) _ _ => apply wp_printf
  | |- wp _ (eprintf _ _) _ _ => apply wp_eprintf
  | |- wp _ (perror _) _ _ => apply wp_perror
  | |- wp _ (call (Close _)) _ _ => apply wp_close
  | |- wp _ (call (Fwrite _)) _ _ => apply wp_fwrite
  | |- wp _ (CHECK _ _) _ _ => apply wp_CHECK; intros ?
  | |- wp _ (when_ _ _) _ _ => apply wp_when; intros ?
  | |- wp _ (if _ then _ else _) _ _ => apply wp_if; intros ?
  | |- wp _ (open_device _) _ _ => apply wp_open_device; [intros ? ?|]
  | |- wp _ (read_or_die _ _) _ _ => apply wp_read_or_die; intros ? ?; [intros [? ?]|]
  | |- wp _ (write_or_die _ _ _ _) _ _ => apply wp_write_or_die; intros ? ?
  | |- wp _ (write_extcsd_value _ _ _) _ _ => apply wp_write_value; intros ? ?
  | |- wp _ (send_status _) _ _ => apply wp_send_status; intros ? ?
  | |- wp _ (or_die _ _ _) _ _ => apply wp_or_die; intros ?
  | |- wp _ (argv_at _ _) _ _ => apply wp_argv_at; [lia|intros ? ?]
  | |- wp _ (at_ _ _) _ _ => apply wp_at; [unfold_csd; lia|]
  | |- wp _ (udiv _ _) _ _ => apply wp_udiv; intros ?
  | |- wp _ (shl _ _) _ _ => apply wp_shl; intros ?
  | |- wp _ (let _ := _ in _) _ _ => cbv zeta
  | H : negb (_ =? _)%nat = false |- _ => apply negb_false_iff, Nat.eqb_eq in H
  end
with unfold_csd :=
  match goal with
  | |- 0 <= ?c < _ => let c' := eval cbv in c in change c with c'
  end.

(** The end of a path: the ioctls are a concrete list. *)
Ltac mmc_leaf :=
  unfold no_obs, add_io; cbn [ios outs app]; constructor; cbn [ios];
  [ cbn [fail_last snd]; tauto
  | unfold failed, nz; cbn [existsb snd]; intros ?;
    first [reflexivity | exfalso; repeat match goal with H : i_ret _ = _ |- _ => rewrite H in * end; done]
  | discriminate
  | unfold switches; cbn [existsb]; autorewrite with mmc; intros Hsw;
    first [by left|exfalso; vm_compute in Hsw; done]
  | first [discriminate | cbn [ub_cause]; tauto]
  | discriminate ].

Ltac mmc_solve := repeat mmc_step; mmc_leaf.

Lemma do_writeprotect_set_spec argv : wpm (do_writeprotect_set argv) (command_spec Do_writeprotect_set argv) no_obs.
Proof. unfold do_writeprotect_set. mmc_solve. Qed.

Lemma do_write_extcsd_byte_spec argv : wpm (do_write_extcsd_byte argv) (command_spec Do_write_extcsd_byte argv) no_obs.
Proof. unfold do_write_extcsd_byte. mmc_solve. Qed.

Lemma do_disable_512B_emulation_spec argv : wpm (do_disable_512B_emulation argv) (command_spec Do_disable_512B_emulation argv) no_obs.
Proof. unfold do_disable_512B_emulation. mmc_solve. Qed.

Lemma do_hwreset_en_spec argv : wpm (do_hwreset_en argv) (command_spec Do_hwreset_en argv) no_obs.
Proof. unfold do_hwreset_en, do_hwreset. mmc_solve. Qed.

Lemma do_hwreset_dis_spec argv : wpm (do_hwreset_dis argv) (command_spec Do_hwreset_dis argv) no_obs.
Proof. unfold do_hwreset_dis, do_hwreset. mmc_solve. Qed.

Lemma do_write_bkops_en_spec argv : wpm (do_write_bkops_en argv) (command_spec Do_write_bkops_en argv) no_obs.
Proof. unfold do_write_bkops_en. mmc_solve. Qed.

Lemma do_status_get_spec argv : wpm (do_status_get argv) (command_spec Do_status_get argv) no_obs.
Proof. unfold do_status_get. mmc_solve. Qed.

Lemma do_dump_extcsd_spec argv : wpm (do_dump_extcsd argv) (command_spec Do_dump_extcsd argv) no_obs.
Proof. unfold do_dump_extcsd. mmc_solve. Qed.

Lemma do_sanitize_spec argv : wpm (do_sanitize argv) (command_spec Do_sanitize argv) no_obs.
Proof. unfold do_sanitize. mmc_solve. Qed.

Lemma do_cache_en_spec argv : wpm (do_cache_en argv) (command_spec Do_cache_en argv) no_obs.
Proof. unfold do_cache_en, do_cache_ctrl. mmc_solve. Qed.

Lemma do_cache_dis_spec argv : wpm (do_cache_dis argv) (command_spec Do_cache_dis argv) no_obs.
Proof. unfold do_cache_dis, do_cache_ctrl. mmc_solve. Qed.


(** ** Commands that print, or look words up *)

Lemma wp_prints (p : mmc unit) (Q : result unit -> obs -> Prop) s : prints p -> Q (Returned tt) s -> wpm p Q s.
Proof. intros Hp HQ. apply (wp_silent p (fun _ => True)); [done|]. by intros [] _. Qed.

Lemma do_writeprotect_get_spec argv : wpm (do_writeprotect_get argv) (command_spec Do_writeprotect_get argv) no_obs.
Proof.
  unfold do_writeprotect_get. repeat first [mmc_step|apply wp_prints; [by apply prints_writeprotect|]]; mmc_leaf.
Qed.

Lemma do_read_extcsd_spec argv : wpm (do_read_extcsd argv) (command_spec Do_read_extcsd argv) no_obs.
Proof.
  unfold do_read_extcsd. repeat mmc_step; [|mmc_leaf..].
  destruct (extcsd_rev_str _) as [str|]; [|repeat mmc_step; mmc_leaf].
  repeat first [apply wp_prints; [by apply prints_registers|]|mmc_step]; mmc_leaf.
Qed.

Lemma do_write_boot_en_spec argv : wpm (do_write_boot_en argv) (command_spec Do_write_boot_en argv) no_obs.
Proof.
  unfold do_write_boot_en. repeat mmc_step; [|mmc_leaf..].
  destruct (boot_config _ _ _); mmc_solve.
Qed.

Lemma wp_word_value w cases err (Q : result Z -> obs -> Prop) s :
  (forall v, Q (Returned v) s) -> Q (Exited 1) s -> wpm (word_value w cases err) Q s.
Proof.
  intros H1 H2. unfold word_value. destruct (find _ _) as [[? v]|]; [by apply H1|].
  by apply wp_bind, wp_eprintf.
Qed.

Lemma do_boot_bus_conditions_set_spec argv :
  wpm (do_boot_bus_conditions_set argv) (command_spec Do_boot_bus_conditions_set argv) no_obs.
Proof.
  unfold do_boot_bus_conditions_set. repeat first [mmc_step|apply wp_word_value; [intros ?|]]; mmc_leaf.
Qed.

(** ** Partitioning *)

Lemma align_zero e :
  regs_ok e -> u32 (u32 (512 * byte e 221) * byte e 224) = 0 -> group_zero e.
Proof.
  intros [_ He] H. pose proof (byte_range e 221 He) as H1. pose proof (byte_range e 224 He) as H2.
  unfold group_zero. rewrite (u32_id (512 * _)) in H by lia. rewrite u32_id in H by nia. nia.
Qed.

Lemma nz_true x : nz x = true -> x <> 0.
Proof. unfold nz. by destruct (Z.eqb_spec x 0). Qed.
Lemma nz_false x : nz x = false -> x = 0.
Proof. unfold nz. by destruct (Z.eqb_spec x 0). Qed.

Lemma dry_run_false a : negb (streq "-y" a) = false -> a = "-y".
Proof. intros H%negb_false_iff. by apply streq_true in H. Qed.

(** What holds before the last step of a partition command: every ioctl
    succeeded, and the device was not partitioned. *)
Record open_spec (s : obs) : Prop := {
  os_fail : fail_last (ios s);
  os_ok : failed (ios s) = false;
  os_completed : switches EXT_CSD_PARTITION_SETTING_COMPLETED (ios s) = false;
  os_some : ios s <> [];
  os_first : byte (first_regs (ios s)) EXT_CSD_PARTITION_SETTING_COMPLETED = 0 }.

Lemma fail_last_app l x : failed l = false -> fail_last (l ++ [x]).
Proof.
  unfold failed. induction l as [|y l IH]; [done|]. cbn [existsb app]. intros [H1 H2]%orb_false_iff.
  apply nz_false in H1. cbn [fail_last]. destruct (l ++ [x]) as [|z l'] eqn:Hl; [by destruct l|].
  split; [done|]. by apply IH.
Qed.

Lemma failed_app l x : failed (l ++ [x]) = failed l || nz (i_ret x.2).
Proof. unfold failed. rewrite existsb_app. simpl. by rewrite orb_false_r. Qed.

Lemma switches_app i l x : switches i (l ++ [x]) = switches i l || is_switch i x.
Proof. unfold switches. rewrite existsb_app. simpl. by rewrite orb_false_r. Qed.

Lemma first_regs_app l x : l <> [] -> first_regs (l ++ [x]) = first_regs l.
Proof. by destruct l. Qed.

(** Another successful ioctl that is not the last step. *)
Lemma open_add c r s :
  open_spec s -> i_ret r = 0 -> is_switch EXT_CSD_PARTITION_SETTING_COMPLETED (c, r) = false ->
  open_spec (add_io c r s).
Proof.
  intros [H1 H2 H3 H4 H5] Hr Hs. unfold add_io. split; cbn [ios].
  - by apply fail_last_app.
  - rewrite failed_app, H2. cbn [snd]. by rewrite Hr.
  - by rewrite switches_app, H3, Hs.
  - by destruct (ios s).
  - by rewrite first_regs_app.
Qed.

(** A failed one ends the command. *)
Lemma open_fail f argv c r s :
  open_spec s -> i_ret r = -1 -> is_switch EXT_CSD_PARTITION_SETTING_COMPLETED (c, r) = false ->
  command_spec f argv (Exited 1) (add_io c r s).
Proof.
  intros [H1 H2 H3 H4 H5] Hr Hs. unfold add_io. split; cbn [ios].
  - by apply fail_last_app.
  - by rewrite switches_app, H3, Hs, andb_false_r.
  - by rewrite switches_app, H3, Hs.
  - by rewrite switches_app, H3, Hs.
  - done.
  - done.
Qed.

(** Ending before the last step. *)
Lemma open_end f argv o s :
  open_spec s -> (o = Undefined -> ub_cause f argv (ios s)) -> o <> NoFuel -> command_spec f argv o s.
Proof.
  intros [H1 H2 H3 H4 H5] Hu Hf. split; [done|by rewrite H2|by rewrite H3|by rewrite H3|done|done].
Qed.

Section Partition.
Variables (f : CommandFunction) (argv : list string).

(** The next states a successful ioctl leads to. *)
Definition goes_on (s s' : obs) : Prop := open_spec s' /\ first_regs (ios s') = first_regs (ios s).

Lemma goes_on_add c r s :
  open_spec s -> i_ret r = 0 -> is_switch EXT_CSD_PARTITION_SETTING_COMPLETED (c, r) = false ->
  goes_on s (add_io c r s).
Proof.
  intros Ho Hr Hs. split; [by apply open_add|]. apply first_regs_app. apply Ho.
Qed.

Lemma wp_write_or_die_open fd index value device (Q : result unit -> obs -> Prop) s :
  open_spec s -> u8 index <> 155 ->
  (forall s', goes_on s s' -> Q (Returned tt) s') ->
  (forall s', command_spec f argv (Exited 1) s' -> Q (Exited 1) s') ->
  wpm (write_or_die fd index value device) Q s.
Proof.
  intros Ho Hi H1 H2.
  assert (Hs : forall r, is_switch EXT_CSD_PARTITION_SETTING_COMPLETED (switch_cmd index value, r) = false).
  { intros r. rewrite is_switch_switch. by apply Z.eqb_neq. }
  apply wp_write_or_die; intros r Hr; [apply H1, goes_on_add|apply H2, open_fail]; auto.
Qed.

Lemma wp_write_value_open {A} fd index value fmt args (k : unit -> mmc A) (Q : result A -> obs -> Prop) s :
  open_spec s -> u8 index <> 155 ->
  (forall s', goes_on s s' -> wpm (k tt) Q s') ->
  (forall s', command_spec f argv (Exited 1) s' -> Q (Exited 1) s') ->
  wpm (write_extcsd_value fd index value ≫= fun ret => or_die ret fmt args ≫= k) Q s.
Proof.
  intros Ho Hi H1 H2.
  assert (Hs : forall r, is_switch EXT_CSD_PARTITION_SETTING_COMPLETED (switch_cmd index value, r) = false).
  { intros r. rewrite is_switch_switch. by apply Z.eqb_neq. }
  apply wp_bind, wp_write_value. intros r [Hr|Hr]; cbn [then_]; apply wp_bind, wp_or_die; intros H; try congruence.
  - by apply H1, goes_on_add.
  - by apply H2, open_fail.
Qed.

Lemma wp_erase_group_def fd device (Q : result unit -> obs -> Prop) s :
  open_spec s ->
  (forall s', goes_on s s' -> Q (Returned tt) s') ->
  (forall s', command_spec f argv (Exited 1) s' -> Q (Exited 1) s') ->
  wpm (erase_group_def fd device) Q s.
Proof.
  intros Ho H1 H2. apply wp_bind, wp_write_value. intros r [Hr|Hr]; cbn [then_]; apply wp_or_die; intros H; try congruence.
  - by apply H1, goes_on_add.
  - by apply H2, open_fail.
Qed.

Lemma wp_check_limit_or_die device fd (Q : result unit -> obs -> Prop) s :
  open_spec s ->
  (forall s', goes_on s s' -> Q (Returned tt) s') ->
  (forall s', command_spec f argv (Exited 1) s' -> Q (Exited 1) s') ->
  wpm (check_limit_or_die device fd) Q s.
Proof.
  intros Ho H1 H2. apply wp_bind, wp_check_limit; [intros r Hr He|intros r Hr]; cbn [then_].
  - apply wp_when; intros Hb; [|by apply H1, goes_on_add].
    apply wp_exit, H2. apply open_end; [by apply open_add|done|done].
  - by apply H2, open_fail.
Qed.

(** After the one-time write, alone or with the status query. *)
Lemma complete_write r o s :
  open_spec s -> partition_cmd f = true -> argv !! 1%nat = Some "-y" -> o = Exited 1 \/ o = Returned 0 ->
  (i_ret r = 0 \/ o = Returned 0) ->
  command_spec f argv o (add_io (switch_cmd EXT_CSD_PARTITION_SETTING_COMPLETED 1) r s).
Proof.
  intros [O1 O2 O3 O4 O5] Hp Hy Ho Hr. unfold add_io.
  assert (Hw : is_switch EXT_CSD_PARTITION_SETTING_COMPLETED (switch_cmd EXT_CSD_PARTITION_SETTING_COMPLETED 1, r) = true)
    by (by rewrite is_switch_switch).
  split; cbn [ios]; rewrite ?failed_app, ?switches_app, ?O2, ?O3, ?Hw, ?Hp; cbn [orb andb snd].
  - by apply fail_last_app.
  - intros H%nz_true. destruct Hr as [Hr|Hr]; [congruence|done].
  - intros _ _. exists (ios s), r. split_and!; [done|done|by left].
  - intros _. right. split_and!; [done|done|]. by rewrite first_regs_app.
  - by destruct Ho as [->| ->].
  - by destruct Ho as [->| ->].
Qed.

Lemma complete_status r r2 o s :
  open_spec s -> partition_cmd f = true -> argv !! 1%nat = Some "-y" -> o = Exited 1 \/ o = Returned 0 ->
  i_ret r = 0 -> (i_ret r2 = 0 \/ o = Returned 0) ->
  command_spec f argv o (add_io status_cmd r2 (add_io (switch_cmd EXT_CSD_PARTITION_SETTING_COMPLETED 1) r s)).
Proof.
  intros [O1 O2 O3 O4 O5] Hp Hy Ho Hr Hr2. unfold add_io.
  assert (Hw : is_switch EXT_CSD_PARTITION_SETTING_COMPLETED (switch_cmd EXT_CSD_PARTITION_SETTING_COMPLETED 1, r) = true)
    by (by rewrite is_switch_switch).
  assert (Hf : failed (ios s ++ [(switch_cmd EXT_CSD_PARTITION_SETTING_COMPLETED 1, r)]) = false)
    by (rewrite failed_app, O2; cbn [snd]; by rewrite Hr).
  split; cbn [ios]; rewrite ?failed_app, ?switches_app, ?O2, ?O3, ?Hw, ?Hp, ?Hr; cbn [orb andb snd].
  - by apply fail_last_app.
  - rewrite Hr. change (nz 0) with false. cbn [orb]. intros H%nz_true. destruct Hr2 as [Hr2|Hr2]; [congruence|done].
  - intros _ _. exists (ios s), r. split_and!; [done|done|right]. exists r2. by rewrite <- app_assoc.
  - intros _. right. split_and!; [done|done|]. by rewrite !first_regs_app by (done || by destruct (ios s)).
  - by destruct Ho as [->| ->].
  - by destruct Ho as [->| ->].
Qed.

(** The last step of the three partition commands. *)
Lemma wp_complete dry_run device fd s :
  open_spec s -> partition_cmd f = true -> (dry_run = false -> argv !! 1%nat = Some "-y") ->
  wpm (complete_or_die dry_run device fd;; mret 0) (command_spec f argv) s.
Proof.
  intros Ho Hp Hy. unfold complete_or_die, set_partitioning_setting_completed.
  do 2 apply wp_bind. destruct dry_run.
  { repeat mmc_step; [discriminate|]. by apply open_end. }
  specialize (Hy eq_refl). repeat mmc_step;
    repeat match goal with H : _ \/ _ |- _ => destruct H as [H|H] end;
    repeat match goal with H : nz (i_ret _) = _ |- _ => first [apply nz_true in H; congruence|apply nz_false in H; try congruence] end;
    try discriminate;
    first [apply complete_status|apply complete_write]; auto.
Qed.

End Partition.

Lemma wp_check_not_completed e (Q : result unit -> obs -> Prop) s :
  regs_ok e -> (byte e EXT_CSD_PARTITION_SETTING_COMPLETED = 0 -> Q (Returned tt) s) -> Q (Exited 1) s ->
  wpm (check_not_completed e) Q s.
Proof.
  intros [Hl _] H1 H2. unfold check_not_completed. apply wp_bind, wp_at.
  { rewrite Hl. unfold EXT_CSD_PARTITION_SETTING_COMPLETED. lia. }
  cbn [then_]. apply wp_when; intros H; [by repeat mmc_step|]. by apply H1, nz_false.
Qed.

Lemma wp_group_align e (Q : result Z -> obs -> Prop) s :
  regs_ok e -> Q (Returned (u32 (u32 (512 * byte e 221) * byte e 224))) s -> wpm (group_align e) Q s.
Proof.
  intros [Hl _] HQ. unfold group_align, get_hc_wp_grp_size, get_hc_erase_grp_size. by repeat mmc_step.
Qed.

(** The state after reading the registers of an unpartitioned device. *)
Lemma open_read r :
  i_ret r = 0 -> byte (i_data r) EXT_CSD_PARTITION_SETTING_COMPLETED = 0 -> open_spec (add_io read_cmd r no_obs).
Proof. intros Hr Hp. split; cbn; auto. by rewrite Hr. Qed.

Lemma read_end f argv r : i_ret r = 0 -> command_spec f argv (Exited 1) (add_io read_cmd r no_obs).
Proof. intros Hr. split; cbn; rewrite ?Hr, ?andb_false_r; done. Qed.

Lemma read_fail f argv r : i_ret r = -1 -> command_spec f argv (Exited 1) (add_io read_cmd r no_obs).
Proof. intros Hr. split; cbn; rewrite ?Hr, ?andb_false_r; done. Qed.

Lemma early_end f argv : command_spec f argv (Exited 1) no_obs.
Proof. split; cbn; auto; done. Qed.

Lemma dry_run_arg (argv : list string) a :
  argv !! 1%nat = Some a -> negb (streq "-y" a) = false -> argv !! 1%nat = Some "-y".
Proof. intros Ha Hy%dry_run_false. by subst. Qed.

Lemma partition_range p : (p <? 0) || (4 <? p) = false -> 0 <= p <= 4.
Proof. intros [H1%Z.ltb_ge H2%Z.ltb_ge]%orb_false_iff. lia. Qed.

(** The size registers of a partition, number 0 included, and its extended
    attribute are not PARTITION_SETTING_COMPLETED. *)
Lemma gp_address_ne c p :
  (p <? 0) || (4 <? p) = false -> 143 <= c <= 145 -> u8 (u8 (c + (p - 1) * 3)) <> 155.
Proof. intros Hp%partition_range Hc. rewrite !u8_id by (try rewrite u8_id; lia). lia. Qed.

Lemma ext_address_ne p :
  (p <? 0) || (4 <? p) = false -> u8 (u8 (EXT_CSD_EXT_PARTITIONS_ATTRIBUTE_0 + Z.quot (p - 1) 2)) <> 155.
Proof.
  intros Hp%partition_range. unfold EXT_CSD_EXT_PARTITIONS_ATTRIBUTE_0.
  assert (Hq : 0 <= Z.quot (p - 1) 2 <= 1) by (Z.to_euclidean_division_equations; lia).
  rewrite !u8_id by (try rewrite u8_id; lia). lia.
Qed.

(** The steps of the partition commands, keeping track of what is open. *)
Ltac part_step :=
  match goal with
  | |- wp _ (write_or_die _ _ _ _) _ _ =>
      eapply wp_write_or_die_open; [eassumption| |intros ? [? ?]|intros ? ?]
  | |- wp _ (erase_group_def _ _) _ _ =>
      eapply wp_erase_group_def; [eassumption|intros ? [? ?]|intros ? ?]
  | |- wp _ (write_extcsd_value ?fd ?i ?v ≫= (fun ret => or_die ret ?fmt ?args ≫= ?k)) _ _ =>
      eapply (wp_write_value_open _ _ fd i v fmt args k);
      [eassumption| |intros ? [? ?]|intros ? ?]
  | |- wp _ (check_limit_or_die _ _) _ _ =>
      eapply wp_check_limit_or_die; [eassumption|intros ? [? ?]|intros ? ?]
  | |- wp _ (check_not_completed _) _ _ =>
      apply wp_check_not_completed; [done|intros ?; match goal with Hr : i_ret _ = 0, Hp : byte _ _ = 0 |- _ => pose proof (open_read _ Hr Hp) end|]
  | |- wp _ (group_align _) _ _ => apply wp_group_align; [done|]
  | |- wp _ (is_blockaddresed _) _ _ => apply wp_blockaddressed; [done|]
  | |- wp _ (complete_or_die _ _ _ ≫= _) _ _ =>
      apply wp_complete; [eassumption|done|by eapply dry_run_arg]
  | H : command_spec _ _ (Exited 1) ?s |- command_spec _ _ (Exited 1) ?s => exact H
  | |- command_spec _ _ (Exited 1) no_obs => apply early_end
  | H : i_ret ?r = -1 |- command_spec _ _ (Exited 1) (add_io read_cmd ?r no_obs) => by apply read_fail
  | H : i_ret ?r = 0 |- command_spec _ _ (Exited 1) (add_io read_cmd ?r no_obs) => by apply read_end
  | |- wp _ (read_or_die _ _) _ _ => apply wp_read_or_die; intros ? ?; [intros ?|]
  | |- wp _ (at_ _ (u8 ?x)) _ _ =>
      apply wp_at; [match goal with H : regs_ok _ |- _ => rewrite (proj1 H) end; pose proof (u8_range x); lia|]
  | |- wp _ (at_ _ _) _ _ =>
      apply wp_at; [match goal with H : regs_ok _ |- _ => rewrite (proj1 H) end; unfold_csd; lia|]
  | |- u8 (u8 (_ + (_ - 1) * 3)) <> 155 => by apply gp_address_ne
  | |- u8 (u8 (_ + Z.quot _ 2)) <> 155 => by apply ext_address_ne
  | |- u8 _ <> 155 => by vm_compute
  | |- _ => mmc_step
  end.

(** [open_end] for a path that is undefined. *)
Lemma undefined_end f argv s :
  open_spec s -> ub_cause f argv (ios s) -> command_spec f argv Undefined s.
Proof. intros Ho Hu. by apply open_end. Qed.

Lemma argz_at (argv : list string) i a : argv !! i = Some a -> argz argv i = strtol_val a 10.
Proof. intros H. unfold argz. by rewrite H. Qed.

Lemma do_write_reliability_set_spec argv :
  wpm (do_write_reliability_set argv) (command_spec Do_write_reliability_set argv) no_obs.
Proof.
  unfold do_write_reliability_set. repeat part_step.
  apply undefined_end; [done|]. cbn [ub_cause]. by erewrite argz_at.
Qed.

Lemma do_enh_area_set_spec argv :
  wpm (do_enh_area_set argv) (command_spec Do_enh_area_set argv) no_obs.
Proof.
  unfold do_enh_area_set, size_mult, enh_start. repeat part_step.
  all: apply undefined_end; [done|]; by apply align_zero.
Qed.

Lemma shift_zero p :
  (p <? 0) || (4 <? p) = false -> ~ 0 <= 4 * Z.rem (p - 1) 2 <= 31 -> p = 0.
Proof.
  intros Hp%partition_range Hn. destruct (decide (p = 0)) as [|Hz]; [done|]. exfalso. apply Hn.
  pose proof (Z.rem_bound_pos (p - 1) 2). lia.
Qed.

Lemma rem2_range p : 0 <= p -> 0 <= Z.rem p 2 < 2.
Proof. intros Hp. apply Z.rem_bound_pos; lia. Qed.

Lemma do_create_gp_partition_spec argv :
  wpm (do_create_gp_partition argv) (command_spec Do_create_gp_partition argv) no_obs.
Proof.
  unfold do_create_gp_partition, size_mult, ext_partition_attr. repeat part_step.
  - apply undefined_end; [done|]. right. do 2 (erewrite argz_at by done).
    split; [by apply shift_zero|by apply nz_true].
  - exfalso. pose proof (rem2_range (strtol_val a1 10)) as Hr. apply partition_range in H6.
    match goal with Hn : ~ _ |- _ => apply Hn end. lia.
  - exfalso. apply partition_range in H6. lia.
  - apply undefined_end; [done|]. left. by apply align_zero.
Qed.
