(* ===== verification/MmcEnhArea.v ===== *)
(** * The enhanced user area, on a card

    [do_enh_area_set] refines one update of the register file,
    [enh_area_done], followed by the limit check and, on request, by
    PARTITION_SETTING_COMPLETED. *)

From Stdlib Require Import Ascii String.
From S2P Require Import Prelude Bytes Prog CStr MmcSys MmcCmds MmcPartition MmcExtcsd MmcRpmb MmcMain MmcSpec.
From S2P Require Import MmcLimit MmcCard MmcSafety.

Open Scope Z_scope.

(** How the command ends on a card with the registers [e]. *)
Definition enh_area_outcome (e : list Z) (yes : bool) (start_kib length_kib : Z) (o : result Z) (k : card) : Prop :=
  switch_error k = false /\
  exists e', enh_area_done e start_kib length_kib e' /\
    if limit_value e' =? 0 then
      if yes then o = Exited 1 /\ regs k = set_reg e' EXT_CSD_PARTITION_SETTING_COMPLETED 1
      else o = Returned 0 /\ regs k = e'
    else o = Exited 1 /\ regs k = e'.

Section Enh.
Variable settable : list Z -> Z -> bool.
Variable e0 : list Z.
Hypothesis Hregs : regs_ok e0.
Hypothesis Hset : forall e i, i ∈ enh_area_indices -> settable e i = true.
Hypothesis Hsetc : forall e, settable e EXT_CSD_PARTITION_SETTING_COMPLETED = true.
Variables (y : bool) (start_kib length_kib : Z).

Let k0 : card := mkCard e0 false.

Definition enh_area_post (o : result Z) (s : obs) : Prop :=
  (ios s = [] /\ o = Exited 1) \/
  (ios s <> [] /\ forall k, card_steps settable k0 (ios s) k -> enh_area_outcome e0 y start_kib length_kib o k).

Lemma enh_area_vacuous : Vacuous settable k0 enh_area_post.
Proof.
  intros s o Hs. right. split; [|intros k Hk; by destruct (Hs k)].
  intros Hn. apply (Hs k0). by rewrite Hn.
Qed.

(** The last two steps, from the registers the command wrote. *)
Lemma wp_finish_card e device fd s :
  enh_area_done e0 start_kib length_kib e -> Tracks settable k0 s e -> ios s <> [] ->
  wpm (check_limit_or_die device fd;; printf "Done setting ENH_USR area on %s\n" [PS device];;
       complete_or_die (negb y) device fd;; mret 0) enh_area_post s.
Proof.
  intros He Ht Hn. unfold check_limit_or_die.
  do 2 apply wp_bind. eapply wp_limit_card; [apply vacuous_then, vacuous_then, enh_area_vacuous|done|].
  intros s1 Ht1 Hn1 _. cbn [then_].
  assert (Hend : forall o, (if limit_value e =? 0 then y = false /\ o = Returned 0 else o = Exited 1) -> enh_area_post o s1).
  { intros o Ho. right. split; [done|]. intros k Hk. rewrite (Ht1 _ Hk). split; [done|]. exists e. split; [done|].
    cbn [regs]. destruct (limit_value e =? 0); [|done]. by destruct Ho as [-> ->]. }
  apply wp_when; intros Hl.
  { apply nz_true in Hl. repeat mmc_step. apply Hend. by rewrite (proj2 (Z.eqb_neq _ _)). }
  apply nz_false in Hl. rewrite Hl in Hend. change (0 =? 0) with true in Hend. cbn iota in Hend.
  apply wp_bind, wp_printf. unfold complete_or_die, set_partitioning_setting_completed.
  cbn [then_]. do 2 apply wp_bind. destruct y eqn:Ey; cbn [negb].
  2: { repeat mmc_step; [discriminate|]. by apply Hend. }
  do 2 (apply wp_bind; try apply wp_eprintf; cbn [then_]).
  eapply wp_value_card; [do 3 apply vacuous_then; apply enh_area_vacuous|done|apply Hsetc|].
  intros s2 Ht2 Hn2. cbn [then_]. apply wp_if; [discriminate|intros _].
  apply wp_bind. eapply wp_status_card; [do 3 apply vacuous_then; apply enh_area_vacuous|done|].
  intros s3 w Ht3 Hn3 Hw. cbn [then_]. cbv beta iota. rewrite Hw.
  apply wp_if; [discriminate|intros _]. repeat mmc_step; [|discriminate].
  right. split; [done|]. intros k Hk. rewrite (Ht3 _ Hk). split; [done|]. exists e. split; [done|].
  rewrite Hl. change (0 =? 0) with true. rewrite Ey. by split.
Qed.

Hypothesis Hgroups : byte e0 221 <> 0 /\ byte e0 224 <> 0.

Lemma group_of_nonzero : group_of e0 <> 0.
Proof.
  intros H. destruct Hgroups as [H1 H2].
  destruct (align_zero e0 Hregs H); contradiction.
Qed.

Lemma wp_erase_card fd device (Q : result unit -> obs -> Prop) s e :
  Vacuous settable k0 Q -> Tracks settable k0 s e ->
  (forall s', Tracks settable k0 s' (set_reg e 175 (u8 1)) -> ios s' <> [] -> Q (Returned tt) s') ->
  wpm (erase_group_def fd device) Q s.
Proof.
  intros HV Ht HQ. apply wp_bind. eapply wp_value_card; [by apply vacuous_then|done|by apply Hset; repeat constructor|].
  intros s' Ht' Hn. cbn [then_]. apply wp_or_die; [intros _|done]. by apply HQ.
Qed.

Lemma wp_write_card_bind {A} fd i v device (f : unit -> mmc A) (Q : result A -> obs -> Prop) s e :
  Vacuous settable k0 Q -> Tracks settable k0 s e -> u8 i ∈ enh_area_indices ->
  (forall s', Tracks settable k0 s' (set_reg e (u8 i) (u8 v)) -> ios s' <> [] -> wpm (f tt) Q s') ->
  wpm (write_or_die fd i v device ≫= f) Q s.
Proof.
  intros HV Ht Hi HQ. apply wp_bind. eapply wp_write_card; [by apply vacuous_then|done|by apply Hset|].
  intros s' Ht' Hn. cbn [then_]. by apply HQ.
Qed.

End Enh.

Lemma wp_not_completed e (Q : result unit -> obs -> Prop) s :
  regs_ok e -> byte e EXT_CSD_PARTITION_SETTING_COMPLETED = 0 -> Q (Returned tt) s -> wpm (check_not_completed e) Q s.
Proof.
  intros [Hl _] H0 HQ. unfold check_not_completed. apply wp_bind, wp_at.
  { rewrite Hl. unfold EXT_CSD_PARTITION_SETTING_COMPLETED. lia. }
  cbn [then_]. rewrite H0. by apply wp_when.
Qed.

Section Sizes.
Variable e : list Z.
Hypothesis Hg : group_of e <> 0.

Lemma wp_size_mult length_kib (Q : result Z -> obs -> Prop) s :
  Q (Returned (mult_of e length_kib)) s -> wpm (size_mult length_kib (group_of e)) Q s.
Proof. intros HQ. unfold size_mult. by apply wp_udiv. Qed.

Lemma wp_enh_start start_kib (Q : result Z -> obs -> Prop) s :
  regs_ok e -> Q (Returned (start_of e start_kib)) s ->
  wpm (enh_start start_kib (blockaddressed e) (group_of e)) Q s.
Proof.
  intros He HQ. unfold enh_start. apply wp_bind, wp_udiv; [intros _|done]. cbn [then_]. apply wp_mret.
  fold (start_of e start_kib). by rewrite u32_id by (by apply start_of_range).
Qed.
End Sizes.

Ltac vacuous := repeat apply vacuous_then; eassumption.

(** One step of the command on a card. *)
Ltac card_step Hset :=
  lazymatch goal with
  | |- wp _ (read_or_die _ _) _ _ => eapply wp_read_card; [vacuous|eassumption|intros ? ? ? ?]
  | |- wp _ (write_or_die _ _ _ _ ≫= _) _ _ =>
      eapply wp_write_card_bind; [exact Hset|vacuous|eassumption|apply list_elem_of_In; vm_compute; tauto|intros ? ? ?]
  | |- wp _ (erase_group_def _ _) _ _ => eapply wp_erase_card; [exact Hset|vacuous|eassumption|intros ? ? ?]
  | |- wp _ (check_not_completed _) _ _ => apply wp_not_completed; [assumption..|]
  | |- wp _ (group_align _) _ _ => apply wp_group_align; [assumption|]; match goal with |- context [u32 (u32 (512 * byte ?e 221) * byte ?e 224)] => fold (wp_grp e); fold (erase_grp e); fold (group_of e) end
  | |- wp _ (is_blockaddresed _) _ _ => apply wp_blockaddressed; [assumption|]
  | |- wp _ (at_ _ _) _ _ =>
      apply wp_at; [match goal with H : regs_ok _ |- _ => rewrite (proj1 H) end; unfold_csd; lia|]
  | |- wp _ (when_ (negb (bits _ _)) _) _ _ => apply wp_when; [intros Hbit; match goal with H : bits _ _ = true |- _ => rewrite H in Hbit; discriminate end|intros _]
  | |- wp _ (size_mult _ _) _ _ => apply wp_size_mult; [assumption|]
  | |- wp _ (enh_start _ _ _) _ _ => apply wp_enh_start; [assumption..|]
  | |- wp _ (write_extcsd_value _ _ _) _ _ =>
      eapply wp_value_card; [vacuous|eassumption|apply Hset, list_elem_of_In; vm_compute; tauto|intros ? ? ?]
  | |- wp _ (or_die 0 _ _) _ _ => apply wp_or_die; [intros _|done]
  | |- wp _ (check_limit_or_die _ _ ≫= _) _ _ => fail
  | |- _ => mmc_step
  end.

(** Whether the first argument is [-y]. *)
Definition yes (argv : list string) : bool :=
  match argv !! 1%nat with Some a => streq "-y" a | None => false end.

Lemma wp_enh_area_card settable e0 argv :
  regs_ok e0 -> (forall e i, i ∈ enh_area_indices -> settable e i = true) ->
  (forall e, settable e EXT_CSD_PARTITION_SETTING_COMPLETED = true) ->
  byte e0 221 <> 0 /\ byte e0 224 <> 0 ->
  bits (byte e0 EXT_CSD_PARTITIONING_SUPPORT) EXT_CSD_ENH_ATTRIBUTE_EN = true ->
  byte e0 EXT_CSD_PARTITION_SETTING_COMPLETED = 0 ->
  length argv = 5%nat ->
  wpm (do_enh_area_set argv)
    (enh_area_post settable e0 (yes argv) (u32 (argz argv 2)) (u32 (argz argv 3))) no_obs.
Proof.
  intros Hregs Hset Hsetc Hg Hsup Hpsc Hlen. unfold do_enh_area_set.
  pose proof (enh_area_vacuous settable e0 (yes argv) (u32 (argz argv 2)) (u32 (argz argv 3))) as HV.
  pose proof (group_of_nonzero e0 Hregs Hg) as Hgz.
  assert (Ht : Tracks settable (mkCard e0 false) no_obs e0) by by intros k ->.
  repeat card_step Hset.
  all: try (by left).
  all: rewrite !argz_at with (a := _) by eassumption.
  replace (streq "-y" a) with (yes argv) by (unfold yes; by rewrite H0).
  apply wp_finish_card with (e := enh_area_regs e0 (start_of e0 (u32 (strtol_val a0 10))) (mult_of e0 (u32 (strtol_val a1 10))));
    [done|by apply enh_area_regs_done|assumption..].
Qed.
