(* ===== verification/MmcRpmbSpec.v ===== *)
(** * The RPMB protocol

    [rpmb_script] is the sequence of commands the protocol prescribes for a
    request frame; [do_rpmb_op] issues it up to the first failure, and
    returns the frames of the last answer when there was none. *)

From Stdlib Require Import Ascii String.
From S2P Require Import Prelude Bytes Prog CStr MmcSys MmcCmds MmcPartition MmcExtcsd MmcRpmb MmcMain.
From S2P Require Import MmcSpec MmcFrames MmcIo MmcSafety.

Open Scope Z_scope.

Definition frames_cmd (wflag op blks : Z) (frames : list rpmb_frame) : mmc_ioc_cmd :=
  mkIoc wflag op 0x0 (Z.lor (Z.lor MMC_RSP_SPI_R1 MMC_RSP_R1) MMC_CMD_ADTC) 512 blks (Some (frames_bytes frames)).

(** The frame that asks for the result of the request before it. *)
Definition result_request : rpmb_frame :=
  set_req_resp (htobe16 (rpmb_op_code MMC_RPMB_READ_RESP)) zero_frame.

Definition rpmb_script (fin : rpmb_frame) (fout : list rpmb_frame) (n : Z) : list mmc_ioc_cmd :=
  let t := be16toh (req_resp fin) in
  if (t =? 3) || (t =? 1) then
    if n =? 1 then
      [frames_cmd RELIABLE MMC_WRITE_MULTIPLE_BLOCK 1 [fin];
       frames_cmd 1 MMC_WRITE_MULTIPLE_BLOCK 1 (result_request :: tail fout);
       frames_cmd 0 MMC_READ_MULTIPLE_BLOCK 1 (result_request :: tail fout)]
    else []
  else if (t =? 4) || ((t =? 2) && (n =? 1)) then
    [frames_cmd 1 MMC_WRITE_MULTIPLE_BLOCK 1 [fin]; frames_cmd 0 MMC_READ_MULTIPLE_BLOCK n fout]
  else [].

(** What an execution of a script comes to. *)
Record rpmb_run (cs : list mmc_ioc_cmd) (n : nat) (rs : list ioctl_res) (ret : Z) (fs : list rpmb_frame) : Prop := {
  rr_len : (length rs <= length cs)%nat;
  rr_fail : fail_last (zip cs rs);
  rr_ok : ret = 0 -> cs <> [] /\ length rs = length cs /\ failed (zip cs rs) = false /\
    exists r, last rs = Some r /\ length (i_data r) = (512 * n)%nat /\ Forall byte_ok (i_data r) /\
      fs = frames_of n (i_data r);
  rr_bad : ret <> 0 -> cs = [] \/ failed (zip cs rs) = true;
  rr_frames : length fs = n;
  rr_frame_len : Forall frame_len fs }.

Lemma result_request_len : frame_len result_request.
Proof. by vm_compute. Qed.

Lemma wp_ioctl_frames fd wflag op blks frames (Q : result (ioctl_res * list rpmb_frame) -> obs -> Prop) s :
  Forall frame_len frames -> wflag <> 0 \/ blks = Z.of_nat (length frames) ->
  (forall r fs, i_ret r = 0 \/ i_ret r = -1 -> (i_ret r = -1 -> 0 < i_errno r) -> length fs = length frames -> Forall frame_len fs ->
     (wflag = 0 -> i_ret r = 0 -> (length (i_data r) = (512 * length frames)%nat /\ Forall byte_ok (i_data r)) /\
        fs = frames_of (length frames) (i_data r)) ->
     Q (Returned (r, fs)) (add_io (frames_cmd wflag op blks frames) r s)) ->
  wpm (ioctl_frames fd wflag op blks frames) Q s.
Proof.
  intros Hf Hw HQ. unfold ioctl_frames. apply wp_bind, wp_ioctl. intros r Hr. cbn [then_].
  fold (frames_cmd wflag op blks frames) in *. set (c := frames_cmd wflag op blks frames) in *.
  assert (Hl : (length (i_data r) <= length (frames_bytes frames))%nat).
  { rewrite length_frames_bytes by done. destruct Hw as [Hw|Hw].
    - rewrite (io_read _ _ Hr); [simpl; lia|]. unfold is_read. cbn [write_flag c frames_cmd].
      by rewrite (proj2 (Z.eqb_neq _ _) Hw).
    - pose proof (io_size _ _ Hr) as Hs. unfold ioctl_size in Hs. cbn [blksz blocks c frames_cmd] in Hs. lia. }
  unfold copy_out. rewrite (proj2 (Nat.leb_le _ _) Hl), prog_bind_mret. apply wp_mret. apply HQ.
  - apply (io_ret _ _ Hr).
  - intros H. apply (io_errno _ _ Hr H).
  - apply length_frames_of.
  - apply frames_of_len. rewrite length_app, length_drop, length_frames_bytes in * by done. lia.
  - intros -> H0. destruct Hw as [|Hw]; [done|].
    pose proof (io_all _ _ Hr) as Ha. specialize (Ha eq_refl H0). unfold ioctl_size in Ha. cbn [blksz blocks c frames_cmd] in Ha.
    assert (Hd : length (i_data r) = (512 * length frames)%nat) by lia. split; [split; [done|apply Hr]|].
    rewrite drop_ge, app_nil_r by (rewrite length_frames_bytes by done; lia). done.
Qed.

Lemma last_zip_app (l : list io) cs rs r :
  length rs = length cs -> last rs = Some r -> failed (zip cs rs) = false ->
  exists c, last (l ++ zip cs rs) = Some (c, r) /\ i_ret r = 0.
Proof.
  intros Hl Hr Hf. apply last_Some in Hr as [rs' ->]. rewrite length_app in Hl. simpl in Hl.
  destruct (last cs) as [c|] eqn:Hc; [|apply last_None in Hc; subst; simpl in Hl; lia].
  apply last_Some in Hc as [cs' ->]. rewrite length_app in Hl. simpl in Hl.
  rewrite zip_with_app in * by lia. change (zip [c] [r]) with [(c, r)] in *. rewrite app_assoc, last_snoc. exists c. split; [done|].
  rewrite failed_app in Hf. apply orb_false_iff in Hf as [_ Hf]. by apply nz_false in Hf.
Qed.

Definition add_ios (l : list io) (s : obs) : obs := mkObs (ios s ++ l) (outs s) (ins s).

Lemma add_ios_nil s : add_ios [] s = s.
Proof. destruct s. unfold add_ios. simpl. by rewrite app_nil_r. Qed.
Lemma add_ios_ios l l' s : add_ios l' (add_ios l s) = add_ios (l ++ l') s.
Proof. unfold add_ios. cbn [ios outs ins]. by rewrite <- app_assoc. Qed.
Lemma add_io_ios c r s : add_io c r s = add_ios [(c, r)] s.
Proof. done. Qed.

(** Scripts that ran to their end, or to a failure. *)

Lemma failed_ok cs rs : Forall (fun r => i_ret r = 0) rs -> failed (zip cs rs) = false.
Proof.
  intros Hrs. revert cs. unfold failed. induction Hrs as [|r rs Hr _ IH]; intros cs; [by destruct cs|].
  destruct cs as [|c cs]; [done|]. simpl. rewrite Hr. apply IH.
Qed.

Lemma zip_snoc cs (rs : list ioctl_res) (r : ioctl_res) :
  (length rs < length cs)%nat -> exists c : mmc_ioc_cmd, zip cs (rs ++ [r]) = zip (take (length rs) cs) rs ++ [(c, r)].
Proof.
  intros Hl. destruct (drop (length rs) cs) as [|c cs'] eqn:Hd.
  { pose proof (length_drop cs (length rs)) as Hd'. rewrite Hd in Hd'. simpl in Hd'. lia. }
  exists c. rewrite <- (take_drop (length rs) cs) at 1. rewrite zip_with_app by (rewrite length_take; lia).
  rewrite Hd. simpl. by destruct cs'.
Qed.

Lemma rpmb_run_fail cs n rs r fs :
  i_ret r = -1 -> (i_ret r = -1 -> 0 < i_errno r) -> (length rs < length cs)%nat ->
  Forall (fun r => i_ret r = 0) rs -> length fs = n -> Forall frame_len fs ->
  rpmb_run cs n (rs ++ [r]) (rpmb_err r) fs.
Proof.
  intros Hr He Hl Hrs H1 H2. specialize (He Hr). unfold rpmb_err.
  destruct (zip_snoc cs rs r Hl) as [c Hz]. pose proof (failed_ok (take (length rs) cs) rs Hrs) as Hf.
  split; [rewrite length_app; simpl; lia| |lia| |done|done].
  - rewrite Hz. by apply fail_last_app.
  - intros _. right. by rewrite Hz, failed_app, Hf, (Hr : i_ret (snd (c, r)) = -1).
Qed.

Lemma rpmb_run_ok cs n rs r fs :
  i_ret r = 0 -> length cs = S (length rs) -> Forall (fun r => i_ret r = 0) rs ->
  length (i_data r) = (512 * n)%nat /\ Forall byte_ok (i_data r) -> fs = frames_of n (i_data r) ->
  rpmb_run cs n (rs ++ [r]) (i_ret r) fs.
Proof.
  intros Hr Hl Hrs [Hd Hb] ->. destruct (zip_snoc cs rs r) as [c Hz]; [lia|].
  assert (Hf : failed (zip cs (rs ++ [r])) = false).
  { apply failed_ok, Forall_app. split; [done|by constructor]. }
  split; [rewrite length_app; simpl; lia| | |by rewrite Hr|apply length_frames_of|apply frames_of_len; lia].
  - rewrite Hz. apply fail_last_app, failed_ok, Hrs.
  - intros _. split_and!; [by destruct cs|rewrite length_app; simpl; lia|done|].
    exists r. by rewrite last_snoc.
Qed.

Lemma rpmb_run_invalid n fout :
  length fout = n -> Forall frame_len fout -> rpmb_run [] n [] (- EINVAL) fout.
Proof. intros H1 H2. split; cbn; auto; done. Qed.

Section Op.
Variables (fin : rpmb_frame) (fout : list rpmb_frame) (n : Z).
Hypotheses (Hfin : frame_len fin) (Hfout : Forall frame_len fout) (Hn : n = Z.of_nat (length fout)) (Hpos : 0 < n).

Ltac op_invalid HQ :=
  apply wp_mret; specialize (HQ []); simpl in HQ; rewrite add_ios_nil in HQ; apply HQ; by apply rpmb_run_invalid.

Ltac op_fail HQ rs :=
  apply wp_mret; rewrite !add_io_ios, ?add_ios_ios; apply (HQ rs); let rs' := eval cbn in (removelast rs) in apply (rpmb_run_fail _ _ rs');
    [done|done|simpl; lia|repeat constructor; done|try done|try done].

Lemma wp_do_rpmb_op fd (Q : result (Z * list rpmb_frame) -> obs -> Prop) s :
  (forall rs ret fs, rpmb_run (rpmb_script fin fout n) (length fout) rs ret fs ->
     Q (Returned (ret, fs)) (add_ios (zip (rpmb_script fin fout n) rs) s)) ->
  wpm (do_rpmb_op fd (Some fin) (Some fout) n) Q s.
Proof.
  intros HQ. unfold do_rpmb_op, rpmb_script in *. rewrite (proj2 (Z.eqb_neq n 0)) by lia.
  cbn [rpmb_op_code] in *. set (t := be16toh (req_resp fin)) in *. cbv zeta.
  assert (Hl1 : Forall frame_len [fin]) by by constructor.
  apply wp_if; intros Hb; rewrite Hb in HQ.
  - apply wp_if; intros Hb1; [apply negb_true_iff in Hb1|apply negb_false_iff in Hb1]; rewrite Hb1 in HQ.
    { op_invalid HQ. }
    apply Z.eqb_eq in Hb1. subst n. assert (Ht : length (result_request :: tail fout) = length fout) by (destruct fout; simpl in *; lia).
    assert (Hl2 : Forall frame_len (result_request :: tail fout)).
    { constructor; [apply result_request_len|]. by destruct Hfout. }
    change (set_req_resp (htobe16 0x05) zero_frame) with result_request.
    apply wp_bind, wp_ioctl_frames; [done|by left|]. intros r1 fs1 [H1|H1] He1 _ _ _; cbn [then_]; rewrite H1; [|op_fail HQ [r1]].
    apply wp_bind, wp_ioctl_frames; [done|by left|]. intros r2 fs2 [H2|H2] He2 _ _ _; cbn [then_]; rewrite H2; [|op_fail HQ [r1; r2]].
    apply wp_bind, wp_ioctl_frames; [done|right; lia|].
    intros r3 fs3 [H3|H3] He3 Hl3 Hf3 Hd3; cbn [then_]; [|rewrite H3; op_fail HQ [r1; r2; r3]; lia].
    destruct (Hd3 eq_refl H3) as [Hd Hfs]. rewrite Ht in Hd, Hfs. rewrite H3 at 1. apply wp_mret.
    rewrite !add_io_ios, !add_ios_ios.
    apply (HQ [r1; r2; r3]). apply (rpmb_run_ok _ _ [r1; r2]); [done|done|repeat constructor; done|done|done].
  - assert (Hread : wpm ('(r, _) ← ioctl_frames fd 1 MMC_WRITE_MULTIPLE_BLOCK 1 [fin];
        if i_ret r <? 0 then mret (rpmb_err r, fout) else
        '(r, fout) ← ioctl_frames fd 0 MMC_READ_MULTIPLE_BLOCK n fout;
        if i_ret r <? 0 then mret (rpmb_err r, fout) else mret (i_ret r, fout)) Q s \/
        (t =? 4) || ((t =? 2) && (n =? 1)) = false).
    { destruct ((t =? 4) || ((t =? 2) && (n =? 1))) eqn:Ht; [left|by right].
      apply wp_bind, wp_ioctl_frames; [done|by left|]. intros r1 fs1 [H1|H1] He1 _ _ _; cbn [then_]; rewrite H1; [|op_fail HQ [r1]].
      apply wp_bind, wp_ioctl_frames; [done|by right|].
      intros r2 fs2 [H2|H2] He2 Hl2 Hf2 Hd2; cbn [then_]; [|rewrite H2; op_fail HQ [r1; r2]].
      destruct (Hd2 eq_refl H2) as [Hd Hfs]. rewrite H2 at 1. apply wp_mret.
      rewrite !add_io_ios, !add_ios_ios.
      apply (HQ [r1; r2]). apply (rpmb_run_ok _ _ [r1]); [done|done|repeat constructor; done|done|done]. }
    clearbody t. destruct (Z.eqb_spec t 4), (Z.eqb_spec t 2), (n =? 1); cbn [orb andb negb] in *;
      first [by destruct Hread|op_invalid HQ|lia].
Qed.

End Op.

(** ** Rules for the commands *)

Lemma wp_open_rpmb argv (Q : result Z -> obs -> Prop) s :
  (1 < length argv)%nat -> (forall fd, 0 <= fd -> Q (Returned fd) s) -> Q (Exited 1) s ->
  wpm (open_rpmb argv) Q s.
Proof.
  intros Hl H1 H2. unfold open_rpmb. apply wp_bind, wp_argv_at; [done|]. intros path _. cbn [then_].
  intros fd Hfd. apply wp_bind. apply wp_when; cbn [then_].
  - intros _. by apply wp_bind, wp_perror.
  - intros Hf%Z.ltb_ge. by apply H1.
Qed.

Lemma wp_open_or_std path std m err (Q : result Z -> obs -> Prop) s :
  0 <= std -> (forall fd, 0 <= fd -> Q (Returned fd) s) -> Q (Exited 1) s ->
  wpm (open_or_std path std m err) Q s.
Proof.
  intros Hs H1 H2. unfold open_or_std. apply wp_if; intros _; [by apply wp_mret, H1|].
  intros fd Hfd. apply wp_bind. apply wp_when; cbn [then_].
  - intros _. by apply wp_bind, wp_perror.
  - intros Hf%Z.ltb_ge. by apply H1.
Qed.

Lemma wp_allocate n (Q : result bool -> obs -> Prop) s : (forall b, Q (Returned b) s) -> wpm (call (Allocate n)) Q s.
Proof. intros HQ b _. apply HQ. Qed.

Lemma wp_close_unless fd std (Q : result unit -> obs -> Prop) s : Q (Returned tt) s -> wpm (close_unless fd std) Q s.
Proof. intros HQ. apply wp_when; intros _; [by apply wp_close|done]. Qed.

Lemma wp_read_all fuel fd nbyte err msg (Q : result (list Z) -> obs -> Prop) s :
  (forall chunks, Z.of_nat (length (concat chunks)) = nbyte -> Forall byte_ok (concat chunks) ->
     Q (Returned (concat chunks)) (add_ins fd chunks s)) ->
  (forall chunks o, o = Exited 1 \/ o = NoFuel -> Q o (add_ins fd chunks s)) ->
  wpm (read_all fuel fd nbyte err msg) Q s.
Proof.
  intros H1 H2. unfold read_all. apply wp_bind, wp_do_io_read; [|intros; apply H2; auto].
  intros chunks ret Hb Hr. cbn [then_ app] in *.
  apply wp_if; intros Hc; [apply wp_bind, wp_perror, wp_exit, H2; auto|].
  apply wp_if; intros Hd; [apply wp_bind, wp_printf, wp_exit, H2; auto|].
  apply wp_mret, H1; [|done]. apply Z.ltb_ge in Hc. apply negb_false_iff, Z.eqb_eq in Hd. lia.
Qed.

Lemma wp_strtol16 a err (Q : result Z -> obs -> Prop) s :
  Q (Returned (u16 (strtol_val a 0))) s -> Q (Exited 1) s -> wpm (strtol16 a err) Q s.
Proof.
  unfold strtol16, strtol_val. destruct (strtol a 0) as [v errno]. intros H1 H2.
  apply wp_bind, wp_when; intros _; [by apply wp_bind, wp_perror|]. cbn [then_ fst] in *. by apply wp_mret.
Qed.

Definition no_switch (cs : list mmc_ioc_cmd) : Prop := Forall (fun c => opcode c <> MMC_SWITCH) cs.

Lemma rpmb_script_no_switch fin fout n : no_switch (rpmb_script fin fout n).
Proof. unfold rpmb_script. repeat case_match; repeat constructor; done. Qed.

Lemma switches_no_switch i cs rs : no_switch cs -> switches i (zip cs rs) = false.
Proof.
  intros Hc. revert rs. unfold switches. induction Hc as [|c cs Hc _ IH]; intros [|r rs]; try done.
  simpl. rewrite IH, orb_false_r. unfold is_switch. cbn [fst]. by rewrite (proj2 (Z.eqb_neq _ _) Hc).
Qed.

(** Nothing failed so far, and PARTITION_SETTING_COMPLETED was not written. *)
Record clean (s : obs) : Prop := {
  cl_fail : fail_last (ios s);
  cl_ok : failed (ios s) = false;
  cl_switch : switches EXT_CSD_PARTITION_SETTING_COMPLETED (ios s) = false }.

Lemma clean_end f argv (o : result Z) s : clean s -> rpmb_cmd f = true -> o <> Undefined -> command_spec f argv o s.
Proof. intros [H1 H2 H3] Hf Ho. split; [done|by rewrite H2|by rewrite H3|by rewrite H3|done|done]. Qed.

Lemma fail_last_apps l l' : failed l = false -> fail_last l' -> fail_last (l ++ l').
Proof.
  intros Hf Hl. unfold failed in Hf. induction l as [|x l IH]; [done|]. cbn [existsb] in Hf.
  apply orb_false_iff in Hf as [H1 H2]. cbn [app fail_last]. destruct (l ++ l') as [|y k] eqn:Hk; [done|].
  split; [by apply nz_false|]. by apply IH.
Qed.

Lemma failed_apps l l' : failed (l ++ l') = failed l || failed l'.
Proof. apply existsb_app. Qed.

Lemma switches_apps i l l' : switches i (l ++ l') = switches i l || switches i l'.
Proof. apply existsb_app. Qed.

Lemma clean_run cs n rs fs s :
  clean s -> no_switch cs -> rpmb_run cs n rs 0 fs -> clean (add_ios (zip cs rs) s).
Proof.
  intros [H1 H2 H3] Hc Hr. destruct (rr_ok _ _ _ _ _ Hr eq_refl) as (_ & _ & Hf & _). unfold add_ios. split; cbn [ios].
  - apply fail_last_apps; [done|apply Hr].
  - by rewrite failed_apps, H2, Hf.
  - by rewrite switches_apps, H3, switches_no_switch.
Qed.

Lemma failed_run f argv cs n rs ret fs s :
  clean s -> no_switch cs -> rpmb_run cs n rs ret fs -> rpmb_cmd f = true -> command_spec f argv (Exited 1) (add_ios (zip cs rs) s).
Proof.
  intros [H1 H2 H3] Hc Hr Hf. unfold add_ios.
  assert (Hs : switches EXT_CSD_PARTITION_SETTING_COMPLETED (ios s ++ zip cs rs) = false)
    by (by rewrite switches_apps, H3, switches_no_switch).
  split; cbn [ios]; [|by rewrite Hs, andb_false_r|by rewrite Hs|by rewrite Hs|done|done].
  apply fail_last_apps; [done|apply Hr].
Qed.

Lemma clean_ins fd chunks s : clean s -> clean (add_ins fd chunks s).
Proof. by intros [H1 H2 H3]. Qed.
Lemma clean_outs fd chunks s : clean s -> clean (add_outs fd chunks s).
Proof. by intros [H1 H2 H3]. Qed.
Lemma clean_no_obs : clean no_obs.
Proof. done. Qed.

(** The result codes of an answer are 16 bits. *)
Lemma sub_bytes off k bs : Forall byte_ok bs -> Forall byte_ok (sub off k bs).
Proof. intros H. unfold sub. by apply Forall_take, Forall_drop. Qed.

Lemma frame_of_result bs : (512 <= length bs)%nat -> Forall byte_ok bs -> u16_ok (f_result (frame_of bs)).
Proof.
  intros Hl Hb. cbn [frame_of f_result]. pose proof (length_sub 508 2 bs ltac:(lia)) as H2.
  pose proof (sub_bytes 508 2 bs Hb) as Hs. destruct (sub 508 2 bs) as [|a [|b [|? ?]]]; try done.
  apply Forall_cons in Hs as [Ha Hs]. apply Forall_cons in Hs as [Hbb _].
  unfold u16_ok, byte_ok in *. cbn [le_val]. lia.
Qed.

Lemma frames_of_result n bs :
  (512 * n <= length bs)%nat -> Forall byte_ok bs -> Forall (fun f => u16_ok (f_result f)) (frames_of n bs).
Proof.
  revert bs. induction n as [|n IH]; intros bs Hl Hb; simpl; constructor.
  - apply frame_of_result; [lia|done].
  - apply IH; [rewrite length_drop; lia|by apply Forall_drop].
Qed.

Lemma run_result_nz cs n rs fs : rpmb_run cs n rs 0 fs -> forall f, f ∈ fs -> f_result f <> 0 -> be16toh (f_result f) <> 0.
Proof.
  intros Hr f Hf Hz H0. destruct (rr_ok _ _ _ _ _ Hr eq_refl) as (_ & _ & _ & r & _ & Hl & Hb & ->).
  assert (Hu : u16_ok (f_result f)).
  { pose proof (frames_of_result n (i_data r) ltac:(lia) Hb) as Hu. rewrite Forall_forall in Hu. by apply Hu. }
  by apply Hz, swap16_zero.
Qed.

(** A code that is not 0 is not 0 in the other byte order either. *)
Lemma counter_code cs n rs f : rpmb_run cs n rs 0 [f] -> nz (f_result f) = true -> nz (be16toh (f_result f)) <> false.
Proof.
  intros Hr Hz%nz_true Hc%nz_false. by apply (run_result_nz _ _ _ _ Hr f); [left|..].
Qed.

Section Commands.
Context {HM : Hmac} {HL : HmacLaws HM}.
Variables (junk : rpmb_frame) (fuel : nat).
Hypothesis Hjunk : frame_len junk.

Lemma wp_rpmb_op1 dev_fd fin (Q : result (Z * rpmb_frame) -> obs -> Prop) s :
  frame_len fin ->
  (forall rs f, rpmb_run (rpmb_script fin [junk] 1) 1 rs 0 [f] ->
     Q (Returned (0, f)) (add_ios (zip (rpmb_script fin [junk] 1) rs) s)) ->
  (forall rs ret fs, ret <> 0 -> rpmb_run (rpmb_script fin [junk] 1) 1 rs ret fs ->
     Q (Exited 1) (add_ios (zip (rpmb_script fin [junk] 1) rs) s)) ->
  wpm (rpmb_op1 junk dev_fd fin) Q s.
Proof.
  intros Hfin H1 H2. unfold rpmb_op1. apply wp_bind, wp_do_rpmb_op; [done|by constructor|done|lia|].
  intros rs ret fs Hr. cbn [then_]. apply wp_bind, wp_when; intros Hnz.
  - apply wp_bind, wp_perror, wp_exit. cbn [then_]. by apply (H2 rs ret fs); [apply nz_true|].
  - apply nz_false in Hnz. subst ret. cbn [then_]. apply wp_mret.
    pose proof (rr_frames _ _ _ _ _ Hr) as Hl. destruct fs as [|f [|? ?]]; try done. by apply H1.
Qed.

(** The RPMB commands end cleanly, or with a failed operation. *)

Lemma wp_check_result f_out (Q : result unit -> obs -> Prop) s :
  (f_result f_out = 0 -> Q (Returned tt) s) -> Q (Exited 1) s -> wpm (check_result f_out) Q s.
Proof.
  intros H1 H2. unfold check_result. apply wp_when; intros Hr; [by apply wp_bind, wp_printf|].
  by apply H1, nz_false.
Qed.

Ltac rpmb_step :=
  match goal with
  | |- wp _ (open_rpmb _) _ _ => apply wp_open_rpmb; [lia|intros ? ?|]
  | |- wp _ (open_or_std _ _ _ _) _ _ => apply wp_open_or_std; [done|intros ? ?|]
  | |- wp _ (close_unless _ _) _ _ => apply wp_close_unless
  | |- wp _ (read_all _ _ _ _ _) _ _ => apply wp_read_all; [intros ? ? ?|intros ? ? [->| ->]]
  | |- wp _ (strtol16 _ _) _ _ => apply wp_strtol16
  | |- wp _ (check_result _) _ _ => apply wp_check_result; [intros ?|]
  | |- wp _ (rpmb_op1 _ _ _) _ _ => apply wp_rpmb_op1; [try done|intros ? ? ?|intros ? ? ? ? ?]
  | |- wp _ (mret _) _ _ => apply wp_mret; cbn [then_]
  | |- wp _ (assigned (Some _)) _ _ => apply wp_mret; cbn [then_]
  | |- _ => mmc_step
  end.

(** A path of an RPMB command that ended. *)
Ltac rpmb_end :=
  repeat match goal with
  | |- clean (add_ins _ _ _) => apply clean_ins
  | |- clean (add_outs _ _ _) => apply clean_outs
  | |- clean no_obs => apply clean_no_obs
  | |- clean (add_ios _ _) => eapply clean_run; [|apply rpmb_script_no_switch|eassumption]
  | |- command_spec _ _ (Exited 1) (add_ios _ _) =>
      eapply failed_run; [|apply rpmb_script_no_switch|eassumption|done]
  | |- command_spec _ _ _ _ => apply clean_end; [|done|done]
  end.

Lemma do_rpmb_write_key_spec argv :
  wpm (do_rpmb_write_key junk fuel argv) (command_spec Do_rpmb_write_key argv) no_obs.
Proof.
  unfold do_rpmb_write_key. repeat rpmb_step; rpmb_end. split; try done.
  by apply Nat2Z.inj.
Qed.

Lemma wp_rpmb_read_counter dev_fd (Q : result (Z * option Z) -> obs -> Prop) s :
  (forall rs f, rpmb_run (rpmb_script (set_req_resp (htobe16 2) zero_frame) [junk] 1) 1 rs 0 [f] ->
     Q (Returned (if nz (f_result f) then (be16toh (f_result f), None) else (0, Some (be32toh (write_counter f)))))
       (add_ios (zip (rpmb_script (set_req_resp (htobe16 2) zero_frame) [junk] 1) rs) s)) ->
  (forall rs ret fs, ret <> 0 -> rpmb_run (rpmb_script (set_req_resp (htobe16 2) zero_frame) [junk] 1) 1 rs ret fs ->
     Q (Exited 1) (add_ios (zip (rpmb_script (set_req_resp (htobe16 2) zero_frame) [junk] 1) rs) s)) ->
  wpm (rpmb_read_counter junk dev_fd) Q s.
Proof.
  intros H1 H2. unfold rpmb_read_counter. apply wp_bind, wp_rpmb_op1; [done| |done].
  intros rs f Hr. specialize (H1 rs f Hr). cbn [then_].
  apply wp_if; intros Hz; rewrite Hz in H1; by apply wp_mret.
Qed.

Lemma do_rpmb_read_counter_spec argv :
  wpm (do_rpmb_read_counter junk argv) (command_spec Do_rpmb_read_counter argv) no_obs.
Proof.
  unfold do_rpmb_read_counter. repeat rpmb_step; [|rpmb_end..].
  apply wp_rpmb_read_counter; [intros rs f Hr|intros rs ret fs Hret Hr; cbn [then_]; rpmb_end].
  cbn [then_]. destruct (nz (f_result f)) eqn:Hz; cbv beta iota; repeat rpmb_step; rpmb_end.
  by destruct (counter_code _ _ _ _ Hr Hz).
Qed.

Lemma do_rpmb_write_block_spec argv :
  wpm (do_rpmb_write_block junk fuel argv) (command_spec Do_rpmb_write_block argv) no_obs.
Proof.
  unfold do_rpmb_write_block. repeat rpmb_step; [|rpmb_end..].
  apply wp_rpmb_read_counter; [intros rs f Hr|intros rs ret fs Hret Hr; cbn [then_]; rpmb_end].
  cbn [then_].
  destruct (nz (f_result f)) eqn:Hz; cbv beta iota; repeat rpmb_step; rpmb_end.
  - by destruct (counter_code _ _ _ _ Hr Hz).
  - split; cbn; [done|apply hmac_length|by apply Nat2Z.inj|done].
Qed.

(** What writing the frames leaves: a part of their data. *)
Lemma wp_write_frames fd frames ret0 (Q : result Z -> obs -> Prop) s :
  (forall chunks ret, concat chunks = concat (data <$> frames) -> Q (Returned ret) (add_outs fd chunks s)) ->
  (forall chunks o, concat chunks `prefix_of` concat (data <$> frames) -> o = Exited 1 \/ o = NoFuel ->
     Q o (add_outs fd chunks s)) ->
  wpm (write_frames fuel fd frames ret0) Q s.
Proof.
  revert ret0 s. induction frames as [|f fs IH]; intros ret0 s H1 H2; cbn [write_frames].
  { apply wp_mret. specialize (H1 [] ret0). rewrite add_outs_nil in H1. by apply H1. }
  cbn [fmap list_fmap concat] in H1, H2.
  assert (Hpre : forall chunks, concat chunks `prefix_of` drop (Z.to_nat 0) (data f) ->
    concat chunks `prefix_of` data f ++ concat (data <$> fs)) by (intros; by apply prefix_app_r).
  apply wp_bind, wp_do_io_write; [done|intros chunks ret Hc Hr|intros chunks Hc; apply H2; auto]; cbn [then_].
  apply wp_if; intros Hn; [apply wp_bind, wp_perror, wp_exit, H2; auto|].
  apply wp_if; intros Hl; [apply wp_bind, wp_printf, wp_exit, H2; auto|].
  apply Z.ltb_ge in Hn. apply negb_false_iff, Z.eqb_eq in Hl.
  assert (Hfull : concat chunks = data f).
  { destruct Hc as [rest Hc]. change (drop (Z.to_nat 0) (data f)) with (data f) in Hc.
    rewrite Hc in Hl. rewrite length_app in Hl. destruct rest; [by rewrite app_nil_r in Hc|simpl in Hl; lia]. }
  apply IH.
  - intros chunks' ret' Hc'. rewrite add_outs_outs. apply H1. by rewrite concat_app, Hfull, Hc'.
  - intros chunks' o Hc' Ho. rewrite add_outs_outs. apply H2; [|done]. rewrite concat_app, Hfull. by apply prefix_app.
Qed.

(** ** Reading blocks *)

Definition blocks_arg (argv : list string) : nat :=
  match argv !! 3%nat with Some a => Z.to_nat (u16 (strtol_val a 0)) | None => 0 end.

(** The answer that the output comes from. *)
Record block_answer (argv : list string) (s : obs) (frames : list rpmb_frame) : Prop := {
  ba_frames : exists c r, last (ios s) = Some (c, r) /\ i_ret r = 0 /\ frames = frames_of (blocks_arg argv) (i_data r);
  ba_result : exists f, last frames = Some f /\ f_result f = 0 /\
    (length argv = 6%nat ->
       let key := concat (snd <$> ins s) in
       length key = 32%nat /\ hmac_sha256 key (concat (mac_part <$> frames)) 32 = key_mac f);
  ba_out : concat (snd <$> outs s) `prefix_of` concat (data <$> frames) }.

Record read_block_spec (argv : list string) (o : result Z) (s : obs) : Prop := {
  rb_command : command_spec Do_rpmb_read_block argv o s;
  rb_answer : outs s <> [] -> exists frames, block_answer argv s frames;
  rb_all : forall z, o = Returned z -> exists frames, block_answer argv s frames /\
    concat (snd <$> outs s) = concat (data <$> frames) }.

Lemma mac_loop_fold ctx frames : mac_loop ctx frames = fold_left hmac_sha256_update (mac_part <$> frames) ctx.
Proof. revert ctx. induction frames as [|f fs IH]; intros ctx; [done|]. apply IH. Qed.

Lemma wp_verify_mac key frames f (Q : result unit -> obs -> Prop) s :
  last frames = Some f ->
  (hmac_sha256 key (concat (mac_part <$> frames)) 32 = key_mac f -> Q (Returned tt) s) -> Q (Exited 1) s ->
  wpm (verify_mac key frames) Q s.
Proof.
  intros Hl H1 H2. unfold verify_mac. rewrite Hl, mac_loop_fold, hmac_parts.
  apply wp_when; intros Hb; [by apply wp_bind, wp_printf|].
  apply negb_false_iff, bool_decide_eq_true in Hb. by apply H1.
Qed.

(** Ending without output. *)
Lemma no_output argv o s :
  command_spec Do_rpmb_read_block argv o s -> outs s = [] -> (forall z, o <> Returned z) -> read_block_spec argv o s.
Proof. intros Hc Ho Hr. split; [done|by rewrite Ho|]. intros z Hz. by destruct (Hr z). Qed.

(** What follows the verification. *)
Lemma wp_output argv dev_fd data_fd key_fd frames ret0 s :
  clean s -> outs s = [] -> block_answer argv s frames ->
  wpm (ret ← write_frames fuel data_fd frames ret0;
       call (Close dev_fd);;
       close_unless data_fd STDOUT_FILENO;;
       when_ (negb (key_fd =? -1)) (close_unless key_fd STDIN_FILENO);;
       mret ret) (read_block_spec argv) s.
Proof.
  intros Hs Ho [Hf Hr _].
  assert (Hout : forall chunks, (outs (add_outs data_fd chunks s)).*2 = chunks).
  { intros chunks. unfold add_outs. cbn [outs]. rewrite Ho. apply snd_pairs. }
  assert (Ha : forall chunks, concat chunks `prefix_of` concat (data <$> frames) ->
    block_answer argv (add_outs data_fd chunks s) frames).
  { intros chunks Hc. split; [done|done|]. by rewrite Hout. }
  apply wp_bind, wp_write_frames.
  - intros chunks ret Hc. cbn [then_].
    assert (Hend : read_block_spec argv (Returned ret) (add_outs data_fd chunks s)).
    { assert (Hb : block_answer argv (add_outs data_fd chunks s) frames) by (apply Ha; by rewrite Hc).
      split; [rpmb_end; done|eauto|]. intros z _. exists frames. by rewrite Hout. }
    repeat rpmb_step; done.
  - intros chunks o Hc [->| ->]; cbn [then_]; (split; [rpmb_end; done|eauto|done]).
Qed.

Lemma wp_read_block_key argv (Q : result (Z * list Z) -> obs -> Prop) s :
  length argv = 6%nat ->
  (forall fd chunks, length (concat chunks) = 32%nat -> Q (Returned (fd, concat chunks)) (add_ins fd chunks s)) ->
  (forall fd chunks o, o = Exited 1 \/ o = NoFuel -> Q o (add_ins fd chunks s)) ->
  wpm (read_block_key fuel argv) Q s.
Proof.
  intros Hl H1 H2. unfold read_block_key. repeat rpmb_step.
  - by apply H1, Nat2Z.inj.
  - apply H2; auto.
  - apply H2; auto.
  - specialize (H2 0 [] (Exited 1)). rewrite add_ins_nil in H2. apply H2. auto.
Qed.

(** Between reading the key and the output. *)
Lemma wp_read_exchange argv dev_fd data_fd key_fd key fin n s :
  clean s -> outs s = [] -> frame_len fin -> n = Z.of_nat (blocks_arg argv) -> 0 < n ->
  (length argv = 6%nat -> key = concat (snd <$> ins s) /\ length key = 32%nat) ->
  wpm ('(ret, frame_out) ← do_rpmb_op dev_fd (Some fin) (Some (replicate (Z.to_nat n) zero_frame)) n;
       when_ (nz ret) (perror "RPMB ioctl failed";; exit_ 1);;
       match last frame_out with
       | None => undef
       | Some l => check_result l
       end;;
       when_ (length argv =? 6)%nat (verify_mac key frame_out);;
       ret ← write_frames fuel data_fd frame_out ret;
       call (Close dev_fd);;
       close_unless data_fd STDOUT_FILENO;;
       when_ (negb (key_fd =? -1)) (close_unless key_fd STDIN_FILENO);;
       mret ret) (read_block_spec argv) s.
Proof.
  intros Hs Ho Hfin Hn Hpos Hkey.
  assert (Hlen : length (replicate (Z.to_nat n) zero_frame) = blocks_arg argv) by (rewrite length_replicate; lia).
  apply wp_bind, wp_do_rpmb_op; [done| |by rewrite Hlen|done|].
  { apply Forall_replicate. apply zero_frame_ok. }
  intros rs ret fs Hr. rewrite Hlen in Hr. cbn [then_].
  apply wp_bind, wp_when; intros Hz.
  { apply wp_bind, wp_perror, wp_exit. cbn [then_]. apply no_output; [rpmb_end; done|done|done]. }
  apply nz_false in Hz. subst ret. cbn [then_].
  destruct (rr_ok _ _ _ _ _ Hr eq_refl) as (Hcs & Hlrs & Hok & r & Hlast & Hlr & _ & Hfs).
  assert (Hc : clean (add_ios (zip (rpmb_script fin (replicate (Z.to_nat n) zero_frame) n) rs) s)) by by rpmb_end.
  set (cs := rpmb_script _ _ _) in *. set (s' := add_ios (zip cs rs) s) in *.
  assert (Hend : command_spec Do_rpmb_read_block argv (Exited 1) s') by by rpmb_end.
  destruct (last fs) as [f|] eqn:Hf; cycle 1.
  { apply last_None in Hf. pose proof (rr_frames _ _ _ _ _ Hr) as Hl. rewrite Hf in Hl. simpl in Hl. lia. }
  apply wp_bind, wp_check_result; [intros Hres|by apply no_output]. cbn [then_].
  assert (Hlast' : exists c, last (ios s') = Some (c, r) /\ i_ret r = 0).
  { unfold s', add_ios. cbn [ios]. apply last_zip_app; [by rewrite Hlrs|done|done]. }
  assert (Hans : (length argv = 6%nat -> hmac_sha256 key (concat (mac_part <$> fs)) 32 = key_mac f) ->
    block_answer argv s' fs).
  { intros Hmac. split.
    - destruct Hlast' as (c & Hc' & H0). by exists c, r.
    - exists f. split_and!; [done|done|]. intros H6. destruct (Hkey H6) as [Hk Hk32]. cbn [s' add_ios ins].
      rewrite <- Hk. auto.
    - cbn [s' add_ios outs]. rewrite Ho. apply prefix_nil. }
  apply wp_bind, wp_when; intros H6.
  - apply (wp_verify_mac _ _ f); [done| |by apply no_output]. intros Hmac. cbn [then_]. apply wp_output; [done|done|by apply Hans].
  - cbn [then_]. apply Nat.eqb_neq in H6. by apply wp_output; [..|apply Hans].
Qed.

Lemma do_rpmb_read_block_full argv : wpm (do_rpmb_read_block fuel argv) (read_block_spec argv) no_obs.
Proof.
  assert (He : forall s o, clean s -> outs s = [] -> o = Exited 1 \/ o = NoFuel -> read_block_spec argv o s).
  { intros s o Hc Ho [->| ->]; (apply no_output; [by rpmb_end|done|done]). }
  unfold do_rpmb_read_block. cbv zeta. apply wp_bind, wp_CHECK; intros Hl; [cbn [then_]|by apply He; auto].
  assert (Hargc : (4 < length argv)%nat).
  { apply andb_false_iff in Hl as [Hl|Hl]; apply negb_false_iff, Nat.eqb_eq in Hl; lia. }
  repeat rpmb_step; try (apply He; auto; done).
  apply wp_allocate; intros ok. cbn [then_].
  apply wp_bind, wp_when; intros _; [repeat rpmb_step; by apply He; auto|]. cbn [then_].
  apply wp_bind, wp_argv_at; [lia|]. intros a4 _. cbn [then_].
  apply wp_bind, wp_open_or_std; [done|intros data_fd Hdata|by apply He; auto]. cbn [then_].
  assert (Hn : u16 (strtol_val a0 0) = Z.of_nat (blocks_arg argv)).
  { unfold blocks_arg. rewrite H1. pose proof (Z.mod_pos_bound (strtol_val a0 0) (2 ^ 16)). unfold u16. lia. }
  assert (Hpos : 0 < u16 (strtol_val a0 0)) by (apply Z.eqb_neq in H2; lia).
  apply wp_bind, wp_if; intros H6.
  - apply Nat.eqb_eq in H6. apply wp_read_block_key; [done|intros key_fd chunks Hk|intros key_fd chunks o Ho].
    + cbn [then_]. apply wp_read_exchange; [rpmb_end|done|done|done|done|].
      intros _. cbn [add_ins ins no_obs]. by rewrite app_nil_l, snd_pairs.
    + destruct Ho as [-> | ->]; cbn [then_]; (apply He; [rpmb_end|done|auto]).
  - apply Nat.eqb_neq in H6. apply wp_mret. cbn [then_]. by apply wp_read_exchange.
Qed.

Lemma do_rpmb_read_block_spec argv :
  wpm (do_rpmb_read_block fuel argv) (command_spec Do_rpmb_read_block argv) no_obs.
Proof. eapply wp_mono; [|apply do_rpmb_read_block_full]. by intros o s []. Qed.

(** ** Writing a block *)

Definition address_arg (argv : list string) : Z :=
  match argv !! 2%nat with Some a => u16 (strtol_val a 0) | None => 0 end.

(** The request that reads the counter. *)
Definition counter_request : rpmb_frame := set_req_resp (htobe16 (rpmb_op_code MMC_RPMB_READ_CNT)) zero_frame.

(** A block that was written: the counter [f1] the device sent first, the
    frame [fin] that carries it with the data, the address and the MAC of
    the key, and the answer [f2]. *)
Record block_written (argv : list string) (s : obs) (f1 fin f2 : rpmb_frame) : Prop := {
  bw_ios : exists rs1 rs2,
    ios s = zip (rpmb_script counter_request [junk] 1) rs1 ++ zip (rpmb_script fin [junk] 1) rs2 /\
    rpmb_run (rpmb_script counter_request [junk] 1) 1 rs1 0 [f1] /\
    rpmb_run (rpmb_script fin [junk] 1) 1 rs2 0 [f2];
  bw_results : f_result f1 = 0 /\ f_result f2 = 0;
  bw_counter : write_counter fin = write_counter f1;
  bw_request : be16toh (req_resp fin) = 3 /\ be16toh (block_count fin) = 1 /\ be16toh (addr fin) = address_arg argv;
  bw_data : exists key, concat (snd <$> ins s) = data fin ++ key /\
    length (data fin) = 256%nat /\ length key = 32%nat /\ key_mac fin = hmac_sha256 key (mac_part fin) 32 }.

Lemma mac_part_set_key_mac v f : frame_len f -> length v = 32%nat -> mac_part (set_key_mac v f) = mac_part f.
Proof.
  intros [H1 H2 H3 H4] Hv. unfold mac_part, frame_bytes, set_key_mac.
  cbn [stuff key_mac data nonce write_counter addr block_count f_result req_resp].
  rewrite (app_assoc (stuff f) v), (app_assoc (stuff f) (key_mac f)).
  by rewrite !drop_app_length' by (rewrite length_app; lia).
Qed.

Lemma run_counter cs rs f : rpmb_run cs 1 rs 0 [f] -> 0 <= write_counter f < 2 ^ 32.
Proof.
  intros Hr. destruct (rr_ok _ _ _ _ _ Hr eq_refl) as (_ & _ & _ & r & _ & Hl & Hb & [= ->]).
  apply frame_of_counter; [lia|done].
Qed.

Lemma u16_range x : u16_ok (u16 x).
Proof. apply Z.mod_pos_bound. lia. Qed.

Definition write_block_post (argv : list string) (o : result Z) (s : obs) : Prop :=
  forall z, o = Returned z -> z = 0 /\ exists f1 fin f2, block_written argv s f1 fin f2.

Lemma do_rpmb_write_block_full argv :
  wpm (do_rpmb_write_block junk fuel argv) (write_block_post argv) no_obs.
Proof.
  unfold do_rpmb_write_block. repeat rpmb_step; [|done..].
  apply wp_rpmb_read_counter; [intros rs f Hr|done]. cbn [then_].
  destruct (nz (f_result f)) eqn:Hz; cbv beta iota; repeat rpmb_step; try done.
  { split; cbn; [done|apply hmac_length|by apply Nat2Z.inj|done]. }
  apply nz_false in Hz. intros z [= <-]. split; [done|]. eexists f, _, f0. split.
  - by exists rs, rs0.
  - done.
  - by apply swap32_swap32, (run_counter _ _ _ Hr).
  - unfold address_arg. rewrite H2. split_and!; [done|done|apply swap16_swap16, u16_range].
  - exists (concat chunks0). split_and!; [cbn [add_ios add_ins ins no_obs]; by rewrite app_nil_l, fmap_app, !snd_pairs, concat_app|by apply Nat2Z.inj..|].
    cbn [key_mac set_key_mac]. rewrite mac_part_set_key_mac; [done| |apply hmac_length].
    split; cbn; [done|done|by apply Nat2Z.inj|done].
Qed.

(** ** All commands *)

Lemma run_command_spec f argv : wpm (run_command junk fuel f argv) (command_spec f argv) no_obs.
Proof.
  destruct f; cbn [run_command].
  all: auto using do_dump_extcsd_spec, do_read_extcsd_spec, do_write_extcsd_byte_spec, do_writeprotect_get_spec,
    do_writeprotect_set_spec, do_disable_512B_emulation_spec, do_create_gp_partition_spec, do_enh_area_set_spec,
    do_write_reliability_set_spec, do_status_get_spec, do_write_boot_en_spec, do_boot_bus_conditions_set_spec,
    do_write_bkops_en_spec, do_hwreset_en_spec, do_hwreset_dis_spec, do_sanitize_spec, do_rpmb_write_key_spec,
    do_rpmb_read_counter_spec, do_rpmb_read_block_spec, do_rpmb_write_block_spec, do_cache_en_spec, do_cache_dis_spec.
Qed.

End Commands.
