(* ===== verification/MmcMainSpec.v ===== *)
(** * The command line of the eMMC tool

    [parse_args] selects a command when, and only when, it is the only one
    of the table whose words the arguments abbreviate; it is never undefined
    although [check_ambiguity] could read past the words of a command, since
    no command of the table is a prefix of another. *)

From Stdlib Require Import Ascii String.
From S2P Require Import Prelude Bytes Prog CStr MmcSys MmcCmds MmcPartition MmcExtcsd MmcRpmb MmcMain MmcSpec.
From S2P Require Import MmcPrint MmcFrames MmcSafety MmcRpmbSpec.

Open Scope Z_scope.

Definition table : list Command := fill <$> commands.

(** Every word of the command is abbreviated by the argument in its place. *)
Fixpoint abbreviates (args ws : list string) : bool :=
  match ws, args with
  | [], _ => true
  | w :: ws, a :: args => prefix_of a w && abbreviates args ws
  | _ :: _, [] => false
  end.

Definition fits (cp : Command) (argv : list string) : bool := abbreviates (tail argv) (cmds cp).

(** ** The table *)

(** Two lists of words that differ at some place. *)
Fixpoint diverge (l1 l2 : list string) : bool :=
  match l1, l2 with
  | w1 :: l1, w2 :: l2 => if streq w1 w2 then diverge l1 l2 else true
  | _, _ => false
  end.

Definition table_ok : bool :=
  forallb (fun c1 => (ncmds c1 =? Z.of_nat (length (cmds c1))) && (0 <? ncmds c1) &&
    forallb (fun c2 => bool_decide (func c1 = func c2) || diverge (cmds c1) (cmds c2)) table) table.

Lemma table_ok_true : table_ok = true.
Proof. by vm_compute. Qed.

Lemma table_func_inj : NoDup (func <$> table).
Proof. apply (bool_decide_unpack _). by vm_compute. Qed.

Lemma table_ncmds cp : cp ∈ table -> ncmds cp = Z.of_nat (length (cmds cp)) /\ (0 < length (cmds cp))%nat.
Proof.
  intros Hc. pose proof table_ok_true as Ht. unfold table_ok in Ht. rewrite forallb_forall in Ht.
  apply list_elem_of_In in Hc. apply Ht in Hc. apply andb_true_iff in Hc as [[H1 H2]%andb_true_iff _].
  apply Z.eqb_eq in H1. apply Z.ltb_lt in H2. lia.
Qed.

Lemma table_diverge c1 c2 : c1 ∈ table -> c2 ∈ table -> c1 = c2 \/ diverge (cmds c1) (cmds c2) = true.
Proof.
  intros H1 H2. pose proof table_ok_true as Ht. unfold table_ok in Ht. rewrite forallb_forall in Ht.
  pose proof (proj1 (list_elem_of_In _ _) H1) as H1'. apply Ht in H1'. apply andb_true_iff in H1' as [_ H1'].
  rewrite forallb_forall in H1'. pose proof (proj1 (list_elem_of_In _ _) H2) as H2'. apply H1' in H2'.
  apply orb_true_iff in H2' as [Hf%bool_decide_eq_true|]; [left|by right].
  apply list_elem_of_lookup in H1 as [i Hi]. apply list_elem_of_lookup in H2 as [j Hj].
  assert (i = j) as ->; [|congruence].
  eapply (NoDup_lookup (func <$> table) i j (func c1)); [apply table_func_inj|by rewrite list_lookup_fmap, Hi|].
  by rewrite list_lookup_fmap, Hj, Hf.
Qed.

(** ** The loops without calls *)

Lemma match_loop_eq ws argv i :
  (length ws + i < length argv)%nat ->
  exists m, match_loop ws argv i = mret (abbreviates (drop (i + 1) argv) ws, m) /\ (m < length argv)%nat.
Proof.
  revert i. induction ws as [|w ws IH]; intros i Hl; cbn [match_loop abbreviates].
  - exists i. split; [by destruct (drop _ _)|lia].
  - simpl in Hl. destruct (lookup_lt_is_Some_2 argv (i + 1)) as [a Ha]; [lia|].
    unfold argv_at. rewrite Ha, prog_bind_mret. rewrite (drop_S _ _ _ Ha).
    cbn [abbreviates]. destruct (prefix_of a w); [|exists i; split; [done|lia]].
    destruct (IH (S i)) as (m & -> & Hm); [lia|]. exists m. split; [|done].
    by replace (S (i + 1)) with (S i + 1)%nat by lia; rewrite andb_true_l.
Qed.

(** The words before [n] agree. *)
Definition agree (n : nat) (c1 c2 : Command) : bool := forallb (fun j => bool_decide (cmds c1 !! j = cmds c2 !! j)) (seq 0 n).

(** The command [cp] could also be meant by the [i]-th word. *)
Definition confusable (cmd : Command) (argv : list string) (i : nat) (cp : Command) : bool :=
  match cmds cmd !! i, cmds cp !! i, argv !! (i + 1)%nat with
  | Some w1, Some w2, Some a => agree i cmd cp && negb (streq w1 w2) && prefix_of a w2
  | _, _, _ => false
  end.

Lemma word_at_eq c i w : cmds c !! i = Some w -> word_at c i = mret w.
Proof. intros H. unfold word_at. by rewrite H. Qed.
Lemma argv_at_eq argv i a : argv !! i = Some a -> argv_at argv i = mret a.
Proof. intros H. unfold argv_at. by rewrite H. Qed.

Lemma skip_loop_eq c1 c2 j n :
  (j + n <= length (cmds c1))%nat -> (j + n <= length (cmds c2))%nat ->
  skip_loop c1 c2 j n = mret (negb (forallb (fun j => bool_decide (cmds c1 !! j = cmds c2 !! j)) (seq j n))).
Proof.
  revert j. induction n as [|n IH]; intros j H1 H2; [done|]. cbn [skip_loop seq forallb].
  destruct (lookup_lt_is_Some_2 (cmds c1) j) as [w1 Hw1]; [lia|].
  destruct (lookup_lt_is_Some_2 (cmds c2) j) as [w2 Hw2]; [lia|].
  rewrite (word_at_eq _ _ _ Hw1), prog_bind_mret, (word_at_eq _ _ _ Hw2), prog_bind_mret, Hw1, Hw2.
  destruct (streq w1 w2) eqn:Hs.
  - apply streq_true in Hs as ->. rewrite bool_decide_true by done. apply IH; lia.
  - apply streq_false in Hs. by rewrite bool_decide_false by congruence.
Qed.

(** Lists of words that agree up to [i] and have more than [i] words. *)
Lemma agree_longer c1 c2 i :
  c1 ∈ table -> c2 ∈ table -> (i < length (cmds c1))%nat -> (i <= length (cmds c2))%nat -> agree i c1 c2 = true ->
  (i < length (cmds c2))%nat.
Proof.
  intros H1 H2 Hi Hi2 Ha. destruct (table_diverge _ _ H1 H2) as [->|Hd]; [done|].
  destruct (decide (i < length (cmds c2))%nat) as [|Hn]; [done|]. exfalso.
  assert (Hl : length (cmds c2) = i) by lia. clear Hn Hi2 H1 H2. unfold agree in Ha.
  revert i Ha Hi Hl Hd. generalize (cmds c1), (cmds c2). clear c1 c2.
  intros l1 l2. revert l1. induction l2 as [|w2 l2 IH]; intros [|w1 l1] i Ha Hi Hl Hd; try done.
  simpl in Hl. subst i. cbn [seq forallb] in Ha. apply andb_true_iff in Ha as [Hw Ha].
  apply bool_decide_eq_true in Hw. simpl in Hw. injection Hw as ->. cbn [diverge] in Hd.
  rewrite (proj2 (streq_true w2 w2) eq_refl) in Hd. apply (IH l1 (length l2)); [|simpl in Hi; lia|done|done].
  rewrite forallb_forall in *. intros j Hj. apply in_seq in Hj. apply (Ha (S j)). apply in_seq. lia.
Qed.

Lemma ambiguous_with_eq cmd cp argv i :
  cmd ∈ table -> cp ∈ table -> (i < length (cmds cmd))%nat -> (i + 1 < length argv)%nat ->
  ambiguous_with cmd cp argv i = mret (confusable cmd argv i cp).
Proof.
  intros H1 H2 Hi Ha. unfold ambiguous_with, confusable.
  destruct (table_ncmds _ H2) as [-> Hl]. destruct (lookup_lt_is_Some_2 (cmds cmd) i Hi) as [w1 Hw1].
  destruct (lookup_lt_is_Some_2 argv (i + 1) Ha) as [a Haa]. rewrite Hw1, Haa.
  destruct (Z.ltb_spec (Z.of_nat (length (cmds cp))) (Z.of_nat i)) as [Hlt|Hle].
  { by rewrite (proj2 (lookup_ge_None _ _)) by lia. }
  rewrite skip_loop_eq by lia. rewrite prog_bind_mret. fold (agree i cmd cp).
  destruct (agree i cmd cp) eqn:Hag; cbn [negb].
  2: by destruct (cmds cp !! i).
  pose proof (agree_longer cmd cp i H1 H2 Hi ltac:(lia) Hag) as Hi2.
  destruct (lookup_lt_is_Some_2 (cmds cp) i Hi2) as [w2 Hw2]. rewrite Hw2.
  rewrite (word_at_eq _ _ _ Hw1), prog_bind_mret, (word_at_eq _ _ _ Hw2), prog_bind_mret, (argv_at_eq _ _ _ Haa).
  cbn [andb]. destruct (streq w1 w2); [done|]. by rewrite prog_bind_mret.
Qed.

Lemma count_loop_eq cmd cps argv i m :
  cmd ∈ table -> cps ⊆ table -> (i < length (cmds cmd))%nat -> (i + 1 < length argv)%nat ->
  count_loop cmd cps argv i m = mret (m + Z.of_nat (length (filter (fun cp => confusable cmd argv i cp = true) cps))).
Proof.
  intros H1 Hs Hi Ha. revert m. induction cps as [|cp cps IH]; intros m; cbn [count_loop].
  { by rewrite Z.add_0_r. }
  rewrite ambiguous_with_eq by (try done; apply Hs; left). rewrite prog_bind_mret.
  rewrite IH by (intros x Hx; apply Hs; by right). rewrite filter_cons.
  destruct (confusable cmd argv i cp); [rewrite decide_True by done|by rewrite decide_False by done].
  f_equal. simpl. lia.
Qed.

(** ** Rules *)

Lemma wp_print_words argv j n (Q : result unit -> obs -> Prop) s :
  (j + n < length argv)%nat -> Q (Returned tt) s -> wpm (print_words argv j n) Q s.
Proof.
  revert j. induction n as [|n IH]; intros j Hl HQ; cbn [print_words]; [done|].
  apply wp_bind, wp_argv_at; [lia|]. intros a _. cbn [then_]. apply wp_bind, wp_eprintf. cbn [then_].
  apply IH; [lia|done].
Qed.

(** No other command is possible at words [i] to [i + n - 1]. *)
Definition unconfused (cmd : Command) (argv : list string) (i n : nat) : Prop :=
  forall k cp, (i <= k < i + n)%nat -> cp ∈ table -> confusable cmd argv k cp = false.

Lemma wp_ambiguity_loop cmd argv i n (Q : result Z -> obs -> Prop) s :
  cmd ∈ table -> (i + n <= length (cmds cmd))%nat -> (i + n < length argv)%nat ->
  (unconfused cmd argv i n -> Q (Returned 0) s) -> (~ unconfused cmd argv i n -> Q (Returned (-2)) s) ->
  wpm (ambiguity_loop table cmd argv i n) Q s.
Proof.
  intros Hc. revert i. induction n as [|n IH]; intros i Hl Ha H1 H2; cbn [ambiguity_loop].
  { apply H1. intros k cp Hk. lia. }
  rewrite count_loop_eq by (done || lia). rewrite prog_bind_mret, Z.add_0_l.
  destruct (filter _ table) as [|cp l] eqn:Hf; cbn [length].
  - apply IH; [lia..| |].
    + intros Hu. apply H1. intros k cp Hk Hcp. destruct (decide (k = i)) as [->|]; [|apply Hu; [lia|done]].
      destruct (confusable cmd argv i cp) eqn:Hcf; [|done].
      assert (Hin : cp ∈ filter (fun cp => confusable cmd argv i cp = true) table) by by apply list_elem_of_filter.
      rewrite Hf in Hin. by apply elem_of_nil in Hin.
    + intros Hu. apply H2. intros Hv. apply Hu. intros k cp Hk. apply Hv. lia.
  - apply wp_if; [intros _|done].
    apply wp_bind, wp_eprintf. cbn [then_]. apply wp_bind, wp_print_words; [lia|]. cbn [then_].
    apply wp_bind, wp_argv_at; [lia|]. intros w _. cbn [then_]. apply wp_bind, wp_eprintf. cbn [then_].
    apply wp_mret, H2. intros Hu.
    assert (Hin : cp ∈ filter (fun cp => confusable cmd argv i cp = true) table) by (rewrite Hf; left).
    apply list_elem_of_filter in Hin as [Hcf Hin]. rewrite (Hu i cp) in Hcf by (done || lia). done.
Qed.

(** ** Help *)

Lemma prints_put_help h : prints (put_help h).
Proof.
  induction h as [|c h IH]; cbn [put_help]; [done|]. apply (silent_bind _ _ _ (fun _ => True)); [done|intros _ _].
  apply (silent_bind _ _ _ (fun _ => True)); [by apply silent_when|done].
Qed.

Lemma prints_print_help np cp h : prints (print_help np cp h).
Proof.
  apply (silent_bind _ _ _ (fun _ => True)); [done|intros _ _].
  apply (silent_bind _ _ _ (fun _ => True)); [apply prints_put_help|done].
Qed.

Lemma prints_help_loop np cps : prints (help_loop np cps).
Proof.
  induction cps as [|cp cps IH]; cbn [help_loop]; [done|].
  apply (silent_bind _ _ _ (fun _ => True)); [apply prints_print_help|done].
Qed.

Lemma prints_help np : prints (help np).
Proof.
  unfold help. apply (silent_bind _ _ _ (fun _ => True)); [done|intros _ _].
  apply (silent_bind _ _ _ (fun _ => True)); [apply prints_help_loop|done].
Qed.

(** ** Selection *)

Lemma abbreviates_length args ws : abbreviates args ws = true -> (length ws <= length args)%nat.
Proof.
  revert args. induction ws as [|w ws IH]; intros [|a args]; simpl; [lia..|done|].
  intros [_ H]%andb_true_iff. apply IH in H. lia.
Qed.

Lemma fits_short cp argv : cp ∈ table -> Z.of_nat (length argv) - 1 < ncmds cp -> fits cp argv = false.
Proof.
  intros Hc. destruct (table_ncmds _ Hc) as [-> Hp]. intros Hl. unfold fits.
  destruct (abbreviates _ _) eqn:Ha; [|done]. apply abbreviates_length in Ha. destruct argv; simpl in *; lia.
Qed.

(** Help is printed only when it was asked for. *)
Lemma argv_is_in argv i s : argv_is argv (i + 1) s = true -> s ∈ tail argv.
Proof.
  unfold argv_is. destruct (argv !! (i + 1)%nat) as [a|] eqn:Ha; [|done]. intros ->%streq_true.
  destruct argv as [|a0 argv]; [done|]. rewrite Nat.add_1_r in Ha. by apply (list_elem_of_lookup_2 argv i).
Qed.

Definition help_asked (argv : list string) (hr hr' : bool) : Prop :=
  (hr = true -> hr' = true) /\ (hr' = true -> hr = true \/ "--help" ∈ tail argv).

Lemma help_asked_refl argv hr : help_asked argv hr hr.
Proof. split; auto. Qed.
Lemma help_asked_true argv hr hr' : "--help" ∈ tail argv -> help_asked argv true hr' -> help_asked argv hr hr' /\ hr' = true.
Proof. intros Hin [H1 _]. specialize (H1 eq_refl). repeat split; auto. Qed.

Lemma wp_parse_loop cps argv prg hr (Q : result (bool * option Command) -> obs -> Prop) s :
  cps ⊆ table ->
  (forall hr', help_asked argv hr hr' -> (hr' = false -> forall cp, cp ∈ cps -> fits cp argv = false) ->
     Q (Returned (hr', None)) s) ->
  (forall hr' cp, help_asked argv hr hr' -> cp ∈ cps -> fits cp argv = true -> Q (Returned (hr', Some cp)) s) ->
  wpm (parse_loop cps argv prg hr) Q s.
Proof.
  revert hr. induction cps as [|cp cps IH]; intros hr Hs H1 H2; cbn [parse_loop].
  { apply H1; [apply help_asked_refl|]. intros _ cp Hcp. by apply elem_of_nil in Hcp. }
  assert (Hcp : cp ∈ table) by (apply Hs; left). destruct (table_ncmds _ Hcp) as [Hn Hpos].
  assert (Hs' : cps ⊆ table) by (intros x Hx; apply Hs; by right).
  assert (Hskip : fits cp argv = false -> wpm (parse_loop cps argv prg hr) Q s).
  { intros Hf. apply IH; [done| |].
    - intros hr' Hh Hc. apply H1; [done|]. intros Hr x [->|Hx]%elem_of_cons; auto.
    - intros hr' x Hh Hx. apply H2; [done|by right]. }
  apply wp_if; intros Hl; [apply Hskip, fits_short; [done|by apply Z.ltb_lt]|]. apply Z.ltb_ge in Hl.
  destruct (match_loop_eq (cmds cp) argv 0) as (m & -> & Hm); [lia|]. rewrite prog_bind_mret. cbv beta iota.
  assert (Hd : drop (0 + 1) argv = tail argv) by (by destruct argv; simpl; rewrite ?drop_0). rewrite Hd. fold (fits cp argv).
  apply wp_if; intros Hh.
  { pose proof (argv_is_in _ _ _ Hh) as Hin.
    assert (Hgo : wpm (print_help prg cp ADVANCED_HELP;; parse_loop cps argv prg true) Q s).
    { apply wp_bind, wp_prints; [apply prints_print_help|]. cbn [then_]. apply IH; [done| |].
      - intros hr' Ha Hc. destruct (help_asked_true _ hr _ Hin Ha) as [Ha' ->]. by apply H1.
      - intros hr' x Ha Hx. destruct (help_asked_true _ hr _ Hin Ha) as [Ha' ->]. apply H2; [done|by right]. }
    apply wp_bind, wp_when; intros _; [apply wp_printf|]; apply Hgo. }
  destruct (fits cp argv) eqn:Hf; cbn [negb]; [|by apply Hskip].
  apply wp_mret, H2; [apply help_asked_refl|left|done].
Qed.

Lemma wp_prepare_args av prg cmd (Q : result (option (list string)) -> obs -> Prop) s :
  Q (Returned None) s -> Q (Returned (Some ((prg +:+ " " +:+ verb cmd) :: av))) s -> wpm (prepare_args av prg cmd) Q s.
Proof.
  intros H1 H2. unfold prepare_args. apply wp_bind, wp_allocate; intros b1. cbn [then_].
  apply wp_bind, wp_allocate; intros b2. cbn [then_]. by apply wp_if; intros _; apply wp_mret.
Qed.

(** Words of different commands that both fit are ambiguous. *)
Lemma diverge_at l1 l2 : diverge l1 l2 = true ->
  exists i w1 w2, l1 !! i = Some w1 /\ l2 !! i = Some w2 /\ w1 <> w2 /\ take i l1 = take i l2.
Proof.
  revert l2. induction l1 as [|w1 l1 IH]; intros [|w2 l2]; simpl; try done. destruct (streq w1 w2) eqn:Hs.
  - apply streq_true in Hs as ->. intros (i & v1 & v2 & H1 & H2 & H3 & H4)%IH. exists (S i), v1, v2. simpl. by rewrite H4.
  - apply streq_false in Hs. intros _. by exists 0%nat, w1, w2.
Qed.

Lemma abbreviates_at args ws i w :
  abbreviates args ws = true -> ws !! i = Some w -> exists a, args !! i = Some a /\ prefix_of a w = true.
Proof.
  revert args i. induction ws as [|v ws IH]; intros [|a args] [|i]; simpl; try done.
  - intros [Hp _]%andb_true_iff [= ->]. eauto.
  - intros [_ Ha]%andb_true_iff. by apply IH.
Qed.

Lemma unconfused_unique cmd cp argv :
  cmd ∈ table -> cp ∈ table -> unconfused cmd argv 0 (length (cmds cmd)) -> fits cp argv = true -> cp = cmd.
Proof.
  intros Hc Hp Hu Hf. destruct (table_diverge _ _ Hc Hp) as [->|Hd]; [done|]. exfalso.
  destruct (diverge_at _ _ Hd) as (i & w1 & w2 & H1 & H2 & Hne & Ht).
  destruct (abbreviates_at _ _ _ _ Hf H2) as (a & Ha & Hpre).
  pose proof (lookup_lt_Some _ _ _ H1) as Hi. specialize (Hu i cp ltac:(lia) Hp). unfold confusable in Hu.
  rewrite H1, H2 in Hu. replace (argv !! (i + 1)%nat) with (Some a) in Hu.
  2: { rewrite <- Ha. by destruct argv; [destruct i|rewrite Nat.add_1_r]. }
  rewrite (proj2 (streq_false w1 w2) Hne), Hpre, andb_true_r in Hu. cbn [negb] in Hu. rewrite andb_true_r in Hu.
  assert (Hag : agree i cmd cp = true); [|congruence]. unfold agree. apply forallb_forall. intros j Hj%in_seq.
  apply bool_decide_eq_true. rewrite <- (lookup_take_lt _ i j), Ht, lookup_take_lt by lia. done.
Qed.

(** ** What [parse_args] returns *)

(** [cp] is the command the arguments mean, and its arguments are [args]. *)
Record selected (cp : Command) (argv args : list string) : Prop := {
  sel_table : cp ∈ table;
  sel_fits : fits cp argv = true;
  sel_unique cp' : cp' ∈ table -> fits cp' argv = true -> cp' = cp;
  sel_enough : - nargs cp <= Z.of_nat (length argv) - ncmds cp - 1;
  sel_args : tail args = drop (length (cmds cp) + 1) argv;
  sel_name : exists prg, head args = Some (prg +:+ " " +:+ verb cp) }.

Definition parse_post (argv : list string) (o : result (Z * option (CommandFunction * list string))) : Prop :=
  match o with
  | Returned (r, Some (f, args)) => r = 1 /\ exists cp, func cp = f /\ selected cp argv args
  | Returned (r, None) => r ∈ [0; -1; -2; -20] /\ (r = -1 -> forall cp, cp ∈ table -> fits cp argv = false)
  | _ => False
  end.

Ltac parse_ret := apply wp_mret; split; [done|]; split; [apply (bool_decide_unpack _); by vm_compute|done].

Lemma table_nargs : Forall (fun cp => nargs cp < 0) table.
Proof. apply (bool_decide_unpack _). by vm_compute. Qed.

Lemma fits_length cp argv : fits cp argv = true -> (0 < length argv)%nat -> (length (cmds cp) < length argv)%nat.
Proof. intros H%abbreviates_length. destruct argv; simpl in *; lia. Qed.

Lemma wp_parse_args argv :
  argv <> [] -> wpm (parse_args argv) (fun o s => s = no_obs /\ parse_post argv o) no_obs.
Proof.
  intros Ha. assert (Hpos : (0 < length argv)%nat) by (destruct argv; [done|simpl; lia]).
  unfold parse_args. apply wp_bind, wp_argv_at; [done|]. intros a0 _. cbn [then_]. cbv zeta.
  apply wp_if; intros Hh.
  { apply wp_bind, wp_prints; [apply prints_help|]. cbn [then_]. parse_ret. }
  apply orb_false_iff in Hh as [[[Hl%Nat.ltb_ge _]%orb_false_iff _]%orb_false_iff _].
  apply wp_bind. fold table. apply wp_parse_loop; [done| |].
  - intros hr _ Hno. cbn [then_]. cbv beta iota. apply wp_if; intros Hr.
    { apply wp_bind, wp_printf. cbn [then_]. parse_ret. }
    apply wp_bind, wp_argv_at; [lia|]. intros w _. cbn [then_]. apply wp_bind, wp_eprintf. cbn [then_].
    apply wp_bind, wp_prints; [apply prints_help|]. cbn [then_]. apply wp_mret. split; [done|]. split; [|by intros _; apply Hno].
    apply (bool_decide_unpack _). by vm_compute.
  - intros hr cmd _ Hcmd Hfit. cbn [then_]. cbv beta iota. apply wp_if; intros Hr.
    { apply wp_bind, wp_printf. cbn [then_]. parse_ret. }
    cbv zeta. destruct (table_ncmds _ Hcmd) as [Hn Hw]. pose proof (fits_length _ _ Hfit Hpos) as Hlen.
    apply wp_bind. unfold check_ambiguity. rewrite Hn, Nat2Z.id.
    apply wp_ambiguity_loop; [done|lia..| |]; intros Hu; cbn [then_]; apply wp_if; try done; intros _; [|parse_ret].
    apply wp_if; intros H1; [apply wp_bind, wp_eprintf; cbn [then_]; parse_ret|].
    pose proof (proj1 (Forall_forall _ _) table_nargs _ Hcmd) as Hna. cbn beta in Hna.
    rewrite (proj2 (Z.ltb_lt (nargs cmd) 0)) in H1 by done. cbn [andb] in H1. apply Z.ltb_ge in H1.
    rewrite (proj2 (Z.leb_gt 0 (nargs cmd))) by done. cbn [andb].
    apply wp_bind, wp_prepare_args; cbn [then_].
    { apply wp_bind, wp_eprintf. cbn [then_]. parse_ret. }
    apply wp_mret. split; [done|]. split; [done|]. exists cmd. split; [done|].
    split; [done|done| |lia|done|by eexists].
    intros cp' Hcp' Hf'. by apply (unconfused_unique cmd cp' argv).
Qed.

(** ** Words in full *)

(** The words of a string, between single spaces. *)
Fixpoint words (s : string) : list string :=
  match s with
  | EmptyString => [EmptyString]
  | String c s' =>
      if Ascii.eqb c " "%char then EmptyString :: words s' else
      match words s' with
      | w :: ws => String c w :: ws
      | [] => [String c EmptyString]
      end
  end.

Definition full_ok : bool :=
  forallb (fun cp =>
    let ws := words (verb cp) in
    (length ws =? length (cmds cp))%nat && abbreviates ws (cmds cp) &&
    negb (existsb (fun w => streq w "--help") ws) &&
    negb (existsb (streq (default EmptyString (head ws))) ["help"; "-h"; "--help"]) &&
    forallb (fun i => forallb (fun cp' => negb (confusable cp (EmptyString :: ws) i cp')) table) (seq 0 (length ws))) table.

Lemma full_ok_true : full_ok = true.
Proof. by vm_compute. Qed.

Lemma confusable_ext cmd argv argv' i cp :
  argv !! (i + 1)%nat = argv' !! (i + 1)%nat -> confusable cmd argv i cp = confusable cmd argv' i cp.
Proof. intros H. unfold confusable. by rewrite H. Qed.

Lemma abbreviates_app ws as1 as2 : abbreviates as1 ws = true -> abbreviates (as1 ++ as2) ws = true.
Proof.
  revert as1. induction ws as [|w ws IH]; intros [|a as1]; simpl; [by destruct as2|done|done|].
  intros [-> H]%andb_true_iff. by apply IH.
Qed.

Record in_full (cp : Command) (prg : string) (args : list string) : Prop := {
  if_length : length (words (verb cp)) = length (cmds cp);
  if_fits : fits cp (prg :: words (verb cp) ++ args) = true;
  if_help : "--help" ∉ words (verb cp);
  if_first : exists w ws, words (verb cp) = w :: ws /\ w <> "help" /\ w <> "-h" /\ w <> "--help";
  if_unconfused : unconfused cp (prg :: words (verb cp) ++ args) 0 (length (cmds cp)) }.

Lemma table_in_full cp prg args : cp ∈ table -> in_full cp prg args.
Proof.
  intros Hc. destruct (table_ncmds _ Hc) as [_ Hpos]. pose proof full_ok_true as Hf. unfold full_ok in Hf. rewrite forallb_forall in Hf.
  apply list_elem_of_In in Hc. apply Hf in Hc. cbv zeta in Hc. clear Hf.
  apply andb_true_iff in Hc as [[[[H1%Nat.eqb_eq H2]%andb_true_iff H3%negb_true_iff]%andb_true_iff H4%negb_true_iff]%andb_true_iff H5].
  split; [done|by apply abbreviates_app| | |].
  - intros Hin. apply not_true_iff_false in H3. apply H3, existsb_exists. exists "--help".
    split; [by apply list_elem_of_In|done].
  - destruct (words (verb cp)) as [|w ws]; [simpl in H1; lia|]. exists w, ws. cbn [head default existsb] in H4.
    apply orb_false_iff in H4 as [H6%streq_false [H7%streq_false [H8%streq_false _]%orb_false_iff]%orb_false_iff]. done.
  - intros k cp' Hk Hcp'. rewrite forallb_forall in H5. specialize (H5 k). rewrite in_seq, H1 in H5.
    specialize (H5 ltac:(lia)). rewrite forallb_forall in H5. specialize (H5 cp' (proj1 (list_elem_of_In _ _) Hcp')).
    apply negb_true_iff in H5. rewrite <- H5. apply confusable_ext. rewrite !Nat.add_1_r. simpl.
    by apply lookup_app_l; lia.
Qed.

Lemma wp_parse_full cp prg args :
  cp ∈ table -> "--help" ∉ args -> - nargs cp <= Z.of_nat (length args) ->
  wpm (parse_args (prg :: words (verb cp) ++ args))
    (fun o _ => o = Returned (-20, None) \/ exists name, o = Returned (1, Some (func cp, name :: args))) no_obs.
Proof.
  intros Hc Hargs Hlen. destruct (table_in_full cp prg args Hc) as [H1 H2 H3 (w & ws & Hws & N1 & N2 & N3) H5].
  destruct (table_ncmds _ Hc) as [Hn Hpos].
  assert (Hnh : "--help" ∉ words (verb cp) ++ args) by (intros [?|?]%elem_of_app; done).
  set (argv := prg :: words (verb cp) ++ args) in *.
  assert (Hal : length argv = S (length (cmds cp) + length args)) by (unfold argv; simpl; rewrite length_app; lia).
  unfold parse_args. apply wp_bind, wp_argv_at; [lia|]. intros a0 _. cbn [then_]. cbv zeta.
  assert (Hfirst : (length argv <? 2)%nat || argv_is argv 1 "help" || argv_is argv 1 "-h" || argv_is argv 1 "--help" = false).
  { rewrite (proj2 (Nat.ltb_ge _ _)) by lia. unfold argv_is, argv. rewrite Hws. simpl.
    by rewrite !(proj2 (streq_false _ _)) by done. }
  rewrite Hfirst. apply wp_bind. fold table. apply wp_parse_loop; [done| |].
  - intros [|] [_ Ha] Hno; [by destruct Ha|]. by rewrite (Hno eq_refl cp Hc) in H2.
  - intros [|] cmd [_ Ha] Hcmd Hfit; [by destruct Ha|]. cbn [then_]. cbv beta iota zeta.
    assert (cmd = cp) as -> by by apply (unconfused_unique cp cmd argv).
    rewrite Hn, Nat2Z.id. apply wp_bind. unfold check_ambiguity. rewrite Hn, Nat2Z.id.
    apply wp_ambiguity_loop; [done|lia..| |done]. intros _. cbn [then_]. apply wp_if; [done|intros _].
    pose proof (proj1 (Forall_forall _ _) table_nargs _ Hc) as Hna. cbn beta in Hna.
    rewrite (proj2 (Z.ltb_ge (nargs cp) (- _))), andb_false_r by lia. rewrite (proj2 (Z.leb_gt 0 (nargs cp))) by done. cbn [andb].
    apply wp_bind, wp_prepare_args; cbn [then_].
    { apply wp_bind, wp_eprintf. cbn [then_]. by left. }
    apply wp_mret. right. eexists. do 4 f_equal. unfold argv. rewrite Nat.add_1_r. cbn [drop].
    by rewrite <- H1, drop_app_length.
Qed.

(** ** Splitting

    [split_command] finds the words, but keeps the space after every word
    that is neither the first nor the last. *)

Fixpoint spaced (ws : list string) : list string :=
  match ws with
  | [] => []
  | [w] => [w]
  | w :: ws => (w +:+ " ") :: spaced ws
  end.

Lemma spaced_cons w ws : ws <> [] -> spaced (w :: ws) = (w +:+ " ") :: spaced ws.
Proof. by destruct ws. Qed.

Lemma words_nil s : words s <> [].
Proof. destruct s as [|c s]; simpl; [done|]. destruct (Ascii.eqb c " "); [done|]. by destruct (words s). Qed.

Lemma strndup_app u p : strndup (u +:+ p) (String.length u) = u.
Proof. induction u as [|c u IH]; [by destruct p|exact (f_equal (String c) IH)]. Qed.

Lemma strndup_app1 u c p : strndup (u +:+ String c p) (S (String.length u)) = u +:+ String c "".
Proof. induction u as [|d u IH]; [by destruct p|exact (f_equal (String d) IH)]. Qed.

Lemma strndup_end u : strndup (u +:+ "") (S (String.length u)) = u.
Proof. induction u as [|d u IH]; [done|exact (f_equal (String d) IH)]. Qed.

Lemma string_snoc u c p : u +:+ String c p = (u +:+ String c "") +:+ p.
Proof. induction u as [|d u IH]; [done|exact (f_equal (String d) IH)]. Qed.

Lemma length_snoc u c : String.length (u +:+ String c "") = S (String.length u).
Proof. induction u as [|d u IH]; [done|exact (f_equal S IH)]. Qed.

Lemma string_nil_r u : u +:+ "" = u.
Proof. induction u as [|d u IH]; [done|exact (f_equal (String d) IH)]. Qed.

(** From a later word, and from the first one; [u] is what was read. *)
Lemma split_loop_next p u :
  split_loop p (u +:+ p) (S (String.length u)) =
    match words p with w :: ws => spaced ((u +:+ w) :: ws) | [] => [] end.
Proof.
  revert u. induction p as [|c p IH]; intros u; cbn [split_loop words].
  { by rewrite strndup_end, string_nil_r. }
  destruct (Ascii.eqb c " "%char) eqn:Hc; cbn [negb].
  - apply Ascii.eqb_eq in Hc as ->. rewrite strndup_app1, string_nil_r.
    rewrite spaced_cons by apply words_nil. change (split_loop p p 1) with (split_loop p ("" +:+ p) (S (String.length ""))). rewrite IH.
    by destruct (words p).
  - rewrite string_snoc, <- length_snoc with (c := c), IH. pose proof (words_nil p).
    destruct (words p) as [|w ws]; [done|]. by rewrite <- string_snoc.
Qed.

Lemma split_loop_first p u :
  split_loop p (u +:+ p) (String.length u) =
    match words p with w :: ws => (u +:+ w) :: spaced ws | [] => [] end.
Proof.
  revert u. induction p as [|c p IH]; intros u; cbn [split_loop words].
  { by rewrite strndup_app, string_nil_r. }
  destruct (Ascii.eqb c " "%char) eqn:Hc; cbn [negb].
  - rewrite strndup_app, string_nil_r. f_equal. change (split_loop p p 1) with (split_loop p ("" +:+ p) (S (String.length ""))).
    rewrite split_loop_next.
    by destruct (words p).
  - rewrite string_snoc, <- length_snoc with (c := c), IH. pose proof (words_nil p).
    destruct (words p) as [|w ws]; [done|]. by rewrite <- string_snoc.
Qed.

Lemma split_command_words cmd :
  split_command cmd = match words cmd with w :: ws => w :: spaced ws | [] => [] end.
Proof. apply (split_loop_first cmd ""). Qed.

(** ** The whole tool *)

Section Main.
Context {HM : Hmac} {HL : HmacLaws HM}.
Variables (junk : rpmb_frame) (fuel : nat).
Hypothesis Hjunk : frame_len junk.

(** Either no command was run and nothing reached the device, or the one
    that the arguments mean ran and did what [command_spec] says. *)
Definition main_post (argv : list string) (o : result unit) (s : obs) : Prop :=
  (s = no_obs /\ o ∈ [Exited 0; Exited 1; Exited 2; Exited 20]) \/
  exists cp args o', selected cp argv args /\ command_spec (func cp) args o' s /\
    o = match o' with Returned z | Exited z => Exited z | Undefined => Undefined | NoFuel => NoFuel end.

Lemma wp_mmc_main argv : argv <> [] -> wpm (mmc_main junk fuel argv) (main_post argv) no_obs.
Proof.
  intros Ha. unfold mmc_main. apply wp_bind. eapply wp_mono; [|by apply wp_parse_args].
  intros [[r [[f args]|]]| | |] s' [-> Hp]; cbn [then_ parse_post] in *; try done; cbv beta iota.
  - destruct Hp as (-> & cp & <- & Hsel). apply wp_if; [done|intros _].
    apply wp_bind. eapply wp_mono; [|by apply run_command_spec].
    intros o' s Hs. assert (Hm : forall o, o = match o' with Returned z | Exited z => Exited z | Undefined => Undefined | NoFuel => NoFuel end -> main_post argv o s).
    { intros o ->. right. by exists cp, args, o'. }
    destruct o'; by apply Hm.
  - destruct Hp as [Hr _]. left. split; [done|].
    repeat (apply elem_of_cons in Hr as [->|Hr]; [apply list_elem_of_In; vm_compute; tauto|]).
    by apply elem_of_nil in Hr.
Qed.
End Main.
