(* ===== verification/MmcExample.v ===== *)
(** * An outside for the eMMC tool

    A device with registers, blocks to read and input to give, as a
    function on a world: the theorems about every outside are instantiated
    with it.  A MAC that is the sum of the bytes stands for the HMAC. *)

From Stdlib Require Import Ascii String.
From S2P Require Import Prelude Bytes Prog CStr MmcSys MmcCmds MmcPartition MmcExtcsd MmcRpmb MmcMain MmcSpec.
From S2P Require Import MmcLimit MmcCard MmcFrames.

Open Scope Z_scope.

(** ** The outside *)

(** [w_fail] counts down to the ioctl that fails. *)
Record world := mkWorld {
  w_regs : list Z;
  w_blocks : list Z;
  w_input : list Z;
  w_fail : nat }.

(** [n] bytes, from [bs]. *)
Definition pad (n : nat) (bs : list Z) : list Z := u8 <$> take n (bs ++ replicate n 0).

Definition answer (c : mmc_ioc_cmd) (src : list Z) : ioctl_res :=
  mkIres 0 0 0 (if is_read c then pad (ioctl_size c) src else []).

Definition w_ioctl (c : mmc_ioc_cmd) (w : world) : ioctl_res * world :=
  if (w_fail w =? 1)%nat then (mkIres (-1) 5 0 [], w) else
  let w := mkWorld (w_regs w) (w_blocks w) (w_input w) (pred (w_fail w)) in
  if opcode c =? MMC_SWITCH then
    (answer c [], mkWorld (set_reg (w_regs w) (sw_index c) (sw_value c)) (w_blocks w) (w_input w) (w_fail w))
  else (answer c (if opcode c =? MMC_SEND_EXT_CSD then w_regs w else w_blocks w), w).

Definition w_call (R : Type) (c : syscall R) : world -> R * world :=
  match c in syscall R return world -> R * world with
  | Open _ _ => fun w => (3, w)
  | Ioctl _ c => w_ioctl c
  | Read _ n => fun w =>
      if n <? 0 then (inr EINVAL, w) else
      (inl (pad (Nat.min (Z.to_nat n) (length (w_input w))) (w_input w)),
       mkWorld (w_regs w) (w_blocks w) (drop (Z.to_nat n) (w_input w)) (w_fail w))
  | Write _ bs => fun w => (inl (Z.of_nat (length bs)), w)
  | Allocate _ => fun w => (true, w)
  | Close _ | Print _ _ _ | Putchar _ | Fwrite _ | Perror _ => fun w => (tt, w)
  end.

Lemma length_pad n bs : length (pad n bs) = n.
Proof. unfold pad. rewrite length_fmap, length_take, length_app, length_replicate. lia. Qed.

Lemma pad_ok n bs : Forall byte_ok (pad n bs).
Proof. unfold pad. apply Forall_fmap, Forall_true. intros x. apply (u8_range x). Qed.

Lemma answer_ok c src : ioctl_ok c (answer c src).
Proof.
  unfold answer. split; cbn [i_ret i_errno i_response i_data]; [by left|done|done| | | |].
  - destruct (is_read c); [apply pad_ok|constructor].
  - by intros ->.
  - destruct (is_read c); [by rewrite length_pad|simpl; lia].
  - intros -> _. apply length_pad.
Qed.

(** What a call can return. *)
Lemma w_call_ok R (c : syscall R) w : resp_ok c (w_call R c w).1.
Proof.
  destruct c; try done; cbn [w_call fst resp_ok mmc_syscalls].
  - unfold w_ioctl. destruct (w_fail w =? 1)%nat; cbn [fst].
    { split; cbn [i_ret i_errno i_response i_data]; [by right|done|done|constructor|done|apply Nat.le_0_l|done]. }
    destruct (opcode c =? MMC_SWITCH); apply answer_ok.
  - destruct (Z.ltb_spec n 0); [done|]. split; [rewrite length_pad; lia|apply pad_ok].
  - lia.
Qed.

(** A MAC. *)
#[export, refine] Instance sum_mac : Hmac := {
  hmac_ctx := Z;
  hmac_sha256_init key := sumZ key;
  hmac_sha256_update c m := c + sumZ m;
  hmac_sha256_final c n := replicate (Z.to_nat n) (u8 c);
  hmac_sha256 key m n := replicate (Z.to_nat n) (u8 (sumZ key + sumZ m)) }.
Defined.

Lemma sumZ_app l l' : sumZ (l ++ l') = sumZ l + sumZ l'.
Proof. unfold sumZ. induction l as [|x l IH]; simpl; lia. Qed.

#[export] Instance sum_mac_laws : HmacLaws sum_mac.
Proof.
  split; [done|]. intros key parts. cbn. do 2 f_equal.
  revert key. assert (H : forall c, fold_left (fun c m => c + sumZ m) parts c = c + sumZ (concat parts)).
  { induction parts as [|p parts IH]; intros c; simpl; [unfold sumZ; simpl; lia|].
    rewrite IH, sumZ_app. lia. }
  intros key. apply H.
Qed.

(** ** A card that answers *)

(** The next state of a card after an ioctl it can have answered. *)
Definition card_next (k : card) (x : mmc_ioc_cmd * ioctl_res) : option card :=
  let '(c, r) := x in
  if negb (i_ret r =? 0) then None else
  if opcode c =? MMC_SEND_EXT_CSD then
    if is_read c && bool_decide (i_data r = regs k) then Some k else None
  else if opcode c =? MMC_SWITCH then
    if sw_access c =? 3 then Some (mkCard (set_reg (regs k) (sw_index c) (sw_value c)) (switch_error k)) else None
  else if opcode c =? MMC_SEND_STATUS then
    if Bool.eqb (bits (i_response r) R1_SWITCH_ERROR) (switch_error k) then Some (mkCard (regs k) false) else None
  else None.

Fixpoint card_run (k : card) (l : list io) : option card :=
  match l with
  | [] => Some k
  | x :: l => match card_next k x with Some k => card_run k l | None => None end
  end.

(** Every register can be written. *)
Abbreviation all_settable := (fun (_ : list Z) (_ : Z) => true).

Lemma card_next_step k x k' : card_next k x = Some k' -> card_step all_settable k x k'.
Proof.
  destruct x as [c r], k as [e b]. unfold card_next.
  destruct (Z.eqb_spec (i_ret r) 0) as [Hr|]; [|done]. cbn [negb regs switch_error].
  destruct (Z.eqb_spec (opcode c) MMC_SEND_EXT_CSD) as [Ho|_].
  { destruct (is_read c && _) eqn:Hb; [|done]. apply andb_true_iff in Hb as [H1 H2%bool_decide_eq_true].
    intros [= <-]. by constructor. }
  destruct (Z.eqb_spec (opcode c) MMC_SWITCH) as [Ho|_].
  { destruct (Z.eqb_spec (sw_access c) 3); [|done]. intros [= <-]. by constructor. }
  destruct (Z.eqb_spec (opcode c) MMC_SEND_STATUS) as [Ho|_]; [|done].
  destruct (Bool.eqb _ b) eqn:Hb; [|done]. apply Bool.eqb_prop in Hb. intros [= <-]. by constructor.
Qed.

Lemma card_run_steps k l k' : card_run k l = Some k' -> card_steps all_settable k l k'.
Proof.
  revert k. induction l as [|x l IH]; intros k; simpl; [by intros [= <-]|].
  destruct (card_next k x) as [k1|] eqn:Hk; [|done]. intros H. exists k1. split; [by apply card_next_step|by apply IH].
Qed.

(** ** Worlds *)

(** An unpartitioned card of 8 GiB that can have enhanced areas. *)
Definition example_regs : list Z :=
  fold_left (fun e p => set_reg e p.1 p.2)
    [(160, 3); (212, 0); (213, 0); (214, 0); (215, 1); (221, 16); (224, 1); (157, 0); (158, 2); (159, 0); (192, 6)]
    (replicate 512 0).

Definition example_world : world := mkWorld example_regs [] [] 0.

Lemma example_regs_ok : regs_ok example_regs.
Proof. split; [by vm_compute|]. apply (bool_decide_unpack _). by vm_compute. Qed.
