(* ===== verification/MmcTheorems.v ===== *)
(** * Properties of the eMMC tool

    About every execution, whatever the device and the system answer; the
    witnesses run the tool on the outside of MmcExample. *)

From Stdlib Require Import Ascii String.
From S2P Require Import Prelude Bytes Prog CStr MmcSys MmcCmds MmcPartition MmcExtcsd MmcRpmb MmcMain MmcSpec.
From S2P Require Import MmcLimit MmcCard MmcIo MmcFrames MmcSafety MmcEnhArea MmcRpmbSpec MmcMainSpec MmcExample.

Open Scope Z_scope.

(** An execution, from a rule. *)
Lemma by_rule {A} (p : mmc A) (Q : result A -> obs -> Prop) tr o :
  wpm p Q no_obs -> exec p tr o -> Q o (observed tr).
Proof. intros H He. exact (wp_sound see p Q no_obs tr o H He). Qed.

(** An execution on the example outside. *)
Lemma example_exec {A} (p : mmc A) (w : world) tr o :
  run_trace w_call p w = tr -> (run w_call p w).1 = o -> exec p tr o.
Proof. intros <- <-. apply run_exec, w_call_ok. Qed.

Definition enh_area_argv : list string := ["mmc"; "enh_area"; "set"; "-y"; "1048576"; "16384"; "/dev/block/mmcblk0"].

Abbreviation enh_area_run := (mmc_main zero_frame 0 enh_area_argv).

Section Tool.
Context {HM : Hmac} {HL : HmacLaws HM}.
Variables (junk : rpmb_frame) (fuel : nat).

(** C6. The one-time programmable PARTITION_SETTING_COMPLETED register is
    never written by accident: when the tool writes it, the command line
    means either the raw [extcsd write] or one of the three partition
    commands with [-y] as its first argument, in which case the registers
    read first showed a device that was not partitioned yet. *)
Theorem completed_only_on_request argv tr o :
  frame_len junk -> argv <> [] -> exec (mmc_main junk fuel argv) tr o ->
  switches EXT_CSD_PARTITION_SETTING_COMPLETED (ios (observed tr)) = true ->
  exists cp args, selected cp argv args /\
    (func cp = Do_write_extcsd_byte \/
     (partition_cmd (func cp) = true /\ args !! 1%nat = Some "-y" /\
      byte (first_regs (ios (observed tr))) EXT_CSD_PARTITION_SETTING_COMPLETED = 0)).
Proof.
  intros Hj Ha He Hs. apply by_rule with (Q := main_post argv) in He; [|by apply wp_mmc_main].
  destruct He as [[Hn _]|(cp & args & o' & Hsel & Hc & _)]; [by rewrite Hn in Hs|].
  exists cp, args. split; [done|]. by apply Hc.
Qed.

(** C16. Errors of the device stop the tool: no ioctl follows one that
    failed, and the exit status is 1, with one exception.  When a partition
    command with [-y] has got as far as the one-time write of
    PARTITION_SETTING_COMPLETED, which is then the last ioctl but for the
    status query after it, and one of these two is the one that failed, the
    exit status is 0. *)
Theorem failed_ioctl_stops argv tr o :
  frame_len junk -> argv <> [] -> exec (mmc_main junk fuel argv) tr o ->
  let l := ios (observed tr) in
  let completed cp := partition_cmd (func cp) && switches EXT_CSD_PARTITION_SETTING_COMPLETED l in
  fail_last l /\
  (failed l = true ->
   exists cp args, selected cp argv args /\ o = Exited (if completed cp then 0 else 1) /\
     (completed cp = true -> args !! 1%nat = Some "-y" /\ completing l)).
Proof.
  intros Hj Ha He. apply by_rule with (Q := main_post argv) in He; [|by apply wp_mmc_main].
  destruct He as [[-> _]|(cp & args & o' & Hsel & [H1 H2 H3 H4 _ _] & Ho)]; [by split|]. split; [done|].
  intros Hf. exists cp, args. split; [done|]. rewrite (H2 Hf) in Ho. split; [by destruct (_ && _)|].
  intros [Hp Hs]%andb_true_iff. split; [|by apply H3]. destruct (H4 Hs) as [E|(_ & Hy & _)]; [by rewrite E in Hp|done].
Qed.

(** C17. The only undefined behaviour of the tool: shifting by an unchecked
    partition number in [write_reliability set], a device that reports a
    group size of zero in the two commands that divide by it, and partition
    0 with an extended attribute in [gp create].  In particular no index is
    out of range, no null argument is read, and no uninitialised counter is
    used. *)
Theorem undefined_causes argv tr :
  frame_len junk -> argv <> [] -> exec (mmc_main junk fuel argv) tr Undefined ->
  exists cp args, selected cp argv args /\ ub_cause (func cp) args (ios (observed tr)).
Proof.
  intros Hj Ha He. apply by_rule with (Q := main_post argv) in He; [|by apply wp_mmc_main].
  destruct He as [[_ Hn]|(cp & args & o' & Hsel & Hc & Ho)].
  { repeat (apply elem_of_cons in Hn as [Hn|Hn]; [done|]). by apply elem_of_nil in Hn. }
  exists cp, args. split; [done|]. apply Hc. by destruct o'.
Qed.
End Tool.

Lemma completed_only_on_request_witness :
  exec enh_area_run (run_trace w_call enh_area_run example_world) (Exited 1) /\
  exists cp args, selected cp enh_area_argv args /\
    (func cp = Do_write_extcsd_byte \/
     (partition_cmd (func cp) = true /\ args !! 1%nat = Some "-y" /\
      byte (first_regs (ios (observed (run_trace w_call enh_area_run example_world))))
        EXT_CSD_PARTITION_SETTING_COMPLETED = 0)).
Proof.
  assert (He : exec enh_area_run (run_trace w_call enh_area_run example_world) (Exited 1)).
  { apply (example_exec _ example_world); [done|by vm_compute]. }
  split; [exact He|].
  apply (completed_only_on_request zero_frame 0 enh_area_argv _ (Exited 1));
    [apply zero_frame_ok|discriminate|exact He|by vm_compute].
Defined.

(** The same, on a device whose last ioctl fails. *)
Definition failing_world : world := mkWorld example_regs [] [] 12.

Abbreviation failing_ios := (ios (observed (run_trace w_call enh_area_run failing_world))).

Lemma failed_ioctl_stops_witness :
  failed failing_ios = true /\
  exists cp args, selected cp enh_area_argv args /\
    Exited (A := ()) 0 = Exited (if partition_cmd (func cp) && switches EXT_CSD_PARTITION_SETTING_COMPLETED failing_ios then 0 else 1) /\
    (partition_cmd (func cp) && switches EXT_CSD_PARTITION_SETTING_COMPLETED failing_ios = true ->
     args !! 1%nat = Some "-y" /\ completing failing_ios).
Proof.
  split; [by vm_compute|].
  apply (failed_ioctl_stops zero_frame 0 enh_area_argv (run_trace w_call enh_area_run failing_world) (Exited 0));
    [apply zero_frame_ok|discriminate|apply (example_exec _ failing_world); [done|by vm_compute]|by vm_compute].
Defined.

(** A device with a group size of zero. *)
Definition zero_group_world : world := mkWorld (set_reg example_regs 221 0) [] [] 0.

Lemma undefined_causes_witness :
  exists cp args, selected cp enh_area_argv args /\
    ub_cause (func cp) args (ios (observed (run_trace w_call enh_area_run zero_group_world))).
Proof.
  apply (undefined_causes zero_frame 0 enh_area_argv (run_trace w_call enh_area_run zero_group_world));
    [apply zero_frame_ok|discriminate|apply (example_exec _ zero_group_world); [done|by vm_compute]].
Defined.

(** ** Partitioning *)

(** C26. [check_enhanced_area_total_limit] reads the registers once and, when
    nothing exceeds 4 TiB, answers 0 exactly when the enhanced areas fit
    MAX_ENH_SIZE_MULT and all partitions together fit the capacity, as sums
    over the integers; otherwise it answers 1. *)
Theorem check_limit_exact device fd tr o :
  exec (check_enhanced_area_total_limit device fd) tr o ->
  exists r, ios (observed tr) = [(read_cmd, r)] /\
    if i_ret r =? 0 then
      (o = Returned 0 \/ o = Returned 1) /\
      (total_kib (i_data r) < 2 ^ 32 -> max_enhanced_kib (i_data r) < 2 ^ 32 ->
       o = Returned 0 <-> limits_ok (i_data r))
    else o = Exited 1.
Proof.
  intros He. pattern o, (observed tr). eapply by_rule; [|exact He]. clear.
  apply wp_check_limit; intros r Hr; [intros Hk|];
    exists r; (split; [done|]); rewrite Hr; [|done].
  destruct (limit_value_cases (i_data r)) as [Hv|Hv]; (split; [rewrite Hv; auto|]); intros Ht Hm;
    rewrite <- (limit_value_exact _ Hk Ht Hm); split; congruence.
Qed.

Lemma check_limit_exact_witness :
  exists r, ios (observed (run_trace w_call (check_enhanced_area_total_limit "" 3) example_world)) = [(read_cmd, r)] /\
    if i_ret r =? 0 then
      (Returned 0 = Returned 0 \/ Returned 0 = Returned 1) /\
      (total_kib (i_data r) < 2 ^ 32 -> max_enhanced_kib (i_data r) < 2 ^ 32 ->
       Returned 0 = Returned 0 <-> limits_ok (i_data r))
    else Returned 0 = Exited 1.
Proof.
  apply (check_limit_exact "" 3 _ (Returned 0)). apply (example_exec _ example_world); [done|by vm_compute].
Defined.

(** C8. On a card that can have enhanced areas, is not partitioned and has
    nonzero group sizes, [enh_area set] refines one update of the register
    file: ENH_START_ADDR holds the requested start in the card's address
    unit rounded down to a group, ENH_SIZE_MULT the requested length in
    groups rounded to the nearest, the attribute bit and ERASE_GROUP_DEF are
    set, every other register keeps its value; and
    PARTITION_SETTING_COMPLETED is programmed exactly when the limits allow
    the result and the first argument is [-y]. *)
Theorem enh_area_set_refines settable e0 argv tr o k :
  regs_ok e0 -> (forall e i, i ∈ enh_area_indices -> settable e i = true) ->
  (forall e, settable e EXT_CSD_PARTITION_SETTING_COMPLETED = true) ->
  byte e0 221 <> 0 /\ byte e0 224 <> 0 ->
  bits (byte e0 EXT_CSD_PARTITIONING_SUPPORT) EXT_CSD_ENH_ATTRIBUTE_EN = true ->
  byte e0 EXT_CSD_PARTITION_SETTING_COMPLETED = 0 -> length argv = 5%nat ->
  exec (do_enh_area_set argv) tr o ->
  card_steps settable (mkCard e0 false) (ios (observed tr)) k ->
  (ios (observed tr) = [] /\ o = Exited 1 /\ k = mkCard e0 false) \/
  enh_area_outcome e0 (yes argv) (u32 (argz argv 2)) (u32 (argz argv 3)) o k.
Proof.
  intros H1 H2 H3 H4 H5 H6 H7 He Hk.
  apply by_rule with (Q := enh_area_post settable e0 (yes argv) (u32 (argz argv 2)) (u32 (argz argv 3))) in He;
    [|by apply wp_enh_area_card].
  destruct He as [[Hn ->]|[_ Ho]]; [left|right; by apply Ho].
  rewrite Hn in Hk. by rewrite Hn.
Qed.

Abbreviation enh_args := (["mmc enh_area set"; "-y"; "1048576"; "16384"; "/dev/block/mmcblk0"] : list string).
Abbreviation enh_trace := (run_trace w_call (do_enh_area_set enh_args) example_world).
Abbreviation enh_card :=
  (mkCard (set_reg (enh_area_regs example_regs 2097152 2) EXT_CSD_PARTITION_SETTING_COMPLETED 1) false).

Lemma enh_area_set_refines_witness :
  (ios (observed enh_trace) = [] /\ Exited 1 = Exited (A := Z) 1 /\ enh_card = mkCard example_regs false) \/
  enh_area_outcome example_regs true 1048576 16384 (Exited 1) enh_card.
Proof.
  apply (enh_area_set_refines all_settable example_regs enh_args enh_trace (Exited 1) enh_card);
    [apply example_regs_ok|done|done|by vm_compute|by vm_compute|by vm_compute|done| |].
  - apply (example_exec _ example_world); [done|by vm_compute].
  - apply card_run_steps. by vm_compute.
Defined.

(** ** The replay protected memory block *)

(** C34. [DO_IO(read, ...)] ends: with no more than [k] interrupted calls in
    a row, [(k + 1) * nbyte] turns are enough whatever the sizes of the
    reads.  It makes no calls but reads, each asking for the bytes that are
    missing, and returns the bytes they brought, in order.  A read that
    brings too few bytes, or is interrupted, never ends it.  It ends with
    the last missing byte, with a read of 0 bytes, or with a failed read,
    and its value is then [nbyte], the number of bytes read, or -1. *)
Theorem do_io_read_terminates fuel fd nbyte k tr o :
  0 < nbyte -> exec (do_io_read fuel fd [] nbyte) tr o -> interrupts k k tr ->
  (Z.to_nat nbyte * (k + 1) <= fuel)%nat ->
  exists e, o = Returned (io_value nbyte (Z.of_nat (length (bytes_read tr))) e, bytes_read tr) /\ io_ends fd nbyte tr e.
Proof.
  intros Hn He Hi Hf.
  destruct (do_io_read_ends fuel fd [] nbyte k k tr o He Hi) as (e & -> & H);
    [done|simpl; lia| |exists e; split; [done|]; by rewrite Z.sub_0_r in H].
  change (Z.of_nat (length [])) with 0. rewrite Z.sub_0_r.
  replace (Z.to_nat nbyte) with (S (Z.to_nat (nbyte - 1))) in Hf by lia. lia.
Qed.

(** Two bytes, an interruption, and the third. *)
Definition read_events : list (event syscall) :=
  [Ev (Read 0 3) (inl [7; 8]); Ev (Read 0 1) (inr EINTR); Ev (Read 0 1) (inl [9])].

Lemma do_io_read_terminates_witness :
  exists e, Returned (3, [7; 8; 9]) = Returned (io_value 3 (Z.of_nat (length (bytes_read read_events))) e, bytes_read read_events) /\
    io_ends 0 3 read_events e.
Proof.
  apply (do_io_read_terminates 6 0 3 1 read_events (Returned (3, [7; 8; 9])));
    [lia| |cbn; lia|cbn; lia].
  assert (Hr : forall n bs, Z.of_nat (length bs) <= n -> Forall byte_ok bs -> resp_ok (Read 0 n) (inl bs : list Z + Z)) by done.
  eexists _, _. split; [apply (Hr 3 [7; 8]); [simpl; lia|by repeat constructor]|split; [reflexivity|]].
  eexists _, _. split; [|split; [reflexivity|]]; [done|].
  eexists _, _. split; [apply (Hr 1 [9]); [simpl; lia|by repeat constructor]|split; [reflexivity|done]].
Defined.

(** C25. [do_rpmb_op] follows the script of the request's type: a write or a
    key sends the request reliably, then a result request, and reads the
    answer; a read or a counter request sends the request and reads the
    answer frames; anything else sends nothing.  It stops at the first
    ioctl that fails and then returns a nonzero value; it returns 0 only
    after the whole script, and then the frames are exactly the bytes the
    last ioctl brought back. *)
Theorem do_rpmb_op_follows_script fd fin fout n tr o :
  frame_len fin -> Forall frame_len fout -> n = Z.of_nat (length fout) -> 0 < n ->
  exec (do_rpmb_op fd (Some fin) (Some fout) n) tr o ->
  exists rs ret fs, o = Returned (ret, fs) /\
    ios (observed tr) = zip (rpmb_script fin fout n) rs /\
    rpmb_run (rpmb_script fin fout n) (length fout) rs ret fs.
Proof.
  intros H1 H2 H3 H4 He. pattern o, (observed tr). eapply by_rule; [|exact He].
  apply wp_do_rpmb_op; [done..|]. intros rs ret fs Hr. by exists rs, ret, fs.
Qed.

(** A device whose frames hold counter 7 and result 0. *)
Definition counter_frame : rpmb_frame := set_write_counter (htobe32 7) zero_frame.
Definition counter_world (input : list Z) : world := mkWorld [] (frame_bytes counter_frame) input 0.
Abbreviation counter_op := (do_rpmb_op 3 (Some counter_request) (Some [zero_frame]) 1).

Lemma do_rpmb_op_follows_script_witness :
  exists rs ret fs, Returned (0, [counter_frame]) = Returned (ret, fs) /\
    ios (observed (run_trace w_call counter_op (counter_world []))) = zip (rpmb_script counter_request [zero_frame] 1) rs /\
    rpmb_run (rpmb_script counter_request [zero_frame] 1) (length [zero_frame]) rs ret fs.
Proof.
  apply (do_rpmb_op_follows_script 3 counter_request [zero_frame] 1
    (run_trace w_call counter_op (counter_world [])) (Returned (0, [counter_frame])));
    [by vm_compute|by repeat constructor|done|lia|].
  apply (example_exec _ (counter_world [])); [done|by vm_compute].
Defined.

Section Blocks.
Context {HM : Hmac} {HL : HmacLaws HM}.
Variables (junk : rpmb_frame) (fuel : nat).

(** C10. [rpmb read-block] outputs nothing but authentic data: any byte it
    writes comes, in order, from the data of the frames of one successful
    answer of the device whose result code is 0 and, when a key is given,
    whose MAC is the HMAC of those frames under the 32 bytes of the key;
    and when the command returns, all of the data was written. *)
Theorem read_block_authentic argv tr o :
  exec (do_rpmb_read_block fuel argv) tr o ->
  (outs (observed tr) <> [] -> exists frames, block_answer argv (observed tr) frames) /\
  (forall z, o = Returned z -> exists frames, block_answer argv (observed tr) frames /\
     concat (snd <$> outs (observed tr)) = concat (data <$> frames)).
Proof.
  intros He. apply by_rule with (Q := read_block_spec argv) in He; [|by apply do_rpmb_read_block_full].
  destruct He as [_ H1 H2]. by split.
Qed.

(** C29. When [rpmb write-block] returns, one block was written as the
    protocol asks: after reading the write counter, it sent one frame that
    carries that counter, the 256 bytes of the input, the address, block
    count 1 and the HMAC of all of these under the 32 bytes of the key; and
    the device answered both operations with result 0. *)
Theorem write_block_authentic argv tr z :
  frame_len junk -> exec (do_rpmb_write_block junk fuel argv) tr (Returned z) ->
  z = 0 /\ exists f1 fin f2, block_written junk argv (observed tr) f1 fin f2.
Proof.
  intros Hj He. apply by_rule with (Q := write_block_post junk argv) in He; [|by apply do_rpmb_write_block_full].
  by apply He.
Qed.
End Blocks.

(** Two frames of data, with the MAC of a key of ones in the last. *)
Definition example_key : list Z := replicate 32 1.
Definition data_frames : list rpmb_frame :=
  let f1 := set_data (replicate 256 5) zero_frame in
  let f2 := set_data (replicate 256 6) zero_frame in
  [f1; set_key_mac (hmac_sha256 example_key (concat (mac_part <$> [f1; f2])) 32) f2].
Definition data_world : world := mkWorld [] (frames_bytes data_frames) example_key 0.
Abbreviation read_block_args := (["mmc rpmb read-block"; "/dev/block/mmcblk0rpmb"; "0x02"; "2"; "-"; "-"] : list string).
Abbreviation read_block_run := (do_rpmb_read_block 600 read_block_args).

Lemma read_block_authentic_witness :
  outs (observed (run_trace w_call read_block_run data_world)) <> [] /\
  (exists frames, block_answer read_block_args (observed (run_trace w_call read_block_run data_world)) frames) /\
  (exists frames, block_answer read_block_args (observed (run_trace w_call read_block_run data_world)) frames /\
     concat (snd <$> outs (observed (run_trace w_call read_block_run data_world))) = concat (data <$> frames)).
Proof.
  assert (Ho : outs (observed (run_trace w_call read_block_run data_world)) <> []) by by vm_compute.
  destruct (read_block_authentic 600 read_block_args (run_trace w_call read_block_run data_world) (Returned 256)) as [H1 H2].
  { apply (example_exec _ data_world); [done|by vm_compute]. }
  split; [exact Ho|]. split; [exact (H1 Ho)|exact (H2 256 eq_refl)].
Defined.

Abbreviation write_block_args := (["mmc rpmb write-block"; "/dev/block/mmcblk0rpmb"; "0x02"; "-"; "-"] : list string).
Abbreviation write_block_run := (do_rpmb_write_block zero_frame 600 write_block_args).
Definition write_world : world := counter_world (replicate 256 9 ++ example_key).

Lemma write_block_authentic_witness :
  0 = 0 /\ exists f1 fin f2,
    block_written zero_frame write_block_args (observed (run_trace w_call write_block_run write_world)) f1 fin f2.
Proof.
  apply (write_block_authentic zero_frame 600 write_block_args); [apply zero_frame_ok|].
  apply (example_exec _ write_world); [done|by vm_compute].
Defined.

(** A frame read back from the 512 bytes it was laid out in is the same
    frame, for arrays of frames of any length. *)
Theorem frames_read_back fs :
  Forall frame_ok fs -> length (frames_bytes fs) = (512 * length fs)%nat /\ frames_of (length fs) (frames_bytes fs) = fs.
Proof.
  intros H. split; [|by apply frames_roundtrip]. apply length_frames_bytes.
  eapply Forall_impl; [exact H|]. by intros f [].
Qed.

Lemma frames_read_back_witness :
  length (frames_bytes data_frames) = (512 * 2)%nat /\ frames_of 2 (frames_bytes data_frames) = data_frames.
Proof. apply (frames_read_back data_frames). by repeat constructor. Defined.

(** ** The command line *)

(** C19. Whatever the argument vector, parsing it is never undefined and
    nothing reaches the device.  When a command is selected, it is the only
    one of the table whose words the arguments abbreviate, the arguments it
    needs are there, and it gets what follows its words; the value -1 is
    only for arguments that no command fits. *)
Theorem parse_args_selects argv tr o :
  argv <> [] -> exec (parse_args argv) tr o -> observed tr = no_obs /\ parse_post argv o.
Proof.
  intros Ha He. apply by_rule with (Q := fun o s => s = no_obs /\ parse_post argv o) in He; [done|].
  by apply wp_parse_args.
Qed.

Abbreviation short_argv := (["mmc"; "ex"; "re"; "/dev/block/mmcblk0"] : list string).

Lemma parse_args_selects_witness :
  observed (run_trace w_call (parse_args short_argv) example_world) = no_obs /\
  parse_post short_argv (Returned (1, Some (Do_read_extcsd, ["mmc extcsd read"; "/dev/block/mmcblk0"]))).
Proof.
  apply parse_args_selects; [done|]. apply (example_exec _ example_world); [done|by vm_compute].
Defined.

(** Every command of the table can be reached: its words typed in full,
    followed by enough arguments without [--help], select it with exactly
    these arguments, unless memory runs out. *)
Theorem command_in_full_selected cp prg args tr o :
  cp ∈ table -> "--help" ∉ args -> - nargs cp <= Z.of_nat (length args) ->
  exec (parse_args (prg :: words (verb cp) ++ args)) tr o ->
  o = Returned (-20, None) \/ exists name, o = Returned (1, Some (func cp, name :: args)).
Proof.
  intros Hc Ha Hl He.
  apply by_rule with (Q := fun o _ => o = Returned (-20, None) \/ exists name, o = Returned (1, Some (func cp, name :: args))) in He;
    [done|]. by apply wp_parse_full.
Qed.

Abbreviation emulation_argv := (["mmc"; "disable"; "512B"; "emulation"; "/dev/block/mmcblk0"] : list string).

Lemma command_in_full_selected_witness :
  Returned (1, Some (Do_disable_512B_emulation, ["mmc disable 512B emulation"; "/dev/block/mmcblk0"])) =
    Returned (-20, None) \/
  exists name, Returned (1, Some (Do_disable_512B_emulation, ["mmc disable 512B emulation"; "/dev/block/mmcblk0"])) =
    Returned (1, Some (Do_disable_512B_emulation, name :: ["/dev/block/mmcblk0"])).
Proof.
  apply (command_in_full_selected (nth 5 table (mkCommand Do_cache_dis 0 "" "" None [] 0)) "mmc" ["/dev/block/mmcblk0"]
    (run_trace w_call (parse_args emulation_argv) example_world)).
  - apply list_elem_of_In, nth_In. cbn. lia.
  - apply (bool_decide_unpack _). by vm_compute.
  - by vm_compute.
  - apply (example_exec _ example_world); [done|by vm_compute].
Defined.

(** [split_command] yields the words between the spaces of a verb, in
    order and none lost; a word that is neither the first nor the last
    keeps the space after it. *)
Theorem split_command_is_words cmd :
  split_command cmd = match words cmd with w :: ws => w :: spaced ws | [] => [] end.
Proof. apply split_command_words. Qed.
