(* ===== verification/LightHal.v ===== *)
(** * liblight/lights.c: the lights HAL

    The static variables of the file are the record [globals], threaded by
    the state monad [hal] over programs that call the system.  [write_int]
    and [is_lit] are modelled call by call; [errno] is itself a call, since
    [close] and the logging between a failure and its use may change it.

    The constants of hardware/lights.h, which is not part of the repository,
    are the class [LightsH].  A null [struct light_state_t] pointer is
    [None]. *)

From Stdlib Require Import Ascii String.
From stdpp Require Import pretty.
From S2P Require Import Prelude Bytes Prog StProg CStr.

Open Scope Z_scope.

(** ** Data *)

Record light_state_t := mkLight {
  color : Z;
  flashMode : Z;
  flashOnMS : Z;
  flashOffMS : Z;
  brightnessMode : Z }.

(** [color] is an [unsigned int], the others are [int]s. *)
Definition int_ok (x : Z) : Prop := - 2 ^ 31 <= x < 2 ^ 31.
Record light_ok (l : light_state_t) : Prop := {
  lo_color : 0 <= color l < 2 ^ 32;
  lo_mode : int_ok (flashMode l);
  lo_on : int_ok (flashOnMS l);
  lo_off : int_ok (flashOffMS l) }.

Class LightsH := {
  LIGHT_FLASH_NONE : Z;
  LIGHT_FLASH_TIMED : Z;
  LIGHT_FLASH_HARDWARE : Z;
  LIGHT_ID_BACKLIGHT : string;
  LIGHT_ID_ATTENTION : string;
  LIGHT_ID_NOTIFICATIONS : string;
  LIGHT_ID_BATTERY : string;
  LIGHT_ID_BUTTONS : string }.

Definition zero_light : light_state_t := mkLight 0 0 0 0 0.

(** [g_init] is whether [pthread_once] has run [init_globals]. *)
Record globals := mkGlobals {
  g_init : bool;
  g_notification : light_state_t;
  g_battery : light_state_t;
  g_attention : Z;
  already_warned : Z;
  already_warn_2 : Z }.

Definition globals0 : globals := mkGlobals false zero_light zero_light 0 0 0.

Definition RED_LED_FILE : string := "/sys/class/leds/red/brightness".
Definition GREEN_LED_FILE : string := "/sys/class/leds/green/brightness".
Definition BLUE_LED_FILE : string := "/sys/class/leds/blue/brightness".
Definition LCD_FILE : string := "/sys/class/leds/lcd-backlight/brightness".
Definition BUTTON_FILE : string := "/sys/class/leds/button-backlight/brightness".
Definition RED_BLINK_FILE : string := "/sys/class/leds/red/blink".
Definition GREEN_BLINK_FILE : string := "/sys/class/leds/green/blink".
Definition BLUE_BLINK_FILE : string := "/sys/class/leds/blue/blink".
Definition BATTERY_STATUS : string := "/sys/class/power_supply/battery/status".

(** ** Calls *)

Inductive larg := LZ (z : Z) | LS (s : string).

(** [LRead fd n] gives the bytes read, or [None] for a result of -1. *)
Inductive lcall : Type -> Type :=
| LOpen (path : string) (rdwr : bool) : lcall Z
| LClose (fd : Z) : lcall unit
| LWrite (fd : Z) (text : string) : lcall Z
| LRead (fd n : Z) : lcall (option (list Z))
| Errno : lcall Z
| Log (fmt : string) (args : list larg) : lcall unit
| MutexInit : lcall unit
| Lock : lcall unit
| Unlock : lcall unit
| Malloc : lcall bool
| Free : lcall unit.

#[export] Instance light_calls : Syscalls lcall := fun R c =>
  match c in lcall R return R -> Prop with
  | LOpen _ _ => fun fd => -1 <= fd < 2 ^ 31
  | LWrite _ text => fun n => -1 <= n <= Z.of_nat (String.length text)
  | LRead _ n => fun r => match r with Some bs => Z.of_nat (length bs) <= n /\ Forall byte_ok bs | None => True end
  | Errno => fun e => 0 < e < 2 ^ 15
  | _ => fun _ => True
  end.

(** ** The static variables *)

Abbreviation hal := (stprog globals lcall).

Definition set_warned (v : Z) (g : globals) : globals :=
  mkGlobals (g_init g) (g_notification g) (g_battery g) (g_attention g) v (already_warn_2 g).
Definition set_warn_2 (v : Z) (g : globals) : globals :=
  mkGlobals (g_init g) (g_notification g) (g_battery g) (g_attention g) (already_warned g) v.
Definition set_notification (l : light_state_t) (g : globals) : globals :=
  mkGlobals (g_init g) l (g_battery g) (g_attention g) (already_warned g) (already_warn_2 g).
Definition set_battery (l : light_state_t) (g : globals) : globals :=
  mkGlobals (g_init g) (g_notification g) l (g_attention g) (already_warned g) (already_warn_2 g).
Definition set_attention (v : Z) (g : globals) : globals :=
  mkGlobals (g_init g) (g_notification g) (g_battery g) v (already_warned g) (already_warn_2 g).
Definition set_init (g : globals) : globals :=
  mkGlobals true (g_notification g) (g_battery g) (g_attention g) (already_warned g) (already_warn_2 g).

(** ** Files *)

(** [sprintf(buffer, "%d\n", value)], and the size of [buffer]. *)
Definition int_line (value : Z) : string := (pretty value +:+ nl)%string.
Definition int_buffer : nat := 20.

Definition write_int (path : string) (value : Z) : hal Z :=
  fd ← do_call (LOpen path true);
  if 0 <=? fd then
    let buffer := int_line value in
    if (int_buffer <=? String.length buffer)%nat then st_undef else
    amt ← do_call (LWrite fd buffer);
    do_call (LClose fd);;
    if amt =? -1 then
      errno ← do_call Errno;
      mret (- errno)
    else mret 0
  else
    warned ← gets already_warned;
    when_s (warned =? 0) (
      do_call (Log "write_int failed to open %s\n" [LS path]);;
      modify (set_warned 1));;
    errno ← do_call Errno;
    mret (- errno).

(** What [is_lit] makes of the bytes it read: [buf[len] = 0], and a line
    feed at the end becomes the end of the string. *)
Definition status_lit (bs : list Z) : bool :=
  let len := length bs in
  if (len <? 3)%nat then false else
  let buf := bs ++ [0] in
  let buf := if default 0 (buf !! (len - 1)%nat) =? 10 then <[(len - 1)%nat := 0]> buf else buf in
  streq (cstring buf) "Charging" || streq (cstring buf) "Full".

Definition is_lit : hal bool :=
  fd ← do_call (LOpen BATTERY_STATUS false);
  if fd <? 0 then
    warned ← gets already_warn_2;
    when_s (warned =? 0) (
      do_call (Log "is_lit failed to open %s\n" [LS BATTERY_STATUS]);;
      modify (set_warn_2 1));;
    mret false
  else
    r ← do_call (LRead fd (24 - 2));
    do_call (LClose fd);;
    match r with
    | None => mret false
    | Some bs => mret (status_lit bs)
    end.

(** ** Lights *)

(** The components of a colour. *)
Definition red_of (c : Z) : Z := Z.land (Z.shiftr c 16) 0xff.
Definition green_of (c : Z) : Z := Z.land (Z.shiftr c 8) 0xff.
Definition blue_of (c : Z) : Z := Z.land c 0xff.

Definition rgb_to_brightness (state : light_state_t) : Z :=
  let color := Z.land (color state) 0x00ffffff in
  Z.shiftr (77 * red_of color + 150 * green_of color + 29 * blue_of color) 8.

Definition set_light_backlight (state : light_state_t) : hal Z :=
  let brightness := rgb_to_brightness state in
  do_call Lock;;
  err ← write_int LCD_FILE brightness;
  do_call Unlock;;
  mret err.

(** The colour, its components and the blink mode, as [set_speaker_light_locked]
    modifies them before it writes them. *)
Definition modify_color (state : light_state_t) : Z * Z * Z * Z * Z :=
  let colorRGB := color state in
  let red := red_of colorRGB in
  let green := green_of colorRGB in
  let blue := blue_of colorRGB in
  let blink := flashMode state in
  if (red =? 255) && (green =? 255) && (blue =? 0) then (0xFFFF, 0, 0, 255, 2)
  else if (red =? 0) && (green =? 0) && (blue =? 0) then
    if blink =? 1 then (colorRGB, 0, green, 0, 3) else (colorRGB, 0, green, blue, 0)
  else if (red =? 0) && (green =? 255) && (blue =? 0) then (colorRGB, red, 0, 255, blink)
  else (colorRGB, red, green, blue, blink).

Section Lights.
Context {LH : LightsH}.

Definition set_speaker_light_locked (state : light_state_t) : hal Z :=
  let '(onMS, offMS) :=
    if flashMode state =? LIGHT_FLASH_TIMED then (flashOnMS state, flashOffMS state) else (0, 0) in
  do_call (Log "set_speaker_light_locked: mode %d, colorRGB=%08X, onMS=%d, offMS=%d\n"
    [LZ (flashMode state); LZ (color state); LZ onMS; LZ offMS]);;
  let '(colorRGB, red, green, blue, blink) := modify_color state in
  do_call (Log "set_speaker_light_locked: MODIFY: onMS=%d,offMS=%d,red=%x,green=%x,blue=%x,blink=%d\n"
    [LZ onMS; LZ offMS; LZ red; LZ green; LZ blue; LZ blink]);;
  if blink =? 0 then
    write_int BLUE_BLINK_FILE 0;;
    write_int BLUE_LED_FILE blue;;
    mret 0
  else if colorRGB =? 0 then
    write_int BLUE_BLINK_FILE (if blue =? 0 then 0 else 1);;
    write_int BLUE_LED_FILE blue;;
    mret 0
  else
    write_int BLUE_LED_FILE 0;;
    when_s (negb (blue =? 0)) (write_int BLUE_BLINK_FILE blink;; mret tt);;
    mret 0.

(** Which of the two states the LED shows. *)
Definition handle_speaker_battery_locked : hal unit :=
  lit ← is_lit;
  n ← gets g_notification;
  b ← gets g_battery;
  let x :=
    if negb (lit : bool) && negb (Z.land (color b) 0xFFFFFF =? 0) then b
    else if lit && (Z.land (color n) 0xFFFFFF =? 0) then b
    else n in
  set_speaker_light_locked x;;
  mret tt.

Definition set_light_notifications (state : light_state_t) : hal Z :=
  do_call Lock;;
  modify (set_notification state);;
  handle_speaker_battery_locked;;
  do_call Unlock;;
  mret 0.

Definition set_light_attention (state : light_state_t) : hal Z :=
  do_call Lock;;
  (if flashMode state =? LIGHT_FLASH_HARDWARE then modify (set_attention (flashOnMS state))
   else if flashMode state =? LIGHT_FLASH_NONE then modify (set_attention 0)
   else mret tt);;
  handle_speaker_battery_locked;;
  do_call Unlock;;
  mret 0.

Definition set_light_battery (state : light_state_t) : hal Z :=
  do_call Lock;;
  modify (set_battery state);;
  handle_speaker_battery_locked;;
  do_call Unlock;;
  mret 0.
End Lights.

Definition set_light_buttons (dev : bool) (state : option light_state_t) : hal Z :=
  match dev, state with
  | true, Some state =>
      do_call Lock;;
      err ← write_int BUTTON_FILE (Z.land (color state) 0xFF);
      do_call Unlock;;
      mret err
  | _, _ => mret (-1)
  end.

(** ** The module *)

(** The functions a device can hold. *)
Inductive set_light :=
| Set_light_backlight
| Set_light_attention
| Set_light_notifications
| Set_light_battery
| Set_light_buttons.

Definition EINVAL : Z := 22.

Definition init_globals : hal unit := do_call MutexInit.

Definition close_lights (dev : bool) : hal Z :=
  when_s dev (do_call Free);;
  mret 0.

Section Module.
Context {LH : LightsH}.

(** [dev->set_light(dev, state)]; [dev] is whether the pointer is not null.
    Only the buttons check the pointers. *)
Definition call_set_light (f : set_light) (dev : bool) (state : option light_state_t) : hal Z :=
  match f, state with
  | Set_light_buttons, _ => set_light_buttons dev state
  | _, None => st_undef
  | Set_light_backlight, Some state => set_light_backlight state
  | Set_light_attention, Some state => set_light_attention state
  | Set_light_notifications, Some state => set_light_notifications state
  | Set_light_battery, Some state => set_light_battery state
  end.

Definition light_named (name : string) : option set_light :=
  if streq LIGHT_ID_BACKLIGHT name then Some Set_light_backlight
  else if streq LIGHT_ID_ATTENTION name then Some Set_light_attention
  else if streq LIGHT_ID_NOTIFICATIONS name then Some Set_light_notifications
  else if streq LIGHT_ID_BATTERY name then Some Set_light_battery
  else if streq LIGHT_ID_BUTTONS name then Some Set_light_buttons
  else None.

(** The value and the device; [malloc] is not checked before [memset]. *)
Definition open_lights (name : string) : hal (Z * option set_light) :=
  match light_named name with
  | None => mret (- EINVAL, None)
  | Some f =>
      once ← gets g_init;
      when_s (negb once) (init_globals;; modify set_init);;
      ok ← do_call Malloc;
      if (ok : bool) then mret (0, Some f) else st_undef
  end.
End Module.
