(* ===== verification/LightSpec.v ===== *)
(** * What the lights HAL writes

    A specification of the LED: one of two states is shown, by [shown], as
    the writes [led]; the HAL as a sequence of operations refines it.  The
    observations of a trace are the files written, the readings of the
    battery status, and whether the mutex was used as intended. *)

From Stdlib Require Import Ascii String.
From stdpp Require Import pretty.
From S2P Require Import Prelude Bytes Prog StProg CStr LightHal.

Open Scope Z_scope.

(** ** Observations *)

(** [l_cur] is the file open for writing; [l_missed] is whether one could
    not be opened; [l_ok] turns false when a file is written without the
    mutex, or the mutex is taken twice or released when free. *)
Record lobs := mkLobs {
  l_locked : bool;
  l_cur : option string;
  l_writes : list (string * string);
  l_lits : list bool;
  l_missed : bool;
  l_ok : bool }.

Definition no_lobs : lobs := mkLobs false None [] [] false true.

Definition light_see (s : lobs) (e : event lcall) : lobs :=
  match e with
  | @Ev _ R c r =>
      match c in lcall R return R -> lobs with
      | LOpen path true => fun fd =>
          if 0 <=? fd then mkLobs (l_locked s) (Some path) (l_writes s) (l_lits s) (l_missed s) (l_ok s)
          else mkLobs (l_locked s) None (l_writes s) (l_lits s) true (l_ok s)
      | LOpen _ false => fun fd =>
          if 0 <=? fd then s
          else mkLobs (l_locked s) (l_cur s) (l_writes s) (l_lits s ++ [false]) (l_missed s) (l_ok s)
      | LRead _ _ => fun r =>
          let lit := match r with Some bs => status_lit bs | None => false end in
          mkLobs (l_locked s) (l_cur s) (l_writes s) (l_lits s ++ [lit]) (l_missed s) (l_ok s)
      | LWrite _ text => fun _ =>
          mkLobs (l_locked s) (l_cur s) (l_writes s ++ [(default EmptyString (l_cur s), text)]) (l_lits s) (l_missed s)
            (l_ok s && l_locked s)
      | LClose _ => fun _ => mkLobs (l_locked s) None (l_writes s) (l_lits s) (l_missed s) (l_ok s)
      | Lock => fun _ => mkLobs true (l_cur s) (l_writes s) (l_lits s) (l_missed s) (l_ok s && negb (l_locked s))
      | Unlock => fun _ => mkLobs false (l_cur s) (l_writes s) (l_lits s) (l_missed s) (l_ok s && l_locked s)
      | _ => fun _ => s
      end r
  end.

Definition light_observed (tr : list (event lcall)) : lobs := fold_left light_see tr no_lobs.

(** The HAL has no fuel to run out of, and is never undefined. *)
Abbreviation wpl := (wps light_see (fun _ => False) (fun _ => False)).

(** ** Lines *)

(** The decimal of an [int] with its line feed is at most 12 characters. *)
Lemma int_line_length v : int_ok v -> (String.length (int_line v) <= 12)%nat.
Proof.
  unfold int_ok, int_line. intros Hv. rewrite string_length_app. change (String.length nl) with 1%nat.
  pose proof (pretty_int_length v Hv). lia.
Qed.

(** ** Brightness *)

Lemma component_range c n : 0 <= Z.land (Z.shiftr c n) 0xff < 256.
Proof. change 0xff with (Z.ones 8). rewrite Z.land_ones by lia. apply Z.mod_pos_bound. lia. Qed.

Lemma blue_range c : 0 <= blue_of c < 256.
Proof. unfold blue_of. rewrite <- (Z.shiftr_0_r c). apply component_range. Qed.

Lemma component_masked c n : 0 <= n -> n + 8 <= 24 ->
  Z.land (Z.shiftr (Z.land c 0xffffff) n) 0xff = Z.land (Z.shiftr c n) 0xff.
Proof.
  intros H0 H1. change 0xff with (Z.ones 8). change 0xffffff with (Z.ones 24).
  apply Z.bits_inj'. intros k Hk. rewrite !Z.land_spec, !Z.shiftr_spec, Z.land_spec by done.
  destruct (Z.testbit (Z.ones 8) k) eqn:Hb; [|by rewrite !andb_false_r].
  rewrite !andb_true_r. apply Z.ones_spec_iff in Hb; [|lia].
  by rewrite (Z.ones_spec_low 24), andb_true_r by lia.
Qed.

Definition luma (c : Z) : Z := 77 * red_of c + 150 * green_of c + 29 * blue_of c.

Lemma rgb_to_brightness_luma st : rgb_to_brightness st = luma (color st) / 256.
Proof.
  unfold rgb_to_brightness, luma, red_of, green_of. cbv zeta. rewrite !component_masked by lia.
  assert (Hb : blue_of (Z.land (color st) 0xffffff) = blue_of (color st)).
  { unfold blue_of. pose proof (component_masked (color st) 0). rewrite !Z.shiftr_0_r in *. auto with lia. }
  by rewrite Hb, Z.shiftr_div_pow2 by lia.
Qed.

(** A weighted average of the components: between any bounds of them. *)
Lemma luma_between c m M :
  m <= red_of c <= M -> m <= green_of c <= M -> m <= blue_of c <= M -> m <= luma c / 256 <= M.
Proof.
  intros H1 H2 H3. unfold luma. split; [apply Z.div_le_lower_bound; lia|].
  enough (luma c / 256 < M + 1) by (unfold luma in *; lia). apply Z.div_lt_upper_bound; unfold luma; lia.
Qed.

(** ** Moves

    What a part of an operation adds to the observations. *)

Definition int_write (w : string * Z) : string * string := (w.1, int_line w.2).

Record moved (s s' : lobs) (l : list (string * Z)) (lits : list bool) : Prop := {
  mv_writes : exists w, l_writes s' = l_writes s ++ w /\ w `sublist_of` (int_write <$> l) /\
    (l_missed s' = false -> l_missed s = false /\ w = int_write <$> l);
  mv_lits : l_lits s' = l_lits s ++ lits;
  mv_locked : l_locked s' = l_locked s;
  mv_ok : l_ok s' = l_ok s }.

Lemma moved_nil s : moved s s [] [].
Proof. split; [|by rewrite app_nil_r|done|done]. exists []. by rewrite app_nil_r. Qed.

Lemma moved_app s s1 s' l1 l2 t1 t2 : moved s s1 l1 t1 -> moved s1 s' l2 t2 -> moved s s' (l1 ++ l2) (t1 ++ t2).
Proof.
  intros [(w1 & W1 & S1 & M1) T1 L1 O1] [(w2 & W2 & S2 & M2) T2 L2 O2].
  split; [|by rewrite T2, T1, app_assoc|congruence|congruence].
  exists (w1 ++ w2). rewrite W2, W1, fmap_app, app_assoc. split_and!; [done|by apply sublist_app|].
  intros Hm. destruct (M2 Hm) as [Hm1 ->]. by destruct (M1 Hm1) as [? ->].
Qed.

(** The variables the lights are about. *)
Record same_lights (g g' : globals) : Prop := {
  sl_notification : g_notification g' = g_notification g;
  sl_battery : g_battery g' = g_battery g;
  sl_attention : g_attention g' = g_attention g;
  sl_init : g_init g' = g_init g }.

Lemma same_lights_refl g : same_lights g g.
Proof. done. Qed.
Lemma same_lights_trans g1 g2 g3 : same_lights g1 g2 -> same_lights g2 g3 -> same_lights g1 g3.
Proof. intros [] []. split; congruence. Qed.

Lemma wph_write_int path v (Q : Z -> globals -> lobs -> Prop) g s :
  int_ok v -> l_locked s = true ->
  (forall r g' s', same_lights g g' -> moved s s' [(path, v)] [] -> Q r g' s') ->
  wpl (write_int path v) Q g s.
Proof.
  intros Hv Hl HQ. unfold write_int. apply wps_bind, wps_call. intros fd Hfd. cbn [light_see].
  apply wps_if; intros Hf; rewrite ?Hf.
  - pose proof (int_line_length v Hv) as Hlen. cbv zeta. apply wps_if; [|intros _].
    { intros H%Nat.leb_le. unfold int_buffer in H. lia. }
    apply wps_bind, wps_call. intros amt Hamt. apply wps_bind, wps_call. intros [] _. cbn [light_see l_locked l_writes l_lits l_missed l_ok].
    assert (Hm : forall r, Q r g (mkLobs (l_locked s) None (l_writes s ++ [(path, int_line v)]) (l_lits s) (l_missed s) (l_ok s && l_locked s))).
    { intros r. apply HQ; [done|]. split; cbn; [|by rewrite app_nil_r|done|by rewrite Hl, andb_true_r].
      by exists [(path, int_line v)]. }
    apply wps_if; intros _; [apply wps_bind, wps_call; intros errno _|]; apply wps_ret, Hm.
  - assert (Hm : forall r g', same_lights g g' ->
      Q r g' (mkLobs (l_locked s) None (l_writes s) (l_lits s) true (l_ok s))).
    { intros r g' Hg. apply HQ; [done|]. split; cbn; [|by rewrite app_nil_r|done|done].
      exists []. rewrite app_nil_r. split_and!; [done|apply sublist_nil_l|done]. }
    apply wps_bind, wps_gets. apply wps_bind, wps_when; intros _.
    + apply wps_bind, wps_call. intros [] _. apply wps_modify. apply wps_bind, wps_call. intros errno _. by apply wps_ret, Hm.
    + apply wps_bind, wps_call. intros errno _. by apply wps_ret, Hm.
Qed.

Lemma wph_is_lit (Q : bool -> globals -> lobs -> Prop) g s :
  (forall lit g' s', same_lights g g' -> moved s s' [] [lit] -> Q lit g' s') -> wpl is_lit Q g s.
Proof.
  intros HQ. unfold is_lit. apply wps_bind, wps_call. intros fd Hfd. cbn [light_see].
  assert (Hm : forall lit c g', same_lights g g' ->
    Q lit g' (mkLobs (l_locked s) c (l_writes s) (l_lits s ++ [lit]) (l_missed s) (l_ok s))).
  { intros lit c g' Hg. apply HQ; [done|]. split; cbn; try done. exists []. by rewrite app_nil_r. }
  apply wps_if; intros Hf.
  - apply Z.ltb_lt in Hf. rewrite (proj2 (Z.leb_gt 0 fd)) by done.
    apply wps_bind, wps_gets. apply wps_bind, wps_when; intros _.
    + apply wps_bind, wps_call. intros [] _. apply wps_modify, wps_ret. by apply Hm.
    + apply wps_ret. by apply Hm.
  - apply Z.ltb_ge in Hf. rewrite (proj2 (Z.leb_le 0 fd)) by done.
    apply wps_bind, wps_call. intros r Hr. apply wps_bind, wps_call. intros [] _.
    destruct r as [bs|]; apply wps_ret; cbn [light_see l_locked l_writes l_lits l_missed l_ok]; by apply Hm.
Qed.

(** ** The LED *)

(** What is written to show a state on the one LED there is, the blue one. *)
Definition led (st : light_state_t) : list (string * Z) :=
  let c := color st in
  let m := flashMode st in
  if decide (red_of c = 255 /\ green_of c = 255 /\ blue_of c = 0) then [(BLUE_LED_FILE, 0); (BLUE_BLINK_FILE, 2)]
  else if decide (red_of c = 0 /\ green_of c = 0 /\ blue_of c = 0) then
    if decide (m = 1 /\ c <> 0) then [(BLUE_LED_FILE, 0)] else [(BLUE_BLINK_FILE, 0); (BLUE_LED_FILE, 0)]
  else
    let blue := if decide (red_of c = 0 /\ green_of c = 255 /\ blue_of c = 0) then 255 else blue_of c in
    if decide (m = 0) then [(BLUE_BLINK_FILE, 0); (BLUE_LED_FILE, blue)]
    else if decide (blue = 0) then [(BLUE_LED_FILE, 0)]
    else [(BLUE_LED_FILE, 0); (BLUE_BLINK_FILE, m)].

(** Which state is shown. *)
Definition lit_color (st : light_state_t) : bool := negb (Z.land (color st) 0xffffff =? 0).
Definition shown (lit : bool) (notification battery : light_state_t) : light_state_t :=
  if lit then if lit_color notification then notification else battery
  else if lit_color battery then battery else notification.

Lemma black_color c : 0 <= c < 2 ^ 32 -> c = 0 -> red_of c = 0 /\ green_of c = 0 /\ blue_of c = 0.
Proof. by intros _ ->. Qed.

Section Lights.
Context {LH : LightsH}.

(** Two writes in a row, and one. *)
Lemma wph_write2 p1 v1 p2 v2 (Q : Z -> globals -> lobs -> Prop) g s :
  int_ok v1 -> int_ok v2 -> l_locked s = true ->
  (forall g' s', same_lights g g' -> moved s s' [(p1, v1); (p2, v2)] [] -> Q 0 g' s') ->
  wpl (write_int p1 v1;; write_int p2 v2;; mret 0) Q g s.
Proof.
  intros H1 H2 Hl HQ. apply wps_bind, wph_write_int; [done..|]. intros r1 g1 s1 G1 M1.
  apply wps_bind, wph_write_int; [done|by rewrite (mv_locked _ _ _ _ M1)|]. intros r2 g2 s2 G2 M2.
  apply wps_ret, HQ; [by eapply same_lights_trans|]. by apply (moved_app _ _ _ _ _ _ _ M1 M2).
Qed.

Lemma wph_write_blink v1 (b : bool) m (Q : Z -> globals -> lobs -> Prop) g s :
  int_ok v1 -> int_ok m -> l_locked s = true ->
  (forall g' s', same_lights g g' ->
     moved s s' ((BLUE_LED_FILE, v1) :: if b then [(BLUE_BLINK_FILE, m)] else []) [] -> Q 0 g' s') ->
  wpl (write_int BLUE_LED_FILE v1;; when_s b (write_int BLUE_BLINK_FILE m;; mret tt);; mret 0) Q g s.
Proof.
  intros H1 H2 Hl HQ. apply wps_bind, wph_write_int; [done..|]. intros r1 g1 s1 G1 M1.
  apply wps_bind, wps_when; intros Hb; rewrite Hb in HQ.
  - apply wps_bind, wph_write_int; [done|by rewrite (mv_locked _ _ _ _ M1)|]. intros r2 g2 s2 G2 M2.
    do 2 apply wps_ret. apply HQ; [by eapply same_lights_trans|]. by apply (moved_app _ _ _ _ _ _ _ M1 M2).
  - by apply wps_ret, HQ.
Qed.

Definition show_writes (colorRGB blue blink : Z) : list (string * Z) :=
  if blink =? 0 then [(BLUE_BLINK_FILE, 0); (BLUE_LED_FILE, blue)]
  else if colorRGB =? 0 then [(BLUE_BLINK_FILE, if blue =? 0 then 0 else 1); (BLUE_LED_FILE, blue)]
  else (BLUE_LED_FILE, 0) :: if negb (blue =? 0) then [(BLUE_BLINK_FILE, blink)] else [].

Lemma small_int v : 0 <= v < 256 -> int_ok v.
Proof. unfold int_ok. lia. Qed.

Lemma wph_show colorRGB red green blue blink onMS offMS (Q : Z -> globals -> lobs -> Prop) g s :
  0 <= blue < 256 -> int_ok blink -> l_locked s = true ->
  (forall g' s', same_lights g g' -> moved s s' (show_writes colorRGB blue blink) [] -> Q 0 g' s') ->
  wpl (do_call (Log "set_speaker_light_locked: MODIFY: onMS=%d,offMS=%d,red=%x,green=%x,blue=%x,blink=%d\n"
         [LZ onMS; LZ offMS; LZ red; LZ green; LZ blue; LZ blink]);;
       (if blink =? 0 then
          write_int BLUE_BLINK_FILE 0;; write_int BLUE_LED_FILE blue;; mret 0
        else if colorRGB =? 0 then
          write_int BLUE_BLINK_FILE (if blue =? 0 then 0 else 1);; write_int BLUE_LED_FILE blue;; mret 0
        else
          write_int BLUE_LED_FILE 0;;
          when_s (negb (blue =? 0)) (write_int BLUE_BLINK_FILE blink;; mret tt);;
          mret 0)) Q g s.
Proof.
  intros Hb Hm Hl HQ. apply wps_bind, wps_call. intros [] _. cbn [light_see].
  assert (H0 : int_ok 0) by (by apply small_int). assert (Hbi : int_ok blue) by (by apply small_int).
  unfold show_writes in HQ. apply wps_if; intros H1; rewrite H1 in HQ; [by apply wph_write2|].
  apply wps_if; intros H2; rewrite H2 in HQ; [|by apply wph_write_blink].
  apply wph_write2; [apply small_int; by destruct (blue =? 0)|done..].
Qed.

(** What the code computes is the specification. *)
Lemma modify_color_led st colorRGB red green blue blink :
  light_ok st -> modify_color st = (colorRGB, red, green, blue, blink) ->
  0 <= blue < 256 /\ int_ok blink /\ show_writes colorRGB blue blink = led st.
Proof.
  intros [Hc Hm _ _]. unfold modify_color, led. cbv zeta. pose proof (blue_range (color st)) as Hb.
  assert (Hz : color st = 0 -> red_of (color st) = 0 /\ green_of (color st) = 0 /\ blue_of (color st) = 0) by (by intros ->).
  revert Hz Hb. generalize (red_of (color st)), (green_of (color st)), (blue_of (color st)). intros r gr b Hz Hb.
  destruct (Z.eqb_spec r 255), (Z.eqb_spec gr 255), (Z.eqb_spec b 0), (Z.eqb_spec r 0), (Z.eqb_spec gr 0);
    subst; try lia; cbn [andb]; try destruct (Z.eqb_spec (flashMode st) 1); intros [= <- <- <- <- <-].
  all: split_and!; [lia..|first [exact Hm|by apply small_int]|unfold show_writes].
  all: repeat match goal with |- context [Z.eqb ?a ?b] => destruct (Z.eqb_spec a b) end;
    repeat case_decide; try done; exfalso; tauto || lia.
Qed.

Lemma wph_speaker st (Q : Z -> globals -> lobs -> Prop) g s :
  light_ok st -> l_locked s = true ->
  (forall g' s', same_lights g g' -> moved s s' (led st) [] -> Q 0 g' s') ->
  wpl (set_speaker_light_locked st) Q g s.
Proof.
  intros Hst Hl HQ. unfold set_speaker_light_locked.
  match goal with |- context [if ?b then (?x, ?y) else (0, 0)] => destruct (if b then (x, y) else (0, 0)) as [onMS offMS] end.
  apply wps_bind, wps_call. intros [] _. cbn [light_see].
  destruct (modify_color st) as [[[[colorRGB red] green] blue] blink] eqn:Hm.
  destruct (modify_color_led _ _ _ _ _ _ Hst Hm) as (Hb & Hk & Hw).
  apply wph_show; [done..|]. by rewrite Hw.
Qed.

Lemma wph_handle (Q : unit -> globals -> lobs -> Prop) g s :
  light_ok (g_notification g) -> light_ok (g_battery g) -> l_locked s = true ->
  (forall lit g' s', same_lights g g' ->
     moved s s' (led (shown lit (g_notification g) (g_battery g))) [lit] -> Q tt g' s') ->
  wpl handle_speaker_battery_locked Q g s.
Proof.
  intros Hn Hb Hl HQ. unfold handle_speaker_battery_locked.
  apply wps_bind, wph_is_lit. intros lit g1 s1 G1 M1. do 2 apply wps_bind, wps_gets. cbv zeta.
  rewrite (sl_notification _ _ G1), (sl_battery _ _ G1).
  assert (Hx : (if negb lit && negb (Z.land (color (g_battery g)) 0xFFFFFF =? 0) then g_battery g
    else if lit && (Z.land (color (g_notification g)) 0xFFFFFF =? 0) then g_battery g else g_notification g) =
    shown lit (g_notification g) (g_battery g)).
  { unfold shown, lit_color. by destruct lit, (_ =? 0), (_ =? 0). }
  rewrite Hx. apply wps_bind, wph_speaker; [unfold shown; by repeat case_match|by rewrite (mv_locked _ _ _ _ M1)|].
  intros g2 s2 G2 M2. apply wps_ret, (HQ lit); [by eapply same_lights_trans|].
  by apply (moved_app _ _ _ _ _ _ _ M1 M2).
Qed.
End Lights.

(** ** The HAL as a machine

    Its state is the notification and the battery state; an operation is a
    function of the HAL with a light state; a step reads the battery status,
    where the operation does, and writes.  The attention light has no part
    in it. *)

Abbreviation light_op := (set_light * light_state_t)%type.

Inductive light_step : light_state_t * light_state_t -> light_op -> list bool -> list (string * Z) ->
    light_state_t * light_state_t -> Prop :=
| step_notification n b st lit :
    light_step (n, b) (Set_light_notifications, st) [lit] (led (shown lit st b)) (st, b)
| step_battery n b st lit :
    light_step (n, b) (Set_light_battery, st) [lit] (led (shown lit n st)) (n, st)
| step_attention n b st lit :
    light_step (n, b) (Set_light_attention, st) [lit] (led (shown lit n b)) (n, b)
| step_backlight n b st :
    light_step (n, b) (Set_light_backlight, st) [] [(LCD_FILE, luma (color st) / 256)] (n, b)
| step_buttons n b st :
    light_step (n, b) (Set_light_buttons, st) [] [(BUTTON_FILE, blue_of (color st))] (n, b).

Inductive light_steps : light_state_t * light_state_t -> list light_op -> list bool -> list (string * Z) ->
    light_state_t * light_state_t -> Prop :=
| steps_nil x : light_steps x [] [] [] x
| steps_cons x op lits w y ops lits' w' z :
    light_step x op lits w y -> light_steps y ops lits' w' z ->
    light_steps x (op :: ops) (lits ++ lits') (w ++ w') z.

Section Machine.
Context {LH : LightsH}.

(** The operations in a row, through their devices. *)
Fixpoint run_lights (ops : list light_op) : hal unit :=
  match ops with
  | [] => mret tt
  | (f, st) :: ops => call_set_light f true (Some st);; run_lights ops
  end.

Definition lights_of (g : globals) : light_state_t * light_state_t := (g_notification g, g_battery g).
Definition lights_ok (x : light_state_t * light_state_t) : Prop := light_ok x.1 /\ light_ok x.2.

(** Taking the mutex, doing [p], and releasing it. *)
Lemma wph_locked {A B} (p : hal A) (h : A -> B) (Q : B -> globals -> lobs -> Prop) g s :
  wpl p (fun a g' s' => Q (h a) g' (light_see s' (Ev Unlock tt))) g (light_see s (Ev Lock tt)) ->
  wpl (do_call Lock;; a ← p; do_call Unlock;; mret (h a)) Q g s.
Proof.
  intros H. apply wps_bind, wps_call. intros [] _. apply wps_bind. eapply wps_mono; [|exact H].
  intros a g' s' HQ. apply wps_bind, wps_call. intros [] _. by apply wps_ret.
Qed.

Lemma moved_unlock s s' l lits :
  l_locked s = false -> l_ok s = true ->
  moved (light_see s (Ev Lock tt)) s' l lits ->
  l_locked (light_see s' (Ev Unlock tt)) = false /\ l_ok (light_see s' (Ev Unlock tt)) = true /\
  moved s (light_see s' (Ev Unlock tt)) l lits.
Proof.
  intros Hl Ho [Hw Ht Hk Hok]. cbn [light_see l_locked l_writes l_lits l_missed l_ok] in *.
  rewrite Hl, Ho in Hok. split_and!; [done|by rewrite Hok, Hk|].
  split; cbn [l_locked l_writes l_lits l_missed l_ok]; [done|done|by rewrite Hl|by rewrite Hok, Hk, Ho].
Qed.

(** The three operations that end in [handle_speaker_battery_locked]. *)
Lemma wph_update (f : globals -> globals) x y (Q : Z -> globals -> lobs -> Prop) g s :
  lights_ok y -> l_locked s = false ->
  (forall g, lights_of g = x -> lights_of (f g) = y) -> lights_of g = x ->
  (forall lit g' s', lights_of g' = y -> moved (light_see s (Ev Lock tt)) s' (led (shown lit y.1 y.2)) [lit] ->
     Q 0 g' (light_see s' (Ev Unlock tt))) ->
  wpl (do_call Lock;; modify f;; handle_speaker_battery_locked;; do_call Unlock;; mret 0) Q g s.
Proof.
  intros [Hy1 Hy2] Hl Hf Hg HQ. apply wps_bind, wps_call. intros [] _. apply wps_bind, wps_modify.
  specialize (Hf g Hg). rewrite <- Hf in *. cbn [fst snd lights_of] in *.
  apply wps_bind, wph_handle; [done|done|done|]. intros lit g' s' G M.
  apply wps_bind, wps_call. intros [] _. apply wps_ret, (HQ lit); [|done].
  unfold lights_of. by rewrite (sl_notification _ _ G), (sl_battery _ _ G).
Qed.

Lemma wph_operation f st (Q : Z -> globals -> lobs -> Prop) g s :
  light_ok st -> lights_ok (lights_of g) -> l_locked s = false -> l_ok s = true ->
  (forall r g' s' lits w, light_step (lights_of g) (f, st) lits w (lights_of g') -> lights_ok (lights_of g') ->
     l_locked s' = false -> l_ok s' = true -> moved s s' w lits -> Q r g' s') ->
  wpl (call_set_light f true (Some st)) Q g s.
Proof.
  intros Hst Hok Hl Ho HQ.
  assert (Hend : forall r g' s' lits w, light_step (lights_of g) (f, st) lits w (lights_of g') -> lights_ok (lights_of g') ->
    moved (light_see s (Ev Lock tt)) s' w lits -> Q r g' (light_see s' (Ev Unlock tt))).
  { intros r g' s' lits w Hs Hg Hm. destruct (moved_unlock s s' w lits Hl Ho Hm) as (H1 & H2 & H3). by eapply HQ. }
  assert (Hwrite : forall path v, int_ok v -> light_step (lights_of g) (f, st) [] [(path, v)] (lights_of g) ->
    wpl (do_call Lock;; err ← write_int path v; do_call Unlock;; mret err) Q g s).
  { intros path v Hv Hs. apply wph_locked, wph_write_int; [done|done|]. intros r g' s' G M.
    assert (Hg : lights_of g' = lights_of g) by (unfold lights_of; by rewrite (sl_notification _ _ G), (sl_battery _ _ G)).
    eapply Hend; [by rewrite Hg|by rewrite Hg|done]. }
  assert (Hupdate : forall up y, lights_ok y -> (forall g', lights_of g' = lights_of g -> lights_of (up g') = y) ->
    (forall lit, light_step (lights_of g) (f, st) [lit] (led (shown lit y.1 y.2)) y) ->
    wpl (do_call Lock;; modify up;; handle_speaker_battery_locked;; do_call Unlock;; mret 0) Q g s).
  { intros up y Hy Hup Hs. apply (wph_update up (lights_of g) y); [done|done|done|done|].
    intros lit g' s' Hg M. eapply Hend; [by rewrite Hg|by rewrite Hg|done]. }
  destruct f; cbn [call_set_light];
    unfold set_light_backlight, set_light_attention, set_light_notifications, set_light_battery, set_light_buttons; cbv zeta.
  - pose proof (luma_between (color st) 0 255) as Hr. rewrite rgb_to_brightness_luma. apply Hwrite; [|apply step_backlight].
    pose proof (component_range (color st) 16). pose proof (component_range (color st) 8). pose proof (blue_range (color st)).
    apply small_int. unfold red_of, green_of in Hr. lia.
  - assert (Hatt : forall up, (forall g', lights_of (up g') = lights_of g') ->
      wpl (do_call Lock;; modify up;; handle_speaker_battery_locked;; do_call Unlock;; mret 0) Q g s).
    { intros up Hup. apply (Hupdate _ (lights_of g)); [done|by intros g' <-|intros lit; apply step_attention]. }
    repeat match goal with |- context [if ?b then modify _ else _] => destruct b end; [by apply Hatt..|].
    by apply (Hatt (fun g => g)).
  - apply (Hupdate _ (st, (lights_of g).2)); [split; [done|apply Hok]|intros g' Hg; by rewrite <- Hg|intros lit; apply step_notification].
  - apply (Hupdate _ ((lights_of g).1, st)); [split; [apply Hok|done]|intros g' Hg; by rewrite <- Hg|intros lit; apply step_battery].
  - apply Hwrite; [apply small_int, blue_range|apply step_buttons].
Qed.

Lemma wph_run_lights ops (Q : unit -> globals -> lobs -> Prop) g s :
  Forall (fun op => light_ok op.2) ops -> lights_ok (lights_of g) -> l_locked s = false -> l_ok s = true ->
  (forall g' s' lits w, light_steps (lights_of g) ops lits w (lights_of g') ->
     l_locked s' = false -> l_ok s' = true -> moved s s' w lits -> Q tt g' s') ->
  wpl (run_lights ops) Q g s.
Proof.
  intros Hops. revert g s Q. induction Hops as [|[f st] ops Hst Hops IH]; intros g s Q Hg Hl Ho HQ; cbn [run_lights].
  { apply wps_ret, (HQ _ _ [] []); [constructor|done|done|apply moved_nil]. }
  apply wps_bind, wph_operation; [done..|]. intros r g1 s1 lits w Hs Hg1 Hl1 Ho1 M1.
  apply IH; [done..|]. intros g2 s2 lits' w' Hs' Hl2 Ho2 M2.
  eapply HQ; [by eapply steps_cons|done|done|by eapply moved_app].
Qed.
End Machine.
