(* ===== verification/LightTheorems.v ===== *)
(** * Properties of the lights HAL *)

From Stdlib Require Import Ascii String.
From stdpp Require Import pretty.
From S2P Require Import Prelude Bytes Prog StProg CStr LightHal LightSpec.

Open Scope Z_scope.

Section Lights.
Context {LH : LightsH}.

(** C9. The HAL refines the machine of LightSpec: any sequence of
    [set_light] calls returns; the files written are, in order, those of a
    run of the machine on the battery readings of the trace (all of them
    when every file could be opened), so that the LED always shows the
    battery state rather than the notification exactly when the battery is
    not charging and has a colour, or is charging and the notification has
    none, and never shows the attention light; and the mutex is held at
    every write, never taken twice, and free at the end. *)
Theorem lights_refine ops g tr o :
  Forall (fun op => light_ok op.2) ops -> lights_ok (lights_of g) ->
  exec (run_lights ops g) tr o ->
  let s := light_observed tr in
  exists g' w, o = Returned (tt, g') /\
    light_steps (lights_of g) ops (l_lits s) w (lights_of g') /\
    l_writes s `sublist_of` (int_write <$> w) /\
    (l_missed s = false -> l_writes s = int_write <$> w) /\
    l_ok s = true /\ l_locked s = false.
Proof.
  intros Hops Hg He.
  assert (Hw : wpl (run_lights ops) (fun _ g' s' => exists w,
    light_steps (lights_of g) ops (l_lits s') w (lights_of g') /\ l_writes s' `sublist_of` (int_write <$> w) /\
    (l_missed s' = false -> l_writes s' = int_write <$> w) /\ l_ok s' = true /\ l_locked s' = false) g no_lobs).
  { apply wph_run_lights; [done..|]. intros g' s' lits w Hs Hl Ho [(w' & W & S & M) T _ _].
    cbn in W, T. exists w. rewrite T, W. split_and!; [done|done| |done|done]. intros Hm. by apply M. }
  destruct (wps_sound _ _ _ _ _ _ _ _ _ Hw He) as [([] & g' & -> & w & H)|[[_ []]|[_ []]]]. by exists g', w.
Qed.

(** C35. The backlight brightness is a weighted average of the components
    of the colour: it lies between any bounds of the three, so it is in the
    range of the file, 0 to 255, and exact for a grey; the alpha byte does
    not matter. *)
Theorem brightness_between st m M :
  m <= red_of (color st) <= M -> m <= green_of (color st) <= M -> m <= blue_of (color st) <= M ->
  m <= rgb_to_brightness st <= M /\
  0 <= rgb_to_brightness st < 256 /\
  rgb_to_brightness (mkLight (Z.land (color st) 0xffffff) 0 0 0 0) = rgb_to_brightness st.
Proof.
  intros Hr Hg Hb. rewrite !rgb_to_brightness_luma. cbn [color]. split; [by apply luma_between|]. split.
  - pose proof (luma_between (color st) 0 255) as H. pose proof (component_range (color st) 16).
    pose proof (component_range (color st) 8). pose proof (blue_range (color st)). unfold red_of, green_of in H. lia.
  - f_equal. unfold luma, red_of, green_of. rewrite !component_masked by lia. unfold blue_of.
    pose proof (component_masked (color st) 0) as H0. rewrite !Z.shiftr_0_r in H0. by rewrite H0 by lia.
Qed.
End Lights.

(** A battery status line, a word without a null byte or a line feed
    and its line feed, lights the LED logic exactly when the word is
    "Charging" or "Full"; so does the word alone. *)
Theorem status_line_lit w :
  Forall (fun b => b <> 0 /\ b <> 10) (string_bytes w) -> (3 <= String.length w)%nat ->
  status_lit (string_bytes w ++ [10]) = bool_decide (w = "Charging" \/ w = "Full") /\
  status_lit (string_bytes w) = bool_decide (w = "Charging" \/ w = "Full").
Proof.
  intros Hw Hl. rewrite <- length_string_bytes in Hl.
  assert (H0 : Forall (fun b => b <> 0) (string_bytes w)) by (eapply Forall_impl; [exact Hw|by intros b []]).
  assert (Hd : streq w "Charging" || streq w "Full" = bool_decide (w = "Charging" \/ w = "Full")).
  { apply eq_true_iff_eq. by rewrite orb_true_iff, !streq_true, bool_decide_eq_true. }
  rewrite <- Hd. unfold status_lit. split.
  - rewrite length_app. cbn [length]. rewrite (proj2 (Nat.ltb_ge _ _)) by lia.
    replace (length (string_bytes w) + 1 - 1)%nat with (length (string_bytes w)) by lia.
    rewrite <- app_assoc. cbn [app]. rewrite list_lookup_middle by done. cbn [default].
    rewrite insert_app_r_alt by lia. rewrite Nat.sub_diag. change (<[0%nat:=0]> [10; 0]) with [0; 0].
    change (id 10 =? 10) with true. cbn iota. by rewrite !cstring_bytes.
  - rewrite (proj2 (Nat.ltb_ge _ _)) by lia. rewrite lookup_app_l by lia.
    assert (Hne : default 0 (string_bytes w !! (length (string_bytes w) - 1)%nat) <> 10).
    { destruct (lookup_lt_is_Some_2 (string_bytes w) (length (string_bytes w) - 1)) as [b Hb]; [lia|].
      rewrite Hb. by apply (Forall_lookup_1 _ _ _ _ Hw Hb). }
    rewrite (proj2 (Z.eqb_neq _ _)) by done. by rewrite !cstring_bytes.
Qed.

(** ** Instances *)

(** The values the comments of lights.c give, and names for the rest. *)
#[export] Instance example_lights : LightsH := {
  LIGHT_FLASH_NONE := 0;
  LIGHT_FLASH_TIMED := 1;
  LIGHT_FLASH_HARDWARE := 2;
  LIGHT_ID_BACKLIGHT := "backlight";
  LIGHT_ID_ATTENTION := "attention";
  LIGHT_ID_NOTIFICATIONS := "notifications";
  LIGHT_ID_BATTERY := "battery";
  LIGHT_ID_BUTTONS := "buttons" }.

(** Every file can be opened, and the battery is charging. *)
Definition light_call (R : Type) (c : lcall R) : unit -> R * unit :=
  match c in lcall R return unit -> R * unit with
  | LOpen _ _ => fun u => (3, u)
  | LClose _ | Log _ _ | MutexInit | Lock | Unlock | Free => fun u => (tt, u)
  | LWrite _ text => fun u => (Z.of_nat (String.length text), u)
  | LRead _ n => fun u => ((if n <? 9 then None else Some (string_bytes "Charging" ++ [10])), u)
  | Errno => fun u => (1, u)
  | Malloc => fun u => (true, u)
  end.

Lemma light_call_ok R (c : lcall R) u : resp_ok c (light_call R c u).1.
Proof.
  destruct c; cbn -[string_bytes]; try done; [lia|].
  destruct (Z.ltb_spec n 9); [done|]. split; [cbn; lia|by repeat constructor].
Qed.

Lemma example_light_exec {A} (p : hal A) g tr o :
  run_trace light_call (p g) tt = tr -> (run light_call (p g) tt).1 = o -> exec (p g) tr o.
Proof. intros <- <-. apply run_exec, light_call_ok. Qed.

(** A green notification, a battery colour that is not shown, an attention
    light that is not shown either, and a backlight. *)
Definition light_example : list light_op :=
  [(Set_light_notifications, mkLight 0xff00ff00 0 0 0 0); (Set_light_battery, mkLight 0xffff0000 0 0 0 0);
   (Set_light_attention, mkLight 0xffffffff 2 100 0 0); (Set_light_backlight, mkLight 0xff808080 0 0 0 0)].
Abbreviation light_run := (run_lights light_example).

Lemma lights_refine_witness :
  let s := light_observed (run_trace light_call (light_run globals0) tt) in
  exists g' w, (run light_call (light_run globals0) tt).1 = Returned (tt, g') /\
    light_steps (lights_of globals0) light_example (l_lits s) w (lights_of g') /\
    l_writes s `sublist_of` (int_write <$> w) /\
    (l_missed s = false -> l_writes s = int_write <$> w) /\
    l_ok s = true /\ l_locked s = false.
Proof.
  apply (lights_refine light_example globals0).
  - repeat constructor; cbn; lia.
  - repeat constructor; cbn; lia.
  - by apply example_light_exec.
Defined.

Lemma brightness_between_witness :
  let st := mkLight 0xff806040 0 0 0 0 in
  64 <= rgb_to_brightness st <= 128 /\ 0 <= rgb_to_brightness st < 256 /\
  rgb_to_brightness (mkLight (Z.land (color st) 0xffffff) 0 0 0 0) = rgb_to_brightness st.
Proof. apply (brightness_between (mkLight 0xff806040 0 0 0 0) 64 128); vm_compute; split; discriminate. Defined.

Lemma status_line_lit_witness :
  status_lit (string_bytes "Full" ++ [10]) = true /\ status_lit (string_bytes "Full") = true.
Proof. apply (status_line_lit "Full"); [by repeat constructor|cbn; lia]. Defined.
