(* ===== verification/CDecimal.v ===== *)
(** * Decimals as text

    What [%d] writes ([pretty]) and [strtol] reads back. *)

From Stdlib Require Import Ascii String.
From S2P Require Import Prelude Bytes CStr.

Open Scope Z_scope.

Lemma string_bytes_app a b : string_bytes (a +:+ b)%string = string_bytes a ++ string_bytes b.
Proof. induction a as [|c a IH]; [done|]. exact (f_equal (cons _) IH). Qed.

Definition digit (c : ascii) : Prop := exists d, digit_val c = Some d /\ d < 10 /\ 48 <= chr c <= 57.

Lemma pretty_N_char_val n : (n < 10)%N -> digit_val (pretty_N_char n) = Some (Z.of_N n).
Proof.
  destruct n as [|p]; [done|]. intros Hn.
  do 4 (destruct p as [p|p|]; try done; try lia).
Qed.

Lemma pretty_N_char_digit n : digit (pretty_N_char n).
Proof. unfold digit, pretty_N_char. repeat case_match; eexists; split; try reflexivity; vm_compute; intuition discriminate. Qed.

Fixpoint all_chars (P : ascii -> Prop) (s : string) : Prop :=
  match s with EmptyString => True | String c s => P c /\ all_chars P s end.

Lemma pretty_N_go_chars (P : ascii -> Prop) n s :
  (forall n, P (pretty_N_char n)) -> all_chars P s -> all_chars P (pretty_N_go n s).
Proof.
  intros HP. revert s. induction (N.lt_wf_0 n) as [n _ IH]. intros s Hs.
  destruct (decide (n = 0)%N) as [->|Hn]; [by rewrite pretty_N_go_0|].
  rewrite pretty_N_go_step by lia. apply IH; [by apply N.div_lt; lia|]. by split.
Qed.

Lemma pretty_chars (P : ascii -> Prop) (n : N) : (forall n, P (pretty_N_char n)) -> all_chars P (pretty n).
Proof.
  intros HP. unfold pretty, pretty_N. case_decide; [split; [apply (HP 0%N)|done]|]. by apply pretty_N_go_chars.
Qed.

Lemma all_chars_bytes (P : ascii -> Prop) (R : Z -> Prop) s :
  (forall c, P c -> R (Z.of_N (N_of_ascii c))) -> all_chars P s -> Forall R (string_bytes s).
Proof. intros HP. unfold string_bytes. induction s as [|c s IH]; [constructor|]. intros [Hc Hs]. constructor; auto. Qed.

(** No null byte in a decimal. *)
Lemma pretty_bytes (v : Z) : Forall (fun b => b <> 0) (string_bytes (pretty v)).
Proof.
  assert (Hn : forall n : N, Forall (fun b => b <> 0) (string_bytes (pretty n))).
  { intros n. eapply all_chars_bytes, (pretty_chars digit), pretty_N_char_digit.
    intros c (d & _ & _ & Hc). unfold chr in Hc. lia. }
  destruct v as [|p|p]; [apply (Hn 0%N)|apply (Hn (N.pos p))|].
  change (pretty (Z.neg p)) with ("-" +:+ pretty (N.pos p))%string. rewrite string_bytes_app. by apply Forall_app_2; [repeat constructor|].
Qed.

(** ** Reading back *)

Lemma digits_pretty_go n s : digits 10 (pretty_N_go n s) 0 = digits 10 s (Z.of_N n).
Proof.
  revert s. induction (N.lt_wf_0 n) as [n _ IH]. intros s.
  destruct (decide (n = 0)%N) as [->|Hn]; [done|].
  rewrite pretty_N_go_step, IH by (try apply N.div_lt; lia). cbn [digits].
  pose proof (N.mod_lt n 10) as Hm. rewrite pretty_N_char_val by lia. rewrite (proj2 (Z.ltb_lt _ _)) by lia.
  f_equal. pose proof (N.div_mod n 10) as Hd. lia.
Qed.

Lemma digits_pretty (n : N) : digits 10 (pretty n) 0 = Z.of_N n.
Proof. unfold pretty, pretty_N. case_decide; [by subst|]. by rewrite digits_pretty_go. Qed.

Lemma digit_start c s : digit c -> skip_space (String c s) = String c s /\ sign (String c s) = (false, String c s).
Proof.
  intros (d & _ & _ & Hc). cbn [skip_space]. unfold isspace.
  rewrite (proj2 (Z.eqb_neq _ _)), (proj2 (Z.leb_gt (chr c) 13)), andb_false_r by lia. split; [done|].
  destruct c as [[] [] [] [] [] [] [] []]; vm_compute in Hc; try (by destruct Hc); done.
Qed.

Lemma detect_base10 s : detect_base 10 s = (10, s).
Proof. unfold detect_base. by repeat case_match. Qed.

(** [strtol] reads what [%d] wrote. *)
Lemma strtol_pretty n : 0 <= n < 2 ^ 31 -> strtol_val (pretty n) 10 = n.
Proof.
  intros Hn. assert (Hp : pretty n = pretty (Z.to_N n)) by (by destruct n as [|p|p]; [| |lia]).
  rewrite Hp. pose proof (digits_pretty (Z.to_N n)) as Hd. rewrite Z2N.id in Hd by lia.
  pose proof (pretty_chars digit (Z.to_N n) pretty_N_char_digit) as Hc. unfold strtol_val, strtol.
  destruct (pretty (Z.to_N n)) as [|c s].
  { by cbn in Hd |- *. }
  destruct (digit_start c s (proj1 Hc)) as [-> ->]. rewrite detect_base10, Hd. cbv zeta iota. unfold LONG_MAX, LONG_MIN.
  rewrite Z.gtb_ltb, (proj2 (Z.ltb_ge _ _)) by lia. by rewrite (proj2 (Z.ltb_ge n _)) by lia.
Qed.
