(* ===== verification/InitD10f.v ===== *)
(** * init/init_d10f.c: the init extension

    [init_msm_properties] runs in init before the file systems are mounted:
    it reads the forced persistent properties, chooses which storage is the
    primary one, and writes the fstab and the list of storages.

    The static variables are the record [statics], threaded by [ini]; files,
    directories and properties are calls.  [char] arrays that are edited in
    place are lists of bytes; a function that can write or read past the end
    of one gives [None] or is undefined.  The rest of init (property_get,
    property_set) and the C library are calls. *)

From Stdlib Require Import Ascii String.
From S2P Require Import Prelude Bytes Prog StProg CStr.

Open Scope Z_scope.

(** ** Data *)

Definition PERSISTENT_PROPERTY_DIR : string := "/data/property".
Definition PERSISTENT_PROPERTY_PLANNED_SWAP : string := "persist.storages.planned_swap".
Definition PERSISTENT_PROPERTY_SWAPPED : string := "persist.storages.swapped".

Definition prop_forced_list : list string := [PERSISTENT_PROPERTY_PLANNED_SWAP].

Definition FILE_FSTAB_TEMPLATE : string := "/fstab.template".
Definition FILE_FSTAB_STORAGES : string := "/fstab.storages".
Definition FILE_STORAGE_LIST : string := "/data/system/storage_list.xml".

Definition STR_STORAGE_INTERNAL : string := "@string/storage_internal".
Definition STR_STORAGE_SDCARD : string := "@string/storage_sd_card".
Definition STR_STORAGE_USB : string := "@string/storage_usb".

Definition STOR_PRIMARY : nat := 0.
Definition STOR_SECONDARY : nat := 1.

Definition PATR_NUM_AUTO : Z := -1.

Record mount_point := mkMount { name : string; path : string }.

Definition mnt_point : list mount_point :=
  [mkMount "sdcard0" "/storage/sdcard0"; mkMount "sdcard1" "/storage/sdcard1"; mkMount "usbdisk" "/storage/usbdisk"].

Record storage_item := mkItem {
  emmc : Z;
  sdcc : Z;
  part_num : Z;
  storageDescription : string;
  removable : Z;
  emulated : Z;
  mtpReserve : Z;
  allowMassStorage : Z;
  maxFileSize : Z }.

(** Members that an initialiser does not name are 0. *)
Definition storage_list0 : list storage_item := [
  mkItem 1 1 PATR_NUM_AUTO STR_STORAGE_INTERNAL 0 0 0 0 0;
  mkItem 0 2 PATR_NUM_AUTO STR_STORAGE_SDCARD 1 0 0 1 0;
  mkItem 0 3 PATR_NUM_AUTO STR_STORAGE_USB 1 0 0 0 0].

Record statics := mkStatics {
  storage_list : list storage_item;
  stor_swapped : Z;
  swap_sdcc : Z }.

Definition statics0 : statics := mkStatics storage_list0 0 0.

(** What the headers that are not in the repository fix. *)
Class InitH := {
  PROP_VALUE_MAX : Z;
  HAVE_DIRENT_D_TYPE : bool;
  DT_REG : Z;
  MS_REMOUNT : Z;
  MS_RDONLY : Z }.

Record dirent := mkDirent { d_name : string; d_type : Z }.
Record stat := mkStat { st_mode : Z; st_uid : Z; st_gid : Z; st_nlink : Z }.

(** ** Calls *)

Inductive iarg := IZ (z : Z) | IS (s : string).

(** [OpenAt dir name] has the flags [O_RDONLY | O_NOFOLLOW]; [Fread n f]
    gives the bytes read; [Readlink p n] gives the bytes of the link, or
    [None] for -1.  Text for a file is formatted: its formats have strings
    only.  [Error] is the log macro [ERROR]. *)
Inductive icall : Type -> Type :=
| OpenDir (path : string) : icall (option Z)
| DirFd (dir : Z) : icall Z
| ReadDir (dir : Z) : icall (option dirent)
| CloseDir (dir : Z) : icall unit
| OpenAt (dirfd : Z) (name : string) : icall Z
| FStat (fd : Z) : icall (option stat)
| Read (fd n : Z) : icall (option (list Z))
| Close (fd : Z) : icall unit
| PropertySet (name value : string) : icall Z
| PropertyGet (name : string) : icall (Z * string)
| Mount (source target fstype : string) (flags : Z) : icall Z
| Symlink (target link : string) : icall Z
| Access (path : string) : icall Z
| Readlink (path : string) (n : Z) : icall (option (list Z))
| Fopen (path mode : string) : icall (option Z)
| Fread (n f : Z) : icall (list Z)
| Fputs (text : string) (f : Z) : icall unit
| Fclose (f : Z) : icall unit
| Errno : icall Z
| Error (fmt : string) (args : list iarg) : icall unit.

#[export] Instance init_calls `{InitH} : Syscalls icall := fun R c =>
  match c in icall R return R -> Prop with
  | Read _ n => fun r =>
      match r with Some bs => Z.of_nat (length bs) <= n /\ Forall byte_ok bs | None => True end
  | Readlink _ n => fun r =>
      match r with Some bs => Z.of_nat (length bs) <= n /\ Forall byte_ok bs | None => True end
  | Fread n _ => fun bs => Z.of_nat (length bs) <= Z.max 0 n /\ Forall byte_ok bs
  | PropertyGet _ => fun r =>
      r.1 = Z.of_nat (String.length r.2) /\ r.1 < PROP_VALUE_MAX /\ Forall (fun b => b <> 0) (string_bytes r.2)
  | _ => fun _ => True
  end.

Abbreviation ini := (stprog statics icall).

Definition set_list (l : list storage_item) (g : statics) : statics := mkStatics l (stor_swapped g) (swap_sdcc g).
Definition set_swapped (v : Z) (g : statics) : statics := mkStatics (storage_list g) v (swap_sdcc g).
Definition set_sdcc (v : Z) (g : statics) : statics := mkStatics (storage_list g) (stor_swapped g) v.

(** [storage_list[i]]. *)
Definition item (i : nat) : ini storage_item :=
  l ← gets storage_list;
  defined (l !! i).

(** An assignment to members of [storage_list[i]]. *)
Definition update_item (i : nat) (f : storage_item -> storage_item) : ini unit :=
  x ← item i;
  modify (fun g => set_list (<[i := f x]> (storage_list g)) g).

Definition log_errno (fmt : string) (arg : string) : ini unit :=
  e ← do_call Errno;
  do_call (Error fmt [IS arg; IZ e]).

(** ** Forced properties *)

Definition check_prop_forced (prop_name : string) : bool :=
  existsb (fun p => (String.length p =? String.length prop_name)%nat && streq p prop_name) prop_forced_list.

(** [S_IRWXG | S_IRWXO], 077 in octal. *)
Definition S_IRWXGO : Z := 0x3f.

Definition insecure (sb : stat) : bool :=
  negb (Z.land (st_mode sb) S_IRWXGO =? 0) || negb (st_uid sb =? 0) || negb (st_gid sb =? 0) || negb (st_nlink sb =? 1).

Section Init.
Context {IH : InitH}.

(** What the loop does with an entry whose name is forced. *)
Definition read_prop (dir_fd : Z) (entry : dirent) : ini unit :=
  fd ← do_call (OpenAt dir_fd (d_name entry));
  if fd <? 0 then log_errno "Unable to open persistent property file '%s' errno: %d\n" (d_name entry)
  else
    r ← do_call (FStat fd);
    match r with
    | None =>
        log_errno "fstat on property file '%s' failed errno: %d\n" (d_name entry);;
        do_call (Close fd)
    | Some sb =>
        if insecure sb then
          do_call (Error "skipping insecure property file %s (uid=%u gid=%u nlink=%d mode=%o)\n"
            [IS (d_name entry); IZ (st_uid sb); IZ (st_gid sb); IZ (st_nlink sb); IZ (st_mode sb)]);;
          do_call (Close fd)
        else
          r ← do_call (Read fd (PROP_VALUE_MAX - 1));
          match r with
          | Some bs => do_call (PropertySet (d_name entry) (cstring (bs ++ [0])));; mret tt
          | None => log_errno "Unable to read persistent property file %s errno: %d\n" (d_name entry)
          end;;
          do_call (Close fd)
    end.

Fixpoint readdir_loop (fuel : nat) (dir dir_fd : Z) : ini unit :=
  match fuel with
  | O => no_fuel
  | S fuel =>
      r ← do_call (ReadDir dir);
      match r with
      | None => mret tt
      | Some entry =>
          when_s (check_prop_forced (d_name entry) && (negb HAVE_DIRENT_D_TYPE || (d_type entry =? DT_REG)))
            (read_prop dir_fd entry);;
          readdir_loop fuel dir dir_fd
      end
  end.

Definition init_prop_forced_list (fuel : nat) : ini Z :=
  r ← do_call (OpenDir PERSISTENT_PROPERTY_DIR);
  match r with
  | Some dir =>
      dir_fd ← do_call (DirFd dir);
      readdir_loop fuel dir dir_fd;;
      do_call (CloseDir dir)
  | None => log_errno "Unable to open persistent property directory %s errno: %d\n" PERSISTENT_PROPERTY_DIR
  end;;
  mret 0.
End Init.

(** ** The list of storages *)

Definition quoted (s : string) : string := (dq +:+ s +:+ dq)%string.
Definition bool_text (b : bool) : string := if b then "true" else "false".

(** The lines of one storage. *)
Definition storage_lines (i : nat) (mount : mount_point) (s : storage_item) : list string :=
  [ ("  <storage mountPoint=" +:+ quoted (path mount) +:+ " " +:+ nl)%string;
    ("    storageDescription=" +:+ quoted (storageDescription s) +:+ " " +:+ nl)%string;
    ("    primary=" +:+ quoted (bool_text (i =? STOR_PRIMARY)%nat) +:+ " " +:+ nl)%string;
    ("    removable=" +:+ quoted (bool_text (negb (removable s =? 0)%Z)) +:+ " " +:+ nl)%string;
    ("    emulated=" +:+ quoted (bool_text (negb (emulated s =? 0)%Z)) +:+ " " +:+ nl)%string;
    ("    allowMassStorage=" +:+ quoted (bool_text (negb (allowMassStorage s =? 0)%Z)) +:+ " " +:+ nl)%string;
    ("  /> " +:+ nl)%string ].

(** A series of [fprintf(f, ...)]. *)
Fixpoint put_all (texts : list string) (f : Z) : ini unit :=
  match texts with
  | [] => mret tt
  | t :: texts => do_call (Fputs t f);; put_all texts f
  end.

Fixpoint storages_loop (i : nat) (items : list storage_item) (f : Z) : ini unit :=
  match items with
  | [] => mret tt
  | s :: items =>
      m ← defined (mnt_point !! i);
      put_all (storage_lines i m s) f;;
      storages_loop (S i) items f
  end.

Definition create_storage_list : ini Z :=
  r ← do_call (Fopen FILE_STORAGE_LIST "w+");
  match r with
  | None =>
      log_errno "can not open '%s', err: %s\n" FILE_STORAGE_LIST;;
      mret (-1)
  | Some f =>
      put_all [("<?xml version=" +:+ quoted "1.0" +:+ " encoding=" +:+ quoted "utf-8" +:+ "?>" +:+ nl)%string;
               ("<StorageList>" +:+ nl)%string] f;;
      l ← gets storage_list;
      storages_loop 0 l f;;
      do_call (Fputs ("</StorageList>" +:+ nl)%string f);;
      do_call (Fclose f);;
      mret 0
  end.

(** ** The fstab *)

(** What [get_voldmanaged] leaves in [buf]. *)
Definition voldmanaged (m : mount_point) (s : storage_item) : string :=
  (name m +:+ ":" +:+ (if (part_num s =? PATR_NUM_AUTO)%Z then "auto" else pretty (part_num s)) +:+
   (if (emulated s =? 0)%Z then ",noemulatedsd" else EmptyString) +:+
   (if (removable s =? 0)%Z then ",nonremovable" else EmptyString))%string.

(** [size] is the size of the array behind [buf]. *)
Definition get_voldmanaged (size : nat) (idx : nat) : ini string :=
  s ← item idx;
  m ← defined (mnt_point !! idx);
  let buf := voldmanaged m s in
  if (size <=? String.length buf)%nat then st_undef else mret buf.

(** [strlen], for an array with a null byte. *)
Fixpoint strlen (buf : list Z) : option nat :=
  match buf with
  | [] => None
  | b :: buf => if b =? 0 then Some O else S <$> strlen buf
  end.

Fixpoint starts_with (pat s : list Z) : bool :=
  match pat, s with
  | [], _ => true
  | a :: pat, b :: s => (a =? b) && starts_with pat s
  | _, [] => false
  end.

(** [strstr], as the offset of the match, on the characters of the strings. *)
Fixpoint strstr (s pat : list Z) : option nat :=
  if starts_with pat s then Some O
  else match s with [] => None | _ :: s => S <$> strstr s pat end.

(** [memmove] and [memcpy] to [dst], which write all of [bs] or are
    undefined. *)
Definition mem_write (buf : list Z) (dst : nat) (bs : list Z) : option (list Z) :=
  if decide (dst + length bs <= length buf)%nat then Some (list_inserts dst bs buf) else None.

(** The value and the contents of the array behind [buf]. *)
Definition str_replace (buf : list Z) (prefix : ascii) (num : Z) (text : string) : option (Z * list Z) :=
  buflen ← strlen buf;
  let tlen := String.length text in
  let ss := String prefix (pretty num) in
  let sslen := String.length ss in
  if (16 <=? sslen)%nat then None else
  match strstr (take buflen buf) (string_bytes ss) with
  | None => Some (-1, buf)
  | Some plen =>
      buf ← mem_write buf (plen + tlen) (take (buflen - plen - sslen) (drop (plen + sslen) buf));
      buf ← mem_write buf plen (string_bytes text);
      Some (0, buf)
  end.

(** The loop over the two storages of the fstab. *)
Fixpoint expand_loop (i n : nat) (tmp : list Z) : ini (list Z) :=
  match n with
  | O => mret tmp
  | S n =>
      s ← item i;
      tmp ←
        (if (STOR_PRIMARY <=? i)%nat && (i <=? STOR_SECONDARY)%nat then
           vm ← get_voldmanaged 128 i;
           '(_, tmp) ← defined (str_replace tmp "%"%char (sdcc s) vm);
           do_call (Error "%s: msm_sdcc.%d voldmanaged=%s\n" [IS "create_ftab_storage"; IZ (sdcc s); IS vm]);;
           mret tmp
         else mret tmp);
      expand_loop (S i) n tmp
  end.

Definition tmp_size : nat := 2 * 1024.

Definition create_ftab_storage : ini Z :=
  r ← do_call (Fopen FILE_FSTAB_TEMPLATE "r");
  match r with
  | None =>
      log_errno "can not open '%s', err: %s\n" FILE_FSTAB_TEMPLATE;;
      mret (-1)
  | Some f =>
      bs ← do_call (Fread (Z.of_nat tmp_size - 1) f);
      if (length bs =? 0)%nat then
        do_call (Error "can not read '%s'\n" [IS FILE_FSTAB_TEMPLATE]);;
        do_call (Fclose f);;
        mret (-2)
      else
        do_call (Fclose f);;
        l ← gets storage_list;
        tmp ← expand_loop 0 (length l) (bs ++ replicate (tmp_size - length bs) 0);
        r ← do_call (Fopen FILE_FSTAB_STORAGES "w+");
        match r with
        | None =>
            log_errno "can not open '%s', err: %s\n" FILE_FSTAB_STORAGES;;
            mret (-10)
        | Some f =>
            n ← defined (strlen tmp);
            do_call (Fputs (cstring tmp) f);;
            do_call (Fclose f);;
            mret 0
        end
  end.

(** ** Partitions *)

(** [strrchr(s, c)], as what follows the character. *)
Fixpoint after_last (c : ascii) (s : string) : option string :=
  match s with
  | EmptyString => None
  | String a s =>
      match after_last c s with
      | Some t => Some t
      | None => if Ascii.eqb a c then Some s else None
      end
  end.

Definition contains (s pat : string) : bool :=
  match strstr (string_bytes s) (string_bytes pat) with Some _ => true | None => false end.

(** What [get_part_num] makes of the target of the link. *)
Definition part_num_of (buf : string) : Z :=
  if negb (contains buf "/mmcblk") then -3
  else match after_last "p"%char buf with
       | None => -4
       | Some p =>
           let rc := strtol_val p 10 in
           if rc <=? 0 then -5 else rc
       end.

Definition part_dev (sdcc : Z) (part_name : string) : string :=
  ("/dev/block/platform/msm_sdcc." +:+ pretty sdcc +:+ "/by-name/" +:+ part_name)%string.

Definition get_part_num (sdcc : Z) (part_name : string) : ini Z :=
  let dev_name := part_dev sdcc part_name in
  if (256 <=? String.length dev_name)%nat then st_undef else
  rc ← do_call (Access dev_name);
  if negb (rc =? 0) then
    do_call (Error "Partition '%s' NOT present on msm_sdcc.%d (err = %d) \n" [IS part_name; IZ sdcc; IZ rc]);;
    mret (-1)
  else
    r ← do_call (Readlink dev_name (256 - 1));
    let len := match r with Some bs => Z.of_nat (length bs) | None => -1 end in
    if len <=? 0 then
      do_call (Error "readlink(%s) return err = %d \n" [IS dev_name; IZ len]);;
      mret (-2)
    else mret (part_num_of (cstring (default [] r ++ [0]))).

(** ** init_msm_properties *)

(** [atoi] *)
Definition atoi (s : string) : Z := strtol_val s 10.

(** The storage list when the SD card slot is the first controller. *)
Definition swap_controllers : ini unit :=
  update_item STOR_PRIMARY (fun x =>
    mkItem 0 1 (part_num x) (storageDescription x) 0 (emulated x) (mtpReserve x) (allowMassStorage x) (maxFileSize x));;
  update_item STOR_SECONDARY (fun x =>
    mkItem 1 2 (part_num x) (storageDescription x) 0 (emulated x) (mtpReserve x) 0 (maxFileSize x)).

Definition swap_items : ini unit :=
  x ← item STOR_PRIMARY;
  y ← item STOR_SECONDARY;
  update_item STOR_PRIMARY (fun _ => y);;
  update_item STOR_SECONDARY (fun _ => x).

Definition set_removable (v : Z) (x : storage_item) : storage_item :=
  mkItem (emmc x) (sdcc x) (part_num x) (storageDescription x) v (emulated x) (mtpReserve x) (allowMassStorage x) (maxFileSize x).
Definition set_description (v : string) (x : storage_item) : storage_item :=
  mkItem (emmc x) (sdcc x) (part_num x) v (removable x) (emulated x) (mtpReserve x) (allowMassStorage x) (maxFileSize x).
Definition set_part_num (v : Z) (x : storage_item) : storage_item :=
  mkItem (emmc x) (sdcc x) v (storageDescription x) (removable x) (emulated x) (mtpReserve x) (allowMassStorage x) (maxFileSize x).

Definition describe : ini unit :=
  x ← item STOR_PRIMARY;
  y ← item STOR_SECONDARY;
  let both (a b : string) : ini unit :=
    update_item STOR_PRIMARY (set_description a);; update_item STOR_SECONDARY (set_description b) in
  if (emmc x =? 0) && (emmc y =? 0) then both STR_STORAGE_INTERNAL STR_STORAGE_SDCARD
  else if negb (emmc x =? 0) then both STR_STORAGE_INTERNAL STR_STORAGE_SDCARD
  else if negb (emmc y =? 0) then both STR_STORAGE_SDCARD STR_STORAGE_INTERNAL
  else mret tt.

Definition find_part (i : nat) : ini unit :=
  x ← item i;
  rc ← get_part_num (sdcc x) "usbmsc";
  when_s (0 <? rc) (update_item i (set_part_num rc)).

(** The boot properties, and the flags they set. *)
Definition boot_flags : ini unit :=
  '(rc, value) ← do_call (PropertyGet "ro.boot.llcon");
  when_s ((0 <? rc) && negb (starts_with (string_bytes "0") (string_bytes value)))
    (do_call (PropertySet "debug.sf.nobootanimation" "1");; mret tt);;
  '(rc, value) ← do_call (PropertyGet PERSISTENT_PROPERTY_PLANNED_SWAP);
  when_s (negb (rc =? 0) && negb (atoi value =? 0)) (modify (set_swapped 1));;
  '(rc, value) ← do_call (PropertyGet "ro.boot.swap_sdcc");
  when_s (negb (rc =? 0)) (
    modify (set_sdcc (atoi value));;
    v ← gets swap_sdcc;
    when_s ((v <? 0) || (2 <? v)) (modify (set_sdcc 0))).

(** Which storage is the primary one, and what it is called. *)
Definition choose_storages : ini unit :=
  v ← gets swap_sdcc;
  when_s (0 <? v) swap_controllers;;
  sw ← gets stor_swapped;
  (if negb (sw =? 0) then
     swap_items;;
     do_call (PropertySet PERSISTENT_PROPERTY_SWAPPED "1")
   else do_call (PropertySet PERSISTENT_PROPERTY_SWAPPED "0"));;
  update_item STOR_PRIMARY (set_removable 0);;
  describe.

Section Main.
Context {IH : InitH}.

Definition init_msm_properties (fuel : nat) : ini unit :=
  init_prop_forced_list fuel;;
  do_call (Mount "rootfs" "/" "rootfs" MS_REMOUNT);;
  boot_flags;;
  choose_storages;;
  find_part STOR_PRIMARY;;
  find_part STOR_SECONDARY;;
  create_ftab_storage;;
  do_call (Symlink FILE_FSTAB_STORAGES "/fstab.qcom");;
  create_storage_list;;
  do_call (Mount "rootfs" "/" "rootfs" (Z.lor MS_REMOUNT MS_RDONLY));;
  mret tt.
End Main.
