(* ===== verification/InitText.v ===== *)
(** * Editing C strings in an array

    [str_replace] edits an array in place; the reference is [replace_first]
    on lists.  For text followed by zeros they agree as long as the result
    fits, and whatever the array holds, zeros at its end bound what the
    edit reaches. *)

From Stdlib Require Import Ascii String.
From S2P Require Import Prelude Bytes Prog StProg CStr InitD10f.

Open Scope Z_scope.

Fixpoint replace_first (pat text s : list Z) : list Z :=
  if starts_with pat s then text ++ drop (length pat) s
  else match s with [] => [] | b :: s => b :: replace_first pat text s end.

Lemma starts_with_spec pat s : starts_with pat s = true <-> pat = take (length pat) s.
Proof.
  revert s. induction pat as [|a pat IH]; intros s; [done|]. destruct s as [|b s]; [done|]. cbn.
  rewrite andb_true_iff, Z.eqb_eq, IH. split; [by intros [-> <-]|by intros [= -> H]].
Qed.

Lemma strstr_found s pat i : strstr s pat = Some i -> pat = take (length pat) (drop i s) /\ (i + length pat <= length s)%nat.
Proof.
  revert i. induction s as [|b s IH]; intros i; cbn [strstr]; destruct (starts_with pat _) eqn:Hs.
  1, 3: intros [= <-]; apply starts_with_spec in Hs; split; [done|]; apply (f_equal length) in Hs;
    rewrite length_take in Hs; cbn in *; lia.
  - done.
  - destruct (strstr s pat) as [j|] eqn:Hj; [|done]. intros [= <-]. destruct (IH j eq_refl) as [H1 H2].
    split; [done|cbn; lia].
Qed.

Lemma replace_first_found s pat text i :
  strstr s pat = Some i -> replace_first pat text s = take i s ++ text ++ drop (i + length pat) s.
Proof.
  revert i. induction s as [|b s IH]; intros i; cbn [strstr replace_first]; destruct (starts_with pat _) eqn:Hs.
  1, 3: by intros [= <-].
  - done.
  - destruct (strstr s pat) as [j|] eqn:Hj; [|done]. intros [= <-]. cbn. by rewrite (IH j eq_refl).
Qed.

Lemma replace_first_none s pat text : strstr s pat = None -> replace_first pat text s = s.
Proof.
  induction s as [|b s IH]; cbn [strstr replace_first]; destruct (starts_with pat _); try done.
  destruct (strstr s pat); [done|]. intros _. by rewrite IH.
Qed.

(** ** Arrays *)

Lemma strlen_text s rest : Forall (fun b => b <> 0) s -> strlen (s ++ 0 :: rest) = Some (length s).
Proof. induction 1 as [|b s Hb Hs IH]; [done|]. cbn. by rewrite (proj2 (Z.eqb_neq _ _)), IH. Qed.

Lemma mem_write_in buf dst bs :
  (dst + length bs <= length buf)%nat -> mem_write buf dst bs = Some (take dst buf ++ bs ++ drop (dst + length bs) buf).
Proof.
  intros H. unfold mem_write. rewrite decide_True by done. f_equal.
  rewrite <- (take_drop dst buf) at 1. rewrite <- (take_drop (length bs) (drop dst buf)), drop_drop.
  replace dst with (length (take dst buf) + 0)%nat at 1 by (rewrite length_take; lia).
  rewrite list_inserts_app_r, list_inserts_0_r; [done|]. rewrite length_take, length_drop. lia.
Qed.

Lemma mem_write_out buf dst bs : (length buf < dst + length bs)%nat -> mem_write buf dst bs = None.
Proof. intros H. unfold mem_write. by rewrite decide_False by lia. Qed.

Lemma strlen_lt buf m : strlen buf = Some m -> (m < length buf)%nat.
Proof.
  revert m. induction buf as [|b buf IH]; intros m; [done|]. cbn. destruct (b =? 0); [intros [= <-]; lia|].
  destruct (strlen buf); [|done]. intros [= <-]. specialize (IH _ eq_refl). lia.
Qed.

(** From index [k] on, the array holds zeros. *)
Definition room (k : nat) (buf : list Z) : Prop := drop k buf = replicate (length buf - k) 0.

Lemma strlen_room k buf : (k < length buf)%nat -> room k buf -> exists m, strlen buf = Some m /\ (m <= k)%nat.
Proof.
  unfold room. revert k. induction buf as [|b buf IH]; intros k Hk Hr; [cbn in Hk; lia|]. cbn [strlen].
  destruct (b =? 0) eqn:Hb; [exists 0%nat; split; [done|lia]|]. destruct k as [|k].
  - cbn in Hr. injection Hr as -> _. done.
  - destruct (IH k) as (m & -> & Hm); [cbn in Hk; lia|done|]. exists (S m). split; [done|lia].
Qed.

Definition placeholder (prefix : ascii) (num : Z) : list Z := string_bytes (String prefix (pretty num)).

Lemma placeholder_length prefix num : (length (placeholder prefix num) = String.length (String prefix (pretty num)))%nat.
Proof. apply length_string_bytes. Qed.

Section Replace.
Context (prefix : ascii) (num : Z) (text : string).
Let ss := placeholder prefix num.
Hypothesis short : (length ss < 16)%nat.

(** What [str_replace] does to any array. *)
Lemma str_replace_array buf m plen :
  strlen buf = Some m -> strstr (take m buf) ss = Some plen ->
  str_replace buf prefix num text =
    if decide (m + String.length text <= length buf + length ss)%nat
    then Some (0, take plen buf ++ string_bytes text ++ take (m - plen - length ss) (drop (plen + length ss) buf) ++
                  drop (m + String.length text - length ss) buf)
    else None.
Proof.
  intros Hm Hp. pose proof (strlen_lt _ _ Hm) as Hlt. pose proof (strstr_found _ _ _ Hp) as [_ Hle].
  rewrite length_take in Hle. unfold str_replace. rewrite Hm. cbn [mbind option_bind].
  change (string_bytes (String prefix (pretty num))) with ss. rewrite Hp.
  unfold ss in *. rewrite placeholder_length in *. rewrite (proj2 (Nat.leb_gt _ _)) by done.
  set (sl := String.length (String prefix (pretty num))) in *. set (tl := String.length text) in *.
  assert (Hrest : length (take (m - plen - sl) (drop (plen + sl) buf)) = (m - plen - sl)%nat).
  { rewrite length_take, length_drop. lia. }
  destruct (decide _) as [Hd|Hd]; [|by rewrite mem_write_out by lia].
  rewrite mem_write_in by lia. cbn [mbind option_bind]. rewrite Hrest.
  rewrite mem_write_in by (rewrite length_string_bytes, !length_app, length_take, length_drop, Hrest; fold tl; lia).
  cbn [mbind option_bind]. do 2 f_equal. rewrite length_string_bytes. fold tl.
  rewrite take_app_le, take_take, Nat.min_l by (rewrite ?length_take; lia). f_equal. f_equal.
  rewrite drop_app_ge by (rewrite length_take; lia). rewrite length_take, Nat.min_l, Nat.sub_diag, drop_0 by lia.
  do 2 f_equal. lia.
Qed.

(** ** The reference *)

Lemma str_replace_text s k :
  Forall (fun b => b <> 0) s ->
  let r := replace_first ss (string_bytes text) s in
  str_replace (s ++ replicate (S k) 0) prefix num text =
    if decide (length r <= length s + S k)%nat
    then Some (if decide (is_Some (strstr s ss)) then 0 else -1, r ++ drop (length r) (s ++ replicate (S k) 0))
    else None.
Proof.
  intros Hs r. assert (Hm : strlen (s ++ replicate (S k) 0) = Some (length s)) by (by apply strlen_text).
  destruct (strstr s ss) as [plen|] eqn:Hp.
  - pose proof (strstr_found _ _ _ Hp) as [_ Hle]. unfold r. rewrite (replace_first_found _ _ _ _ Hp).
    rewrite (str_replace_array _ _ plen Hm) by (by rewrite take_app_length).
    rewrite !length_app, length_take, length_drop, length_string_bytes, length_replicate.
    rewrite (decide_True (P := is_Some _)) by done.
    destruct (decide _), (decide _); [|lia..|done].
    rewrite take_app_le by lia. rewrite (drop_app_le _ _ (plen + length ss)) by lia.
    rewrite take_app_length' by (rewrite length_drop; lia).
    rewrite <- !app_assoc. do 6 f_equal. lia.
  - unfold r. rewrite (replace_first_none _ _ _ Hp). rewrite decide_True by lia.
    unfold str_replace. rewrite Hm. cbn [mbind option_bind]. rewrite take_app_length.
    change (string_bytes (String prefix (pretty num))) with ss. rewrite Hp.
    unfold ss in short. rewrite placeholder_length in short. rewrite (proj2 (Nat.leb_gt _ _)) by done.
    rewrite decide_False by (by intros []). by rewrite drop_app_length.
Qed.

(** After a replacement that is not shorter there are only zeros. *)
Lemma replace_first_rest s k :
  (length ss <= String.length text)%nat ->
  let r := replace_first ss (string_bytes text) s in
  drop (length r) (s ++ replicate (S k) 0) = replicate (length s + S k - length r) 0.
Proof.
  intros grows r. assert (Hl : (length s <= length r)%nat).
  { unfold r. destruct (strstr s ss) as [plen|] eqn:Hp; [|by rewrite replace_first_none].
    pose proof (strstr_found _ _ _ Hp) as [_ Hle].
    rewrite (replace_first_found _ _ _ _ Hp), !length_app, length_take, length_drop, length_string_bytes. lia. }
  rewrite drop_app_ge, drop_replicate by lia. f_equal. lia.
Qed.

Lemma str_replace_room k buf :
  (length ss <= String.length text)%nat ->
  (k + (String.length text - length ss) < length buf)%nat -> room k buf ->
  exists r buf', str_replace buf prefix num text = Some (r, buf') /\ (length buf' = length buf)%nat /\
    room (k + (String.length text - length ss)) buf'.
Proof.
  intros grows Hk Hr. destruct (strlen_room k buf) as (m & Hm & Hmk); [lia|done|].
  assert (Hmore : forall j, (k <= j)%nat -> drop j buf = replicate (length buf - j) 0).
  { intros j Hj. replace j with (k + (j - k))%nat at 1 by lia. rewrite <- drop_drop, Hr, drop_replicate. f_equal. lia. }
  destruct (strstr (take m buf) ss) as [plen|] eqn:Hp.
  - pose proof (strstr_found _ _ _ Hp) as [_ Hle]. rewrite length_take in Hle.
    rewrite (str_replace_array _ _ _ Hm Hp), decide_True by lia. do 2 eexists. split; [done|].
    set (b := take (m - plen - _) _). set (tl := String.length text) in *. set (sl := length ss) in *.
    assert (Ha : length (take plen buf) = plen) by (rewrite length_take; lia).
    assert (Hb : length b = (m - plen - sl)%nat) by (unfold b; rewrite length_take, length_drop; lia).
    unfold room. rewrite !length_app, length_string_bytes, Ha, Hb, length_drop. fold tl. split; [lia|].
    rewrite !drop_app, Ha, Hb, length_string_bytes, drop_drop. fold tl.
    rewrite !drop_ge by (rewrite ?length_string_bytes, ?Ha, ?Hb; fold tl; lia). cbn [app].
    rewrite Hmore by lia. f_equal. lia.
  - exists (-1), buf. split; [|split; [reflexivity|unfold room; by rewrite Hmore by lia]].
    unfold str_replace. rewrite Hm. cbn [mbind option_bind].
    change (string_bytes (String prefix (pretty num))) with ss. rewrite Hp.
    unfold ss in short. rewrite placeholder_length in short. by rewrite (proj2 (Nat.leb_gt _ _)) by done.
Qed.
End Replace.
