(* ===== verification/InitSpec.v ===== *)
(** * What the init extension does with the outside

    A monitor for the traces of [init_msm_properties]: what is open, the
    properties read and set, the template, the files written, and whether
    every call respects the protocol of [init_see] (operations only on what
    was opened last, properties set only from secure files).  The rules
    say what each function adds to the observations. *)

From Stdlib Require Import Ascii String.
From S2P Require Import Prelude Bytes Prog StProg CStr InitD10f InitText.

Open Scope Z_scope.

(** ** Observations *)

(** What is open: a directory with the entry read last, a property file with
    its name, its attributes and its contents, a FILE with its path, whether
    it is written, and the text so far. *)
Inductive handle :=
| HDir (d : Z) (entry : option dirent)
| HFd (fd : Z) (name : string) (sb : option stat) (data : option (list Z))
| HFile (f : Z) (path : string) (writing : bool) (text : string).

Record iobs := mkIobs {
  o_open : list handle;
  o_files : list (string * string);
  o_missed : list string;
  o_template : option (list Z);
  o_gets : list (string * string);
  o_sets : list (string * string);
  o_parts : list Z;
  o_entries : nat;
  o_ok : bool }.

Definition no_iobs : iobs := mkIobs [] [] [] None [] [] [] 0 true.

Definition see_open (l : list handle) (s : iobs) : iobs :=
  mkIobs l (o_files s) (o_missed s) (o_template s) (o_gets s) (o_sets s) (o_parts s) (o_entries s) (o_ok s).
Definition see_file (p t : string) (s : iobs) : iobs :=
  mkIobs (o_open s) (o_files s ++ [(p, t)]) (o_missed s) (o_template s) (o_gets s) (o_sets s) (o_parts s) (o_entries s) (o_ok s).
Definition see_missed (p : string) (s : iobs) : iobs :=
  mkIobs (o_open s) (o_files s) (o_missed s ++ [p]) (o_template s) (o_gets s) (o_sets s) (o_parts s) (o_entries s) (o_ok s).
Definition see_template (bs : list Z) (s : iobs) : iobs :=
  mkIobs (o_open s) (o_files s) (o_missed s) (Some bs) (o_gets s) (o_sets s) (o_parts s) (o_entries s) (o_ok s).
Definition see_get (n v : string) (s : iobs) : iobs :=
  mkIobs (o_open s) (o_files s) (o_missed s) (o_template s) (o_gets s ++ [(n, v)]) (o_sets s) (o_parts s) (o_entries s) (o_ok s).
Definition see_sets (l : list (string * string)) (s : iobs) : iobs :=
  mkIobs (o_open s) (o_files s) (o_missed s) (o_template s) (o_gets s) (o_sets s ++ l) (o_parts s) (o_entries s) (o_ok s).
Definition see_part (v : Z) (s : iobs) : iobs :=
  mkIobs (o_open s) (o_files s) (o_missed s) (o_template s) (o_gets s) (o_sets s) (o_parts s ++ [v]) (o_entries s) (o_ok s).
Definition see_entries (n : nat) (s : iobs) : iobs :=
  mkIobs (o_open s) (o_files s) (o_missed s) (o_template s) (o_gets s) (o_sets s) (o_parts s) (o_entries s + n) (o_ok s).
Definition check_ok (b : bool) (s : iobs) : iobs :=
  mkIobs (o_open s) (o_files s) (o_missed s) (o_template s) (o_gets s) (o_sets s) (o_parts s) (o_entries s) (o_ok s && b).

(** Only root can use the file, and it has no other name. *)
Definition secure (sb : stat) : Prop := st_mode sb mod 64 = 0 /\ st_uid sb = 0 /\ st_gid sb = 0 /\ st_nlink sb = 1.
#[export] Instance secure_dec sb : Decision (secure sb).
Proof. unfold secure. apply _. Defined.

(** The number [get_part_num] gives for what [readlink] answered. *)
Definition link_part (r : option (list Z)) : Z :=
  match r with
  | None | Some [] => -2
  | Some bs => part_num_of (cstring (bs ++ [0]))
  end.

Section See.
Context {IH : InitH}.

Definition regular (e : dirent) : Prop := HAVE_DIRENT_D_TYPE = true -> d_type e = DT_REG.
#[export] Instance regular_dec e : Decision (regular e).
Proof. unfold regular. apply _. Defined.

(** A forced property may be looked at: it is the entry read last. *)
Definition open_allowed (l : list handle) (n : string) : bool :=
  match l with
  | [HDir _ (Some e)] => bool_decide (d_name e = n /\ n ∈ prop_forced_list /\ regular e)
  | _ => false
  end.

(** A property may be set from the contents of a secure file; outside the
    directory, only the two properties of the function. *)
Definition set_allowed (l : list handle) (n v : string) : bool :=
  match l with
  | [] =>
      bool_decide ((n = "debug.sf.nobootanimation" /\ v = "1") \/
                   (n = PERSISTENT_PROPERTY_SWAPPED /\ (v = "0" \/ v = "1")))
  | [HFd _ n' (Some sb) (Some bs); HDir _ (Some e)] =>
      bool_decide (n = n' /\ d_name e = n /\ n ∈ prop_forced_list /\ regular e /\ secure sb /\ v = cstring (bs ++ [0]))
  | _ => false
  end.

Definition init_see (s : iobs) (e : event icall) : iobs :=
  match e with
  | @Ev _ R c r =>
      match c in icall R return R -> iobs with
      | OpenDir _ => fun r => match r with Some d => see_open (HDir d None :: o_open s) s | None => s end
      | DirFd d => fun _ => match o_open s with HDir d' _ :: _ => check_ok (d =? d') s | _ => check_ok false s end
      | ReadDir d => fun r =>
          let s := match r with Some _ => see_entries 1 s | None => s end in
          match o_open s with
          | HDir d' _ :: l => check_ok (d =? d') (see_open (HDir d r :: l) s)
          | _ => check_ok false s
          end
      | CloseDir d => fun _ =>
          match o_open s with
          | HDir d' _ :: l => check_ok (d =? d') (see_open l s)
          | _ => check_ok false s
          end
      | OpenAt _ n => fun fd =>
          let s := check_ok (open_allowed (o_open s) n) s in
          if fd <? 0 then s else see_open (HFd fd n None None :: o_open s) s
      | FStat fd => fun r =>
          match o_open s with
          | HFd fd' n _ data :: l => check_ok (fd =? fd') (see_open (HFd fd n r data :: l) s)
          | _ => check_ok false s
          end
      | Read fd _ => fun r =>
          match o_open s with
          | HFd fd' n sb _ :: l => check_ok (fd =? fd') (see_open (HFd fd n sb r :: l) s)
          | _ => check_ok false s
          end
      | Close fd => fun _ =>
          match o_open s with
          | HFd fd' _ _ _ :: l => check_ok (fd =? fd') (see_open l s)
          | _ => check_ok false s
          end
      | PropertySet n v => fun _ => see_sets [(n, v)] (check_ok (set_allowed (o_open s) n v) s)
      | PropertyGet n => fun r => see_get n r.2 s
      | Access _ => fun rc => if rc =? 0 then s else see_part (-1) s
      | Readlink _ _ => fun r => see_part (link_part r) s
      | Fopen p m => fun r =>
          match r with
          | Some f => see_open (HFile f p (streq m "w+") EmptyString :: o_open s) s
          | None => see_missed p s
          end
      | Fread _ f => fun bs =>
          match o_open s with
          | HFile f' _ w _ :: _ => see_template bs (check_ok ((f =? f') && negb w) s)
          | _ => check_ok false s
          end
      | Fputs t f => fun _ =>
          match o_open s with
          | HFile f' p w t' :: l => check_ok ((f =? f') && w) (see_open (HFile f p w (t' +:+ t)%string :: l) s)
          | _ => check_ok false s
          end
      | Fclose f => fun _ =>
          match o_open s with
          | HFile f' p w t :: l =>
              let s := check_ok (f =? f') (see_open l s) in
              if w then see_file p t s else s
          | _ => check_ok false s
          end
      | _ => fun _ => s
      end r
  end.

Definition init_observed (tr : list (event icall)) : iobs := fold_left init_see tr no_iobs.

(** The template is so long that the fstab may not fit; all was well until
    then. *)
Definition long_template (s : iobs) : Prop :=
  o_ok s = true /\ exists bs, o_template s = Some bs /\ (1961 < length bs)%nat.

(** The directory has more entries than the loop has fuel for. *)
Definition many_entries (n : nat) (s : iobs) : Prop := o_ok s = true /\ (n <= o_entries s)%nat.

(** A program returns, or is undefined on a long template, or stops with
    [n] entries seen. *)
Abbreviation wpi n := (wps init_see (many_entries n) long_template).

Lemma check_ok_true b s : b = true -> check_ok b s = s.
Proof. intros ->. destruct s. unfold check_ok. cbn. by rewrite andb_true_r. Qed.

Lemma see_open_same s : see_open (o_open s) s = s.
Proof. by destruct s. Qed.

(** The observation of one call, evaluated. *)
Ltac see_call := cbn; rewrite ?Z.eqb_refl, ?bool_decide_true by done; unfold check_ok; cbn; rewrite ?andb_true_r.

Section Rules.
Context (n : nat).
Implicit Types (g : statics) (s : iobs).

Lemma wph_log fmt arg (Q : unit -> statics -> iobs -> Prop) g s : Q tt g s -> wpi n (log_errno fmt arg) Q g s.
Proof. intros HQ. by apply wps_bind, wps_call; intros e _; apply wps_call; intros [] _. Qed.

(** ** Forced properties *)

Lemma check_prop_forced_spec name : check_prop_forced name = true <-> name ∈ prop_forced_list.
Proof.
  unfold check_prop_forced. rewrite existsb_exists. split.
  - intros (p & Hp & Hb). apply andb_true_iff in Hb as [_ ->%streq_true]. by apply list_elem_of_In.
  - intros Hn. exists name. split; [by apply list_elem_of_In|]. by rewrite Nat.eqb_refl, (proj2 (streq_true _ _)).
Qed.

Lemma secure_spec sb : insecure sb = false -> secure sb.
Proof.
  unfold insecure, secure, S_IRWXGO. rewrite !orb_false_iff, !negb_false_iff, !Z.eqb_eq.
  change 0x3f with (Z.ones 6). rewrite Z.land_ones by lia. tauto.
Qed.

(** Settings of forced properties. *)
Definition forced_sets (l : list (string * string)) : Prop := Forall (fun x => x.1 ∈ prop_forced_list) l.

Lemma wph_read_prop dfd d e (Q : unit -> statics -> iobs -> Prop) g s :
  o_open s = [HDir d (Some e)] -> d_name e ∈ prop_forced_list -> regular e ->
  (forall l, forced_sets l -> Q tt g (see_sets l s)) -> wpi n (read_prop dfd e) Q g s.
Proof.
  destruct s as [op fi mi te ge se pa en ok]. cbn [o_open]. intros -> Hf Hr HQ. unfold read_prop.
  assert (HQ0 : Q tt g (mkIobs [HDir d (Some e)] fi mi te ge se pa en ok)).
  { pose proof (HQ [] (Forall_nil_2 _)) as H0. unfold see_sets in H0. cbn in H0. by rewrite app_nil_r in H0. }
  apply wps_bind, wps_call. intros fd _. see_call.
  apply wps_if; intros Hfd; rewrite Hfd.
  { apply wph_log. exact HQ0. }
  apply wps_bind, wps_call. intros r _. see_call.
  destruct r as [sb|].
  2: { apply wps_bind, wph_log, wps_call. intros [] _. by see_call. }
  apply wps_if; intros Hs; [|apply secure_spec in Hs].
  { apply wps_bind, wps_call. intros [] _. apply wps_call. intros [] _. by see_call. }
  apply wps_bind, wps_call. intros r _. see_call.
  destruct r as [bs|]; apply wps_bind.
  - apply wps_bind, wps_call. intros z _. apply wps_ret. see_call. apply wps_call. intros [] _. see_call.
    apply (HQ [(d_name e, cstring (bs ++ [0]))]). by constructor.
  - apply wph_log, wps_call. intros [] _. by see_call.
Qed.

Lemma wph_readdir fuel d dfd x (Q : unit -> statics -> iobs -> Prop) g s :
  o_open s = [HDir d x] -> o_ok s = true -> (n <= o_entries s + fuel)%nat ->
  (forall l k, forced_sets l -> Q tt g (see_sets l (see_entries k (see_open [HDir d None] s)))) ->
  wpi n (readdir_loop fuel d dfd) Q g s.
Proof.
  revert x s. induction fuel as [|fuel IHf]; intros x s Ho Hk Hn HQ; cbn [readdir_loop].
  { apply wps_no_fuel. split; [done|lia]. }
  apply wps_bind, wps_call. intros [e|] _; cbn; [|rewrite Ho, check_ok_true by apply Z.eqb_refl; apply wps_ret].
  2: { specialize (HQ [] 0%nat (Forall_nil_2 _)). destruct s. unfold see_sets, see_entries in HQ. cbn in *. by rewrite app_nil_r, Nat.add_0_r in HQ. }
  rewrite Ho, check_ok_true by apply Z.eqb_refl.
  assert (Hnext : forall l, forced_sets l -> wpi n (readdir_loop fuel d dfd) Q g (see_sets l (see_open [HDir d (Some e)] (see_entries 1 s)))).
  { intros l Hl. eapply IHf; [done|done|cbn; lia|]. intros l' k' Hl'.
    specialize (HQ (l ++ l') (1 + k')%nat (Forall_app_2 _ _ _ Hl Hl')). destruct s. unfold see_sets, see_entries, see_open in *. cbn in *.
    by rewrite <- (assoc_L (++)), <- (assoc_L Nat.add). }
  assert (H0 : see_sets [] (see_open [HDir d (Some e)] (see_entries 1 s)) = see_open [HDir d (Some e)] (see_entries 1 s)).
  { destruct s. unfold see_sets. cbn. by rewrite app_nil_r. }
  apply wps_bind, wps_when; intros Hb; [|rewrite <- H0; by apply Hnext, Forall_nil_2].
  apply andb_true_iff in Hb as [Hf Hr]. apply (wph_read_prop dfd d e); [done|by apply check_prop_forced_spec| |done].
  intros Hd. rewrite Hd in Hr. by apply Z.eqb_eq.
Qed.

(** All of [init_prop_forced_list]: some properties are set, all closed. *)
Lemma wph_forced (Q : Z -> statics -> iobs -> Prop) g s :
  o_open s = [] -> o_ok s = true -> (forall l k, forced_sets l -> Q 0 g (see_sets l (see_entries k s))) ->
  wpi n (init_prop_forced_list n) Q g s.
Proof.
  intros Ho Hok HQ. apply wps_bind, wps_call. intros [d|] _; cbn; apply wps_bind.
  - apply wps_bind, wps_call. intros dfd _. cbn. rewrite Ho, check_ok_true by apply Z.eqb_refl.
    apply wps_bind. eapply wph_readdir; [done|done|cbn; lia|]. intros l k Hl. apply wps_call. intros [] _. cbn.
    rewrite check_ok_true by apply Z.eqb_refl. apply wps_ret. specialize (HQ l k Hl). destruct s. cbn in Ho. by subst.
  - apply wph_log, wps_ret. specialize (HQ [] 0%nat (Forall_nil_2 _)). destruct s. unfold see_sets, see_entries in HQ. cbn in *.
    by rewrite app_nil_r, Nat.add_0_r in HQ.
Qed.

(** ** The static variables *)

Lemma wph_item i x (Q : storage_item -> statics -> iobs -> Prop) g s :
  storage_list g !! i = Some x -> Q x g s -> wpi n (item i) Q g s.
Proof. intros Hx HQ. by eapply wps_bind, wps_gets, wps_defined. Qed.

Lemma wph_update_item i f x (Q : unit -> statics -> iobs -> Prop) g s :
  storage_list g !! i = Some x -> Q tt (set_list (<[i := f x]> (storage_list g)) g) s ->
  wpi n (update_item i f) Q g s.
Proof. intros Hx HQ. by eapply wps_bind, wph_item, wps_modify. Qed.

(** ** Partitions *)

(** [sdcc] numbers that come up. *)
Lemma part_dev_length sdcc : - 2 ^ 31 <= sdcc < 2 ^ 31 -> (String.length (part_dev sdcc "usbmsc") < 256)%nat.
Proof.
  intros Hs. pose proof (pretty_int_length sdcc Hs) as H. unfold part_dev.
  rewrite !string_length_app. cbn [String.length]. lia.
Qed.

Lemma link_part_len r :
  let len := match r with Some bs => Z.of_nat (length bs) | None => -1 end in
  link_part r = if len <=? 0 then -2 else part_num_of (cstring (default [] r ++ [0])).
Proof. by destruct r as [[|b bs]|]. Qed.

Lemma wph_get_part sdcc (Q : Z -> statics -> iobs -> Prop) g s :
  - 2 ^ 31 <= sdcc < 2 ^ 31 -> (forall rc, rc < 2 ^ 31 -> Q rc g (see_part rc s)) ->
  wpi n (get_part_num sdcc "usbmsc") Q g s.
Proof.
  intros Hs HQ. unfold get_part_num. pose proof (part_dev_length sdcc Hs) as Hl.
  apply wps_if; intros H1; [apply Nat.leb_le in H1; lia|].
  apply wps_bind, wps_call. intros rc _. cbn [init_see].
  destruct (rc =? 0); cbn [negb].
  - apply wps_bind, wps_call. intros r Hr. cbn [init_see]. rewrite link_part_len.
    apply wps_if; intros H2; rewrite H2.
    + apply wps_bind, wps_call. intros [] _. apply wps_ret, HQ. lia.
    + apply wps_ret, HQ. unfold part_num_of. repeat case_match; try lia.
      pose proof (strtol_range s0 10) as Hr'. unfold i32_ok in Hr'. lia.
  - apply wps_bind, wps_call. intros [] _. apply wps_ret, HQ. lia.
Qed.

(** ** The list of storages *)

Lemma wph_put_all texts f p t l (Q : unit -> statics -> iobs -> Prop) g s :
  o_open s = HFile f p true t :: l ->
  Q tt g (see_open (HFile f p true (foldl String.append t texts) :: l) s) ->
  wpi n (put_all texts f) Q g s.
Proof.
  revert t s. induction texts as [|x texts IHt]; intros t s Ho HQ; cbn [put_all].
  { apply wps_ret. cbn in HQ. by rewrite <- Ho, see_open_same in HQ. }
  apply wps_bind, wps_call. intros [] _. cbn. rewrite Ho, check_ok_true by (by rewrite Z.eqb_refl).
  by eapply IHt.
Qed.

Fixpoint lines_from (i : nat) (items : list storage_item) : list string :=
  match items with
  | [] => []
  | x :: items => (match mnt_point !! i with Some m => storage_lines i m x | None => [] end) ++ lines_from (S i) items
  end.

(** The contents of the list. *)
Definition storage_xml (items : list storage_item) : string :=
  foldl String.append EmptyString
    ([("<?xml version=" +:+ quoted "1.0" +:+ " encoding=" +:+ quoted "utf-8" +:+ "?>" +:+ nl)%string;
      ("<StorageList>" +:+ nl)%string] ++ lines_from 0 items ++ [("</StorageList>" +:+ nl)%string]).

Lemma wph_storages i items f p t (Q : unit -> statics -> iobs -> Prop) g s :
  (i + length items <= 3)%nat -> o_open s = [HFile f p true t] ->
  Q tt g (see_open [HFile f p true (foldl String.append t (lines_from i items))] s) ->
  wpi n (storages_loop i items f) Q g s.
Proof.
  revert i t s. induction items as [|x items IHl]; intros i t s Hi Ho HQ; cbn [storages_loop].
  { apply wps_ret. cbn in HQ. by rewrite <- Ho, see_open_same in HQ. }
  cbn [lines_from length] in *. destruct (mnt_point !! i) as [m|] eqn:Hm.
  2: { apply lookup_ge_None in Hm. cbn in Hm. lia. }
  rewrite foldl_app in HQ. eapply wps_bind, wps_defined; [done|]. eapply wps_bind, wph_put_all; [done|].
  eapply IHl; [lia|done|]. by destruct s.
Qed.

Lemma wph_list (Q : Z -> statics -> iobs -> Prop) g s :
  o_open s = [] -> (length (storage_list g) <= 3)%nat ->
  Q (-1) g (see_missed FILE_STORAGE_LIST s) ->
  Q 0 g (see_file FILE_STORAGE_LIST (storage_xml (storage_list g)) s) ->
  wpi n create_storage_list Q g s.
Proof.
  intros Ho Hl Hno Hyes. apply wps_bind, wps_call. intros [f|] _; cbn [init_see]; [|by apply wps_bind, wph_log, wps_ret].
  change (streq "w+" "w+") with true. rewrite Ho. eapply wps_bind, wph_put_all; [done|]. apply wps_bind, wps_gets.
  eapply wps_bind, wph_storages; [done|done|]. rewrite <- foldl_app.
  apply wps_bind, wps_call. intros [] _. apply wps_bind, wps_call. intros [] _. apply wps_ret.
  unfold storage_xml in Hyes. rewrite (assoc_L (++)), foldl_app in Hyes.
  destruct s as [op fi mi te ge se pa en ok]. cbn -[foldl lines_from quoted] in *. subst op.
  rewrite Z.eqb_refl. unfold check_ok. cbn -[foldl lines_from quoted]. by rewrite !andb_true_r.
Qed.

(** ** The fstab *)

Record item_ok (x : storage_item) : Prop := {
  io_sdcc : 1 <= sdcc x <= 3;
  io_part : - 2 ^ 31 <= part_num x < 2 ^ 31 }.

Definition mount0 : mount_point := mkMount "sdcard0" "/storage/sdcard0".
Definition mount1 : mount_point := mkMount "sdcard1" "/storage/sdcard1".

(** The array after the two replacements. *)
Definition expand (x y : storage_item) (tmp : list Z) : option (list Z) :=
  '(_, tmp) ← str_replace tmp "%"%char (sdcc x) (voldmanaged mount0 x);
  '(_, tmp) ← str_replace tmp "%"%char (sdcc y) (voldmanaged mount1 y);
  Some tmp.

Lemma voldmanaged_length m x :
  item_ok x -> String.length (name m) = 7%nat -> (8 <= String.length (voldmanaged m x) <= 45)%nat.
Proof.
  intros [_ Hp] Hm. pose proof (pretty_int_length _ Hp) as H. unfold voldmanaged.
  rewrite !string_length_app, Hm. cbn [String.length].
  assert (Hi : forall (b : bool) a c, (String.length (if b then a else c) <= Nat.max (String.length a) (String.length c))%nat)
    by (intros []; lia).
  pose proof (Hi (part_num x =? PATR_NUM_AUTO) "auto" (pretty (part_num x))).
  pose proof (Hi (emulated x =? 0) ",noemulatedsd" EmptyString). pose proof (Hi (removable x =? 0) ",nonremovable" EmptyString).
  cbn [String.length] in *. lia.
Qed.

Lemma placeholder_sdcc x : item_ok x -> length (placeholder "%"%char (sdcc x)) = 2%nat.
Proof.
  intros [Hs _]. assert (sdcc x = 1 \/ sdcc x = 2 \/ sdcc x = 3) as [ -> |[ -> | ->]] by lia; reflexivity.
Qed.

Lemma wph_voldmanaged i m x (Q : string -> statics -> iobs -> Prop) g s :
  storage_list g !! i = Some x -> mnt_point !! i = Some m -> item_ok x -> String.length (name m) = 7%nat ->
  Q (voldmanaged m x) g s -> wpi n (get_voldmanaged 128 i) Q g s.
Proof.
  intros Hx Hm Hok Hn HQ. eapply wps_bind, wph_item; [done|]. eapply wps_bind, wps_defined; [done|].
  pose proof (voldmanaged_length m x Hok Hn). apply wps_if; intros Hb; [apply Nat.leb_le in Hb; lia|done].
Qed.

Lemma wph_expand tmp x y z (Q : list Z -> statics -> iobs -> Prop) g s :
  storage_list g = [x; y; z] -> item_ok x -> item_ok y ->
  (expand x y tmp = None -> long_template s) -> (forall tmp', expand x y tmp = Some tmp' -> Q tmp' g s) ->
  wpi n (expand_loop 0 3 tmp) Q g s.
Proof.
  intros Hl Hx Hy Hno HQ. unfold expand in Hno, HQ. cbn [expand_loop]. change (STOR_PRIMARY <=? 0)%nat with true.
  eapply wps_bind, wph_item; [by rewrite Hl|]. cbn. eapply wps_bind, wps_bind, (wph_voldmanaged 0 mount0); [by rewrite Hl|done..|].
  destruct (str_replace tmp _ _ (voldmanaged mount0 x)) as [[r1 t1]|] eqn:H1; cbn in Hno, HQ.
  2: { by apply wps_bind, wps_undef, Hno. }
  eapply wps_bind, wps_defined; [done|]. apply wps_bind, wps_call. intros [] _. apply wps_ret. cbn [init_see].
  eapply wps_bind, wph_item; [by rewrite Hl|]. eapply wps_bind, wps_bind, (wph_voldmanaged 1 mount1); [by rewrite Hl|done..|].
  destruct (str_replace t1 _ _ (voldmanaged mount1 y)) as [[r2 t2]|] eqn:H2; cbn in Hno, HQ.
  2: { by apply wps_bind, wps_undef, Hno. }
  eapply wps_bind, wps_defined; [done|]. apply wps_bind, wps_call. intros [] _. apply wps_ret. cbn [init_see].
  eapply wps_bind, wph_item; [by rewrite Hl|]. by apply wps_bind, wps_ret, wps_ret, HQ.
Qed.

(** A template that is not long leaves room. *)
Lemma expand_fits x y bs :
  item_ok x -> item_ok y -> (length bs <= 1961)%nat ->
  exists tmp k, expand x y (bs ++ replicate (tmp_size - length bs) 0) = Some tmp /\ strlen tmp = Some k.
Proof.
  intros Hx Hy Hl.
  pose proof (voldmanaged_length mount0 x Hx eq_refl) as L0. pose proof (voldmanaged_length mount1 y Hy eq_refl) as L1.
  set (buf := bs ++ _). assert (Hb : length buf = 2048%nat).
  { unfold buf, tmp_size. rewrite length_app, length_replicate. lia. }
  assert (Hr : room (length bs) buf).
  { unfold room, buf, tmp_size. rewrite drop_app_length, length_app, length_replicate. f_equal. lia. }
  destruct (str_replace_room "%"%char (sdcc x) (voldmanaged mount0 x)) with (k := length bs) (buf := buf)
    as (r1 & t1 & E1 & B1 & R1); rewrite ?placeholder_sdcc by done; [lia..|done|].
  destruct (str_replace_room "%"%char (sdcc y) (voldmanaged mount1 y)) with (buf := t1) (k := (length bs + (String.length (voldmanaged mount0 x) - length (placeholder "%"%char (sdcc x))))%nat)
    as (r2 & t2 & E2 & B2 & R2); [rewrite ?placeholder_sdcc by done; lia..|done|].
  edestruct strlen_room as (m & Hm & _); [|exact R2|]; [rewrite !placeholder_sdcc by done; lia|].
  exists t2, m. unfold expand. rewrite E1. cbn. by rewrite E2.
Qed.

(** What [create_ftab_storage] adds: the array it starts from, and the file. *)
Definition template_array (bs : list Z) : list Z := bs ++ replicate (tmp_size - length bs) 0.

Lemma wph_ftab x y z (Q : Z -> statics -> iobs -> Prop) g s :
  o_open s = [] -> o_ok s = true -> storage_list g = [x; y; z] -> item_ok x -> item_ok y ->
  Q (-1) g (see_missed FILE_FSTAB_TEMPLATE s) ->
  Q (-2) g (see_template [] s) ->
  (forall bs, bs <> [] -> Q (-10) g (see_missed FILE_FSTAB_STORAGES (see_template bs s))) ->
  (forall bs tmp, bs <> [] -> expand x y (template_array bs) = Some tmp ->
     Q 0 g (see_file FILE_FSTAB_STORAGES (cstring tmp) (see_template bs s))) ->
  wpi n create_ftab_storage Q g s.
Proof.
  destruct s as [op fi mi te ge se pa en ok]. cbn [o_open o_ok]. intros -> Hok Hl Hx Hy H1 H2 H10 H0.
  apply wps_bind, wps_call. intros [f|] _; [|by apply wps_bind, wph_log, wps_ret].
  apply wps_bind, wps_call. intros bs [Hbs _]. see_call. apply wps_if; intros Hb.
  { apply Nat.eqb_eq, length_zero_iff_nil in Hb. subst bs. apply wps_bind, wps_call. intros [] _.
    apply wps_bind, wps_call. intros [] _. see_call. by apply wps_ret. }
  assert (Hne : bs <> []) by (by intros ->).
  apply wps_bind, wps_call. intros [] _. see_call. apply wps_bind, wps_gets. rewrite Hl.
  assert (Hlong : forall s', o_ok s' = true -> o_template s' = Some bs -> ((length bs <= 1961)%nat -> False) -> long_template s').
  { intros s' Hk Ht Hf. split; [done|]. exists bs. split; [done|lia]. }
  apply wps_bind. eapply wph_expand; [done|done|done| |].
  { intros Hno. apply Hlong; [done|done|]. intros Hle. destruct (expand_fits x y bs Hx Hy Hle) as (t & k & He & _).
    by pose proof (eq_trans (eq_sym He) Hno). }
  intros tmp He. apply wps_bind, wps_call. intros [f'|] _; [|by apply wps_bind, wph_log, wps_ret, H10].
  see_call. apply wps_bind. destruct (strlen tmp) as [k|] eqn:Hk.
  2: { apply wps_undef, Hlong; [done|done|]. intros Hle. destruct (expand_fits x y bs Hx Hy Hle) as (t & k & He' & Hk').
       pose proof (eq_trans (eq_sym He) He') as [= <-]. congruence. }
  apply wps_ret. apply wps_bind, wps_call. intros [] _. see_call. apply wps_bind, wps_call. intros [] _. see_call.
  apply wps_ret. by apply (H0 bs).
Qed.
End Rules.

(** ** The choice of the storages

    [swap_wanted] and [ext_slot] are what the properties ask for: the roles
    swapped, and the controllers, with the card in the first slot. *)

Definition swap_wanted (planned : string) : bool := negb (atoi planned =? 0).
Definition ext_slot (ctrl : string) : bool := (0 <? atoi ctrl) && (atoi ctrl <=? 2).
Definition quiet_boot (llcon : string) : bool :=
  negb (String.length llcon =? 0)%nat && negb (starts_with (string_bytes "0") (string_bytes llcon)).

(** The item of the eMMC or of the card; [part] is the partition found. *)
Definition planned_item (ext primary card : bool) (part : Z) : storage_item :=
  mkItem (if card then 0 else 1)
         (if xorb card ext then 2 else 1)
         (if 0 <? part then part else PATR_NUM_AUTO)
         (if card then STR_STORAGE_SDCARD else STR_STORAGE_INTERNAL)
         (if card && negb ext && negb primary then 1 else 0)
         0 0
         (if card && negb ext then 1 else 0)
         0.

Definition usb_item : storage_item := mkItem 0 3 PATR_NUM_AUTO STR_STORAGE_USB 1 0 0 0 0.

(** The primary storage is the eMMC unless exactly one swap is asked for. *)
Definition plan (ext swapped : bool) (p q : Z) : list storage_item :=
  let card := xorb ext swapped in
  [planned_item ext true card p; planned_item ext false (negb card) q; usb_item].

Lemma planned_item_ok ext primary card part : part < 2 ^ 31 -> item_ok (planned_item ext primary card part).
Proof.
  intros Hp. split; cbn; [by destruct (xorb card ext); lia|]. destruct (Z.ltb_spec 0 part); [lia|unfold PATR_NUM_AUTO; lia].
Qed.

Section Rules.
Context (n : nat).
Implicit Types (g : statics) (s : iobs).

Lemma wph_flags (Q : unit -> statics -> iobs -> Prop) s :
  o_open s = [] ->
  (forall llcon planned ctrl v, (0 <? v) = ext_slot ctrl ->
     Q tt (mkStatics storage_list0 (Z.b2z (swap_wanted planned)) v)
       (see_get "ro.boot.swap_sdcc" ctrl (see_get PERSISTENT_PROPERTY_PLANNED_SWAP planned
          (see_sets (if quiet_boot llcon then [("debug.sf.nobootanimation", "1")] else [])
             (see_get "ro.boot.llcon" llcon s))))) ->
  wpi n boot_flags Q statics0 s.
Proof.
  intros Ho HQ. apply wps_bind, wps_call. intros [rc llcon] (Hrc & _). cbn [fst snd] in Hrc. cbn [init_see snd].
  assert (Hll : (0 <? rc) && negb (starts_with (string_bytes "0") (string_bytes llcon)) = quiet_boot llcon).
  { unfold quiet_boot. f_equal. subst rc. destruct llcon; reflexivity. }
  rewrite Hll. clear Hll. apply wps_bind.
  assert (Hset : forall (P : unit -> statics -> iobs -> Prop) s', o_open s' = [] ->
    P tt statics0 (see_sets (if quiet_boot llcon then [("debug.sf.nobootanimation", "1")] else []) s') ->
    wpi n (when_s (quiet_boot llcon) (do_call (PropertySet "debug.sf.nobootanimation" "1");; mret tt)) P statics0 s').
  { intros P s' Ho' HP. apply wps_when; intros Hb; rewrite Hb in HP.
    - apply wps_bind, wps_call. intros z _. apply wps_ret. cbn [init_see]. rewrite Ho', check_ok_true; [done|].
      apply bool_decide_eq_true. by left.
    - unfold see_sets in HP. by destruct s'; cbn in HP; rewrite app_nil_r in HP. }
  apply Hset; [done|]. apply wps_bind, wps_call. intros [rc' planned] (Hp & _). cbn [fst snd] in Hp. cbn [init_see snd].
  assert (Hsw : negb (rc' =? 0) && negb (atoi planned =? 0) = swap_wanted planned).
  { unfold swap_wanted. subst rc'. destruct planned; [done|]. by rewrite (proj2 (Z.eqb_neq (Z.of_nat _) 0)) by (cbn; lia). }
  rewrite Hsw. apply wps_bind, (wps_mono _ _ _ _ (fun _ g' s' => g' = mkStatics storage_list0 (Z.b2z (swap_wanted planned)) 0 /\ s' = see_get PERSISTENT_PROPERTY_PLANNED_SWAP planned
    (see_sets (if quiet_boot llcon then [("debug.sf.nobootanimation", "1")] else []) (see_get "ro.boot.llcon" llcon s)))).
  2: { apply wps_when; intros Hb; rewrite Hb; [by apply wps_modify|done]. }
  intros [] g' s' [-> ->]. apply wps_bind, wps_call. intros [rc2 ctrl] (Hc & _). cbn [fst snd] in Hc. cbn [init_see snd].
  specialize (HQ llcon planned ctrl). apply wps_when; intros Hb.
  - apply wps_bind, wps_modify, wps_bind, wps_gets. unfold set_sdcc. cbn [swap_sdcc storage_list stor_swapped].
    apply wps_when; intros Hv; [apply wps_modify|]; apply HQ; unfold ext_slot.
    + cbn. apply orb_true_iff in Hv as [Hv%Z.ltb_lt|Hv%Z.ltb_lt]; [by rewrite (proj2 (Z.ltb_ge 0 (atoi ctrl))) by lia|].
      by rewrite (proj2 (Z.leb_gt (atoi ctrl) 2)), andb_false_r by lia.
    + apply orb_false_iff in Hv as [_ Hv%Z.ltb_ge]. by rewrite (proj2 (Z.leb_le _ _)), andb_true_r by done.
  - apply HQ. apply negb_false_iff, Z.eqb_eq in Hb. subst rc2. by destruct ctrl.
Qed.

(** Steps on a list that is known. *)
Ltac wph_static :=
  repeat (cbn beta; match goal with
    | |- wps _ _ _ (item _) _ _ _ => eapply wph_item; [reflexivity|]
    | |- wps _ _ _ (update_item _ _) _ _ _ =>
        eapply wph_update_item; [reflexivity|]; unfold set_list; cbn [storage_list stor_swapped swap_sdcc]
    | |- wps _ _ _ (gets _) _ _ _ => apply wps_gets; cbn [storage_list stor_swapped swap_sdcc]
    | |- wps _ _ _ (mret _) _ _ _ => apply wps_ret
    | |- wps _ _ _ (when_s _ _) _ _ _ => apply wps_when; intros ?; try done
    | |- wps _ _ _ (if _ then _ else _) _ _ _ => apply wps_if; intros ?; try done
    | |- wps _ _ _ (_ ≫= _) _ _ _ => apply wps_bind
    end).

Definition swapped_text (sw : bool) : string := if sw then "1" else "0".

Lemma wph_choose ext sw v (Q : unit -> statics -> iobs -> Prop) s :
  o_open s = [] -> (0 <? v) = ext ->
  Q tt (mkStatics (plan ext sw 0 0) (Z.b2z sw) v) (see_sets [(PERSISTENT_PROPERTY_SWAPPED, swapped_text sw)] s) ->
  wpi n choose_storages Q (mkStatics storage_list0 (Z.b2z sw) v) s.
Proof.
  intros Ho Hv HQ. assert (Hset : check_ok (set_allowed (o_open s) PERSISTENT_PROPERTY_SWAPPED (swapped_text sw)) s = s).
  { rewrite Ho. apply check_ok_true, bool_decide_eq_true. right. split; [done|]. destruct sw; [by right|by left]. }
  unfold choose_storages, swap_controllers, swap_items, describe. apply wps_bind, wps_gets. cbn [swap_sdcc].
  rewrite Hv. destruct ext, sw; wph_static; apply wps_call; intros z _; cbn [init_see swapped_text] in *;
    rewrite Hset; wph_static; exact HQ.
Qed.

Lemma wph_find_part ext sw p q v i (Q : unit -> statics -> iobs -> Prop) s (l' : Z -> list storage_item) :
  (exists x, plan ext sw p q !! i = Some x /\ part_num x = PATR_NUM_AUTO /\ item_ok x /\
    forall rc, l' rc = if 0 <? rc then <[i := set_part_num rc x]> (plan ext sw p q) else plan ext sw p q) ->
  (forall rc, rc < 2 ^ 31 -> Q tt (mkStatics (l' rc) (Z.b2z sw) v) (see_part rc s)) ->
  wpi n (find_part i) Q (mkStatics (plan ext sw p q) (Z.b2z sw) v) s.
Proof.
  intros (x & Hx & Ha & [Hs _] & Hl) HQ. eapply wps_bind, wph_item; [done|].
  apply wps_bind, wph_get_part; [lia|]. intros rc Hrc. specialize (HQ rc Hrc). rewrite Hl in HQ.
  apply wps_when; intros Hb; rewrite Hb in HQ; [|done]. by eapply wph_update_item.
Qed.

(** ** init_msm_properties *)

(** The fstab: the template expanded for the two storages, unless one of
    the files could not be opened, or the template is empty. *)
Definition fstab_done (l : list storage_item) (s : iobs) : Prop :=
  match o_template s with
  | None => FILE_FSTAB_TEMPLATE ∈ o_missed s
  | Some [] => True
  | Some bs => FILE_FSTAB_STORAGES ∈ o_missed s \/
      exists x y z tmp, l = [x; y; z] /\ expand x y (template_array bs) = Some tmp /\
        (FILE_FSTAB_STORAGES, cstring tmp) ∈ o_files s
  end.

Record init_done (g : statics) (s : iobs) (llcon planned ctrl : string) (p q : Z) : Prop := {
  id_open : o_open s = [];
  id_ok : o_ok s = true;
  id_gets : o_gets s = [("ro.boot.llcon", llcon); (PERSISTENT_PROPERTY_PLANNED_SWAP, planned); ("ro.boot.swap_sdcc", ctrl)];
  id_parts : o_parts s = [p; q];
  id_list : storage_list g = plan (ext_slot ctrl) (swap_wanted planned) p q;
  id_sets : exists l, forced_sets l /\ o_sets s = l ++
    (if quiet_boot llcon then [("debug.sf.nobootanimation", "1")] else []) ++
    [(PERSISTENT_PROPERTY_SWAPPED, swapped_text (swap_wanted planned))];
  id_xml : FILE_STORAGE_LIST ∈ o_missed s \/ (FILE_STORAGE_LIST, storage_xml (storage_list g)) ∈ o_files s;
  id_fstab : fstab_done (storage_list g) s }.

Lemma wph_init (Q : unit -> statics -> iobs -> Prop) :
  (forall g s llcon planned ctrl p q, init_done g s llcon planned ctrl p q -> Q tt g s) ->
  wpi n (init_msm_properties n) Q statics0 no_iobs.
Proof.
  intros HQ. apply wps_bind, wph_forced; [done|done|]. intros l k Hl. apply wps_bind, wps_call. intros z _. cbn [init_see].
  apply wps_bind, wph_flags; [done|]. intros llcon planned ctrl v Hv. apply wps_bind. eapply wph_choose; [done|exact Hv|].
  set (ext := ext_slot ctrl). set (sw := swap_wanted planned).
  apply wps_bind, (wph_find_part ext sw 0 0 v STOR_PRIMARY _ _ (fun p => plan ext sw p 0)).
  { eexists. split_and!; [reflexivity|done|by apply planned_item_ok|]. intros rc. unfold plan, planned_item. by destruct (0 <? rc). }
  intros p Hp. apply wps_bind, (wph_find_part ext sw p 0 v STOR_SECONDARY _ _ (fun q => plan ext sw p q)).
  { eexists. split_and!; [reflexivity|done|by apply planned_item_ok|]. intros rc. unfold plan, planned_item. by destruct (0 <? rc). }
  intros q Hq. apply wps_bind.
  assert (Hend : forall g' s', g' = mkStatics (plan ext sw p q) (Z.b2z sw) v -> 
    (forall s'', s'' = see_missed FILE_STORAGE_LIST s' \/ s'' = see_file FILE_STORAGE_LIST (storage_xml (plan ext sw p q)) s' -> Q tt g' s'') ->
    o_open s' = [] ->
    wpi n (do_call (Symlink FILE_FSTAB_STORAGES "/fstab.qcom");; create_storage_list;;
      do_call (Mount "rootfs" "/" "rootfs" (Z.lor MS_REMOUNT MS_RDONLY));; mret tt) Q g' s').
  { intros g' s' -> Hs Ho. apply wps_bind, wps_call. intros z' _. cbn [init_see].
    apply wps_bind, wph_list; [done|cbn; lia|..]; apply wps_bind, wps_call; intros z'' _; apply wps_ret; cbn [init_see];
      apply Hs; [by left|by right]. }
  eapply wph_ftab; [done|done|reflexivity|by apply planned_item_ok|by apply planned_item_ok|..].
  all: intros; apply Hend; [done| |done]; intros s'' Hs''; eapply (HQ _ _ llcon planned ctrl p q);
    destruct Hs'' as [->| ->]; split; try done; cbn.
  all: try (exists l; by rewrite (assoc_L (++))).
  all: try (by left; repeat constructor).
  all: try (by right; repeat constructor).
  all: destruct bs as [|b bs]; [done|].
  all: first [by left; repeat constructor|right; do 4 eexists; split_and!; [done|done|by repeat constructor]].
Qed.
End Rules.
End See.

Abbreviation wpi n := (wps init_see (many_entries n) long_template).
