(* ===== verification/InitTheorems.v ===== *)
(** * Properties of the init extension *)

From Stdlib Require Import Ascii String.
From S2P Require Import Prelude Bytes Prog StProg CStr CDecimal InitD10f InitText InitSpec.

Open Scope Z_scope.

(** ** The protocol *)

Section Protocol.
Context {IH : InitH}.

(** What [wph_init] says of an execution. *)
Lemma init_exec n tr o :
  exec (init_msm_properties n statics0) tr o ->
  let s := init_observed tr in
  (exists g llcon planned ctrl p q, o = Returned (tt, g) /\ init_done g s llcon planned ctrl p q) \/
  (o = NoFuel /\ many_entries n s) \/ (o = Undefined /\ long_template s).
Proof.
  intros He.
  assert (Hw : wpi n (init_msm_properties n) (fun _ g s => exists llcon planned ctrl p q, init_done g s llcon planned ctrl p q) statics0 no_iobs).
  { apply wph_init. intros g s llcon planned ctrl p q Hd. by exists llcon, planned, ctrl, p, q. }
  destruct (wps_sound _ _ _ _ _ _ _ _ _ Hw He) as [([] & g & -> & H)|H]; [left|by right].
  destruct H as (llcon & planned & ctrl & p & q & H). by exists g, llcon, planned, ctrl, p, q.
Qed.

(** C12. init_msm_properties returns, with every directory, descriptor and
    file it opened closed again, when /data/property has fewer entries than
    the fuel of the loop and the template of the fstab has at most 1961
    bytes; a longer template is the only cause of undefined behaviour. *)
Theorem init_returns n tr o :
  exec (init_msm_properties n statics0) tr o ->
  let s := init_observed tr in
  (o_entries s < n)%nat ->
  (exists g, o = Returned (tt, g) /\ o_open s = []) \/
  (o = Undefined /\ exists bs, o_template s = Some bs /\ (1961 < length bs)%nat).
Proof.
  intros He s Hn. destruct (init_exec _ _ _ He) as [(g & ll & pl & ct & p & q & -> & Hd)|[[_ [_ Hm]]|[-> [_ Hl]]]].
  - left. exists g. split; [done|apply Hd].
  - fold s in Hm. lia.
  - by right.
Qed.

Lemma init_see_ok (s : iobs) e : o_ok (init_see s e) = true -> o_ok s = true.
Proof.
  destruct e as [R c r]. destruct c; cbn -[open_allowed set_allowed streq];
    repeat first [done|case_match]; cbn; rewrite ?andb_true_iff; try tauto; intros H; try done; try by destruct H.
Qed.

Lemma init_ok_before tr s : o_ok (fold_left init_see tr s) = true -> o_ok s = true.
Proof. revert s. induction tr as [|e tr IHtr]; intros s; [done|]. cbn. intros H. by eapply init_see_ok, IHtr. Qed.

(** C5. A forced persistent property is set only between opening and
    closing its file, the directory entry read last (a regular file where
    the type is known), after fstat showed that root owns it, that no other
    user can access it and that it has one link; its value is what was read
    from that file up to the first null byte.  This holds however the
    execution ends. *)
Theorem forced_property_secure n tr o tr1 name value r tr2 :
  exec (init_msm_properties n statics0) tr o ->
  tr = tr1 ++ Ev (PropertySet name value) r :: tr2 -> name ∈ prop_forced_list ->
  exists fd sb bs d e,
    o_open (init_observed tr1) = [HFd fd name (Some sb) (Some bs); HDir d (Some e)] /\
    d_name e = name /\ regular e /\ secure sb /\ value = cstring (bs ++ [0]).
Proof.
  intros He -> Hn. assert (Hok : o_ok (init_observed (tr1 ++ Ev (PropertySet name value) r :: tr2)) = true).
  { destruct (init_exec _ _ _ He) as [(g & ll & pl & ct & p & q & _ & Hd)|[[_ [Hk _]]|[_ [Hk _]]]]; [apply Hd|done..]. }
  unfold init_observed in Hok. rewrite fold_left_app in Hok. cbn [fold_left] in Hok. apply init_ok_before in Hok.
  cbn [init_see] in Hok. unfold see_sets in Hok. cbn [o_ok check_ok] in Hok. apply andb_true_iff in Hok as [_ Hs].
  fold (init_observed tr1) in Hs. unfold set_allowed in Hs.
  destruct (o_open _) as [|[|fd n' [sb|] [bs|]|] [|[d [e|]| |] []]]; try done.
  - apply bool_decide_eq_true in Hs as [[-> _]|[-> _]]; by apply list_elem_of_singleton in Hn.
  - apply bool_decide_eq_true in Hs as (<- & Hd & _ & Hr & Hsec & Hv). by exists fd, sb, bs, d, e.
Qed.

(** ** The choice of the storages *)

(** C11. What init_msm_properties decides: when it returns, the list of
    storages is the plan for the two properties and the two partitions
    found, exactly one of the eMMC and the card is primary (the card when
    exactly one of the two swaps is asked for), the primary one is not
    removable, the roles taken are published as the property, the list file
    (unless it could not be opened) describes that list, and the fstab is
    the template expanded for it. *)
Theorem storages_planned n tr g :
  exec (init_msm_properties n statics0) tr (Returned (tt, g)) ->
  let s := init_observed tr in
  exists llcon planned ctrl p q x y,
    o_gets s = [("ro.boot.llcon", llcon); (PERSISTENT_PROPERTY_PLANNED_SWAP, planned); ("ro.boot.swap_sdcc", ctrl)] /\
    o_parts s = [p; q] /\
    storage_list g = plan (ext_slot ctrl) (swap_wanted planned) p q /\ storage_list g = [x; y; usb_item] /\
    emmc x + emmc y = 1 /\ sdcc x + sdcc y = 3 /\ removable x = 0 /\
    (emmc x = 1 <-> ext_slot ctrl = swap_wanted planned) /\
    (storageDescription x = STR_STORAGE_INTERNAL <-> emmc x = 1) /\
    (storageDescription y = STR_STORAGE_INTERNAL <-> emmc y = 1) /\
    last (o_sets s) = Some (PERSISTENT_PROPERTY_SWAPPED, swapped_text (swap_wanted planned)) /\
    (FILE_STORAGE_LIST ∈ o_missed s \/ (FILE_STORAGE_LIST, storage_xml (storage_list g)) ∈ o_files s) /\
    fstab_done (storage_list g) s.
Proof.
  intros He s. destruct (init_exec _ _ _ He) as [(g' & ll & pl & ct & p & q & [= <-] & Hd)|[[? _]|[? _]]]; [|done..].
  destruct Hd as [_ _ Hg Hp Hl (l & _ & Hs) Hx Hf]. fold s in Hg, Hp, Hs, Hx, Hf.
  exists ll, pl, ct, p, q. do 2 eexists. split; [done|]. split; [done|]. split; [done|]. split; [exact Hl|].
  rewrite (assoc_L (++)) in Hs. rewrite Hs, last_snoc. generalize (ext_slot ct), (swap_wanted pl). intros ext sw.
  by destruct ext, sw.
Qed.
End Protocol.

(** ** The fstab *)

(** C27. On an array that holds a text and then zeros, str_replace writes
    the text with its first placeholder replaced, if that fits in the array,
    and is undefined if it does not; it answers 0 when it found the
    placeholder and -1 when it left the text alone.  Behind what it writes
    the array is as it was: after a replacement that is not shorter than the
    placeholder there are only zeros, so that the array holds the new text;
    after a shorter one the end of the old text is still there, because no
    null byte is written.  The placeholder may have 15 characters. *)
Theorem str_replace_first prefix num text s k :
  (length (placeholder prefix num) <= 15)%nat -> Forall (fun b => b <> 0) s ->
  let r := replace_first (placeholder prefix num) (string_bytes text) s in
  let rest := drop (length r) (s ++ replicate (S k) 0) in
  str_replace (s ++ replicate (S k) 0) prefix num text =
    (if decide (length r <= length s + S k)%nat
     then Some (if decide (is_Some (strstr s (placeholder prefix num))) then 0 else -1, r ++ rest)
     else None) /\
  ((length (placeholder prefix num) <= String.length text)%nat -> rest = replicate (length s + S k - length r) 0).
Proof.
  intros Hp Hs. split; [apply str_replace_text; [lia|done]|]. intros Hg. apply replace_first_rest; [lia|done].
Qed.

Lemma replace_first_grows pat text s :
  (length (replace_first pat text s) <= length s + (length text - length pat))%nat.
Proof.
  destruct (strstr s pat) as [i|] eqn:Hi; [|rewrite replace_first_none by done; lia].
  pose proof (strstr_found _ _ _ Hi) as [_ Hle].
  rewrite (replace_first_found _ _ _ _ Hi), !length_app, length_take, length_drop. lia.
Qed.

Lemma replace_first_forall (P : Z -> Prop) pat text s : Forall P text -> Forall P s -> Forall P (replace_first pat text s).
Proof.
  intros Ht Hs. destruct (strstr s pat) as [i|] eqn:Hi; [|by rewrite replace_first_none].
  rewrite (replace_first_found _ _ _ _ Hi). auto using Forall_app_2, Forall_take, Forall_drop.
Qed.

(** The two placeholders replaced, in this order. *)
Definition expanded (x y : storage_item) (w : list Z) : list Z :=
  replace_first (placeholder "%"%char (sdcc y)) (string_bytes (voldmanaged mount1 y))
    (replace_first (placeholder "%"%char (sdcc x)) (string_bytes (voldmanaged mount0 x)) w).

Definition text_byte (b : Z) : Prop := 0 < b < 256.

Lemma text_nonzero l : Forall text_byte l -> Forall (fun b => b <> 0) l.
Proof. intros H. eapply Forall_impl; [exact H|]. unfold text_byte. lia. Qed.

Lemma string_bytes_text s : Forall (fun b => b <> 0) (string_bytes s) -> Forall text_byte (string_bytes s).
Proof.
  induction s as [|c s IH]; [constructor|]. intros [Hc Hs]%Forall_cons. constructor; [|by apply IH].
  pose proof (N_ascii_bounded c). unfold text_byte. lia.
Qed.

Lemma voldmanaged_text m x : Forall (fun b => b <> 0) (string_bytes (name m)) -> Forall text_byte (string_bytes (voldmanaged m x)).
Proof.
  intros Hm. apply string_bytes_text. unfold voldmanaged. rewrite !string_bytes_app.
  apply Forall_app_2; [done|]. apply Forall_app_2; [by repeat constructor|].
  apply Forall_app_2; [case_match; [by repeat constructor|apply pretty_bytes]|].
  apply Forall_app_2; case_match; by repeat constructor.
Qed.

Lemma expand_text x y w :
  item_ok x -> item_ok y -> Forall text_byte w -> (length w <= 1961)%nat ->
  exists k, expand x y (template_array w) = Some (expanded x y w ++ replicate (S k) 0) /\
    Forall text_byte (expanded x y w).
Proof.
  intros Hx Hy Hw Hl. unfold expand, expanded, template_array, tmp_size.
  pose proof (voldmanaged_length mount0 x Hx eq_refl) as L0. pose proof (voldmanaged_length mount1 y Hy eq_refl) as L1.
  pose proof (placeholder_sdcc x Hx) as P0. pose proof (placeholder_sdcc y Hy) as P1.
  set (w1 := replace_first _ (string_bytes (voldmanaged mount0 x)) w).
  assert (H1 : Forall text_byte w1) by (apply replace_first_forall; [by apply voldmanaged_text; repeat constructor|done]).
  assert (Hl1 : (length w1 <= length w + 43)%nat).
  { etrans; [apply replace_first_grows|]. rewrite length_string_bytes, P0. lia. }
  set (w2 := replace_first _ _ w1).
  assert (H2 : Forall text_byte w2) by (apply replace_first_forall; [by apply voldmanaged_text; repeat constructor|done]).
  assert (Hl2 : (length w2 <= length w1 + 43)%nat).
  { etrans; [apply replace_first_grows|]. rewrite length_string_bytes, P1. lia. }
  replace (2 * 1024 - length w)%nat with (S (2047 - length w)) by lia.
  rewrite str_replace_text by (rewrite ?P0; by apply text_nonzero || lia).
  rewrite replace_first_rest by (rewrite ?P0; lia). fold w1. rewrite decide_True by lia. cbn [mbind option_bind].
  replace (length w + S (2047 - length w) - length w1)%nat with (S (2047 - length w1)) by lia.
  rewrite str_replace_text by (rewrite ?P1; by apply text_nonzero || lia).
  rewrite replace_first_rest by (rewrite ?P1; lia). fold w2. rewrite decide_True by lia. cbn [mbind option_bind].
  replace (length w1 + S (2047 - length w1) - length w2)%nat with (S (2047 - length w2)) by lia.
  by eexists.
Qed.

Lemma string_bytes_cstring l rest : Forall text_byte l -> string_bytes (cstring (l ++ 0 :: rest)) = l.
Proof.
  induction 1 as [|b l Hb Hl IH]; [done|]. unfold text_byte in Hb. cbn [app cstring].
  rewrite (proj2 (Z.eqb_neq _ _)) by lia.
  change (Z.of_N (N_of_ascii (ascii_of_N (Z.to_N b))) :: string_bytes (cstring (l ++ 0 :: rest)) = b :: l).
  rewrite IH, N_ascii_embedding by lia. f_equal. lia.
Qed.

(** For a template that is a text of at most 1961 bytes,
    create_ftab_storage writes the fstab in which the first %N of each of
    the two storages, N the number of its controller, is replaced by its
    voldmanaged option, the primary one first, and answers 0; it answers
    -10, and writes nothing, only when that file cannot be opened. *)
Theorem fstab_expanded {IH : InitH} g x y z w tr o :
  storage_list g = [x; y; z] -> item_ok x -> item_ok y ->
  exec (create_ftab_storage g) tr o ->
  let s := init_observed tr in
  o_template s = Some (string_bytes w) -> w <> EmptyString -> Forall (fun b => b <> 0) (string_bytes w) ->
  (String.length w <= 1961)%nat ->
  (o = Returned (-10, g) /\ o_missed s = [FILE_FSTAB_STORAGES] /\ o_files s = []) \/
  (o = Returned (0, g) /\ exists t, o_files s = [(FILE_FSTAB_STORAGES, t)] /\ string_bytes t = expanded x y (string_bytes w)).
Proof.
  intros Hl Hx Hy He s Ht Hne Hw Hlen. set (n := S (o_entries s)).
  assert (Hwp : wpi n create_ftab_storage (fun r g' s' => o_template s' = Some (string_bytes w) -> g' = g /\
    ((r = -10 /\ o_missed s' = [FILE_FSTAB_STORAGES] /\ o_files s' = []) \/
     (r = 0 /\ exists t, o_files s' = [(FILE_FSTAB_STORAGES, t)] /\ string_bytes t = expanded x y (string_bytes w)))) g no_iobs).
  { eapply wph_ftab; [done|done|exact Hl|done|done|..]; cbn.
    - done.
    - intros [= Hb]. by destruct w.
    - intros bs _ _. split; [done|]. by left.
    - intros bs tmp _ Htmp [= ->]. split; [done|]. right. split; [done|]. eexists. split; [done|].
      destruct (expand_text x y (string_bytes w)) as (k & Hk & Hb); [done|done|by apply string_bytes_text|by rewrite length_string_bytes|].
      rewrite Hk in Htmp. injection Htmp as <-. by apply string_bytes_cstring. }
  destruct (wps_sound _ _ _ _ _ _ _ _ _ Hwp He) as [(r & g' & -> & H)|[[_ [_ Hn]]|[_ [_ (bs & Hb & Hlb)]]]].
  - destruct (H Ht) as [-> [[-> H']|[-> H']]]; [by left|by right].
  - fold (init_observed tr) in Hn. unfold n in Hn. fold s in Hn. lia.
  - fold (init_observed tr) in Hb. fold s in Hb. rewrite Ht in Hb. injection Hb as <-. rewrite length_string_bytes in Hlb. lia.
Qed.

(** ** Partitions *)

Lemma after_last_none c s : all_chars (fun a => a <> c) s -> after_last c s = None.
Proof. induction s as [|a s IH]; [done|]. intros [Ha Hs]. cbn. rewrite IH by done. by rewrite (proj2 (Ascii.eqb_neq _ _)). Qed.

Lemma after_last_app c a s t : after_last c s = Some t -> after_last c (a +:+ s)%string = Some t.
Proof.
  intros Hs. induction a as [|d a IH]; [done|].
  change (after_last c (String d (a +:+ s)%string) = Some t). cbn. by rewrite IH.
Qed.

Lemma after_last_here c s : after_last c s = None -> after_last c (String c s) = Some s.
Proof. intros Hs. cbn. by rewrite Hs, Ascii.eqb_refl. Qed.

(** The kernel's name of partition [n] of an eMMC or card, as the
    target of the link, gives [n] back. *)
Theorem part_num_of_link d n :
  0 < n < 2 ^ 31 -> part_num_of ("/dev/block/mmcblk" +:+ pretty (d : Z) +:+ "p" +:+ pretty n)%string = n.
Proof.
  intros Hn. unfold part_num_of.
  assert (Hc : contains ("/dev/block/mmcblk" +:+ pretty d +:+ "p" +:+ pretty n)%string "/mmcblk" = true).
  { unfold contains. rewrite string_bytes_app. reflexivity. }
  rewrite Hc. cbn [negb].
  assert (Hp : pretty n = pretty (Z.to_N n)) by (by destruct n as [|p|p]; [lia| |lia]).
  assert (Hnp : after_last "p"%char (pretty n) = None).
  { rewrite Hp. apply after_last_none, pretty_chars. intros k. unfold pretty_N_char. by repeat case_match. }
  assert (Hl : after_last "p"%char ("/dev/block/mmcblk" +:+ pretty d +:+ "p" +:+ pretty n)%string = Some (pretty n)).
  { do 2 apply after_last_app. by apply after_last_here. }
  rewrite Hl. cbv zeta.
  rewrite strtol_pretty by lia. cbv zeta. by rewrite (proj2 (Z.leb_gt _ _)) by lia.
Qed.

(** ** Instances *)

#[export] Instance example_init : InitH := {
  PROP_VALUE_MAX := 92;
  HAVE_DIRENT_D_TYPE := true;
  DT_REG := 8;
  MS_REMOUNT := 32;
  MS_RDONLY := 1 }.

Definition example_template : string := "/devices/msm_sdcc.1 auto auto defaults voldmanaged=%1".

(** An outside with one forced property, set to 1, in the directory; the
    world is the number of entries read. *)
Definition init_call (R : Type) (c : icall R) : nat -> R * nat :=
  match c in icall R return nat -> R * nat with
  | OpenDir _ => fun w => (Some 3, w)
  | DirFd _ => fun w => (3, w)
  | ReadDir _ => fun w =>
      (match w with
       | O => Some (mkDirent "." 4)
       | 1%nat => Some (mkDirent PERSISTENT_PROPERTY_PLANNED_SWAP 8)
       | _ => None
       end, S w)
  | OpenAt _ _ => fun w => (4, w)
  | FStat _ => fun w => (Some (mkStat 0x8180 0 0 1), w)
  | Read _ n => fun w => (if n <? 1 then None else Some [49], w)
  | CloseDir _ | Close _ | Fputs _ _ | Fclose _ | Error _ _ => fun w => (tt, w)
  | PropertySet _ _ | Mount _ _ _ _ | Symlink _ _ | Access _ => fun w => (0, w)
  | PropertyGet n => fun w => (if streq n PERSISTENT_PROPERTY_PLANNED_SWAP then (1, "1"%string) else (0, EmptyString), w)
  | Readlink _ n => fun w => (if n <? 30 then None else Some (string_bytes "/dev/block/mmcblk0p16"), w)
  | Fopen _ _ => fun w => (Some 5, w)
  | Fread n _ => fun w => (if n <? 100 then [] else string_bytes example_template, w)
  | Errno => fun w => (1, w)
  end.

Lemma init_call_ok R (c : icall R) w : resp_ok c (init_call R c w).1.
Proof.
  destruct c; cbn -[string_bytes]; try done.
  - destruct (Z.ltb_spec n 1); [done|]. split; [cbn; lia|by repeat constructor].
  - destruct (streq _ _); cbn; (split_and!; [done|done|by repeat constructor]).
  - destruct (Z.ltb_spec n 30); [done|]. split; [cbn; lia|by repeat constructor].
  - destruct (Z.ltb_spec n 100); (split; [|by repeat constructor]); [cbn; lia|].
    assert (Hl : (length (string_bytes example_template) <= 100)%nat) by (vm_compute; lia). lia.
Qed.

Definition example_trace : list (event icall) := run_trace init_call (init_msm_properties 10 statics0) 0%nat.
Definition example_statics : statics := mkStatics (plan false true 16 16) 1 0.

Lemma init_example_exec : exec (init_msm_properties 10 statics0) example_trace (Returned (tt, example_statics)).
Proof.
  assert (H : (run init_call (init_msm_properties 10 statics0) 0%nat).1 = Returned (tt, example_statics)) by (vm_compute; reflexivity).
  rewrite <- H. apply run_exec, init_call_ok.
Qed.

Lemma init_returns_witness :
  (exists g, Returned (tt, example_statics) = Returned (tt, g) /\ o_open (init_observed example_trace) = []) \/
  (Returned (tt, example_statics) = Undefined /\
   exists bs, o_template (init_observed example_trace) = Some bs /\ (1961 < length bs)%nat).
Proof. apply (init_returns 10); [apply init_example_exec|vm_compute; lia]. Defined.

Lemma forced_property_secure_witness :
  exists fd sb bs d e,
    o_open (init_observed (take 7 example_trace)) = [HFd fd PERSISTENT_PROPERTY_PLANNED_SWAP (Some sb) (Some bs); HDir d (Some e)] /\
    d_name e = PERSISTENT_PROPERTY_PLANNED_SWAP /\ regular e /\ secure sb /\ "1"%string = cstring (bs ++ [0]).
Proof.
  apply (forced_property_secure 10 example_trace _ _ _ _ 0 (drop 8 example_trace) init_example_exec).
  - vm_compute. reflexivity.
  - by apply list_elem_of_singleton.
Defined.

Lemma storages_planned_witness :
  let s := init_observed example_trace in
  exists llcon planned ctrl p q x y,
    o_gets s = [("ro.boot.llcon", llcon); (PERSISTENT_PROPERTY_PLANNED_SWAP, planned); ("ro.boot.swap_sdcc", ctrl)] /\
    o_parts s = [p; q] /\
    storage_list example_statics = plan (ext_slot ctrl) (swap_wanted planned) p q /\
    storage_list example_statics = [x; y; usb_item] /\
    emmc x + emmc y = 1 /\ sdcc x + sdcc y = 3 /\ removable x = 0 /\
    (emmc x = 1 <-> ext_slot ctrl = swap_wanted planned) /\
    (storageDescription x = STR_STORAGE_INTERNAL <-> emmc x = 1) /\
    (storageDescription y = STR_STORAGE_INTERNAL <-> emmc y = 1) /\
    last (o_sets s) = Some (PERSISTENT_PROPERTY_SWAPPED, swapped_text (swap_wanted planned)) /\
    (FILE_STORAGE_LIST ∈ o_missed s \/ (FILE_STORAGE_LIST, storage_xml (storage_list example_statics)) ∈ o_files s) /\
    fstab_done (storage_list example_statics) s.
Proof. apply (storages_planned 10), init_example_exec. Defined.

(** A longer text, one that does not fit, and a shorter one. *)
Lemma str_replace_first_witness :
  str_replace (string_bytes "a=%1." ++ replicate 3 0) "%"%char 1 "xyz" =
    Some (0, string_bytes "a=xyz." ++ replicate 2 0) /\
  str_replace (string_bytes "a=%1." ++ replicate 3 0) "%"%char 1 "xyzuvw" = None /\
  str_replace (string_bytes "a=%1." ++ replicate 3 0) "%"%char 1 "x" = Some (0, string_bytes "a=x.." ++ replicate 3 0).
Proof.
  split_and!; etrans; [apply (str_replace_first "%"%char 1 "xyz" (string_bytes "a=%1.") 2)| |
                  apply (str_replace_first "%"%char 1 "xyzuvw" (string_bytes "a=%1.") 2)| |
                  apply (str_replace_first "%"%char 1 "x" (string_bytes "a=%1.") 2)|].
  all: first [reflexivity|by repeat constructor|vm_compute; lia].
Defined.

Definition example_ftab_trace : list (event icall) := run_trace init_call (create_ftab_storage statics0) 0%nat.

Lemma fstab_expanded_witness :
  let s := init_observed example_ftab_trace in
  (Returned (0, statics0) = Returned (-10, statics0) /\ o_missed s = [FILE_FSTAB_STORAGES] /\ o_files s = []) \/
  (Returned (0, statics0) = Returned (0, statics0) /\ exists t, o_files s = [(FILE_FSTAB_STORAGES, t)] /\
     string_bytes t = expanded (planned_item false true false 0) (planned_item false false true 0) (string_bytes example_template)).
Proof.
  apply (fstab_expanded statics0 _ _ usb_item example_template example_ftab_trace).
  - reflexivity.
  - split; vm_compute; intuition discriminate.
  - split; vm_compute; intuition discriminate.
  - assert (H : (run init_call (create_ftab_storage statics0) 0%nat).1 = Returned (0, statics0)) by (vm_compute; reflexivity).
    rewrite <- H. apply run_exec, init_call_ok.
  - vm_compute. reflexivity.
  - discriminate.
  - by repeat constructor.
  - vm_compute. lia.
Defined.

Lemma part_num_of_link_witness : part_num_of "/dev/block/mmcblk0p16" = 16.
Proof. apply (part_num_of_link 0 16). lia. Defined.
