(* ===== verification/FsConfig.v ===== *)
(** * include/private/android_filesystem_config.h: users and permissions

    The users and groups, the rules for directories and files, and
    [fs_config], which the tools that build file system images call for each
    path.  A null [prefix] ends a table. *)

From Stdlib Require Import Ascii String.
From S2P Require Import Prelude Bytes CStr.

Open Scope Z_scope.

Definition AID_ROOT : Z := 0.
Definition AID_SYSTEM : Z := 1000.
Definition AID_RADIO : Z := 1001.
Definition AID_BLUETOOTH : Z := 1002.
Definition AID_GRAPHICS : Z := 1003.
Definition AID_INPUT : Z := 1004.
Definition AID_AUDIO : Z := 1005.
Definition AID_CAMERA : Z := 1006.
Definition AID_LOG : Z := 1007.
Definition AID_COMPASS : Z := 1008.
Definition AID_MOUNT : Z := 1009.
Definition AID_WIFI : Z := 1010.
Definition AID_ADB : Z := 1011.
Definition AID_INSTALL : Z := 1012.
Definition AID_MEDIA : Z := 1013.
Definition AID_DHCP : Z := 1014.
Definition AID_SDCARD_RW : Z := 1015.
Definition AID_VPN : Z := 1016.
Definition AID_KEYSTORE : Z := 1017.
Definition AID_USB : Z := 1018.
Definition AID_DRM : Z := 1019.
Definition AID_MDNSR : Z := 1020.
Definition AID_GPS : Z := 1021.
Definition AID_UNUSED1 : Z := 1022.
Definition AID_MEDIA_RW : Z := 1023.
Definition AID_MTP : Z := 1024.
Definition AID_UNUSED2 : Z := 1025.
Definition AID_DRMRPC : Z := 1026.
Definition AID_NFC : Z := 1027.
Definition AID_SDCARD_R : Z := 1028.
Definition AID_CLAT : Z := 1029.
Definition AID_LOOP_RADIO : Z := 1030.
Definition AID_MEDIA_DRM : Z := 1031.
Definition AID_PACKAGE_INFO : Z := 1032.
Definition AID_SDCARD_PICS : Z := 1033.
Definition AID_SDCARD_AV : Z := 1034.
Definition AID_SDCARD_ALL : Z := 1035.
Definition AID_AUDIT : Z := 1036.
Definition AID_FM_RADIO : Z := 1037.
Definition AID_SMARTCARD : Z := 1138.
Definition AID_THEMEMAN : Z := 1300.
Definition AID_SHELL : Z := 2000.
Definition AID_CACHE : Z := 2001.
Definition AID_DIAG : Z := 2002.
Definition AID_NET_BT_ADMIN : Z := 3001.
Definition AID_NET_BT : Z := 3002.
Definition AID_INET : Z := 3003.
Definition AID_NET_RAW : Z := 3004.
Definition AID_NET_ADMIN : Z := 3005.
Definition AID_NET_BW_STATS : Z := 3006.
Definition AID_NET_BW_ACCT : Z := 3007.
Definition AID_NET_BT_STACK : Z := 3008.
Definition AID_QCOM_ONCRPC : Z := 3009.
Definition AID_QCOM_DIAG : Z := 3010.
Definition AID_QCOM_THERMAL : Z := 3011.
Definition AID_MOT_ACCY : Z := 9000.
Definition AID_MOT_PWRIC : Z := 9001.
Definition AID_MOT_USB : Z := 9002.
Definition AID_MOT_DRM : Z := 9003.
Definition AID_MOT_TCMD : Z := 9004.
Definition AID_MOT_SEC_RTC : Z := 9005.
Definition AID_MOT_TOMBSTONE : Z := 9006.
Definition AID_MOT_TPAPI : Z := 9007.
Definition AID_MOT_SECCLKD : Z := 9008.
Definition AID_MOT_WHISPER : Z := 9009.
Definition AID_MOT_CAIF : Z := 9010.
Definition AID_MOT_DLNA : Z := 9011.
Definition AID_MOT_ATVC : Z := 9012.
Definition AID_SPRINT_EXTENSION : Z := 9013.
Definition AID_MOT_DBVC : Z := 9014.
Definition AID_MISC : Z := 9998.
Definition AID_NOBODY : Z := 9999.
Definition AID_APP : Z := 10000.
Definition AID_ISOLATED_START : Z := 99000.
Definition AID_ISOLATED_END : Z := 99999.
Definition AID_USER : Z := 100000.
Definition AID_SHARED_GID_START : Z := 50000.
Definition AID_SHARED_GID_END : Z := 59999.

Definition CAP_SETGID : Z := 6.
Definition CAP_SETUID : Z := 7.

Record android_id_info := mkId { id_name : string; aid : Z }.

Definition android_ids : list android_id_info := [
  mkId "root" AID_ROOT;
  mkId "system" AID_SYSTEM;
  mkId "radio" AID_RADIO;
  mkId "bluetooth" AID_BLUETOOTH;
  mkId "graphics" AID_GRAPHICS;
  mkId "input" AID_INPUT;
  mkId "audio" AID_AUDIO;
  mkId "camera" AID_CAMERA;
  mkId "log" AID_LOG;
  mkId "compass" AID_COMPASS;
  mkId "mount" AID_MOUNT;
  mkId "wifi" AID_WIFI;
  mkId "adb" AID_ADB;
  mkId "install" AID_INSTALL;
  mkId "media" AID_MEDIA;
  mkId "dhcp" AID_DHCP;
  mkId "sdcard_rw" AID_SDCARD_RW;
  mkId "vpn" AID_VPN;
  mkId "keystore" AID_KEYSTORE;
  mkId "usb" AID_USB;
  mkId "drm" AID_DRM;
  mkId "mdnsr" AID_MDNSR;
  mkId "gps" AID_GPS;
  mkId "media_rw" AID_MEDIA_RW;
  mkId "mtp" AID_MTP;
  mkId "drmrpc" AID_DRMRPC;
  mkId "nfc" AID_NFC;
  mkId "sdcard_r" AID_SDCARD_R;
  mkId "clat" AID_CLAT;
  mkId "loop_radio" AID_LOOP_RADIO;
  mkId "mediadrm" AID_MEDIA_DRM;
  mkId "package_info" AID_PACKAGE_INFO;
  mkId "sdcard_pics" AID_SDCARD_PICS;
  mkId "sdcard_av" AID_SDCARD_AV;
  mkId "sdcard_all" AID_SDCARD_ALL;
  mkId "shell" AID_SHELL;
  mkId "cache" AID_CACHE;
  mkId "diag" AID_DIAG;
  mkId "net_bt_admin" AID_NET_BT_ADMIN;
  mkId "net_bt" AID_NET_BT;
  mkId "inet" AID_INET;
  mkId "net_raw" AID_NET_RAW;
  mkId "net_admin" AID_NET_ADMIN;
  mkId "net_bw_stats" AID_NET_BW_STATS;
  mkId "net_bw_acct" AID_NET_BW_ACCT;
  mkId "qcom_oncrpc" AID_QCOM_ONCRPC;
  mkId "qcom_diag" AID_QCOM_DIAG;
  mkId "net_bt_stack" AID_NET_BT_STACK;
  mkId "smartcard" AID_SMARTCARD;
  mkId "qcom_thermal" AID_QCOM_THERMAL;
  mkId "fm_radio" AID_FM_RADIO;
  mkId "mot_accy" AID_MOT_ACCY;
  mkId "mot_pwric" AID_MOT_PWRIC;
  mkId "mot_usb" AID_MOT_USB;
  mkId "mot_drm" AID_MOT_DRM;
  mkId "mot_tcmd" AID_MOT_TCMD;
  mkId "mot_sec_rtc" AID_MOT_SEC_RTC;
  mkId "mot_tombstone" AID_MOT_TOMBSTONE;
  mkId "mot_tpapi" AID_MOT_TPAPI;
  mkId "mot_secclkd" AID_MOT_SECCLKD;
  mkId "mot_whisper" AID_MOT_WHISPER;
  mkId "mot_caif" AID_MOT_CAIF;
  mkId "mot_dlna" AID_MOT_DLNA;
  mkId "mot_atvc" AID_MOT_ATVC;
  mkId "sprint_extension" AID_SPRINT_EXTENSION;
  mkId "mot_dbvc" AID_MOT_DBVC;
  mkId "misc" AID_MISC;
  mkId "nobody" AID_NOBODY;
  mkId "theme_man" AID_THEMEMAN;
  mkId "audit" AID_AUDIT].

(** An octal literal of four digits. *)
Definition octal (s u g o : Z) : Z := s * 512 + u * 64 + g * 8 + o.

Record fs_path_config := mkConfig {
  mode : Z;
  uid : Z;
  gid : Z;
  capabilities : Z;
  prefix : option string }.

Definition android_dirs : list fs_path_config := [
  mkConfig (octal 0 7 7 0) AID_SYSTEM AID_CACHE 0 (Some "cache"%string);
  mkConfig (octal 0 7 7 1) AID_SYSTEM AID_SYSTEM 0 (Some "data/app"%string);
  mkConfig (octal 0 7 7 1) AID_SYSTEM AID_SYSTEM 0 (Some "data/app-private"%string);
  mkConfig (octal 0 7 7 1) AID_SYSTEM AID_SYSTEM 0 (Some "data/dalvik-cache"%string);
  mkConfig (octal 0 7 7 1) AID_SYSTEM AID_SYSTEM 0 (Some "data/data"%string);
  mkConfig (octal 0 7 7 1) AID_SHELL AID_SHELL 0 (Some "data/local/tmp"%string);
  mkConfig (octal 0 7 7 1) AID_SHELL AID_SHELL 0 (Some "data/local"%string);
  mkConfig (octal 1 7 7 1) AID_SYSTEM AID_MISC 0 (Some "data/misc"%string);
  mkConfig (octal 0 7 7 0) AID_DHCP AID_DHCP 0 (Some "data/misc/dhcp"%string);
  mkConfig (octal 0 7 7 5) AID_MEDIA_RW AID_MEDIA_RW 0 (Some "data/media"%string);
  mkConfig (octal 0 7 7 5) AID_MEDIA_RW AID_MEDIA_RW 0 (Some "data/media/Music"%string);
  mkConfig (octal 0 7 7 1) AID_SYSTEM AID_SYSTEM 0 (Some "data"%string);
  mkConfig (octal 0 7 5 0) AID_ROOT AID_SHELL 0 (Some "sbin"%string);
  mkConfig (octal 0 7 5 5) AID_ROOT AID_ROOT 0 (Some "system/addon.d"%string);
  mkConfig (octal 0 7 5 5) AID_ROOT AID_SHELL 0 (Some "system/bin"%string);
  mkConfig (octal 0 7 5 5) AID_ROOT AID_SHELL 0 (Some "system/vendor"%string);
  mkConfig (octal 0 7 5 5) AID_ROOT AID_SHELL 0 (Some "system/xbin"%string);
  mkConfig (octal 0 7 5 5) AID_ROOT AID_ROOT 0 (Some "system/etc/ppp"%string);
  mkConfig (octal 0 7 5 5) AID_ROOT AID_SHELL 0 (Some "vendor"%string);
  mkConfig (octal 0 7 7 7) AID_ROOT AID_ROOT 0 (Some "sdcard"%string);
  mkConfig (octal 0 7 5 5) AID_ROOT AID_ROOT 0 None].

Definition android_files : list fs_path_config := [
  mkConfig (octal 0 4 4 0) AID_ROOT AID_SHELL 0 (Some "system/etc/init.goldfish.rc"%string);
  mkConfig (octal 0 5 5 0) AID_ROOT AID_SHELL 0 (Some "system/etc/init.goldfish.sh"%string);
  mkConfig (octal 0 5 5 0) AID_SYSTEM AID_SYSTEM 0 (Some "system/etc/init.qcom.sdio.sh"%string);
  mkConfig (octal 0 4 4 0) AID_ROOT AID_SHELL 0 (Some "system/etc/init.trout.rc"%string);
  mkConfig (octal 0 5 5 0) AID_ROOT AID_SHELL 0 (Some "system/etc/init.ril"%string);
  mkConfig (octal 0 5 5 0) AID_ROOT AID_SHELL 0 (Some "system/etc/init.testmenu"%string);
  mkConfig (octal 0 5 5 0) AID_DHCP AID_SHELL 0 (Some "system/etc/dhcpcd/dhcpcd-run-hooks"%string);
  mkConfig (octal 0 4 4 4) AID_RADIO AID_AUDIO 0 (Some "system/etc/AudioPara4.csv"%string);
  mkConfig (octal 0 5 5 5) AID_ROOT AID_ROOT 0 (Some "system/etc/ppp/*"%string);
  mkConfig (octal 0 5 5 5) AID_ROOT AID_ROOT 0 (Some "system/etc/rc.*"%string);
  mkConfig (octal 0 7 5 5) AID_ROOT AID_ROOT 0 (Some "system/addon.d/*"%string);
  mkConfig (octal 0 6 4 4) AID_SYSTEM AID_SYSTEM 0 (Some "data/app/*"%string);
  mkConfig (octal 0 6 4 4) AID_MEDIA_RW AID_MEDIA_RW 0 (Some "data/media/*"%string);
  mkConfig (octal 0 6 4 4) AID_SYSTEM AID_SYSTEM 0 (Some "data/app-private/*"%string);
  mkConfig (octal 0 6 4 4) AID_APP AID_APP 0 (Some "data/data/*"%string);
  mkConfig (octal 0 7 5 5) AID_ROOT AID_ROOT 0 (Some "system/bin/ping"%string);
  mkConfig (octal 2 7 5 0) AID_ROOT AID_INET 0 (Some "system/bin/netcfg"%string);
  mkConfig (octal 6 7 5 5) AID_ROOT AID_ROOT 0 (Some "system/xbin/su"%string);
  mkConfig (octal 6 7 5 5) AID_ROOT AID_ROOT 0 (Some "system/xbin/librank"%string);
  mkConfig (octal 6 7 5 5) AID_ROOT AID_ROOT 0 (Some "system/xbin/procrank"%string);
  mkConfig (octal 6 7 5 5) AID_ROOT AID_ROOT 0 (Some "system/xbin/procmem"%string);
  mkConfig (octal 6 7 5 5) AID_ROOT AID_ROOT 0 (Some "system/xbin/tcpdump"%string);
  mkConfig (octal 4 7 7 0) AID_ROOT AID_RADIO 0 (Some "system/bin/pppd-ril"%string);
  mkConfig (octal 0 7 5 0) AID_ROOT AID_SHELL (Z.lor (Z.shiftl 1 CAP_SETUID) (Z.shiftl 1 CAP_SETGID)) (Some "system/bin/run-as"%string);
  mkConfig (octal 0 7 5 5) AID_ROOT AID_SHELL 0 (Some "system/bin/*"%string);
  mkConfig (octal 0 7 5 5) AID_ROOT AID_ROOT 0 (Some "system/lib/valgrind/*"%string);
  mkConfig (octal 0 7 5 5) AID_ROOT AID_SHELL 0 (Some "system/xbin/*"%string);
  mkConfig (octal 0 7 5 5) AID_ROOT AID_SHELL 0 (Some "system/vendor/bin/*"%string);
  mkConfig (octal 0 7 5 5) AID_ROOT AID_SHELL 0 (Some "vendor/bin/*"%string);
  mkConfig (octal 0 7 5 0) AID_ROOT AID_SHELL 0 (Some "sbin/*"%string);
  mkConfig (octal 0 7 5 5) AID_ROOT AID_ROOT 0 (Some "bin/*"%string);
  mkConfig (octal 0 7 5 0) AID_ROOT AID_SHELL 0 (Some "init*"%string);
  mkConfig (octal 0 7 5 0) AID_ROOT AID_SHELL 0 (Some "charger*"%string);
  mkConfig (octal 0 7 5 0) AID_ROOT AID_SHELL 0 (Some "sbin/fs_mgr"%string);
  mkConfig (octal 0 6 4 0) AID_ROOT AID_SHELL 0 (Some "fstab.*"%string);
  mkConfig (octal 0 7 5 5) AID_ROOT AID_SHELL 0 (Some "system/etc/init.d/*"%string);
  mkConfig (octal 0 6 4 4) AID_ROOT AID_ROOT 0 None].

(** [strncmp(a, b, n) == 0]. *)
Fixpoint strncmp_eq (a b : string) (n : nat) {struct n} : bool :=
  match n with
  | O => true
  | S n =>
      match a, b with
      | String x a, String y b => Ascii.eqb x y && strncmp_eq a b n
      | EmptyString, EmptyString => true
      | _, _ => false
      end
  end.

(** Whether the loop stops at a rule with this prefix; undefined for an
    empty one, whose character before the first is read. *)
Definition rule_breaks (dir : bool) (p path : string) : option bool :=
  let plen := String.length path in
  let len := String.length p in
  if dir then Some (negb (plen <? len)%nat && strncmp_eq p path len)
  else match len with
       | O => None
       | S k =>
           if (match String.get k p with Some c => Ascii.eqb c "*" | None => false end)%char
           then Some (strncmp_eq p path k)
           else Some ((plen =? len)%nat && strncmp_eq p path len)
       end.

(** [for (; pc->prefix; pc++)]: the rule at which the loop ends, undefined
    past the end of the table. *)
Fixpoint fs_loop (dir : bool) (path : string) (pcs : list fs_path_config) : option fs_path_config :=
  match pcs with
  | [] => None
  | pc :: pcs =>
      match prefix pc with
      | None => Some pc
      | Some p =>
          b ← rule_breaks dir p path;
          if (b : bool) then Some pc else fs_loop dir path pcs
      end
  end.

(** The path without the slash it may start with. *)
Definition relative (path : string) : string :=
  match path with
  | String c path' => if Ascii.eqb c "/" then path' else path
  | EmptyString => path
  end.

(** [uid], [gid], [mode] and [capabilities], given the mode so far. *)
Definition fs_config (path : string) (dir : bool) (mode0 : Z) : option (Z * Z * Z * Z) :=
  pc ← fs_loop dir (relative path) (if dir then android_dirs else android_files);
  Some (uid pc, gid pc, Z.lor (Z.land mode0 0xfffff000) (mode pc), capabilities pc).
