(* ===== verification/FsTheorems.v ===== *)
(** * Properties of the permissions

    Which rule applies, as a relation; the rules that never do; the files
    that get privileges. *)

From Stdlib Require Import Ascii String.
From S2P Require Import Prelude Bytes CStr FsConfig.

Open Scope Z_scope.

(** ** Matching *)

(** The paths a rule is for, as the comments of the tables say. *)
Definition rule_for (dir : bool) (p path : string) : Prop :=
  if dir then exists t, path = (p +:+ t)%string
  else (exists q t, p = (q +:+ "*")%string /\ path = (q +:+ t)%string) \/
       ((forall q, p <> (q +:+ "*")%string) /\ path = p).

Lemma strncmp_eq_spec a b :
  strncmp_eq a b (String.length a) = true <-> exists t, b = (a +:+ t)%string.
Proof.
  revert b. induction a as [|x a IH]; intros b; [split; intros _; [by exists b|reflexivity]|].
  destruct b as [|y b]; [by split; [|intros [t [=]]]|]. cbn [String.length strncmp_eq].
  rewrite andb_true_iff, Ascii.eqb_eq, IH. split.
  - intros (-> & t & ->). by exists t.
  - intros [t [= -> ->]]. eauto.
Qed.

Lemma strncmp_eq_app q r b : strncmp_eq (q +:+ r) b (String.length q) = strncmp_eq q b (String.length q).
Proof.
  revert b. induction q as [|x q IH]; intros b; [done|]. destruct b as [|y b]; [done|].
  cbn [String.length]. cbn. f_equal. apply IH.
Qed.

(** The last character of a text. *)
Lemma last_char p : p <> EmptyString -> exists q c, p = (q +:+ String c EmptyString)%string.
Proof.
  induction p as [|a p IH]; [done|]. intros _. destruct p as [|b p]; [by exists EmptyString, a|].
  destruct IH as (q & c & ->); [done|]. by exists (String a q), c.
Qed.

Lemma get_last q c : String.get (String.length q) (q +:+ String c EmptyString) = Some c.
Proof. induction q as [|a q IH]; [done|]. exact IH. Qed.

Lemma app_last_inj q c q' c' : (q +:+ String c EmptyString = q' +:+ String c' EmptyString)%string -> q = q' /\ c = c'.
Proof.
  intros H. assert (Hl : String.length q = String.length q').
  { apply (f_equal String.length) in H. rewrite !string_length_app in H. cbn in H. lia. }
  split; [|apply (f_equal (String.get (String.length q))) in H; rewrite get_last, Hl, get_last in H; by injection H].
  revert q' Hl H. induction q as [|a q IH]; intros [|a' q'] Hl H; try done. injection H as <- H. injection Hl as Hl.
  f_equal. by apply IH.
Qed.

Lemma rule_breaks_spec dir p path :
  p <> EmptyString -> exists b, rule_breaks dir p path = Some b /\ (b = true <-> rule_for dir p path).
Proof.
  intros Hp. destruct (last_char p Hp) as (q & c & Hq). unfold rule_breaks, rule_for. destruct dir.
  - eexists. split; [done|]. rewrite andb_true_iff, strncmp_eq_spec. split; [tauto|]. intros [t ->]. split; [|by exists t].
    rewrite string_length_app. apply negb_true_iff, Nat.ltb_ge. lia.
  - assert (Hlen : String.length p = S (String.length q)) by (rewrite Hq, string_length_app; cbn; lia).
    assert (Hget : String.get (String.length q) p = Some c) by (by rewrite Hq, get_last).
    rewrite Hlen, Hget. destruct (Ascii.eqb_spec c "*"%char) as [->|Hc].
    + eexists. split; [done|]. rewrite Hq, strncmp_eq_app, strncmp_eq_spec. split.
      * intros [t ->]. left. by exists q, t.
      * intros [(q' & t & [-> _]%app_last_inj & ->)|[H _]]; [by exists t|by destruct (H q)].
    + eexists. split; [done|]. rewrite <- Hlen, andb_true_iff, strncmp_eq_spec, Nat.eqb_eq. split.
      * intros [Hl [t ->]]. right. split; [intros q' ->; by apply app_last_inj in Hq as [_ <-]|].
        rewrite string_length_app in Hl. destruct t as [|x t]; [|cbn in Hl; lia].
        clear. induction p as [|a p IH]; [done|]. exact (f_equal (String a) IH).
      * intros [(q' & t & H & _)|[_ ->]]; [rewrite Hq in H; by apply app_last_inj in H as [_ ->]|].
        split; [done|]. exists EmptyString. clear. induction p as [|a p IH]; [done|]. exact (f_equal (String a) IH).
Qed.

(** ** The rule that applies *)

Definition fs_table (dir : bool) : list fs_path_config := if dir then android_dirs else android_files.

(** Rule [i] is for the path (or ends the table), and none before it is. *)
Definition first_rule (dir : bool) (path : string) (pcs : list fs_path_config) (i : nat) (pc : fs_path_config) : Prop :=
  pcs !! i = Some pc /\
  match prefix pc with Some p => rule_for dir p path | None => True end /\
  forall j pc', (j < i)%nat -> pcs !! j = Some pc' -> exists p, prefix pc' = Some p /\ ~ rule_for dir p path.

(** No empty prefix, and an end. *)
Definition table_ok (pcs : list fs_path_config) : bool :=
  forallb (fun pc => match prefix pc with Some p => negb (String.eqb p EmptyString) | None => true end) pcs &&
  existsb (fun pc => match prefix pc with None => true | Some _ => false end) pcs.

Lemma fs_table_ok dir : table_ok (fs_table dir) = true.
Proof. by destruct dir. Qed.

Lemma fs_loop_first dir path pcs :
  table_ok pcs = true -> exists i pc, fs_loop dir path pcs = Some pc /\ first_rule dir path pcs i pc.
Proof.
  unfold table_ok. induction pcs as [|pc pcs IH]; [done|]. cbn [forallb existsb fs_loop].
  rewrite andb_true_iff. intros [[Hp Hps]%andb_true_iff He]. destruct (prefix pc) as [p|] eqn:Hpre.
  2: { exists 0%nat, pc. split; [done|]. split; [done|]. rewrite Hpre. split; [done|lia]. }
  destruct (rule_breaks_spec dir p path) as (b & Hb & Hr); [intros ->; done|]. rewrite Hb. cbn [mbind option_bind].
  destruct b.
  - exists 0%nat, pc. split; [done|]. split; [done|]. rewrite Hpre. split; [by apply Hr|lia].
  - destruct IH as (i & pc1 & Hl & Hi & Hm & Hn); [by rewrite Hps|]. exists (S i), pc1. split; [done|].
    split; [done|]. split; [done|]. intros [|j] pc2 Hj; [|by apply Hn; lia].
    intros [= <-]. exists p. split; [done|]. by intros H%Hr.
Qed.

Lemma first_rule_unique dir path pcs i pc i' pc' :
  first_rule dir path pcs i pc -> first_rule dir path pcs i' pc' ->
  (forall j pcj, pcs !! j = Some pcj -> prefix pcj = None -> S j = length pcs) -> i = i'.
Proof.
  intros (Hi & Hm & Hn) (Hi' & Hm' & Hn') Hend. destruct (Nat.lt_trichotomy i i') as [H|[H|H]]; [|done|].
  - destruct (Hn' i pc H Hi) as (p & Hp & Hr). by rewrite Hp in Hm.
  - destruct (Hn i' pc' H Hi') as (p & Hp & Hr). by rewrite Hp in Hm'.
Qed.

(** The file type is kept, the permissions are the rule's. *)
Lemma mode_bits m0 m : 0 <= m0 < 2 ^ 32 -> 0 <= m < 4096 -> Z.lor (Z.land m0 0xfffff000) m = m0 / 4096 * 4096 + m.
Proof.
  intros H0 Hm. assert (Hd : Z.land m0 0xfffff000 = Z.shiftl (Z.shiftr m0 12) 12).
  { change 0xfffff000 with (Z.shiftl (Z.ones 20) 12).
    apply Z.bits_inj'. intros k Hk. rewrite Z.land_spec, !Z.shiftl_spec by done.
    destruct (Z.ltb_spec k 12) as [Hlt|Hge].
    - rewrite !(Z.testbit_neg_r _ (k - 12)) by lia. apply andb_false_r.
    - rewrite Z.shiftr_spec by lia. replace (k - 12 + 12) with k by lia.
      destruct (Z.ltb_spec (k - 12) 20) as [H|H]; [by rewrite Z.ones_spec_low, andb_true_r by lia|].
      rewrite Z.ones_spec_high, andb_false_r by lia. symmetry. apply Z.testbit_false; [lia|].
      rewrite Z.div_small; [done|]. split; [lia|]. apply (Z.lt_le_trans _ (2 ^ 32)); [lia|]. apply Z.pow_le_mono_r; lia. }
  rewrite Hd, Z.shiftl_mul_pow2, Z.shiftr_div_pow2 by lia. by apply (lor_mul_pow2 _ _ 12).
Qed.

Definition fs_modes_ok (pcs : list fs_path_config) : bool :=
  forallb (fun pc => (0 <=? mode pc) && (mode pc <? 4096)) pcs.

Lemma fs_mode dir i pc : fs_table dir !! i = Some pc -> 0 <= mode pc < 4096.
Proof.
  intros Hi. assert (Hok : fs_modes_ok (fs_table dir) = true) by (by destruct dir).
  unfold fs_modes_ok in Hok. rewrite forallb_forall in Hok.
  assert (Hin : In pc (fs_table dir)) by (apply list_elem_of_In; by eapply list_elem_of_lookup_2).
  specialize (Hok pc Hin). apply andb_true_iff in Hok as [H1%Z.leb_le H2%Z.ltb_lt]. lia.
Qed.

Lemma fs_config_rule path dir m0 :
  0 <= m0 < 2 ^ 32 ->
  exists i pc, fs_loop dir (relative path) (fs_table dir) = Some pc /\ first_rule dir (relative path) (fs_table dir) i pc /\
    fs_config path dir m0 = Some (uid pc, gid pc, m0 / 4096 * 4096 + mode pc, capabilities pc).
Proof.
  intros Hm. destruct (fs_loop_first dir (relative path) (fs_table dir) (fs_table_ok dir)) as (i & pc & Hl & Hf).
  exists i, pc. split; [done|]. split; [done|]. unfold fs_config. change (if dir then _ else _) with (fs_table dir).
  rewrite Hl. cbn [mbind option_bind]. rewrite mode_bits; [done|done|]. destruct Hf as [Hi _]. by eapply fs_mode.
Qed.

(** C28. fs_config is total, and what it gives is what the first rule for
    the path says, where a rule for directories is for the paths that its
    prefix begins, a rule for files ending in * for those that the rest of
    it begins, and any other for the one path: its owner, group and
    capabilities, and its permissions with the file type left alone. *)
Theorem fs_config_first_rule path dir m0 :
  0 <= m0 < 2 ^ 32 ->
  exists i pc, first_rule dir (relative path) (fs_table dir) i pc /\
    fs_config path dir m0 = Some (uid pc, gid pc, m0 / 4096 * 4096 + mode pc, capabilities pc).
Proof. intros Hm. destruct (fs_config_rule path dir m0 Hm) as (i & pc & _ & H). by exists i, pc. Qed.

(** ** Privileges *)

(** Set-user-id or set-group-id, or capabilities. *)
Definition privileged (m caps : Z) : Prop := m / 1024 mod 4 <> 0 \/ caps <> 0.

Definition privileged_files : list string :=
  ["system/bin/netcfg"; "system/xbin/su"; "system/xbin/librank"; "system/xbin/procrank"; "system/xbin/procmem";
   "system/xbin/tcpdump"; "system/bin/pppd-ril"; "system/bin/run-as"]%string.

Definition rule_privileged (pc : fs_path_config) : bool :=
  negb (mode pc / 1024 mod 4 =? 0) || negb (capabilities pc =? 0).

Lemma rule_privileged_spec pc : privileged (mode pc) (capabilities pc) <-> rule_privileged pc = true.
Proof. unfold rule_privileged, privileged. by rewrite orb_true_iff, !negb_true_iff, !Z.eqb_neq. Qed.

Lemma listed_privileged p : p ∈ privileged_files -> (rule_privileged <$> fs_loop false p android_files) = Some true.
Proof.
  assert (H : Forall (fun p => (rule_privileged <$> fs_loop false p android_files) = Some true) privileged_files).
  { repeat (constructor; [vm_compute; reflexivity|]). constructor. }
  rewrite Forall_forall in H. apply H.
Qed.

Lemma privileged_bits a m c : 0 <= m < 4096 -> privileged (a * 4096 + m) c <-> privileged m c.
Proof.
  intros Hm. unfold privileged. replace ((a * 4096 + m) / 1024 mod 4) with (m / 1024 mod 4); [done|].
  replace (a * 4096 + m) with (m + (4 * a) * 1024) by lia. rewrite Z.div_add by lia.
  replace (m / 1024 + 4 * a) with (m / 1024 + a * 4) by lia. by rewrite Z_mod_plus_full.
Qed.

(** The privileged rules are for exactly the files listed. *)
Definition rules_listed (dir : bool) (pc : fs_path_config) : bool :=
  negb (rule_privileged pc) ||
  match prefix pc with
  | Some p => negb dir && bool_decide (p ∈ privileged_files)
  | None => false
  end.

Lemma rules_listed_all dir pc : pc ∈ fs_table dir -> rules_listed dir pc = true.
Proof.
  intros Hp%list_elem_of_In. assert (H : forallb (rules_listed dir) (fs_table dir) = true) by (by destruct dir; vm_compute).
  rewrite forallb_forall in H. by apply H.
Qed.

Lemma no_star p q : p ∈ privileged_files -> p <> (q +:+ "*")%string.
Proof.
  intros Hp ->. assert (H : Forall (fun p => String.get (String.length p - 1) p <> Some "*"%char) privileged_files).
  { repeat (constructor; [vm_compute; discriminate|]). constructor. }
  rewrite Forall_forall in H. apply (H _ Hp). rewrite string_length_app. change (String.length "*") with 1%nat.
  replace (String.length q + 1 - 1)%nat with (String.length q) by lia. apply get_last.
Qed.

(** C18. Exactly eight files are set-user-id, set-group-id or have
    capabilities, whatever the mode before, and no directory is: the seven
    that the comments of the table announce (netcfg, "the following five
    files", and run-as), and system/bin/pppd-ril, a set-user-id row after
    those five that no comment announces. *)
Theorem privileged_files_listed path dir m0 u g m c :
  0 <= m0 < 2 ^ 32 -> fs_config path dir m0 = Some (u, g, m, c) ->
  privileged m c <-> dir = false /\ relative path ∈ privileged_files.
Proof.
  intros Hm Hf. destruct (fs_config_rule path dir m0 Hm) as (i & pc & Hl & (Hi & Hr & Hn) & Hc).
  rewrite Hc in Hf. injection Hf as _ _ <- <-. rewrite privileged_bits by (by eapply fs_mode). split.
  - intros Hp. pose proof (rules_listed_all dir pc (list_elem_of_lookup_2 _ _ _ Hi)) as Hls. unfold rules_listed in Hls.
    apply rule_privileged_spec in Hp as Hb.
    rewrite Hb in Hls. destruct (prefix pc) as [p|]; [|done]. apply andb_true_iff in Hls as [Hd Hp'%bool_decide_eq_true].
    destruct dir; [done|]. split; [done|]. destruct Hr as [(q & t & Hq & _)|[_ ->]]; [|done]. by destruct (no_star _ q Hp').
  - intros [-> Hp]. apply rule_privileged_spec. pose proof (listed_privileged _ Hp) as H.
    change android_files with (fs_table false) in H. rewrite Hl in H. by injection H.
Qed.

(** ** Rules that never apply *)

(** The rules whose paths are all taken by an earlier rule: for
    directories data/app-private, data/misc/dhcp and data/media/Music, for
    files sbin/fs_mgr. *)
Definition shadowed (dir : bool) : list nat := if dir then [2; 8; 10]%nat else [33]%nat.

(** A path for a rule: the shortest one it is for. *)
Definition sample (pc : fs_path_config) : string :=
  match prefix pc with
  | Some p =>
      let k := (String.length p - 1)%nat in
      if decide (String.get k p = Some "*"%char) then String.substring 0 k p else p
  | None => EmptyString
  end.

(** The index at which the loop ends. *)
Fixpoint fs_index (dir : bool) (path : string) (pcs : list fs_path_config) : option nat :=
  match pcs with
  | [] => None
  | pc :: pcs =>
      match prefix pc with
      | None => Some O
      | Some p =>
          b ← rule_breaks dir p path;
          if (b : bool) then Some O else S <$> fs_index dir path pcs
      end
  end.

Lemma fs_index_first dir path pcs i :
  forallb (fun pc => match prefix pc with Some p => negb (String.eqb p EmptyString) | None => true end) pcs = true ->
  fs_index dir path pcs = Some i -> exists pc, first_rule dir path pcs i pc.
Proof.
  revert i. induction pcs as [|pc pcs IH]; intros i; [done|]. cbn [forallb fs_index]. intros [Hp Hps]%andb_true_iff.
  destruct (prefix pc) as [p|] eqn:Hpre.
  2: { intros [= <-]. exists pc. split; [done|]. rewrite Hpre. split; [done|lia]. }
  destruct (rule_breaks_spec dir p path) as (b & Hb & Hr); [by intros ->|]. rewrite Hb. cbn [mbind option_bind]. destruct b.
  - intros [= <-]. exists pc. split; [done|]. rewrite Hpre. split; [by apply Hr|lia].
  - destruct (fs_index dir path pcs) as [k|] eqn:Hk; [|done]. intros [= <-].
    destruct (IH k Hps eq_refl) as (pc1 & Hi & Hm & Hn). exists pc1. split; [done|]. split; [done|].
    intros [|j] pc2 Hj; [|by apply Hn; lia]. intros [= <-]. exists p. split; [done|]. by intros H%Hr.
Qed.

Definition samples_reach (dir : bool) : bool :=
  forallb (fun i => bool_decide (i ∈ shadowed dir) ||
    match fs_table dir !! i with
    | Some pc => bool_decide (fs_index dir (sample pc) (fs_table dir) = Some i)
    | None => false
    end) (seq 0 (length (fs_table dir))).

(** A rule for directories takes what a longer one is for, and so does one
    for files that ends in a star. *)
Lemma dir_shadows p t path : rule_for true (p +:+ t) path -> rule_for true p path.
Proof. intros [u ->]. exists (t +:+ u)%string. clear. induction p as [|a p IH]; [reflexivity|]. exact (f_equal (String a) IH). Qed.

(** A rule applies to some path exactly when it is not one of the four
    listed as shadowed: the order of the tables makes those four dead. *)
Theorem rules_reached dir i :
  (i < length (fs_table dir))%nat ->
  (exists path pc, first_rule dir path (fs_table dir) i pc) <-> i ∉ shadowed dir.
Proof.
  intros Hi. split.
  - intros (path & pc & Hpc & Hr & Hn) Hs. destruct dir; cbn [shadowed] in Hs.
    + assert (Hdead : forall j pcj p t, (j < i)%nat -> fs_table true !! j = Some pcj -> prefix pcj = Some p ->
        prefix pc = Some (p +:+ t)%string -> False).
      { intros j pcj p t Hj Hpj Hp Hpp. rewrite Hpp in Hr. destruct (Hn j pcj Hj Hpj) as (p' & Hp' & Hno).
        rewrite Hp in Hp'. injection Hp' as <-. by apply Hno, dir_shadows with t. }
      rewrite !elem_of_cons in Hs. destruct Hs as [->|[->|[->|Hs%elem_of_nil]]]; [..|done]; cbn in Hpc; injection Hpc as <-.
      * by eapply (Hdead 1%nat _ "data/app"%string "-private"%string); [lia|..].
      * by eapply (Hdead 7%nat _ "data/misc"%string "/dhcp"%string); [lia|..].
      * by eapply (Hdead 9%nat _ "data/media"%string "/Music"%string); [lia|..].
    + apply list_elem_of_singleton in Hs as ->. cbn in Hpc. injection Hpc as <-. cbn in Hr.
      destruct (Hn 29%nat _ ltac:(lia) eq_refl) as (p & [= <-] & Hno).
      destruct Hr as [(q & t & Hq & _)|[_ ->]]; [|apply Hno; left; by exists "sbin/"%string, "fs_mgr"%string].
      by apply (app_last_inj "sbin/fs_mg"%string "r"%char) in Hq as [_ ?].
  - intros Hs. exists (default EmptyString (sample <$> fs_table dir !! i)).
    assert (Hall : samples_reach dir = true) by (by destruct dir; vm_compute).
    unfold samples_reach in Hall. rewrite forallb_forall in Hall. specialize (Hall i).
    rewrite in_seq in Hall. specialize (Hall ltac:(lia)). rewrite bool_decide_false in Hall by done. cbn [orb] in Hall.
    destruct (fs_table dir !! i) as [pc|]; [|done]. apply bool_decide_eq_true in Hall. cbn.
    eapply fs_index_first; [by destruct dir|exact Hall].
Qed.

(** ** Users *)

(** No two users have the same name or the same number. *)
Lemma android_ids_unique : NoDup (id_name <$> android_ids) /\ NoDup (aid <$> android_ids).
Proof. split; apply (bool_decide_unpack _); vm_compute; exact I. Qed.

(** ** Instances *)

Lemma fs_config_first_rule_witness :
  exists i pc, first_rule true "data/misc/dhcp" android_dirs i pc /\
    fs_config "/data/misc/dhcp" true 0x41c0 = Some (uid pc, gid pc, 0x41c0 / 4096 * 4096 + mode pc, capabilities pc).
Proof. apply (fs_config_first_rule "/data/misc/dhcp" true 0x41c0). lia. Defined.

(** The run-as tool. *)
Lemma privileged_files_listed_witness :
  privileged 0x81e8 0xc0 <-> false = false /\ relative "/system/bin/run-as" ∈ privileged_files.
Proof. apply (privileged_files_listed "/system/bin/run-as" false 0x8000 AID_ROOT AID_SHELL); [lia|vm_compute; reflexivity]. Defined.

Lemma rules_reached_witness : (exists path pc, first_rule true path android_dirs 8 pc) <-> 8%nat ∉ shadowed true.
Proof. apply (rules_reached true 8). cbn. lia. Defined.

