(* ===== verification/ViewMem.v ===== *)
(** * viewmem/viewmem.c: printing physical memory

    [main] as a program of calls.  A pointer into the mapping is an offset
    from its start; [VLoad] reads a word there, and a load that is not
    inside the mapping is undefined.  [unsigned long] has 32 bits, the
    bytes of a word are stored from the least significant one, and a word
    may start at any byte, as on the ARM target (BoardConfig.mk). *)

From Stdlib Require Import Ascii String.
From S2P Require Import Prelude Bytes Prog CStr.

Open Scope Z_scope.

Definition sizeof_long : Z := 4.
Definition ULONG_MAX : Z := 2 ^ 32 - 1.

(** [VStrerror e]: [strerror(e)]. *)
Inductive varg := VZ (z : Z) | VS (s : string) | VStrerror (e : Z).

(** [VInfo] and [VErr]: the macros INFO and ERR, on stderr. *)
Inductive vcall : Type -> Type :=
| VInfo (fmt : string) (args : list varg) : vcall unit
| VErr (fmt : string) (args : list varg) : vcall unit
| VErrno : vcall Z
| VOpen (path : string) : vcall Z
| VMmap (len fd off : Z) : vcall bool
| VLoad (off : Z) : vcall Z
| VFwrite (bytes : list Z) : vcall unit
| VMunmap (len : Z) : vcall unit
| VClose (fd : Z) : vcall unit.

#[export] Instance view_calls : Syscalls vcall := fun R c =>
  match c in vcall R return R -> Prop with
  | VOpen _ => fun fd => -1 <= fd < 2 ^ 31
  | VLoad _ => fun w => 0 <= w < 2 ^ 32
  | _ => fun _ => True
  end.

Abbreviation view := (prog vcall).

(** [MAX(x, y)] *)
Definition MAX (x y : Z) : Z := if x >? y then x else y.

(** A hexadecimal digit. *)
Definition is_hex (s : string) : bool :=
  match s with
  | String c _ => match digit_val c with Some d => d <? 16 | None => false end
  | EmptyString => false
  end.

(** [%lx]: white space, a sign, perhaps another [0x], digits; [None] when
    there is no digit. *)
Definition scan_lx (s : string) : option Z :=
  let '(neg, s) := sign (skip_space s) in
  if is_hex s then
    let v := digits 16 (detect_base 16 s).2 0 in
    Some (if v >? ULONG_MAX then ULONG_MAX else if neg : bool then u32 (- v) else v)
  else None.

(** [sscanf(s, "0x%lx", &x)]: the value when it returns 1. *)
Definition sscanf_0x (s : string) : option Z :=
  match s with
  | String "0"%char (String "x"%char s) => scan_lx s
  | _ => None
  end.

Section View.
(** [getpagesize()]. *)
Variable pagesize : Z.

(** [x & ~(getpagesize()-1)]. *)
Definition page_of (x : Z) : Z := Z.land x (u32 (Z.lnot (pagesize - 1))).

(** [*(unsigned long* )(buf + off)] for a mapping of [len] bytes. *)
Definition load_word (len off : Z) : view Z :=
  if off + sizeof_long <=? len then call (VLoad off) else undef.

(** The loop; [off0] is [addr-newaddr]. *)
Fixpoint view_loop (n : nat) (len off0 i size : Z) : view unit :=
  match n with
  | O => OutOfFuel
  | S n =>
      if i <? size then
        w ← load_word len (off0 + i);
        call (VFwrite (le32 w));;
        view_loop n len off0 (u32 (i + sizeof_long)) size
      else Ret tt
  end.

Definition view_memory (addr size : Z) (path : string) : view Z :=
  call (VInfo "Reading %ld bytes at 0x%lx...\n" [VZ (i32 size); VZ addr]);;
  fd ← call (VOpen path);
  if fd =? 0 then
    e ← call VErrno;
    call (VErr "Couldn't open /dev/mem! (%s)\n" [VStrerror e]);;
    Ret (-1)
  else
    let newaddr := page_of addr in
    let len := MAX pagesize (page_of size) in
    ok ← call (VMmap len fd newaddr);
    if ok : bool then
      view_loop (S (Z.to_nat size)) len (addr - newaddr) 0 size;;
      call (VMunmap size);;
      call (VClose fd);;
      Ret 0
    else
      e ← call VErrno;
      call (VErr "Couldn't map 0x%lx (%d %s)!\n" [VZ addr; VZ e; VStrerror e]);;
      call (VClose fd);;
      Ret (-1).

Definition main (argv : list string) : view Z :=
  match argv !! 1%nat ≫= sscanf_0x with
  | None =>
      call (VErr "Wrong arguments!\n" []);;
      call (VInfo "%s <0xABCDEF> [0x10] [/dev/kmem]\n" [VS (default "(null)"%string (argv !! 0%nat))]);;
      Ret (-1)
  | Some addr =>
      match (match argv !! 2%nat with Some s => sscanf_0x s | None => Some sizeof_long end) with
      | None =>
          call (VErr "Wrong size format!\n" []);;
          Ret (-1)
      | Some size => view_memory addr size (default "/dev/mem"%string (argv !! 3%nat))
      end
  end.

End View.
