(* ===== verification/ViewMemTheorems.v ===== *)
(** * Properties of viewmem

    What [main] prints, and when it reads outside of its mapping. *)

From Stdlib Require Import Ascii String.
From S2P Require Import Prelude Bytes Prog CStr ViewMem.

Open Scope Z_scope.

(** ** What is observed of a run *)

(** What was mapped (where, how much), the words that were read, with their
    offsets, and what was printed. *)
Record vobs := mkVobs { vo_map : option (Z * Z); vo_loads : list (Z * Z); vo_out : list Z }.

Definition no_vobs : vobs := mkVobs None [] [].

Definition view_step (s : vobs) (e : event vcall) : vobs :=
  match e with
  | Ev c r =>
      match c in vcall R return R -> vobs with
      | VMmap len _ off => fun ok => if ok : bool then mkVobs (Some (off, len)) (vo_loads s) (vo_out s) else s
      | VLoad off => fun w => mkVobs (vo_map s) (vo_loads s ++ [(off, w)]) (vo_out s)
      | VFwrite bytes => fun _ => mkVobs (vo_map s) (vo_loads s) (vo_out s ++ bytes)
      | _ => fun _ => s
      end r
  end.

Definition view_observed (tr : list (event vcall)) : vobs := fold_left view_step tr no_vobs.

(** ** Numbers *)

Lemma scan_lx_range s v : scan_lx s = Some v -> 0 <= v < 2 ^ 32.
Proof.
  assert (Hd : forall b s acc, 0 <= b -> 0 <= acc -> 0 <= digits b s acc).
  { intros b t. induction t as [|c t IH]; intros acc Hb Ha; [done|]. cbn [digits]. destruct (digit_val c) as [d|] eqn:Hc; [|done].
    destruct (d <? b); [|done]. apply IH; [done|]. revert Hc. unfold digit_val. repeat case_match; intros [= <-]; nia. }
  unfold scan_lx. destruct (sign _) as [neg t]. destruct (is_hex t); [|done]. intros [= <-].
  specialize (Hd 16 (detect_base 16 t).2 0 ltac:(lia) ltac:(lia)). unfold ULONG_MAX, u32.
  destruct (Z.gtb_spec (digits 16 (detect_base 16 t).2 0) (2 ^ 32 - 1)); [lia|]. destruct neg; [by apply Z.mod_pos_bound|lia].
Qed.

Lemma sscanf_0x_range s v : sscanf_0x s = Some v -> 0 <= v < 2 ^ 32.
Proof.
  unfold sscanf_0x. destruct s as [|c s]; [done|]. repeat case_match; try done. apply scan_lx_range.
Qed.

Section View.
Variables (pagesize k : Z).
Hypothesis Hk : 2 <= k <= 30.
Hypothesis Hp : pagesize = 2 ^ k.

Lemma page_of_spec x : 0 <= x < 2 ^ 32 -> page_of pagesize x = x - x mod pagesize.
Proof.
  intros Hx. unfold page_of, u32. rewrite <- (Z.land_ones _ 32) by lia. rewrite Z.land_comm, <- Z.land_assoc, (Z.land_comm _ x).
  rewrite (Z.land_ones x 32), (Z.mod_small x) by lia. rewrite Hp.
  replace (2 ^ k - 1) with (Z.ones k) by (rewrite Z.ones_equiv; lia). rewrite Z.land_comm.
  change (Z.land x (Z.lnot (Z.ones k))) with (Z.ldiff x (Z.ones k)) || rewrite <- Z.ldiff_land.
  rewrite Z.ldiff_ones_r, Z.shiftl_mul_pow2, Z.shiftr_div_pow2 by lia. pose proof (Z.div_mod x (2 ^ k)). lia.
Qed.
(** ** The loop *)

(** The offsets of [n] words. *)
Definition offsets (off : Z) (n : nat) : list Z := (fun m => off + 4 * Z.of_nat m) <$> seq 0 n.

(** The words [ws] were read from [off] on and printed. *)
Definition printed (s : vobs) (off : Z) (ws : list Z) (s' : vobs) : Prop :=
  s' = mkVobs (vo_map s) (vo_loads s ++ zip (offsets off (length ws)) ws) (vo_out s ++ concat (le32 <$> ws)).

Lemma offsets_S off n : offsets off (S n) = off :: offsets (off + 4) n.
Proof.
  unfold offsets. cbn [seq fmap list_fmap]. f_equal; [lia|]. rewrite <- fmap_S_seq, <- list_fmap_compose.
  apply list_fmap_ext. intros i m _. simpl. lia.
Qed.

Lemma printed_nil s off : printed s off [] s.
Proof. unfold printed. simpl. rewrite !app_nil_r. by destruct s. Qed.

Lemma printed_cons s off w ws s' :
  printed (mkVobs (vo_map s) (vo_loads s ++ [(off, w)]) (vo_out s ++ le32 w)) (off + 4) ws s' -> printed s off (w :: ws) s'.
Proof. unfold printed. intros ->. cbn [length fmap list_fmap concat]. rewrite offsets_S. simpl. by rewrite <- !app_assoc. Qed.

(** From the word [j] on, [r] words are left. *)
Lemma wp_view_loop r n len off0 j size s :
  (r < n)%nat -> 0 <= j -> 0 <= off0 -> 0 <= size -> len < 2 ^ 32 -> Z.of_nat r = Z.max 0 ((size + 3) / 4 - j) ->
  wp view_step (view_loop n len off0 (4 * j) size) (fun o s' => exists ws, printed s (off0 + 4 * j) ws s' /\
    (o = Returned tt /\ length ws = r /\ (r = 0%nat \/ off0 + 4 * (j + Z.of_nat r) <= len) \/
     o = Undefined /\ (length ws < r)%nat /\ len < off0 + 4 * (j + Z.of_nat (length ws)) + 4)) s.
Proof.
  pose proof (Z.div_mod (size + 3) 4 ltac:(lia)) as Hd. pose proof (Z.mod_pos_bound (size + 3) 4 ltac:(lia)) as Hm.
  revert n j s. induction r as [|r IH]; intros n j s Hn Hj Ho Hs Hl Hr; (destruct n as [|n]; [lia|]); cbn [view_loop].
  - replace (4 * j <? size) with false by (symmetry; apply Z.ltb_ge; lia).
    exists []. split; [apply printed_nil|]. left. split_and!; [done|done|by left].
  - replace (4 * j <? size) with true by (symmetry; apply Z.ltb_lt; lia). unfold load_word, sizeof_long.
    destruct (Z.leb_spec (off0 + 4 * j + 4) len) as [Hle|Hgt].
    + intros w _ [] _. unfold u32. rewrite Z.mod_small by lia. replace (4 * j + 4) with (4 * (j + 1)) by lia.
      eapply wp_mono; [|apply (IH n (j + 1)); lia]. intros o s' (ws & Hp' & Ho'). exists (w :: ws). split.
      * apply printed_cons. by replace (off0 + 4 * j + 4) with (off0 + 4 * (j + 1)) by lia.
      * cbn [length]. destruct Ho' as [(-> & <- & H)|(-> & H1 & H2)]; [left|right]; (split_and!; [done|lia|lia]).
    + exists []. split; [apply printed_nil|]. right. cbn [length]. split_and!; [done|lia|lia].
Qed.

(** ** The program *)

(** The words to print, and the bytes that are mapped. *)
Definition words_of (size : Z) : nat := Z.to_nat ((size + 3) / 4).
Definition mapped (size : Z) : Z := Z.max pagesize (size - size mod pagesize).

(** What a run gives that printed the words [ws]. *)
Definition view_done (addr size : Z) (o : result Z) (v : vobs) : Prop := exists ws,
  vo_map v = Some (addr - addr mod pagesize, mapped size) /\
  vo_loads v = zip (offsets (addr mod pagesize) (length ws)) ws /\ vo_out v = concat (le32 <$> ws) /\
  if decide (addr mod pagesize + 4 * Z.of_nat (words_of size) <= mapped size)
  then o = Returned 0 /\ length ws = words_of size
  else o = Undefined /\ (length ws < words_of size)%nat.

Lemma wp_view_memory addr size path :
  0 <= addr < 2 ^ 32 -> 0 <= size < 2 ^ 32 ->
  wp view_step (view_memory pagesize addr size path)
    (fun o v => o = Returned (-1) /\ v = no_vobs \/ view_done addr size o v) no_vobs.
Proof.
  intros Ha Hs. unfold view_memory. rewrite prog_bind_call1. intros [] _. rewrite prog_bind_call1. intros fd _.
  cbv beta. destruct (fd =? 0); [by intros e _ [] _; left|].
  cbv zeta. rewrite prog_bind_call1. intros [] _; cbv iota beta; [|by intros e _ [] _ [] _; left].
  assert (Hpp : 4 <= pagesize <= 2 ^ 30).
  { rewrite Hp. split; [change 4 with (2 ^ 2)|]; apply Z.pow_le_mono_r; lia. }
  pose proof (Z.mod_pos_bound addr pagesize ltac:(lia)) as Hma. pose proof (Z.mod_pos_bound size pagesize ltac:(lia)) as Hms.
  pose proof (Z.div_mod size pagesize ltac:(lia)) as Hds. pose proof (Z.div_pos size pagesize ltac:(lia) ltac:(lia)) as Hdp.
  assert (Hlen : MAX pagesize (page_of pagesize size) = mapped size).
  { unfold MAX, mapped. rewrite page_of_spec by done. destruct (Z.gtb_spec pagesize (size - size mod pagesize)); lia. }
  rewrite Hlen, page_of_spec by done. replace (addr - (addr - addr mod pagesize)) with (addr mod pagesize) by lia.
  assert (Hml : mapped size < 2 ^ 32) by (unfold mapped; lia).
  assert (H4 : 0 <= (size + 3) / 4 <= size) by (split; [apply Z.div_pos; lia|]; destruct (decide (size = 0)) as [->|]; [done|apply Z.div_le_upper_bound; lia]).
  apply wp_bind. eapply wp_mono; [|apply (wp_view_loop (words_of size) _ _ _ 0); unfold words_of; lia].
  intros o s' (ws & -> & H). rewrite Z.add_0_r in *.
  destruct H as [(-> & Hl & Hf)|(-> & Hl & Hf)]; cbn [then_].
  - intros [] _ [] _. right. exists ws. split_and!; [done|done|done|].
    rewrite decide_True; [done|]. destruct Hf as [Hz|Hf]; [rewrite Hz; unfold mapped; lia|lia].
  - right. exists ws. split_and!; [done|done|done|]. rewrite decide_False; [done|lia].
Qed.

(** C40. viewmem prints the bytes of the words from the address on, as many
    words as the size needs, exactly when they lie inside the pages it
    maps; when they do not (the mapping ends at the last whole page of the
    size, and does not count the distance of the address from its page) it
    reads outside of the mapping, after it printed what was inside.
    Otherwise it returns -1 and prints nothing. *)
Theorem view_prints argv addr size tr o :
  argv !! 1%nat ≫= sscanf_0x = Some addr ->
  match argv !! 2%nat with Some s => sscanf_0x s | None => Some sizeof_long end = Some size ->
  exec (main pagesize argv) tr o ->
  let v := view_observed tr in o = Returned (-1) /\ v = no_vobs \/ view_done addr size o v.
Proof.
  intros Ha Hs He. unfold main in He. rewrite Ha, Hs in He. refine (wp_sound view_step _ _ _ _ _ (wp_view_memory _ _ _ _ _) He).
  - destruct (argv !! 1%nat) as [a|]; [|done]. by eapply sscanf_0x_range.
  - destruct (argv !! 2%nat) as [a|]; [by eapply sscanf_0x_range|]. injection Hs as <-. unfold sizeof_long. lia.
Qed.

End View.

(** ** Instances *)

(** A memory that holds the offset of every word. *)
Definition view_call R (c : vcall R) (w : unit) : R * unit :=
  match c in vcall R return R * unit with
  | VErrno => (5, w)
  | VOpen _ => (3, w)
  | VMmap _ _ _ => (true, w)
  | VLoad off => (u32 off, w)
  | VInfo _ _ | VErr _ _ | VFwrite _ | VMunmap _ | VClose _ => (tt, w)
  end.

Lemma view_call_ok R (c : vcall R) w : resp_ok c (view_call R c w).1.
Proof. destruct c; try done. by apply Z.mod_pos_bound. Qed.

Lemma view_exec argv : exec (main 4096 argv) (run_trace view_call (main 4096 argv) tt) (run view_call (main 4096 argv) tt).1.
Proof. apply run_exec, view_call_ok. Qed.

Definition ex_args : list string := ["viewmem"; "0x1008"; "0x8"]%string.

(** Eight bytes inside a page. *)
Lemma view_prints_witness :
  view_done 4096 0x1008 8 (Returned 0) (view_observed (run_trace view_call (main 4096 ex_args) tt)).
Proof.
  destruct (view_prints 4096 12 ltac:(lia) eq_refl ex_args 0x1008 8 _ _ eq_refl eq_refl (view_exec ex_args)) as [[H _]|H].
  - exfalso. vm_compute in H. discriminate.
  - exact H.
Defined.

Example view_inside : run view_call (main 4096 ex_args) tt = (Returned 0, tt).
Proof. by vm_compute. Qed.

(** Eight bytes across the end of a page: the second word is outside. *)
Example view_across : run view_call (main 4096 ["viewmem"; "0x1ffc"; "0x8"]%string) tt = (Undefined, tt).
Proof. by vm_compute. Qed.
